(* ===== verification/_CoqProject ===== *)
-Q . S2P
Prelude.v
MathUtils.v
Testing.v
MathTests.v
Soroban.v
History.v
World.v
Escrow.v
CreditTypes.v
AuctionCurves.v
AuctionStorage.v
Auction.v
CreditEvents.v
Support.v
CreditStorage.v
CreditState.v
Accrual.v
Collateral.v
Fees.v
Freeze.v
Oracles.v
Scoring.v
Risk.v
Lifecycle.v
Views.v
CreditContract.v
CreditCalls.v
CreditQueries.v
CreditTesting.v
CreditLedger.v
CreditMoves.v
CreditInvariant.v
Scenario.v
CreditTheorems.v
CreditSafety.v
Pagination.v
DrawRepay.v
AccrualExact.v
PriceTheorems.v
CreditTests.v
CreditFlowTests.v
LifecycleTests.v
RateTests.v
RiskTheorems.v
Milestones.v
Crowdpay.v
Vault.v
RiskAdmin.v
Treasury.v
AdminTheorems.v
EscrowTheorems.v
MilestonesTheorems.v
CrowdpayTheorems.v
AuctionTheorems.v
Harness.v
Composition.v
Custody.v
Governance.v
Attestation.v
Exit.v
Settlement.v
ViewTheorems.v
Configuration.v
CwState.v
CwRates.v
CwOracles.v
CwCollateral.v
CwViews.v
CwCredit.v
CwUnitTests.v
CwMigrate.v
CwLedger.v
CwScenario.v
CwStateTests.v
CwTheorems.v
CwCollateralTheorems.v
CwMirror.v
