(* ===== verification/Prelude.v ===== *)
(** * Creditra contracts: a verification library

    Creditra is a lending protocol.  A borrower has a credit line, draws from it,
    repays with interest, posts collateral; an admin prices, freezes and closes
    lines; a line in default is settled through an auction.  The repository holds
    the protocol's Soroban contracts, the auction contract, three crowdfunding
    contracts, two small admin contracts, and a second credit contract for
    CosmWasm.  The library models each contract as functions over its storage and
    proves what it promises.  Paths are relative to [src/]; [credit/src] stands for
    [contracts/credit/src], [auction] for
    [gateway-contract/contracts/auction_contract/src], [cw] for
    [contracts/creditra-credit/src].

    ** How a contract is modelled

    [Soroban.v] is the environment: a [Contract] is a type of storage keys (with
    the type each holds), events and errors; an operation is a computation [M A]
    that reads a ledger context and a state of two stores, the host and the event
    log, and either returns or fails.  A failure keeps no state, as the host rolls
    an invocation back; it is a contract error or a trap ([unwrap], overflow,
    authorisation, a failing call).  What is not source of this repository is an
    interface: signatures and tokens ([Host]), the deployer, the auction client the
    credit contract calls, the escrow client, the digest ([Crypto]), the JSON codec,
    address validation and number parsing on CosmWasm ([CwApi]).  Each has a
    concrete instance on which the witnesses are evaluated.

    [World.v] puts one contract inside the host of another, so that a composition
    runs both contracts' own code.  [History.v] is the reachability relation: the
    sequences of successful calls with any host in between.  [CwState.v] is the
    CosmWasm environment: one store, the monad [R] for code that reads, [W] for code
    that writes.

    ** Files

    - [Prelude.v]: machine integers, sums, tactics.  [MathUtils.v]:
      [credit/src/math_utils.rs].
    - The credit contract: [CreditTypes.v] ([types.rs] and the records of
      [penalties.rs], [oracles.rs], [scoring.rs], [attestation.rs]; the keys of
      [storage.rs]), [CreditEvents.v] ([events.rs]), [CreditStorage.v]
      ([storage.rs], [auth.rs]), [Accrual.v] ([accrual.rs], [penalties.rs],
      [limits.rs], [query.rs]), [Collateral.v] ([collateral.rs] and
      [contracts/collateral/src/admin.rs]), [Fees.v], [Freeze.v] ([freeze.rs],
      [config.rs]), [Oracles.v] ([oracles.rs], [oracle_validation.rs]), [Scoring.v]
      ([scoring.rs], [attestation.rs]), [Risk.v], [Lifecycle.v] ([lifecycle.rs],
      [borrow.rs]), [Views.v] ([views.rs] and the view modules of
      [contracts/lifecycle] and [contracts/query]), [CreditContract.v] (the
      entrypoints of [lib.rs], [handshake.rs]), [CreditCalls.v] (those that change
      state as one type [Call] with its dispatcher [run]), [CreditQueries.v] (those
      that read, as the type [Ask] of queries with their answers).  [Support.v]: the event schemas and the
      error table of [contracts/query], [contracts/freeze], [contracts/accrual].
    - The auction contract: [AuctionCurves.v] ([curves.rs]), [AuctionStorage.v]
      ([types.rs], [errors.rs], [storage.rs], [events.rs], [auth.rs]), [Auction.v]
      ([lib.rs]).
    - [Escrow.v], [Milestones.v], [Crowdpay.v]: the contracts under
      [contracts/soroban/contracts].  [Vault.v]: [contracts/collateral/src].
      [RiskAdmin.v]: [contracts/risk/src] and [contracts/borrow/src/admin.rs].
    - The CosmWasm contract: [CwState.v] ([state.rs], [error.rs]), [CwRates.v]
      ([math_utils.rs], [accrual.rs], [limits.rs], [penalties.rs], [handshake.rs],
      [key.rs], the fee split), [CwOracles.v], [CwCollateral.v] ([collateral.rs],
      [fees.rs]), [CwViews.v] ([views.rs]), [CwCredit.v] ([contract.rs], [msg.rs]),
      [CwMigrate.v] ([migrate.rs]).

    A definition has the source's name; where one function is split, the pieces
    carry the names of the steps and the comment says which lines they are.  An
    entrypoint is the whole handler: authorisation, pause and guard checks, every
    write and every event, in the order of the code.

    ** What is proved

    - The credit contract as a whole ([CreditState.v], [CreditLedger.v],
      [CreditMoves.v], [CreditInvariant.v], [CreditTheorems.v], [CreditSafety.v]):
      after any history the borrower index is exact and the four stored aggregates
      are the sums over the lines; statuses move along the state machine; no call
      succeeds without its party's signature; the pause stops what it covers; the
      reentrancy guard is always released; a settlement id is used once; walking the
      lines page by page ends and misses nothing ([Pagination.v]).
    - Its operations: [DrawRepay.v] and [Treasury.v] (a draw under every limit, a
      repayment with its waterfall, protocol fee and late fee, and that the treasury
      leaves only through the timelock), [Settlement.v] (a settlement with
      its price gate, and how the single-oracle mode latches), [AccrualExact.v] (the accrued
      interest equals a reference formula, always returns when the numbers fit, is
      monotone in time, and what a full waiver loses), [PriceTheorems.v] (quorum
      prices, weighted median, both sorts), [RiskTheorems.v] (risk updates, the
      score formula), [MathUtils.v] (conserving splits).
    - Its money: against any token that obeys the token interface the contract holds
      what it owes, while that token is not switched and draws are not paid from its
      own account ([Custody.v]), and a borrower without debt always gets the
      collateral back ([Exit.v]).
    - Its administration: how the admin changes and which caps cannot be cleared
      ([Governance.v]), that every setting is answered as configured
      ([Configuration.v]), attestation proofs ([Attestation.v]).
    - Its views ([ViewTheorems.v]): the health factor against the enforced
      requirement, the collateral floor, capability bitmaps that announce every
      operation that succeeds.
    - The auction ([AuctionTheorems.v]) and the settlement of a default across both
      contracts ([Composition.v]).
    - [Harness.v]: the assertions of the repository's own proof harnesses
      ([contracts/credit/proofs], [auction_contract/proofs]) and of the oracle fuzz
      target, for every draw.
    - The campaign contracts ([EscrowTheorems.v], [MilestonesTheorems.v],
      [CrowdpayTheorems.v]), the vault and the risk admin ([AdminTheorems.v]): books
      as functions or invariants of the history, lifecycles, and the defects found.
    - The CosmWasm contract ([CwLedger.v], [CwTheorems.v], [CwCollateralTheorems.v],
      [CwMigrate.v], [CwMirror.v]): the ledger invariant and the credit limit, an
      append-only history, repayments that always succeed, collateral that can be
      withdrawn as it was deposited, error encodings that migrate to a JSON value
      stated apart from the code, and how far its quorum prices agree with the Soroban contract's.

    [Scenario.v] and [CwScenario.v] hold concrete states the witnesses evaluate.

    ** The source's unit tests, run on the model

    The definitions are also compared with what the authors expect of the code: the
    [#[test]] functions of the two credit contracts are programs of the library, one
    definition per test with the test's name, and evaluated.  [Testing.v],
    [MathTests.v]: pure functions that may panic.  [CreditTesting.v]: the test
    environment of the SDK (clock, fresh addresses, mocked signatures, tokens with
    balances and allowances) and the client of one registered credit contract, whose
    calls go through the dispatcher of [CreditCalls.v]; [CreditTests.v],
    [CreditFlowTests.v] ([lib.rs]), [LifecycleTests.v] ([lifecycle.rs], [oracles.rs],
    [oracle_validation.rs]) and [RateTests.v] ([accrual_tests.rs],
    [risk_formula_tests.rs]) run on it.  [CwUnitTests.v] and [CwStateTests.v]: the
    CosmWasm contract, whose tests there all hold.  Where the code no longer does what
    a test expects, the test is kept and a lemma [.._outdated] says what happens; the
    property tests of the oracle registry are also proved for all inputs
    ([weighted_median_is_reference] in [PriceTheorems.v]).

    ** Integers, loops, bounds

    A Rust integer is a [Z]; every operation is checked, saturating or wrapping at
    its width as the code writes it, and plain operators trap on overflow because
    the release profiles set [overflow-checks].  (The crates under
    [contracts/soroban] have no manifest of their own; the same profile is assumed.)
    Loops run over lists or ranges fixed before they start; where a loop has fuel
    it is the number of ids left, and [Pagination.v] proves that it is enough.
    The invariants of the credit contract are stated for histories of fewer than
    2^32 calls, beyond which its [u32] counters would trap.

    ** What is not modelled

    - Entry lifetimes: of [extend_ttl] only the trap on a missing entry is kept;
      archival is not ([collateral_ttl.rs] holds tests of it).
    - The meaning of authorisation and of tokens beyond what [Host] states, resource
      budgets, the encoding of keys and events as bytes, JSON answers.
    - Files that belong to no contract: [contracts/lifecycle/src/admin.rs],
      [credit/src/query_admin.rs], [credit/src/cross_chain.rs],
      [credit/src/admin.rs] and [contracts/risk/src/views.rs] are declared by no
      crate, and
      [contracts/accrual] imports a type the credit crate does not define.
      [cw/limits.rs] is not a module of its crate either, but its functions are
      modelled.
    - [instrument.rs], [cross_chain.rs], examples, the other fuzz targets, the
      integration tests ([credit/tests]), and the unit tests that look at published
      events, use a mocked token contract, or compare two environments. *)
From Stdlib Require Export ZArith Lia.
From stdpp Require Export base decidable option list sorting strings gmap.

#[global] Open Scope Z_scope.

(** ** Machine integers

    Every Rust integer is a [Z] kept inside its range by the operation that
    produced it.  [checked_*] is Rust's [checked_op] (and, because the release
    profile sets [overflow-checks = true], also the plain operator, which traps
    on [None]); [saturate] is [saturating_op]; the [as_*] functions are the
    wrapping [as] casts. *)
Abbreviation u32_max := 4294967295.
Abbreviation u64_max := 18446744073709551615.
Abbreviation u128_max := 340282366920938463463374607431768211455.
Abbreviation i128_max := 170141183460469231731687303715884105727.
Abbreviation i128_min := (-170141183460469231731687303715884105728).

Definition in_range (lo hi z : Z) : bool := (lo <=? z) && (z <=? hi).

Definition checked (lo hi z : Z) : option Z := if in_range lo hi z then Some z else None.

Definition saturate (lo hi z : Z) : Z := Z.max lo (Z.min hi z).

Abbreviation is_u32 z := (0 <= z <= u32_max).
Abbreviation is_u64 z := (0 <= z <= u64_max).
Abbreviation is_u128 z := (0 <= z <= u128_max).
Abbreviation is_i128 z := (i128_min <= z <= i128_max).

Abbreviation checked_u32 := (checked 0 u32_max).
Abbreviation checked_u64 := (checked 0 u64_max).
Abbreviation checked_u128 := (checked 0 u128_max).
Abbreviation checked_i128 := (checked i128_min i128_max).
Abbreviation sat_u32 := (saturate 0 u32_max).
Abbreviation sat_u64 := (saturate 0 u64_max).
Abbreviation sat_u128 := (saturate 0 u128_max).
Abbreviation sat_i128 := (saturate i128_min i128_max).

Definition as_u64 (z : Z) : Z := z mod (u64_max + 1).

Definition as_u128 (z : Z) : Z := z mod (u128_max + 1).

Definition as_i128 (z : Z) : Z :=
  let m := z mod (u128_max + 1) in if m <=? i128_max then m else m - (u128_max + 1).

Create Rewrite HintDb ints.

Lemma in_range_true lo hi z : in_range lo hi z = true <-> lo <= z <= hi.
Proof. unfold in_range. rewrite andb_true_iff, !Z.leb_le. lia. Qed.

Lemma checked_Some lo hi z r : checked lo hi z = Some r <-> r = z /\ lo <= z <= hi.
Proof.
  unfold checked. rewrite <- in_range_true.
  destruct (in_range lo hi z); split; intros E; simplify_eq; [done|by destruct E as [-> _]|by destruct E].
Qed.

Lemma checked_None lo hi z : checked lo hi z = None <-> z < lo \/ hi < z.
Proof.
  unfold checked. pose proof (in_range_true lo hi z) as H.
  destruct (in_range lo hi z); split; intros; try done; [|lia].
  destruct H as [H _]. specialize (H eq_refl). lia.
Qed.

Lemma checked_in lo hi z : lo <= z <= hi -> checked lo hi z = Some z.
Proof. intros. by apply checked_Some. Qed.

Lemma saturate_in lo hi z : lo <= z <= hi -> saturate lo hi z = z.
Proof. unfold saturate. lia. Qed.

Lemma saturate_range lo hi z : lo <= hi -> lo <= saturate lo hi z <= hi.
Proof. unfold saturate. lia. Qed.

Lemma as_u128_id z : is_u128 z -> as_u128 z = z.
Proof. intros. unfold as_u128. apply Z.mod_small. lia. Qed.

Lemma as_u64_id z : is_u64 z -> as_u64 z = z.
Proof. intros. unfold as_u64. apply Z.mod_small. lia. Qed.

Lemma as_i128_max z : as_i128 z <= i128_max.
Proof.
  unfold as_i128. pose proof (Z.mod_pos_bound z (u128_max + 1)).
  destruct (Z.leb_spec (z mod (u128_max + 1)) i128_max); lia.
Qed.

Lemma as_i128_id z : is_i128 z -> 0 <= z -> as_i128 z = z.
Proof.
  intros. unfold as_i128. rewrite Z.mod_small by lia.
  destruct (Z.leb_spec z i128_max); lia.
Qed.

#[export] Hint Rewrite checked_Some checked_None : ints.

(** Truncating division and remainder on signed integers ([/] and [%] of
    [i128]) agree with Euclidean ones on non-negative operands. *)
Lemma quot_nonneg a b : 0 <= a -> 0 < b -> Z.quot a b = a / b.
Proof. intros. apply Z.quot_div_nonneg; lia. Qed.

Lemma rem_nonneg a b : 0 <= a -> 0 < b -> Z.rem a b = a mod b.
Proof. intros. apply Z.rem_mod_nonneg; lia. Qed.

(** Bounds that arithmetic proofs use again and again. *)
Lemma div_le_mono_num a b c : 0 < c -> a <= b -> a / c <= b / c.
Proof. intros. by apply Z.div_le_mono. Qed.

Lemma mul_div_le_self a n d : 0 <= a -> 0 <= n <= d -> 0 < d -> a * n / d <= a.
Proof. intros. apply Z.div_le_upper_bound; nia. Qed.

Lemma div_bounds a d : 0 < d -> d * (a / d) <= a < d * (a / d) + d.
Proof. intros. pose proof (Z.div_mod a d). pose proof (Z.mod_pos_bound a d). lia. Qed.

(** Ceiling division as the code writes it: quotient plus one when there is a remainder. *)
Definition ceil_div (a d : Z) : Z := a / d + (if a mod d =? 0 then 0 else 1).

Lemma ceil_div_spec a d q : 0 < d -> ceil_div a d <= q <-> a <= d * q.
Proof.
  intros Hd. unfold ceil_div. pose proof (Z.div_mod a d).
  pose proof (Z.mod_pos_bound a d Hd).
  destruct (Z.eqb_spec (a mod d) 0); split; intros; nia.
Qed.

Lemma ceil_div_mono a b d : 0 < d -> a <= b -> ceil_div a d <= ceil_div b d.
Proof.
  intros Hd Hab. apply ceil_div_spec; [done|].
  assert (b <= d * ceil_div b d) by (by apply ceil_div_spec). lia.
Qed.

(** ** The option monad, for pure functions that return [Option] or may panic *)
Notation "'let?' x := m 'in' k" := (match m with Some x => k | None => None end)
  (at level 10, x pattern, m at level 100, k at level 200).

(** ** Sums over lists of integers *)
Definition sumZ (l : list Z) : Z := foldr Z.add 0 l.

Lemma sumZ_app l1 l2 : sumZ (l1 ++ l2) = sumZ l1 + sumZ l2.
Proof. unfold sumZ. induction l1 as [|x l1 IH]; cbn; lia. Qed.

Lemma sumZ_nonneg l : Forall (fun x => 0 <= x) l -> 0 <= sumZ l.
Proof. unfold sumZ. induction 1; cbn; lia. Qed.

Lemma sumZ_perm l1 l2 : l1 ≡ₚ l2 -> sumZ l1 = sumZ l2.
Proof. unfold sumZ. induction 1; cbn; lia. Qed.

Lemma sumZ_replicate n x : sumZ (replicate n x) = Z.of_nat n * x.
Proof. unfold sumZ. induction n; cbn [replicate foldr]; lia. Qed.

Lemma sumZ_insert l i x y : l !! i = Some x -> sumZ (<[i:=y]> l) = sumZ l + (y - x).
Proof.
  intros Hx. rewrite insert_take_drop by (by eapply lookup_lt_Some).
  rewrite <- (take_drop_middle l i x Hx) at 3.
  rewrite !sumZ_app. unfold sumZ. cbn. lia.
Qed.

#[export] Hint Rewrite sumZ_app : ints.

(** Sums of a function over a list of keys. *)
Lemma sum_ext {A} (f g : A -> Z) bs :
  (forall b, b ∈ bs -> f b = g b) -> sumZ (f <$> bs) = sumZ (g <$> bs).
Proof.
  intros Hfg. f_equal. apply list_fmap_ext. intros i b Hb. apply Hfg.
  by eapply list_elem_of_lookup_2.
Qed.

(** Changing one entry of a sum over a duplicate-free list. *)
Lemma sum_update {A} (f g : A -> Z) bs b :
  NoDup bs -> b ∈ bs -> (forall b', b' <> b -> g b' = f b') ->
  sumZ (g <$> bs) = sumZ (f <$> bs) + (g b - f b).
Proof.
  intros Hnd Hin Hfg. induction Hnd as [|x l Hx Hnd IH]; [by apply elem_of_nil in Hin|].
  unfold sumZ in *. cbn. apply elem_of_cons in Hin as [->|Hin].
  - assert (foldr Z.add 0 (g <$> l) = foldr Z.add 0 (f <$> l)) as ->; [|lia].
    apply sum_ext. intros b' Hb'. apply Hfg. intros ->. done.
  - rewrite IH by done. rewrite (Hfg x); [lia|]. intros ->. done.
Qed.

(** [t] is the total of [f] over all keys: [f] vanishes outside a finite list. *)
Definition total_of {A} (f : A -> Z) (t : Z) : Prop :=
  exists bs, NoDup bs /\ (forall b, b ∉ bs -> f b = 0) /\ t = sumZ (f <$> bs).

Lemma total_of_zero {A} (f : A -> Z) : (forall b, f b = 0) -> total_of f 0.
Proof. intros Hf. exists []. split; [constructor|]. by split. Qed.

Lemma total_of_ext {A} (f g : A -> Z) t : (forall b, g b = f b) -> total_of f t -> total_of g t.
Proof.
  intros Hfg (bs & Hnd & Hout & ->). exists bs. split; [done|]. split; [intros; rewrite Hfg; by apply Hout|].
  by apply sum_ext.
Qed.

Lemma total_of_update {A} `{EqDecision A} (f g : A -> Z) t b :
  total_of f t -> (forall b', b' <> b -> g b' = f b') -> total_of g (t + (g b - f b)).
Proof.
  intros (bs & Hnd & Hout & ->) Hfg. destruct (decide (b ∈ bs)) as [Hin|Hni].
  - exists bs. split; [done|]. split; [|by rewrite (sum_update f g bs b)].
    intros b' Hb'. rewrite Hfg; [by apply Hout|]. by intros ->.
  - exists (b :: bs). split; [by constructor|]. split.
    + intros b' Hb'. apply not_elem_of_cons in Hb' as [Hne Hb']. rewrite Hfg by done. by apply Hout.
    + cbn. rewrite (Hout b) by done. rewrite (sum_ext g f); [unfold sumZ; cbn; lia|].
      intros b' Hb'. apply Hfg. by intros ->.
Qed.

Lemma total_of_le {A} `{EqDecision A} (f : A -> Z) t b :
  (forall b', 0 <= f b') -> total_of f t -> f b <= t.
Proof.
  intros Hf (bs & Hnd & Hout & ->). destruct (decide (b ∈ bs)) as [Hin|Hni].
  - rewrite (sum_update (fun x => if decide (x = b) then 0 else f x) f bs b) by
      first [done | intros; by rewrite decide_False].
    rewrite decide_True by done.
    assert (0 <= sumZ ((fun x => if decide (x = b) then 0 else f x) <$> bs)); [|lia].
    apply sumZ_nonneg, Forall_fmap, Forall_forall. intros x _. cbn. case_decide; [lia|apply Hf].
  - rewrite Hout by done. apply sumZ_nonneg, Forall_fmap, Forall_forall. intros x _. apply Hf.
Qed.

(** ** Option helpers *)
Definition unwrap_or {A} (o : option A) (d : A) : A := match o with Some a => a | None => d end.

(** ** Tactics shared by the development

    [bsimp] turns boolean comparisons in hypotheses into propositions;
    [des] splits the first [if] or [match] it meets. *)
Ltac bsimp :=
  repeat match goal with
  | H : (_ <=? _) = true |- _ => apply Z.leb_le in H
  | H : (_ <=? _) = false |- _ => apply Z.leb_gt in H
  | H : (_ <? _) = true |- _ => apply Z.ltb_lt in H
  | H : (_ <? _) = false |- _ => apply Z.ltb_ge in H
  | H : (_ =? _) = true |- _ => apply Z.eqb_eq in H
  | H : (_ =? _) = false |- _ => apply Z.eqb_neq in H
  | H : negb _ = true |- _ => apply negb_true_iff in H
  | H : negb _ = false |- _ => apply negb_false_iff in H
  | H : (_ && _)%bool = true |- _ => apply andb_true_iff in H as [? ?]
  | H : (_ || _)%bool = false |- _ => apply orb_false_iff in H as [? ?]
  | H : bool_decide _ = true |- _ => apply bool_decide_eq_true in H
  | H : bool_decide _ = false |- _ => apply bool_decide_eq_false in H
  end.

Ltac des_match :=
  match goal with
  | |- context [match ?x with _ => _ end] => destruct x eqn:?
  end.

(** [chk] turns successful checked arithmetic into the equation and its range. *)
Ltac chk :=
  repeat match goal with
  | E : checked _ _ _ = Some _ |- _ => apply checked_Some in E as [? ?]
  end.

(** [rew_opt] rewrites with the equations [destruct .. eqn:] leaves for options. *)
Ltac rew_opt :=
  repeat match goal with
  | E : ?x = Some _ |- context [?x] => rewrite E
  | E : ?x = None |- context [?x] => rewrite E
  | E : Some _ = ?x |- context [?x] => rewrite <- E
  | E : None = ?x |- context [?x] => rewrite <- E
  end.
