(* ===== verification/MathUtils.v ===== *)
(** * Fixed-point arithmetic ([contracts/credit/src/math_utils.rs])

    The pure [u128] helpers every accrual and pricing path goes through.  A
    function that returns [Option] in Rust and a function that panics are both
    modelled with [option]: [None] is the returned [None] or the trap. *)
From S2P Require Import Prelude.

Definition SCALE : Z := 1000000000000000000.

Definition BPS_DENOMINATOR : Z := 10000.

Definition SECONDS_PER_YEAR : Z := 31557600.

Definition BPS_YEAR_DENOM : Z := BPS_DENOMINATOR * SECONDS_PER_YEAR.

Inductive Rounding := Floor | Ceil.

(** The rounding tail the helpers share: the quotient, plus one (checked) when
    rounding up a division with a remainder. *)
Definition round_div (product denominator : Z) (rounding : Rounding) : option Z :=
  let quotient := product / denominator in
  match rounding with
  | Floor => Some quotient
  | Ceil => if negb (product mod denominator =? 0) then checked_u128 (quotient + 1)
            else Some quotient
  end.

Definition mul_div (a numerator denominator : Z) (rounding : Rounding) : option Z :=
  if denominator =? 0 then None else
  let? product := checked_u128 (a * numerator) in
  round_div product denominator rounding.

Definition safe_mul_div (a numerator denominator : Z) (rounding : Rounding) : option Z :=
  if denominator =? 0 then None else
  let? product := checked_u128 (a * numerator) in
  round_div product denominator rounding.

Definition scale_up (amount : Z) : option Z := checked_u128 (amount * SCALE).

Definition scale_down (amount : Z) (rounding : Rounding) : option Z :=
  round_div amount SCALE rounding.

Definition apply_bps (amount rate_bps : Z) (rounding : Rounding) : option Z :=
  mul_div amount rate_bps BPS_DENOMINATOR rounding.

Definition checked_prorate_interest (principal rate_bps time_delta : Z) (rounding : Rounding)
  : option Z :=
  if (principal =? 0) || (rate_bps =? 0) || (time_delta =? 0) then Some 0 else
  let? step1 := checked_u128 (principal * rate_bps) in
  let? step2 := checked_u128 (step1 * time_delta) in
  round_div step2 BPS_YEAR_DENOM rounding.

Definition prorate_interest (principal rate_bps time_delta : Z) (rounding : Rounding) : option Z :=
  checked_prorate_interest principal rate_bps time_delta rounding.

(** [None] is either the early [return None] on a non-positive reference price,
    the [?] on the product, or the trap of [new_price - last_price]. *)
Definition compute_deviation_bps (new_price last_price : Z) : option Z :=
  if last_price <=? 0 then None else
  let? d := checked_i128 (new_price - last_price) in
  let diff := Z.abs d in
  let? numerator := checked_u128 (diff * BPS_DENOMINATOR) in
  let deviation := numerator / as_u128 last_price in
  Some (Z.min deviation u32_max).

(** ** [split_conserving] *)
Definition u128_add (a b : Z) : option Z := checked_u128 (a + b).

Definition u128_mul (a b : Z) : option Z := checked_u128 (a * b).

(** [weights.iter().map(|w| *w as u128).sum()] *)
Fixpoint sum_weights (acc : Z) (weights : list Z) : option Z :=
  match weights with
  | [] => Some acc
  | w :: ws => let? acc' := u128_add acc w in sum_weights acc' ws
  end.

(** The apportionment loop: [(floors, remainders, allocated)]. *)
Fixpoint apportion (q r total_weight : Z) (weights : list Z) (allocated : Z)
  : option (list Z * list Z * Z) :=
  match weights with
  | [] => Some ([], [], allocated)
  | wi :: ws =>
      let? qw := u128_mul q wi in
      let? rw := u128_mul r wi in
      let? part := u128_add qw (rw / total_weight) in
      let? allocated' := u128_add allocated part in
      let? (floors, remainders, allocated'') := apportion q r total_weight ws allocated' in
      Some (part :: floors, rw mod total_weight :: remainders, allocated'')
  end.

(** [remainders[b].cmp(&remainders[a]).then(a.cmp(&b))] is not [Greater]. *)
Definition rem_order (remainders : list Z) (a b : nat) : Prop :=
  (remainders !!! b < remainders !!! a \/ (remainders !!! a = remainders !!! b /\ (a <= b)%nat)).

#[export] Instance rem_order_dec remainders : RelDecision (rem_order remainders).
Proof. intros a b. unfold rem_order. apply _. Defined.

(** The hand-out loop; [leftover] only counts down, so it is its own measure. *)
Fixpoint hand_out (n : nat) (order : list nat) (leftover : nat) (cursor : nat) (floors : list Z)
  : option (list Z) :=
  match leftover with
  | O => Some floors
  | S leftover' =>
      let? i := order !! (cursor mod n)%nat in
      let? x := floors !! i in
      let? x' := u128_add x 1 in
      hand_out n order leftover' (S cursor) (<[i := x']> floors)
  end.

Definition split_conserving (total : Z) (weights : list Z) : option (list Z) :=
  let n := length weights in
  if Nat.eqb n 0 then None else
  if total =? 0 then Some (replicate n 0) else
  let? total_weight := sum_weights 0 weights in
  if total_weight =? 0 then Some (<[0%nat := total]> (replicate n 0)) else
  let q := total / total_weight in
  let r := total mod total_weight in
  let? (floors, remainders, allocated) := apportion q r total_weight weights 0 in
  let? leftover := checked_u128 (total - allocated) in
  let order := merge_sort (rem_order remainders) (seq 0 n) in
  hand_out n order (Z.to_nat leftover) 0 floors.

Definition prorate_interest_conserving (principal rate_bps time_delta : Z) (weights : list Z)
  : option (list Z) :=
  let? interest := prorate_interest principal rate_bps time_delta Floor in
  split_conserving interest weights.

Example split_101 : split_conserving 101 [50; 50] = Some [51; 50].
Proof. vm_compute. reflexivity. Qed.

(** ** Rounding lemmas *)
Lemma round_div_floor p d : round_div p d Floor = Some (p / d).
Proof. done. Qed.

Lemma round_div_ceil p d : is_u128 p -> 0 < d -> round_div p d Ceil = Some (ceil_div p d).
Proof.
  intros Hp Hd. unfold round_div, ceil_div.
  destruct (Z.eqb_spec (p mod d) 0); cbn [negb]; [f_equal; lia|].
  pose proof (Z.div_mod p d). pose proof (Z.mod_pos_bound p d Hd).
  apply checked_in. split; [|nia].
  pose proof (Z.div_pos p d). lia.
Qed.

(** What either rounding promises about [q = p / d]. *)
Definition rounds (p d : Z) (rounding : Rounding) (q : Z) : Prop :=
  match rounding with
  | Floor => d * q <= p < d * (q + 1)
  | Ceil => d * (q - 1) < p <= d * q
  end.

Lemma round_div_rounds p d r q :
  is_u128 p -> 0 < d -> round_div p d r = Some q <-> rounds p d r q.
Proof.
  intros Hp Hd. destruct r; cbn [rounds].
  - rewrite round_div_floor. pose proof (div_bounds p d Hd). split.
    + intros [= <-]. lia.
    + intros. f_equal. symmetry. apply Z.div_unique_pos with (p - d * q); lia.
  - rewrite round_div_ceil by done. pose proof (ceil_div_spec p d) as S.
    assert (forall q', ceil_div p d = q' <-> d * (q' - 1) < p <= d * q') as E.
    { intros q'. pose proof (S q' Hd). pose proof (S (q' - 1) Hd). lia. }
    rewrite <- E. split; [by intros [= ->]|by intros ->].
Qed.

Lemma round_div_total p d r : is_u128 p -> 0 < d -> is_Some (round_div p d r).
Proof. intros. destruct r; [done|]. rewrite round_div_ceil by done. done. Qed.

Lemma round_div_mono p p' d r q q' :
  is_u128 p -> is_u128 p' -> 0 < d -> p <= p' ->
  round_div p d r = Some q -> round_div p' d r = Some q' -> q <= q'.
Proof.
  intros Hp Hp' Hd Hle. destruct r.
  - intros [= <-] [= <-]. by apply div_le_mono_num.
  - rewrite !round_div_ceil by done. intros [= <-] [= <-]. by apply ceil_div_mono.
Qed.

Lemma rounds_nonneg p d r q : 0 <= p -> 0 < d -> rounds p d r q -> 0 <= q.
Proof. destruct r; cbn; nia. Qed.

(** [mul_div] returns exactly when the product fits. *)
Lemma mul_div_Some a n d r q :
  0 <= a -> 0 <= n -> 0 <= d ->
  mul_div a n d r = Some q <-> d <> 0 /\ a * n <= u128_max /\ rounds (a * n) d r q.
Proof.
  intros Ha Hn Hd. unfold mul_div. destruct (Z.eqb_spec d 0) as [->|Hd0]; [by split; [|intros (? & _)]|].
  destruct (checked_u128 (a * n)) as [p|] eqn:E; autorewrite with ints in E.
  - destruct E as [-> ?]. rewrite round_div_rounds by lia. tauto.
  - split; [done|]. intros (_ & ? & _). nia.
Qed.

Lemma mul_div_floor a n d q :
  0 <= a -> 0 <= n -> 0 < d -> mul_div a n d Floor = Some q -> q = a * n / d.
Proof.
  intros Ha Hn Hd. rewrite mul_div_Some by lia. cbn. intros (_ & _ & H).
  apply (Z.div_unique _ _ _ (a * n - d * q)); lia.
Qed.

Lemma safe_mul_div_mul_div a n d r : safe_mul_div a n d r = mul_div a n d r.
Proof. done. Qed.

Lemma BPS_YEAR_DENOM_val : BPS_YEAR_DENOM = 315576000000.
Proof. done. Qed.

(** [checked_prorate_interest] is [principal * rate * time / BPS_YEAR_DENOM]
    rounded, and it returns exactly when the full product fits. *)
Lemma checked_prorate_Some p rate dt r q :
  0 <= p -> 0 <= rate -> 0 <= dt ->
  checked_prorate_interest p rate dt r = Some q <->
  p * rate * dt <= u128_max /\ (dt = 0 \/ p * rate <= u128_max) /\
  rounds (p * rate * dt) BPS_YEAR_DENOM r q.
Proof.
  intros Hp Hr Ht. unfold checked_prorate_interest.
  destruct ((p =? 0) || (rate =? 0) || (dt =? 0)) eqn:Z0.
  - assert (p * rate * dt = 0) as ->.
    { rewrite !orb_true_iff, !Z.eqb_eq in Z0. nia. }
    assert (dt = 0 \/ p * rate <= u128_max) by (rewrite !orb_true_iff, !Z.eqb_eq in Z0; nia).
    rewrite BPS_YEAR_DENOM_val.
    split; [intros [= <-]; destruct r; cbn; lia|]. intros (_ & _ & Hq). f_equal.
    destruct r; cbn in Hq; lia.
  - bsimp. destruct (checked_u128 (p * rate)) as [s1|] eqn:E1; autorewrite with ints in E1.
    + destruct E1 as [-> ?].
      destruct (checked_u128 (p * rate * dt)) as [s2|] eqn:E2; autorewrite with ints in E2.
      * destruct E2 as [-> ?]. rewrite round_div_rounds by (rewrite ?BPS_YEAR_DENOM_val; lia).
        tauto.
      * split; [done|]. intros (? & _ & _). nia.
    + split; [done|]. intros (? & [?|?] & _); nia.
Qed.

(** The step-1 overflow check is implied by the step-2 one when time passes. *)
Lemma prorate_floor p rate dt q :
  0 <= p -> 0 <= rate -> 0 <= dt ->
  checked_prorate_interest p rate dt Floor = Some q ->
  q = p * rate * dt / BPS_YEAR_DENOM /\ 0 <= q.
Proof.
  intros Hp Hr Ht. rewrite checked_prorate_Some by done. intros (_ & _ & H).
  cbn in H. split.
  - apply Z.div_unique_pos with (p * rate * dt - BPS_YEAR_DENOM * q);
      pose proof BPS_YEAR_DENOM_val; lia.
  - apply (rounds_nonneg (p * rate * dt) BPS_YEAR_DENOM Floor);
      [nia|pose proof BPS_YEAR_DENOM_val; lia|exact H].
Qed.

Lemma prorate_mono p p' rate rate' dt dt' r q q' :
  0 <= p <= p' -> 0 <= rate <= rate' -> 0 <= dt <= dt' ->
  checked_prorate_interest p rate dt r = Some q ->
  checked_prorate_interest p' rate' dt' r = Some q' -> q <= q'.
Proof.
  intros Hp Hr Ht H H'. apply checked_prorate_Some in H as (Hb & _ & H); [|lia..].
  apply checked_prorate_Some in H' as (Hb' & _ & H'); [|lia..].
  assert (p * rate <= p' * rate') by nia.
  assert (0 <= p * rate * dt <= p' * rate' * dt') by nia.
  pose proof BPS_YEAR_DENOM_val.
  eapply (round_div_mono (p * rate * dt) (p' * rate' * dt') BPS_YEAR_DENOM r); [lia..| |];
    apply round_div_rounds; (lia || done).
Qed.

(** ** Lemmas on [split_conserving] *)
Lemma sum_weights_sum acc ws :
  0 <= acc -> Forall (fun w => 0 <= w) ws -> acc + sumZ ws <= u128_max ->
  sum_weights acc ws = Some (acc + sumZ ws).
Proof.
  intros Ha Hw. revert acc Ha. induction Hw as [|w ws Hw0 Hw IH]; intros acc Ha Hb; cbn.
  - f_equal. unfold sumZ. cbn. lia.
  - pose proof (sumZ_nonneg ws Hw) as Hs. unfold sumZ in *. cbn in *. unfold u128_add.
    rewrite checked_in by lia. cbn. rewrite IH by lia. f_equal. lia.
Qed.

Lemma sumZ_bound ws b : Forall (fun w => w <= b) ws -> sumZ ws <= Z.of_nat (length ws) * b.
Proof. unfold sumZ. induction 1; cbn [foldr length]; lia. Qed.

Lemma elem_le_sumZ w ws : Forall (fun x => 0 <= x) ws -> w ∈ ws -> w <= sumZ ws.
Proof.
  induction 1 as [|x ws Hx Hws IH]; intros Hin; [by apply elem_of_nil in Hin|].
  pose proof (sumZ_nonneg ws Hws). unfold sumZ in *. cbn in *.
  apply elem_of_cons in Hin as [->|Hin]; [lia|]. specialize (IH Hin). lia.
Qed.

(** The floor and the remainder of one weight's share. *)
Definition share (q r W w : Z) : Z := q * w + r * w / W.

Definition share_rem (r W w : Z) : Z := (r * w) mod W.

Lemma share_exact q r W w : 0 < W -> W * share q r W w + share_rem r W w = (q * W + r) * w.
Proof. intros. unfold share, share_rem. pose proof (Z.div_mod (r * w) W). lia. Qed.

Lemma share_nonneg q r W w : 0 < W -> 0 <= q -> 0 <= r -> 0 <= w -> 0 <= share q r W w.
Proof. intros. unfold share. assert (0 <= r * w / W) by (apply Z.div_pos; nia). nia. Qed.

Lemma shares_exact q r W ws :
  0 < W ->
  W * sumZ (share q r W <$> ws) + sumZ (share_rem r W <$> ws) = (q * W + r) * sumZ ws.
Proof.
  intros HW. induction ws as [|w ws IH]; [cbn; lia|].
  pose proof (share_exact q r W w HW). unfold sumZ in *. cbn in *. lia.
Qed.

Lemma apportion_ok q r W ws alloc :
  0 < W -> 0 <= q -> 0 <= r < W -> Forall (fun w => 0 <= w <= W) ws -> 0 <= alloc ->
  W * W <= u128_max -> alloc + sumZ (share q r W <$> ws) <= u128_max ->
  apportion q r W ws alloc =
    Some (share q r W <$> ws, share_rem r W <$> ws, alloc + sumZ (share q r W <$> ws)).
Proof.
  intros HW Hq Hr Hws. revert alloc. induction Hws as [|w ws Hw Hws IH]; intros alloc Ha HWW Hb.
  - cbn. do 2 f_equal. lia.
  - assert (0 <= sumZ (share q r W <$> ws)) as Hs.
    { apply sumZ_nonneg, Forall_fmap. eapply Forall_impl; [exact Hws|].
      intros x Hx. cbn in *. apply share_nonneg; lia. }
    pose proof (share_nonneg q r W w) as Hn.
    unfold sumZ in *. cbn in Hb |- *. unfold u128_mul, u128_add.
    assert (0 <= q * w) by nia. assert (0 <= r * w <= W * W) by nia.
    assert (0 <= r * w / W) by (apply Z.div_pos; lia).
    change (share q r W w) with (q * w + r * w / W) in *.
    change (share_rem r W w) with ((r * w) mod W).
    rewrite (checked_in _ _ (q * w)) by lia. rewrite (checked_in _ _ (r * w)) by lia.
    rewrite (checked_in _ _ (q * w + r * w / W)) by lia.
    rewrite checked_in by lia.
    rewrite IH by lia. do 2 f_equal. lia.
Qed.

Lemma sumZ_elem_bound l i x : Forall (fun z => 0 <= z) l -> l !! i = Some x -> x <= sumZ l.
Proof. intros Hl Hi. apply elem_le_sumZ; [done|]. by eapply list_elem_of_lookup_2. Qed.

(** The hand-out loop gives one unit to each of the next [leftover] indices. *)
Lemma hand_out_ok n order :
  length order = n -> NoDup order -> Forall (fun i => (i < n)%nat) order ->
  forall leftover cursor floors,
  length floors = n -> (cursor + leftover <= n)%nat ->
  Forall (fun z => 0 <= z) floors -> sumZ floors + Z.of_nat leftover <= u128_max ->
  exists parts, hand_out n order leftover cursor floors = Some parts /\
    length parts = n /\ sumZ parts = sumZ floors + Z.of_nat leftover /\
    forall i, parts !! i = (fun x => x + (if decide (i ∈ take leftover (drop cursor order))
                                          then 1 else 0)) <$> floors !! i.
Proof.
  intros Hlen Hnd Hall. induction leftover as [|k IH]; intros c fl Hfl Hc Hpos Hb.
  - exists fl. cbn [hand_out]. repeat split; [done|lia|]. intros i. cbn.
    destruct (fl !! i); cbn; [f_equal|done]. rewrite decide_False by (by apply not_elem_of_nil). lia.
  - cbn [hand_out]. rewrite Nat.mod_small by lia.
    destruct (lookup_lt_is_Some_2 order c) as [j Hj]; [lia|]. rewrite Hj.
    assert (j < n)%nat as Hjn by (eapply Forall_lookup_1 in Hall; eauto).
    destruct (lookup_lt_is_Some_2 fl j) as [x Hx]; [lia|]. rewrite Hx.
    assert (0 <= x) by (eapply (Forall_lookup_1 _ fl); eauto).
    pose proof (sumZ_elem_bound _ _ _ Hpos Hx). unfold u128_add. rewrite checked_in by lia.
    destruct (IH (S c) (<[j:=x+1]> fl)) as (parts & -> & Hl & Hs & Hp).
    + by rewrite length_insert.
    + lia.
    + apply Forall_insert; [done|lia].
    + rewrite (sumZ_insert _ _ _ _ Hx). lia.
    + exists parts. split; [done|]. split; [done|]. rewrite (sumZ_insert _ _ _ _ Hx) in Hs.
      split; [lia|]. intros i. rewrite Hp. rewrite (drop_S _ _ _ Hj). cbn [take].
      destruct (decide (i = j)) as [->|Hij].
      * rewrite list_lookup_insert_eq by lia. rewrite Hx. cbn. f_equal.
        rewrite decide_False, decide_True; [lia|by left|]. intros Hin.
        rewrite <- (take_drop_middle order c j Hj) in Hnd.
        apply NoDup_app in Hnd as (_ & _ & Hnd). apply NoDup_cons in Hnd as [Hnd _].
        apply Hnd. apply list_elem_of_lookup in Hin as [m Hm].
        apply lookup_take_Some in Hm as [Hm _]. by eapply list_elem_of_lookup_2.
      * rewrite list_lookup_insert_ne by done.
        destruct (fl !! i); cbn; [f_equal|done]. f_equal.
        destruct (decide (i ∈ take k (drop (S c) order))) as [Hin|Hin].
        -- rewrite decide_True by (by right). done.
        -- rewrite decide_False; [done|]. by intros [?|?]%elem_of_cons.
Qed.

Lemma sumZ_fmap_le {A} (f : A -> Z) (b : Z) l :
  (forall x, x ∈ l -> f x <= b) -> sumZ (f <$> l) <= Z.of_nat (length l) * b.
Proof.
  intros H. rewrite <- (length_fmap f l). apply sumZ_bound, Forall_fmap, Forall_forall. done.
Qed.

(** Two weights of the same split, ordered as the hand-out visits them. *)
Lemma rem_order_trans rems : Transitive (rem_order rems).
Proof. intros a b c. unfold rem_order. lia. Qed.

Lemma rem_order_total rems : Total (rem_order rems).
Proof. intros a b. unfold rem_order. lia. Qed.

Lemma StronglySorted_take_drop {A} (R : A -> A -> Prop) l k x y :
  StronglySorted R l -> x ∈ take k l -> y ∈ drop k l -> R x y.
Proof.
  intros Hs. rewrite <- (take_drop k l) in Hs. intros Hx Hy.
  by eapply StronglySorted_app_1_elem_of.
Qed.

(** The floors of a split are non-negative, and what they leave is at most one unit a member. *)
Lemma shares_leftover total weights (W := sumZ weights)
    (fl := share (total / W) (total mod W) W <$> weights) :
  0 <= total -> 0 < W -> Forall (fun w => 0 <= w) weights ->
  Forall (fun z => 0 <= z) fl /\ 0 <= total - sumZ fl <= Z.of_nat (length weights).
Proof.
  intros Ht HW Hnn.
  pose proof (Z.mod_pos_bound total W HW) as Hr. pose proof (Z.div_mod total W) as Hdm.
  assert (0 <= total / W) as Hq by (apply Z.div_pos; lia).
  set (rm := share_rem (total mod W) W <$> weights).
  pose proof (shares_exact (total / W) (total mod W) W weights HW) as Hex.
  fold fl rm W in Hex. replace (total / W * W + total mod W) with total in Hex by lia.
  assert (0 <= sumZ rm) as Hrm0.
  { apply sumZ_nonneg, Forall_fmap, Forall_forall. intros x _. cbn. apply Z.mod_pos_bound. done. }
  assert (sumZ rm <= Z.of_nat (length weights) * (W - 1)) as Hrm.
  { apply sumZ_fmap_le. intros x _. unfold share_rem.
    pose proof (Z.mod_pos_bound (total mod W * x) W HW). lia. }
  split; [|split; apply Z.mul_le_mono_pos_l with W; lia].
  apply Forall_fmap, Forall_forall. intros x Hx. cbn.
  rewrite Forall_forall in Hnn. specialize (Hnn x Hx). apply share_nonneg; lia.
Qed.

(** The complete description of a split with positive total and positive weight. *)
Lemma split_conserving_parts total weights (W := sumZ weights) (n := length weights)
    (order := merge_sort (rem_order (share_rem (total mod W) W <$> weights)) (seq 0 n)) :
  is_u128 total -> 0 < total -> 0 < W -> Forall (fun w => is_u32 w) weights ->
  Z.of_nat n <= u32_max ->
  exists parts k, split_conserving total weights = Some parts /\ length parts = n /\
    sumZ parts = total /\
    forall i w, weights !! i = Some w ->
      parts !! i = Some (share (total / W) (total mod W) W w +
                         (if decide (i ∈ take k order) then 1 else 0)).
Proof.
  intros Ht Ht0 HW Hws Hn.
  assert (weights <> []) as Hne by (intros ->; done).
  assert (Forall (fun w => 0 <= w) weights) as Hnn by (eapply Forall_impl; [exact Hws|]; cbn; lia).
  assert (W <= u32_max * u32_max) as HWb.
  { unfold W. pose proof (sumZ_bound weights u32_max) as Hsb.
    assert (Forall (fun w => w <= u32_max) weights) by (eapply Forall_impl; [exact Hws|]; cbn; lia).
    specialize (Hsb ltac:(done)). unfold n in Hn. nia. }
  assert (W * W <= u128_max) as HWW.
  { transitivity ((u32_max * u32_max) * (u32_max * u32_max)); [|lia].
    apply Z.mul_le_mono_nonneg; lia. }
  pose proof (Z.mod_pos_bound total W HW) as Hr. pose proof (Z.div_mod total W) as Hdm.
  assert (0 <= total / W) as Hq by (apply Z.div_pos; lia).
  set (fl := share (total / W) (total mod W) W <$> weights).
  set (rm := share_rem (total mod W) W <$> weights).
  destruct (shares_leftover total weights) as [Hfl [HL0 HLn]]; [lia|done|done|].
  fold W n fl in Hfl, HL0, HLn. pose proof (sumZ_nonneg fl Hfl) as Hfl0.
  assert (length order = n) as Hlen.
  { unfold order. rewrite (merge_sort_Permutation _ _). by rewrite length_seq. }
  destruct (hand_out_ok n order Hlen) with (leftover := Z.to_nat (total - sumZ fl))
    (cursor := 0%nat) (floors := fl) as (parts & Hp & Hpl & Hps & Hpi).
  - unfold order. rewrite (merge_sort_Permutation _ _). apply NoDup_seq.
  - apply Forall_forall. intros i Hi. unfold order in Hi.
    rewrite (merge_sort_Permutation _ _) in Hi. apply elem_of_seq in Hi. lia.
  - unfold fl. by rewrite length_fmap.
  - lia.
  - done.
  - lia.
  - exists parts, (Z.to_nat (total - sumZ fl)). split; [|split; [done|split; [lia|]]].
    + unfold split_conserving. fold n.
      rewrite (proj2 (Nat.eqb_neq n 0)) by (unfold n; by intros ?%nil_length_inv).
      rewrite (proj2 (Z.eqb_neq total 0)) by lia.
      rewrite sum_weights_sum by (fold W; lia || done). rewrite Z.add_0_l. fold W.
      rewrite (proj2 (Z.eqb_neq W 0)) by lia.
      rewrite apportion_ok; [|lia|lia|lia| |lia|exact HWW|fold fl; lia].
      * cbn. fold fl rm. rewrite checked_in by lia. exact Hp.
      * apply Forall_forall. intros x Hx. pose proof (elem_le_sumZ x weights Hnn Hx).
        rewrite Forall_forall in Hnn. specialize (Hnn x Hx). fold W in H. lia.
    + intros i w Hi. rewrite Hpi. unfold fl. rewrite list_lookup_fmap, Hi. done.
Qed.

Lemma share_floor total W w : 0 < W -> share (total / W) (total mod W) W w = total * w / W.
Proof.
  intros HW. unfold share. pose proof (Z.div_mod total W) as Hd.
  replace (total * w) with (total / W * w * W + total mod W * w) by nia.
  rewrite Z.add_comm, (Z.add_comm (_ * W)), Z.div_add by lia. lia.
Qed.

Lemma share_rem_mod total W w : 0 < W -> share_rem (total mod W) W w = (total * w) mod W.
Proof. intros. unfold share_rem. by rewrite Z.mul_mod_idemp_l by lia. Qed.

(** For every [u128] total and every non-empty vector of [u32] weights,
    [split_conserving] returns; the parts are one per weight, add up to the total
    exactly, and each part is its weight's proportional share rounded down or up
    (with no positive weight, the first part takes everything). *)
Theorem split_conserving_conserves total weights :
  is_u128 total -> weights <> [] -> Forall (fun w => is_u32 w) weights ->
  Z.of_nat (length weights) <= u32_max ->
  exists parts, split_conserving total weights = Some parts /\
    length parts = length weights /\ sumZ parts = total /\
    (0 < sumZ weights -> forall i w p, weights !! i = Some w -> parts !! i = Some p ->
       total * w / sumZ weights <= p <= total * w / sumZ weights + 1) /\
    (sumZ weights = 0 -> parts !! 0%nat = Some total).
Proof.
  intros Ht Hne Hws Hn.
  assert (Forall (fun w => 0 <= w) weights) as Hnn
    by (eapply Forall_impl; [exact Hws|]; cbn; lia).
  pose proof (sumZ_nonneg _ Hnn) as HW0.
  assert (length weights <> 0%nat) as Hl0 by (by intros ?%nil_length_inv).
  destruct (Z.eq_dec total 0) as [->|Ht0].
  { exists (replicate (length weights) 0). unfold split_conserving.
    rewrite (proj2 (Nat.eqb_neq _ 0)) by done. rewrite length_replicate, sumZ_replicate.
    split; [done|]. split; [done|]. split; [lia|]. split.
    - intros HW i w p _ [-> _]%lookup_replicate. rewrite Z.mul_0_l, Z.div_0_l by lia. lia.
    - intros _. apply lookup_replicate. lia. }
  destruct (Z.eq_dec (sumZ weights) 0) as [HW|HW].
  { assert (replicate (length weights) 0 !! 0%nat = Some 0) as H0
      by (apply lookup_replicate; lia).
    exists (<[0%nat:=total]> (replicate (length weights) 0)). unfold split_conserving.
    rewrite (proj2 (Nat.eqb_neq _ 0)) by done. rewrite (proj2 (Z.eqb_neq total 0)) by done.
    rewrite sum_weights_sum by (done || lia). rewrite Z.add_0_l, HW. cbn [Z.eqb].
    rewrite length_insert, length_replicate. split; [done|]. split; [done|].
    rewrite (sumZ_insert _ _ _ _ H0), sumZ_replicate. split; [lia|]. split; [lia|].
    intros _. apply list_lookup_insert_eq. by eapply lookup_lt_Some. }
  destruct (split_conserving_parts total weights) as (parts & k & Hs & Hl & Hsum & Hp);
    [done|lia|lia|done|done|].
  exists parts. split; [done|]. split; [done|]. split; [done|]. split; [|lia].
  intros HWp i w p Hi. rewrite (Hp i w Hi), share_floor by done. intros [= <-].
  destruct (decide _); lia.
Qed.

(** A three-way split with a remainder. *)
Lemma split_conserving_conserves_witness :
  exists parts, split_conserving 1000 [1; 1; 1] = Some parts /\ sumZ parts = 1000.
Proof.
  destruct (split_conserving_conserves 1000 [1; 1; 1]) as (parts & H1 & _ & H2 & _).
  - lia.
  - done.
  - repeat constructor; lia.
  - cbn. lia.
  - exists parts. split; assumption.
Defined.
