(* ===== verification/Testing.v ===== *)
(** * The unit tests of the source, as programs over the model

    A Rust [#[test]] is translated to a computation that fails where the test
    panics: [assert_eq!] and [assert!] are [assert_eq] and [assert], a function
    that panics yields [None].  A test marked [#[should_panic]] is expected to
    fail.  The test files evaluate the suites, so the definitions of this library
    are compared with what the authors of the code expect of it. *)
From S2P Require Import Prelude.

(** [assert_eq!(x, y)] *)
Definition assert_eq {A} `{EqDecision A} (x y : A) : option unit :=
  if decide (x = y) then Some tt else None.

(** [assert!(b)] *)
Definition assert (b : bool) : option unit := if b then Some tt else None.

(** [assert_eq!(f(..), v)] for a function that may panic. *)
Definition returns {A} `{EqDecision A} (f : option A) (v : A) : option unit :=
  let? x := f in assert_eq x v.

(** A sequence of assertions. *)
Fixpoint all_of (l : list (option unit)) : option unit :=
  match l with [] => Some tt | a :: l' => let? _ := a in all_of l' end.

(** The verdict on a test, and on one that must panic. *)
Definition passes (t : option unit) : bool := match t with Some _ => true | None => false end.

Definition panics {A} (t : option A) : bool := match t with Some _ => false | None => true end.
