(* ===== verification/MathTests.v ===== *)
(** * The unit tests of [contracts/credit/src/math_utils.rs] *)
From S2P Require Import Prelude MathUtils Testing.

Module MathTests.
Definition mul_div_basic := returns (mul_div 1000 300 10000 Floor) 30.

Definition mul_div_truncates_toward_zero := returns (mul_div 7 1 3 Floor) 2.

Definition mul_div_identity_denominator := returns (mul_div 42 1 1 Floor) 42.

Definition apply_bps_half_percent_truncates := returns (apply_bps 200 50 Floor) 1.

Definition apply_bps_sub_unit_truncates_to_zero := returns (apply_bps 50 1 Floor) 0.

Definition mul_div_exact_floor := returns (mul_div 1000 3 10 Floor) 300.

Definition mul_div_exact_ceil := returns (mul_div 1000 3 10 Ceil) 300.

Definition mul_div_remainder_floor := returns (mul_div 1001 3 10 Floor) 300.

Definition mul_div_remainder_ceil := returns (mul_div 1001 3 10 Ceil) 301.

Definition mul_div_zero_numerator :=
  all_of [returns (mul_div 1000000 0 10000 Floor) 0; returns (mul_div 1000000 0 10000 Ceil) 0].

Definition mul_div_zero_a :=
  all_of [returns (mul_div 0 300 10000 Floor) 0; returns (mul_div 0 300 10000 Ceil) 0].

Definition mul_div_denominator_equals_numerator :=
  all_of [returns (mul_div 42 7 7 Floor) 42; returns (mul_div 42 7 7 Ceil) 42].

Definition mul_div_large_values_floor :=
  let half := u128_max / 2 in returns (mul_div half 2 2 Floor) half.

Definition mul_div_one_bps_of_small_amount_floor := returns (mul_div 1 1 10000 Floor) 0.

Definition mul_div_one_bps_of_small_amount_ceil := returns (mul_div 1 1 10000 Ceil) 1.

(** [#[should_panic]] *)
Definition mul_div_zero_denominator_panics := mul_div 100 1 0 Floor.

Definition scale_up_and_down_roundtrip_floor :=
  let v := 12345678 in let? u := scale_up v in returns (scale_down u Floor) v.

Definition scale_up_and_down_roundtrip_ceil_exact :=
  let v := 99 in let? u := scale_up v in returns (scale_down u Ceil) v.

Definition scale_down_ceil_adds_one_for_remainder := returns (scale_down (SCALE + 1) Ceil) 2.

Definition scale_down_floor_truncates_remainder := returns (scale_down (SCALE + 1) Floor) 1.

Definition scale_down_zero := all_of [returns (scale_down 0 Floor) 0; returns (scale_down 0 Ceil) 0].

Definition apply_bps_full_rate :=
  all_of [returns (apply_bps 500 10000 Floor) 500; returns (apply_bps 10000 10000 Floor) 10000].

Definition apply_bps_zero_rate := returns (apply_bps 1000000 0 Floor) 0.

Definition prorate_interest_zero_elapsed :=
  all_of [returns (prorate_interest 1000000 500 0 Floor) 0; returns (apply_bps 1000000 0 Floor) 0;
          returns (apply_bps 1000000 0 Ceil) 0].

Definition apply_bps_zero_amount :=
  all_of [returns (apply_bps 0 300 Floor) 0; returns (apply_bps 0 300 Ceil) 0].

Definition apply_bps_one_bps_small_amount_floor := returns (apply_bps 1 1 Floor) 0.

Definition apply_bps_one_bps_small_amount_ceil := returns (apply_bps 1 1 Ceil) 1.

Definition apply_bps_one_bps_threshold_floor := returns (apply_bps 10000 1 Floor) 1.

Definition apply_bps_large_amount :=
  let large := i128_max in let expected := large / 10000 in returns (apply_bps large 1 Floor) expected.

Definition prorate_interest_one_full_year_floor :=
  returns (prorate_interest 10000 300 SECONDS_PER_YEAR Floor) 300.

Definition prorate_interest_one_full_year_ceil :=
  returns (prorate_interest 10000 300 SECONDS_PER_YEAR Ceil) 300.

Definition prorate_interest_half_year :=
  let half_year := SECONDS_PER_YEAR / 2 in returns (prorate_interest 10000 300 half_year Floor) 150.

Definition prorate_interest_one_day := returns (prorate_interest 10000 300 86400 Floor) 0.

Definition prorate_interest_one_day_ceil := returns (prorate_interest 10000 300 86400 Ceil) 1.

Definition prorate_interest_zero_principal := returns (prorate_interest 0 500 86400 Floor) 0.

Definition prorate_interest_full_year := returns (prorate_interest 100000 1000 31557600 Floor) 10000.

Definition prorate_interest_one_hour := returns (prorate_interest 1000000 500 3600 Floor) 5.

Definition prorate_interest_zero_rate := returns (prorate_interest 10000 0 86400 Floor) 0.

Definition prorate_interest_zero_time := returns (prorate_interest 10000 300 0 Floor) 0.

Definition prorate_interest_max_rate_one_year :=
  returns (prorate_interest 10000 10000 SECONDS_PER_YEAR Floor) 10000.

Definition prorate_interest_one_bps_small_principal_floor :=
  returns (prorate_interest 1 1 SECONDS_PER_YEAR Floor) 0.

Definition prorate_interest_one_bps_small_principal_ceil :=
  returns (prorate_interest 1 1 SECONDS_PER_YEAR Ceil) 1.

Definition prorate_interest_large_principal_one_year :=
  returns (prorate_interest 1000000000 500 SECONDS_PER_YEAR Floor) 50000000.

Definition prorate_interest_floor_less_than_or_equal_ceil :=
  let cases := [(1, 1, 1); (10000, 300, 86400); (1000000, 9999, SECONDS_PER_YEAR);
                (u32_max, 10000, u32_max)] in
  all_of ((fun '(p, r, t) =>
    let? floor := prorate_interest p r t Floor in
    let? ceil := prorate_interest p r t Ceil in
    assert (floor <=? ceil)) <$> cases).

Definition prorate_interest_ceil_floor_diff_at_most_one :=
  let cases := [(1, 1, 1); (7, 3, 100); (10000, 300, 86400); (999999, 1, SECONDS_PER_YEAR)] in
  all_of ((fun '(p, r, t) =>
    let? floor := prorate_interest p r t Floor in
    let? ceil := prorate_interest p r t Ceil in
    let? diff := checked_u128 (ceil - floor) in
    assert (diff <=? 1)) <$> cases).

Definition prorate_interest_monotone_in_time :=
  let p := 1000000 in let r := 300 in let t1 := 86400 in let t2 := 86400 * 30 in
  let? later := prorate_interest p r t2 Floor in
  let? sooner := prorate_interest p r t1 Floor in
  assert (sooner <=? later).

Definition prorate_interest_monotone_in_rate :=
  let p := 1000000 in let t := SECONDS_PER_YEAR in
  let? high := prorate_interest p 500 t Floor in
  let? low := prorate_interest p 300 t Floor in
  assert (low <=? high).

Definition prorate_interest_monotone_in_principal :=
  let r := 300 in let t := SECONDS_PER_YEAR in
  let? large := prorate_interest 2000000 r t Floor in
  let? small := prorate_interest 1000000 r t Floor in
  assert (small <=? large).

Definition prorate_interest_max_u32_principal_and_time :=
  let p := u32_max in let r := 10000 in let t := u32_max in
  let? _ := prorate_interest p r t Floor in
  let? _ := prorate_interest p r t Ceil in
  Some tt.

Definition prorate_interest_exact_boundary_no_remainder :=
  let p := BPS_YEAR_DENOM in let r := 10000 in let t := SECONDS_PER_YEAR in
  let? floor := prorate_interest p r t Floor in
  let? ceil := prorate_interest p r t Ceil in
  assert_eq floor ceil.

Definition deviation_five_percent_up := assert_eq (compute_deviation_bps 1050 1000) (Some 500).

Definition deviation_five_percent_down := assert_eq (compute_deviation_bps 950 1000) (Some 500).

Definition deviation_zero_change := assert_eq (compute_deviation_bps 1000 1000) (Some 0).

Definition deviation_one_bps := assert_eq (compute_deviation_bps 10001 10000) (Some 1).

Definition deviation_hundred_percent := assert_eq (compute_deviation_bps 2000 1000) (Some 10000).

Definition deviation_zero_last_price_returns_none := assert_eq (compute_deviation_bps 100 0) None.

Definition deviation_negative_last_price_returns_none := assert_eq (compute_deviation_bps 100 (-1)) None.

(** [parts.iter().copied().sum::<u128>()] *)
Definition sum_parts (parts : list Z) : option Z := sum_weights 0 parts.

Definition split_conserving_sums_to_total_exact :=
  all_of ((fun total =>
    let? parts := split_conserving total [3333; 6667] in
    returns (sum_parts parts) total) <$> [0; 1; 2; 3; 7; 10; 99; 100; 1000; 10000; u128_max / 2]).

Definition split_conserving_even_ratio_is_exact :=
  all_of [returns (split_conserving 100 [5000; 5000]) [50; 50];
          returns (split_conserving 101 [5000; 5000]) [50; 51]].

Definition split_conserving_gives_leftover_to_largest_remainder :=
  returns (split_conserving 10 [3333; 6667]) [3; 7].

Definition split_conserving_reversed_weights_mirrors_output :=
  let? a := split_conserving 10 [3333; 6667] in
  let? b := split_conserving 10 [6667; 3333] in
  let? b1 := b !! 1%nat in
  let? b0 := b !! 0%nat in
  assert_eq a [b1; b0].

Definition split_conserving_deterministic_across_calls :=
  let? first := split_conserving 1234567 [1111; 2222; 3333; 4444] in
  let? second := split_conserving 1234567 [1111; 2222; 3333; 4444] in
  all_of [assert_eq first second; returns (sum_parts first) 1234567].

Definition split_conserving_single_weight_takes_all :=
  all_of [returns (split_conserving 42 [10000]) [42]; returns (split_conserving 0 [10000]) [0]].

Definition split_conserving_all_zero_weights_collapses_to_first :=
  returns (split_conserving 77 [0; 0; 0]) [77; 0; 0].

Definition split_conserving_one_zero_weight_gets_nothing :=
  returns (split_conserving 100 [10000; 0]) [100; 0].

Definition split_conserving_boundary_single_unit :=
  let? parts := split_conserving 1 [5000; 5000] in returns (sum_parts parts) 1.

(** [#[should_panic]] *)
Definition split_conserving_empty_weights_panics := split_conserving 10 [].

Definition prorate_interest_conserving_sums_to_realized_interest :=
  let? shares := prorate_interest_conserving 10000 300 SECONDS_PER_YEAR [5000; 5000] in
  let? realized := prorate_interest 10000 300 SECONDS_PER_YEAR Floor in
  all_of [returns (sum_parts shares) realized;
          let? rest := checked_u128 (realized - realized / 2) in
          assert_eq shares [realized / 2; rest]].

Definition prorate_interest_conserving_zero_inputs :=
  all_of [returns (prorate_interest_conserving 0 300 SECONDS_PER_YEAR [3333; 6667]) [0; 0];
          returns (prorate_interest_conserving 10000 0 SECONDS_PER_YEAR [3333; 6667]) [0; 0]].

Definition prorate_interest_conserving_three_way_sums_exactly :=
  let? shares := prorate_interest_conserving 1000000 1000 SECONDS_PER_YEAR [1000; 2000; 7000] in
  let? sum := sum_parts shares in
  let? realized := prorate_interest 1000000 1000 SECONDS_PER_YEAR Floor in
  assert_eq sum realized.

(** Every test of the module but one passes. *)
Lemma math_tests_pass :
  forallb passes [mul_div_basic; mul_div_truncates_toward_zero; mul_div_identity_denominator;
     apply_bps_half_percent_truncates; apply_bps_sub_unit_truncates_to_zero; mul_div_exact_floor;
     mul_div_exact_ceil; mul_div_remainder_floor; mul_div_remainder_ceil; mul_div_zero_numerator;
     mul_div_zero_a; mul_div_denominator_equals_numerator; mul_div_large_values_floor;
     mul_div_one_bps_of_small_amount_floor; mul_div_one_bps_of_small_amount_ceil;
     scale_up_and_down_roundtrip_floor; scale_up_and_down_roundtrip_ceil_exact;
     scale_down_ceil_adds_one_for_remainder; scale_down_floor_truncates_remainder;
     scale_down_zero; apply_bps_full_rate; apply_bps_zero_rate; prorate_interest_zero_elapsed;
     apply_bps_zero_amount; apply_bps_one_bps_small_amount_floor;
     apply_bps_one_bps_small_amount_ceil; apply_bps_one_bps_threshold_floor;
     apply_bps_large_amount; prorate_interest_one_full_year_floor;
     prorate_interest_one_full_year_ceil; prorate_interest_half_year; prorate_interest_one_day;
     prorate_interest_one_day_ceil; prorate_interest_zero_principal; prorate_interest_full_year;
     prorate_interest_one_hour; prorate_interest_zero_rate; prorate_interest_zero_time;
     prorate_interest_max_rate_one_year; prorate_interest_one_bps_small_principal_floor;
     prorate_interest_one_bps_small_principal_ceil; prorate_interest_large_principal_one_year;
     prorate_interest_floor_less_than_or_equal_ceil;
     prorate_interest_ceil_floor_diff_at_most_one; prorate_interest_monotone_in_time;
     prorate_interest_monotone_in_rate; prorate_interest_monotone_in_principal;
     prorate_interest_max_u32_principal_and_time; prorate_interest_exact_boundary_no_remainder;
     deviation_five_percent_up; deviation_five_percent_down; deviation_zero_change;
     deviation_one_bps; deviation_hundred_percent; deviation_zero_last_price_returns_none;
     deviation_negative_last_price_returns_none; split_conserving_sums_to_total_exact;
     split_conserving_gives_leftover_to_largest_remainder;
     split_conserving_reversed_weights_mirrors_output;
     split_conserving_deterministic_across_calls; split_conserving_single_weight_takes_all;
     split_conserving_all_zero_weights_collapses_to_first;
     split_conserving_one_zero_weight_gets_nothing; split_conserving_boundary_single_unit;
     prorate_interest_conserving_sums_to_realized_interest;
     prorate_interest_conserving_zero_inputs; prorate_interest_conserving_three_way_sums_exactly] = true.
Proof. vm_compute. reflexivity. Qed.

Lemma math_tests_panic :
  panics mul_div_zero_denominator_panics && panics split_conserving_empty_weights_panics = true.
Proof. vm_compute. reflexivity. Qed.

(** A tie goes to the lower index, as the comment in the code says; the test of an
    even split expects the higher one and would fail. *)
Lemma even_split_test_fails :
  passes split_conserving_even_ratio_is_exact = false /\
  split_conserving 101 [5000; 5000] = Some [51; 50].
Proof. by vm_compute. Qed.
End MathTests.
