(* ===== verification/Soroban.v ===== *)
(** * The Soroban execution environment the contracts run in

    Every contract of the repository is a set of functions over an [Env]: two
    key-value stores, the ledger header, authorisation, token clients, and an
    event log; a panic or error rolls the whole invocation back.  This file
    models that environment once, as a state-and-error monad parametrised by

    - [Contract]: a contract's own storage keys (each with the type of the value
      it stores), event type and error type;
    - [Host]: what lies outside the contract and is not source of this
      repository (authorisation, token contracts), as abstract operations.

    The file then gives the reasoning library the components share: inversion of
    successful runs ([mstep]) and the [steps] judgement with its [frame]
    instance, which says which storage keys an operation leaves alone. *)
From S2P Require Import Prelude.

(** ** Addresses and symbols *)
Record Address := mkAddress { addr_id : N }.

#[export] Instance Address_eq_dec : EqDecision Address.
Proof. solve_decision. Defined.

Abbreviation Symbol := string.

(** ** Contracts: typed storage keys *)
Class Contract := {
  skey : Type;
  skey_eq_dec : EqDecision skey;
  sty : Type;
  sty_eq_dec : EqDecision sty;
  sinterp : sty -> Type;
  kty : skey -> sty;
  cevent : Type;
  cerror : Type;
}.

#[export] Existing Instance skey_eq_dec.

(** The type of the values stored under a key. *)
Definition sval `{Contract} (k : skey) : Type := sinterp (kty k).

Definition store `{Contract} : Type := forall k : skey, option (sval k).

Definition cast_val `{Contract} (k k' : skey) (v : sval k) : option (sval k') :=
  match sty_eq_dec (kty k) (kty k') with
  | left e => Some (eq_rect (kty k) sinterp v (kty k') e)
  | right _ => None
  end.

Definition store_put `{Contract} (k : skey) (v : sval k) (st : store) : store :=
  fun k' => if decide (k = k') then cast_val k k' v else st k'.

Definition store_remove `{Contract} (k : skey) (st : store) : store :=
  fun k' => if decide (k = k') then None else st k'.

Definition store_empty `{Contract} : store := fun _ => None.

Section store_lemmas.
Context `{C : Contract}.

Lemma cast_val_refl k v : cast_val k k v = Some v.
Proof.
  unfold cast_val. destruct (sty_eq_dec (kty k) (kty k)) as [e|n]; [|done].
  assert (e = eq_refl) as -> by (apply Eqdep_dec.UIP_dec; exact sty_eq_dec). done.
Qed.

Lemma store_put_eq k v (st : store) : store_put k v st k = Some v.
Proof. unfold store_put. rewrite decide_True by done. apply cast_val_refl. Qed.

Lemma store_put_ne k k' v (st : store) : k <> k' -> store_put k v st k' = st k'.
Proof. intros H. unfold store_put. by rewrite decide_False. Qed.

Lemma store_remove_eq k (st : store) : store_remove k st k = None.
Proof. unfold store_remove. by rewrite decide_True. Qed.

Lemma store_remove_ne k k' (st : store) : k <> k' -> store_remove k st k' = st k'.
Proof. intros H. unfold store_remove. by rewrite decide_False. Qed.
End store_lemmas.

(** ** The host: everything that is not source of this repository *)
Class Host := {
  host : Type;
  host_require_auth : Address -> host -> option host;
  token_balance : Address -> Address -> host -> option Z;
  token_decimals : Address -> host -> option Z;
  token_transfer : Address -> Address -> Address -> Address -> Z -> host -> option host;
  token_transfer_from :
    Address -> Address -> Address -> Address -> Address -> Z -> host -> option host;
}.

(** ** Outcomes and the contract monad *)
Inductive trap :=
| Panic (msg : string)
| ArithmeticOverflow
| StorageMissingValue
| AuthFailed
| CallFailed
| IndexOutOfRange.

Section monad.
Context `{C : Contract} `{H : Host}.

Inductive failure := ContractErr (e : cerror) | HostTrap (t : trap).

(** The ledger header and the address the code runs under. *)
Record Ctx := mkCtx {
  ledger_timestamp : Z;
  ledger_sequence : Z;
  current_contract : Address;
}.

Record State := mkState {
  instance_store : store;
  persistent_store : store;
  host_state : host;
  events : list cevent;
}.

Definition set_instance (st : store) (s : State) : State :=
  mkState st (persistent_store s) (host_state s) (events s).

Definition set_persistent (st : store) (s : State) : State :=
  mkState (instance_store s) st (host_state s) (events s).

Definition set_host (h : host) (s : State) : State :=
  mkState (instance_store s) (persistent_store s) h (events s).

(** A failure carries no state: the host discards every effect of the invocation. *)
Inductive outcome (A : Type) := Ok (a : A) (s : State) | Fail (f : failure).

Definition M (A : Type) : Type := Ctx -> State -> outcome A.
End monad.

Arguments Ok {C H A} a s.
Arguments Fail {C H A} f.

Declare Scope contract_scope.
Delimit Scope contract_scope with contract.

Definition mret `{C : Contract} `{H : Host} {A} (a : A) : M A := fun _ s => Ok a s.

Definition mbind `{C : Contract} `{H : Host} {A B} (m : M A) (k : A -> M B) : M B :=
  fun c s => match m c s with Ok a s' => k a c s' | Fail f => Fail f end.

Definition mfail `{C : Contract} `{H : Host} {A} (f : failure) : M A := fun _ _ => Fail f.

Notation "'let*' x := m 'in' k" := (mbind m (fun x => k))
  (at level 10, x pattern, m at level 100, k at level 200) : contract_scope.
Notation "m ;; k" := (mbind m (fun _ => k))
  (at level 100, k at level 200, right associativity) : contract_scope.
Notation "'ret' a" := (mret a) (at level 10, a at level 9) : contract_scope.

#[global] Open Scope contract_scope.

Section operations.
Context `{C : Contract} `{H : Host}.

(** ** Failing: [env.panic_with_error], [panic!], [assert!] and friends *)
Definition panic_with_error {A} (e : cerror) : M A := mfail (ContractErr e).

Definition panic {A} (msg : string) : M A := mfail (HostTrap (Panic msg)).

(** [if b { env.panic_with_error(e) }] *)
Definition panic_if (b : bool) (e : cerror) : M unit :=
  if b then panic_with_error e else ret tt.

(** [assert!(b, msg)] *)
Definition massert (b : bool) (msg : string) : M unit := if b then ret tt else panic msg.

(** [if b { panic!(msg) }] *)
Definition panic_when (b : bool) (msg : string) : M unit := if b then panic msg else ret tt.

(** [o.unwrap_or_else(|| env.panic_with_error(e))] *)
Definition or_panic {A} (o : option A) (e : cerror) : M A :=
  match o with Some a => ret a | None => panic_with_error e end.

(** A plain arithmetic operator: the release profile checks overflow and traps. *)
Definition arith {A} (o : option A) : M A :=
  match o with Some a => ret a | None => mfail (HostTrap ArithmeticOverflow) end.

(** [o.unwrap()] and [o.expect(..)] *)
Definition unwrap {A} (o : option A) (msg : string) : M A :=
  match o with Some a => ret a | None => panic msg end.

(** ** Storage *)
Definition iget (k : skey) : M (option (sval k)) := fun _ s => Ok (instance_store s k) s.

Definition ihas (k : skey) : M bool :=
  fun _ s => Ok (match instance_store s k with Some _ => true | None => false end) s.

Definition iset (k : skey) (v : sval k) : M unit :=
  fun _ s => Ok tt (set_instance (store_put k v (instance_store s)) s).

Definition iremove (k : skey) : M unit :=
  fun _ s => Ok tt (set_instance (store_remove k (instance_store s)) s).

Definition pget (k : skey) : M (option (sval k)) := fun _ s => Ok (persistent_store s k) s.

Definition phas (k : skey) : M bool :=
  fun _ s => Ok (match persistent_store s k with Some _ => true | None => false end) s.

Definition pset (k : skey) (v : sval k) : M unit :=
  fun _ s => Ok tt (set_persistent (store_put k v (persistent_store s)) s).

Definition premove (k : skey) : M unit :=
  fun _ s => Ok tt (set_persistent (store_remove k (persistent_store s)) s).

(** [storage().persistent().extend_ttl]: entry lifetimes are not modelled, but
    the host traps when the entry does not exist. *)
Definition pextend_ttl (k : skey) : M unit :=
  fun _ s => match persistent_store s k with
             | Some _ => Ok tt s
             | None => Fail (HostTrap StorageMissingValue)
             end.

(** The instance entry always exists while the contract runs. *)
Definition iextend_ttl : M unit := ret tt.

(** ** Ledger, events, authorisation, token clients *)
Definition timestamp : M Z := fun c s => Ok (ledger_timestamp c) s.

Definition sequence : M Z := fun c s => Ok (ledger_sequence c) s.

Definition current_contract_address : M Address := fun c s => Ok (current_contract c) s.

Definition publish (e : cevent) : M unit :=
  fun _ s => Ok tt (mkState (instance_store s) (persistent_store s) (host_state s)
                            (events s ++ [e])).

(** Run a host operation; [None] is a trap inside it. *)
Definition host_call {A} (t : trap) (f : Ctx -> host -> option (A * host)) : M A :=
  fun c s => match f c (host_state s) with
             | Some (a, h) => Ok a (set_host h s)
             | None => Fail (HostTrap t)
             end.

Definition host_read {A} (t : trap) (f : host -> option A) : M A :=
  fun _ s => match f (host_state s) with Some a => Ok a s | None => Fail (HostTrap t) end.

Definition require_auth (a : Address) : M unit :=
  host_call AuthFailed (fun _ h => option_map (pair tt) (host_require_auth a h)).

Definition balance (token who : Address) : M Z :=
  host_read CallFailed (token_balance token who).

Definition decimals (token : Address) : M Z := host_read CallFailed (token_decimals token).

Definition transfer (token from to : Address) (amount : Z) : M unit :=
  host_call CallFailed (fun c h =>
    option_map (pair tt) (token_transfer (current_contract c) token from to amount h)).

Definition transfer_from (token spender from to : Address) (amount : Z) : M unit :=
  host_call CallFailed (fun c h =>
    option_map (pair tt) (token_transfer_from (current_contract c) token spender from to amount h)).

(** ** Loops *)
Fixpoint mfor {A} (l : list A) (body : A -> M unit) : M unit :=
  match l with
  | [] => ret tt
  | x :: l' => body x ;; mfor l' body
  end.

Fixpoint mfold {A B} (l : list A) (acc : B) (body : B -> A -> M B) : M B :=
  match l with
  | [] => ret acc
  | x :: l' => let* acc' := body acc x in mfold l' acc' body
  end.
End operations.

(** ** Inversion of successful runs *)
Section inversion.
Context `{C : Contract} `{H : Host}.
Implicit Types (c : Ctx) (s : State).

Lemma mbind_ok {A B} (m : M A) (k : A -> M B) c s b s' :
  mbind m k c s = Ok b s' -> exists a s1, m c s = Ok a s1 /\ k a c s1 = Ok b s'.
Proof. unfold mbind. destruct (m c s) as [a s1|f]; [eauto|done]. Qed.

Lemma mret_ok {A} (a : A) c s b s' : mret a c s = Ok b s' -> b = a /\ s' = s.
Proof. unfold mret. by intros [= -> ->]. Qed.

Lemma panic_if_ok b e c s u s' : panic_if b e c s = Ok u s' -> b = false /\ s' = s.
Proof. unfold panic_if. destruct b; [done|]. by intros [_ ->]%mret_ok. Qed.

Lemma massert_ok b m c s u s' : massert b m c s = Ok u s' -> b = true /\ s' = s.
Proof. unfold massert. destruct b; [|done]. by intros [_ ->]%mret_ok. Qed.

Lemma panic_when_ok b m c s u s' : panic_when b m c s = Ok u s' -> b = false /\ s' = s.
Proof. unfold panic_when. destruct b; [done|]. by intros [_ ->]%mret_ok. Qed.

Lemma or_panic_ok {A} (o : option A) e c s a s' :
  or_panic o e c s = Ok a s' -> o = Some a /\ s' = s.
Proof. unfold or_panic. destruct o; [|done]. by intros [-> ->]%mret_ok. Qed.

Lemma arith_ok {A} (o : option A) c s a s' : arith o c s = Ok a s' -> o = Some a /\ s' = s.
Proof. unfold arith. destruct o; [|done]. by intros [-> ->]%mret_ok. Qed.

Lemma unwrap_ok {A} (o : option A) m c s a s' : unwrap o m c s = Ok a s' -> o = Some a /\ s' = s.
Proof. unfold unwrap. destruct o; [|done]. by intros [-> ->]%mret_ok. Qed.

Lemma iset_ok k v c s u s' :
  iset k v c s = Ok u s' -> s' = set_instance (store_put k v (instance_store s)) s.
Proof. by intros [= _ <-]. Qed.

Lemma pset_ok k v c s u s' :
  pset k v c s = Ok u s' -> s' = set_persistent (store_put k v (persistent_store s)) s.
Proof. by intros [= _ <-]. Qed.

Lemma iremove_ok k c s u s' :
  iremove k c s = Ok u s' -> s' = set_instance (store_remove k (instance_store s)) s.
Proof. by intros [= _ <-]. Qed.

Lemma premove_ok k c s u s' :
  premove k c s = Ok u s' -> s' = set_persistent (store_remove k (persistent_store s)) s.
Proof. by intros [= _ <-]. Qed.

Lemma pextend_ttl_ok k c s u s' :
  pextend_ttl k c s = Ok u s' -> is_Some (persistent_store s k) /\ s' = s.
Proof. unfold pextend_ttl. destruct (persistent_store s k); [|done]. intros [= _ <-]. eauto. Qed.

Lemma require_auth_ok a c s u s' :
  require_auth a c s = Ok u s' ->
  exists h, host_require_auth a (host_state s) = Some h /\ s' = set_host h s.
Proof.
  unfold require_auth, host_call. destruct (host_require_auth a (host_state s)); [|done].
  cbn. intros [= _ <-]. eauto.
Qed.

Lemma transfer_ok token from to amt c s u s' :
  transfer token from to amt c s = Ok u s' ->
  exists h, token_transfer (current_contract c) token from to amt (host_state s) = Some h /\
            s' = set_host h s.
Proof.
  unfold transfer, host_call.
  destruct (token_transfer (current_contract c) token from to amt (host_state s)); [|done].
  cbn. intros [= _ <-]. eauto.
Qed.

Lemma transfer_from_ok token sp from to amt c s u s' :
  transfer_from token sp from to amt c s = Ok u s' ->
  exists h, token_transfer_from (current_contract c) token sp from to amt (host_state s) = Some h /\
            s' = set_host h s.
Proof.
  unfold transfer_from, host_call.
  destruct (token_transfer_from (current_contract c) token sp from to amt (host_state s)); [|done].
  cbn. intros [= _ <-]. eauto.
Qed.

Lemma host_read_ok {A} t (f : host -> option A) c s a s' :
  host_read t f c s = Ok a s' -> f (host_state s) = Some a /\ s' = s.
Proof. unfold host_read. destruct (f (host_state s)) as [x|]; [|done]. by intros [= -> ->]. Qed.

Lemma publish_ok e c s u s' :
  publish e c s = Ok u s' ->
  s' = mkState (instance_store s) (persistent_store s) (host_state s) (events s ++ [e]).
Proof. by intros [= _ <-]. Qed.
End inversion.

(** An operation that only reads: on success the state is unchanged and the
    result is a function of the state. *)
Class Reads `{C : Contract} `{H : Host} {A} (m : M A) (f : Ctx -> State -> A) : Prop :=
  reads : forall c s a s', m c s = Ok a s' -> a = f c s /\ s' = s.

Section reads_instances.
Context `{C : Contract} `{H : Host}.

#[export] Instance reads_iget k : Reads (iget k) (fun _ s => instance_store s k).
Proof. intros c s a s' [= <- <-]. done. Qed.

#[export] Instance reads_pget k : Reads (pget k) (fun _ s => persistent_store s k).
Proof. intros c s a s' [= <- <-]. done. Qed.

#[export] Instance reads_ihas k :
  Reads (ihas k) (fun _ s => match instance_store s k with Some _ => true | None => false end).
Proof. intros c s a s' [= <- <-]. done. Qed.

#[export] Instance reads_phas k :
  Reads (phas k) (fun _ s => match persistent_store s k with Some _ => true | None => false end).
Proof. intros c s a s' [= <- <-]. done. Qed.

#[export] Instance reads_timestamp : Reads timestamp (fun c _ => ledger_timestamp c).
Proof. intros c s a s' [= <- <-]. done. Qed.

#[export] Instance reads_sequence : Reads sequence (fun c _ => ledger_sequence c).
Proof. intros c s a s' [= <- <-]. done. Qed.

#[export] Instance reads_current : Reads current_contract_address (fun c _ => current_contract c).
Proof. intros c s a s' [= <- <-]. done. Qed.

#[export] Instance reads_iextend : Reads iextend_ttl (fun _ _ => tt).
Proof. intros c s [] s' [= <-]. done. Qed.
End reads_instances.

(** [mstep H] peels one bind off a successful run [H] and inverts the operation
    it started with; [minv H] repeats this as far as conditionals and
    primitives go.  Calls it does not know stay as equations. *)
Ltac mleaf Hm :=
  lazymatch type of Hm with
  | mret _ _ _ = Ok _ _ => apply mret_ok in Hm as [? ->]; subst
  | panic_if _ _ _ _ = Ok _ _ => apply panic_if_ok in Hm as [? ->]; bsimp
  | massert _ _ _ _ = Ok _ _ => apply massert_ok in Hm as [? ->]; bsimp
  | panic_when _ _ _ _ = Ok _ _ => apply panic_when_ok in Hm as [? ->]; bsimp
  | or_panic _ _ _ _ = Ok _ _ => apply or_panic_ok in Hm as [? ->]
  | arith _ _ _ = Ok _ _ => apply arith_ok in Hm as [? ->]
  | unwrap _ _ _ _ = Ok _ _ => apply unwrap_ok in Hm as [? ->]
  | pextend_ttl _ _ _ = Ok _ _ => apply pextend_ttl_ok in Hm as [? ->]
  | balance _ _ _ _ = Ok _ _ => unfold balance in Hm; apply host_read_ok in Hm as [? ->]
  | decimals _ _ _ = Ok _ _ => unfold decimals in Hm; apply host_read_ok in Hm as [? ->]
  | panic_with_error _ _ _ = Ok _ _ => discriminate Hm
  | panic _ _ _ = Ok _ _ => discriminate Hm
  | mfail _ _ _ = Ok _ _ => discriminate Hm
  | ?m ?c ?s = Ok ?a ?s' => first [ apply (reads (m := m) c s a s') in Hm as [? ->] | idtac ]
  | _ => idtac
  end.

Ltac mstep H :=
  lazymatch type of H with
  | mbind _ _ _ _ = Ok _ _ =>
      let a := fresh "a" in let s1 := fresh "s" in let Hm := fresh "Hm" in
      apply mbind_ok in H as (a & s1 & Hm & H);
      lazymatch type of Hm with
      | mbind _ _ _ _ = Ok _ _ => repeat (mstep Hm; try discriminate Hm); mleaf Hm; subst
      | _ => mleaf Hm
      end
  | (if ?b then _ else _) _ _ = Ok _ _ => destruct b eqn:?
  | (match ?x with _ => _ end) _ _ = Ok _ _ => destruct x eqn:?
  | (let _ := _ in _) _ _ = Ok _ _ => cbv zeta in H
  end.

Ltac minv H := repeat (mstep H; try discriminate H); mleaf H; subst.

(** ** The [steps] judgement: every successful run moves the state along [R] *)
Definition steps `{C : Contract} `{H : Host} {A} (R : State -> State -> Prop) (m : M A) : Prop :=
  forall c s a s', m c s = Ok a s' -> R s s'.

Section steps_lemmas.
Context `{C : Contract} `{H : Host} (R : State -> State -> Prop) `{!PreOrder R}.

Lemma steps_bind {A B} (m : M A) (k : A -> M B) :
  steps R m -> (forall a, steps R (k a)) -> steps R (mbind m k).
Proof. intros Hm Hk c s b s' (a & s1 & H1 & H2)%mbind_ok. etrans; [by eapply Hm|by eapply Hk]. Qed.

Lemma steps_reads {A} (m : M A) f `{!Reads m f} : steps R m.
Proof. by intros c s a s' [_ ->]%reads. Qed.

Lemma steps_ret {A} (a : A) : steps R (mret a).
Proof. by intros c s b s' [_ ->]%mret_ok. Qed.

Lemma steps_mfail {A} f : steps R (A := A) (mfail f).
Proof. by intros c s b s'. Qed.

Lemma steps_panic_with_error {A} e : steps R (A := A) (panic_with_error e).
Proof. by intros c s b s'. Qed.

Lemma steps_panic {A} e : steps R (A := A) (panic e).
Proof. by intros c s b s'. Qed.

Lemma steps_panic_if b e : steps R (panic_if b e).
Proof. by intros c s u s' [_ ->]%panic_if_ok. Qed.

Lemma steps_massert b e : steps R (massert b e).
Proof. by intros c s u s' [_ ->]%massert_ok. Qed.

Lemma steps_panic_when b e : steps R (panic_when b e).
Proof. by intros c s u s' [_ ->]%panic_when_ok. Qed.

Lemma steps_or_panic {A} (o : option A) e : steps R (or_panic o e).
Proof. by intros c s u s' [_ ->]%or_panic_ok. Qed.

Lemma steps_arith {A} (o : option A) : steps R (arith o).
Proof. by intros c s u s' [_ ->]%arith_ok. Qed.

Lemma steps_unwrap {A} (o : option A) e : steps R (unwrap o e).
Proof. by intros c s u s' [_ ->]%unwrap_ok. Qed.

Lemma steps_pextend k : steps R (pextend_ttl k).
Proof. by intros c s u s' [_ ->]%pextend_ttl_ok. Qed.

Lemma steps_iget k : steps R (iget k).
Proof. by intros c s u s' [= _ <-]. Qed.

Lemma steps_pget k : steps R (pget k).
Proof. by intros c s u s' [= _ <-]. Qed.

Lemma steps_host_read {A} t (f : host -> option A) : steps R (host_read t f).
Proof. by intros c s u s' [_ ->]%host_read_ok. Qed.

Lemma steps_mfor {A} (l : list A) body : (forall x, steps R (body x)) -> steps R (mfor l body).
Proof. intros Hb. induction l; [apply steps_ret|]. by apply steps_bind. Qed.

Lemma steps_mfold {A B} (l : list A) (acc : B) body :
  (forall b x, steps R (body b x)) -> steps R (mfold l acc body).
Proof. intros Hb. revert acc. induction l; intros acc; [apply steps_ret|]. by apply steps_bind. Qed.
End steps_lemmas.

(** ** Frames: the keys an operation leaves alone

    [K a k = true] says that key [k] of store [a] keeps its value. *)
Inductive area := Inst | Pers.

Definition sget `{C : Contract} `{H : Host} (s : State) (a : area) (k : skey) : option (sval k) :=
  match a with Inst => instance_store s k | Pers => persistent_store s k end.

Definition frame `{C : Contract} `{H : Host} (K : area -> skey -> bool) (s s' : State) : Prop :=
  forall a k, K a k = true -> sget s' a k = sget s a k.

Section frame_lemmas.
Context `{C : Contract} `{H : Host} (K : area -> skey -> bool).

#[export] Instance frame_preorder : PreOrder (frame K).
Proof.
  split; [by intros s a k|]. intros s1 s2 s3 H12 H23 a k Hk. by rewrite H23, H12.
Qed.

Lemma frame_same_stores s s' :
  instance_store s' = instance_store s -> persistent_store s' = persistent_store s -> frame K s s'.
Proof. intros Hi Hp [] k _; cbn; congruence. Qed.

Lemma steps_publish e : steps (frame K) (publish e).
Proof. intros c s u s' ->%publish_ok. by apply frame_same_stores. Qed.

Lemma steps_host_call {A} t (f : Ctx -> host -> option (A * host)) : steps (frame K) (host_call t f).
Proof.
  intros c s u s'. unfold host_call. destruct (f c (host_state s)) as [[a h]|]; [|done].
  intros [= _ <-]. by apply frame_same_stores.
Qed.

Lemma steps_iset k v : K Inst k = false -> steps (frame K) (iset k v).
Proof.
  intros Hk c s u s' ->%iset_ok [] k' Hk'; cbn; [|done].
  apply store_put_ne. intros ->. congruence.
Qed.

Lemma steps_pset k v : K Pers k = false -> steps (frame K) (pset k v).
Proof.
  intros Hk c s u s' ->%pset_ok [] k' Hk'; cbn; [done|].
  apply store_put_ne. intros ->. congruence.
Qed.

Lemma steps_iremove k : K Inst k = false -> steps (frame K) (iremove k).
Proof.
  intros Hk c s u s' ->%iremove_ok [] k' Hk'; cbn; [|done].
  apply store_remove_ne. intros ->. congruence.
Qed.

Lemma steps_premove k : K Pers k = false -> steps (frame K) (premove k).
Proof.
  intros Hk c s u s' ->%premove_ok [] k' Hk'; cbn; [done|].
  apply store_remove_ne. intros ->. congruence.
Qed.

Lemma steps_weaken {A} (K' : area -> skey -> bool) (m : M A) :
  (forall a k, K a k = true -> K' a k = true) -> steps (frame K') m -> steps (frame K) m.
Proof. intros HK Hm c s a s' Hok a' k Hk. eapply Hm; [done|]. by apply HK. Qed.
End frame_lemmas.

Lemma frame_weaken `{C : Contract} `{H : Host} (K K' : area -> skey -> bool) (s s' : State) :
  (forall a k, K a k = true -> K' a k = true) -> frame K' s s' -> frame K s s'.
Proof. intros HK Hf a k Hk. apply Hf. by apply HK. Qed.

(** The same facts about a given run. *)
Section frame_runs.
Context `{C : Contract} `{H : Host} (K : area -> skey -> bool).

Lemma frame_steps {A} (m : M A) c s a s' : m c s = Ok a s' -> steps (frame K) m -> frame K s s'.
Proof. intros Hr Hm. by eapply Hm. Qed.

Lemma frame_iset k v c s u s' : iset k v c s = Ok u s' -> K Inst k = false -> frame K s s'.
Proof. intros Hr Hk. by eapply (steps_iset K k v). Qed.

Lemma frame_pset k v c s u s' : pset k v c s = Ok u s' -> K Pers k = false -> frame K s s'.
Proof. intros Hr Hk. by eapply (steps_pset K k v). Qed.

Lemma frame_iremove k c s u s' : iremove k c s = Ok u s' -> K Inst k = false -> frame K s s'.
Proof. intros Hr Hk. by eapply (steps_iremove K k). Qed.

Lemma frame_premove k c s u s' : premove k c s = Ok u s' -> K Pers k = false -> frame K s s'.
Proof. intros Hr Hk. by eapply (steps_premove K k). Qed.
End frame_runs.

Definition keep_all `{C : Contract} (a : area) (k : skey) : bool := true.

Create HintDb steps.

(** [steps_tac] proves [steps R m] by the structure of [m]; calls of other
    operations are closed by their lemmas in the database [steps]. *)
Ltac steps_leaf :=
  first
  [ apply steps_ret | apply steps_panic_if | apply steps_massert | apply steps_panic_when | apply steps_or_panic
  | apply steps_arith | apply steps_unwrap | apply steps_panic_with_error | apply steps_panic
  | apply steps_mfail | apply steps_pextend | apply steps_publish
  | apply steps_host_call | apply steps_host_read
  | apply steps_iset; reflexivity | apply steps_pset; reflexivity
  | apply steps_iremove; reflexivity | apply steps_premove; reflexivity
  | solve [eauto with steps]
  | eapply steps_reads; apply _ ].

Ltac steps_tac :=
  cbv zeta;
  lazymatch goal with
  | |- steps _ (mbind _ _) => apply steps_bind; [apply _|steps_tac|intros ?; steps_tac]
  | |- steps _ (mfor _ _) => apply steps_mfor; [apply _|intros ?; steps_tac]
  | |- steps _ (mfold _ _ _) => apply steps_mfold; [apply _|intros ? ?; steps_tac]
  | |- steps _ (if ?b then _ else _) => destruct b; steps_tac
  | |- steps _ (match ?x with _ => _ end) => destruct x; steps_tac
  | |- steps _ (require_auth _) => apply steps_host_call
  | |- steps _ (transfer _ _ _ _) => apply steps_host_call
  | |- steps _ (transfer_from _ _ _ _ _) => apply steps_host_call
  | |- steps _ (balance _ _) => apply steps_host_read; apply _
  | |- steps _ (decimals _) => apply steps_host_read; apply _
  | |- _ => steps_leaf; try apply _
  end.

(** ** Framing a handler

    [kframe] proves [steps (frame K) m] by unfolding [m] down to the storage
    operations; [framed H] replaces a run [H] by the frame it satisfies. *)
Ltac head t := lazymatch t with ?f _ => head f | _ => t end.

Ltac kframe :=
  cbv zeta;
  lazymatch goal with
  | |- steps _ (mbind _ _) => apply steps_bind; [apply _|kframe|intros ?; kframe]
  | |- steps _ (mfor _ _) => apply steps_mfor; [apply _|intros ?; kframe]
  | |- steps _ (mfold _ _ _) => apply steps_mfold; [apply _|intros ? ?; kframe]
  | |- steps _ (if ?b then _ else _) => destruct b; kframe
  | |- steps _ (match ?x with _ => _ end) => destruct x; kframe
  | |- steps _ (mret _) => apply steps_ret; apply _
  | |- steps _ (panic_if _ _) => apply steps_panic_if; apply _
  | |- steps _ (massert _ _) => apply steps_massert; apply _
  | |- steps _ (panic_when _ _) => apply steps_panic_when; apply _
  | |- steps _ (or_panic _ _) => apply steps_or_panic; apply _
  | |- steps _ (arith _) => apply steps_arith; apply _
  | |- steps _ (unwrap _ _) => apply steps_unwrap; apply _
  | |- steps _ (panic_with_error _) => apply steps_panic_with_error
  | |- steps _ (panic _) => apply steps_panic
  | |- steps _ (mfail _) => apply steps_mfail
  | |- steps _ (Soroban.pextend_ttl _) => apply steps_pextend; apply _
  | |- steps _ (publish _) => apply steps_publish
  | |- steps _ (host_call _ _) => apply steps_host_call
  | |- steps _ (host_read _ _) => apply steps_host_read; apply _
  | |- @steps ?C0 _ _ ?R (Soroban.iget ?k) => exact (@steps_iget C0 _ R _ k)
  | |- @steps ?C0 _ _ ?R (Soroban.pget ?k) => exact (@steps_pget C0 _ R _ k)
  | |- steps _ (Soroban.iset _ _) => apply steps_iset; reflexivity
  | |- steps _ (Soroban.pset _ _) => apply steps_pset; reflexivity
  | |- steps _ (Soroban.iremove _) => apply steps_iremove; reflexivity
  | |- steps _ (Soroban.premove _) => apply steps_premove; reflexivity
  | |- steps _ ?m =>
      first [ solve [eauto 2 with steps]
            | eapply steps_reads; apply _
            | let h := head m in unfold h; kframe ]
  end.

Ltac framed K Hm :=
  lazymatch type of Hm with
  | ?m ?c ?s = Ok ?a ?s' =>
      let F := fresh "F" in
      assert (frame K s s') as F by (refine (frame_steps K m c s a s' Hm _); kframe);
      clear Hm
  end.

(** [sput] evaluates reads of updated stores when the keys are syntactically
    equal or distinguishable. *)
Ltac sput :=
  cbn [instance_store persistent_store set_instance set_persistent set_host host_state events] in *;
  repeat first
    [ rewrite store_put_eq
    | rewrite store_put_ne by first [discriminate | congruence]
    | rewrite store_remove_eq
    | rewrite store_remove_ne by first [discriminate | congruence] ].
