(* ===== verification/History.v ===== *)
(** * Histories of a contract

    The sequences of successful invocations of a contract, with any host in
    between, as the smaller contracts' theorems quantify over them. *)
From S2P Require Import Prelude Soroban.

Section history.
Context `{C : Contract} `{H : Host} {Call R : Type} (run : Call -> M R).

(** [history tr s0 s]: the calls [tr], oldest first, lead from [s0] to [s]. *)
Inductive history : list Call -> State -> State -> Prop :=
| hist_start s : history [] s s
| hist_call tr s0 s h call c r s' :
    history tr s0 s -> run call c (set_host h s) = Ok r s' -> history (tr ++ [call]) s0 s'.

(** A property of the stores kept by every call holds along every history. *)
Lemma history_keeps (I : State -> Prop) tr s0 s :
  (forall h s, I s -> I (set_host h s)) ->
  (forall call c s r s', run call c s = Ok r s' -> I s -> I s') ->
  history tr s0 s -> I s0 -> I s.
Proof. intros Hh Hs Hr H0. induction Hr; [done|]. eapply Hs; [done|]. by apply Hh, IHHr. Qed.

(** A deployed contract that has not run yet. *)
Definition fresh (s : State) : Prop :=
  instance_store s = store_empty /\ persistent_store s = store_empty.

(** Running one call and keeping the state, for concrete histories. *)
Definition next (call : Call) (c : Ctx) (s : State) : State :=
  match run call c s with Ok _ s' => s' | Fail _ => s end.

Definition result (call : Call) (c : Ctx) (s : State) : option R :=
  match run call c s with Ok r _ => Some r | Fail _ => None end.

Lemma run_next call c s r : result call c s = Some r -> run call c s = Ok r (next call c s).
Proof. unfold result, next. destruct (run call c s); [by intros [= ->]|done]. Qed.

Lemma history_next tr s0 s h call c r :
  history tr s0 s -> result call c (set_host h s) = Some r -> history (tr ++ [call]) s0 (next call c (set_host h s)).
Proof. intros Hh Hr. eapply hist_call; [exact Hh|]. by apply run_next. Qed.
End history.

(** Running forwards: the first step of a bind. *)
Lemma mbind_run `{C : Contract} `{H : Host} {A B} (m : M A) (k : A -> M B) c s a s1 :
  m c s = Ok a s1 -> mbind m k c s = k a c s1.
Proof. unfold mbind. by intros ->. Qed.

Lemma require_auth_run `{C : Contract} `{H : Host} a c (s : State) h :
  host_require_auth a (host_state s) = Some h -> require_auth a c s = Ok tt (set_host h s).
Proof. unfold require_auth, host_call. by intros ->. Qed.

Lemma host_call_ok `{C : Contract} `{H : Host} {A} t (f : Ctx -> host -> option (A * host)) c s a s' :
  host_call t f c s = Ok a s' -> exists h, f c (host_state s) = Some (a, h) /\ s' = set_host h s.
Proof. unfold host_call. destruct (f c (host_state s)) as [[x h]|]; [|done]. intros [= <- <-]. by eauto. Qed.

(** [prims] inverts the storage, event, authorisation and token operations that
    [minv] leaves as equations; [srun H] runs a handler down to its effects. *)
Ltac prims :=
  repeat match goal with
  | Hq : Soroban.iset _ _ _ _ = Ok _ _ |- _ => apply iset_ok in Hq as ->
  | Hq : Soroban.pset _ _ _ _ = Ok _ _ |- _ => apply pset_ok in Hq as ->
  | Hq : Soroban.iremove _ _ _ = Ok _ _ |- _ => apply iremove_ok in Hq as ->
  | Hq : Soroban.premove _ _ _ = Ok _ _ |- _ => apply premove_ok in Hq as ->
  | Hq : Soroban.publish _ _ _ = Ok _ _ |- _ => apply publish_ok in Hq as ->
  | Hq : require_auth _ _ _ = Ok _ _ |- _ => apply require_auth_ok in Hq as (? & ? & ->)
  | Hq : host_call _ _ _ _ = Ok _ _ |- _ => apply host_call_ok in Hq as (? & ? & ->)
  | Hq : transfer _ _ _ _ _ _ = Ok _ _ |- _ => apply transfer_ok in Hq as (? & ? & ->)
  end.

Ltac sput_in :=
  repeat match goal with
  | Hq : context [store_put ?k _ _ ?k'] |- _ => rewrite store_put_ne in Hq by discriminate
  | Hq : context [store_remove ?k _ ?k'] |- _ => rewrite store_remove_ne in Hq by discriminate
  end.

Ltac srun H := minv H; prims; sput; sput_in.
