(* ===== verification/World.v ===== *)
(** * A contract inside the world of another

    When a contract of this repository calls another one, the callee is not a
    parameter: the caller's host is a world that holds the callee's stores, and a
    call of the client runs the callee's own operations on them.  [joint_host]
    makes such a world from a base host, [call_into] is the cross-contract call,
    and a call whose callee fails leaves the world as it was. *)
From S2P Require Import Prelude Soroban.

(** A base host, and the stores of the one deployed instance of contract [C]. *)
Record World (C : Contract) (B : Type) := mkWorld {
  w_base : B;
  w_inst : store (H := C);
  w_pers : store (H := C);
  w_events : list (cevent (Contract := C));
}.
Arguments mkWorld {C B}.
Arguments w_base {C B}.
Arguments w_inst {C B}.
Arguments w_pers {C B}.
Arguments w_events {C B}.

Definition on_base {C B} (f : B -> option B) (w : World C B) : option (World C B) :=
  let? b := f (w_base w) in Some (mkWorld b (w_inst w) (w_pers w) (w_events w)).

(** The world as a host of the calling contract. *)
Definition joint_host (C : Contract) (base : Host) : Host := {|
  host := World C (@host base);
  host_require_auth a := on_base (@host_require_auth base a);
  token_balance t a w := @token_balance base t a (w_base w);
  token_decimals t w := @token_decimals base t (w_base w);
  token_transfer self t f to amt := on_base (@token_transfer base self t f to amt);
  token_transfer_from self t sp f to amt := on_base (@token_transfer_from base self t sp f to amt);
|}.

(** Inside a call the calling contract's own address needs no signature. *)
Definition invoker_host (invoker : Address) (base : Host) : Host := {|
  host := @host base;
  host_require_auth a h := if decide (a = invoker) then Some h else @host_require_auth base a h;
  token_balance := @token_balance base;
  token_decimals := @token_decimals base;
  token_transfer := @token_transfer base;
  token_transfer_from := @token_transfer_from base;
|}.

Section world.
Context {C : Contract}.

(** The callee's state in the world, and back; [H] is the host the callee runs on. *)
Definition state_in (H : Host) (w : World C (@host H)) : State (C := C) (H := H) :=
  mkState (H := H) (w_inst w) (w_pers w) (w_base w) (w_events w).

Definition world_of (H : Host) (s : State (C := C) (H := H)) : World C (@host H) :=
  mkWorld (host_state s) (instance_store s) (persistent_store s) (events s).

(** A cross-contract call: [None] when the callee fails. *)
Definition call_into (H : Host) {A} (m : M (C := C) (H := H) A) (c : Ctx) (w : World C (@host H))
  : option (A * World C (@host H)) :=
  match m c (state_in H w) with Ok a s' => Some (a, world_of H s') | Fail _ => None end.

Lemma call_into_ok (H : Host) {A} (m : M A) c w a w' :
  call_into H m c w = Some (a, w') -> exists s', m c (state_in H w) = Ok a s' /\ w' = world_of H s'.
Proof. unfold call_into. destruct (m c (state_in H w)) as [x s'|]; [|done]. intros [= <- <-]. by exists s'. Qed.

Lemma on_base_keeps {B} (f : B -> option B) (w w' : World C B) :
  on_base f w = Some w' -> w_inst w' = w_inst w /\ w_pers w' = w_pers w /\ f (w_base w) = Some (w_base w').
Proof. unfold on_base. destruct (f (w_base w)); [|done]. by intros [= <-]. Qed.

Lemma state_in_world_of (H : Host) s : state_in H (world_of H s) = s.
Proof. by destruct s. Qed.
End world.
