(* ===== verification/Escrow.v ===== *)
(** * The campaign escrow contract ([soroban/contracts/escrow/src/lib.rs])

    Contributions to one campaign, refunds when it fails, withdrawals the admin
    approves, and a platform fee changed in two steps; every entrypoint. *)
From S2P Require Import Prelude Soroban.

(** ** Storage keys and events *)
Inductive EscrowKey :=
| EkAdmin | EkCampaignId | EkTarget | EkDeadline | EkAsset
| EkBalances (a : Address)
| EkTotalRaised | EkApprovedWithdrawal | EkIsInitialized | EkPlatformFeeBps
| EkPlatformFeeRecipient | EkPendingFeeBps.

#[export] Instance EscrowKey_eq_dec : EqDecision EscrowKey.
Proof. solve_decision. Defined.

Inductive EscrowValType := EvZ | EvBool | EvAddr.

#[export] Instance EscrowValType_eq_dec : EqDecision EscrowValType.
Proof. solve_decision. Defined.

Definition escrow_interp (t : EscrowValType) : Type :=
  match t with EvZ => Z | EvBool => bool | EvAddr => Address end.

Definition EscrowKey_type (k : EscrowKey) : EscrowValType :=
  match k with
  | EkAdmin | EkAsset | EkPlatformFeeRecipient => EvAddr
  | EkIsInitialized => EvBool
  | _ => EvZ
  end.

Inductive EscrowEvent :=
| EvDeposit (from : Address) (amount : Z)
| EvFeeProposed (admin : Address) (new_fee_bps : Z)
| EvFeeChanged (admin : Address) (new_fee_bps : Z)
| EvFeeCancelled (admin : Address)
| EvWithdrawal (to : Address) (release_amount net_amount fee_amount : Z)
| EvRefund (contributor : Address) (amount : Z).

(** The contract fails by [panic!] only; it has no error codes. *)
#[export] Instance EscrowContract : Contract := {|
  skey := EscrowKey;
  skey_eq_dec := EscrowKey_eq_dec;
  sty := EscrowValType;
  sty_eq_dec := EscrowValType_eq_dec;
  sinterp := escrow_interp;
  kty := EscrowKey_type;
  cevent := EscrowEvent;
  cerror := Empty_set;
|}.

Abbreviation EM := (Soroban.M (C := EscrowContract)).

Definition MAX_FEE_BPS : Z := 1000.

Module Escrow.
Section entrypoints.
Context `{H : Host}.
Abbreviation iget k := (Soroban.iget (C := EscrowContract) k).
Abbreviation iset k v := (Soroban.iset (C := EscrowContract) k v).
Abbreviation pget k := (Soroban.pget (C := EscrowContract) k).
Abbreviation pset k v := (Soroban.pset (C := EscrowContract) k v).
Abbreviation publish := (Soroban.publish (C := EscrowContract)).

Definition bump_instance : EM unit := iextend_ttl.

Definition bump_persistent (k : EscrowKey) : EM unit := Soroban.pextend_ttl (C := EscrowContract) k.

Definition initialize (admin : Address) (campaign_id target deadline : Z) (asset : Address)
    (platform_fee_bps : Z) (platform_fee_recipient : Address) : EM unit :=
  let* initialized := Soroban.ihas (C := EscrowContract) EkIsInitialized in
  panic_when initialized "Contract is already initialized" ;;
  panic_when (MAX_FEE_BPS <? platform_fee_bps) "Platform fee BPS must not exceed MAX_FEE_BPS" ;;
  iset EkAdmin admin ;;
  iset EkCampaignId campaign_id ;;
  iset EkTarget target ;;
  iset EkDeadline deadline ;;
  iset EkAsset asset ;;
  iset EkTotalRaised 0 ;;
  iset EkApprovedWithdrawal 0 ;;
  iset EkIsInitialized true ;;
  iset EkPlatformFeeBps platform_fee_bps ;;
  iset EkPlatformFeeRecipient platform_fee_recipient ;;
  bump_instance.

(** [get(&DataKey::Admin).unwrap()] followed by [require_auth]. *)
Definition require_admin : EM Address :=
  let* o := iget EkAdmin in
  let* admin := unwrap o "unwrap" in
  require_auth admin ;;
  ret admin.

Definition deposit (from : Address) (amount : Z) : EM unit :=
  require_auth from ;;
  bump_instance ;;
  let* o := iget EkDeadline in
  let* deadline := unwrap o "unwrap" in
  let* current_time := timestamp in
  panic_when (deadline <? current_time) "Campaign deadline has passed" ;;
  let* o := iget EkAsset in
  let* asset := unwrap o "unwrap" in
  let* self := current_contract_address in
  transfer asset from self amount ;;
  let* o := pget (EkBalances from) in
  let current_balance := unwrap_or o 0 in
  let* new_balance := arith (checked_i128 (current_balance + amount)) in
  pset (EkBalances from) new_balance ;;
  bump_persistent (EkBalances from) ;;
  let* o := iget EkTotalRaised in
  let total_raised := unwrap_or o 0 in
  let* new_total := arith (checked_i128 (total_raised + amount)) in
  iset EkTotalRaised new_total ;;
  publish (EvDeposit from amount).

Definition approve_withdrawal (release_amount : Z) : EM unit :=
  require_admin ;;
  bump_instance ;;
  let* o := iget EkApprovedWithdrawal in
  let approved := unwrap_or o 0 in
  let* new_approved := arith (checked_i128 (approved + release_amount)) in
  iset EkApprovedWithdrawal new_approved.

Definition propose_fee_change (new_fee_bps : Z) : EM unit :=
  let* admin := require_admin in
  panic_when (MAX_FEE_BPS <? new_fee_bps) "Platform fee BPS must not exceed MAX_FEE_BPS" ;;
  bump_instance ;;
  iset EkPendingFeeBps new_fee_bps ;;
  publish (EvFeeProposed admin new_fee_bps).

Definition confirm_fee_change : EM unit :=
  let* admin := require_admin in
  let* o := iget EkPendingFeeBps in
  let* new_fee_bps := unwrap o "No pending fee change to confirm" in
  panic_when (MAX_FEE_BPS <? new_fee_bps) "Platform fee BPS must not exceed MAX_FEE_BPS" ;;
  bump_instance ;;
  iset EkPlatformFeeBps new_fee_bps ;;
  Soroban.iremove (C := EscrowContract) EkPendingFeeBps ;;
  publish (EvFeeChanged admin new_fee_bps).

Definition cancel_fee_change : EM unit :=
  let* admin := require_admin in
  let* pending := Soroban.ihas (C := EscrowContract) EkPendingFeeBps in
  panic_when (negb pending) "No pending fee change to cancel" ;;
  bump_instance ;;
  Soroban.iremove (C := EscrowContract) EkPendingFeeBps ;;
  publish (EvFeeCancelled admin).

Definition get_pending_fee : EM (option Z) := iget EkPendingFeeBps.

(** [(release_amount * fee_bps) / 10000], truncating towards zero. *)
Definition fee_amount_of (release_amount fee_bps : Z) : option Z :=
  let? product := checked_i128 (release_amount * fee_bps) in Some (Z.quot product 10000).

(** The two transfers of a withdrawal; each is made only for a positive amount. *)
Definition pay_release (asset to : Address) (net_amount fee_amount : Z) : EM unit :=
  let* self := current_contract_address in
  (if 0 <? net_amount then transfer asset self to net_amount else ret tt) ;;
  (if 0 <? fee_amount then
     let* o := iget EkPlatformFeeRecipient in
     let* fee_recipient := unwrap o "unwrap" in
     transfer asset self fee_recipient fee_amount
   else ret tt).

Definition execute_withdrawal (to : Address) (release_amount : Z) : EM unit :=
  bump_instance ;;
  let* o := iget EkApprovedWithdrawal in
  let approved := unwrap_or o 0 in
  panic_when (approved <? release_amount) "Insufficient approved amount" ;;
  let* o := iget EkAsset in
  let* asset := unwrap o "unwrap" in
  let* o := iget EkPlatformFeeBps in
  let fee_bps := unwrap_or o 0 in
  let* fee_amount := arith (fee_amount_of release_amount fee_bps) in
  let* net_amount := arith (checked_i128 (release_amount - fee_amount)) in
  pay_release asset to net_amount fee_amount ;;
  let* new_approved := arith (checked_i128 (approved - release_amount)) in
  iset EkApprovedWithdrawal new_approved ;;
  publish (EvWithdrawal to release_amount net_amount fee_amount).

Definition refund (contributor : Address) : EM unit :=
  bump_instance ;;
  let* o := iget EkDeadline in
  let* deadline := unwrap o "unwrap" in
  let* now := timestamp in
  panic_when (now <? deadline) "Deadline has not passed" ;;
  let* o := iget EkTotalRaised in
  let total_raised := unwrap_or o 0 in
  let* o := iget EkTarget in
  let* target := unwrap o "unwrap" in
  panic_when (target <=? total_raised) "Campaign succeeded, refunds unavailable" ;;
  bump_persistent (EkBalances contributor) ;;
  let* o := pget (EkBalances contributor) in
  let amount := unwrap_or o 0 in
  panic_when (amount <=? 0) "No contribution to refund" ;;
  let* o := iget EkAsset in
  let* asset := unwrap o "unwrap" in
  let* self := current_contract_address in
  transfer asset self contributor amount ;;
  pset (EkBalances contributor) 0 ;;
  let* o := iget EkTotalRaised in
  let total_raised_current := unwrap_or o 0 in
  let* new_total := arith (checked_i128 (total_raised_current - amount)) in
  iset EkTotalRaised new_total ;;
  publish (EvRefund contributor amount).

Definition get_total_raised : EM Z := let* o := iget EkTotalRaised in ret (unwrap_or o 0).

Definition get_asset : EM Address := let* o := iget EkAsset in unwrap o "unwrap".

Definition get_platform_fee_config : EM (Z * Address) :=
  let* o := iget EkPlatformFeeBps in
  let* r := iget EkPlatformFeeRecipient in
  let* recipient := unwrap r "unwrap" in
  ret (unwrap_or o 0, recipient).
End entrypoints.
End Escrow.

(** ** The entrypoints that change state, as data *)
Inductive ECall :=
| EInitialize (admin : Address) (campaign_id target deadline : Z) (asset : Address)
    (platform_fee_bps : Z) (platform_fee_recipient : Address)
| EDeposit (from : Address) (amount : Z)
| EApprove (release_amount : Z)
| EPropose (new_fee_bps : Z)
| EConfirm
| ECancel
| EExecute (to : Address) (release_amount : Z)
| ERefund (contributor : Address).

Definition run_escrow `{Host} (call : ECall) : EM unit :=
  match call with
  | EInitialize admin cid target deadline asset bps recipient =>
      Escrow.initialize admin cid target deadline asset bps recipient
  | EDeposit from amount => Escrow.deposit from amount
  | EApprove amount => Escrow.approve_withdrawal amount
  | EPropose bps => Escrow.propose_fee_change bps
  | EConfirm => Escrow.confirm_fee_change
  | ECancel => Escrow.cancel_fee_change
  | EExecute to amount => Escrow.execute_withdrawal to amount
  | ERefund contributor => Escrow.refund contributor
  end.
