(* ===== verification/CreditTypes.v ===== *)
(** * Data of the credit contract ([contracts/credit/src/types.rs] and friends)

    The records and enumerations of [types.rs], [penalties.rs], [oracles.rs],
    [scoring.rs] and [attestation.rs], the storage keys of [storage.rs] with the
    type of the value each one holds, the events of [events.rs], and the
    [Contract] instance they make up. *)
From S2P Require Import Prelude Soroban.

(** [BytesN<32>], as its list of bytes. *)
Definition BytesN32 : Type := list Z.

Inductive CreditStatus := Active | Suspended | Defaulted | Closed | Restricted | SelfSuspended.

#[export] Instance CreditStatus_eq_dec : EqDecision CreditStatus.
Proof. solve_decision. Defined.

Inductive ContractError :=
| Unauthorized | NotAdmin | CreditLineNotFound | CreditLineClosed | InvalidAmount | OverLimit
| NegativeLimit | RateTooHigh | ScoreTooHigh | UtilizationNotZero | Reentrancy | Overflow
| AlreadyInitialized | AdminAcceptTooEarly | BorrowerBlocked | DrawExceedsMaxAmount | Paused
| DrawsFrozenErr | CreditLineSuspended | CreditLineDefaulted | MissingLiquidityToken
| MissingLiquiditySource | InsufficientLiquidityReserve | LiquidityTokenCallFailed
| InsufficientRepaymentAllowance | InsufficientRepaymentBalance | RepayExceedsMaxAmount
| DrawCooldownActive | TreasuryNotSet | ExposureCapExceeded | AdminNotInitialized
| TimestampRegression | LimitOutOfBounds | CollateralRatioBelowMinimum | OraclePriceInvalid
| OraclePriceStale | OraclePriceDeviation | InsufficientCollateralBalance | BorrowerFrozen
| BountyNotSet | NoPendingTreasuryWithdrawal | TreasuryTimelockActive | TreasuryProposalExists
| CloseFactorAboveMax | CreditLineFrozen | DrawReversalWindowExpired | OriginalDrawNotFound
| AttestationBatchNotFound | OracleQuorumNotMet | AlreadySettled | InvalidRiskWeight
| InvalidAttestation | RiskAdminCooldownActive | OracleNotFound | FreezeCooldownActive
| AdminCollateralCooldownActive | LiquidationGraceActive | StaleStateTransition
| IncompatibleVersion | AuctionCallFailed | AuctionActive | MissingVrfCommitment
| InsufficientTreasuryBalance | BorrowerExposureCapExceeded.

#[export] Instance ContractError_eq_dec : EqDecision ContractError.
Proof. solve_decision. Defined.

(** The pinned numeric discriminant of each error. *)
Definition error_code (e : ContractError) : Z :=
  match e with
  | Unauthorized => 1 | NotAdmin => 2 | CreditLineNotFound => 3 | CreditLineClosed => 4
  | InvalidAmount => 5 | OverLimit => 6 | NegativeLimit => 7 | RateTooHigh => 8
  | ScoreTooHigh => 9 | UtilizationNotZero => 10 | Reentrancy => 11 | Overflow => 12
  | AlreadyInitialized => 14 | AdminAcceptTooEarly => 15 | BorrowerBlocked => 16
  | DrawExceedsMaxAmount => 17 | Paused => 18 | DrawsFrozenErr => 19 | CreditLineSuspended => 20
  | CreditLineDefaulted => 21 | MissingLiquidityToken => 22 | MissingLiquiditySource => 23
  | InsufficientLiquidityReserve => 24 | LiquidityTokenCallFailed => 25
  | InsufficientRepaymentAllowance => 26 | InsufficientRepaymentBalance => 27
  | RepayExceedsMaxAmount => 28 | DrawCooldownActive => 29 | TreasuryNotSet => 30
  | ExposureCapExceeded => 31 | AdminNotInitialized => 32 | TimestampRegression => 33
  | LimitOutOfBounds => 34 | CollateralRatioBelowMinimum => 35 | OraclePriceInvalid => 36
  | OraclePriceStale => 37 | OraclePriceDeviation => 38 | InsufficientCollateralBalance => 39
  | BorrowerFrozen => 40 | BountyNotSet => 41 | NoPendingTreasuryWithdrawal => 42
  | TreasuryTimelockActive => 43 | TreasuryProposalExists => 44 | CloseFactorAboveMax => 45
  | CreditLineFrozen => 46 | DrawReversalWindowExpired => 47 | OriginalDrawNotFound => 48
  | AttestationBatchNotFound => 49 | OracleQuorumNotMet => 50 | AlreadySettled => 51
  | InvalidRiskWeight => 52 | InvalidAttestation => 53 | RiskAdminCooldownActive => 54
  | OracleNotFound => 55 | FreezeCooldownActive => 57 | AdminCollateralCooldownActive => 58
  | LiquidationGraceActive => 59 | StaleStateTransition => 60 | IncompatibleVersion => 61
  | AuctionCallFailed => 62 | AuctionActive => 63 | MissingVrfCommitment => 64
  | InsufficientTreasuryBalance => 65 | BorrowerExposureCapExceeded => 66
  end.

Inductive ContractErrorCategory :=
| CatAuth | CatLifecycle | CatNumeric | CatLimit | CatLiquidity | CatRisk | CatOracle
| CatCollateral | CatBlock | CatReentrancy | CatMisc | CatHandshake.

Definition category (e : ContractError) : ContractErrorCategory :=
  match e with
  | Unauthorized | NotAdmin | AdminNotInitialized => CatAuth
  | CreditLineClosed | AlreadyInitialized | CreditLineSuspended | CreditLineDefaulted
  | AlreadySettled | LiquidationGraceActive | StaleStateTransition | AuctionActive => CatLifecycle
  | InvalidAmount | NegativeLimit | Overflow | TimestampRegression | LimitOutOfBounds
  | InvalidRiskWeight => CatNumeric
  | OverLimit | UtilizationNotZero | DrawExceedsMaxAmount | RepayExceedsMaxAmount
  | DrawReversalWindowExpired | CloseFactorAboveMax | BorrowerExposureCapExceeded => CatLimit
  | MissingLiquidityToken | MissingLiquiditySource | InsufficientLiquidityReserve
  | LiquidityTokenCallFailed | InsufficientRepaymentAllowance | InsufficientRepaymentBalance
  | TreasuryNotSet | InsufficientTreasuryBalance | ExposureCapExceeded | BountyNotSet =>
      CatLiquidity
  | RateTooHigh | ScoreTooHigh | Paused | DrawCooldownActive | RiskAdminCooldownActive => CatRisk
  | OraclePriceInvalid | OraclePriceStale | OraclePriceDeviation | OracleQuorumNotMet
  | OracleNotFound => CatOracle
  | CollateralRatioBelowMinimum | InsufficientCollateralBalance
  | AdminCollateralCooldownActive => CatCollateral
  | DrawsFrozenErr | BorrowerFrozen | BorrowerBlocked | CreditLineFrozen
  | FreezeCooldownActive => CatBlock
  | Reentrancy => CatReentrancy
  | CreditLineNotFound | AdminAcceptTooEarly | NoPendingTreasuryWithdrawal
  | TreasuryTimelockActive | TreasuryProposalExists | OriginalDrawNotFound
  | AttestationBatchNotFound | InvalidAttestation | MissingVrfCommitment => CatMisc
  | IncompatibleVersion | AuctionCallFailed => CatHandshake
  end.

Record CreditLineData := mkLine {
  cl_borrower : Address;
  cl_credit_limit : Z;
  cl_utilized_amount : Z;
  cl_interest_rate_bps : Z;
  cl_risk_score : Z;
  cl_status : CreditStatus;
  cl_last_rate_update_ts : Z;
  cl_accrued_interest : Z;
  cl_last_accrual_ts : Z;
  cl_suspension_ts : Z;
}.

Section setters.
Variable l : CreditLineData.

Definition set_limit (v : Z) : CreditLineData :=
  mkLine (cl_borrower l) v (cl_utilized_amount l) (cl_interest_rate_bps l) (cl_risk_score l)
    (cl_status l) (cl_last_rate_update_ts l) (cl_accrued_interest l) (cl_last_accrual_ts l)
    (cl_suspension_ts l).

Definition set_utilized (v : Z) : CreditLineData :=
  mkLine (cl_borrower l) (cl_credit_limit l) v (cl_interest_rate_bps l) (cl_risk_score l)
    (cl_status l) (cl_last_rate_update_ts l) (cl_accrued_interest l) (cl_last_accrual_ts l)
    (cl_suspension_ts l).

Definition set_rate (v : Z) : CreditLineData :=
  mkLine (cl_borrower l) (cl_credit_limit l) (cl_utilized_amount l) v (cl_risk_score l)
    (cl_status l) (cl_last_rate_update_ts l) (cl_accrued_interest l) (cl_last_accrual_ts l)
    (cl_suspension_ts l).

Definition set_score (v : Z) : CreditLineData :=
  mkLine (cl_borrower l) (cl_credit_limit l) (cl_utilized_amount l) (cl_interest_rate_bps l) v
    (cl_status l) (cl_last_rate_update_ts l) (cl_accrued_interest l) (cl_last_accrual_ts l)
    (cl_suspension_ts l).

Definition set_status (v : CreditStatus) : CreditLineData :=
  mkLine (cl_borrower l) (cl_credit_limit l) (cl_utilized_amount l) (cl_interest_rate_bps l)
    (cl_risk_score l) v (cl_last_rate_update_ts l) (cl_accrued_interest l)
    (cl_last_accrual_ts l) (cl_suspension_ts l).

Definition set_last_rate_update_ts (v : Z) : CreditLineData :=
  mkLine (cl_borrower l) (cl_credit_limit l) (cl_utilized_amount l) (cl_interest_rate_bps l)
    (cl_risk_score l) (cl_status l) v (cl_accrued_interest l) (cl_last_accrual_ts l)
    (cl_suspension_ts l).

Definition set_accrued (v : Z) : CreditLineData :=
  mkLine (cl_borrower l) (cl_credit_limit l) (cl_utilized_amount l) (cl_interest_rate_bps l)
    (cl_risk_score l) (cl_status l) (cl_last_rate_update_ts l) v (cl_last_accrual_ts l)
    (cl_suspension_ts l).

Definition set_last_accrual_ts (v : Z) : CreditLineData :=
  mkLine (cl_borrower l) (cl_credit_limit l) (cl_utilized_amount l) (cl_interest_rate_bps l)
    (cl_risk_score l) (cl_status l) (cl_last_rate_update_ts l) (cl_accrued_interest l) v
    (cl_suspension_ts l).

Definition set_suspension_ts (v : Z) : CreditLineData :=
  mkLine (cl_borrower l) (cl_credit_limit l) (cl_utilized_amount l) (cl_interest_rate_bps l)
    (cl_risk_score l) (cl_status l) (cl_last_rate_update_ts l) (cl_accrued_interest l)
    (cl_last_accrual_ts l) v.
End setters.

Record RepaymentSchedule := mkSchedule {
  amount_per_period : Z;
  period_seconds : Z;
  next_due_ts : Z;
}.

Record RateChangeConfig := mkRateChange {
  max_rate_change_bps : Z;
  rate_change_min_interval : Z;
}.

Record RateFormulaConfig := mkFormula {
  base_rate_bps : Z;
  slope_bps_per_score : Z;
  min_rate_bps : Z;
  max_rate_bps : Z;
}.

Inductive GraceWaiverMode := FullWaiver | ReducedRate.

Record GracePeriodConfig := mkGrace {
  grace_period_seconds : Z;
  waiver_mode : GraceWaiverMode;
  reduced_rate_bps : Z;
}.

Inductive CollateralEventKind := Deposited | Withdrawn | PartiallyReleased | Released.

Inductive FreezeReason :=
| LiquidityReserve | Compliance | RiskInvestigation | OperationalMaintenance
| BorrowerRequest | AdminAction.

Record DrawsFreezeState := mkFreezeState {
  frozen : bool;
  freeze_reason : FreezeReason;
}.

Record OracleConfig := mkOracleConfig {
  oc_max_deviation_bps : Z;
  oc_max_age_seconds : Z;
}.

Record OracleQuorumConfig := mkQuorumConfig {
  min_quorum_k : Z;
  qc_max_deviation_bps : Z;
  qc_max_age_seconds : Z;
}.

Record TreasuryWithdrawalProposal := mkProposal {
  tp_recipient : Address;
  tp_amount : Z;
  tp_proposer : Address;
  tp_proposed_at : Z;
  tp_execute_after : Z;
}.

Record PauseReason := mkPauseReason {
  pr_reason : Symbol;
  pr_timestamp : Z;
  pr_actor : Address;
}.

(** ** [penalties.rs] *)
Record FlatFeeConfig := mkFlat { flat_amount : Z }.

Record AprFeeConfig := mkApr { surcharge_bps : Z }.

Inductive LateFeeConfig := Flat (cfg : FlatFeeConfig) | AprBased (cfg : AprFeeConfig).

(** ** [oracles.rs], [scoring.rs], [attestation.rs], [handshake.rs] *)
Record OracleReportData := mkReport { report_value_ : Z; report_timestamp : Z }.

Record VrfCommitment := mkVrf { commitment_hash : BytesN32; vrf_committed_at : Z }.

Record AttestationBatch := mkBatch {
  merkle_root : BytesN32;
  batch_count : Z;
  batch_committed_at : Z;
}.

Record ProtocolVersion := mkVersion { version_major : Z; version_minor : Z }.

(** ** View results *)
Record ProtocolConfig := mkProtocolConfig {
  pc_liquidity_token : option Address;
  pc_liquidity_source : option Address;
}.

Record ProtocolSummary := mkSummary {
  ps_count : Z;
  ps_total_utilized : Z;
  ps_total_collateral : Z;
  ps_treasury_balance : Z;
  ps_bounty_balance : Z;
}.

Record ProtocolSummaryView := mkSummaryView {
  pv_total_utilized : Z;
  pv_total_collateral : Z;
  pv_active_line_count : Z;
}.

Record CreditLineSnapshot := mkSnapshot {
  sn_line : CreditLineData;
  sn_collateral_balance : Z;
  sn_health_factor_bps : Z;
  sn_repayment_schedule : list RepaymentSchedule;
  sn_is_delinquent : bool;
}.

Record BorrowCapabilities := mkBorrowCaps {
  can_draw : bool;
  can_repay : bool;
  can_self_suspend : bool;
}.

Record LifecycleCapabilities := mkLifecycleCaps {
  lc_can_suspend : bool;
  lc_can_self_suspend : bool;
  lc_can_close_admin : bool;
  lc_can_close_borrower : bool;
  lc_can_default : bool;
  lc_can_reinstate : bool;
}.

Record QueryCapabilities := mkQueryCaps {
  has_credit_line : bool;
  has_repayment_schedule : bool;
  health_factor_applicable : bool;
  delinquency_applicable : bool;
  qc_is_delinquent : bool;
}.

Record ProofOfReserve := mkReserve { por_treasury_balance : Z; por_bounty_balance : Z }.

Record CreditLinesPage := mkPage {
  page_lines : list CreditLineData;
  next_cursor : option Z;
  has_more : bool;
}.

Record BorrowStateSnapshot := mkBorrowState {
  bs_credit_line : list CreditLineData;
  bs_collateral_balance : Z;
  bs_capabilities : BorrowCapabilities;
}.

Record CollateralState := mkCollateralState {
  cs_borrower : Address;
  cs_balance : Z;
  cs_min_ratio_bps : Z;
  cs_collateral_token : option Address;
  cs_health_factor_bps : Z;
}.

(** ** Storage keys ([storage.rs], [oracles.rs], [lifecycle.rs]) *)
Record DrawAuditKey := mkDrawAuditKey { da_borrower : Address; da_timestamp : Z }.

#[export] Instance DrawAuditKey_eq_dec : EqDecision DrawAuditKey.
Proof. solve_decision. Defined.

Module DK.
Inductive DataKey :=
| LiquidityToken | LiquiditySource | DrawsFrozen | SchemaVersion | CreditLineCount
| ActiveLineCount | PendingAuctionCount
| CreditLineIdByBorrower (b : Address) | CreditLineBorrowerById (id : Z)
| TotalUtilized | MaxDrawAmount | MaxRepayAmount | DrawMinIntervalSeconds
| LastDrawTs (b : Address) | BlockedBorrower (b : Address) | FrozenBorrower (b : Address)
| CreditLineFreeze (b : Address) | UtilizationCapBps (b : Address)
| BorrowAdminCooldownSeconds | LastBorrowAdminActionTs (b : Address)
| AccrualAdminCooldownSeconds | LastAccrualAdminActionTs (b : Address)
| RateFloorBps (b : Address) | RateCeilingBps (b : Address) | RepaymentSchedule (b : Address)
| VrfCommitment (b : Address) | MinCreditLimit | MaxCreditLimit | CloseFactorBps
| PenaltySurchargeBps | LateFeeFlat | LateFeeConfig | AuctionContract | MaxTotalExposure
| ProtocolFeeBps | TreasuryFeeShareBps | TreasuryAddress | TreasuryBalance | BountyAddress
| BountyBalance | CollateralBalance (b : Address) | CollateralBalanceV2 (b token : Address)
| MinCollateralRatioBps | AdminCollateralCooldownSeconds | LastColAdminActionTs
| CollateralRiskWeightBps (asset : Address) | DrawAudit (k : DrawAuditKey)
| DrawReversedAmount (k : DrawAuditKey) | OracleConfig | OracleLastPrice | OracleLastPriceTs
| OracleQuorumConfig | OracleQuorumPrice | OracleQuorumPriceTs | TotalCollateral
| PendingTreasuryWithdrawal | PauseReason | MaxBorrowerExposure (b : Address)
| FreezeCooldownSeconds | LastFreezeTimestamp | LiquidationGracePeriod (b : Address)
| BorrowerExposureCap (b : Address) | CollateralTokenAllowlist | AttestationBatch (b : Address).
End DK.

#[export] Instance DataKey_eq_dec : EqDecision DK.DataKey.
Proof. solve_decision. Defined.

Inductive OracleDataKey :=
| OracleList | OracleWeight (o : Address) | OracleReport (o : Address)
| QuorumThreshold | ReportingWindow.

#[export] Instance OracleDataKey_eq_dec : EqDecision OracleDataKey.
Proof. solve_decision. Defined.

(** The bare [Symbol] keys of instance storage. *)
Inductive SymbolKey :=
| sym_admin | sym_proposed_admin | sym_proposed_at | sym_reentrancy | sym_rate_cfg
| sym_rate_form | sym_paused | sym_grace_cfg | sym_rad_cool | sym_rad_last.

#[export] Instance SymbolKey_eq_dec : EqDecision SymbolKey.
Proof. solve_decision. Defined.

(** Every key the contract uses: an enum key, a symbol, a borrower address (its
    credit line), the settlement marker and the per-borrower risk stamp tuples. *)
Inductive StorageKey :=
| KData (d : DK.DataKey)
| KOracle (d : OracleDataKey)
| KSym (d : SymbolKey)
| KLine (borrower : Address)
| KLiqSeen (borrower : Address) (settlement_id : Symbol)
| KRadLast (borrower : Address).

#[export] Instance StorageKey_eq_dec : EqDecision StorageKey.
Proof. solve_decision. Defined.

Coercion KData : DK.DataKey >-> StorageKey.
Coercion KOracle : OracleDataKey >-> StorageKey.
Coercion KSym : SymbolKey >-> StorageKey.

Inductive ValType :=
| TZ | TBool | TUnit | TAddr | TAddrs | TLine | TSchedule | TRateChange | TFormula | TGrace
| TFreezeState | TReason | TLateFee | TOracleCfg | TQuorumCfg | TProposal | TPause | TVrf
| TBatch | TReport.

Definition interp (t : ValType) : Type :=
  match t with
  | TZ => Z | TBool => bool | TUnit => unit | TAddr => Address | TAddrs => list Address
  | TLine => CreditLineData | TSchedule => RepaymentSchedule | TRateChange => RateChangeConfig
  | TFormula => RateFormulaConfig | TGrace => GracePeriodConfig | TFreezeState => DrawsFreezeState
  | TReason => FreezeReason | TLateFee => LateFeeConfig | TOracleCfg => OracleConfig
  | TQuorumCfg => OracleQuorumConfig | TProposal => TreasuryWithdrawalProposal
  | TPause => PauseReason | TVrf => VrfCommitment | TBatch => AttestationBatch
  | TReport => OracleReportData
  end.

Definition DataKey_type (d : DK.DataKey) : ValType :=
  match d with
  | DK.LiquidityToken | DK.LiquiditySource | DK.AuctionContract | DK.TreasuryAddress
  | DK.BountyAddress | DK.CreditLineBorrowerById _ => TAddr
  | DK.DrawsFrozen => TFreezeState
  | DK.BlockedBorrower _ => TBool
  | DK.CreditLineFreeze _ => TReason
  | DK.RepaymentSchedule _ => TSchedule
  | DK.VrfCommitment _ => TVrf
  | DK.LateFeeConfig => TLateFee
  | DK.OracleConfig => TOracleCfg
  | DK.OracleQuorumConfig => TQuorumCfg
  | DK.PendingTreasuryWithdrawal => TProposal
  | DK.PauseReason => TPause
  | DK.CollateralTokenAllowlist => TAddrs
  | DK.AttestationBatch _ => TBatch
  | _ => TZ
  end.

Definition StorageKey_type (k : StorageKey) : ValType :=
  match k with
  | KData d => DataKey_type d
  | KOracle OracleList => TAddrs
  | KOracle (OracleReport _) => TReport
  | KOracle _ => TZ
  | KSym sym_admin | KSym sym_proposed_admin => TAddr
  | KSym sym_reentrancy | KSym sym_paused => TBool
  | KSym sym_rate_cfg => TRateChange
  | KSym sym_rate_form => TFormula
  | KSym sym_grace_cfg => TGrace
  | KSym _ => TZ
  | KLine _ => TLine
  | KLiqSeen _ _ => TBool
  | KRadLast _ => TZ
  end.

(** ** Events ([events.rs]) *)
Inductive BorrowLifecyclePhase :=
| PhOpened | PhDrawn | PhRepaid | PhSuspended | PhReinstated | PhDefaulted | PhClosed
| PhDebtForgiven.

(** One constructor per payload, with the fields of the source's event struct. *)
Inductive EventData :=
| CreditLineEvent (borrower : Address) (status : CreditStatus)
    (credit_limit interest_rate_bps risk_score : Z)
| RepaymentEvent (borrower : Address) (amount new_utilized_amount : Z)
| DrawnEvent (borrower : Address) (amount new_utilized_amount timestamp : Z)
| InterestAccruedEvent (borrower : Address) (accrued_amount new_utilized_amount : Z)
| DefaultLiquidationSettledEvent (borrower : Address) (settlement_id : Symbol)
    (recovered_amount interest_recovered principal_recovered remaining_utilized_amount : Z)
    (status : CreditStatus) (close_factor_bps : Z)
| LiquidationRequested (borrower : Address) (utilized_amount : Z)
| AdminRotationProposedEvent (proposed_admin : Address) (accept_after : Z)
| AdminRotationAcceptedEvent (new_admin : Address)
| RiskParametersUpdatedEvent (borrower : Address) (credit_limit interest_rate_bps risk_score : Z)
| DrawReversedEvent (borrower : Address)
    (amount original_ts reason_code new_utilized_amount timestamp : Z) (admin : Address)
    (accounting_only : bool)
| DrawsFrozenEvent (frozen : bool) (reason : FreezeReason)
| RateFormulaConfigEvent (enabled : bool)
| PausedEvent (paused : bool)
| BorrowerBlockedEvent (borrower : Address) (blocked : bool) (ledger : Z)
| BorrowerFrozenEvent (borrower : Address) (frozen_until ledger : Z)
| GraceWaiverAppliedEvent (borrower : Address) (waived_amount : Z) (mode : GraceWaiverMode)
| PenaltyRateEnteredEvent (borrower : Address)
    (base_rate_bps penalty_surcharge_bps effective_rate_bps : Z)
| PenaltyRateExitedEvent (borrower : Address) (previous_rate_bps new_rate_bps : Z)
| CollateralDepositedEvent (borrower : Address) (amount new_balance : Z)
| CollateralWithdrawnEvent (borrower : Address) (amount new_balance : Z)
| CollateralPartialReleasedEvent (borrower : Address)
    (amount_released new_balance health_factor_bps : Z)
| CollateralLifecycleEvent (borrower : Address) (kind : CollateralEventKind)
    (token : option Address) (amount new_balance ledger timestamp : Z)
| ContractUpgradedEvent (old_wasm_hash new_wasm_hash : BytesN32)
| CloseFactorEvent (close_factor_bps : Z)
| OracleConfigEvent (max_deviation_bps max_age_seconds : Z)
| OraclePriceEvent (price timestamp : Z)
| OracleQuorumConfigEvent (min_quorum_k max_deviation_bps max_age_seconds : Z)
| OracleQuorumPriceEvent (price quorum_k ts : Z)
| LateFeeChargedEvent (borrower : Address) (fee installment_index : Z)
| TreasuryWithdrawalProposedEvent (recipient : Address) (amount : Z) (proposer : Address)
    (proposed_at execute_after : Z)
| TreasuryWithdrawalExecutedEvent (recipient : Address) (amount : Z) (executor : Address)
    (executed_at remaining_balance : Z)
| AttestationBatchCommittedEvent (borrower : Address) (root : BytesN32) (count : Z)
| RiskAdminCooldownConfiguredEvent (cooldown_seconds : Z)
| BorrowLifecycleEvent (borrower : Address) (phase : BorrowLifecyclePhase) (status : CreditStatus)
    (utilized_amount credit_limit interest_rate_bps timestamp : Z)
| DebtForgivenEvent (borrower : Address)
    (amount_forgiven remaining_accrued_interest new_utilized_amount : Z)
| FeeAccruedEvent (borrower : Address)
    (fee_amount treasury_amount bounty_amount new_treasury_balance new_bounty_balance : Z)
| CreditLineFreezeEvent (borrower : Address) (frozen : bool) (reason : FreezeReason) (ledger : Z)
| OracleAddedEvent (oracle : Address) (weight timestamp : Z)
| OracleRemovedEvent (oracle : Address) (timestamp : Z)
| OracleQuorumThresholdSetEvent (threshold timestamp : Z)
| OracleReportingWindowSetEvent (window_seconds timestamp : Z)
| OracleValueReportedEvent (oracle : Address) (value timestamp : Z)
| CreditLineOpenedEvent (borrower : Address) (credit_limit interest_rate_bps risk_score timestamp : Z)
| CreditLineSuspendedEvent (borrower : Address) (reason : Symbol) (timestamp : Z)
| CreditLineClosedEvent (borrower closer : Address) (remaining_utilized_amount timestamp : Z)
| DrawnEventV2 (borrower recipient reserve_source : Address) (amount new_utilized_amount timestamp : Z)
| TokenRescuedEvent (token recipient : Address) (amount : Z)
| ProtocolFeeBoundsEvent (min_bps max_bps : Z)
| ProtocolFeeBpsEvent (bps : Z).

Record Event := mkEvent { topics : list Symbol; data : EventData }.

#[export] Instance ValType_eq_dec : EqDecision ValType.
Proof. solve_decision. Defined.

#[export] Instance CreditContract : Contract := {|
  skey := StorageKey;
  skey_eq_dec := StorageKey_eq_dec;
  sty := ValType;
  sty_eq_dec := ValType_eq_dec;
  sinterp := interp;
  kty := StorageKey_type;
  cevent := Event;
  cerror := ContractError;
|}.

(** Storage operations at this contract's keys. *)
Abbreviation iget k := (Soroban.iget (C := CreditContract) (k : StorageKey)).
Abbreviation ihas k := (Soroban.ihas (C := CreditContract) (k : StorageKey)).
Abbreviation iset k v := (Soroban.iset (C := CreditContract) (k : StorageKey) v).
Abbreviation iremove k := (Soroban.iremove (C := CreditContract) (k : StorageKey)).
Abbreviation pget k := (Soroban.pget (C := CreditContract) (k : StorageKey)).
Abbreviation phas k := (Soroban.phas (C := CreditContract) (k : StorageKey)).
Abbreviation pset k v := (Soroban.pset (C := CreditContract) (k : StorageKey) v).
Abbreviation premove k := (Soroban.premove (C := CreditContract) (k : StorageKey)).
Abbreviation pextend_ttl k := (Soroban.pextend_ttl (C := CreditContract) (k : StorageKey)).
