(* ===== verification/AuctionCurves.v ===== *)
(** * Auction prices ([auction_contract/src/curves.rs], [lib.rs])

    The standalone decay curves, the Dutch price the auction entrypoints use and
    the minimum next bid of an English auction.  [None] is a trap. *)
From S2P Require Import Prelude.

Inductive AuctionMode := English | Dutch.

(** [NoDecay] is the source's [DutchAuctionDecay::None]. *)
Inductive DutchAuctionDecay := NoDecay | Linear | Stepped | Exponential.

#[export] Instance AuctionMode_eq_dec : EqDecision AuctionMode.
Proof. solve_decision. Defined.

(** ** [curves.rs] *)
Inductive DecayCurve :=
| LinearCurve (rate : Z)
| SteppedCurve (step_size interval : Z)
| ExponentialCurve (factor scale : Z).

Inductive CurveError := CurveOverflow | InvalidInput.

(** [for _ in 0..elapsed]; the fuel is the number of iterations left. *)
Fixpoint exponential_loop (factor scale : Z) (elapsed : nat) (price : Z) : Z + CurveError :=
  match elapsed with
  | O => inl price
  | S n =>
      match checked_u128 (price * factor) with
      | Some p => exponential_loop factor scale n (p / scale)
      | None => inr CurveOverflow
      end
  end.

Definition calculate_price (start_price elapsed : Z) (curve : DecayCurve) : Z + CurveError :=
  match curve with
  | LinearCurve rate =>
      match checked_u128 (rate * elapsed) with
      | Some decay => inl (sat_u128 (start_price - decay))
      | None => inr CurveOverflow
      end
  | SteppedCurve step_size interval =>
      if interval =? 0 then inr InvalidInput else
      let steps := elapsed / interval in
      match checked_u128 (step_size * steps) with
      | Some decay => inl (sat_u128 (start_price - decay))
      | None => inr CurveOverflow
      end
  | ExponentialCurve factor scale =>
      if scale =? 0 then inr InvalidInput else
      exponential_loop factor scale (Z.to_nat elapsed) start_price
  end.

(** ** [compute_dutch_price] *)

(** [(q * e) + ((r * e) / d)] in [u128], every operator checked. *)
Definition scaled_drop (p e d : Z) : option Z :=
  let q := p / d in
  let r := p mod d in
  let? qe := checked_u128 (q * e) in
  let? re := checked_u128 (r * e) in
  let? drop := checked_u128 (qe + re / d) in
  Some (as_i128 drop).

(** The factor loop, [0.99^t] in basis points. *)
Fixpoint decay_factor (t : nat) (factor : Z) : option Z :=
  match t with
  | O => Some factor
  | S n => let? f := checked_u128 (factor * 9900) in decay_factor n (f / 10000)
  end.

Definition drop_so_far (p elapsed_time duration : Z) (decay : DutchAuctionDecay)
    (step_count : option Z) : option Z :=
  match decay with
  | NoDecay | Linear => scaled_drop p elapsed_time duration
  | Stepped =>
      let? steps := match step_count with Some s => if 0 <? s then Some s else None | None => None end in
      let? es := checked_u128 (elapsed_time * steps) in
      scaled_drop p (es / duration) steps
  | Exponential =>
      let? factor := decay_factor (Z.to_nat (Z.min elapsed_time 100)) 10000 in
      let? drop_factor := checked_u128 (10000 - factor) in
      scaled_drop p drop_factor 10000
  end.

Definition compute_dutch_price (start_price floor_price elapsed_time duration : Z)
    (decay : DutchAuctionDecay) (step_count : option Z) : option Z :=
  if duration =? 0 then Some floor_price else
  if duration <=? elapsed_time then Some floor_price else
  let? price_drop := checked_i128 (start_price - floor_price) in
  let? drop := drop_so_far (as_u128 price_drop) elapsed_time duration decay step_count in
  let? current_price := checked_i128 (start_price - drop) in
  Some (Z.max current_price floor_price).

(** ** [min_next_bid]; [None] is the panic with [BidTooLow] *)
Definition min_next_bid (highest_bid min_increment_bps : Z) : option Z :=
  let? product := checked_i128 (highest_bid * min_increment_bps) in
  let? bps_increment :=
    checked_i128 (Z.quot product 10000 + (if Z.rem product 10000 =? 0 then 0 else 1)) in
  let increment := Z.max bps_increment 1 in
  checked_i128 (highest_bid + increment).

(** [validate_auction_curve_params], which no entrypoint calls: [true] when it
    returns without a panic. *)
Definition validate_auction_curve_params (mode : AuctionMode) (min_bid : Z)
    (dutch_start_price dutch_floor_price : option Z) (dutch_decay : DutchAuctionDecay)
    (dutch_step_count : option Z) : bool :=
  match mode with
  | English =>
      match dutch_start_price, dutch_floor_price, dutch_step_count with
      | None, None, None => true | _, _, _ => false end
  | Dutch =>
      match dutch_start_price, dutch_floor_price with
      | Some start, Some floor =>
          if start <? floor then false else
          if start <? min_bid then false else
          match dutch_decay with
          | NoDecay | Linear | Exponential => match dutch_step_count with None => true | Some _ => false end
          | Stepped => match dutch_step_count with Some n => negb (n =? 0) | None => false end
          end
      | _, _ => false
      end
  end.

Example dutch_half : compute_dutch_price 1000 500 50 100 Linear None = Some 750.
Proof. vm_compute. reflexivity. Qed.

Example dutch_stepped : compute_dutch_price 1000 500 49 100 Stepped (Some 4) = Some 875.
Proof. vm_compute. reflexivity. Qed.
