(* ===== verification/AuctionStorage.v ===== *)
(** * The auction contract's data, storage and events

    [types.rs], [errors.rs], [storage.rs], [events.rs] and [auth.rs] of
    [gateway-contract/contracts/auction_contract], over the Soroban environment. *)
From S2P Require Import Prelude Soroban CreditTypes AuctionCurves.

Inductive AuctionStatus := Open | Closed_ | Claimed_.

#[export] Instance AuctionStatus_eq_dec : EqDecision AuctionStatus.
Proof. solve_decision. Defined.

Inductive AuctionError :=
| NotWinner | AlreadyClaimed | NotClosed | NoFactoryContract | AUnauthorized | InvalidState
| BidTooLow | AuctionNotOpen | AuctionNotClosed | AReentrancy | NoWinner | NotFound
| AlreadySettled | GracePeriodActive.

#[export] Instance AuctionError_eq_dec : EqDecision AuctionError.
Proof. solve_decision. Defined.

Definition auction_error_code (e : AuctionError) : Z :=
  match e with
  | NotWinner => 1 | AlreadyClaimed => 2 | NotClosed => 3 | NoFactoryContract => 4
  | AUnauthorized => 5 | InvalidState => 6 | BidTooLow => 7 | AuctionNotOpen => 8
  | AuctionNotClosed => 9 | AReentrancy => 10 | NoWinner => 11 | NotFound => 12
  | AlreadySettled => 13 | GracePeriodActive => 14
  end.

Record AuctionConfig := mkAuctionConfig {
  ac_mode : AuctionMode;
  ac_username_hash : BytesN32;
  ac_start_time : Z;
  ac_end_time : Z;
  ac_min_bid : Z;
  ac_min_increment_bps : Z;
  ac_dutch_start_price : option Z;
  ac_dutch_floor_price : option Z;
  ac_dutch_decay : DutchAuctionDecay;
  ac_dutch_step_count : option Z;
}.

Record AuctionState := mkAuction {
  as_config : AuctionConfig;
  as_status : AuctionStatus;
  as_highest_bidder : option Address;
  as_highest_bid : Z;
}.

(** ** Storage keys *)
Inductive AuctionKey :=
| AkStatus | AkHighestBidder | AkFactoryContract | AkEndTime | AkHighestBid | AkGraceWindow
| AkReentrancy | AkBidToken
| AkAuction (id : Symbol)
| AkClosed (id : Symbol) | AkLiquidationSettled (id : Symbol)
| AkBidAccepted (id : Symbol) (bidder : Address) (amount : Z)
| IdSeller (id : Z) | IdAsset (id : Z) | IdMinBid (id : Z) | IdEndTime (id : Z)
| IdHighestBidder (id : Z) | IdHighestBid (id : Z) | IdStatus (id : Z) | IdClaimed (id : Z).

#[export] Instance AuctionKey_eq_dec : EqDecision AuctionKey.
Proof. solve_decision. Defined.

Inductive AValType := AvZ | AvBool | AvAddr | AvStatus | AvState.

#[export] Instance AValType_eq_dec : EqDecision AValType.
Proof. solve_decision. Defined.

Definition ainterp (t : AValType) : Type :=
  match t with
  | AvZ => Z | AvBool => bool | AvAddr => Address | AvStatus => AuctionStatus
  | AvState => AuctionState
  end.

Definition AuctionKey_type (k : AuctionKey) : AValType :=
  match k with
  | AkStatus | IdStatus _ => AvStatus
  | AkHighestBidder | AkFactoryContract | AkBidToken | IdSeller _ | IdAsset _
  | IdHighestBidder _ => AvAddr
  | AkReentrancy | AkClosed _ | AkLiquidationSettled _ | AkBidAccepted _ _ _ | IdClaimed _ => AvBool
  | AkAuction _ => AvState
  | _ => AvZ
  end.

(** ** Events *)
Inductive AuctionEvent :=
| BidRefundedEvent (prev_bidder : Address) (amount : Z)
| AuctionClosedEvent (auction_id : Symbol) (winner : option Address) (amount : Z)
| DefaultLiquidationSettlementEvent (auction_id : Symbol)
    (credit_contract borrower winner : Address) (recovered_amount : Z).

#[export] Instance AuctionContract : Contract := {|
  skey := AuctionKey;
  skey_eq_dec := AuctionKey_eq_dec;
  sty := AValType;
  sty_eq_dec := AValType_eq_dec;
  sinterp := ainterp;
  kty := AuctionKey_type;
  cevent := AuctionEvent;
  cerror := AuctionError;
|}.

Abbreviation AM := (Soroban.M (C := AuctionContract)).
Abbreviation aiget k := (Soroban.iget (C := AuctionContract) k).
Abbreviation aiset k v := (Soroban.iset (C := AuctionContract) k v).
Abbreviation apget k := (Soroban.pget (C := AuctionContract) k).
Abbreviation aphas k := (Soroban.phas (C := AuctionContract) k).
Abbreviation apset k v := (Soroban.pset (C := AuctionContract) k v).
Abbreviation apextend k := (Soroban.pextend_ttl (C := AuctionContract) k).

Module AStore.
Section storage.
Context `{H : Host}.

Definition publish_bid_refunded_event (prev_bidder : Address) (amount : Z) : AM unit :=
  publish (C := AuctionContract) (BidRefundedEvent prev_bidder amount).

Definition publish_auction_closed_event (id : Symbol) (winner : option Address) (amount : Z) : AM unit :=
  publish (C := AuctionContract) (AuctionClosedEvent id winner amount).

Definition publish_default_liquidation_settlement_event (id : Symbol)
    (credit_contract borrower winner : Address) (recovered_amount : Z) : AM unit :=
  publish (C := AuctionContract)
    (DefaultLiquidationSettlementEvent id credit_contract borrower winner recovered_amount).

Definition bump_instance_ttl : AM unit := iextend_ttl.

(** [if has(key) { extend_ttl(key) }] *)
Definition bump_existing (k : AuctionKey) : AM unit :=
  let* present := aphas k in if present then apextend k else ret tt.

Definition bump_auction_state_ttl (id : Symbol) : AM unit := bump_existing (AkAuction id).

Definition bump_settlement_marker_ttl (k : AuctionKey) : AM unit := bump_existing k.

(** *** Instance entries *)
Definition get_status : AM AuctionStatus := let* o := aiget AkStatus in ret (unwrap_or o Open).

Definition set_status (status : AuctionStatus) : AM unit := aiset AkStatus status.

Definition get_highest_bidder : AM (option Address) := aiget AkHighestBidder.

Definition set_highest_bidder (bidder : Address) : AM unit := aiset AkHighestBidder bidder.

Definition get_factory_contract : AM (option Address) := aiget AkFactoryContract.

Definition set_factory_contract (factory : Address) : AM unit := aiset AkFactoryContract factory.

Definition set_reentrancy_guard : AM unit :=
  let* current := aiget AkReentrancy in
  panic_if (unwrap_or current false) AReentrancy ;;
  aiset AkReentrancy true.

Definition clear_reentrancy_guard : AM unit := aiset AkReentrancy false.

Definition get_liquidation_grace_window : AM Z :=
  let* o := aiget AkGraceWindow in ret (unwrap_or o 0).

Definition set_liquidation_grace_window (seconds : Z) : AM unit := aiset AkGraceWindow seconds.

Definition get_end_time : AM Z := let* o := aiget AkEndTime in ret (unwrap_or o 0).

Definition set_end_time (end_time : Z) : AM unit := aiset AkEndTime end_time.

Definition get_highest_bid : AM Z := let* o := aiget AkHighestBid in ret (unwrap_or o 0).

Definition set_highest_bid (bid : Z) : AM unit := aiset AkHighestBid bid.

(** *** The id-scoped entries *)
Definition auction_exists (id : Z) : AM bool :=
  let* exists_ := aphas (IdStatus id) in
  (if exists_ then apextend (IdStatus id) else ret tt) ;;
  ret exists_.

(** A read followed by an extension when the key is present. *)
Definition id_get (k : AuctionKey) : AM (option (ainterp (AuctionKey_type k))) :=
  let* value := apget k in bump_existing k ;; ret value.

Definition id_set (k : AuctionKey) (v : ainterp (AuctionKey_type k)) : AM unit :=
  apset k v ;; apextend k.

Definition auction_get_status (id : Z) : AM AuctionStatus :=
  let* o := id_get (IdStatus id) in ret (unwrap_or o Open).

Definition auction_set_status (id : Z) (status : AuctionStatus) : AM unit := id_set (IdStatus id) status.

Definition auction_get_seller (id : Z) : AM (option Address) := id_get (IdSeller id).

Definition auction_set_seller (id : Z) (seller : Address) : AM unit := id_set (IdSeller id) seller.

Definition auction_get_asset (id : Z) : AM (option Address) := id_get (IdAsset id).

Definition auction_set_asset (id : Z) (asset : Address) : AM unit := id_set (IdAsset id) asset.

Definition auction_get_min_bid (id : Z) : AM Z :=
  let* o := id_get (IdMinBid id) in ret (unwrap_or o 0).

Definition auction_set_min_bid (id min_bid : Z) : AM unit := id_set (IdMinBid id) min_bid.

Definition auction_get_end_time (id : Z) : AM Z :=
  let* o := id_get (IdEndTime id) in ret (unwrap_or o 0).

Definition auction_set_end_time (id end_time : Z) : AM unit := id_set (IdEndTime id) end_time.

Definition auction_get_highest_bidder (id : Z) : AM (option Address) := id_get (IdHighestBidder id).

Definition auction_set_highest_bidder (id : Z) (bidder : Address) : AM unit :=
  id_set (IdHighestBidder id) bidder.

Definition auction_get_highest_bid (id : Z) : AM Z :=
  let* o := id_get (IdHighestBid id) in ret (unwrap_or o 0).

Definition auction_set_highest_bid (id bid : Z) : AM unit := id_set (IdHighestBid id) bid.

Definition auction_is_claimed (id : Z) : AM bool :=
  let* o := id_get (IdClaimed id) in ret (unwrap_or o false).

Definition auction_set_claimed (id : Z) : AM unit := id_set (IdClaimed id) true.

(** *** [auth.rs] *)
Definition require_bidder_auth (bidder : Address) : AM unit := require_auth bidder.

Definition require_winner_auth (winner : Address) : AM unit := require_auth winner.
End storage.
End AStore.
