(* ===== verification/Auction.v ===== *)
(** * The liquidation auction contract ([gateway-contract/contracts/auction_contract])

    English and Dutch auctions: every entrypoint of [lib.rs], as one call type. *)
From S2P Require Import Prelude Soroban CreditTypes AuctionCurves AuctionStorage.
Import AStore.

Module Auction.
Section entrypoints.
Context `{H : Host}.

(** Parameter checks of [init_auction]; [true] when they pass. *)
Definition init_params_ok (mode : AuctionMode) (start_time end_time min_bid min_increment_bps : Z)
    (dutch_start_price dutch_floor_price : option Z) (decay : DutchAuctionDecay)
    (dutch_step_count : option Z) : bool :=
  (start_time <? end_time) && (min_increment_bps <=? 10000) &&
  match mode with
  | English =>
      match dutch_start_price, dutch_floor_price, dutch_step_count with
      | None, None, None => true | _, _, _ => false end
  | Dutch =>
      match dutch_start_price, dutch_floor_price with
      | Some start, Some floor =>
          (floor <=? start) && (min_bid <=? start) &&
          match decay with
          | Stepped => match dutch_step_count with Some n => negb (n =? 0) | None => false end
          | _ => true
          end
      | _, _ => false
      end
  end.

Definition require_factory_auth : AM Address :=
  let* f := get_factory_contract in
  let* factory := or_panic f NoFactoryContract in
  require_auth factory ;;
  ret factory.

Definition init_auction (auction_id : Symbol) (mode : AuctionMode)
    (start_time end_time min_bid min_increment_bps : Z)
    (dutch_start_price dutch_floor_price : option Z) (dutch_decay : option DutchAuctionDecay)
    (dutch_step_count : option Z) : AM unit :=
  bump_instance_ttl ;;
  require_factory_auth ;;
  let decay := unwrap_or dutch_decay NoDecay in
  panic_if (negb (init_params_ok mode start_time end_time min_bid min_increment_bps
                    dutch_start_price dutch_floor_price decay dutch_step_count)) InvalidState ;;
  let config := mkAuctionConfig mode (repeat 0 32) start_time end_time min_bid min_increment_bps
                  dutch_start_price dutch_floor_price decay dutch_step_count in
  apset (AkAuction auction_id) (mkAuction config Open None 0) ;;
  bump_auction_state_ttl auction_id.

Definition set_factory_contract (factory : Address) : AM unit :=
  bump_instance_ttl ;;
  let* current := get_factory_contract in
  match current with
  | Some current_factory => require_auth current_factory
  | None => require_auth factory
  end ;;
  AStore.set_factory_contract factory.

Definition get_auction (auction_id : Symbol) : AM AuctionState :=
  let* o := apget (AkAuction auction_id) in
  let* state := or_panic o NotFound in
  bump_auction_state_ttl auction_id ;;
  ret state.

(** Tokens into the contract, and the refund of the outbid bidder, under the guard. *)
Definition escrow_bid (bidder : Address) (amount : Z) (previous : option (Address * Z)) : AM unit :=
  let* token_addr := aiget AkBidToken in
  match token_addr with
  | Some tkn =>
      set_reentrancy_guard ;;
      let* contract_address := current_contract_address in
      transfer tkn bidder contract_address amount ;;
      match previous with
      | Some (prev_bidder, previous_bid_amount) =>
          publish_bid_refunded_event prev_bidder previous_bid_amount ;;
          transfer tkn contract_address prev_bidder previous_bid_amount
      | None => ret tt
      end ;;
      clear_reentrancy_guard
  | None => ret tt
  end.

(** The least amount an English auction accepts. *)
Definition english_threshold (state : AuctionState) : option Z :=
  let config := as_config state in
  if 0 <? as_highest_bid state then
    let? next := min_next_bid (as_highest_bid state) (ac_min_increment_bps config) in
    Some (Z.max next (ac_min_bid config))
  else min_next_bid (ac_min_bid config) (ac_min_increment_bps config).

Definition bid_english (state : AuctionState) (bidder : Address) (amount : Z) : AM AuctionState :=
  let* threshold := or_panic (english_threshold state) BidTooLow in
  panic_if (amount <? threshold) BidTooLow ;;
  escrow_bid bidder amount
    (match as_highest_bidder state with Some p => Some (p, as_highest_bid state) | None => None end) ;;
  ret (mkAuction (as_config state) (as_status state) (Some bidder) amount).

(** The price a Dutch auction asks at [now]. *)
Definition dutch_price_at (config : AuctionConfig) (now : Z) : option Z :=
  let elapsed_time := sat_u64 (now - ac_start_time config) in
  let duration := unwrap_or (checked_u64 (ac_end_time config - ac_start_time config)) 1 in
  compute_dutch_price (unwrap_or (ac_dutch_start_price config) (ac_min_bid config))
    (unwrap_or (ac_dutch_floor_price config) (ac_min_bid config))
    elapsed_time duration (ac_dutch_decay config) (ac_dutch_step_count config).

Definition bid_dutch (auction_id : Symbol) (state : AuctionState) (bidder : Address) (amount : Z)
  : AM AuctionState :=
  let* current_time := timestamp in
  let* current_price := unwrap (dutch_price_at (as_config state) current_time) "compute_dutch_price" in
  panic_if (amount <? current_price) BidTooLow ;;
  panic_if (amount <? ac_min_bid (as_config state)) BidTooLow ;;
  escrow_bid bidder amount None ;;
  let state := mkAuction (as_config state) Closed_ (Some bidder) amount in
  publish_auction_closed_event auction_id (as_highest_bidder state) (as_highest_bid state) ;;
  ret state.

(** The checks between the replay barrier and the mode. *)
Definition bid_checks (auction_id : Symbol) (amount : Z) : AM AuctionState :=
  panic_if (amount <=? 0) BidTooLow ;;
  let* state := get_auction auction_id in
  panic_if (negb (bool_decide (as_status state = Open))) AuctionNotOpen ;;
  let* now := timestamp in
  panic_if (ac_end_time (as_config state) <=? now) AuctionNotOpen ;;
  let* grace_window := get_liquidation_grace_window in
  panic_if ((0 <? grace_window) &&
            (now <? sat_u64 (ac_start_time (as_config state) + grace_window))) GracePeriodActive ;;
  ret state.

Definition place_bid (auction_id : Symbol) (bidder : Address) (amount : Z) : AM unit :=
  bump_instance_ttl ;;
  require_bidder_auth bidder ;;
  let bid_identity := AkBidAccepted auction_id bidder amount in
  let* replay := aphas bid_identity in
  if replay then apextend bid_identity else
  let* state := bid_checks auction_id amount in
  let* state := match ac_mode (as_config state) with
                | English => bid_english state bidder amount
                | Dutch => bid_dutch auction_id state bidder amount
                end in
  apset (AkAuction auction_id) state ;;
  bump_auction_state_ttl auction_id ;;
  apset bid_identity true ;;
  apextend bid_identity.

Definition close_auction (auction_id : Symbol) : AM unit :=
  let* f := get_factory_contract in
  let* factory := or_panic f NoFactoryContract in
  let* state := get_auction auction_id in
  match as_status state with
  | Claimed_ => panic_with_error (C := AuctionContract) AlreadyClaimed
  | Closed_ => panic_with_error (C := AuctionContract) AuctionNotOpen
  | Open => ret tt
  end ;;
  let* now := timestamp in
  let past_deadline := ac_end_time (as_config state) <=? now in
  (if past_deadline then ret tt else require_auth factory) ;;
  apset (AkAuction auction_id)
    (mkAuction (as_config state) Closed_ (as_highest_bidder state) (as_highest_bid state)) ;;
  bump_auction_state_ttl auction_id ;;
  publish_auction_closed_event auction_id (as_highest_bidder state) (as_highest_bid state).

(** Pay [amount] of the bid token out of the contract, under the guard. *)
Definition pay_out (tkn to : Address) (amount : Z) : AM unit :=
  set_reentrancy_guard ;;
  let* contract_address := current_contract_address in
  transfer tkn contract_address to amount ;;
  clear_reentrancy_guard.

Definition settle_default_liquidation (auction_id : Symbol) (credit_contract borrower : Address) : AM Z :=
  bump_instance_ttl ;;
  let* factory := require_factory_auth in
  panic_if (negb (bool_decide (credit_contract = factory))) AUnauthorized ;;
  let* state := get_auction auction_id in
  panic_if (negb (bool_decide (as_status state = Closed_))) NotClosed ;;
  let settlement_key := AkLiquidationSettled auction_id in
  bump_settlement_marker_ttl settlement_key ;;
  let* already_settled := apget settlement_key in
  panic_if (unwrap_or already_settled false) AlreadySettled ;;
  apset settlement_key true ;;
  bump_settlement_marker_ttl settlement_key ;;
  let winner := unwrap_or (as_highest_bidder state) borrower in
  publish_default_liquidation_settlement_event auction_id credit_contract borrower winner
    (as_highest_bid state) ;;
  let* token_addr := aiget AkBidToken in
  match token_addr with
  | Some tkn =>
      if 0 <? as_highest_bid state then pay_out tkn credit_contract (as_highest_bid state) else ret tt
  | None => ret tt
  end ;;
  ret (as_highest_bid state).

Definition claim_auction (auction_id : Symbol) : AM unit :=
  bump_instance_ttl ;;
  let* state := get_auction auction_id in
  panic_if (negb (bool_decide (as_status state = Closed_))) AuctionNotClosed ;;
  let* already_settled := apget (AkLiquidationSettled auction_id) in
  panic_if (unwrap_or already_settled false) AlreadySettled ;;
  let* winner := or_panic (as_highest_bidder state) NoWinner in
  require_winner_auth winner ;;
  panic_if (bool_decide (as_status state = Claimed_)) AlreadyClaimed ;;
  let* token_addr := aiget AkBidToken in
  let* token_addr := or_panic token_addr InvalidState in
  apset (AkAuction auction_id)
    (mkAuction (as_config state) Claimed_ (as_highest_bidder state) (as_highest_bid state)) ;;
  bump_auction_state_ttl auction_id ;;
  pay_out token_addr winner (as_highest_bid state).

Definition set_liquidation_grace_window (seconds : Z) : AM unit :=
  bump_instance_ttl ;;
  require_factory_auth ;;
  AStore.set_liquidation_grace_window seconds.

(** The view. *)
Definition get_liquidation_grace_window : AM Z :=
  bump_instance_ttl ;; AStore.get_liquidation_grace_window.
End entrypoints.
End Auction.

(** ** Calls *)
Inductive ACall :=
| AInit (auction_id : Symbol) (mode : AuctionMode) (start_time end_time min_bid min_increment_bps : Z)
    (dutch_start_price dutch_floor_price : option Z) (dutch_decay : option DutchAuctionDecay)
    (dutch_step_count : option Z)
| ASetFactory (factory : Address)
| ABid (auction_id : Symbol) (bidder : Address) (amount : Z)
| AClose (auction_id : Symbol)
| ASettle (auction_id : Symbol) (credit_contract borrower : Address)
| AClaim (auction_id : Symbol)
| ASetGrace (seconds : Z).

Definition run_auction `{Host} (call : ACall) : AM Z :=
  match call with
  | AInit i m st en mb inc sp fp d n => Auction.init_auction i m st en mb inc sp fp d n ;; ret 0
  | ASetFactory f => Auction.set_factory_contract f ;; ret 0
  | ABid i b a => Auction.place_bid i b a ;; ret 0
  | AClose i => Auction.close_auction i ;; ret 0
  | ASettle i c b => Auction.settle_default_liquidation i c b
  | AClaim i => Auction.claim_auction i ;; ret 0
  | ASetGrace s => Auction.set_liquidation_grace_window s ;; ret 0
  end.
