(* ===== verification/CreditEvents.v ===== *)
(** * Event publication ([contracts/credit/src/events.rs])

    One definition per [publish_*] helper: the topic tuple and the payload.
    Payloads are passed as their [EventData] constructor where the source passes
    the struct. *)
From S2P Require Import Prelude Soroban CreditTypes.
#[local] Open Scope string_scope.

Section events.
Context `{H : Host}.

Definition credit_event (topic : Symbol) (d : EventData) : M unit :=
  publish (C := CreditContract) (mkEvent ["credit"; topic] d).

Definition publish_credit_line_event (topic : Symbol * Symbol) (borrower : Address)
    (status : CreditStatus) (credit_limit interest_rate_bps risk_score : Z) : M unit :=
  publish (C := CreditContract)
    (mkEvent [fst topic; snd topic]
      (CreditLineEvent borrower status credit_limit interest_rate_bps risk_score)).

Definition publish_repayment_event (borrower : Address) (amount new_utilized_amount : Z) : M unit :=
  credit_event "repay" (RepaymentEvent borrower amount new_utilized_amount).

Definition publish_drawn_event (borrower : Address) (amount new_utilized_amount ts : Z) : M unit :=
  credit_event "drawn" (DrawnEvent borrower amount new_utilized_amount ts).

Definition publish_draw_reversed_event (borrower : Address)
    (amount original_ts reason_code new_utilized_amount ts : Z) (admin : Address)
    (accounting_only : bool) : M unit :=
  credit_event "draw_rev"
    (DrawReversedEvent borrower amount original_ts reason_code new_utilized_amount ts admin
       accounting_only).

Definition publish_fee_accrued_event (borrower : Address)
    (fee_amount treasury_amount bounty_amount new_treasury_balance new_bounty_balance : Z)
  : M unit :=
  credit_event "fee_accrd"
    (FeeAccruedEvent borrower fee_amount treasury_amount bounty_amount new_treasury_balance
       new_bounty_balance).

Definition publish_admin_rotation_proposed (proposed_admin : Address) (accept_after : Z) : M unit :=
  credit_event "admin_prop" (AdminRotationProposedEvent proposed_admin accept_after).

Definition publish_admin_rotation_accepted (new_admin : Address) : M unit :=
  credit_event "admin_acc" (AdminRotationAcceptedEvent new_admin).

Definition publish_risk_parameters_updated (borrower : Address)
    (credit_limit interest_rate_bps risk_score : Z) : M unit :=
  credit_event "risk_upd"
    (RiskParametersUpdatedEvent borrower credit_limit interest_rate_bps risk_score).

Definition publish_interest_accrued_event (borrower : Address)
    (accrued_amount new_utilized_amount : Z) : M unit :=
  credit_event "accrue" (InterestAccruedEvent borrower accrued_amount new_utilized_amount).

Definition publish_draws_frozen_event (frozen : bool) (reason : FreezeReason) : M unit :=
  credit_event "drw_freeze" (DrawsFrozenEvent frozen reason).

Definition publish_rate_formula_config_event (enabled : bool) : M unit :=
  credit_event "rate_form" (RateFormulaConfigEvent enabled).

Definition publish_default_liquidation_requested_event (borrower : Address)
    (utilized_amount : Z) : M unit :=
  credit_event "liq_req" (LiquidationRequested borrower utilized_amount).

Definition publish_default_liquidation_settled_event (borrower : Address)
    (settlement_id : Symbol)
    (recovered_amount interest_recovered principal_recovered remaining_utilized_amount : Z)
    (status : CreditStatus) (close_factor_bps : Z) : M unit :=
  credit_event "liq_setl"
    (DefaultLiquidationSettledEvent borrower settlement_id recovered_amount interest_recovered
       principal_recovered remaining_utilized_amount status close_factor_bps).

Definition publish_paused_event (paused : bool) : M unit :=
  credit_event (if paused then "paused" else "unpaused") (PausedEvent paused).

Definition publish_borrower_blocked_event (borrower : Address) (blocked : bool) : M unit :=
  let* ledger := sequence in
  publish (C := CreditContract) (mkEvent ["blk_chg"] (BorrowerBlockedEvent borrower blocked ledger)).

Definition publish_borrower_frozen_event (borrower : Address) (frozen_until : Z) : M unit :=
  let* ledger := sequence in
  publish (C := CreditContract)
    (mkEvent ["br_freeze"] (BorrowerFrozenEvent borrower frozen_until ledger)).

Definition publish_penalty_rate_entered_event (borrower : Address)
    (base_rate_bps penalty_surcharge_bps effective_rate_bps : Z) : M unit :=
  credit_event "pen_enter"
    (PenaltyRateEnteredEvent borrower base_rate_bps penalty_surcharge_bps effective_rate_bps).

Definition publish_penalty_rate_exited_event (borrower : Address)
    (previous_rate_bps new_rate_bps : Z) : M unit :=
  credit_event "pen_exit" (PenaltyRateExitedEvent borrower previous_rate_bps new_rate_bps).

Definition publish_collateral_lifecycle_event (borrower : Address) (kind : CollateralEventKind)
    (token : option Address) (amount new_balance : Z) : M unit :=
  let* ledger := sequence in
  let* ts := timestamp in
  credit_event "col_lca"
    (CollateralLifecycleEvent borrower kind token amount new_balance ledger ts).

Definition publish_collateral_deposited_event (borrower : Address) (amount new_balance : Z) : M unit :=
  credit_event "col_dep" (CollateralDepositedEvent borrower amount new_balance).

Definition publish_collateral_withdrawn_event (borrower : Address) (amount new_balance : Z) : M unit :=
  credit_event "col_wit" (CollateralWithdrawnEvent borrower amount new_balance).

Definition publish_collateral_partial_released_event (borrower : Address)
    (amount_released new_balance health_factor_bps : Z) : M unit :=
  credit_event "col_prel"
    (CollateralPartialReleasedEvent borrower amount_released new_balance health_factor_bps).

Definition publish_contract_upgraded_event (old_wasm_hash new_wasm_hash : BytesN32) : M unit :=
  credit_event "upgraded" (ContractUpgradedEvent old_wasm_hash new_wasm_hash).

Definition publish_close_factor_bps_set_event (close_factor_bps : Z) : M unit :=
  credit_event "clsfctr" (CloseFactorEvent close_factor_bps).

Definition publish_oracle_config_set_event (max_deviation_bps max_age_seconds : Z) : M unit :=
  credit_event "orc_cfg" (OracleConfigEvent max_deviation_bps max_age_seconds).

Definition publish_oracle_price_accepted_event (price ts : Z) : M unit :=
  credit_event "orc_price" (OraclePriceEvent price ts).

Definition publish_late_fee_charged_event (borrower : Address) (fee installment_index : Z) : M unit :=
  credit_event "late_fee" (LateFeeChargedEvent borrower fee installment_index).

Definition publish_grace_waiver_applied_event (borrower : Address) (waived_amount : Z)
    (mode : GraceWaiverMode) : M unit :=
  credit_event "grace_wv" (GraceWaiverAppliedEvent borrower waived_amount mode).

Definition publish_treasury_withdrawal_proposed (recipient : Address) (amount : Z)
    (proposer : Address) (proposed_at execute_after : Z) : M unit :=
  credit_event "tre_prop"
    (TreasuryWithdrawalProposedEvent recipient amount proposer proposed_at execute_after).

Definition publish_treasury_withdrawal_executed (recipient : Address) (amount : Z)
    (executor : Address) (executed_at remaining_balance : Z) : M unit :=
  credit_event "tre_exec"
    (TreasuryWithdrawalExecutedEvent recipient amount executor executed_at remaining_balance).

Definition publish_attestation_batch_committed (borrower : Address) (root : BytesN32)
    (count : Z) : M unit :=
  credit_event "atst_bat" (AttestationBatchCommittedEvent borrower root count).

Definition publish_risk_admin_cooldown_configured (cooldown_seconds : Z) : M unit :=
  credit_event "rad_cooldown" (RiskAdminCooldownConfiguredEvent cooldown_seconds).

Definition publish_borrow_lifecycle_event (borrower : Address) (phase : BorrowLifecyclePhase)
    (status : CreditStatus) (utilized_amount credit_limit interest_rate_bps ts : Z) : M unit :=
  credit_event "borrow_lc"
    (BorrowLifecycleEvent borrower phase status utilized_amount credit_limit interest_rate_bps ts).

Definition publish_debt_forgiven_event (borrower : Address)
    (amount_forgiven remaining_accrued_interest new_utilized_amount : Z) : M unit :=
  credit_event "debt_frgv"
    (DebtForgivenEvent borrower amount_forgiven remaining_accrued_interest new_utilized_amount).

Definition publish_credit_line_freeze_event (borrower : Address) (reason : FreezeReason)
    (frozen : bool) : M unit :=
  let* ledger := sequence in
  credit_event "line_frz" (CreditLineFreezeEvent borrower frozen reason ledger).

Definition publish_oracle_quorum_config_set_event
    (min_quorum_k max_deviation_bps max_age_seconds : Z) : M unit :=
  credit_event "orc_qcfg" (OracleQuorumConfigEvent min_quorum_k max_deviation_bps max_age_seconds).

Definition publish_oracle_quorum_price_set_event (price quorum_k ts : Z) : M unit :=
  credit_event "orc_qprc" (OracleQuorumPriceEvent price quorum_k ts).

Definition publish_oracle_added_event (oracle : Address) (weight : Z) : M unit :=
  let* ts := timestamp in credit_event "orc_add" (OracleAddedEvent oracle weight ts).

Definition publish_oracle_removed_event (oracle : Address) : M unit :=
  let* ts := timestamp in credit_event "orc_rmv" (OracleRemovedEvent oracle ts).

Definition publish_oracle_quorum_threshold_set_event (threshold : Z) : M unit :=
  let* ts := timestamp in credit_event "orc_qthrs" (OracleQuorumThresholdSetEvent threshold ts).

Definition publish_oracle_reporting_window_set_event (window_seconds : Z) : M unit :=
  let* ts := timestamp in credit_event "orc_win" (OracleReportingWindowSetEvent window_seconds ts).

Definition publish_oracle_value_reported_event (oracle : Address) (value : Z) : M unit :=
  let* ts := timestamp in credit_event "orc_rpt" (OracleValueReportedEvent oracle value ts).

(** *** Publishers no entrypoint calls *)
Definition publish_credit_line_opened_event (borrower : Address)
    (credit_limit interest_rate_bps risk_score ts : Z) : M unit :=
  credit_event "opened_v2" (CreditLineOpenedEvent borrower credit_limit interest_rate_bps risk_score ts).

Definition publish_credit_line_suspended_event (borrower : Address) (reason : Symbol) (ts : Z) : M unit :=
  credit_event "susp_v2" (CreditLineSuspendedEvent borrower reason ts).

Definition publish_credit_line_closed_event (borrower closer : Address)
    (remaining_utilized_amount ts : Z) : M unit :=
  credit_event "closed_v2" (CreditLineClosedEvent borrower closer remaining_utilized_amount ts).

Definition publish_drawn_event_v2 (borrower recipient reserve_source : Address)
    (amount new_utilized_amount ts : Z) : M unit :=
  credit_event "drawn_v2" (DrawnEventV2 borrower recipient reserve_source amount new_utilized_amount ts).

Definition publish_token_rescued_event (token recipient : Address) (amount : Z) : M unit :=
  credit_event "tok_resc" (TokenRescuedEvent token recipient amount).

Definition publish_grace_waiver_receipt_event (borrower : Address) (waived_amount : Z)
    (mode : GraceWaiverMode) : M unit :=
  publish_grace_waiver_applied_event borrower waived_amount mode.

Definition publish_protocol_fee_bounds_set_event (min_bps max_bps : Z) : M unit :=
  credit_event "fee_bnds" (ProtocolFeeBoundsEvent min_bps max_bps).

Definition publish_protocol_fee_bps_set_event (bps : Z) : M unit :=
  credit_event "fee_bps" (ProtocolFeeBpsEvent bps).
End events.

(** ** Publishing touches neither store *)
Create HintDb events.

Hint Unfold publish_credit_line_event publish_repayment_event publish_drawn_event
  publish_draw_reversed_event publish_fee_accrued_event publish_admin_rotation_proposed
  publish_admin_rotation_accepted publish_risk_parameters_updated publish_interest_accrued_event
  publish_draws_frozen_event publish_rate_formula_config_event
  publish_default_liquidation_requested_event publish_default_liquidation_settled_event
  publish_paused_event publish_borrower_blocked_event publish_borrower_frozen_event
  publish_penalty_rate_entered_event publish_penalty_rate_exited_event
  publish_collateral_lifecycle_event publish_collateral_deposited_event
  publish_collateral_withdrawn_event publish_collateral_partial_released_event
  publish_contract_upgraded_event publish_close_factor_bps_set_event
  publish_oracle_config_set_event publish_oracle_price_accepted_event
  publish_late_fee_charged_event publish_grace_waiver_applied_event
  publish_treasury_withdrawal_proposed publish_treasury_withdrawal_executed
  publish_attestation_batch_committed publish_risk_admin_cooldown_configured
  publish_borrow_lifecycle_event publish_debt_forgiven_event publish_credit_line_freeze_event
  publish_oracle_quorum_config_set_event publish_oracle_quorum_price_set_event
  publish_oracle_added_event publish_oracle_removed_event
  publish_oracle_quorum_threshold_set_event publish_oracle_reporting_window_set_event
  publish_oracle_value_reported_event credit_event : events.
