(* ===== verification/Support.v ===== *)
(** * The freeze and query support crates ([contracts/freeze/src],
      [contracts/query/src], [contracts/accrual/src])

    The error table the freeze crate repeats from the credit contract, and the
    event schemas of the three crates.  They keep no storage.  Of the event files
    only [query/src/events.rs] is a module of its crate. *)
From S2P Require Import Prelude Soroban CreditTypes.
#[local] Open Scope string_scope.

(** ** [freeze/src/errors.rs] *)
Module Freeze.
Inductive FreezeError := CreditLineNotFound | BorrowerBlocked | DrawsFrozen | BorrowerFrozen | CreditLineFrozen.

Definition freeze_error_code (e : FreezeError) : Z :=
  match e with
  | CreditLineNotFound => 3 | BorrowerBlocked => 16 | DrawsFrozen => 19 | BorrowerFrozen => 40
  | CreditLineFrozen => 46
  end.
End Freeze.

(** The error of the credit contract each one mirrors. *)
Definition canonical (e : Freeze.FreezeError) : ContractError :=
  match e with
  | Freeze.CreditLineNotFound => CreditLineNotFound
  | Freeze.BorrowerBlocked => BorrowerBlocked
  | Freeze.DrawsFrozen => DrawsFrozenErr
  | Freeze.BorrowerFrozen => BorrowerFrozen
  | Freeze.CreditLineFrozen => CreditLineFrozen
  end.

(** A client decodes a freeze error with the credit contract's table: the codes
    are the same, and no other credit error shares one. *)
Lemma freeze_codes_mirror e e' : Freeze.freeze_error_code e = error_code e' <-> e' = canonical e.
Proof. split; [|intros ->; by destruct e]. destruct e, e'; vm_compute; congruence. Qed.

(** ** Event schemas *)
Inductive QueryEvent :=
| CreditLineQueried (borrower : Address) (found : bool) (timestamp : Z)
| HealthFactorQueried (borrower : Address) (health_bps timestamp : Z)
| DelinquencyChecked (borrower : Address) (is_delinquent : bool) (timestamp : Z)
| ProtocolSummaryQueried (total_utilized active_line_count timestamp : Z).

Inductive FreezeEvent :=
| DrawsFrozenNote (frozen : bool) (reason : FreezeReason) (timestamp : Z)
| CreditLineFrozenNote (borrower : Address) (frozen : bool) (reason : FreezeReason) (timestamp : Z)
| BorrowerFrozenNote (borrower : Address) (frozen_until timestamp : Z)
| BorrowerUnfrozenNote (borrower : Address) (timestamp : Z).

Inductive AccrualEvent :=
| AccrualBatchCompleted (borrowers_processed lines_accrued total_interest_accrued timestamp : Z)
| InterestAccrued (borrower : Address)
    (accrued_amount new_utilized_amount new_accrued_interest elapsed_seconds timestamp : Z).

Inductive SupportEvent := OfQuery (e : QueryEvent) | OfFreeze (e : FreezeEvent) | OfAccrual (e : AccrualEvent).

#[export] Instance SupportContract : Contract := {|
  skey := Empty_set;
  skey_eq_dec := Empty_set_eq_dec;
  sty := unit;
  sty_eq_dec := unit_eq_dec;
  sinterp := fun _ => unit;
  kty := fun _ => tt;
  cevent := Symbol * Symbol * SupportEvent;
  cerror := Empty_set;
|}.

Section publishers.
Context `{H : Host}.

Definition support_event (crate topic : Symbol) (event : SupportEvent) : Soroban.M (C := SupportContract) unit :=
  publish (C := SupportContract) (crate, topic, event).

(** *** [query/src/events.rs] *)
Definition publish_credit_line_queried borrower found ts :=
  support_event "query" "cl_read" (OfQuery (CreditLineQueried borrower found ts)).

Definition publish_health_factor_queried borrower health_bps ts :=
  support_event "query" "hf_read" (OfQuery (HealthFactorQueried borrower health_bps ts)).

Definition publish_delinquency_checked borrower is_delinquent ts :=
  support_event "query" "dlq_chk" (OfQuery (DelinquencyChecked borrower is_delinquent ts)).

Definition publish_protocol_summary_queried total_utilized active_line_count ts :=
  support_event "query" "proto_rd" (OfQuery (ProtocolSummaryQueried total_utilized active_line_count ts)).

(** *** [freeze/src/events.rs] *)
Definition publish_draws_frozen (frozen : bool) (reason : FreezeReason) : Soroban.M (C := SupportContract) unit :=
  let* now := timestamp in support_event "freeze" "drw_frz" (OfFreeze (DrawsFrozenNote frozen reason now)).

Definition publish_credit_line_frozen (borrower : Address) (frozen : bool) (reason : FreezeReason)
  : Soroban.M (C := SupportContract) unit :=
  let* now := timestamp in support_event "freeze" "ln_frz" (OfFreeze (CreditLineFrozenNote borrower frozen reason now)).

Definition publish_borrower_frozen (borrower : Address) (frozen_until : Z)
  : Soroban.M (C := SupportContract) unit :=
  let* now := timestamp in support_event "freeze" "brw_frz" (OfFreeze (BorrowerFrozenNote borrower frozen_until now)).

Definition publish_borrower_unfrozen (borrower : Address) : Soroban.M (C := SupportContract) unit :=
  let* now := timestamp in support_event "freeze" "brw_ufz" (OfFreeze (BorrowerUnfrozenNote borrower now)).

(** *** [accrual/src/events.rs] *)
Definition publish_accrual_batch_completed borrowers_processed lines_accrued total_interest_accrued ts :=
  support_event "accrual" "batch"
    (OfAccrual (AccrualBatchCompleted borrowers_processed lines_accrued total_interest_accrued ts)).

Definition publish_interest_accrued borrower accrued_amount new_utilized_amount new_accrued_interest
    elapsed_seconds ts :=
  support_event "accrual" "accrue"
    (OfAccrual (InterestAccrued borrower accrued_amount new_utilized_amount new_accrued_interest elapsed_seconds ts)).
End publishers.
