(* ===== verification/CreditStorage.v ===== *)
(** * Storage accessors of the credit contract ([contracts/credit/src/storage.rs])

    One definition per accessor.  Entry lifetimes are not modelled; what is kept
    of [extend_ttl] is that the host traps when the entry is missing, because
    several accessors depend on it. *)
From S2P Require Import Prelude Soroban CreditTypes.

Section storage.
Context `{H : Host}.

(** [key_bytes.get(len - 1).unwrap()] exists because [len > 0]. *)
Definition validate_storage_key_encoding (key_bytes : list Z) : M unit :=
  match last key_bytes with
  | None => ret tt
  | Some b => panic_if (b =? 0) InvalidAmount
  end.

Definition bump_instance_ttl : M unit := iextend_ttl (C := CreditContract).

Definition bump_persistent_ttl (k : StorageKey) : M unit :=
  bump_instance_ttl ;; pextend_ttl k.

Definition bump_credit_line_ttl (borrower : Address) : M unit :=
  bump_instance_ttl ;; pextend_ttl (KLine borrower).

(** [if persistent().has(key) { bump_persistent_ttl(key) }], the prelude of most getters. *)
Definition bump_if_present (k : StorageKey) : M unit :=
  let* present := phas k in
  if present then bump_persistent_ttl k else ret tt.

Definition bump_settlement_marker_ttl (k : StorageKey) : M unit := bump_if_present k.

Definition bump_vrf_commitment_ttl (borrower : Address) : M unit :=
  bump_persistent_ttl (DK.VrfCommitment borrower).

Definition bump_credit_line_freeze_ttl (borrower : Address) : M unit :=
  bump_persistent_ttl (DK.CreditLineFreeze borrower).

Definition bump_borrower_frozen_ttl (borrower : Address) : M unit :=
  bump_persistent_ttl (DK.FrozenBorrower borrower).

Definition get_credit_line (borrower : Address) : M (option CreditLineData) :=
  let* present := phas (KLine borrower) in
  if present then bump_credit_line_ttl borrower ;; pget (KLine borrower) else ret None.

Definition get_schema_version : M (option Z) := iget DK.SchemaVersion.

Definition set_schema_version (version : Z) : M unit := iset DK.SchemaVersion version.

Definition get_total_utilized : M Z :=
  let* o := iget DK.TotalUtilized in ret (unwrap_or o 0).

Definition get_credit_line_count : M Z :=
  let* o := iget DK.CreditLineCount in ret (unwrap_or o 0).

Definition get_active_line_count : M Z :=
  let* o := iget DK.ActiveLineCount in ret (unwrap_or o 0).

Definition increment_active_line_count : M unit :=
  let* count := get_active_line_count in iset DK.ActiveLineCount (sat_u32 (count + 1)).

Definition decrement_active_line_count : M unit :=
  let* count := get_active_line_count in iset DK.ActiveLineCount (sat_u32 (count - 1)).

Definition get_pending_auction_count : M Z :=
  let* o := iget DK.PendingAuctionCount in ret (unwrap_or o 0).

Definition increment_pending_auction_count : M unit :=
  let* count := get_pending_auction_count in iset DK.PendingAuctionCount (sat_u32 (count + 1)).

Definition decrement_pending_auction_count : M unit :=
  let* count := get_pending_auction_count in iset DK.PendingAuctionCount (sat_u32 (count - 1)).

Definition assert_no_active_auctions : M unit :=
  let* count := get_pending_auction_count in panic_if (0 <? count) AuctionActive.

Definition get_max_total_exposure : M (option Z) := iget DK.MaxTotalExposure.

Definition set_max_total_exposure (cap : Z) : M unit :=
  if cap =? 0 then iremove DK.MaxTotalExposure else iset DK.MaxTotalExposure cap.

Definition get_credit_line_id (borrower : Address) : M (option Z) :=
  bump_if_present (DK.CreditLineIdByBorrower borrower) ;;
  pget (DK.CreditLineIdByBorrower borrower).

Definition get_borrower_by_credit_line_id (id : Z) : M (option Address) :=
  bump_if_present (DK.CreditLineBorrowerById id) ;; pget (DK.CreditLineBorrowerById id).

Definition ensure_credit_line_id (borrower : Address) : M Z :=
  let* existing := get_credit_line_id borrower in
  match existing with
  | Some existing_id => ret existing_id
  | None =>
      let* next_id := get_credit_line_count in
      pset (DK.CreditLineIdByBorrower borrower) next_id ;;
      bump_persistent_ttl (DK.CreditLineIdByBorrower borrower) ;;
      pset (DK.CreditLineBorrowerById next_id) borrower ;;
      bump_persistent_ttl (DK.CreditLineBorrowerById next_id) ;;
      iset DK.CreditLineCount (sat_u32 (next_id + 1)) ;;
      ret next_id
  end.

(** The recomputation loop of [assert_total_utilized_conserved], over ids [0..line_count]. *)
Definition recompute_total_utilized (line_count : Z) : M Z :=
  mfold (seqZ 0 line_count) 0 (fun recomputed_total id =>
    let* o := get_borrower_by_credit_line_id id in
    match o with
    | None => ret recomputed_total
    | Some borrower =>
        let* l := get_credit_line borrower in
        match l with
        | None => ret recomputed_total
        | Some line =>
            unwrap (checked_i128 (recomputed_total + cl_utilized_amount line))
              "utilization conservation: recomputed total overflow"
        end
    end).

Definition assert_total_utilized_conserved : M unit :=
  let* stored_total := get_total_utilized in
  let* line_count := get_credit_line_count in
  let* recomputed_total := recompute_total_utilized line_count in
  massert (stored_total =? recomputed_total) "utilization conservation".

Definition get_total_collateral : M Z :=
  bump_instance_ttl ;; let* o := iget DK.TotalCollateral in ret (unwrap_or o 0).

Definition get_collateral_balance (borrower : Address) : M Z :=
  bump_if_present (DK.CollateralBalance borrower) ;;
  let* o := pget (DK.CollateralBalance borrower) in ret (unwrap_or o 0).

Definition recompute_total_collateral (line_count : Z) : M Z :=
  mfold (seqZ 0 line_count) 0 (fun recomputed_total id =>
    let* o := get_borrower_by_credit_line_id id in
    match o with
    | None => ret recomputed_total
    | Some borrower =>
        let* balance := get_collateral_balance borrower in
        unwrap (checked_i128 (recomputed_total + balance))
          "collateral conservation: recomputed total overflow"
    end).

Definition assert_total_collateral_conserved : M unit :=
  let* stored_total := get_total_collateral in
  let* line_count := get_credit_line_count in
  let* recomputed_total := recompute_total_collateral line_count in
  massert (stored_total =? recomputed_total) "collateral conservation".

Definition adjust_total_utilized (previous_utilized new_utilized : Z) : M unit :=
  let* delta := or_panic (checked_i128 (new_utilized - previous_utilized)) Overflow in
  if delta =? 0 then ret tt else
  let* total := get_total_utilized in
  let* updated_total := or_panic (checked_i128 (total + delta)) Overflow in
  iset DK.TotalUtilized updated_total ;;
  assert_total_utilized_conserved.

Definition adjust_total_collateral (previous_balance new_balance : Z) : M unit :=
  let* delta := or_panic (checked_i128 (new_balance - previous_balance)) Overflow in
  if delta =? 0 then ret tt else
  let* total := get_total_collateral in
  let* updated_total := or_panic (checked_i128 (total + delta)) Overflow in
  iset DK.TotalCollateral updated_total ;;
  assert_total_collateral_conserved.

Definition is_Active (o : option CreditStatus) : bool :=
  match o with Some Active => true | _ => false end.

Definition persist_credit_line (borrower : Address) (line : CreditLineData)
    (previous_utilized : Z) (previous_status : option CreditStatus) : M unit :=
  ensure_credit_line_id borrower ;;
  pset (KLine borrower) line ;;
  bump_credit_line_ttl borrower ;;
  adjust_total_utilized previous_utilized (cl_utilized_amount line) ;;
  let is_now_active := is_Active (Some (cl_status line)) in
  let was_active := is_Active previous_status in
  if is_now_active && negb was_active then increment_active_line_count
  else if negb is_now_active && was_active then decrement_active_line_count
  else ret tt.

Definition set_collateral_balance (borrower : Address) (balance : Z) : M unit :=
  let* previous := pget (DK.CollateralBalance borrower) in
  let previous_balance := unwrap_or previous 0 in
  pset (DK.CollateralBalance borrower) balance ;;
  bump_persistent_ttl (DK.CollateralBalance borrower) ;;
  adjust_total_collateral previous_balance balance.
End storage.

(** ** Plain accessors *)
Section accessors.
Context `{H : Host}.

(** The getter idiom of per-borrower entries: refresh the lifetime when present, then read. *)
Definition pget_bump (k : StorageKey) : M (option (interp (StorageKey_type k))) :=
  bump_if_present k ;; pget k.

Definition get_collateral_token : M (option Address) :=
  bump_instance_ttl ;; iget DK.LiquidityToken.

Definition get_min_collateral_ratio_bps : M (option Z) :=
  bump_instance_ttl ;; iget DK.MinCollateralRatioBps.

Definition set_min_collateral_ratio_bps (ratio_bps : Z) : M unit :=
  iset DK.MinCollateralRatioBps ratio_bps.

Definition get_admin_collateral_cooldown_seconds : M (option Z) :=
  iget DK.AdminCollateralCooldownSeconds.

Definition set_admin_collateral_cooldown_seconds (seconds : Z) : M unit :=
  iset DK.AdminCollateralCooldownSeconds seconds.

Definition get_last_admin_collateral_critical_action_ts : M (option Z) :=
  iget DK.LastColAdminActionTs.

Definition set_last_admin_collateral_critical_action_ts (ts : Z) : M unit :=
  iset DK.LastColAdminActionTs ts.

Definition get_collateral_risk_weight_bps (asset : Address) : M (option Z) :=
  iget (DK.CollateralRiskWeightBps asset).

Definition set_collateral_risk_weight_bps (asset : Address) (weight_bps : Z) : M unit :=
  iset (DK.CollateralRiskWeightBps asset) weight_bps.

Definition get_protocol_fee_bps : M (option Z) := iget DK.ProtocolFeeBps.

Definition set_protocol_fee_bps (bps : Z) : M unit := iset DK.ProtocolFeeBps bps.

Definition get_treasury_address : M (option Address) := iget DK.TreasuryAddress.

Definition set_treasury_address (treasury : Address) : M unit := iset DK.TreasuryAddress treasury.

Definition get_treasury_balance : M Z :=
  let* o := iget DK.TreasuryBalance in ret (unwrap_or o 0).

Definition add_treasury_balance (amount : Z) : M unit :=
  if amount =? 0 then ret tt else
  let* b := get_treasury_balance in
  let* updated_balance := or_panic (checked_i128 (b + amount)) Overflow in
  iset DK.TreasuryBalance updated_balance.

Definition clear_treasury_balance : M unit := iset DK.TreasuryBalance 0.

Definition subtract_treasury_balance (amount : Z) : M Z :=
  let* b := get_treasury_balance in
  let filtered :=
    let? balance := checked_i128 (b - amount) in
    if (0 <=? amount) && (0 <=? balance) then Some balance else None in
  let* remaining := or_panic filtered InsufficientTreasuryBalance in
  iset DK.TreasuryBalance remaining ;;
  ret remaining.

Definition get_treasury_fee_share_bps : M (option Z) := iget DK.TreasuryFeeShareBps.

Definition set_treasury_fee_share_bps (bps : Z) : M unit := iset DK.TreasuryFeeShareBps bps.

Definition get_bounty_address : M (option Address) := iget DK.BountyAddress.

Definition set_bounty_address (bounty : Address) : M unit := iset DK.BountyAddress bounty.

Definition get_bounty_balance : M Z :=
  let* o := iget DK.BountyBalance in ret (unwrap_or o 0).

Definition add_bounty_balance (amount : Z) : M unit :=
  if amount =? 0 then ret tt else
  let* b := get_bounty_balance in
  let* updated_balance := or_panic (checked_i128 (b + amount)) Overflow in
  iset DK.BountyBalance updated_balance.

Definition clear_bounty_balance : M unit := iset DK.BountyBalance 0.

(** *** Reentrancy guard *)
Definition set_reentrancy_guard : M unit :=
  let* o := iget sym_reentrancy in
  panic_if (unwrap_or o false) Reentrancy ;;
  iset sym_reentrancy true.

Definition clear_reentrancy_guard : M unit := iset sym_reentrancy false.

(** [let _guard = enter_reentrancy_guard(env);]: the guard is released when it
    goes out of scope on the success path; a failure discards the flag write. *)
Definition with_reentrancy_guard {A} (body : M A) : M A :=
  set_reentrancy_guard ;;
  let* a := body in
  clear_reentrancy_guard ;;
  ret a.

(** *** Per-borrower settings *)
Definition MAX_INTEREST_RATE_BPS : Z := 10000.

Definition MAX_RISK_SCORE : Z := 100.

Definition le_max_rate (o : option Z) : bool :=
  match o with Some v => v <=? MAX_INTEREST_RATE_BPS | None => true end.

Definition set_borrower_rate_floor (borrower : Address) (floor_bps : option Z) : M unit :=
  massert (le_max_rate floor_bps) "floor exceeds max rate" ;;
  match floor_bps with
  | Some floor => pset (DK.RateFloorBps borrower) floor
  | None => premove (DK.RateFloorBps borrower)
  end ;;
  bump_persistent_ttl (DK.RateFloorBps borrower).

Definition get_borrower_rate_floor (borrower : Address) : M (option Z) :=
  pget_bump (DK.RateFloorBps borrower).

Definition set_borrower_rate_ceiling (borrower : Address) (ceiling_bps : option Z) : M unit :=
  massert (le_max_rate ceiling_bps) "ceiling exceeds max rate" ;;
  match ceiling_bps with
  | Some ceiling => pset (DK.RateCeilingBps borrower) ceiling
  | None => premove (DK.RateCeilingBps borrower)
  end ;;
  bump_persistent_ttl (DK.RateCeilingBps borrower).

Definition get_borrower_rate_ceiling (borrower : Address) : M (option Z) :=
  pget_bump (DK.RateCeilingBps borrower).

Definition set_utilization_cap_bps (borrower : Address) (cap_bps : option Z) : M unit :=
  match cap_bps with
  | Some cap => pset (DK.UtilizationCapBps borrower) cap
  | None => premove (DK.UtilizationCapBps borrower)
  end ;;
  bump_persistent_ttl (DK.UtilizationCapBps borrower).

Definition get_utilization_cap_bps (borrower : Address) : M (option Z) :=
  pget_bump (DK.UtilizationCapBps borrower).

Definition clear_repayment_schedule (borrower : Address) : M unit :=
  premove (DK.RepaymentSchedule borrower).

Definition set_borrower_blocked (borrower : Address) (blocked : bool) : M unit :=
  if blocked then
    pset (DK.BlockedBorrower borrower) true ;; bump_persistent_ttl (DK.BlockedBorrower borrower)
  else
    premove (DK.BlockedBorrower borrower) ;; bump_instance_ttl.

Definition is_borrower_blocked (borrower : Address) : M bool :=
  let* o := pget_bump (DK.BlockedBorrower borrower) in ret (unwrap_or o false).

Definition get_min_credit_limit : M (option Z) := iget DK.MinCreditLimit.

Definition set_min_credit_limit (min : Z) : M unit := iset DK.MinCreditLimit min.

Definition get_max_credit_limit : M (option Z) := iget DK.MaxCreditLimit.

Definition set_max_credit_limit (max : Z) : M unit := iset DK.MaxCreditLimit max.

Definition get_auction_contract : M (option Address) := iget DK.AuctionContract.

Definition set_auction_contract (addr : Address) : M unit := iset DK.AuctionContract addr.

Definition get_close_factor_bps : M Z :=
  let* o := iget DK.CloseFactorBps in ret (unwrap_or o 10000).

Definition set_close_factor_bps (bps : Z) : M unit := iset DK.CloseFactorBps bps.

Definition get_repayment_schedule (borrower : Address) : M (option RepaymentSchedule) :=
  pget_bump (DK.RepaymentSchedule borrower).

Definition set_repayment_schedule (borrower : Address) (schedule : RepaymentSchedule) : M unit :=
  pset (DK.RepaymentSchedule borrower) schedule ;;
  bump_persistent_ttl (DK.RepaymentSchedule borrower).

Definition get_last_draw_ts (borrower : Address) : M (option Z) :=
  pget_bump (DK.LastDrawTs borrower).

Definition set_last_draw_ts (borrower : Address) (ts : Z) : M unit :=
  pset (DK.LastDrawTs borrower) ts ;; bump_persistent_ttl (DK.LastDrawTs borrower).

Definition get_draw_audit (borrower : Address) (ts : Z) : M (option Z) :=
  pget_bump (DK.DrawAudit (mkDrawAuditKey borrower ts)).

Definition get_draw_reversed_amount (borrower : Address) (ts : Z) : M Z :=
  let* o := pget_bump (DK.DrawReversedAmount (mkDrawAuditKey borrower ts)) in
  ret (unwrap_or o 0).

Definition set_draw_reversed_amount (borrower : Address) (ts amount : Z) : M unit :=
  pset (DK.DrawReversedAmount (mkDrawAuditKey borrower ts)) amount ;;
  bump_persistent_ttl (DK.DrawReversedAmount (mkDrawAuditKey borrower ts)).

Definition get_draw_min_interval : M (option Z) := iget DK.DrawMinIntervalSeconds.

Definition set_draw_min_interval (seconds : Z) : M unit := iset DK.DrawMinIntervalSeconds seconds.

Definition get_borrow_admin_cooldown : M (option Z) := iget DK.BorrowAdminCooldownSeconds.

Definition set_borrow_admin_cooldown (seconds : Z) : M unit :=
  iset DK.BorrowAdminCooldownSeconds seconds.

Definition get_last_borrow_admin_action_ts (borrower : Address) : M (option Z) :=
  pget (DK.LastBorrowAdminActionTs borrower).

Definition set_last_borrow_admin_action_ts (borrower : Address) (ts : Z) : M unit :=
  pset (DK.LastBorrowAdminActionTs borrower) ts ;;
  bump_persistent_ttl (DK.LastBorrowAdminActionTs borrower).

Definition get_accrual_admin_cooldown : M (option Z) := iget DK.AccrualAdminCooldownSeconds.

Definition set_accrual_admin_cooldown (seconds : Z) : M unit :=
  iset DK.AccrualAdminCooldownSeconds seconds.

Definition get_last_accrual_admin_action_ts (borrower : Address) : M (option Z) :=
  pget (DK.LastAccrualAdminActionTs borrower).

Definition set_last_accrual_admin_action_ts (borrower : Address) (ts : Z) : M unit :=
  pset (DK.LastAccrualAdminActionTs borrower) ts ;;
  bump_persistent_ttl (DK.LastAccrualAdminActionTs borrower).
End accessors.

(** ** Pause, oracle, penalty, blocklist, cooldown and treasury accessors *)
Section accessors2.
Context `{H : Host}.

Definition is_paused : M bool := let* o := iget sym_paused in ret (unwrap_or o false).

Definition set_paused (paused : bool) : M unit := iset sym_paused paused.

Definition clear_pause_reason : M unit := iremove DK.PauseReason.

Definition get_pause_reason : M (option PauseReason) := iget DK.PauseReason.

Definition set_pause_reason (reason : PauseReason) : M unit := iset DK.PauseReason reason.

Definition assert_not_paused : M unit := let* p := is_paused in panic_if p Paused.

Definition assert_ts_monotonic (stored_ts new_ts : Z) : M unit :=
  panic_if (negb (stored_ts =? 0) && (new_ts <=? stored_ts)) TimestampRegression.

Definition get_oracle_config : M (option OracleConfig) := iget DK.OracleConfig.

Definition set_oracle_config (cfg : OracleConfig) : M unit := iset DK.OracleConfig cfg.

Definition get_oracle_last_price : M (option Z) := iget DK.OracleLastPrice.

Definition get_oracle_last_price_ts : M (option Z) := iget DK.OracleLastPriceTs.

Definition set_oracle_last_price (price ts : Z) : M unit :=
  iset DK.OracleLastPrice price ;; iset DK.OracleLastPriceTs ts.

Definition get_oracle_quorum_price : M (option Z) := iget DK.OracleQuorumPrice.

Definition get_oracle_quorum_price_ts : M (option Z) := iget DK.OracleQuorumPriceTs.

Definition set_oracle_quorum_price (price ts : Z) : M unit :=
  iset DK.OracleQuorumPrice price ;; iset DK.OracleQuorumPriceTs ts.

Definition get_penalty_surcharge_bps : M Z :=
  let* o := iget DK.PenaltySurchargeBps in ret (unwrap_or o 0).

Definition set_penalty_surcharge_bps (bps : Z) : M unit := iset DK.PenaltySurchargeBps bps.

Definition get_late_fee_flat : M Z := let* o := iget DK.LateFeeFlat in ret (unwrap_or o 0).

Definition set_late_fee_flat (fee : Z) : M unit := iset DK.LateFeeFlat fee.

Definition get_late_fee_config : M (option LateFeeConfig) := iget DK.LateFeeConfig.

Definition set_late_fee_config (config : option LateFeeConfig) : M unit :=
  match config with
  | Some c => iset DK.LateFeeConfig c
  | None => iremove DK.LateFeeConfig
  end.

Definition set_borrower_unblocked (borrower : Address) : M unit :=
  set_borrower_blocked borrower false.

Definition set_borrower_frozen_until (borrower : Address) (expiry_ts : Z) : M unit :=
  pset (DK.FrozenBorrower borrower) expiry_ts ;; bump_borrower_frozen_ttl borrower.

Definition is_borrower_frozen (borrower : Address) : M bool :=
  let* now := timestamp in
  let* present := phas (DK.FrozenBorrower borrower) in
  if present then
    bump_borrower_frozen_ttl borrower ;;
    let* o := pget (DK.FrozenBorrower borrower) in
    ret (match o with Some expiry => now <? expiry | None => false end)
  else ret false.

Definition get_borrower_frozen_until (borrower : Address) : M (option Z) :=
  let* present := phas (DK.FrozenBorrower borrower) in
  if present then bump_borrower_frozen_ttl borrower ;; pget (DK.FrozenBorrower borrower)
  else ret None.

Definition clear_borrower_frozen (borrower : Address) : M unit :=
  premove (DK.FrozenBorrower borrower).

Definition get_collateral_balance_for_token (borrower token : Address) : M Z :=
  let* o := pget_bump (DK.CollateralBalanceV2 borrower token) in ret (unwrap_or o 0).

Definition set_collateral_balance_for_token (borrower token : Address) (balance : Z) : M unit :=
  let* previous := get_collateral_balance_for_token borrower token in
  pset (DK.CollateralBalanceV2 borrower token) balance ;;
  bump_persistent_ttl (DK.CollateralBalanceV2 borrower token) ;;
  adjust_total_collateral previous balance.

Definition get_collateral_token_allowlist : M (list Address) :=
  let* o := iget DK.CollateralTokenAllowlist in ret (unwrap_or o []).

Definition set_collateral_token_allowlist (tokens : list Address) : M unit :=
  iset DK.CollateralTokenAllowlist tokens.

Definition is_collateral_token_allowed (token : Address) : M bool :=
  let* l := get_collateral_token_allowlist in ret (bool_decide (token ∈ l)).

Definition get_risk_admin_cooldown_seconds : M Z :=
  let* o := iget sym_rad_cool in ret (unwrap_or o 0).

Definition set_risk_admin_cooldown_seconds (seconds : Z) : M unit := iset sym_rad_cool seconds.

Definition get_last_risk_admin_action_ts_for (borrower : Address) : M Z :=
  let* o := pget (KRadLast borrower) in ret (unwrap_or o 0).

Definition set_last_risk_admin_action_ts_for (borrower : Address) (ts : Z) : M unit :=
  pset (KRadLast borrower) ts.

Definition assert_risk_admin_cooldown_elapsed_for (borrower : Address) : M unit :=
  let* cooldown := get_risk_admin_cooldown_seconds in
  if cooldown =? 0 then ret tt else
  let* last_ts := get_last_risk_admin_action_ts_for borrower in
  if last_ts =? 0 then ret tt else
  let* now := timestamp in
  panic_if (now <? sat_u64 (last_ts + cooldown)) RiskAdminCooldownActive.

Definition get_last_risk_admin_action_ts : M Z :=
  let* o := iget sym_rad_last in ret (unwrap_or o 0).

Definition set_last_risk_admin_action_ts (ts : Z) : M unit := iset sym_rad_last ts.

Definition assert_risk_admin_cooldown_elapsed : M unit :=
  let* cooldown := get_risk_admin_cooldown_seconds in
  if cooldown =? 0 then ret tt else
  let* last_ts := get_last_risk_admin_action_ts in
  if last_ts =? 0 then ret tt else
  let* now := timestamp in
  panic_if (now <? sat_u64 (last_ts + cooldown)) RiskAdminCooldownActive.

Definition get_freeze_cooldown_seconds : M (option Z) :=
  let* o := iget DK.FreezeCooldownSeconds in
  ret (match o with Some secs => if 0 <? secs then Some secs else None | None => None end).

Definition set_freeze_cooldown_seconds (seconds : Z) : M unit :=
  if seconds =? 0 then iremove DK.FreezeCooldownSeconds else iset DK.FreezeCooldownSeconds seconds.

Definition set_last_freeze_timestamp (ts : Z) : M unit := iset DK.LastFreezeTimestamp ts.

Definition get_last_freeze_timestamp : M (option Z) := iget DK.LastFreezeTimestamp.

Definition record_freeze_timestamp_if_cooldown : M unit :=
  let* cooldown := get_freeze_cooldown_seconds in
  match cooldown with
  | Some _ => let* now := timestamp in set_last_freeze_timestamp now
  | None => ret tt
  end.

Definition enforce_freeze_cooldown : M unit :=
  let* cooldown := get_freeze_cooldown_seconds in
  match cooldown with
  | None => ret tt
  | Some cooldown_secs =>
      let* last := get_last_freeze_timestamp in
      match last with
      | Some last_ts =>
          let* now := timestamp in
          panic_if (now <? sat_u64 (last_ts + cooldown_secs)) FreezeCooldownActive
      | None => ret tt
      end
  end.

Definition get_grace_period_config : M (option GracePeriodConfig) := iget sym_grace_cfg.

Definition get_per_borrower_liquidation_grace (borrower : Address) : M Z :=
  let* o := pget (DK.LiquidationGracePeriod borrower) in ret (unwrap_or o 0).

Definition set_per_borrower_liquidation_grace (borrower : Address) (secs : Z) : M unit :=
  if secs =? 0 then premove (DK.LiquidationGracePeriod borrower) else
  pset (DK.LiquidationGracePeriod borrower) secs ;;
  bump_persistent_ttl (DK.LiquidationGracePeriod borrower).

Definition get_oracle_quorum_config : M (option OracleQuorumConfig) := iget DK.OracleQuorumConfig.

Definition set_oracle_quorum_config (cfg : OracleQuorumConfig) : M unit :=
  iset DK.OracleQuorumConfig cfg.

Definition get_pending_treasury_withdrawal : M (option TreasuryWithdrawalProposal) :=
  iget DK.PendingTreasuryWithdrawal.

Definition set_pending_treasury_withdrawal (proposal : TreasuryWithdrawalProposal) : M unit :=
  iset DK.PendingTreasuryWithdrawal proposal.

Definition clear_pending_treasury_withdrawal : M unit := iremove DK.PendingTreasuryWithdrawal.

Definition get_max_borrower_exposure (borrower : Address) : M (option Z) :=
  pget_bump (DK.MaxBorrowerExposure borrower).

Definition set_max_borrower_exposure (borrower : Address) (cap : Z) : M unit :=
  if cap =? 0 then premove (DK.MaxBorrowerExposure borrower) else
  pset (DK.MaxBorrowerExposure borrower) cap ;;
  bump_persistent_ttl (DK.MaxBorrowerExposure borrower).

(** ** [auth.rs] *)
Definition require_admin : M Address :=
  let* o := iget sym_admin in or_panic o AdminNotInitialized.

Definition require_admin_auth : M Address :=
  let* admin := require_admin in require_auth admin ;; ret admin.

Definition require_admin_auth_with_argument (provided_admin : Address) : M Address :=
  let* admin := require_admin in
  panic_if (negb (bool_decide (provided_admin = admin))) Unauthorized ;;
  require_auth admin ;;
  ret admin.
End accessors2.
