(* ===== verification/CreditState.v ===== *)
(** * The credit contract's state, as the theorems read it

    Projections of a [State] to the values the storage accessors return, the
    [Reads] instances that tie each getter to its projection, and the frames of
    the helpers that write. *)
From S2P Require Import Prelude Soroban CreditTypes CreditEvents CreditStorage.

Section state.
Context `{H : Host}.
Implicit Types (s : State (C := CreditContract)) (b : Address).

Definition inst s (k : StorageKey) : option (interp (StorageKey_type k)) := instance_store s k.

Definition pers s (k : StorageKey) : option (interp (StorageKey_type k)) := persistent_store s k.

Definition line_of s b : option CreditLineData := pers s (KLine b).

Definition id_of s b : option Z := pers s (DK.CreditLineIdByBorrower b).

Definition borrower_at s (i : Z) : option Address := pers s (DK.CreditLineBorrowerById i).

Definition total_utilized s : Z := unwrap_or (inst s DK.TotalUtilized) 0.

Definition line_count s : Z := unwrap_or (inst s DK.CreditLineCount) 0.

Definition active_count s : Z := unwrap_or (inst s DK.ActiveLineCount) 0.

Definition pending_count s : Z := unwrap_or (inst s DK.PendingAuctionCount) 0.

Definition collateral_of s b : Z := unwrap_or (pers s (DK.CollateralBalance b)) 0.

Definition total_collateral s : Z := unwrap_or (inst s DK.TotalCollateral) 0.

Definition admin_of s : option Address := inst s sym_admin.

Definition paused s : bool := unwrap_or (inst s sym_paused) false.
End state.

(** [solve_reads]: a getter's run is an inversion away. *)
Ltac solve_reads := let Hr := fresh "Hr" in
  intros ? ? ? ? Hr; cbv beta delta [bump_instance_ttl] in Hr; minv Hr; try done.

Section getters.
Context `{H : Host}.
Abbreviation S' := (State (C := CreditContract)).

#[export] Instance reads_bump_instance : Reads bump_instance_ttl (fun _ _ => tt).
Proof. apply reads_iextend. Qed.

Lemma bump_persistent_ttl_ok k c (s : S') u s' :
  bump_persistent_ttl k c s = Ok u s' -> is_Some (pers s k) /\ s' = s.
Proof. unfold bump_persistent_ttl. intros Hr. minv Hr. by split. Qed.

#[export] Instance reads_bump_if_present k : Reads (bump_if_present k) (fun _ _ => tt).
Proof.
  intros c s [] s' Hr. unfold bump_if_present in Hr. mstep Hr. mstep Hr; [|by minv Hr].
  by apply bump_persistent_ttl_ok in Hr as [_ ->].
Qed.

#[export] Instance reads_pget_bump k : Reads (pget_bump k) (fun _ s => pers s k).
Proof. unfold pget_bump. solve_reads. Qed.

#[export] Instance reads_get_credit_line b : Reads (get_credit_line b) (fun _ s => line_of s b).
Proof.
  intros c s a s' Hr. unfold get_credit_line, bump_credit_line_ttl in Hr.
  unfold line_of, pers. mstep Hr. subst. destruct (persistent_store s (KLine b)) eqn:E.
  - minv Hr. done.
  - minv Hr. done.
Qed.

#[export] Instance reads_get_total_utilized : Reads get_total_utilized (fun _ s => total_utilized s).
Proof. unfold get_total_utilized. solve_reads. Qed.

#[export] Instance reads_get_credit_line_count :
  Reads get_credit_line_count (fun _ s => line_count s).
Proof. unfold get_credit_line_count. solve_reads. Qed.

#[export] Instance reads_get_active_line_count :
  Reads get_active_line_count (fun _ s => active_count s).
Proof. unfold get_active_line_count. solve_reads. Qed.

#[export] Instance reads_get_pending_auction_count :
  Reads get_pending_auction_count (fun _ s => pending_count s).
Proof. unfold get_pending_auction_count. solve_reads. Qed.

#[export] Instance reads_get_credit_line_id b : Reads (get_credit_line_id b) (fun _ s => id_of s b).
Proof. unfold get_credit_line_id. solve_reads. Qed.

#[export] Instance reads_get_borrower_by_id i :
  Reads (get_borrower_by_credit_line_id i) (fun _ s => borrower_at s i).
Proof. unfold get_borrower_by_credit_line_id. solve_reads. Qed.

#[export] Instance reads_get_total_collateral :
  Reads get_total_collateral (fun _ s => total_collateral s).
Proof. unfold get_total_collateral. solve_reads. Qed.

#[export] Instance reads_get_collateral_balance b :
  Reads (get_collateral_balance b) (fun _ s => collateral_of s b).
Proof. unfold get_collateral_balance. solve_reads. Qed.

#[export] Instance reads_is_paused : Reads is_paused (fun _ s => paused s).
Proof. unfold is_paused. solve_reads. Qed.

#[export] Instance reads_require_admin :
  Reads require_admin (fun _ s => default (mkAddress 0) (admin_of s)).
Proof.
  intros c s a s' Hr. unfold require_admin in Hr. minv Hr. unfold admin_of, inst.
  cbn in *. by match goal with E : instance_store _ _ = Some _ |- _ => rewrite E end.
Qed.
End getters.

(** ** The credit-line index *)
Section index.
Context `{H : Host}.
Abbreviation S' := (State (C := CreditContract)).

(** [bs] lists the borrowers by line id: the two maps of [ensure_credit_line_id]
    are inverse bijections between it and [0..CreditLineCount], and every stored
    line has an id. *)
Record Index (bs : list Address) (s : S') : Prop := {
  idx_nodup : NoDup bs;
  idx_count : line_count s = Z.of_nat (length bs);
  idx_at : forall i b, borrower_at s i = Some b <-> 0 <= i /\ bs !! Z.to_nat i = Some b;
  idx_id : forall b i, id_of s b = Some i <-> borrower_at s i = Some b;
  idx_lines : forall b, is_Some (line_of s b) -> b ∈ bs;
}.

Definition add_borrower (b : Address) (bs : list Address) : list Address :=
  if decide (b ∈ bs) then bs else bs ++ [b].

(** Keys the index is read from. *)
Definition index_key (a : area) (k : StorageKey) : bool :=
  match a, k with
  | Inst, KData DK.CreditLineCount => true
  | Pers, KData (DK.CreditLineIdByBorrower _) | Pers, KData (DK.CreditLineBorrowerById _) => true
  | _, _ => false
  end.

Definition K_ensure (a : area) (k : StorageKey) : bool := negb (index_key a k).

Lemma idx_in bs s b : Index bs s -> b ∈ bs <-> is_Some (id_of s b).
Proof.
  intros HI. split.
  - intros [i Hi]%list_elem_of_lookup. exists (Z.of_nat i). apply (idx_id _ _ HI), (idx_at _ _ HI).
    rewrite Nat2Z.id. split; [lia|done].
  - intros [i Hi]. apply (idx_id _ _ HI), (idx_at _ _ HI) in Hi as [_ Hi].
    by eapply list_elem_of_lookup_2.
Qed.

Lemma ensure_credit_line_id_frame b : steps (frame K_ensure) (ensure_credit_line_id b).
Proof.
  unfold ensure_credit_line_id, bump_persistent_ttl, bump_instance_ttl. steps_tac.
Qed.

Lemma ensure_credit_line_id_ok bs b c (s : S') i s' :
  ensure_credit_line_id b c s = Ok i s' -> Index bs s -> line_count s < u32_max ->
  line_count s' = Z.of_nat (length (add_borrower b bs)) /\
  NoDup (add_borrower b bs) /\
  (forall i b', borrower_at s' i = Some b' <->
     0 <= i /\ add_borrower b bs !! Z.to_nat i = Some b') /\
  (forall b' i, id_of s' b' = Some i <-> borrower_at s' i = Some b').
Proof.
  intros Hr HI Hlt. pose proof (idx_in _ _ b HI) as Hin. unfold ensure_credit_line_id in Hr.
  mstep Hr. subst. unfold add_borrower. destruct (id_of s b) as [j|] eqn:Ej.
  { minv Hr. rewrite decide_True by (by apply Hin). destruct HI. done. }
  rewrite decide_False by (rewrite Hin; by intros [? ?]).
  minv Hr. repeat match goal with
    Hp : bump_persistent_ttl _ _ _ = Ok _ _ |- _ => apply bump_persistent_ttl_ok in Hp as [_ ->] end.
  repeat match goal with Hp : Soroban.pset _ _ _ _ = Ok _ _ |- _ => apply pset_ok in Hp end.
  match goal with Hp : Soroban.iset _ _ _ _ = Ok _ _ |- _ => apply iset_ok in Hp end.
  subst. pose proof (idx_count _ _ HI) as Hc. rewrite Hc in *.
  split; [|split; [|split]].
  - unfold line_count, inst. sput. cbn. rewrite length_app. cbn.
    rewrite saturate_in by lia. lia.
  - apply NoDup_app. split; [apply HI|]. split; [|apply NoDup_singleton].
    intros x Hx ->%list_elem_of_singleton. apply Hin in Hx as [? ?]. congruence.
  - intros i b'. destruct (decide (i = Z.of_nat (length bs))) as [->|Hne].
    + unfold borrower_at, pers. sput. rewrite Nat2Z.id, lookup_app_r, Nat.sub_diag by lia. cbn.
      split; [intros [= ->]; split; [lia|done]|by intros [_ [= ->]]].
    + unfold borrower_at, pers. sput. fold (pers s (DK.CreditLineBorrowerById i)).
      fold (borrower_at s i). rewrite (idx_at _ _ HI). rewrite lookup_app.
      destruct (bs !! Z.to_nat i) as [x|] eqn:Ex; [done|].
      split; [by intros [_ ?]|]. intros [Hi Hx]. exfalso.
      apply lookup_ge_None in Ex. apply lookup_lt_Some in Hx. cbn in Hx. lia.
  - intros b' i. unfold id_of, borrower_at, pers. 
    destruct (decide (b' = b)) as [->|Hb], (decide (i = Z.of_nat (length bs))) as [->|Hi]; sput.
    + done.
    + split; [intros [= ?]; by subst|]. intros Hx. exfalso.
      assert (id_of s b = Some i) by (by apply (idx_id _ _ HI)). congruence.
    + split; [|intros [= ?]; by subst]. intros Hx. exfalso. apply (idx_id _ _ HI), (idx_at _ _ HI) in Hx as [_ Hx].
      apply lookup_lt_Some in Hx. lia.
    + apply (idx_id _ _ HI).
Qed.
End index.

(** ** The conservation recomputation *)
Section recompute.
Context `{H : Host}.
Abbreviation S' := (State (C := CreditContract)).

Lemma mfold_sum_ok {A} (l : list A) (body : Z -> A -> M (C := CreditContract) Z) (v : A -> Z) c s :
  (forall acc x a s1, body acc x c s = Ok a s1 -> a = acc + v x /\ s1 = s) ->
  forall acc r s', mfold l acc body c s = Ok r s' -> r = acc + sumZ (v <$> l) /\ s' = s.
Proof.
  intros Hb. induction l as [|x l IH]; intros acc r s' Hr; cbn [mfold] in Hr.
  - apply mret_ok in Hr as [-> ->]. unfold sumZ. cbn. split; [lia|done].
  - apply mbind_ok in Hr as (a & s1 & Hx & Hr). apply Hb in Hx as [-> ->].
    apply IH in Hr as [-> ->]. unfold sumZ. cbn. split; [lia|done].
Qed.

(** The fold returns when no partial sum leaves the range. *)
Lemma mfold_sum_total {A} (l : list A) (body : Z -> A -> M (C := CreditContract) Z) (v : A -> Z)
    (bound : Z) c s :
  (forall acc x, x ∈ l -> 0 <= acc -> acc + v x <= bound -> body acc x c s = Ok (acc + v x) s) ->
  (forall x, x ∈ l -> 0 <= v x) ->
  forall acc, 0 <= acc -> acc + sumZ (v <$> l) <= bound ->
  mfold l acc body c s = Ok (acc + sumZ (v <$> l)) s.
Proof.
  intros Hb Hv. induction l as [|x l IH]; intros acc Ha Hle; cbn [mfold].
  - unfold mret. do 2 f_equal. unfold sumZ. cbn. lia.
  - assert (0 <= sumZ (v <$> l)) as Hs.
    { apply sumZ_nonneg, Forall_fmap, Forall_forall. intros y Hy. apply Hv. by right. }
    assert (0 <= v x) by (apply Hv; by left).
    change (sumZ (v <$> x :: l)) with (v x + sumZ (v <$> l)) in *.
    unfold mbind. rewrite Hb; [|by left|lia|lia]. rewrite IH; [f_equal; lia|..].
    + intros acc' y Hy. apply Hb. by right.
    + intros y Hy. apply Hv. by right.
    + lia.
    + lia.
Qed.

(** The value of one id in a fold over [0..line_count]. *)
Definition at_id (v : Address -> Z) (s : S') (i : Z) : Z :=
  match borrower_at s i with Some b => v b | None => 0 end.

Lemma at_id_seq bs s v :
  Index bs s -> (at_id v s <$> seqZ 0 (line_count s)) = (v <$> bs).
Proof.
  intros HI. rewrite (idx_count _ _ HI). apply list_eq. intros i.
  rewrite !list_lookup_fmap. destruct (decide (i < length bs)%nat) as [Hi|Hi].
  - rewrite lookup_seqZ_lt by lia. cbn. destruct (lookup_lt_is_Some_2 _ _ Hi) as [b Hb].
    rewrite Hb. cbn. unfold at_id. f_equal.
    assert (borrower_at s (0 + Z.of_nat i) = Some b) as ->; [|done].
    apply (idx_at _ _ HI). split; [lia|]. by rewrite Z.add_0_l, Nat2Z.id.
  - rewrite lookup_seqZ_ge by lia. rewrite lookup_ge_None_2 by lia. done.
Qed.

Definition util_of (s : S') (b : Address) : Z :=
  match line_of s b with Some l => cl_utilized_amount l | None => 0 end.

Lemma recompute_total_utilized_ok bs c s r s' :
  Index bs s -> recompute_total_utilized (line_count s) c s = Ok r s' ->
  r = sumZ (util_of s <$> bs) /\ s' = s.
Proof.
  intros HI Hr. rewrite <- (at_id_seq bs s _ HI).
  eapply (mfold_sum_ok _ _ (at_id (util_of s) s)) in Hr as [-> ->]; [by split|].
  intros acc x a s1 Hb. unfold at_id, util_of. minv Hb.
  all: rew_opt; chk; split; [lia|done].
Qed.

Lemma recompute_total_collateral_ok bs c s r s' :
  Index bs s -> recompute_total_collateral (line_count s) c s = Ok r s' ->
  r = sumZ (collateral_of s <$> bs) /\ s' = s.
Proof.
  intros HI Hr. rewrite <- (at_id_seq bs s _ HI).
  eapply (mfold_sum_ok _ _ (at_id (collateral_of s) s)) in Hr as [-> ->]; [by split|].
  intros acc x a s1 Hb. unfold at_id. minv Hb.
  all: rew_opt; chk; split; [lia|done].
Qed.

Lemma assert_total_utilized_conserved_ok bs c s u s' :
  Index bs s -> assert_total_utilized_conserved c s = Ok u s' ->
  total_utilized s = sumZ (util_of s <$> bs) /\ s' = s.
Proof.
  intros HI Hr. unfold assert_total_utilized_conserved in Hr. minv Hr.
  match goal with Hm : recompute_total_utilized _ _ _ = _ |- _ =>
    eapply recompute_total_utilized_ok in Hm as [-> ->]; [|done] end. done.
Qed.

Lemma assert_total_collateral_conserved_ok bs c s u s' :
  Index bs s -> assert_total_collateral_conserved c s = Ok u s' ->
  total_collateral s = sumZ (collateral_of s <$> bs) /\ s' = s.
Proof.
  intros HI Hr. unfold assert_total_collateral_conserved in Hr. minv Hr.
  match goal with Hm : recompute_total_collateral _ _ _ = _ |- _ =>
    eapply recompute_total_collateral_ok in Hm as [-> ->]; [|done] end. done.
Qed.
End recompute.

(** ** What [persist_credit_line] does *)
Section persist.
Context `{H : Host}.
Abbreviation S' := (State (C := CreditContract)).

(** Keys [persist_credit_line b] never writes. *)
Definition K_persist (b : Address) (a : area) (k : StorageKey) : bool :=
  K_ensure a k &&
  match a, k with
  | Pers, KLine b' => negb (bool_decide (b' = b))
  | Inst, KData DK.TotalUtilized | Inst, KData DK.ActiveLineCount => false
  | _, _ => true
  end.

(** Keys the index depends on, lines included. *)
Definition K_index (a : area) (k : StorageKey) : bool :=
  index_key a k || match a, k with Pers, KLine _ => true | _, _ => false end.

Lemma frame_inst K (s s' : S') k : frame K s s' -> K Inst k = true -> inst s' k = inst s k.
Proof. intros Hf Hk. exact (Hf Inst k Hk). Qed.

Lemma frame_pers K (s s' : S') k : frame K s s' -> K Pers k = true -> pers s' k = pers s k.
Proof. intros Hf Hk. exact (Hf Pers k Hk). Qed.

(** The projections of two states related by a frame. *)
Lemma frame_line_of K (s s' : S') b :
  frame K s s' -> K Pers (KLine b) = true -> line_of s' b = line_of s b.
Proof. apply frame_pers. Qed.

Lemma frame_id_of K (s s' : S') b :
  frame K s s' -> K Pers (DK.CreditLineIdByBorrower b) = true -> id_of s' b = id_of s b.
Proof. apply frame_pers. Qed.

Lemma frame_borrower_at K (s s' : S') i :
  frame K s s' -> K Pers (DK.CreditLineBorrowerById i) = true -> borrower_at s' i = borrower_at s i.
Proof. apply frame_pers. Qed.

Lemma frame_collateral_of K (s s' : S') b :
  frame K s s' -> K Pers (DK.CollateralBalance b) = true -> collateral_of s' b = collateral_of s b.
Proof. intros. unfold collateral_of. by erewrite frame_pers. Qed.

Lemma frame_line_count K (s s' : S') :
  frame K s s' -> K Inst DK.CreditLineCount = true -> line_count s' = line_count s.
Proof. intros. unfold line_count. by erewrite frame_inst. Qed.

Lemma frame_total K (s s' : S') :
  frame K s s' -> K Inst DK.TotalUtilized = true -> total_utilized s' = total_utilized s.
Proof. intros. unfold total_utilized. by erewrite frame_inst. Qed.

Lemma frame_active K (s s' : S') :
  frame K s s' -> K Inst DK.ActiveLineCount = true -> active_count s' = active_count s.
Proof. intros. unfold active_count. by erewrite frame_inst. Qed.

Lemma frame_pending K (s s' : S') :
  frame K s s' -> K Inst DK.PendingAuctionCount = true -> pending_count s' = pending_count s.
Proof. intros. unfold pending_count. by erewrite frame_inst. Qed.

Lemma frame_total_collateral K (s s' : S') :
  frame K s s' -> K Inst DK.TotalCollateral = true -> total_collateral s' = total_collateral s.
Proof. intros. unfold total_collateral. by erewrite frame_inst. Qed.

Lemma frame_index bs (s s' : S') : frame K_index s s' -> Index bs s -> Index bs s'.
Proof.
  intros Hf [H1 H2 H3 H4 H5].
  assert (forall i, borrower_at s' i = borrower_at s i) as Ea by (intros; by eapply frame_borrower_at).
  assert (forall b, id_of s' b = id_of s b) as Ei by (intros; by eapply frame_id_of).
  assert (forall b, line_of s' b = line_of s b) as El by (intros; by eapply frame_line_of).
  split; [done|by erewrite frame_line_count|intros; rewrite Ea; apply H3
         |intros; rewrite Ea, Ei; apply H4|].
  intros b. rewrite El. apply H5.
Qed.

Definition K_adjust (a : area) (k : StorageKey) : bool :=
  match a, k with Inst, KData DK.TotalUtilized => false | _, _ => true end.

Lemma adjust_total_utilized_ok bs pu nu c (s : S') u s' :
  Index bs s -> adjust_total_utilized pu nu c s = Ok u s' ->
  frame K_adjust s s' /\ total_utilized s' = total_utilized s + (nu - pu) /\
  (nu <> pu -> total_utilized s' = sumZ (util_of s' <$> bs)).
Proof.
  intros HI Hr. unfold adjust_total_utilized in Hr. minv Hr; chk; subst; bsimp.
  - split; [by apply frame_preorder|]. split; [lia|]. intros. lia.
  - match goal with Hm : Soroban.iset _ _ _ _ = Ok _ ?s1 |- _ =>
      rename Hm into Hset; rename s1 into sm end.
    assert (frame K_adjust s sm) as Hf by (by eapply frame_iset).
    assert (Index bs sm) as HI1 by (eapply frame_index; [|done];
      eapply frame_weaken; [|exact Hf]; by intros [] [[]|[]|[]| | |]).
    apply (assert_total_utilized_conserved_ok bs) in Hr as [Hsum ->]; [|done].
    split; [done|]. split; [|done].
    apply iset_ok in Hset as ->. unfold total_utilized at 1, inst. sput. cbn. lia.
Qed.

Definition active_delta (before after : option CreditStatus) : Z :=
  (if is_Active after then 1 else 0) - (if is_Active before then 1 else 0).

Definition K_line (b : Address) (a : area) (k : StorageKey) : bool :=
  match a, k with Pers, KLine b' => negb (bool_decide (b' = b)) | _, _ => true end.

Definition K_active (a : area) (k : StorageKey) : bool :=
  match a, k with Inst, KData DK.ActiveLineCount => false | _, _ => true end.

Lemma active_adjust_ok (now was : bool) c (s : S') u s' :
  (if now && negb was then increment_active_line_count
   else if negb now && was then decrement_active_line_count else mret tt) c s = Ok u s' ->
  frame K_active s s' /\
  active_count s' =
    (if (if now then 1 else 0) - (if was then 1 else 0) =? 0 then active_count s
     else sat_u32 (active_count s + ((if now then 1 else 0) - (if was then 1 else 0)))).
Proof.
  unfold increment_active_line_count, decrement_active_line_count.
  intros Hr. destruct now, was; cbn in Hr |- *; minv Hr;
    try (split; [by apply frame_preorder|done]).
  all: split; [by eapply frame_iset|].
  all: apply iset_ok in Hr as ->; unfold active_count at 1, inst; sput; done.
Qed.

Lemma K_persist_spec b a k :
  K_persist b a k = true ->
  K_ensure a k = true /\ K_line b a k = true /\ K_adjust a k = true /\ K_active a k = true.
Proof.
  unfold K_persist. intros [-> Hk]%andb_true_iff.
  destruct a; destruct k as [[]|[]|[]| | |]; cbn in *; done.
Qed.

(** Giving a borrower an id and writing their line keeps the index, extended with them. *)
Lemma index_put_line bs b c (s : S') i s1 s2 :
  ensure_credit_line_id b c s = Ok i s1 -> frame (K_line b) s1 s2 ->
  Index bs s -> line_count s < u32_max -> Index (add_borrower b bs) s2.
Proof.
  intros Hens Hf12 HI Hlt.
  pose proof (ensure_credit_line_id_ok _ _ _ _ _ _ Hens HI Hlt) as (Hc & Hnd & Hat & Hid).
  apply ensure_credit_line_id_frame in Hens.
  assert (forall i, borrower_at s2 i = borrower_at s1 i) as Ea
    by (intros; by eapply frame_borrower_at).
  assert (forall b', id_of s2 b' = id_of s1 b') as Ei by (intros; by eapply frame_id_of).
  assert (line_count s2 = line_count s1) as Ec by (by eapply frame_line_count).
  split; [done|by rewrite Ec|intros; rewrite Ea; apply Hat|intros; rewrite Ea, Ei; apply Hid|].
  intros b' Hb'. unfold add_borrower. destruct (decide (b' = b)) as [->|Hne].
  { case_decide; [done|]. apply elem_of_app. right. by apply list_elem_of_singleton. }
  assert (line_of s2 b' = line_of s b') as El.
  { transitivity (line_of s1 b').
    - eapply frame_line_of; [done|]. cbn. by rewrite bool_decide_eq_false_2.
    - by eapply frame_line_of. }
  rewrite El in Hb'. apply (idx_lines _ _ HI) in Hb'.
  case_decide; [done|]. apply elem_of_app. by left.
Qed.

Lemma persist_credit_line_ok bs b line pu ps c (s : S') u s' :
  persist_credit_line b line pu ps c s = Ok u s' -> Index bs s -> line_count s < u32_max ->
  Index (add_borrower b bs) s' /\
  frame (K_persist b) s s' /\
  line_of s' b = Some line /\
  total_utilized s' = total_utilized s + (cl_utilized_amount line - pu) /\
  (cl_utilized_amount line <> pu ->
     total_utilized s' = sumZ (util_of s' <$> add_borrower b bs)) /\
  active_count s' =
    (if active_delta ps (Some (cl_status line)) =? 0 then active_count s
     else sat_u32 (active_count s + active_delta ps (Some (cl_status line)))).
Proof.
  intros Hr HI Hlt. unfold persist_credit_line, bump_credit_line_ttl in Hr.
  apply mbind_ok in Hr as (i & s1 & Hens & Hr). apply mbind_ok in Hr as ([] & s2 & Hput & Hr).
  apply mbind_ok in Hr as ([] & s2' & Hbump & Hr). minv Hbump.
  apply mbind_ok in Hr as ([] & s3 & Hadj & Hr).
  assert (frame (K_line b) s1 s2) as Hf12
    by (eapply frame_pset; [exact Hput|]; cbn; by rewrite bool_decide_eq_true_2).
  assert (line_of s2 b = Some line) as Hl2
    by (apply pset_ok in Hput as ->; unfold line_of, pers; sput; done).
  pose proof (index_put_line _ _ _ _ _ _ _ Hens Hf12 HI Hlt) as HI2.
  apply ensure_credit_line_id_frame in Hens.
  apply (adjust_total_utilized_ok _ _ _ _ _ _ _ HI2) in Hadj as (Hf23 & Ht & Hsum).
  apply active_adjust_ok in Hr as [Hf34 Ha].
  assert (frame K_index s3 s') as Hfi
    by (eapply frame_weaken; [|exact Hf34]; by intros [] [[]|[]|[]| | |]).
  assert (Index (add_borrower b bs) s3) as HI3
    by (eapply frame_index; [|exact HI2]; eapply frame_weaken; [|exact Hf23];
        by intros [] [[]|[]|[]| | |]).
  split; [by eapply frame_index|]. split; [|split; [|split; [|split]]].
  - intros a k (H1' & H2' & H3' & H4')%K_persist_spec.
    rewrite (Hf34 a k), (Hf23 a k), (Hf12 a k), (Hens a k); done.
  - erewrite (frame_line_of K_active s3 s'), (frame_line_of K_adjust s2 s3); done.
  - rewrite (frame_total K_active s3 s'), Ht, (frame_total (K_line b) s1 s2),
      (frame_total K_ensure s s1); done.
  - intros Hne. rewrite (frame_total K_active s3 s'), Hsum by done. f_equal.
    apply list_fmap_ext. intros j x _. unfold util_of. by erewrite (frame_line_of K_active s3 s').
  - unfold active_delta. rewrite Ha. erewrite (frame_active K_adjust s2 s3),
      (frame_active (K_line b) s1 s2), (frame_active K_ensure s s1); done.
Qed.
End persist.
