(* ===== verification/Accrual.v ===== *)
(** * Interest accrual ([accrual.rs], [penalties.rs], [limits.rs], [query.rs])

    [apply_accrual] brings one line's debt up to the ledger time; every mutating
    entrypoint runs it on the line it loaded.  [is_delinquent] selects the
    penalty rate, the grace configuration waives or reduces interest while a
    line is suspended. *)
From S2P Require Import Prelude MathUtils Soroban CreditTypes CreditEvents CreditStorage CreditState.

Section accrual.
Context `{H : Host}.

(** ** [penalties.rs], [limits.rs] *)
Definition compute_late_fee (config : LateFeeConfig) (missed_installments : Z)
  : Z + ContractError :=
  if missed_installments =? 0 then inl 0 else
  match config with
  | Flat cfg =>
      if flat_amount cfg <? 0 then inr InvalidAmount else
      if flat_amount cfg =? 0 then inl 0 else
      match checked_i128 (flat_amount cfg * missed_installments) with
      | Some fee => inl fee
      | None => inr Overflow
      end
  | AprBased _ => inl 0
  end.

(** [None] is [Ok(())]. *)
Definition check_borrower_exposure_cap (borrower : Address) (updated_utilized : Z)
  : M (option ContractError) :=
  let* o := get_max_borrower_exposure borrower in
  match o with
  | Some cap => if cap <? updated_utilized then ret (Some BorrowerExposureCapExceeded) else ret None
  | None => ret None
  end.

(** ** [query.rs] *)
Definition is_delinquent (borrower : Address) : M bool :=
  let* l := get_credit_line borrower in
  match l with
  | None => ret false
  | Some line =>
      if bool_decide (cl_status line = Closed) || (cl_utilized_amount line <=? 0) then ret false else
      let* o := get_repayment_schedule borrower in
      match o with
      | None => ret false
      | Some schedule =>
          let* grace_cfg := iget sym_grace_cfg in
          let grace_seconds := match grace_cfg with Some cfg => grace_period_seconds cfg | None => 0 end in
          let delinquent_after := sat_u64 (next_due_ts schedule + grace_seconds) in
          let* now := timestamp in
          ret (delinquent_after <? now)
      end
  end.

(** ** [apply_accrual] *)
Definition prorate (principal rate_bps secs : Z) : M Z :=
  or_panic (checked_prorate_interest principal rate_bps secs Floor) Overflow.

Definition u128_to_i128 (v : Z) : M Z :=
  if i128_max <? v then panic_with_error Overflow else ret (as_i128 v).

Definition effective_rate (delinquent : bool) (surcharge base_rate : Z) : Z :=
  if delinquent && (0 <? surcharge) then
    Z.min (sat_u32 (base_rate + surcharge)) MAX_INTEREST_RATE_BPS
  else base_rate.

Definition penalty_surcharge : M Z :=
  let* cfg := get_late_fee_config in
  match cfg with
  | Some (AprBased c) => ret (surcharge_bps c)
  | Some (Flat _) => ret 0
  | None => get_penalty_surcharge_bps
  end.

Definition penalty_events (line : CreditLineData) (delinquent : bool)
    (surcharge effective_rate_bps : Z) : M unit :=
  let previous_effective_rate := cl_interest_rate_bps line in
  (if delinquent && (0 <? surcharge) && negb (previous_effective_rate =? effective_rate_bps) then
     publish_penalty_rate_entered_event (cl_borrower line) previous_effective_rate surcharge
       effective_rate_bps
   else ret tt) ;;
  (if negb delinquent && (cl_interest_rate_bps line <? previous_effective_rate) then
     publish_penalty_rate_exited_event (cl_borrower line) previous_effective_rate
       (cl_interest_rate_bps line)
   else ret tt).

(** Interest of a sub-period inside the grace window. *)
Definition grace_interest (cfg : GracePeriodConfig) (principal secs : Z) : M Z :=
  match waiver_mode cfg with
  | FullWaiver => ret 0
  | ReducedRate => prorate principal (reduced_rate_bps cfg) secs
  end.

(** The straddling case: the window is charged by the waiver mode, the rest at
    the effective rate, and the waived difference is reported. *)
Definition straddle_interest (line : CreditLineData) (cfg : GracePeriodConfig)
    (effective_rate_bps accrual_start grace_end now : Z) : M Z :=
  let principal := as_u128 (cl_utilized_amount line) in
  let in_window_secs := grace_end - accrual_start in
  let post_window_secs := now - grace_end in
  let* in_window := grace_interest cfg principal in_window_secs in
  let* full := prorate principal effective_rate_bps in_window_secs in
  let full_rate_interest := as_i128 full in
  let* actual := grace_interest cfg principal in_window_secs in
  let actual_interest := as_i128 actual in
  let waived_amount := sat_i128 (full_rate_interest - actual_interest) in
  (if 0 <? waived_amount then
     publish_grace_waiver_applied_event (cl_borrower line) waived_amount (waiver_mode cfg)
   else ret tt) ;;
  let* post_window := prorate principal effective_rate_bps post_window_secs in
  or_panic (checked_u128 (in_window + post_window)) Overflow.

Definition accrued_interest_for (line : CreditLineData) (effective_rate_bps now : Z) : M Z :=
  let accrual_start := cl_last_accrual_ts line in
  let principal := as_u128 (cl_utilized_amount line) in
  match cl_status line with
  | Suspended | SelfSuspended =>
      let* grace_cfg := iget sym_grace_cfg in
      match grace_cfg with
      | Some cfg =>
          if 0 <? grace_period_seconds cfg then
            let grace_end := sat_u64 (cl_suspension_ts line + grace_period_seconds cfg) in
            if now <=? grace_end then grace_interest cfg principal (now - accrual_start)
            else if grace_end <=? accrual_start then
              prorate principal effective_rate_bps (now - accrual_start)
            else straddle_interest line cfg effective_rate_bps accrual_start grace_end now
          else prorate principal effective_rate_bps (now - accrual_start)
      | None => prorate principal effective_rate_bps (now - accrual_start)
      end
  | _ => prorate principal effective_rate_bps (now - accrual_start)
  end.

Definition apply_accrual (line : CreditLineData) : M CreditLineData :=
  let* now := timestamp in
  if now <=? cl_last_accrual_ts line then ret line else
  if cl_utilized_amount line =? 0 then ret (set_last_accrual_ts line now) else
  let* delinquent := is_delinquent (cl_borrower line) in
  let* surcharge := penalty_surcharge in
  let effective_rate_bps := effective_rate delinquent surcharge (cl_interest_rate_bps line) in
  penalty_events line delinquent surcharge effective_rate_bps ;;
  let* accrued_u := accrued_interest_for line effective_rate_bps now in
  let* accrued_i := u128_to_i128 accrued_u in
  if 0 <? accrued_i then
    let* utilized := or_panic (checked_i128 (cl_utilized_amount line + accrued_i)) Overflow in
    let* accrued := or_panic (checked_i128 (cl_accrued_interest line + accrued_i)) Overflow in
    publish_interest_accrued_event (cl_borrower line) accrued_i utilized ;;
    ret (set_last_accrual_ts (set_accrued (set_utilized line utilized) accrued) now)
  else ret line.

(** Accrue one stored line and persist it when something changed. *)
Definition accrue_and_persist (borrower : Address) (stored_line : CreditLineData) : M unit :=
  let previous_utilized := cl_utilized_amount stored_line in
  let previous_timestamp := cl_last_accrual_ts stored_line in
  let previous_status := cl_status stored_line in
  let* updated_line := apply_accrual stored_line in
  if negb (cl_utilized_amount updated_line =? previous_utilized)
     || negb (cl_last_accrual_ts updated_line =? previous_timestamp)
  then persist_credit_line borrower updated_line previous_utilized (Some previous_status)
  else ret tt.

Definition accrue_all_except (excluded : Address) : M unit :=
  let* line_count := get_credit_line_count in
  mfor (seqZ 0 line_count) (fun id =>
    let* o := get_borrower_by_credit_line_id id in
    match o with
    | None => ret tt
    | Some borrower =>
        if bool_decide (borrower = excluded) then ret tt else
        let* l := get_credit_line borrower in
        match l with
        | None => ret tt
        | Some stored_line => accrue_and_persist borrower stored_line
        end
    end).

Definition accrue_batch (borrowers : list Address) : M unit :=
  mfor borrowers (fun borrower =>
    let* l := get_credit_line borrower in
    match l with
    | None => ret tt
    | Some stored_line =>
        if bool_decide (cl_status stored_line = Active) && (0 <? cl_utilized_amount stored_line)
        then accrue_and_persist borrower stored_line
        else ret tt
    end).
End accrual.
