(* ===== verification/Collateral.v ===== *)
(** * Collateral ([collateral.rs], [query.rs::get_health_factor],
      [contracts/collateral/src/admin.rs])

    Deposits, withdrawals and releases of borrower collateral, the shared
    risk-weighted valuation, the required-collateral bound every guard uses, and
    the admin policy operations with their cooldown. *)
From S2P Require Import Prelude MathUtils Soroban CreditTypes CreditEvents CreditStorage.

Section collateral.
Context `{H : Host}.

Definition required_collateral (utilized ratio_bps : Z) : M Z :=
  let* numerator := or_panic (checked_i128 (utilized * ratio_bps)) Overflow in
  arith (checked_i128
    (Z.quot numerator 10000 + (if Z.rem numerator 10000 =? 0 then 0 else 1))).

Definition asset_weight_bps (asset : Address) : M Z :=
  let* o := get_collateral_risk_weight_bps asset in ret (unwrap_or o 10000).

Definition legacy_collateral_weight_bps : M Z :=
  let* o := get_collateral_token in
  match o with Some token => asset_weight_bps token | None => ret 10000 end.

Definition weighted_collateral_value (amount weight_bps : Z) : M Z :=
  if amount <=? 0 then ret 0 else
  if 10000 <=? weight_bps then ret amount else
  let* weighted := unwrap (mul_div (as_u128 amount) weight_bps 10000 Floor) "math_utils" in
  if weighted <=? i128_max then ret weighted else panic_with_error Overflow.

Definition effective_collateral_value (borrower : Address) : M Z :=
  let* legacy_balance := get_collateral_balance borrower in
  let* total :=
    (if 0 <? legacy_balance then
       let* w := legacy_collateral_weight_bps in
       let* v := weighted_collateral_value legacy_balance w in
       or_panic (checked_i128 (0 + v)) Overflow
     else ret 0) in
  let* tokens := get_collateral_token_allowlist in
  mfold tokens total (fun total token =>
    let* balance := get_collateral_balance_for_token borrower token in
    if balance <=? 0 then ret total else
    let* w := asset_weight_bps token in
    let* v := weighted_collateral_value balance w in
    or_panic (checked_i128 (total + v)) Overflow).

Definition required_collateral_for (utilized : Z) : M Z :=
  if utilized <=? 0 then ret 0 else
  let* o := get_min_collateral_ratio_bps in
  required_collateral utilized (unwrap_or o 15000).

Definition deposit_collateral (borrower : Address) (amount : Z) : M unit :=
  panic_if (amount <=? 0) InvalidAmount ;;
  require_auth borrower ;;
  let* o := get_collateral_token in
  let* token_addr := or_panic o MissingLiquidityToken in
  let* contract_addr := current_contract_address in
  transfer token_addr borrower contract_addr amount ;;
  let* cur_balance := get_collateral_balance borrower in
  let* new_balance := or_panic (checked_i128 (cur_balance + amount)) Overflow in
  set_collateral_balance borrower new_balance ;;
  publish_collateral_deposited_event borrower amount new_balance ;;
  publish_collateral_lifecycle_event borrower Deposited None amount new_balance.

(** Effective value left once [amount] at [weight] is gone ([checked_sub .. unwrap_or(0)]). *)
Definition effective_after (borrower : Address) (amount : Z) (weight : M Z) : M Z :=
  let* value := effective_collateral_value borrower in
  let* w := weight in
  let* released := weighted_collateral_value amount w in
  ret (unwrap_or (checked_i128 (value - released)) 0).

Definition withdraw_guard (borrower : Address) (amount : Z) (weight : M Z) : M unit :=
  let* l := get_credit_line borrower in
  match l with
  | Some credit_line =>
      if 0 <? cl_utilized_amount credit_line then
        let* after := effective_after borrower amount weight in
        let* required := required_collateral_for (cl_utilized_amount credit_line) in
        panic_if (after <? required) CollateralRatioBelowMinimum
      else ret tt
  | None => ret tt
  end.

Definition withdraw_collateral (borrower : Address) (amount : Z) : M unit :=
  panic_if (amount <=? 0) InvalidAmount ;;
  require_auth borrower ;;
  let* cur_balance := get_collateral_balance borrower in
  panic_if (cur_balance <? amount) InsufficientCollateralBalance ;;
  let* post_balance := arith (checked_i128 (cur_balance - amount)) in
  withdraw_guard borrower amount legacy_collateral_weight_bps ;;
  let* o := get_collateral_token in
  let* token_addr := or_panic o MissingLiquidityToken in
  let* contract_addr := current_contract_address in
  transfer token_addr contract_addr borrower amount ;;
  set_collateral_balance borrower post_balance ;;
  publish_collateral_withdrawn_event borrower amount post_balance ;;
  publish_collateral_lifecycle_event borrower Withdrawn None amount post_balance.

Definition get_collateral (borrower : Address) : M Z := get_collateral_balance borrower.

(** [u32::try_from(v).unwrap_or(u32::MAX)] *)
Definition u32_or_max (v : Z) : Z := if (0 <=? v) && (v <=? u32_max) then v else u32_max.

Definition get_collateral_state (borrower : Address) : M CollateralState :=
  let* balance := get_collateral_balance borrower in
  let* ratio := get_min_collateral_ratio_bps in
  let* collateral_token := get_collateral_token in
  let* l := get_credit_line borrower in
  let utilized_amount := match l with Some line => cl_utilized_amount line | None => 0 end in
  let health_factor_bps :=
    if utilized_amount <=? 0 then u32_max else
    u32_or_max (Z.quot (unwrap_or (checked_i128 (balance * 10000)) i128_max) utilized_amount) in
  ret (mkCollateralState borrower balance (unwrap_or ratio 15000) collateral_token
         health_factor_bps).

Definition partial_release_collateral (borrower : Address) (amount : Z) : M unit :=
  panic_if (amount <=? 0) InvalidAmount ;;
  require_auth borrower ;;
  let* cur_balance := get_collateral_balance borrower in
  panic_if (cur_balance <? amount) InsufficientCollateralBalance ;;
  let* post_balance := or_panic (checked_i128 (cur_balance - amount)) Overflow in
  let* l := get_credit_line borrower in
  let utilized_amount := match l with Some line => cl_utilized_amount line | None => 0 end in
  let* after := effective_after borrower amount legacy_collateral_weight_bps in
  (if 0 <? utilized_amount then
     let* required := required_collateral_for utilized_amount in
     panic_if (after <? required) CollateralRatioBelowMinimum
   else ret tt) ;;
  let health_factor_bps :=
    if utilized_amount =? 0 then u32_max else
    u32_or_max (Z.quot (unwrap_or (checked_i128 (after * 10000)) i128_max) utilized_amount) in
  let* o := get_collateral_token in
  let* token_addr := or_panic o MissingLiquidityToken in
  let* contract_addr := current_contract_address in
  transfer token_addr contract_addr borrower amount ;;
  set_collateral_balance borrower post_balance ;;
  publish_collateral_partial_released_event borrower amount post_balance health_factor_bps ;;
  publish_collateral_lifecycle_event borrower PartiallyReleased None amount post_balance.

(** Not reached from an entrypoint in this revision. *)
Definition release_collateral (borrower : Address) (amount : Z) : M unit :=
  panic_if (amount <? 0) InvalidAmount ;;
  if amount =? 0 then ret tt else
  let* cur_balance := get_collateral_balance borrower in
  panic_if (cur_balance <? amount) InsufficientCollateralBalance ;;
  let* post_balance := arith (checked_i128 (cur_balance - amount)) in
  let* o := get_collateral_token in
  let* token_addr := or_panic o MissingLiquidityToken in
  let* contract_addr := current_contract_address in
  transfer token_addr contract_addr borrower amount ;;
  set_collateral_balance borrower post_balance ;;
  publish_collateral_withdrawn_event borrower amount post_balance ;;
  publish_collateral_lifecycle_event borrower Released None amount post_balance.

Definition deposit_collateral_token (borrower token_addr : Address) (amount : Z) : M unit :=
  panic_if (amount <=? 0) InvalidAmount ;;
  let* allowed := is_collateral_token_allowed token_addr in
  panic_if (negb allowed) MissingLiquidityToken ;;
  require_auth borrower ;;
  let* contract_addr := current_contract_address in
  transfer token_addr borrower contract_addr amount ;;
  let* cur_balance := get_collateral_balance_for_token borrower token_addr in
  let* new_balance := or_panic (checked_i128 (cur_balance + amount)) Overflow in
  set_collateral_balance_for_token borrower token_addr new_balance ;;
  publish_collateral_deposited_event borrower amount new_balance ;;
  publish_collateral_lifecycle_event borrower Deposited (Some token_addr) amount new_balance.

Definition withdraw_collateral_token (borrower token_addr : Address) (amount : Z) : M unit :=
  panic_if (amount <=? 0) InvalidAmount ;;
  let* allowed := is_collateral_token_allowed token_addr in
  panic_if (negb allowed) MissingLiquidityToken ;;
  require_auth borrower ;;
  let* cur_balance := get_collateral_balance_for_token borrower token_addr in
  panic_if (cur_balance <? amount) InsufficientCollateralBalance ;;
  let* post_balance := arith (checked_i128 (cur_balance - amount)) in
  withdraw_guard borrower amount (asset_weight_bps token_addr) ;;
  let* contract_addr := current_contract_address in
  transfer token_addr contract_addr borrower amount ;;
  set_collateral_balance_for_token borrower token_addr post_balance ;;
  publish_collateral_withdrawn_event borrower amount post_balance ;;
  publish_collateral_lifecycle_event borrower Withdrawn (Some token_addr) amount post_balance.

Definition get_collateral_for_token (borrower token_addr : Address) : M Z :=
  get_collateral_balance_for_token borrower token_addr.

(** ** [query.rs::get_health_factor] *)
Definition get_health_factor (borrower : Address) : M Z :=
  let* l := get_credit_line borrower in
  match l with
  | None => ret u32_max
  | Some line =>
      let utilized := cl_utilized_amount line in
      if utilized <=? 0 then ret u32_max else
      let* collateral := effective_collateral_value borrower in
      let* ratio := get_min_collateral_ratio_bps in
      let min_ratio_bps := unwrap_or ratio 15000 in
      if min_ratio_bps =? 0 then ret u32_max else
      let* required := required_collateral utilized min_ratio_bps in
      if required =? 0 then ret u32_max else
      let collateral_u128 := as_u128 (Z.max collateral 0) in
      let required_u128 := as_u128 (Z.max required 0) in
      let scaled := unwrap_or (checked_u128 (collateral_u128 * 10000)) u128_max in
      let* health_bps := arith (if required_u128 =? 0 then None else Some (scaled / required_u128)) in
      ret (u32_or_max health_bps)
  end.

End collateral.

(** ** [contracts/collateral/src/admin.rs] *)
Module Admin.
Section admin.
Context `{H : Host}.

Definition enforce_admin_collateral_cooldown : M unit :=
  let* o := get_admin_collateral_cooldown_seconds in
  match o with
  | None => ret tt
  | Some cooldown_secs =>
      if cooldown_secs =? 0 then ret tt else
      let* last := get_last_admin_collateral_critical_action_ts in
      match last with
      | Some last_ts =>
          let* now := timestamp in
          panic_if (now <? sat_u64 (last_ts + cooldown_secs)) AdminCollateralCooldownActive
      | None => ret tt
      end
  end.

Definition touch_admin_collateral_critical_action_ts : M unit :=
  let* now := timestamp in set_last_admin_collateral_critical_action_ts now.

Definition set_admin_collateral_cooldown_seconds (seconds : Z) : M unit :=
  assert_not_paused ;;
  require_admin_auth ;;
  enforce_admin_collateral_cooldown ;;
  CreditStorage.set_admin_collateral_cooldown_seconds seconds ;;
  touch_admin_collateral_critical_action_ts.

Definition set_min_collateral_ratio_bps (ratio_bps : Z) : M unit :=
  assert_not_paused ;;
  require_admin_auth ;;
  enforce_admin_collateral_cooldown ;;
  CreditStorage.set_min_collateral_ratio_bps ratio_bps ;;
  touch_admin_collateral_critical_action_ts.

Definition set_collateral_risk_weight (asset : Address) (weight_bps : Z) : M unit :=
  assert_not_paused ;;
  require_admin_auth ;;
  panic_if (10000 <? weight_bps) InvalidRiskWeight ;;
  enforce_admin_collateral_cooldown ;;
  set_collateral_risk_weight_bps asset weight_bps ;;
  touch_admin_collateral_critical_action_ts.

Definition set_collateral_token_allowlist (tokens : list Address) : M unit :=
  assert_not_paused ;;
  require_admin_auth ;;
  enforce_admin_collateral_cooldown ;;
  mfor tokens (fun token => decimals token ;; ret tt) ;;
  CreditStorage.set_collateral_token_allowlist tokens ;;
  touch_admin_collateral_critical_action_ts.
End admin.
End Admin.
