(* ===== verification/Fees.v ===== *)
(** * Protocol fees ([fees.rs])

    The split of a collected fee between treasury and bounty accumulators. *)
From S2P Require Import Prelude MathUtils Soroban CreditTypes CreditEvents CreditStorage.

Definition MAX_FEE_SHARE_BPS : Z := 10000.

Definition DEFAULT_TREASURY_FEE_SHARE_BPS : Z := 10000.

Record FeeSplitAmounts := mkSplit { treasury_amount : Z; bounty_amount : Z }.

(** [None] is a trap inside [split_conserving] or an index out of range. *)
Definition split_protocol_fee (total_fee treasury_share_bps : Z) : option FeeSplitAmounts :=
  if total_fee <=? 0 then Some (mkSplit 0 0) else
  if treasury_share_bps =? 0 then Some (mkSplit 0 total_fee) else
  if MAX_FEE_SHARE_BPS <=? treasury_share_bps then Some (mkSplit total_fee 0) else
  let total := as_u128 total_fee in
  let? parts := split_conserving total [treasury_share_bps; MAX_FEE_SHARE_BPS - treasury_share_bps] in
  let? p0 := parts !! 0%nat in
  let? p1 := parts !! 1%nat in
  Some (mkSplit (as_i128 p0) (as_i128 p1)).

Section fees.
Context `{H : Host}.

Definition fees_get_treasury_fee_share_bps : M Z :=
  let* o := get_treasury_fee_share_bps in ret (unwrap_or o DEFAULT_TREASURY_FEE_SHARE_BPS).

Definition accrue_protocol_fee (borrower : Address) (total_fee : Z) : M unit :=
  if total_fee <=? 0 then ret tt else
  let* share := fees_get_treasury_fee_share_bps in
  let* split := unwrap (split_protocol_fee total_fee share) "split_conserving" in
  (if 0 <? treasury_amount split then add_treasury_balance (treasury_amount split) else ret tt) ;;
  (if 0 <? bounty_amount split then add_bounty_balance (bounty_amount split) else ret tt) ;;
  let* new_treasury_balance := get_treasury_balance in
  let* new_bounty_balance := get_bounty_balance in
  publish_fee_accrued_event borrower total_fee (treasury_amount split) (bounty_amount split)
    new_treasury_balance new_bounty_balance.
End fees.
