(* ===== verification/Freeze.v ===== *)
(** * Freezes ([freeze.rs]) and contract configuration ([config.rs])

    The global draw freeze, the per-line freeze, initialisation and the
    liquidity configuration. *)
From S2P Require Import Prelude Soroban CreditTypes CreditEvents CreditStorage.

Section freeze.
Context `{H : Host}.

Definition get_draws_freeze_state : M (option DrawsFreezeState) := iget DK.DrawsFrozen.

Definition freeze_draws (reason : FreezeReason) : M unit :=
  require_admin_auth ;;
  enforce_freeze_cooldown ;;
  iset DK.DrawsFrozen (mkFreezeState true reason) ;;
  publish_draws_frozen_event true reason ;;
  record_freeze_timestamp_if_cooldown.

Definition unfreeze_draws : M unit :=
  require_admin_auth ;;
  enforce_freeze_cooldown ;;
  let* st := get_draws_freeze_state in
  let reason := match st with Some x => freeze_reason x | None => LiquidityReserve end in
  iset DK.DrawsFrozen (mkFreezeState false reason) ;;
  publish_draws_frozen_event false reason ;;
  record_freeze_timestamp_if_cooldown.

Definition is_draws_frozen : M bool :=
  let* st := get_draws_freeze_state in
  ret (match st with Some x => frozen x | None => false end).

Definition get_draws_freeze_reason : M (option FreezeReason) :=
  let* st := get_draws_freeze_state in
  ret (match st with
       | Some x => if frozen x then Some (freeze_reason x) else None
       | None => None
       end).

Definition freeze_credit_line (borrower : Address) (reason : FreezeReason) : M unit :=
  enforce_freeze_cooldown ;;
  let* l := get_credit_line borrower in
  panic_if (match l with None => true | Some _ => false end) CreditLineNotFound ;;
  pset (DK.CreditLineFreeze borrower) reason ;;
  bump_credit_line_freeze_ttl borrower ;;
  publish_credit_line_freeze_event borrower reason true ;;
  record_freeze_timestamp_if_cooldown.

Definition unfreeze_credit_line (borrower : Address) : M unit :=
  enforce_freeze_cooldown ;;
  let* o := pget (DK.CreditLineFreeze borrower) in
  match o with
  | None => ret tt
  | Some reason =>
      premove (DK.CreditLineFreeze borrower) ;;
      publish_credit_line_freeze_event borrower reason false ;;
      record_freeze_timestamp_if_cooldown
  end.

Definition is_credit_line_frozen (borrower : Address) : M bool :=
  let* present := phas (DK.CreditLineFreeze borrower) in
  if present then bump_credit_line_freeze_ttl borrower ;; ret true else ret false.

Definition get_credit_line_freeze_reason (borrower : Address) : M (option FreezeReason) :=
  let* present := phas (DK.CreditLineFreeze borrower) in
  if present then
    bump_credit_line_freeze_ttl borrower ;; pget (DK.CreditLineFreeze borrower)
  else ret None.
End freeze.

(** ** [config.rs] *)
Section config.
Context `{H : Host}.

Definition SCHEMA_VERSION : Z := 1.

Definition init (admin : Address) : M unit :=
  let* present := ihas sym_admin in
  panic_if present AlreadyInitialized ;;
  iset sym_admin admin ;;
  let* self := current_contract_address in
  iset DK.LiquiditySource self ;;
  iset DK.CreditLineCount 0 ;;
  iset DK.TotalUtilized 0 ;;
  set_schema_version SCHEMA_VERSION ;;
  set_min_collateral_ratio_bps 15000.

Definition set_liquidity_token (token_address : Address) : M unit :=
  require_admin_auth ;; iset DK.LiquidityToken token_address.

Definition set_liquidity_source (reserve_address : Address) : M unit :=
  require_admin_auth ;; iset DK.LiquiditySource reserve_address.
End config.
