(* ===== verification/Oracles.v ===== *)
(** * Price oracles ([oracles.rs], [oracle_validation.rs])

    The reporter registry with its weighted median, the quorum-of-K resolution
    of admin-submitted prices, and the gate a settlement price passes. *)
From S2P Require Import Prelude MathUtils Soroban CreditTypes CreditEvents CreditStorage.

Definition MAX_ORACLE_FEEDS : Z := 20.

Record ReportWeight := mkReportWeight { rw_value : Z; rw_weight : Z }.

(** ** The weighted median of [get_median_value] *)

(** The exchange sort: for [i], for [j > i], swap when out of order. *)
Fixpoint sort_row (x : ReportWeight) (rest : list ReportWeight)
  : ReportWeight * list ReportWeight :=
  match rest with
  | [] => (x, [])
  | y :: rest' =>
      if rw_value y <? rw_value x
      then let (m, r) := sort_row y rest' in (m, x :: r)
      else let (m, r) := sort_row x rest' in (m, y :: r)
  end.

Fixpoint exchange_sort (fuel : nat) (l : list ReportWeight) : list ReportWeight :=
  match fuel, l with
  | S fuel', x :: rest => let (m, r) := sort_row x rest in m :: exchange_sort fuel' r
  | _, _ => l
  end.

Definition sort_reports (l : list ReportWeight) : list ReportWeight :=
  exchange_sort (length l) l.

(** The cumulative scan; [inr] is the checked addition's [Overflow]. *)
Fixpoint median_scan (target cumulative : Z) (l : list ReportWeight) : Z + ContractError :=
  match l with
  | [] => inl 0
  | r :: l' =>
      match checked_u32 (cumulative + rw_weight r) with
      | None => inr Overflow
      | Some c => if target <=? c then inl (rw_value r) else median_scan target c l'
      end
  end.

Definition weighted_median (reports : list ReportWeight) (total_weight : Z) : Z + ContractError :=
  median_scan (ceil_div total_weight 2) 0 (sort_reports reports).

(** ** [resolve_quorum_price] *)

(** Selection sort: index of the minimum, swapped to the front of the suffix. *)
Fixpoint min_index (l : list Z) (j min_idx : nat) (rest : list Z) : nat :=
  match rest with
  | [] => min_idx
  | y :: rest' => min_index l (S j) (if y <? l !!! min_idx then j else min_idx) rest'
  end.

Definition swap (l : list Z) (i j : nat) : list Z := <[j := l !!! i]> (<[i := l !!! j]> l).

Definition selection_step (l : list Z) (i : nat) : list Z :=
  swap l i (min_index l (S i) i (drop (S i) l)).

Definition selection_sort (l : list Z) : list Z :=
  fold_left selection_step (seq 0 (length l)) l.

(** The scan of every consecutive [k]-wide window, lowest first. *)
Fixpoint window_scan (sorted : list Z) (k : nat) (max_deviation_bps : Z) (starts : list nat)
  : option Z :=
  match starts with
  | [] => None
  | i :: rest =>
      let lo := sorted !!! i in
      let hi := sorted !!! (i + k - 1)%nat in
      let dev := unwrap_or (compute_deviation_bps hi lo) u32_max in
      if dev <=? max_deviation_bps then Some (sorted !!! (i + (k - 1) / 2)%nat)
      else window_scan sorted k max_deviation_bps rest
  end.

Definition resolve_quorum_price (prices : list Z) (cfg : OracleQuorumConfig) : Z + ContractError :=
  let n := Z.of_nat (length prices) in
  if (n =? 0) || (MAX_ORACLE_FEEDS <? n) then inr OraclePriceInvalid else
  let k := min_quorum_k cfg in
  if (k <? 2) || (n <? k) then inr OracleQuorumNotMet else
  if existsb (fun p => p <=? 0) prices then inr OraclePriceInvalid else
  let slice := selection_sort prices in
  let kk := Z.to_nat k in
  match window_scan slice kk (qc_max_deviation_bps cfg) (seq 0 (length prices - kk + 1)) with
  | Some p => inl p
  | None => inr OracleQuorumNotMet
  end.

Inductive ResolvedOraclePrice :=
| NotConfigured
| RegistryMedianMode (p : Z)
| QuorumMode (p : Z)
| SingleOracleMode (p : Z).

Definition price (r : ResolvedOraclePrice) : option Z :=
  match r with
  | NotConfigured => None
  | RegistryMedianMode p | QuorumMode p | SingleOracleMode p => Some p
  end.

Section oracles.
Context `{H : Host}.

(** ** The registry *)
Definition get_oracle_list : M (list Address) :=
  let* o := iget OracleList in ret (unwrap_or o []).

Definition add_oracle (oracle : Address) (weight : Z) : M unit :=
  require_admin_auth ;;
  panic_if (weight =? 0) InvalidAmount ;;
  let* oracle_list := get_oracle_list in
  (if negb (bool_decide (oracle ∈ oracle_list)) then
     panic_if (MAX_ORACLE_FEEDS <=? Z.of_nat (length oracle_list)) OverLimit ;;
     iset OracleList (oracle_list ++ [oracle])
   else ret tt) ;;
  iset (OracleWeight oracle) weight ;;
  publish_oracle_added_event oracle weight.

(** [first_index_of] and [remove]. *)
Fixpoint remove_first (x : Address) (l : list Address) : option (list Address) :=
  match l with
  | [] => None
  | y :: l' => if decide (y = x) then Some l' else
               let? r := remove_first x l' in Some (y :: r)
  end.

Definition remove_oracle (oracle : Address) : M unit :=
  require_admin_auth ;;
  let* oracle_list := get_oracle_list in
  match remove_first oracle oracle_list with
  | Some rest =>
      iset OracleList rest ;;
      iremove (OracleWeight oracle) ;;
      premove (OracleReport oracle) ;;
      iremove (OracleReport oracle) ;;
      publish_oracle_removed_event oracle
  | None => panic_with_error OracleNotFound
  end.

Definition set_quorum_threshold (threshold : Z) : M unit :=
  require_admin_auth ;;
  iset QuorumThreshold threshold ;;
  publish_oracle_quorum_threshold_set_event threshold.

Definition get_registry_quorum_threshold : M (option Z) := iget QuorumThreshold.

Definition is_registry_configured : M bool :=
  let* o := get_registry_quorum_threshold in
  ret (match o with Some _ => true | None => false end).

Definition set_reporting_window (window_seconds : Z) : M unit :=
  require_admin_auth ;;
  iset ReportingWindow window_seconds ;;
  publish_oracle_reporting_window_set_event window_seconds.

Definition report_value (oracle : Address) (value : Z) : M unit :=
  require_auth oracle ;;
  panic_if (value =? 0) OraclePriceInvalid ;;
  let* oracle_list := get_oracle_list in
  panic_if (negb (bool_decide (oracle ∈ oracle_list))) Unauthorized ;;
  let* now := timestamp in
  pset (OracleReport oracle) (mkReport value now) ;;
  bump_persistent_ttl (OracleReport oracle) ;;
  publish_oracle_value_reported_event oracle value.

(** One iteration of the collection loop; [None] is the early [Err(Overflow)]. *)
Definition collect_report (window now : Z) (acc : option (list ReportWeight * Z))
    (oracle : Address) : M (option (list ReportWeight * Z)) :=
  match acc with
  | None => ret None
  | Some (valid_reports, total_weight) =>
      let* o := pget (OracleReport oracle) in
      match o with
      | None => ret acc
      | Some report =>
          bump_persistent_ttl (OracleReport oracle) ;;
          if sat_u64 (now - report_timestamp report) <=? window then
            let* w := iget (OracleWeight oracle) in
            let weight := unwrap_or w 0 in
            if 0 <? weight then
              ret (let? t := checked_u32 (total_weight + weight) in
                   Some (valid_reports ++ [mkReportWeight (report_value_ report) weight], t))
            else ret acc
          else ret acc
      end
  end.

Definition get_median_value : M (Z + ContractError) :=
  let* oracle_list := get_oracle_list in
  let* q := iget QuorumThreshold in
  match q with
  | Some quorum =>
      if 0 <? quorum then
        let* w := iget ReportingWindow in
        let window := unwrap_or w 0 in
        let* now := timestamp in
        let* acc := mfold oracle_list (Some ([], 0)) (collect_report window now) in
        match acc with
        | None => ret (inr Overflow)
        | Some (valid_reports, total_weight) =>
            if total_weight <? quorum then ret (inr OracleQuorumNotMet) else
            match valid_reports with
            | [] => ret (inr OracleQuorumNotMet)
            | _ => ret (weighted_median valid_reports total_weight)
            end
        end
      else ret (inr OracleQuorumNotMet)
  | None => ret (inr OracleQuorumNotMet)
  end.

(** ** [oracle_validation.rs] *)
Definition validate_registry_median_mode : M ResolvedOraclePrice :=
  let* r := get_median_value in
  match r with
  | inr _ => panic_with_error OracleQuorumNotMet
  | inl median =>
      panic_if ((median =? 0) || (i128_max <? median)) OraclePriceInvalid ;;
      ret (RegistryMedianMode median)
  end.

Definition validate_quorum_mode (cfg : OracleQuorumConfig) (now : Z) : M ResolvedOraclePrice :=
  let* p := get_oracle_quorum_price in
  let* quorum_price := or_panic p OracleQuorumNotMet in
  let* t := get_oracle_quorum_price_ts in
  let* quorum_ts := or_panic t OracleQuorumNotMet in
  panic_if (qc_max_age_seconds cfg <? sat_u64 (now - quorum_ts)) OraclePriceStale ;;
  ret (QuorumMode quorum_price).

(** [compute_deviation_bps(..).unwrap_or_else(..)]; the subtraction inside it traps. *)
Definition deviation_or_panic (new_price last_price : Z) : M Z :=
  if last_price <=? 0 then panic_with_error OraclePriceInvalid else
  arith (checked_i128 (new_price - last_price)) ;;
  or_panic (compute_deviation_bps new_price last_price) OraclePriceInvalid.

Definition validate_single_oracle_mode (oracle_price : option Z) (cfg : OracleConfig) (now : Z)
  : M Z :=
  let* price := or_panic oracle_price OraclePriceInvalid in
  panic_if (price <=? 0) OraclePriceInvalid ;;
  let* lp := get_oracle_last_price in
  let* lt := get_oracle_last_price_ts in
  match lp, lt with
  | Some last_price, Some last_ts =>
      panic_if (oc_max_age_seconds cfg <? sat_u64 (now - last_ts)) OraclePriceStale ;;
      let* deviation_bps := deviation_or_panic price last_price in
      panic_if (oc_max_deviation_bps cfg <? deviation_bps) OraclePriceDeviation ;;
      ret price
  | _, _ => ret price
  end.

Definition validate_settlement_oracle_price (oracle_price : option Z) : M ResolvedOraclePrice :=
  let* now := timestamp in
  let* single_cfg := get_oracle_config in
  let* quorum_cfg := get_oracle_quorum_config in
  let* configured := is_registry_configured in
  if configured then validate_registry_median_mode else
  match quorum_cfg with
  | Some qcfg => validate_quorum_mode qcfg now
  | None =>
      match single_cfg with
      | Some cfg =>
          let* validated_price := validate_single_oracle_mode oracle_price cfg now in
          ret (SingleOracleMode validated_price)
      | None => ret NotConfigured
      end
  end.

Definition record_accepted_oracle_price (price : Z) : M unit :=
  let* ts := timestamp in
  set_oracle_last_price price ts ;;
  publish_oracle_price_accepted_event price ts.
End oracles.

Example median_ex :
  weighted_median [mkReportWeight 30 1; mkReportWeight 10 1; mkReportWeight 20 1] 3 = inl 20.
Proof. vm_compute. reflexivity. Qed.

Example quorum_ex :
  resolve_quorum_price [105; 300; 100; 101] (mkQuorumConfig 3 1000 60) = inl 101.
Proof. vm_compute. reflexivity. Qed.
