(* ===== verification/Scoring.v ===== *)
(** * Score commitments and attestations ([scoring.rs], [attestation.rs])

    The commit-then-verify scheme of risk scores, and the Merkle commitment of
    off-chain attestations.  The hash function of the host is a parameter. *)
From S2P Require Import Prelude Soroban CreditTypes CreditEvents CreditStorage.

(** The host's [sha256]: a function from byte strings to 32-byte digests. *)
Class Crypto := { sha256 : list Z -> BytesN32 }.

(** [hash.get(i)] for [i] in [0..32] *)
Fixpoint sum_bytes (acc : Z) (n : nat) (i : nat) (hash : BytesN32) : Z :=
  match n with
  | O => acc
  | S n' =>
      let acc' := match hash !! i with Some b => sat_u32 (acc + b) | None => acc end in
      sum_bytes acc' n' (S i) hash
  end.

Definition derive_score_from_hash (hash : BytesN32) : Z := sum_bytes 0 32 0 hash mod 101.

Section scoring.
Context `{H : Host}.

Definition commit_vrf_output (borrower : Address) (hash : BytesN32) : M unit :=
  assert_not_paused ;;
  require_admin_auth ;;
  let* present := phas (DK.VrfCommitment borrower) in
  panic_if present InvalidAmount ;;
  let* now := timestamp in
  pset (DK.VrfCommitment borrower) (mkVrf hash now) ;;
  bump_vrf_commitment_ttl borrower.

Definition verify_vrf_commitment (borrower : Address) (risk_score : Z) : M bool :=
  let* o := pget (DK.VrfCommitment borrower) in
  let* commitment := or_panic o MissingVrfCommitment in
  bump_vrf_commitment_ttl borrower ;;
  let expected_score := derive_score_from_hash (commitment_hash commitment) in
  ret (expected_score =? risk_score).

Definition clear_vrf_commitment (borrower : Address) : M unit :=
  assert_not_paused ;;
  require_admin_auth ;;
  premove (DK.VrfCommitment borrower).

Definition get_vrf_commitment (borrower : Address) : M (option VrfCommitment) :=
  let* present := phas (DK.VrfCommitment borrower) in
  if present then bump_vrf_commitment_ttl borrower ;; pget (DK.VrfCommitment borrower)
  else ret None.
End scoring.

(** ** [attestation.rs] *)
Section merkle.
Context `{Crypto}.

(** [a <= b] on the first [n] bytes from [i]; missing bytes read as zero. *)
Fixpoint bytes_le (n i : nat) (a b : BytesN32) : bool :=
  match n with
  | O => true
  | S n' =>
      let av := unwrap_or (a !! i) 0 in
      let bv := unwrap_or (b !! i) 0 in
      if av <? bv then true else if bv <? av then false else bytes_le n' (S i) a b
  end.

Definition bytes32_le (a b : BytesN32) : bool := bytes_le 32 0 a b.

Definition hash_pair (a b : BytesN32) : BytesN32 :=
  let (left, right) := if bytes32_le a b then (a, b) else (b, a) in
  sha256 ([1] ++ left ++ right).

Definition compute_root (leaf : BytesN32) (proof : list BytesN32) : BytesN32 :=
  fold_left (fun current sibling => hash_pair current sibling) proof leaf.
End merkle.

Section attestation.
Context `{H : Host} `{Crypto}.

Definition commit_attestation_batch (borrower : Address) (root : BytesN32) (count : Z) : M unit :=
  assert_not_paused ;;
  require_admin_auth ;;
  let* now := timestamp in
  pset (DK.AttestationBatch borrower) (mkBatch root count now) ;;
  pextend_ttl (DK.AttestationBatch borrower) ;;
  publish_attestation_batch_committed borrower root count.

Definition verify_attestation_proof (borrower : Address) (leaf : BytesN32)
    (proof : list BytesN32) : M bool :=
  let* o := pget (DK.AttestationBatch borrower) in
  let* batch := or_panic o AttestationBatchNotFound in
  pextend_ttl (DK.AttestationBatch borrower) ;;
  ret (bool_decide (compute_root leaf proof = merkle_root batch)).

Definition get_attestation_batch (borrower : Address) : M (option AttestationBatch) :=
  let* present := phas (DK.AttestationBatch borrower) in
  if present then pextend_ttl (DK.AttestationBatch borrower) ;; pget (DK.AttestationBatch borrower)
  else ret None.

Definition clear_attestation_batch (borrower : Address) : M unit :=
  assert_not_paused ;;
  require_admin_auth ;;
  premove (DK.AttestationBatch borrower).
End attestation.
