(* ===== verification/Risk.v ===== *)
(** * Risk parameters ([risk.rs])

    The score-to-rate formula, per-borrower rate bounds, rate-change limits and
    [update_risk_parameters], the operation that moves a line between [Active]
    and [Restricted]. *)
From S2P Require Import Prelude MathUtils Soroban CreditTypes CreditEvents CreditStorage Accrual Scoring.

(** [Ord::clamp]; it traps on an inverted range. *)
Definition clamp (raw lower upper : Z) : Z :=
  if raw <? lower then lower else if upper <? raw then upper else raw.

Definition compute_rate_from_score (cfg : RateFormulaConfig) (risk_score : Z) : Z :=
  let raw := sat_u32 (base_rate_bps cfg + sat_u32 (risk_score * slope_bps_per_score cfg)) in
  let upper := Z.min (max_rate_bps cfg) MAX_INTEREST_RATE_BPS in
  let lower := Z.min (min_rate_bps cfg) upper in
  clamp raw lower upper.

Section risk.
Context `{H : Host}.

Definition set_rate_change_limits (max_change min_interval : Z) : M unit :=
  assert_not_paused ;;
  require_admin_auth ;;
  iset sym_rate_cfg (mkRateChange max_change min_interval).

Definition risk_set_borrower_rate_floor (borrower : Address) (floor_bps : option Z) : M unit :=
  require_admin_auth ;;
  massert (le_max_rate floor_bps) "floor exceeds max rate" ;;
  set_borrower_rate_floor borrower floor_bps.

Definition risk_set_borrower_rate_ceiling (borrower : Address) (ceiling_bps : option Z) : M unit :=
  require_admin_auth ;;
  match ceiling_bps with
  | Some ceiling =>
      massert (ceiling <=? MAX_INTEREST_RATE_BPS) "ceiling exceeds max rate" ;;
      let* f := get_borrower_rate_floor borrower in
      panic_if (match f with Some floor => ceiling <? floor | None => false end) RateTooHigh
  | None => ret tt
  end ;;
  set_borrower_rate_ceiling borrower ceiling_bps.

Definition risk_set_penalty_surcharge_bps (bps : Z) : M unit :=
  assert_not_paused ;;
  require_admin_auth ;;
  assert_no_active_auctions ;;
  massert (bps <=? MAX_INTEREST_RATE_BPS) "penalty surcharge exceeds max rate" ;;
  set_penalty_surcharge_bps bps.

Definition get_rate_change_limits : M (option RateChangeConfig) := iget sym_rate_cfg.

Definition get_rate_formula_config : M (option RateFormulaConfig) := iget sym_rate_form.

Definition set_risk_admin_cooldown (seconds : Z) : M unit :=
  assert_not_paused ;;
  require_admin_auth ;;
  set_risk_admin_cooldown_seconds seconds ;;
  publish_risk_admin_cooldown_configured seconds.

(** [lifecycle::validate_credit_limit_bounds] *)
Definition validate_credit_limit_bounds (credit_limit : Z) : M unit :=
  let* min := get_min_credit_limit in
  let* max := get_max_credit_limit in
  panic_if (match min with Some m => credit_limit <? m | None => false end) LimitOutOfBounds ;;
  panic_if (match max with Some m => m <? credit_limit | None => false end) LimitOutOfBounds.

(** The commitment check of a score change. *)
Definition check_score_commitment (borrower : Address) (old_score risk_score : Z) : M unit :=
  if negb (risk_score =? old_score) then
    let* o := get_vrf_commitment borrower in
    match o with
    | Some _ =>
        let* ok := verify_vrf_commitment borrower risk_score in
        panic_if (negb ok) Unauthorized
    | None => ret tt
    end
  else ret tt.

(** The rate a score update ends up with: formula or argument, then floor, then ceiling. *)
Definition bounded_rate (borrower : Address) (interest_rate_bps risk_score : Z) : M Z :=
  let* formula := get_rate_formula_config in
  let effective_rate := match formula with
                        | Some cfg => compute_rate_from_score cfg risk_score
                        | None => interest_rate_bps
                        end in
  let* f := get_borrower_rate_floor borrower in
  let with_floor := match f with Some floor => Z.max effective_rate floor | None => effective_rate end in
  let* c := get_borrower_rate_ceiling borrower in
  ret (match c with Some ceiling => Z.min with_floor ceiling | None => with_floor end).

(** The rate-change guardrails; the line with its rate-update stamp. *)
Definition rate_change_guard (line : CreditLineData) (final_rate : Z) : M CreditLineData :=
  let* limits := get_rate_change_limits in
  match limits with
  | Some cfg =>
      if negb (final_rate =? cl_interest_rate_bps line) then
        let delta := Z.abs (final_rate - cl_interest_rate_bps line) in
        panic_if (max_rate_change_bps cfg <? delta) RateTooHigh ;;
        let* now := timestamp in
        panic_if ((0 <? rate_change_min_interval cfg) && (0 <? cl_last_rate_update_ts line)
                  && (sat_u64 (now - cl_last_rate_update_ts line) <? rate_change_min_interval cfg))
          TimestampRegression ;;
        ret (set_last_rate_update_ts line now)
      else ret line
  | None => ret line
  end.

(** Status after a limit change: restrict an over-utilised active line, cure a
    restricted one that fits again. *)
Definition limit_status (status : CreditStatus) (utilized credit_limit : Z) : CreditStatus :=
  if credit_limit <? utilized then match status with Active => Restricted | st => st end
  else match status with Restricted => Active | st => st end.

Definition update_risk_parameters (borrower : Address)
    (credit_limit interest_rate_bps risk_score : Z) : M unit :=
  assert_not_paused ;;
  assert_risk_admin_cooldown_elapsed_for borrower ;;
  let* o := get_credit_line borrower in
  let* stored_line := or_panic o CreditLineNotFound in
  let previous_utilized := cl_utilized_amount stored_line in
  let* line := apply_accrual stored_line in
  panic_if (credit_limit <? 0) NegativeLimit ;;
  panic_if (MAX_RISK_SCORE <? risk_score) ScoreTooHigh ;;
  check_score_commitment borrower (cl_risk_score line) risk_score ;;
  validate_credit_limit_bounds credit_limit ;;
  let* final_rate := bounded_rate borrower interest_rate_bps risk_score in
  let* line := rate_change_guard line final_rate in
  panic_if (MAX_INTEREST_RATE_BPS <? final_rate) RateTooHigh ;;
  let line := set_score (set_rate line final_rate) risk_score in
  let previous_status := cl_status line in
  let line := set_status line (limit_status (cl_status line) (cl_utilized_amount line) credit_limit) in
  let line := set_limit line credit_limit in
  persist_credit_line borrower line previous_utilized (Some previous_status) ;;
  publish_risk_parameters_updated borrower (cl_credit_limit line) (cl_interest_rate_bps line)
    (cl_risk_score line) ;;
  let* now := timestamp in
  set_last_risk_admin_action_ts_for borrower now.
End risk.
