(* ===== verification/Lifecycle.v ===== *)
(** * Credit-line lifecycle ([lifecycle.rs])

    Opening, suspending, closing, defaulting, settling, reinstating and
    forgiving a line; the repayment waterfall and the repayment schedule. *)
From S2P Require Import Prelude MathUtils Soroban CreditTypes CreditEvents CreditStorage Accrual Risk Oracles.

(** ** Pure allocation *)

(** [(effective_repay, interest_repaid, principal_repaid)] *)
Definition allocate_repayment (total_debt accrued_interest requested_amount : Z) : Z * Z * Z :=
  let total_debt := Z.max total_debt 0 in
  let normalized_interest := Z.max (Z.min accrued_interest total_debt) 0 in
  let effective_repay := Z.max (Z.min requested_amount total_debt) 0 in
  let interest_repaid := Z.max (Z.min effective_repay normalized_interest) 0 in
  let principal_repaid := sat_i128 (effective_repay - interest_repaid) in
  (effective_repay, interest_repaid, principal_repaid).

(** [allocate_recovery]: the updated line and [(interest, principal)]; [None] is
    the trap of a plain subtraction. *)
Definition allocate_recovery (line : CreditLineData) (amount : Z)
  : option (CreditLineData * (Z * Z)) :=
  let effective_repay :=
    if cl_utilized_amount line <? amount then cl_utilized_amount line else amount in
  let interest_repaid := Z.min effective_repay (cl_accrued_interest line) in
  let? principal_repaid := checked_i128 (effective_repay - interest_repaid) in
  let? accrued := checked_i128 (cl_accrued_interest line - interest_repaid) in
  let? utilized := checked_i128 (cl_utilized_amount line - effective_repay) in
  Some (set_utilized (set_accrued line accrued) utilized, (interest_repaid, principal_repaid)).

(** The guards make every intermediate value of this [u64] arithmetic non-negative. *)
Definition overdue_installment_count (now due period installments_paid : Z) : Z :=
  if (installments_paid =? 0) || (period =? 0) || (now <=? due) then 0 else
  let elapsed := now - due in
  let overdue := (elapsed - 1) / period + 1 in
  Z.min overdue installments_paid.

Section lifecycle.
Context `{H : Host}.

Definition liquidation_settlement_key (borrower : Address) (settlement_id : Symbol) : StorageKey :=
  KLiqSeen borrower settlement_id.

Definition require_valid_transition (current_status target_status : CreditStatus)
    (allowed_sources : list CreditStatus) (wrong_state_error : ContractError) : M unit :=
  if bool_decide (current_status ∈ allowed_sources) then ret tt else
  panic_if (bool_decide (current_status = target_status)) StaleStateTransition ;;
  panic_with_error wrong_state_error.

Definition set_credit_limit_bounds (min max : Z) : M unit :=
  assert_not_paused ;;
  require_admin_auth ;;
  panic_if (min <? 0) InvalidAmount ;;
  panic_if (max <? min) LimitOutOfBounds ;;
  set_min_credit_limit min ;;
  set_max_credit_limit max.

Definition get_credit_limit_bounds : M (option Z * option Z) :=
  let* min := get_min_credit_limit in
  let* max := get_max_credit_limit in
  ret (min, max).

(** The error of an unavailable suspension or resumption, by current status. *)
Definition suspension_error (status : CreditStatus) : ContractError :=
  match status with
  | Closed => CreditLineClosed
  | Defaulted => CreditLineDefaulted
  | _ => CreditLineSuspended
  end.

Definition line_event (topic : Symbol) (line : CreditLineData) (borrower : Address)
    (status : CreditStatus) : M unit :=
  publish_credit_line_event ("credit"%string, topic) borrower status (cl_credit_limit line)
    (cl_interest_rate_bps line) (cl_risk_score line).

Definition suspend_credit_line_internal (borrower : Address) (target : CreditStatus) : M unit :=
  let* o := get_credit_line borrower in
  let* stored_line := or_panic o CreditLineNotFound in
  let previous_utilized := cl_utilized_amount stored_line in
  let previous_status := cl_status stored_line in
  let* line := apply_accrual stored_line in
  require_valid_transition (cl_status line) target [Active] (suspension_error (cl_status line)) ;;
  let line := set_status line target in
  let* new_ts := timestamp in
  assert_ts_monotonic (cl_suspension_ts line) new_ts ;;
  let line := set_suspension_ts line new_ts in
  persist_credit_line borrower line previous_utilized (Some previous_status) ;;
  line_event (if bool_decide (target = Suspended) then "suspend"%string else "self_sus"%string)
    line borrower target.

Definition set_borrower_liquidation_grace (borrower : Address) (seconds : Z) : M unit :=
  assert_not_paused ;;
  require_admin_auth ;;
  let* o := get_credit_line borrower in
  let* stored_line := or_panic o CreditLineNotFound in
  panic_if (bool_decide (cl_status stored_line = Closed)) CreditLineClosed ;;
  set_per_borrower_liquidation_grace borrower seconds.

Definition lifecycle_set_late_fee_flat (fee : Z) : M unit :=
  assert_not_paused ;;
  require_admin_auth ;;
  assert_no_active_auctions ;;
  panic_if (fee <? 0) InvalidAmount ;;
  set_late_fee_flat fee.

(** What an opening inherits from an existing line: [(previous utilized amount,
    previous status, utilized, accrued, last accrual)]. *)
Definition previous_line (existing_line : option CreditLineData) (now : Z)
  : M (Z * option CreditStatus * Z * Z * Z) :=
  match existing_line with
  | None => ret (0, None, 0, 0, now)
  | Some existing =>
      panic_if (bool_decide (cl_status existing = Active)) AlreadyInitialized ;;
      (if bool_decide (cl_status existing = Defaulted) then decrement_pending_auction_count
       else ret tt) ;;
      if bool_decide (cl_status existing = Closed) then
        ret (cl_utilized_amount existing, Some (cl_status existing), 0, 0, now)
      else
        ret (cl_utilized_amount existing, Some (cl_status existing),
             cl_utilized_amount existing, cl_accrued_interest existing,
             cl_last_accrual_ts existing)
  end.

Definition open_credit_line (borrower : Address) (credit_limit interest_rate_bps risk_score : Z)
  : M unit :=
  assert_not_paused ;;
  panic_if (credit_limit <=? 0) InvalidAmount ;;
  panic_if (MAX_INTEREST_RATE_BPS <? interest_rate_bps) RateTooHigh ;;
  panic_if (MAX_RISK_SCORE <? risk_score) ScoreTooHigh ;;
  validate_credit_limit_bounds credit_limit ;;
  let* existing_line := get_credit_line borrower in
  let* now := timestamp in
  let* (previous_utilized, previous_status, utilized, accrued, last_accrual_ts) :=
    previous_line existing_line now in
  let line := mkLine borrower credit_limit utilized interest_rate_bps risk_score Active 0
                accrued last_accrual_ts 0 in
  persist_credit_line borrower line previous_utilized previous_status ;;
  clear_repayment_schedule borrower ;;
  line_event "opened"%string line borrower Active.

Definition suspend_credit_line (borrower : Address) : M unit :=
  assert_not_paused ;; suspend_credit_line_internal borrower Suspended.

Definition self_suspend_credit_line (borrower : Address) : M unit :=
  assert_not_paused ;;
  require_auth borrower ;;
  suspend_credit_line_internal borrower SelfSuspended.

(** The common tail of the two resumptions. *)
Definition resume_line (borrower : Address) (line : CreditLineData) (previous_utilized : Z)
    (previous_status : CreditStatus) (topic : Symbol) : M unit :=
  let line := set_suspension_ts (set_status line Active) 0 in
  persist_credit_line borrower line previous_utilized (Some previous_status) ;;
  line_event topic line borrower Active.

Definition unsuspend_credit_line (borrower : Address) : M unit :=
  assert_not_paused ;;
  let* o := get_credit_line borrower in
  let* stored_line := or_panic o CreditLineNotFound in
  let previous_utilized := cl_utilized_amount stored_line in
  let previous_status := cl_status stored_line in
  let* line := apply_accrual stored_line in
  let is_suspended :=
    bool_decide (cl_status line = Suspended) || bool_decide (cl_status line = SelfSuspended) in
  if negb is_suspended then
    require_valid_transition (cl_status line) Active [Suspended; SelfSuspended]
      (suspension_error (cl_status line))
  else resume_line borrower line previous_utilized previous_status "unsuspend"%string.

Definition self_unsuspend_credit_line (borrower : Address) : M unit :=
  assert_not_paused ;;
  require_auth borrower ;;
  let* o := get_credit_line borrower in
  let* stored_line := or_panic o CreditLineNotFound in
  let previous_utilized := cl_utilized_amount stored_line in
  let previous_status := cl_status stored_line in
  let* line := apply_accrual stored_line in
  require_valid_transition (cl_status line) Active [SelfSuspended]
    (suspension_error (cl_status line)) ;;
  resume_line borrower line previous_utilized previous_status "self_uns"%string.

Definition close_credit_line (borrower closer : Address) : M unit :=
  assert_not_paused ;;
  let* admin := require_admin in
  let* o := get_credit_line borrower in
  let* line := or_panic o CreditLineNotFound in
  let previous_utilized := cl_utilized_amount line in
  panic_if (bool_decide (cl_status line = Closed)) StaleStateTransition ;;
  (if bool_decide (closer = admin) then ret tt
   else if bool_decide (closer = borrower) then
     panic_if (negb (cl_utilized_amount line =? 0)) UtilizationNotZero
   else panic_with_error Unauthorized) ;;
  let previous_status := cl_status line in
  let line := set_status line Closed in
  (if bool_decide (previous_status = Defaulted) then decrement_pending_auction_count else ret tt) ;;
  persist_credit_line borrower line previous_utilized (Some previous_status) ;;
  clear_repayment_schedule borrower ;;
  line_event "closed"%string line borrower Closed.

Definition close_credit_lines_batch (borrowers : list Address) : M unit :=
  assert_not_paused ;;
  require_admin_auth ;;
  let* admin := require_admin in
  mfor borrowers (fun borrower => close_credit_line borrower admin).

(** The liquidation grace: the reference time is the suspension, else the next
    due date, else the last rate update, else the last accrual. *)
Definition liquidation_grace_guard (borrower : Address) (line : CreditLineData) : M unit :=
  let* grace_seconds := get_per_borrower_liquidation_grace borrower in
  if 0 <? grace_seconds then
    let* now := timestamp in
    let* base_ts :=
      if 0 <? cl_suspension_ts line then ret (cl_suspension_ts line) else
      let* o := get_repayment_schedule borrower in
      ret (match o with
           | Some schedule => next_due_ts schedule
           | None => if 0 <? cl_last_rate_update_ts line then cl_last_rate_update_ts line
                     else cl_last_accrual_ts line
           end) in
    panic_if (now <? sat_u64 (base_ts + grace_seconds)) LiquidationGraceActive
  else ret tt.

Definition default_credit_line (borrower : Address) : M unit :=
  assert_not_paused ;;
  let* o := get_credit_line borrower in
  let* stored_line := or_panic o CreditLineNotFound in
  let previous_utilized := cl_utilized_amount stored_line in
  panic_if (bool_decide (cl_status stored_line = Closed)) CreditLineClosed ;;
  let* line := apply_accrual stored_line in
  panic_if (bool_decide (cl_status line = Closed)) CreditLineClosed ;;
  require_valid_transition (cl_status line) Defaulted
    [Active; Suspended; SelfSuspended; Restricted] CreditLineClosed ;;
  liquidation_grace_guard borrower line ;;
  let previous_status := cl_status line in
  let line := set_status line Defaulted in
  increment_pending_auction_count ;;
  persist_credit_line borrower line previous_utilized (Some previous_status) ;;
  line_event "defaulted"%string line borrower Defaulted ;;
  publish_default_liquidation_requested_event borrower (cl_utilized_amount line).

Definition forgive_debt (borrower : Address) (amount : Z) : M unit :=
  assert_not_paused ;;
  panic_if (amount <=? 0) InvalidAmount ;;
  let* o := get_credit_line borrower in
  let* stored_line := or_panic o CreditLineNotFound in
  let previous_utilized := cl_utilized_amount stored_line in
  let previous_status := cl_status stored_line in
  let* line := apply_accrual stored_line in
  panic_if (bool_decide (cl_status line = Closed)) CreditLineClosed ;;
  panic_if (cl_utilized_amount line =? 0) InvalidAmount ;;
  let forgive_amount := Z.min amount (cl_utilized_amount line) in
  let interest_forgiven := Z.min forgive_amount (cl_accrued_interest line) in
  let* accrued := or_panic (checked_i128 (cl_accrued_interest line - interest_forgiven)) Overflow in
  let* utilized := or_panic (checked_i128 (cl_utilized_amount line - forgive_amount)) Overflow in
  let line := set_utilized (set_accrued line accrued) utilized in
  persist_credit_line borrower line previous_utilized (Some previous_status) ;;
  publish_debt_forgiven_event borrower forgive_amount (cl_accrued_interest line)
    (cl_utilized_amount line) ;;
  let* now := timestamp in
  publish_borrow_lifecycle_event borrower PhDebtForgiven (cl_status line)
    (cl_utilized_amount line) (cl_credit_limit line) (cl_interest_rate_bps line) now.

(** Step 7 of the settlement: [utilized * close_factor / 10_000]. *)
Definition max_recoverable (utilized close_factor_bps : Z) : M Z :=
  let* product := or_panic (checked_i128 (utilized * close_factor_bps)) Overflow in
  ret (Z.quot product 10000).

Definition settle_default_liquidation (borrower : Address) (recovered_amount : Z)
    (settlement_id : Symbol) (close_factor_bps : Z) (oracle_price : option Z) : M unit :=
  panic_if (recovered_amount <=? 0) InvalidAmount ;;
  panic_if ((close_factor_bps =? 0) || (10000 <? close_factor_bps)) InvalidAmount ;;
  let* max_close_factor := get_close_factor_bps in
  panic_if (max_close_factor <? close_factor_bps) OverLimit ;;
  let settlement_key := liquidation_settlement_key borrower settlement_id in
  bump_settlement_marker_ttl settlement_key ;;
  let* seen := phas settlement_key in
  panic_if seen AlreadyInitialized ;;
  let* oracle_result := validate_settlement_oracle_price oracle_price in
  let* o := get_credit_line borrower in
  let* stored_line := or_panic o CreditLineNotFound in
  let previous_utilized := cl_utilized_amount stored_line in
  let* line := apply_accrual stored_line in
  panic_if (negb (bool_decide (cl_status line = Defaulted))) CreditLineDefaulted ;;
  let* recoverable := max_recoverable (cl_utilized_amount line) close_factor_bps in
  panic_if (recoverable <? recovered_amount) OverLimit ;;
  let previous_status := cl_status line in
  let* (line, (interest_recovered, principal_recovered)) :=
    arith (allocate_recovery line recovered_amount) in
  let line := if cl_utilized_amount line =? 0 then set_status line Closed else line in
  let closed := bool_decide (cl_status line = Closed) in
  (if bool_decide (previous_status = Defaulted) && closed then decrement_pending_auction_count
   else ret tt) ;;
  persist_credit_line borrower line previous_utilized (Some previous_status) ;;
  (if closed then clear_repayment_schedule borrower else ret tt) ;;
  pset (KLiqSeen borrower settlement_id) true ;;
  bump_settlement_marker_ttl settlement_key ;;
  match price oracle_result with
  | Some p => record_accepted_oracle_price p
  | None => ret tt
  end ;;
  (if closed then line_event "closed"%string line borrower Closed else ret tt) ;;
  publish_default_liquidation_settled_event borrower settlement_id recovered_amount
    interest_recovered principal_recovered (cl_utilized_amount line) (cl_status line)
    close_factor_bps.

Definition reinstate_credit_line (borrower : Address) (target_status : CreditStatus) : M unit :=
  assert_not_paused ;;
  panic_if (negb (bool_decide (target_status = Active))
            && negb (bool_decide (target_status = Restricted))) InvalidAmount ;;
  let* o := get_credit_line borrower in
  let* stored_line := or_panic o CreditLineNotFound in
  let previous_utilized := cl_utilized_amount stored_line in
  let* line := apply_accrual stored_line in
  panic_if (bool_decide (cl_status line = Closed)) CreditLineClosed ;;
  require_valid_transition (cl_status line) target_status [Defaulted] CreditLineDefaulted ;;
  let previous_status := cl_status line in
  let line := set_suspension_ts (set_status line target_status) 0 in
  (if bool_decide (previous_status = Defaulted) then decrement_pending_auction_count else ret tt) ;;
  persist_credit_line borrower line previous_utilized (Some previous_status) ;;
  line_event "reinstate"%string line borrower target_status.

Definition lifecycle_set_repayment_schedule (borrower : Address)
    (amount period first_due_ts : Z) : M unit :=
  assert_not_paused ;;
  require_admin_auth ;;
  panic_if ((amount <=? 0) || (period =? 0)) InvalidAmount ;;
  let* l := get_credit_line borrower in
  panic_if (match l with None => true | Some _ => false end) CreditLineNotFound ;;
  set_repayment_schedule borrower (mkSchedule amount period first_due_ts).

(** The fee due per overdue installment. *)
Definition per_installment_fee : M Z :=
  let* config := get_late_fee_config in
  match config with
  | Some cfg =>
      match compute_late_fee cfg 1 with
      | inl fee => ret fee
      | inr err => panic_with_error err
      end
  | None => get_late_fee_flat
  end.

(** The late fee of one repayment, charged once for every overdue installment. *)
Definition charge_late_fee (borrower : Address) (schedule : RepaymentSchedule)
    (installments_paid : Z) : M Z :=
  let* fee := per_installment_fee in
  if 0 <? fee then
    let* now := timestamp in
    let overdue := overdue_installment_count now (next_due_ts schedule)
                     (period_seconds schedule) installments_paid in
    if 0 <? overdue then
      let* aggregate_fee := or_panic (checked_i128 (fee * overdue)) Overflow in
      publish_late_fee_charged_event borrower aggregate_fee overdue ;;
      ret aggregate_fee
    else ret 0
  else ret 0.

Definition advance_repayment_schedule_after_repay (borrower : Address)
    (effective_repay interest_repaid : Z) : M Z :=
  match checked_i128 (effective_repay - interest_repaid) with
  | None => ret 0
  | Some principal_repaid =>
      if negb (0 <? principal_repaid) then ret 0 else
      let* o := get_repayment_schedule borrower in
      match o with
      | None => ret 0
      | Some schedule =>
          if (amount_per_period schedule <=? 0) || (period_seconds schedule =? 0) then ret 0 else
          let installments_paid := as_u64 (Z.quot principal_repaid (amount_per_period schedule)) in
          if installments_paid =? 0 then ret 0 else
          let* total_late_fee := charge_late_fee borrower schedule installments_paid in
          let advance_seconds := sat_u64 (installments_paid * period_seconds schedule) in
          set_repayment_schedule borrower
            (mkSchedule (amount_per_period schedule) (period_seconds schedule)
               (sat_u64 (next_due_ts schedule + advance_seconds))) ;;
          ret total_late_fee
      end
  end.
End lifecycle.
