(* ===== verification/Views.v ===== *)
(** * Read-only views ([views.rs], [query.rs], [contracts/lifecycle/src/views.rs],
      [contracts/query/src/views.rs])

    Capabilities, summaries, snapshots and the two enumerations of lines. *)
From S2P Require Import Prelude Soroban CreditTypes CreditEvents CreditStorage Accrual Collateral Freeze Oracles Risk.

Definition MAX_ENUMERATION_LIMIT : Z := 100.

(** [borrow.rs::draw_status_error] *)
Definition draw_status_error (status : CreditStatus) : option ContractError :=
  match status with
  | Active | Restricted => None
  | Suspended | SelfSuspended => Some CreditLineSuspended
  | Defaulted => Some CreditLineDefaulted
  | Closed => Some CreditLineClosed
  end.

Section views.
Context `{H : Host}.

(** Short-circuit conjunction of monadic tests. *)
Definition and_also (a b : M bool) : M bool := let* x := a in if x then b else ret false.

Definition mnot (a : M bool) : M bool := let* x := a in ret (negb x).

Definition borrow_capabilities (borrower : Address) : M BorrowCapabilities :=
  let* credit_line := get_credit_line borrower in
  let* draw :=
    match credit_line with
    | None => ret false
    | Some line =>
        and_also (ret (match draw_status_error (cl_status line) with None => true | _ => false end))
        (and_also (mnot is_paused)
        (and_also (mnot is_draws_frozen)
        (and_also (mnot (is_borrower_blocked borrower))
        (and_also (mnot (is_borrower_frozen borrower))
                  (mnot (is_credit_line_frozen borrower))))))
    end in
  let repay := match credit_line with
               | Some line => negb (bool_decide (cl_status line = Closed)) | None => false end in
  let self_suspend := match credit_line with
                      | Some line => bool_decide (cl_status line = Active) | None => false end in
  ret (mkBorrowCaps draw repay self_suspend).

Definition get_credit_line_snapshot (borrower : Address) : M (option CreditLineSnapshot) :=
  let* o := get_credit_line borrower in
  match o with
  | None => ret None
  | Some line =>
      let* collateral_balance := get_collateral borrower in
      let* health := get_health_factor borrower in
      let* schedule := get_repayment_schedule borrower in
      let* delinquent := is_delinquent borrower in
      ret (Some (mkSnapshot line collateral_balance health (option_list schedule) delinquent))
  end.

Definition get_protocol_summary_view : M ProtocolSummaryView :=
  let* u := get_total_utilized in
  let* k := get_total_collateral in
  let* a := get_active_line_count in
  ret (mkSummaryView u k a).

Definition get_protocol_summary : M ProtocolSummary :=
  let* n := get_credit_line_count in
  let* u := get_total_utilized in
  let* k := get_total_collateral in
  let* t := get_treasury_balance in
  let* b := get_bounty_balance in
  ret (mkSummary n u k t b).

Definition get_proof_of_reserve : M ProofOfReserve :=
  let* t := get_treasury_balance in
  let* b := get_bounty_balance in
  ret (mkReserve t b).

(** The page loop; every iteration increases [current_id], so [fuel] counts the
    ids that are left. *)
Fixpoint page_loop (fuel : nat) (limit end_id current_id : Z) (lines : list CreditLineData)
    (next : option Z) : M (list CreditLineData * option Z) :=
  match fuel with
  | O => ret (lines, next)
  | S fuel' =>
      if (Z.of_nat (length lines) <? limit) && (current_id <=? end_id) then
        let* o := get_borrower_by_credit_line_id current_id in
        let* lines' :=
          match o with
          | Some borrower =>
              let* l := get_credit_line borrower in
              ret (match l with Some line => lines ++ [line] | None => lines end)
          | None => ret lines
          end in
        let next' :=
          if (Z.of_nat (length lines') <? limit) && (current_id <? end_id)
          then Some (sat_u32 (current_id + 1))
          else if current_id <? end_id then Some (sat_u32 (current_id + 1)) else next in
        page_loop fuel' limit end_id (sat_u32 (current_id + 1)) lines' next'
      else ret (lines, next)
  end.

Definition get_credit_lines_paginated (cursor : option Z) (limit : Z) : M CreditLinesPage :=
  panic_if (MAX_ENUMERATION_LIMIT <? limit) Overflow ;;
  let* total_count := get_credit_line_count in
  let start_id := unwrap_or cursor 0 in
  if total_count <=? start_id then ret (mkPage [] None false) else
  let end_id := sat_u32 (total_count - 1) in
  let* (credit_lines, next) :=
    page_loop (Z.to_nat (total_count - start_id)) limit end_id start_id [] None in
  let next := if Z.of_nat (length credit_lines) <? limit then None else next in
  ret (mkPage credit_lines next (match next with Some _ => true | None => false end)).

Definition get_borrow_state (borrower : Address) : M BorrowStateSnapshot :=
  let* credit_line := get_credit_line borrower in
  let* collateral_balance := get_collateral_balance borrower in
  let* caps := borrow_capabilities borrower in
  ret (mkBorrowState (option_list credit_line) collateral_balance caps).

(** [Credit::enumerate_credit_lines]; [fuel] counts the ids that are left. *)
Fixpoint enumerate_loop (fuel : nat) (count capped_limit next_id returned : Z)
    (out : list (Z * CreditLineData)) : M (list (Z * CreditLineData)) :=
  match fuel with
  | O => ret out
  | S fuel' =>
      if (next_id <? count) && (returned <? capped_limit) then
        let* o := get_borrower_by_credit_line_id next_id in
        let* l := match o with Some borrower => get_credit_line borrower | None => ret None end in
        match l with
        | Some line => enumerate_loop fuel' count capped_limit (sat_u32 (next_id + 1))
                         (sat_u32 (returned + 1)) (out ++ [(next_id, line)])
        | None => enumerate_loop fuel' count capped_limit (sat_u32 (next_id + 1)) returned out
        end
      else ret out
  end.

Definition enumerate_credit_lines (start_after : option Z) (limit : Z)
  : M (list (Z * CreditLineData)) :=
  let* count := get_credit_line_count in
  let capped_limit := Z.min limit MAX_ENUMERATION_LIMIT in
  if (capped_limit =? 0) || (count =? 0) then ret [] else
  let next_id := match start_after with Some id => sat_u32 (id + 1) | None => 0 end in
  enumerate_loop (Z.to_nat (count - next_id)) count capped_limit next_id 0 [].

(** [contracts/lifecycle/src/views.rs] *)
Definition lifecycle_capabilities (borrower : Address) : M LifecycleCapabilities :=
  let* credit_line := get_credit_line borrower in
  let* p := is_paused in
  match credit_line with
  | None => ret (mkLifecycleCaps false false false false false false)
  | Some line =>
      if p then ret (mkLifecycleCaps false false false false false false) else
      let status := cl_status line in
      let can_suspend := bool_decide (status = Active) in
      let can_close_admin := negb (bool_decide (status = Closed)) in
      let can_close_borrower := can_close_admin && (cl_utilized_amount line =? 0) in
      let can_default :=
        match status with Active | Restricted | Suspended | SelfSuspended => true | _ => false end in
      let can_reinstate := bool_decide (status = Defaulted) in
      ret (mkLifecycleCaps can_suspend can_suspend can_close_admin can_close_borrower can_default
             can_reinstate)
  end.

(** [contracts/query/src/views.rs] *)
Definition query_capabilities (borrower : Address) : M QueryCapabilities :=
  let* credit_line := get_credit_line borrower in
  let* schedule := get_repayment_schedule borrower in
  let has_line := match credit_line with Some _ => true | None => false end in
  let has_schedule := match schedule with Some _ => true | None => false end in
  let '(health, delinquency) :=
    match credit_line with
    | None => (false, false)
    | Some line =>
        let has_utilization := 0 <? cl_utilized_amount line in
        let open := negb (bool_decide (cl_status line = Closed)) in
        (has_utilization, open && has_utilization && has_schedule)
    end in
  let* delinquent := if delinquency then is_delinquent borrower else ret false in
  ret (mkQueryCaps has_line has_schedule health delinquency delinquent).
End views.
