(* ===== verification/CreditContract.v ===== *)
(** * The credit contract's entrypoints ([contracts/credit/src/lib.rs])

    The public interface: each definition of [Credit] is one entrypoint, wrapper
    checks included, delegating to the component files as the source does.  The
    auction contract called by the settlement and the deployer called by
    [upgrade] are parameters. *)
From S2P Require Import Prelude MathUtils Soroban CreditTypes CreditEvents CreditStorage Accrual Collateral Fees Freeze Oracles Scoring Risk Lifecycle Views.

Definition MAX_PROTOCOL_FEE_BPS : Z := 1000.
Definition BULK_BLOCK_MAX : Z := 50.
Definition ACCRUE_BATCH_MAX : Z := 50.
Definition DRAW_REVERSAL_WINDOW_SECS : Z := 3600.
Definition BATCH_CLOSE_MAX : Z := 50.

(** ** [handshake.rs] *)
Definition get_current_version : ProtocolVersion := mkVersion 1 0.

Definition verify_version (other_version : ProtocolVersion) : bool :=
  version_major get_current_version =? version_major other_version.

(** The [try_*] calls of the generated [AuctionClient]: [None] is any failure of
    the call, whose effects the host discards. *)
Class AuctionClient `{Host} := {
  try_get_version : Address -> host -> option (ProtocolVersion * host);
  try_settle_default_liquidation :
    Address -> Symbol -> Address -> Address -> host -> option (Z * host);
}.

(** [env.deployer().update_current_contract_wasm] *)
Class Deployer `{Host} := { update_current_contract_wasm : BytesN32 -> host -> option host }.

Module Credit.
Section entrypoints.
Context `{H : Host} `{!AuctionClient} `{!Deployer} `{Crypto}.

(** A [try_*] call: [Ok(Ok(a))], or [None] with the state unchanged. *)
Definition try_call {A} (f : host -> option (A * host)) : M (option A) :=
  fun _ s => match f (host_state s) with
             | Some (a, h) => Ok (Some a) (set_host h s)
             | None => Ok None s
             end.

Definition enforce_borrow_admin_cooldown (borrower : Address) : M unit :=
  let* o := get_borrow_admin_cooldown in
  match o with
  | None => ret tt
  | Some cooldown_seconds =>
      if cooldown_seconds =? 0 then ret tt else
      let* now := timestamp in
      let* last := get_last_borrow_admin_action_ts borrower in
      panic_if (match last with Some last_ts => now <? sat_u64 (last_ts + cooldown_seconds)
                           | None => false end) RiskAdminCooldownActive ;;
      set_last_borrow_admin_action_ts borrower now
  end.

Definition enforce_accrual_admin_cooldown (borrower : Address) : M unit :=
  let* o := get_accrual_admin_cooldown in
  match o with
  | None => ret tt
  | Some cooldown_seconds =>
      if cooldown_seconds =? 0 then ret tt else
      let* now := timestamp in
      let* last := get_last_accrual_admin_action_ts borrower in
      panic_if (match last with Some last_ts => now <? sat_u64 (last_ts + cooldown_seconds)
                           | None => false end) RiskAdminCooldownActive ;;
      set_last_accrual_admin_action_ts borrower now
  end.

Definition propose_admin (new_admin : Address) (delay_seconds : Z) : M unit :=
  require_admin_auth ;;
  let* now := timestamp in
  let accept_after := sat_u64 (now + delay_seconds) in
  iset sym_proposed_admin new_admin ;;
  iset sym_proposed_at accept_after ;;
  publish_admin_rotation_proposed new_admin accept_after.

Definition accept_admin : M unit :=
  let* o := iget sym_proposed_admin in
  let* proposed_admin := or_panic o Unauthorized in
  let* t := iget sym_proposed_at in
  let accept_after := unwrap_or t 0 in
  require_auth proposed_admin ;;
  let* now := timestamp in
  panic_if (now <? accept_after) AdminAcceptTooEarly ;;
  iset sym_admin proposed_admin ;;
  iremove sym_proposed_admin ;;
  iremove sym_proposed_at ;;
  publish_admin_rotation_accepted proposed_admin.

Definition open_credit_line (borrower : Address) (credit_limit interest_rate_bps risk_score : Z)
  : M unit :=
  require_admin_auth ;;
  enforce_borrow_admin_cooldown borrower ;;
  Lifecycle.open_credit_line borrower credit_limit interest_rate_bps risk_score.

(** ** [draw_credit], in the order of its checks *)

(** Pause is checked outside; these are the blockers before any amount-dependent limit. *)
Definition draw_preflight (borrower : Address) (amount : Z) : M unit :=
  panic_if (amount <=? 0) InvalidAmount ;;
  let* f := is_draws_frozen in
  panic_if f DrawsFrozenErr ;;
  let* bf := is_borrower_frozen borrower in
  panic_if bf BorrowerFrozen ;;
  let* lf := is_credit_line_frozen borrower in
  panic_if lf CreditLineFrozen ;;
  let* bb := is_borrower_blocked borrower in
  panic_if bb BorrowerBlocked ;;
  let* max_draw := iget DK.MaxDrawAmount in
  panic_if (match max_draw with Some m => m <? amount | None => false end) DrawExceedsMaxAmount.

Definition draw_cooldown_guard (borrower : Address) : M unit :=
  let* o := iget DK.DrawMinIntervalSeconds in
  match o with
  | None => ret tt
  | Some min_interval =>
      let* last := get_last_draw_ts borrower in
      match last with
      | None => ret tt
      | Some last_draw_ts =>
          let* now := timestamp in
          panic_if (now <? sat_u64 (last_draw_ts + min_interval)) DrawCooldownActive
      end
  end.

Definition draw_collateral_guard (borrower : Address) (updated_utilized : Z) : M unit :=
  let* ratio := get_min_collateral_ratio_bps in
  let min_ratio_bps := unwrap_or ratio 15000 in
  let* current_collateral := effective_collateral_value borrower in
  let* required := required_collateral updated_utilized min_ratio_bps in
  panic_if (current_collateral <? required) CollateralRatioBelowMinimum.

Definition draw_utilization_cap_guard (borrower : Address) (line : CreditLineData)
    (updated_utilized : Z) : M unit :=
  let* o := get_utilization_cap_bps borrower in
  match o with
  | None => ret tt
  | Some cap_bps =>
      panic_if (cl_credit_limit line <? 0) Overflow ;;
      let* cap := unwrap (mul_div (cl_credit_limit line) cap_bps 10000 Floor) "math_utils" in
      panic_if (i128_max <? cap) Overflow ;;
      panic_if (cap <? updated_utilized) OverLimit
  end.

(** The global cap: every other line is accrued first, so that the stored total
    is current when the projection is compared. *)
Definition draw_exposure_guard (borrower : Address) (line : CreditLineData)
    (previous_utilized amount : Z) : M unit :=
  let* o := get_max_total_exposure in
  match o with
  | None => ret tt
  | Some max_exposure =>
      accrue_all_except borrower ;;
      let* current_total := get_total_utilized in
      let* pending := or_panic (checked_i128 (cl_utilized_amount line - previous_utilized)) Overflow in
      let* projected := or_panic (let? t := checked_i128 (current_total + pending) in
                                  checked_i128 (t + amount)) Overflow in
      panic_if (max_exposure <? projected) ExposureCapExceeded
  end.

(** Every check before the global cap, in order; the stored line, the accrued line
    and the utilisation after the draw. *)
Definition draw_checks (borrower : Address) (amount : Z)
  : M (CreditLineData * CreditLineData * Z) :=
  require_auth borrower ;;
  draw_preflight borrower amount ;;
  let* o := get_credit_line borrower in
  let* stored_line := or_panic o CreditLineNotFound in
  let* line := apply_accrual stored_line in
  match draw_status_error (cl_status line) with
  | Some error => panic_with_error error
  | None => ret tt
  end ;;
  draw_cooldown_guard borrower ;;
  let* updated_utilized := or_panic (checked_i128 (cl_utilized_amount line + amount)) Overflow in
  panic_if (cl_credit_limit line <? updated_utilized) OverLimit ;;
  draw_collateral_guard borrower updated_utilized ;;
  draw_utilization_cap_guard borrower line updated_utilized ;;
  let* cap_error := check_borrower_exposure_cap borrower updated_utilized in
  match cap_error with Some e => panic_with_error e | None => ret tt end ;;
  ret (stored_line, line, updated_utilized).

(** The tokens leave the reserve. *)
Definition draw_transfer (borrower : Address) (amount : Z) : M unit :=
  let* t := iget DK.LiquidityToken in
  let* token_address := or_panic t MissingLiquidityToken in
  let* r := iget DK.LiquiditySource in
  let* reserve_address := or_panic r MissingLiquiditySource in
  let* reserve_balance := balance token_address reserve_address in
  panic_if (reserve_balance <? amount) InsufficientLiquidityReserve ;;
  transfer token_address reserve_address borrower amount.

(** The new debt, the time and amount of the draw, and its events are recorded. *)
Definition draw_record (borrower : Address) (amount : Z) (line : CreditLineData)
    (previous_utilized updated_utilized : Z) : M unit :=
  let previous_status := cl_status line in
  let line := set_utilized line updated_utilized in
  persist_credit_line borrower line previous_utilized (Some previous_status) ;;
  let* now := timestamp in
  set_last_draw_ts borrower now ;;
  pset (DK.DrawAudit (mkDrawAuditKey borrower now)) amount ;;
  bump_persistent_ttl (DK.DrawAudit (mkDrawAuditKey borrower now)) ;;
  publish_drawn_event borrower amount updated_utilized now ;;
  publish_borrow_lifecycle_event borrower PhDrawn (cl_status line) updated_utilized
    (cl_credit_limit line) (cl_interest_rate_bps line) now.

Definition draw_credit (borrower : Address) (amount : Z) : M unit :=
  assert_not_paused ;;
  with_reentrancy_guard (
    let* (stored_line, line, updated_utilized) := draw_checks borrower amount in
    let previous_utilized := cl_utilized_amount stored_line in
    draw_exposure_guard borrower line previous_utilized amount ;;
    draw_transfer borrower amount ;;
    draw_record borrower amount line previous_utilized updated_utilized).

(** ** [repay_credit] *)

(** The protocol fee: a share of the interest part, clamped to the repayment. *)
Definition repay_fee (fee_bps interest_repaid effective_repay : Z) : option Z :=
  let? fee :=
    if (0 <? fee_bps) && (0 <? interest_repaid) then
      let? f := apply_bps (as_u128 interest_repaid) fee_bps Floor in Some (as_i128 f)
    else Some 0 in
  Some (Z.min fee effective_repay).

(** The token movements of a repayment: fee into the contract, rest into the reserve. *)
Definition repay_transfers (borrower token_address : Address) (effective_repay interest_repaid : Z)
  : M unit :=
  if 0 <? effective_repay then
    let* r := iget DK.LiquiditySource in
    let* contract_address := current_contract_address in
    let reserve_address := unwrap_or r contract_address in
    let* f := get_protocol_fee_bps in
    let* fee := unwrap (repay_fee (unwrap_or f 0) interest_repaid effective_repay) "math_utils" in
    (if 0 <? fee then
       transfer_from token_address contract_address borrower contract_address fee ;;
       accrue_protocol_fee borrower fee
     else ret tt) ;;
    let reserve_amount := sat_i128 (effective_repay - fee) in
    (if 0 <? reserve_amount then
       transfer_from token_address contract_address borrower reserve_address reserve_amount
     else ret tt)
  else ret tt.

Definition collect_late_fee (borrower : Address) (late_fee_total : Z) : M unit :=
  if 0 <? late_fee_total then
    let* t := iget DK.LiquidityToken in
    match t with
    | Some token_address =>
        let* contract_address := current_contract_address in
        transfer_from token_address contract_address borrower contract_address late_fee_total ;;
        accrue_protocol_fee borrower late_fee_total
    | None => ret tt
    end
  else ret tt.

(** The checks of a repayment: the stored line, and the accrued line with its
    interest part clamped to the debt. *)
Definition repay_checks (borrower : Address) (amount : Z) : M (CreditLineData * CreditLineData) :=
  require_auth borrower ;;
  panic_if (amount <=? 0) InvalidAmount ;;
  let* max_repay := iget DK.MaxRepayAmount in
  panic_if (match max_repay with Some m => m <? amount | None => false end) RepayExceedsMaxAmount ;;
  let* o := get_credit_line borrower in
  let* stored_line := or_panic o CreditLineNotFound in
  let* line := apply_accrual stored_line in
  panic_if (bool_decide (cl_status line = Closed)) CreditLineClosed ;;
  let total_debt := Z.max (cl_utilized_amount line) 0 in
  ret (stored_line, set_accrued line (Z.max (Z.min (cl_accrued_interest line) total_debt) 0)).

(** The line after the repayment. *)
Definition repaid_line (line : CreditLineData) (effective_repay interest_repaid : Z) : CreditLineData :=
  let line := set_accrued line
    (unwrap_or (checked_i128 (cl_accrued_interest line - interest_repaid)) 0) in
  set_utilized line (Z.max (sat_i128 (cl_utilized_amount line - effective_repay)) 0).

(** The events of a repayment. *)
Definition repay_publish (borrower : Address) (effective_repay : Z) (line : CreditLineData) : M unit :=
  publish_repayment_event borrower effective_repay (cl_utilized_amount line) ;;
  let* now := timestamp in
  publish_borrow_lifecycle_event borrower PhRepaid (cl_status line) (cl_utilized_amount line)
    (cl_credit_limit line) (cl_interest_rate_bps line) now.

Definition repay_credit (borrower : Address) (amount : Z) : M unit :=
  with_reentrancy_guard (
    let* (stored_line, line) := repay_checks borrower amount in
    let total_debt := Z.max (cl_utilized_amount line) 0 in
    let '(effective_repay, interest_repaid, _) :=
      allocate_repayment total_debt (cl_accrued_interest line) amount in
    let* t := iget DK.LiquidityToken in
    let* token_address := or_panic t MissingLiquidityToken in
    repay_transfers borrower token_address effective_repay interest_repaid ;;
    let previous_status := cl_status line in
    let line := repaid_line line effective_repay interest_repaid in
    persist_credit_line borrower line (cl_utilized_amount stored_line) (Some previous_status) ;;
    let* late_fee_total :=
      advance_repayment_schedule_after_repay borrower effective_repay interest_repaid in
    collect_late_fee borrower late_fee_total ;;
    repay_publish borrower effective_repay line).

(** ** Risk administration *)
Definition update_risk_parameters (borrower : Address)
    (credit_limit interest_rate_bps risk_score : Z) : M unit :=
  require_admin_auth ;;
  enforce_accrual_admin_cooldown borrower ;;
  Risk.update_risk_parameters borrower credit_limit interest_rate_bps risk_score.

Definition set_utilization_cap (borrower : Address) (cap_bps : Z) : M unit :=
  require_admin_auth ;;
  massert (cap_bps <=? 10000) "cap_bps must be <= 10000" ;;
  set_utilization_cap_bps borrower (if cap_bps =? 0 then None else Some cap_bps).

Definition set_grace_period_config (seconds : Z) (mode : GraceWaiverMode) (reduced_rate : Z) : M unit :=
  require_admin_auth ;;
  panic_if (MAX_INTEREST_RATE_BPS <? reduced_rate) RateTooHigh ;;
  iset sym_grace_cfg (mkGrace seconds mode reduced_rate).

Definition late_fee_config_error (config : option LateFeeConfig) : option ContractError :=
  match config with
  | Some (Flat cfg) => if flat_amount cfg <? 0 then Some InvalidAmount else None
  | Some (AprBased cfg) =>
      if MAX_INTEREST_RATE_BPS <? surcharge_bps cfg then Some RateTooHigh else None
  | None => None
  end.

Definition set_late_fee_config (config : option LateFeeConfig) : M unit :=
  require_admin_auth ;;
  assert_no_active_auctions ;;
  match late_fee_config_error config with Some e => panic_with_error e | None => ret tt end ;;
  CreditStorage.set_late_fee_config config.

Definition set_max_draw_amount (amount : Z) : M unit :=
  assert_not_paused ;;
  require_admin_auth ;;
  panic_if (amount <=? 0) InvalidAmount ;;
  iset DK.MaxDrawAmount amount.

Definition set_max_repay_amount (amount : Z) : M unit :=
  assert_not_paused ;;
  require_admin_auth ;;
  panic_if (amount <=? 0) InvalidAmount ;;
  iset DK.MaxRepayAmount amount.

Definition set_draw_min_interval (seconds : Z) : M unit :=
  assert_not_paused ;; require_admin_auth ;; CreditStorage.set_draw_min_interval seconds.

Definition set_borrow_admin_cooldown (seconds : Z) : M unit :=
  assert_not_paused ;; require_admin_auth ;; CreditStorage.set_borrow_admin_cooldown seconds.

Definition set_accrual_admin_cooldown (seconds : Z) : M unit :=
  assert_not_paused ;; require_admin_auth ;; CreditStorage.set_accrual_admin_cooldown seconds.

(** ** Fees, treasury and bounty *)
Definition set_protocol_fee_bps (bps : Z) : M unit :=
  require_admin_auth ;;
  assert_no_active_auctions ;;
  panic_if (MAX_PROTOCOL_FEE_BPS <? bps) Overflow ;;
  CreditStorage.set_protocol_fee_bps bps.

Definition set_treasury (admin treasury : Address) : M unit :=
  require_admin_auth_with_argument admin ;; set_treasury_address treasury.

Definition propose_treasury_withdrawal (admin : Address) : M unit :=
  require_admin_auth_with_argument admin ;;
  let* t := get_treasury_address in
  let* treasury := or_panic t TreasuryNotSet in
  let* p := get_pending_treasury_withdrawal in
  panic_if (match p with Some _ => true | None => false end) TreasuryProposalExists ;;
  let* amount := get_treasury_balance in
  let* proposed_at := timestamp in
  let execute_after := sat_u64 (proposed_at + 86400) in
  set_pending_treasury_withdrawal (mkProposal treasury amount admin proposed_at execute_after) ;;
  publish_treasury_withdrawal_proposed treasury amount admin proposed_at execute_after.

Definition execute_treasury_withdrawal (admin : Address) : M unit :=
  require_admin_auth_with_argument admin ;;
  let* p := get_pending_treasury_withdrawal in
  let* proposal := or_panic p NoPendingTreasuryWithdrawal in
  let* now := timestamp in
  panic_if (now <? tp_execute_after proposal) TreasuryTimelockActive ;;
  let* remaining_balance := subtract_treasury_balance (tp_amount proposal) in
  clear_pending_treasury_withdrawal ;;
  (if 0 <? tp_amount proposal then
     let* t := iget DK.LiquidityToken in
     let* token_address := or_panic t MissingLiquidityToken in
     let* contract_address := current_contract_address in
     transfer token_address contract_address (tp_recipient proposal) (tp_amount proposal)
   else ret tt) ;;
  publish_treasury_withdrawal_executed (tp_recipient proposal) (tp_amount proposal) admin now
    remaining_balance.

Definition set_treasury_fee_share_bps (treasury_share_bps : Z) : M unit :=
  require_admin_auth ;;
  assert_no_active_auctions ;;
  panic_if (MAX_FEE_SHARE_BPS <? treasury_share_bps) Overflow ;;
  CreditStorage.set_treasury_fee_share_bps treasury_share_bps.

Definition set_bounty (admin bounty : Address) : M unit :=
  require_admin_auth_with_argument admin ;; set_bounty_address bounty.

Definition withdraw_bounty (admin : Address) : M unit :=
  let* configured_admin := require_admin_auth in
  panic_if (negb (bool_decide (admin = configured_admin))) NotAdmin ;;
  let* b := get_bounty_address in
  let* bounty_addr := or_panic b BountyNotSet in
  let* amount := get_bounty_balance in
  if amount =? 0 then ret tt else
  let* t := iget DK.LiquidityToken in
  let* token_address := or_panic t MissingLiquidityToken in
  let* contract_address := current_contract_address in
  transfer token_address contract_address bounty_addr amount ;;
  clear_bounty_balance.

Definition withdraw_treasury (admin : Address) : M unit :=
  require_admin_auth_with_argument admin ;;
  let* p := get_pending_treasury_withdrawal in
  let* proposal := or_panic p NoPendingTreasuryWithdrawal in
  let* now := timestamp in
  panic_if (now <? tp_execute_after proposal) TreasuryTimelockActive ;;
  execute_treasury_withdrawal admin.

(** ** Exposure *)
Definition set_max_total_exposure (amount : Z) : M unit :=
  require_admin_auth ;;
  panic_if (amount <? 0) InvalidAmount ;;
  CreditStorage.set_max_total_exposure amount.

Definition set_borrower_exposure_cap (borrower : Address) (cap : Z) : M unit :=
  require_admin_auth ;;
  panic_if (cap <? 0) InvalidAmount ;;
  set_max_borrower_exposure borrower cap.

(** ** Lifecycle wrappers *)
Definition suspend_credit_line (borrower : Address) : M unit :=
  require_admin_auth ;;
  enforce_accrual_admin_cooldown borrower ;;
  Lifecycle.suspend_credit_line borrower.

Definition unsuspend_credit_line (borrower : Address) : M unit :=
  require_admin_auth ;;
  enforce_accrual_admin_cooldown borrower ;;
  Lifecycle.unsuspend_credit_line borrower.

Definition close_credit_line (borrower closer : Address) : M unit :=
  require_auth closer ;;
  let* admin := require_admin in
  (if bool_decide (closer = admin) then enforce_accrual_admin_cooldown borrower else ret tt) ;;
  Lifecycle.close_credit_line borrower closer.

Definition close_credit_lines_batch (borrowers : list Address) : M unit :=
  panic_if (BATCH_CLOSE_MAX <? Z.of_nat (length borrowers)) InvalidAmount ;;
  require_admin_auth ;;
  mfor borrowers enforce_accrual_admin_cooldown ;;
  Lifecycle.close_credit_lines_batch borrowers.

Definition default_credit_line (borrower : Address) : M unit :=
  require_admin_auth ;;
  enforce_accrual_admin_cooldown borrower ;;
  Lifecycle.default_credit_line borrower.

Definition reinstate_credit_line (borrower : Address) (target_status : CreditStatus) : M unit :=
  require_admin_auth ;;
  enforce_accrual_admin_cooldown borrower ;;
  Lifecycle.reinstate_credit_line borrower target_status.

Definition forgive_debt (borrower : Address) (amount : Z) : M unit :=
  require_admin_auth ;;
  enforce_accrual_admin_cooldown borrower ;;
  Lifecycle.forgive_debt borrower amount.

(** The cross-contract steps of the settlement, when an auction contract is set. *)
Definition auction_hook (borrower : Address) (recovered_amount : Z) (settlement_id : Symbol) : M unit :=
  let* a := get_auction_contract in
  match a with
  | None => ret tt
  | Some auction_addr =>
      let* v := try_call (try_get_version auction_addr) in
      let* remote_version := or_panic v AuctionCallFailed in
      panic_if (negb (verify_version remote_version)) IncompatibleVersion ;;
      let* self := current_contract_address in
      let* r := try_call (try_settle_default_liquidation auction_addr settlement_id self borrower) in
      let* auction_recovered := or_panic r AuctionCallFailed in
      panic_if (negb (auction_recovered =? recovered_amount)) AuctionCallFailed
  end.

Definition settle_default_liquidation (borrower : Address) (recovered_amount : Z)
    (settlement_id : Symbol) (close_factor_bps : Z) (oracle_price : option Z) : M unit :=
  require_admin_auth ;;
  with_reentrancy_guard (
    auction_hook borrower recovered_amount settlement_id ;;
    Lifecycle.settle_default_liquidation borrower recovered_amount settlement_id close_factor_bps
      oracle_price).

Definition set_auction_contract (auction_address : Address) : M unit :=
  assert_not_paused ;; require_admin_auth ;; CreditStorage.set_auction_contract auction_address.

Definition set_close_factor_bps (close_factor_bps : Z) : M unit :=
  require_admin_auth ;;
  panic_if ((close_factor_bps =? 0) || (10000 <? close_factor_bps)) InvalidAmount ;;
  CreditStorage.set_close_factor_bps close_factor_bps ;;
  publish_close_factor_bps_set_event close_factor_bps.

(** ** Oracle administration *)
Definition set_oracle_config (max_deviation_bps max_age_seconds : Z) : M unit :=
  assert_not_paused ;;
  require_admin_auth ;;
  panic_if ((max_deviation_bps =? 0) || (10000 <? max_deviation_bps)) InvalidAmount ;;
  panic_if (max_age_seconds =? 0) InvalidAmount ;;
  CreditStorage.set_oracle_config (mkOracleConfig max_deviation_bps max_age_seconds) ;;
  publish_oracle_config_set_event max_deviation_bps max_age_seconds.

Definition set_oracle_quorum_config (k max_deviation_bps max_age_seconds : Z) : M unit :=
  assert_not_paused ;;
  require_admin_auth ;;
  panic_if (k <? 2) InvalidAmount ;;
  panic_if (10000 <? max_deviation_bps) InvalidAmount ;;
  panic_if (max_age_seconds =? 0) InvalidAmount ;;
  CreditStorage.set_oracle_quorum_config (mkQuorumConfig k max_deviation_bps max_age_seconds) ;;
  publish_oracle_quorum_config_set_event k max_deviation_bps max_age_seconds.

Definition submit_oracle_prices (prices : list Z) : M unit :=
  assert_not_paused ;;
  require_admin_auth ;;
  let* q := get_oracle_quorum_config in
  let* qcfg := or_panic q OraclePriceInvalid in
  panic_if (MAX_ORACLE_FEEDS <? Z.of_nat (length prices)) OraclePriceInvalid ;;
  let* canonical_price :=
    match resolve_quorum_price prices qcfg with
    | inl p => ret p
    | inr e => panic_with_error e
    end in
  let* now := timestamp in
  set_oracle_quorum_price canonical_price now ;;
  set_oracle_last_price canonical_price now ;;
  publish_oracle_quorum_price_set_event canonical_price (min_quorum_k qcfg) now.

(** ** Blocklist *)
Definition block_borrower (admin borrower : Address) : M unit :=
  require_admin_auth_with_argument admin ;;
  set_borrower_blocked borrower true ;;
  publish_borrower_blocked_event borrower true.

Definition unblock_borrower (admin borrower : Address) : M unit :=
  require_admin_auth_with_argument admin ;;
  set_borrower_unblocked borrower ;;
  publish_borrower_blocked_event borrower false.

Definition bulk_block_borrowers (admin : Address) (borrowers : list Address) : M unit :=
  require_admin_auth_with_argument admin ;;
  panic_if (BULK_BLOCK_MAX <? Z.of_nat (length borrowers)) InvalidAmount ;;
  mfor borrowers (fun borrower =>
    set_borrower_blocked borrower true ;; publish_borrower_blocked_event borrower true).

Definition accrue_batch (borrowers : list Address) : M unit :=
  assert_not_paused ;;
  panic_if (ACCRUE_BATCH_MAX <? Z.of_nat (length borrowers)) InvalidAmount ;;
  Accrual.accrue_batch borrowers.

Definition set_rate_formula_config (base slope min max : Z) : M unit :=
  assert_not_paused ;;
  require_admin_auth ;;
  panic_if (MAX_INTEREST_RATE_BPS <? min) RateTooHigh ;;
  panic_if (max <? min) InvalidAmount ;;
  panic_if (MAX_INTEREST_RATE_BPS <? max) RateTooHigh ;;
  panic_if (MAX_INTEREST_RATE_BPS <? base) RateTooHigh ;;
  iset sym_rate_form (mkFormula base slope min max) ;;
  publish_rate_formula_config_event true.

Definition clear_rate_formula_config : M unit :=
  require_admin_auth ;;
  iremove sym_rate_form ;;
  publish_rate_formula_config_event false.

Definition reverse_draw (borrower : Address) (amount original_ts reason_code : Z) : M unit :=
  assert_not_paused ;;
  let* admin := require_admin_auth in
  panic_if (amount <=? 0) InvalidAmount ;;
  let* now := timestamp in
  panic_if (DRAW_REVERSAL_WINDOW_SECS <? sat_u64 (now - original_ts)) DrawReversalWindowExpired ;;
  let* o := get_credit_line borrower in
  let* stored_line := or_panic o CreditLineNotFound in
  let previous_utilized := cl_utilized_amount stored_line in
  let previous_status := Some (cl_status stored_line) in
  let* line := apply_accrual stored_line in
  let* d := get_draw_audit borrower original_ts in
  let* original_draw := or_panic d OriginalDrawNotFound in
  let* already_reversed := get_draw_reversed_amount borrower original_ts in
  let remaining_reversible := sat_i128 (original_draw - already_reversed) in
  panic_if (remaining_reversible <? amount) OverLimit ;;
  let* new_utilized := or_panic (checked_i128 (cl_utilized_amount line - amount)) OverLimit in
  let line := set_utilized line new_utilized in
  persist_credit_line borrower line previous_utilized previous_status ;;
  let* reversed := arith (checked_i128 (already_reversed + amount)) in
  set_draw_reversed_amount borrower original_ts reversed ;;
  publish_draw_reversed_event borrower amount original_ts reason_code new_utilized now admin true.

(** ** Pause *)
Definition set_protocol_paused (paused : bool) : M unit :=
  require_admin_auth ;;
  let* already := is_paused in
  if Bool.eqb paused already then (if paused then clear_pause_reason else ret tt) else
  (if negb paused then clear_pause_reason else ret tt) ;;
  set_paused paused ;;
  publish_paused_event paused.

Definition set_protocol_paused_with_reason (paused : bool) (reason : Symbol) : M unit :=
  let* admin := require_admin_auth in
  let* already := is_paused in
  if paused then
    let* now := timestamp in
    set_pause_reason (mkPauseReason reason now admin) ;;
    if already then ret tt else
    set_paused true ;; publish_paused_event true
  else
    if already then
      clear_pause_reason ;; set_paused false ;; publish_paused_event false
    else ret tt.

(** ** Freezes *)
Definition freeze_credit_line (borrower : Address) (reason : FreezeReason) : M unit :=
  require_admin_auth ;;
  enforce_borrow_admin_cooldown borrower ;;
  Freeze.freeze_credit_line borrower reason.

Definition unfreeze_credit_line (borrower : Address) : M unit :=
  require_admin_auth ;;
  enforce_borrow_admin_cooldown borrower ;;
  Freeze.unfreeze_credit_line borrower.

Definition freeze_borrower_until (admin borrower : Address) (expiry_ts : Z) : M unit :=
  require_admin_auth_with_argument admin ;;
  enforce_borrow_admin_cooldown borrower ;;
  let* now := timestamp in
  panic_if (expiry_ts <=? now) InvalidAmount ;;
  set_borrower_frozen_until borrower expiry_ts ;;
  publish_borrower_frozen_event borrower expiry_ts ;;
  record_freeze_timestamp_if_cooldown.

Definition unfreeze_borrower (admin borrower : Address) : M unit :=
  require_admin_auth_with_argument admin ;;
  enforce_borrow_admin_cooldown borrower ;;
  clear_borrower_frozen borrower ;;
  record_freeze_timestamp_if_cooldown.

Definition get_protocol_config : M ProtocolConfig :=
  let* t := iget DK.LiquidityToken in
  let* r := iget DK.LiquiditySource in
  ret (mkProtocolConfig t r).

Definition get_liquidity_source : M Address :=
  let* r := iget DK.LiquiditySource in
  let* self := current_contract_address in
  ret (unwrap_or r self).

Definition upgrade (new_wasm_hash : BytesN32) : M unit :=
  assert_not_paused ;;
  require_admin_auth ;;
  let old_wasm_hash := replicate 32 0 in
  let* v := get_schema_version in
  let current_version := unwrap_or v SCHEMA_VERSION in
  set_schema_version (sat_u32 (current_version + 1)) ;;
  host_call CallFailed (fun _ h => option_map (pair tt) (update_current_contract_wasm new_wasm_hash h)) ;;
  publish_contract_upgraded_event old_wasm_hash new_wasm_hash.
End entrypoints.
End Credit.
