(* ===== verification/CreditCalls.v ===== *)
(** * Every state-changing call of the credit contract

    [Call] is the contract's public interface as data and [run] its dispatcher,
    so that a theorem can quantify over all entrypoints and over sequences of
    invocations. *)
From S2P Require Import Prelude Soroban CreditTypes CreditEvents CreditStorage Accrual Collateral Fees Freeze Oracles Scoring Risk Lifecycle Views CreditContract.

Inductive Call :=
| CInit (admin : Address)
| CCommitAttestationBatch (borrower : Address) (root : BytesN32) (count : Z)
| CVerifyAttestationProof (borrower : Address) (leaf : BytesN32) (proof : list BytesN32)
| CClearAttestationBatch (borrower : Address)
| CProposeAdmin (new_admin : Address) (delay_seconds : Z)
| CAcceptAdmin
| CSetLiquidityToken (token : Address)
| CSetLiquiditySource (reserve : Address)
| COpenCreditLine (borrower : Address) (credit_limit interest_rate_bps risk_score : Z)
| CDrawCredit (borrower : Address) (amount : Z)
| CRepayCredit (borrower : Address) (amount : Z)
| CUpdateRiskParameters (borrower : Address) (credit_limit interest_rate_bps risk_score : Z)
| CSetRateChangeLimits (max_change min_interval : Z)
| CSetPenaltySurchargeBps (bps : Z)
| CSetRiskAdminCooldown (seconds : Z)
| CSetBorrowerRateFloor (borrower : Address) (floor_bps : option Z)
| CSetBorrowerRateCeiling (borrower : Address) (ceiling_bps : option Z)
| CAddOracle (oracle : Address) (weight : Z)
| CRemoveOracle (oracle : Address)
| CSetQuorumThreshold (threshold : Z)
| CSetReportingWindow (window_seconds : Z)
| CReportValue (oracle : Address) (value : Z)
| CSetUtilizationCap (borrower : Address) (cap_bps : Z)
| CCommitVrfOutput (borrower : Address) (hash : BytesN32)
| CClearVrfCommitment (borrower : Address)
| CSetGracePeriodConfig (seconds : Z) (mode : GraceWaiverMode) (reduced_rate : Z)
| CSetBorrowerLiqGrace (borrower : Address) (seconds : Z)
| CSetLateFeeConfig (config : option LateFeeConfig)
| CSetRepaymentSchedule (borrower : Address) (amount period first_due_ts : Z)
| CSetLateFeeFlat (fee : Z)
| CSetMaxDrawAmount (amount : Z)
| CSetMaxRepayAmount (amount : Z)
| CSetDrawMinInterval (seconds : Z)
| CSetBorrowAdminCooldown (seconds : Z)
| CSetAccrualAdminCooldown (seconds : Z)
| CSetProtocolFeeBps (bps : Z)
| CSetTreasury (admin treasury : Address)
| CProposeTreasuryWithdrawal (admin : Address)
| CExecuteTreasuryWithdrawal (admin : Address)
| CSetTreasuryFeeShareBps (bps : Z)
| CSetBounty (admin bounty : Address)
| CWithdrawBounty (admin : Address)
| CWithdrawTreasury (admin : Address)
| CDepositCollateral (borrower : Address) (amount : Z)
| CWithdrawCollateral (borrower : Address) (amount : Z)
| CSetCollateralRiskWeight (asset : Address) (weight_bps : Z)
| CSetMinCollateralRatioBps (ratio_bps : Z)
| CSetColAdminCooldownSecs (seconds : Z)
| CPartialReleaseCollateral (borrower : Address) (amount : Z)
| CSetCollateralTokenAllowlist (tokens : list Address)
| CDepositCollateralToken (borrower token : Address) (amount : Z)
| CWithdrawCollateralToken (borrower token : Address) (amount : Z)
| CSetMaxTotalExposure (amount : Z)
| CSetBorrowerExposureCap (borrower : Address) (cap : Z)
| CSetCreditLimitBounds (min max : Z)
| CSuspendCreditLine (borrower : Address)
| CSelfSuspendCreditLine (borrower : Address)
| CUnsuspendCreditLine (borrower : Address)
| CSelfUnsuspendCreditLine (borrower : Address)
| CCloseCreditLine (borrower closer : Address)
| CCloseCreditLinesBatch (borrowers : list Address)
| CDefaultCreditLine (borrower : Address)
| CReinstateCreditLine (borrower : Address) (target_status : CreditStatus)
| CForgiveDebt (borrower : Address) (amount : Z)
| CSettleDefaultLiquidation (borrower : Address) (recovered_amount : Z) (settlement_id : Symbol)
    (close_factor_bps : Z) (oracle_price : option Z)
| CSetAuctionContract (auction : Address)
| CSetCloseFactorBps (bps : Z)
| CSetOracleConfig (max_deviation_bps max_age_seconds : Z)
| CSetOracleQuorumConfig (k max_deviation_bps max_age_seconds : Z)
| CSubmitOraclePrices (prices : list Z)
| CBlockBorrower (admin borrower : Address)
| CUnblockBorrower (admin borrower : Address)
| CBulkBlockBorrowers (admin : Address) (borrowers : list Address)
| CAccrueBatch (borrowers : list Address)
| CSetRateFormulaConfig (base slope min max : Z)
| CClearRateFormulaConfig
| CReverseDraw (borrower : Address) (amount original_ts reason_code : Z)
| CSetProtocolPaused (paused : bool)
| CSetProtocolPausedWithReason (paused : bool) (reason : Symbol)
| CFreezeDraws (reason : FreezeReason)
| CUnfreezeDraws
| CFreezeCreditLine (borrower : Address) (reason : FreezeReason)
| CUnfreezeCreditLine (borrower : Address)
| CFreezeBorrowerUntil (admin borrower : Address) (expiry_ts : Z)
| CUnfreezeBorrower (admin borrower : Address)
| CUpgrade (new_wasm_hash : BytesN32).

Section run.
Context `{H : Host} `{!AuctionClient} `{!Deployer} `{Crypto}.

Definition ignore {A} (m : M (C := CreditContract) A) : M unit := m ;; ret tt.

Definition run (call : Call) : M (C := CreditContract) unit :=
  match call with
  | CInit admin => init admin
  | CCommitAttestationBatch b root count => commit_attestation_batch b root count
  | CVerifyAttestationProof b leaf proof => ignore (verify_attestation_proof b leaf proof)
  | CClearAttestationBatch b => clear_attestation_batch b
  | CProposeAdmin a d => Credit.propose_admin a d
  | CAcceptAdmin => Credit.accept_admin
  | CSetLiquidityToken t => set_liquidity_token t
  | CSetLiquiditySource r => set_liquidity_source r
  | COpenCreditLine b l r s => Credit.open_credit_line b l r s
  | CDrawCredit b a => Credit.draw_credit b a
  | CRepayCredit b a => Credit.repay_credit b a
  | CUpdateRiskParameters b l r s => Credit.update_risk_parameters b l r s
  | CSetRateChangeLimits m i => set_rate_change_limits m i
  | CSetPenaltySurchargeBps bps => risk_set_penalty_surcharge_bps bps
  | CSetRiskAdminCooldown n => set_risk_admin_cooldown n
  | CSetBorrowerRateFloor b f => risk_set_borrower_rate_floor b f
  | CSetBorrowerRateCeiling b c => risk_set_borrower_rate_ceiling b c
  | CAddOracle o w => add_oracle o w
  | CRemoveOracle o => remove_oracle o
  | CSetQuorumThreshold t => set_quorum_threshold t
  | CSetReportingWindow w => set_reporting_window w
  | CReportValue o v => report_value o v
  | CSetUtilizationCap b cap => Credit.set_utilization_cap b cap
  | CCommitVrfOutput b h => commit_vrf_output b h
  | CClearVrfCommitment b => clear_vrf_commitment b
  | CSetGracePeriodConfig n m r => Credit.set_grace_period_config n m r
  | CSetBorrowerLiqGrace b n => set_borrower_liquidation_grace b n
  | CSetLateFeeConfig cfg => Credit.set_late_fee_config cfg
  | CSetRepaymentSchedule b a p t => lifecycle_set_repayment_schedule b a p t
  | CSetLateFeeFlat fee => lifecycle_set_late_fee_flat fee
  | CSetMaxDrawAmount a => Credit.set_max_draw_amount a
  | CSetMaxRepayAmount a => Credit.set_max_repay_amount a
  | CSetDrawMinInterval n => Credit.set_draw_min_interval n
  | CSetBorrowAdminCooldown n => Credit.set_borrow_admin_cooldown n
  | CSetAccrualAdminCooldown n => Credit.set_accrual_admin_cooldown n
  | CSetProtocolFeeBps bps => Credit.set_protocol_fee_bps bps
  | CSetTreasury a t => Credit.set_treasury a t
  | CProposeTreasuryWithdrawal a => Credit.propose_treasury_withdrawal a
  | CExecuteTreasuryWithdrawal a => Credit.execute_treasury_withdrawal a
  | CSetTreasuryFeeShareBps bps => Credit.set_treasury_fee_share_bps bps
  | CSetBounty a b => Credit.set_bounty a b
  | CWithdrawBounty a => Credit.withdraw_bounty a
  | CWithdrawTreasury a => Credit.withdraw_treasury a
  | CDepositCollateral b a => deposit_collateral b a
  | CWithdrawCollateral b a => withdraw_collateral b a
  | CSetCollateralRiskWeight t w => Admin.set_collateral_risk_weight t w
  | CSetMinCollateralRatioBps r => Admin.set_min_collateral_ratio_bps r
  | CSetColAdminCooldownSecs n => Admin.set_admin_collateral_cooldown_seconds n
  | CPartialReleaseCollateral b a => partial_release_collateral b a
  | CSetCollateralTokenAllowlist l => Admin.set_collateral_token_allowlist l
  | CDepositCollateralToken b t a => deposit_collateral_token b t a
  | CWithdrawCollateralToken b t a => withdraw_collateral_token b t a
  | CSetMaxTotalExposure a => Credit.set_max_total_exposure a
  | CSetBorrowerExposureCap b cap => Credit.set_borrower_exposure_cap b cap
  | CSetCreditLimitBounds lo hi => set_credit_limit_bounds lo hi
  | CSuspendCreditLine b => Credit.suspend_credit_line b
  | CSelfSuspendCreditLine b => self_suspend_credit_line b
  | CUnsuspendCreditLine b => Credit.unsuspend_credit_line b
  | CSelfUnsuspendCreditLine b => self_unsuspend_credit_line b
  | CCloseCreditLine b closer => Credit.close_credit_line b closer
  | CCloseCreditLinesBatch l => Credit.close_credit_lines_batch l
  | CDefaultCreditLine b => Credit.default_credit_line b
  | CReinstateCreditLine b t => Credit.reinstate_credit_line b t
  | CForgiveDebt b a => Credit.forgive_debt b a
  | CSettleDefaultLiquidation b r i f p => Credit.settle_default_liquidation b r i f p
  | CSetAuctionContract a => Credit.set_auction_contract a
  | CSetCloseFactorBps bps => Credit.set_close_factor_bps bps
  | CSetOracleConfig d a => Credit.set_oracle_config d a
  | CSetOracleQuorumConfig k d a => Credit.set_oracle_quorum_config k d a
  | CSubmitOraclePrices l => Credit.submit_oracle_prices l
  | CBlockBorrower a b => Credit.block_borrower a b
  | CUnblockBorrower a b => Credit.unblock_borrower a b
  | CBulkBlockBorrowers a l => Credit.bulk_block_borrowers a l
  | CAccrueBatch l => Credit.accrue_batch l
  | CSetRateFormulaConfig b sl lo hi => Credit.set_rate_formula_config b sl lo hi
  | CClearRateFormulaConfig => Credit.clear_rate_formula_config
  | CReverseDraw b a t r => Credit.reverse_draw b a t r
  | CSetProtocolPaused p => Credit.set_protocol_paused p
  | CSetProtocolPausedWithReason p r => Credit.set_protocol_paused_with_reason p r
  | CFreezeDraws r => freeze_draws r
  | CUnfreezeDraws => unfreeze_draws
  | CFreezeCreditLine b r => Credit.freeze_credit_line b r
  | CUnfreezeCreditLine b => Credit.unfreeze_credit_line b
  | CFreezeBorrowerUntil a b t => Credit.freeze_borrower_until a b t
  | CUnfreezeBorrower a b => Credit.unfreeze_borrower a b
  | CUpgrade h => Credit.upgrade h
  end.
End run.
