(* ===== verification/CreditQueries.v ===== *)
(** * The read-only entrypoints of the credit contract ([contracts/credit/src/lib.rs])

    Each definition of [Query] is one entrypoint that reads; [Ask] is this part of
    the interface as data, [ask] its dispatcher.  No query changes the state or
    needs a signature. *)
From S2P Require Import Prelude Soroban CreditTypes CreditEvents CreditStorage CreditState Accrual Collateral Freeze Oracles Scoring Risk Lifecycle Views CreditContract.

(** [CONTRACT_API_VERSION] *)
Definition CONTRACT_API_VERSION : Z * Z * Z := (1, 0, 0).

Module Query.
Section queries.
Context `{H : Host} `{Crypto}.
Abbreviation M := (Soroban.M (C := CreditContract)).

Definition get_version : Z * Z * Z := CONTRACT_API_VERSION.

Definition get_contract_version : Z * Z * Z := CONTRACT_API_VERSION.

Definition get_attestation_batch (borrower : Address) : M (option AttestationBatch) :=
  Scoring.get_attestation_batch borrower.

Definition verify_attestation_proof (borrower : Address) (leaf : BytesN32) (proof : list BytesN32) : M bool :=
  Scoring.verify_attestation_proof borrower leaf proof.

Definition get_penalty_surcharge_bps : M Z := CreditStorage.get_penalty_surcharge_bps.

Definition get_rate_change_limits : M (option RateChangeConfig) := Risk.get_rate_change_limits.

Definition get_risk_admin_cooldown : M Z := CreditStorage.get_risk_admin_cooldown_seconds.

Definition get_borrower_rate_floor (borrower : Address) : M (option Z) :=
  CreditStorage.get_borrower_rate_floor borrower.

Definition get_median_value : M (Z + ContractError) := Oracles.get_median_value.

Definition get_borrower_rate_ceiling (borrower : Address) : M (option Z) :=
  CreditStorage.get_borrower_rate_ceiling borrower.

Definition get_utilization_cap (borrower : Address) : M (option Z) :=
  CreditStorage.get_utilization_cap_bps borrower.

Definition get_vrf_commitment (borrower : Address) : M (option VrfCommitment) :=
  Scoring.get_vrf_commitment borrower.

Definition get_grace_period_config : M (option GracePeriodConfig) :=
  CreditStorage.get_grace_period_config.

Definition get_borrower_liq_grace (borrower : Address) : M Z :=
  CreditStorage.get_per_borrower_liquidation_grace borrower.

Definition get_late_fee_config : M (option LateFeeConfig) := CreditStorage.get_late_fee_config.

Definition get_repayment_schedule (borrower : Address) : M (option RepaymentSchedule) :=
  CreditStorage.get_repayment_schedule borrower.

Definition get_late_fee_flat : M Z := CreditStorage.get_late_fee_flat.

Definition is_delinquent (borrower : Address) : M bool := Accrual.is_delinquent borrower.

Definition get_health_factor (borrower : Address) : M Z := Collateral.get_health_factor borrower.

Definition get_max_draw_amount : M (option Z) := iget DK.MaxDrawAmount.

Definition get_max_repay_amount : M (option Z) := iget DK.MaxRepayAmount.

Definition get_draw_min_interval : M (option Z) := CreditStorage.get_draw_min_interval.

Definition get_borrow_admin_cooldown : M (option Z) := CreditStorage.get_borrow_admin_cooldown.

Definition get_accrual_admin_cooldown : M (option Z) := CreditStorage.get_accrual_admin_cooldown.

Definition get_protocol_fee_bps : M (option Z) := CreditStorage.get_protocol_fee_bps.

Definition get_treasury : M (option Address) := CreditStorage.get_treasury_address.

Definition get_pending_treasury_withdrawal : M (option TreasuryWithdrawalProposal) :=
  CreditStorage.get_pending_treasury_withdrawal.

Definition get_treasury_fee_share_bps : M (option Z) := CreditStorage.get_treasury_fee_share_bps.

Definition get_bounty : M (option Address) := CreditStorage.get_bounty_address.

Definition get_schema_version : M (option Z) := CreditStorage.get_schema_version.

Definition get_total_utilized : M Z := CreditStorage.get_total_utilized.

Definition get_protocol_summary : M ProtocolSummary := Views.get_protocol_summary.

Definition get_protocol_summary_view : M ProtocolSummaryView := Views.get_protocol_summary_view.

Definition get_proof_of_reserve : M ProofOfReserve := Views.get_proof_of_reserve.

Definition get_credit_lines_paginated (cursor : option Z) (limit : Z) : M CreditLinesPage :=
  Views.get_credit_lines_paginated cursor limit.

Definition borrow_capabilities (borrower : Address) : M BorrowCapabilities :=
  Views.borrow_capabilities borrower.

Definition lifecycle_capabilities (borrower : Address) : M LifecycleCapabilities :=
  Views.lifecycle_capabilities borrower.

Definition get_collateral (borrower : Address) : M Z := Collateral.get_collateral borrower.

Definition get_collateral_state (borrower : Address) : M CollateralState :=
  Collateral.get_collateral_state borrower.

Definition get_min_collateral_ratio_bps : M (option Z) :=
  CreditStorage.get_min_collateral_ratio_bps.

Definition get_col_admin_cooldown_secs : M (option Z) :=
  CreditStorage.get_admin_collateral_cooldown_seconds.

Definition get_last_col_admin_action_ts : M (option Z) :=
  CreditStorage.get_last_admin_collateral_critical_action_ts.

Definition get_collateral_tokens : M (list Address) :=
  CreditStorage.get_collateral_token_allowlist.

Definition get_collateral_for_token (borrower token : Address) : M Z :=
  Collateral.get_collateral_for_token borrower token.

Definition get_max_total_exposure : M (option Z) := CreditStorage.get_max_total_exposure.

Definition get_borrower_exposure_cap (borrower : Address) : M (option Z) :=
  CreditStorage.get_max_borrower_exposure borrower.

Definition get_credit_limit_bounds : M (option Z * option Z) := Lifecycle.get_credit_limit_bounds.

Definition get_credit_line_count : M Z := CreditStorage.get_credit_line_count.

Definition get_auction_contract : M (option Address) := CreditStorage.get_auction_contract.

Definition get_pending_auction_count : M Z := CreditStorage.get_pending_auction_count.

Definition get_close_factor_bps : M Z := CreditStorage.get_close_factor_bps.

Definition get_oracle_config : M (option OracleConfig) := CreditStorage.get_oracle_config.

Definition get_oracle_quorum_config : M (option OracleQuorumConfig) :=
  CreditStorage.get_oracle_quorum_config.

Definition is_borrower_blocked (borrower : Address) : M bool :=
  CreditStorage.is_borrower_blocked borrower.

Definition get_credit_line (borrower : Address) : M (option CreditLineData) :=
  CreditStorage.get_credit_line borrower.

Definition get_credit_line_summary (borrower : Address) : M (option CreditLineData) :=
  get_credit_line borrower.

Definition get_rate_formula_config : M (option RateFormulaConfig) := Risk.get_rate_formula_config.

Definition is_protocol_paused : M bool := CreditStorage.is_paused.

Definition get_protocol_pause_reason : M (option PauseReason) := CreditStorage.get_pause_reason.

Definition is_draws_frozen : M bool := Freeze.is_draws_frozen.

Definition get_draws_freeze_reason : M (option FreezeReason) := Freeze.get_draws_freeze_reason.

Definition is_credit_line_frozen (borrower : Address) : M bool :=
  Freeze.is_credit_line_frozen borrower.

Definition get_credit_line_freeze_reason (borrower : Address) : M (option FreezeReason) :=
  Freeze.get_credit_line_freeze_reason borrower.

Definition is_borrower_frozen (borrower : Address) : M bool :=
  CreditStorage.is_borrower_frozen borrower.

Definition get_borrower_frozen_until (borrower : Address) : M (option Z) :=
  CreditStorage.get_borrower_frozen_until borrower.
End queries.
End Query.

(** ** The interface as data *)
Inductive Ask : Type -> Type :=
| QGetAttestationBatch (borrower : Address) : Ask (option AttestationBatch)
| QVerifyAttestationProof (borrower : Address) (leaf : BytesN32) (proof : list BytesN32) : Ask bool
| QGetPenaltySurchargeBps : Ask Z
| QGetRateChangeLimits : Ask (option RateChangeConfig)
| QGetRiskAdminCooldown : Ask Z
| QGetBorrowerRateFloor (borrower : Address) : Ask (option Z)
| QGetMedianValue : Ask (Z + ContractError)
| QGetBorrowerRateCeiling (borrower : Address) : Ask (option Z)
| QGetUtilizationCap (borrower : Address) : Ask (option Z)
| QGetVrfCommitment (borrower : Address) : Ask (option VrfCommitment)
| QGetGracePeriodConfig : Ask (option GracePeriodConfig)
| QGetBorrowerLiqGrace (borrower : Address) : Ask Z
| QGetLateFeeConfig : Ask (option LateFeeConfig)
| QGetRepaymentSchedule (borrower : Address) : Ask (option RepaymentSchedule)
| QGetLateFeeFlat : Ask Z
| QIsDelinquent (borrower : Address) : Ask bool
| QGetHealthFactor (borrower : Address) : Ask Z
| QGetMaxDrawAmount : Ask (option Z)
| QGetMaxRepayAmount : Ask (option Z)
| QGetDrawMinInterval : Ask (option Z)
| QGetBorrowAdminCooldown : Ask (option Z)
| QGetAccrualAdminCooldown : Ask (option Z)
| QGetProtocolFeeBps : Ask (option Z)
| QGetTreasury : Ask (option Address)
| QGetPendingTreasuryWithdrawal : Ask (option TreasuryWithdrawalProposal)
| QGetTreasuryFeeShareBps : Ask (option Z)
| QGetBounty : Ask (option Address)
| QGetSchemaVersion : Ask (option Z)
| QGetTotalUtilized : Ask Z
| QGetProtocolSummary : Ask ProtocolSummary
| QGetProtocolSummaryView : Ask ProtocolSummaryView
| QGetProofOfReserve : Ask ProofOfReserve
| QGetCreditLinesPaginated (cursor : option Z) (limit : Z) : Ask CreditLinesPage
| QBorrowCapabilities (borrower : Address) : Ask BorrowCapabilities
| QLifecycleCapabilities (borrower : Address) : Ask LifecycleCapabilities
| QGetCollateral (borrower : Address) : Ask Z
| QGetCollateralState (borrower : Address) : Ask CollateralState
| QGetMinCollateralRatioBps : Ask (option Z)
| QGetColAdminCooldownSecs : Ask (option Z)
| QGetLastColAdminActionTs : Ask (option Z)
| QGetCollateralTokens : Ask (list Address)
| QGetCollateralForToken (borrower token : Address) : Ask Z
| QGetMaxTotalExposure : Ask (option Z)
| QGetBorrowerExposureCap (borrower : Address) : Ask (option Z)
| QGetCreditLimitBounds : Ask (option Z * option Z)
| QGetCreditLineCount : Ask Z
| QEnumerateCreditLines (start_after_id : option Z) (limit : Z) : Ask (list (Z * CreditLineData))
| QGetAuctionContract : Ask (option Address)
| QGetPendingAuctionCount : Ask Z
| QGetCloseFactorBps : Ask Z
| QGetOracleConfig : Ask (option OracleConfig)
| QGetOracleQuorumConfig : Ask (option OracleQuorumConfig)
| QIsBorrowerBlocked (borrower : Address) : Ask bool
| QGetCreditLine (borrower : Address) : Ask (option CreditLineData)
| QGetCreditLineSummary (borrower : Address) : Ask (option CreditLineData)
| QGetRateFormulaConfig : Ask (option RateFormulaConfig)
| QIsProtocolPaused : Ask bool
| QGetProtocolPauseReason : Ask (option PauseReason)
| QIsDrawsFrozen : Ask bool
| QGetDrawsFreezeReason : Ask (option FreezeReason)
| QIsCreditLineFrozen (borrower : Address) : Ask bool
| QGetCreditLineFreezeReason (borrower : Address) : Ask (option FreezeReason)
| QIsBorrowerFrozen (borrower : Address) : Ask bool
| QGetBorrowerFrozenUntil (borrower : Address) : Ask (option Z)
| QGetProtocolConfig : Ask ProtocolConfig
| QGetLiquiditySource : Ask Address.

Section ask.
Context `{H : Host} `{Crypto}.

Definition ask {A} (q : Ask A) : Soroban.M (C := CreditContract) A :=
  match q with
  | QGetAttestationBatch borrower => Query.get_attestation_batch borrower
  | QVerifyAttestationProof borrower leaf proof => Query.verify_attestation_proof borrower leaf proof
  | QGetPenaltySurchargeBps => Query.get_penalty_surcharge_bps
  | QGetRateChangeLimits => Query.get_rate_change_limits
  | QGetRiskAdminCooldown => Query.get_risk_admin_cooldown
  | QGetBorrowerRateFloor borrower => Query.get_borrower_rate_floor borrower
  | QGetMedianValue => Query.get_median_value
  | QGetBorrowerRateCeiling borrower => Query.get_borrower_rate_ceiling borrower
  | QGetUtilizationCap borrower => Query.get_utilization_cap borrower
  | QGetVrfCommitment borrower => Query.get_vrf_commitment borrower
  | QGetGracePeriodConfig => Query.get_grace_period_config
  | QGetBorrowerLiqGrace borrower => Query.get_borrower_liq_grace borrower
  | QGetLateFeeConfig => Query.get_late_fee_config
  | QGetRepaymentSchedule borrower => Query.get_repayment_schedule borrower
  | QGetLateFeeFlat => Query.get_late_fee_flat
  | QIsDelinquent borrower => Query.is_delinquent borrower
  | QGetHealthFactor borrower => Query.get_health_factor borrower
  | QGetMaxDrawAmount => Query.get_max_draw_amount
  | QGetMaxRepayAmount => Query.get_max_repay_amount
  | QGetDrawMinInterval => Query.get_draw_min_interval
  | QGetBorrowAdminCooldown => Query.get_borrow_admin_cooldown
  | QGetAccrualAdminCooldown => Query.get_accrual_admin_cooldown
  | QGetProtocolFeeBps => Query.get_protocol_fee_bps
  | QGetTreasury => Query.get_treasury
  | QGetPendingTreasuryWithdrawal => Query.get_pending_treasury_withdrawal
  | QGetTreasuryFeeShareBps => Query.get_treasury_fee_share_bps
  | QGetBounty => Query.get_bounty
  | QGetSchemaVersion => Query.get_schema_version
  | QGetTotalUtilized => Query.get_total_utilized
  | QGetProtocolSummary => Query.get_protocol_summary
  | QGetProtocolSummaryView => Query.get_protocol_summary_view
  | QGetProofOfReserve => Query.get_proof_of_reserve
  | QGetCreditLinesPaginated cursor limit => Query.get_credit_lines_paginated cursor limit
  | QBorrowCapabilities borrower => Query.borrow_capabilities borrower
  | QLifecycleCapabilities borrower => Query.lifecycle_capabilities borrower
  | QGetCollateral borrower => Query.get_collateral borrower
  | QGetCollateralState borrower => Query.get_collateral_state borrower
  | QGetMinCollateralRatioBps => Query.get_min_collateral_ratio_bps
  | QGetColAdminCooldownSecs => Query.get_col_admin_cooldown_secs
  | QGetLastColAdminActionTs => Query.get_last_col_admin_action_ts
  | QGetCollateralTokens => Query.get_collateral_tokens
  | QGetCollateralForToken borrower token => Query.get_collateral_for_token borrower token
  | QGetMaxTotalExposure => Query.get_max_total_exposure
  | QGetBorrowerExposureCap borrower => Query.get_borrower_exposure_cap borrower
  | QGetCreditLimitBounds => Query.get_credit_limit_bounds
  | QGetCreditLineCount => Query.get_credit_line_count
  | QEnumerateCreditLines start_after_id limit => Views.enumerate_credit_lines start_after_id limit
  | QGetAuctionContract => Query.get_auction_contract
  | QGetPendingAuctionCount => Query.get_pending_auction_count
  | QGetCloseFactorBps => Query.get_close_factor_bps
  | QGetOracleConfig => Query.get_oracle_config
  | QGetOracleQuorumConfig => Query.get_oracle_quorum_config
  | QIsBorrowerBlocked borrower => Query.is_borrower_blocked borrower
  | QGetCreditLine borrower => Query.get_credit_line borrower
  | QGetCreditLineSummary borrower => Query.get_credit_line_summary borrower
  | QGetRateFormulaConfig => Query.get_rate_formula_config
  | QIsProtocolPaused => Query.is_protocol_paused
  | QGetProtocolPauseReason => Query.get_protocol_pause_reason
  | QIsDrawsFrozen => Query.is_draws_frozen
  | QGetDrawsFreezeReason => Query.get_draws_freeze_reason
  | QIsCreditLineFrozen borrower => Query.is_credit_line_frozen borrower
  | QGetCreditLineFreezeReason borrower => Query.get_credit_line_freeze_reason borrower
  | QIsBorrowerFrozen borrower => Query.is_borrower_frozen borrower
  | QGetBorrowerFrozenUntil borrower => Query.get_borrower_frozen_until borrower
  | QGetProtocolConfig => Credit.get_protocol_config
  | QGetLiquiditySource => Credit.get_liquidity_source
  end.
End ask.

(** ** Queries read *)

(** [pure_tac] proves that a run leaves the whole state alone, by its structure. *)
Ltac pure_tac :=
  cbv zeta;
  lazymatch goal with
  | |- steps _ (mbind _ _) => apply steps_bind; [apply _|pure_tac|intros ?; pure_tac]
  | |- steps _ (mfold _ _ _) => apply steps_mfold; [apply _|intros ? ?; pure_tac]
  | |- steps _ (if ?b then _ else _) => destruct b; pure_tac
  | |- steps _ (match ?x with _ => _ end) => destruct x; pure_tac
  | |- steps _ (mret _) => apply steps_ret; apply _
  | |- steps _ (panic_if _ _) => apply steps_panic_if; apply _
  | |- steps _ (or_panic _ _) => apply steps_or_panic; apply _
  | |- steps _ (arith _) => apply steps_arith; apply _
  | |- steps _ (unwrap _ _) => apply steps_unwrap; apply _
  | |- steps _ (panic_with_error _) => apply steps_panic_with_error
  | |- steps _ (Soroban.pextend_ttl _) => apply steps_pextend; apply _
  | |- @steps ?C0 _ _ ?R (Soroban.iget ?k) => exact (@steps_iget C0 _ R _ k)
  | |- @steps ?C0 _ _ ?R (Soroban.pget ?k) => exact (@steps_pget C0 _ R _ k)
  | |- steps _ (balance _ _) => apply steps_host_read; apply _
  | |- steps _ (decimals _) => apply steps_host_read; apply _
  | |- steps _ ?m =>
      first [ solve [eauto 2 with steps]
            | eapply steps_reads; apply _
            | let h := head m in unfold h; pure_tac ]
  end.

Section pure.
Context `{H : Host} `{Crypto}.
Abbreviation S' := (State (C := CreditContract)).

Lemma page_loop_pure fuel limit end_id i lines last :
  steps (@eq S') (page_loop fuel limit end_id i lines last).
Proof. revert i lines last. induction fuel; intros; cbn [page_loop]; pure_tac. Qed.

Lemma enumerate_loop_pure fuel count limit i returned out :
  steps (@eq S') (enumerate_loop fuel count limit i returned out).
Proof. revert i returned out. induction fuel; intros; cbn [enumerate_loop]; pure_tac. Qed.

#[local] Hint Resolve page_loop_pure enumerate_loop_pure : steps.

(** No query writes: neither storage, nor events, nor the host. *)
Lemma ask_pure {A} (q : Ask A) c (s : S') a s' : ask q c s = Ok a s' -> s' = s.
Proof.
  intros Hr. symmetry. revert c s a s' Hr. change (steps (@eq S') (ask q)).
  destruct q; cbn [ask]; pure_tac.
Qed.
(** What a query answers. *)
Definition answer {A} (q : Ask A) c (s : S') : option A :=
  match ask q c s with Ok a _ => Some a | Fail _ => None end.

Lemma answer_ok {A} (q : Ask A) c (s : S') a : answer q c s = Some a -> ask q c s = Ok a s.
Proof.
  unfold answer. destruct (ask q c s) as [x s'|] eqn:E; [|done]. intros [= <-].
  by rewrite (ask_pure _ _ _ _ _ E).
Qed.
End pure.
