(* ===== verification/CreditTesting.v ===== *)
(** * Running the credit contract's unit tests

    What the test environment of the SDK gives a test of [contracts/credit]: a
    ledger clock, fresh addresses, mocked signatures, one registered credit
    contract, and asset contracts with balances and allowances.  A test is a
    computation [T]; it fails where the Rust test panics. *)
From Stdlib Require Strings.String.
From S2P Require Import Prelude Soroban CreditTypes CreditEvents CreditStorage CreditState Accrual Collateral Fees Freeze Oracles Scoring Risk Lifecycle Views CreditContract CreditCalls CreditQueries.

(** ** The host of the tests *)

(** With [mock_all_auths] every address signs, once in a frame. *)
Record Bench := mkBench {
  mocked : bool;
  in_frame : list Address;
  bench_balances : list (Address * Address * Z);
  bench_allowances : list (Address * Address * Address * Z);
}.

Definition set_bench_balances (l : list (Address * Address * Z)) (h : Bench) : Bench :=
  mkBench (mocked h) (in_frame h) l (bench_allowances h).

Definition set_allowances (l : list (Address * Address * Address * Z)) (h : Bench) : Bench :=
  mkBench (mocked h) (in_frame h) (bench_balances h) l.

(** A new frame: nobody has signed in it yet. *)
Definition new_frame (h : Bench) : Bench := mkBench (mocked h) [] (bench_balances h) (bench_allowances h).

Definition bench_auth (a : Address) (h : Bench) : option Bench :=
  if mocked h && negb (bool_decide (a ∈ in_frame h))
  then Some (mkBench (mocked h) (a :: in_frame h) (bench_balances h) (bench_allowances h)) else None.

Definition bench_balance (l : list (Address * Address * Z)) (token who : Address) : Z :=
  foldr (fun e acc => let '(t, a, v) := e in if decide (t = token /\ a = who) then v + acc else acc) 0 l.

(** The last approval counts. *)
Fixpoint allowance (l : list (Address * Address * Address * Z)) (token from spender : Address) : Z :=
  match l with
  | [] => 0
  | (t, f, s, v) :: l' => if decide (t = token /\ f = from /\ s = spender) then v
                          else allowance l' token from spender
  end.

Definition bench_transfer (token from to : Address) (amount : Z) (h : Bench) : option Bench :=
  if (0 <=? amount) && (amount <=? bench_balance (bench_balances h) token from)
  then Some (set_bench_balances ((token, from, - amount) :: (token, to, amount) :: bench_balances h) h)
  else None.

Definition bench_transfer_from (token spender from to : Address) (amount : Z) (h : Bench) : option Bench :=
  let left := allowance (bench_allowances h) token from spender in
  if amount <=? left
  then bench_transfer token from to amount
         (set_allowances ((token, from, spender, left - amount) :: bench_allowances h) h)
  else None.

Module Bench.
(** The contract itself may always move its own tokens. *)
#[export] Instance bench_host : Host := {|
  host := Bench;
  host_require_auth := bench_auth;
  token_balance token who h := Some (bench_balance (bench_balances h) token who);
  token_decimals _ _ := Some 7;
  token_transfer self token from to amount h :=
    if mocked h || bool_decide (from = self) then bench_transfer token from to amount h else None;
  token_transfer_from self token spender from to amount h :=
    if mocked h || bool_decide (spender = self) then bench_transfer_from token spender from to amount h else None;
|}.

(** No auction contract is deployed in these tests, and no code is upgraded. *)
#[export] Instance bench_auction : AuctionClient := {|
  try_get_version _ _ := None;
  try_settle_default_liquidation _ _ _ _ _ := None;
|}.

#[export] Instance bench_deployer : Deployer := {| update_current_contract_wasm _ _ := None |}.

#[export] Instance bench_crypto : Crypto := {| sha256 l := replicate 32 (sumZ l mod 256) |}.
End Bench.
Import Bench.

(** Equality of the data the assertions compare. *)
#[export] Instance FreezeReason_eq_dec : EqDecision FreezeReason.
Proof. solve_decision. Defined.

#[export] Instance GraceWaiverMode_eq_dec : EqDecision GraceWaiverMode.
Proof. solve_decision. Defined.

#[export] Instance CreditLineData_eq_dec : EqDecision CreditLineData.
Proof. solve_decision. Defined.

#[export] Instance RateChangeConfig_eq_dec : EqDecision RateChangeConfig.
Proof. solve_decision. Defined.

#[export] Instance RepaymentSchedule_eq_dec : EqDecision RepaymentSchedule.
Proof. solve_decision. Defined.

#[export] Instance OracleReportData_eq_dec : EqDecision OracleReportData.
Proof. solve_decision. Defined.

#[export] Instance ResolvedOraclePrice_eq_dec : EqDecision ResolvedOraclePrice.
Proof. solve_decision. Defined.

(** ** Tests *)
Abbreviation TestState := (State (C := CreditContract)).

Record TestEnv := mkTestEnv {
  env_time : Z;
  env_sequence : Z;
  env_next : N;
  env_self : Address;
  env_state : TestState;
}.

(** A test panics in an assertion of its own, or because a call of the contract failed. *)
Inductive test_failure := AssertionFailed | CallPanicked (f : failure (C := CreditContract)).

Definition T (A : Type) : Type := TestEnv -> (A * TestEnv) + test_failure.

Definition tret {A} (a : A) : T A := fun e => inl (a, e).

Definition tbind {A B} (m : T A) (k : A -> T B) : T B :=
  fun e => match m e with inl (a, e') => k a e' | inr f => inr f end.

Declare Scope test_scope.
Delimit Scope test_scope with test.
Notation "'let*' x := m 'in' k" := (tbind m (fun x => k))
  (at level 10, x pattern, m at level 100, k at level 200) : test_scope.
Notation "m ;; k" := (tbind m (fun _ => k)) (at level 100, k at level 200, right associativity) : test_scope.

Definition set_state (s : TestState) (e : TestEnv) : TestEnv :=
  mkTestEnv (env_time e) (env_sequence e) (env_next e) (env_self e) s.

Definition on_host (f : Bench -> Bench) : T unit :=
  fun e => inl (tt, set_state (set_host (f (host_state (env_state e))) (env_state e)) e).

(** [env.mock_all_auths()] *)
Definition mock_all_auths : T unit :=
  on_host (fun h => mkBench true (in_frame h) (bench_balances h) (bench_allowances h)).

(** [Address::generate(&env)]; a registered asset contract has a fresh address too. *)
Definition generate : T Address :=
  fun e => inl (mkAddress (env_next e),
                mkTestEnv (env_time e) (env_sequence e) (env_next e + 1) (env_self e) (env_state e)).

(** [env.register(Credit, ())]; the client knows the contract by its address. *)
Definition register_credit : T Address :=
  fun e => let self := mkAddress (env_next e) in
           inl (self, mkTestEnv (env_time e) (env_sequence e) (env_next e + 1) self (env_state e)).

(** [env.ledger().set_timestamp(t)] *)
Definition set_timestamp (t : Z) : T unit :=
  fun e => inl (tt, mkTestEnv t (env_sequence e) (env_next e) (env_self e) (env_state e)).

(** [env.ledger().timestamp()] *)
Definition now : T Z := fun e => inl (env_time e, e).

(** Running a computation of the contract in a frame of its own: a call by the
    client, or [env.as_contract(&id, || ..)]. *)
Definition in_contract {A} (m : M A) : T A :=
  fun e => let s := env_state e in
           match m (mkCtx (env_time e) (env_sequence e) (env_self e)) (set_host (new_frame (host_state s)) s) with
           | Ok a s' => inl (a, set_state s' e)
           | Fail f => inr (CallPanicked f)
           end.

(** [client.entrypoint(..)]: through the dispatcher of the contract. *)
Definition call (c : Call) : T unit := in_contract (run c).

(** [client.try_entrypoint(..)]: a failed call leaves the state alone. *)
Definition try_invoke (c : Call) : T (unit + failure (C := CreditContract)) :=
  fun e => match call c e with
           | inl (_, e') => inl (inl tt, e')
           | inr (CallPanicked f) => inl (inr f, e)
           | inr AssertionFailed => inr AssertionFailed
           end.

(** [client.try_query(..)] *)
Definition try_query {A} (q : M A) : T (A + failure (C := CreditContract)) :=
  fun e => match in_contract q e with
           | inl (a, e') => inl (inl a, e')
           | inr (CallPanicked f) => inl (inr f, e)
           | inr AssertionFailed => inr AssertionFailed
           end.

(** A query that returns a [Result]: the client unwraps it, [try_] hands it on. *)
Definition returned {A} (q : M (A + ContractError)) : T A :=
  fun e => match in_contract q e with
           | inl (inl a, e') => inl (a, e')
           | inl (inr error, _) => inr (CallPanicked (ContractErr error))
           | inr f => inr f
           end.

Definition try_result {A} (q : M (A + ContractError)) : T (A + failure (C := CreditContract)) :=
  fun e => match returned q e with
           | inl (a, e') => inl (inl a, e')
           | inr (CallPanicked f) => inl (inr f, e)
           | inr AssertionFailed => inr AssertionFailed
           end.

(** [result.is_ok()], and [result == Err(Ok(error))] *)
Definition ok_ {A} (r : A + failure (C := CreditContract)) : bool :=
  match r with inl _ => true | inr _ => false end.

Definition err_is {A} (r : A + failure (C := CreditContract)) (error : ContractError) : bool :=
  match r with inr (ContractErr e) => bool_decide (e = error) | _ => false end.

(** A [for] loop of a test. *)
Fixpoint for_each {A} (l : list A) (body : A -> T unit) : T unit :=
  match l with
  | [] => tret tt
  | x :: l' => tbind (body x) (fun _ => for_each l' body)
  end.

(** ** The asset contract's client *)
Definition mint (token to : Address) (amount : Z) : T unit :=
  on_host (fun h => set_bench_balances ((token, to, amount) :: bench_balances h) h).

Definition approve (token from spender : Address) (amount : Z) : T unit :=
  on_host (fun h => set_allowances ((token, from, spender, amount) :: bench_allowances h) h).

Definition token_balance_of (token who : Address) : T Z :=
  fun e => inl (bench_balance (bench_balances (host_state (env_state e))) token who, e).

Definition token_allowance_of (token from spender : Address) : T Z :=
  fun e => inl (allowance (bench_allowances (host_state (env_state e))) token from spender, e).

Definition token_transfer_by (token from to : Address) (amount : Z) : T unit :=
  fun e => match bench_transfer token from to amount (host_state (env_state e)) with
           | Some h => inl (tt, set_state (set_host h (env_state e)) e)
           | None => inr (CallPanicked (HostTrap CallFailed))
           end.

(** ** Assertions and verdicts *)
Definition assert (b : bool) : T unit := if b then tret tt else fun _ => inr AssertionFailed.

Definition assert_eq {A} `{EqDecision A} (x y : A) : T unit := assert (bool_decide (x = y)).

Definition unwrapped {A} (o : option A) : T A :=
  match o with Some a => tret a | None => fun _ => inr AssertionFailed end.

Definition default_env : TestEnv :=
  mkTestEnv 0 0 1 (mkAddress 0) (mkState store_empty store_empty (mkBench false [] [] []) []).

Definition passes {A} (t : T A) : bool := match t default_env with inl _ => true | inr _ => false end.

(** [#[should_panic]] *)
Definition panics {A} (t : T A) : bool := negb (passes t).

(** [#[should_panic(expected = "message")]] *)
Definition panics_saying {A} (message : string) (t : T A) : bool :=
  match t default_env with
  | inr (CallPanicked (HostTrap (Panic m))) => bool_decide (is_Some (String.index 0 message m))
  | _ => false
  end.

(** [#[should_panic(expected = "Error(Contract, #code)")]] *)
Definition panics_with {A} (code : Z) (t : T A) : bool :=
  match t default_env with
  | inr (CallPanicked (ContractErr e)) => error_code e =? code
  | _ => false
  end.

(** The verdicts of a module of tests. *)
Definition all_hold (verdicts : list bool) : bool := forallb id verdicts.
