(* ===== verification/CreditLedger.v ===== *)
(** * The ledger invariant

    The accounting the contract promises to keep: the index enumerates exactly
    the borrowers with a line, and the four aggregates (total utilisation,
    active lines, open auctions, total collateral) are the sums over it.
    [Ledger_off bs d] is the invariant with [PendingAuctionCount] ahead by [d],
    because the handlers move that counter before they write the line. *)
From S2P Require Import Prelude MathUtils Soroban CreditTypes CreditEvents CreditStorage CreditState Accrual.

Section ledger.
Context `{H : Host}.
Abbreviation S' := (State (C := CreditContract)).

Definition status_of (s : S') (b : Address) : option CreditStatus := cl_status <$> line_of s b.

Definition util (l : option CreditLineData) : Z :=
  match l with Some l => cl_utilized_amount l | None => 0 end.

Definition ind (st : CreditStatus) (o : option CreditStatus) : Z :=
  if decide (o = Some st) then 1 else 0.

Record Ledger_off (bs : list Address) (d : Z) (s : S') : Prop := {
  lg_index : Index bs s;
  lg_owner : forall b l, line_of s b = Some l -> cl_borrower l = b;
  lg_total : total_utilized s = sumZ (util_of s <$> bs);
  lg_active : active_count s = sumZ ((fun b => ind Active (status_of s b)) <$> bs);
  lg_pending : pending_count s = sumZ ((fun b => ind Defaulted (status_of s b)) <$> bs) + d;
  lg_collateral : total_collateral s = sumZ (collateral_of s <$> bs);
  lg_uncollateral : forall b, b ∉ bs -> collateral_of s b = 0;
  lg_admin : bs <> [] -> is_Some (admin_of s);
  lg_max : line_count s <= u32_max;
}.

Definition Ledger (bs : list Address) (s : S') : Prop := Ledger_off bs 0 s.

(** Keys the invariant reads. *)
Definition K_ledger (a : area) (k : StorageKey) : bool :=
  match a, k with
  | Inst, KData (DK.CreditLineCount | DK.TotalUtilized | DK.ActiveLineCount
                 | DK.PendingAuctionCount | DK.TotalCollateral) => true
  | Inst, KSym sym_admin => true
  | Pers, KLine _ => true
  | Pers, KData (DK.CreditLineIdByBorrower _ | DK.CreditLineBorrowerById _
                 | DK.CollateralBalance _) => true
  | _, _ => false
  end.

Lemma frame_admin K (s s' : S') :
  frame K s s' -> K Inst sym_admin = true -> admin_of s' = admin_of s.
Proof. apply frame_inst. Qed.

Lemma frame_status K (s s' : S') b :
  frame K s s' -> K Pers (KLine b) = true -> status_of s' b = status_of s b.
Proof. intros. unfold status_of. by erewrite frame_line_of. Qed.

Lemma frame_util K (s s' : S') b :
  frame K s s' -> K Pers (KLine b) = true -> util_of s' b = util_of s b.
Proof. intros. unfold util_of. by erewrite frame_line_of. Qed.

Lemma sum_add_borrower (f : Address -> Z) bs b :
  f b = 0 -> sumZ (f <$> add_borrower b bs) = sumZ (f <$> bs).
Proof.
  intros Hf. unfold add_borrower. case_decide; [done|].
  rewrite fmap_app, sumZ_app. unfold sumZ. cbn. lia.
Qed.

Lemma in_add_borrower b bs : b ∈ add_borrower b bs.
Proof.
  unfold add_borrower. case_decide; [done|]. apply elem_of_app. right. by apply list_elem_of_singleton.
Qed.

(** The keys behind the part of the invariant about lines. *)
Definition K_lines (a : area) (k : StorageKey) : bool :=
  match a, k with
  | Inst, KData (DK.PendingAuctionCount | DK.TotalCollateral) => false
  | Inst, KSym sym_admin => false
  | Pers, KData (DK.CollateralBalance _) => false
  | _, _ => K_ledger a k
  end.

(** The invariant after a change of the pending counter, the collateral or the admin. *)
Lemma ledger_rebuild bs d d' (s s' : S') :
  frame K_lines s s' -> Ledger_off bs d s ->
  pending_count s' = pending_count s + (d' - d) ->
  total_collateral s' = sumZ (collateral_of s' <$> bs) ->
  (forall b, b ∉ bs -> collateral_of s' b = 0) ->
  (is_Some (admin_of s) -> is_Some (admin_of s')) ->
  Ledger_off bs d' s'.
Proof.
  intros Hf [H1 H2 H3 H4 H5 H6 H7 H8 H9] Hp Hc Hu Ha.
  assert (forall b, line_of s' b = line_of s b) as El by (intros; by eapply frame_line_of).
  assert (forall b, status_of s' b = status_of s b) as Es by (intros; by eapply frame_status).
  assert (forall b, util_of s' b = util_of s b) as Eu by (intros; by eapply frame_util).
  split; try done.
  - eapply frame_index; [|done]. eapply frame_weaken; [|exact Hf]. by intros [] [[]|[]|[]| | |].
  - intros b l. rewrite El. apply H2.
  - rewrite (frame_total K_lines s s'), H3 by done. apply sum_ext. intros. by rewrite Eu.
  - rewrite (frame_active K_lines s s'), H4 by done. apply sum_ext. intros. by rewrite Es.
  - rewrite Hp, H5. rewrite (sum_ext (fun b => ind Defaulted (status_of s' b))
      (fun b => ind Defaulted (status_of s b))) by (intros; by rewrite Es). lia.
  - intros. by apply Ha, H8.
  - by erewrite frame_line_count.
Qed.

Lemma ledger_frame bs d (s s' : S') : frame K_ledger s s' -> Ledger_off bs d s -> Ledger_off bs d s'.
Proof.
  intros Hf HL. assert (forall b, collateral_of s' b = collateral_of s b) as Ec
    by (intros; by eapply frame_collateral_of).
  eapply ledger_rebuild; [|exact HL|..].
  - eapply frame_weaken; [|exact Hf]. by intros [] [[]|[]|[]| | |].
  - rewrite (frame_pending K_ledger s s') by done. lia.
  - rewrite (frame_total_collateral K_ledger s s'), (lg_collateral _ _ _ HL) by done.
    apply sum_ext. intros. by rewrite Ec.
  - intros b. rewrite Ec. apply (lg_uncollateral _ _ _ HL).
  - by rewrite (frame_admin K_ledger s s').
Qed.

Lemma ind_bounds st o : 0 <= ind st o <= 1.
Proof. unfold ind. case_decide; lia. Qed.

Lemma sum_ind_bounds st (f : Address -> option CreditStatus) bs :
  0 <= sumZ ((fun b => ind st (f b)) <$> bs) <= Z.of_nat (length bs).
Proof.
  split.
  - apply sumZ_nonneg, Forall_fmap, Forall_forall. intros. cbn. apply ind_bounds.
  - etrans; [apply (sumZ_fmap_le _ 1)|lia]. intros. apply ind_bounds.
Qed.
End ledger.
