(* ===== verification/CreditMoves.v ===== *)
(** * How the handlers move the ledger

    The effect of each operation that touches
    a key of the ledger invariant: [apply_accrual], the pending-auction
    counter, [persist_credit_line], the accrual loops and the collateral writer. *)
From S2P Require Import Prelude MathUtils Soroban CreditTypes CreditEvents CreditStorage CreditState Accrual CreditLedger.

Section accrual.
Context `{H : Host}.
Abbreviation S' := (State (C := CreditContract)).

Lemma apply_accrual_frame K line : steps (frame K) (apply_accrual line).
Proof. kframe. Qed.

(** What accrual can do to a line: nothing, a new stamp, or the same positive
    amount of interest added to the debt and to its interest part. *)
Inductive accrued (now : Z) (line : CreditLineData) : CreditLineData -> Prop :=
| acc_same : accrued now line line
| acc_stamp : cl_utilized_amount line = 0 -> cl_last_accrual_ts line < now ->
    accrued now line (set_last_accrual_ts line now)
| acc_interest i : 0 < i -> cl_last_accrual_ts line < now -> cl_utilized_amount line <> 0 ->
    is_i128 (cl_utilized_amount line + i) -> is_i128 (cl_accrued_interest line + i) ->
    accrued now line
      (set_last_accrual_ts
         (set_accrued (set_utilized line (cl_utilized_amount line + i)) (cl_accrued_interest line + i))
         now).

Lemma apply_accrual_ok line c (s : S') line' s' :
  apply_accrual line c s = Ok line' s' ->
  accrued (ledger_timestamp c) line line' /\ (forall K, frame K s s').
Proof.
  intros Hr. split; [|intros K; by eapply (apply_accrual_frame K)].
  unfold apply_accrual in Hr. mstep Hr. subst. mstep Hr; [minv Hr; constructor|]. bsimp.
  mstep Hr; [minv Hr; bsimp; by apply acc_stamp|]. bsimp. do 5 mstep Hr.
  mstep Hr; [|minv Hr; constructor]. minv Hr; bsimp; chk; subst. by apply acc_interest.
Qed.

Lemma accrued_keeps now line line' :
  accrued now line line' ->
  cl_borrower line' = cl_borrower line /\ cl_status line' = cl_status line /\
  cl_credit_limit line' = cl_credit_limit line /\
  cl_interest_rate_bps line' = cl_interest_rate_bps line /\
  cl_risk_score line' = cl_risk_score line /\
  cl_suspension_ts line' = cl_suspension_ts line /\
  cl_last_rate_update_ts line' = cl_last_rate_update_ts line.
Proof. by destruct 1. Qed.
End accrual.

#[export] Hint Resolve apply_accrual_frame : steps.

(** ** The counters and the line writer *)
Section moves.
Context `{H : Host}.
Abbreviation S' := (State (C := CreditContract)).

Lemma defaulted_sum_pos bs (s : S') b :
  b ∈ bs -> status_of s b = Some Defaulted ->
  1 <= sumZ ((fun b => ind Defaulted (status_of s b)) <$> bs).
Proof.
  intros Hb Hs. apply list_elem_of_lookup in Hb as [i Hi].
  rewrite <- (take_drop_middle _ _ _ Hi), fmap_app, fmap_cons, sumZ_app.
  pose proof (sum_ind_bounds Defaulted (status_of s) (take i bs)).
  pose proof (sum_ind_bounds Defaulted (status_of s) (drop (S i) bs)).
  unfold sumZ in *. cbn. unfold ind at 2. rewrite decide_True by done. lia.
Qed.

Lemma pending_write_ok bs d v c (s : S') u s' :
  Soroban.iset (C := CreditContract) DK.PendingAuctionCount v c s = Ok u s' ->
  Ledger_off bs d s -> Ledger_off bs (d + (v - pending_count s)) s' /\
  (forall b, line_of s' b = line_of s b).
Proof.
  intros Hr HL. split; [|intros; by apply iset_ok in Hr as ->].
  eapply ledger_rebuild; [by eapply frame_iset|exact HL|..].
  - apply iset_ok in Hr as ->. unfold pending_count at 1, inst. sput. cbn. lia.
  - apply iset_ok in Hr as ->. apply (lg_collateral _ _ _ HL).
  - apply iset_ok in Hr as ->. apply (lg_uncollateral _ _ _ HL).
  - by apply iset_ok in Hr as ->.
Qed.

Lemma increment_pending_ok bs c (s : S') u s' :
  increment_pending_auction_count c s = Ok u s' -> Ledger bs s -> line_count s < u32_max ->
  Ledger_off bs 1 s' /\ (forall b, line_of s' b = line_of s b).
Proof.
  unfold increment_pending_auction_count. intros Hr HL Hlt. mstep Hr. subst.
  destruct (pending_write_ok _ _ _ _ _ _ _ Hr HL) as [H1 H2]. split; [|done].
  pose proof (sum_ind_bounds Defaulted (status_of s) bs) as Hb.
  pose proof (idx_count _ _ (lg_index _ _ _ HL)). pose proof (lg_pending _ _ _ HL).
  rewrite saturate_in in H1 by lia. by replace (0 + _) with 1 in H1 by lia.
Qed.

Lemma decrement_pending_ok bs c (s : S') u s' b :
  decrement_pending_auction_count c s = Ok u s' -> Ledger bs s -> 
  status_of s b = Some Defaulted ->
  Ledger_off bs (-1) s' /\ (forall b, line_of s' b = line_of s b).
Proof.
  unfold decrement_pending_auction_count. intros Hr HL Hd. mstep Hr. subst.
  destruct (pending_write_ok _ _ _ _ _ _ _ Hr HL) as [H1 H2]. split; [|done].
  assert (b ∈ bs) as Hin.
  { apply (idx_lines _ _ (lg_index _ _ _ HL)). unfold status_of in Hd. by destruct (line_of s b). }
  pose proof (sum_ind_bounds Defaulted (status_of s) bs) as Hb.
  pose proof (defaulted_sum_pos _ _ _ Hin Hd).
  pose proof (lg_max _ _ _ HL).
  pose proof (idx_count _ _ (lg_index _ _ _ HL)). pose proof (lg_pending _ _ _ HL).
  rewrite saturate_in in H1 by lia. by replace (0 + _) with (-1) in H1 by lia.
Qed.

(** A sum over the index after one borrower, possibly new, changed its term. *)
Lemma sum_moved (f g : Address -> Z) b bs :
  NoDup (add_borrower b bs) -> (forall b', b' <> b -> g b' = f b') -> (b ∉ bs -> f b = 0) ->
  sumZ (g <$> add_borrower b bs) = sumZ (f <$> bs) + (g b - f b).
Proof.
  intros Hnd Hg Hf. rewrite (sum_update f g _ b Hnd (in_add_borrower b bs) Hg). f_equal.
  unfold add_borrower. case_decide; [done|].
  rewrite fmap_app, sumZ_app. unfold sumZ at 2. cbn. rewrite Hf by done. lia.
Qed.

Lemma length_add_borrower b bs : (length (add_borrower b bs) <= S (length bs))%nat.
Proof. unfold add_borrower. case_decide; [lia|]. rewrite length_app. cbn. lia. Qed.

Lemma not_in_add_borrower b b' bs : b' ∉ add_borrower b bs -> b' ∉ bs.
Proof. unfold add_borrower. case_decide; [done|]. rewrite elem_of_app. tauto. Qed.

Lemma active_delta_ind ps st :
  active_delta ps (Some st) = ind Active (Some st) - ind Active ps.
Proof. unfold active_delta, ind. by destruct st, ps as [[]|]. Qed.

(** Writing a line moves every aggregate by the line's own change. *)
Lemma persist_moves bs d b line pu ps c (s : S') u s' :
  persist_credit_line b line pu ps c s = Ok u s' ->
  Ledger_off bs d s -> line_count s < u32_max -> is_Some (admin_of s) ->
  pu = util_of s b -> ps = status_of s b -> cl_borrower line = b ->
  Ledger_off (add_borrower b bs)
    (d - (ind Defaulted (Some (cl_status line)) - ind Defaulted ps)) s' /\
  line_of s' b = Some line /\ (forall b', b' <> b -> line_of s' b' = line_of s b').
Proof.
  intros Hr [H1 H2 H3 H4 H5 H6 H7 H8 H9] Hlt Hadm -> -> Hb.
  destruct (persist_credit_line_ok _ _ _ _ _ _ _ _ _ Hr H1 Hlt) as (HI & Hf & Hl & Ht & _ & Ha).
  assert (forall b', b' <> b -> line_of s' b' = line_of s b') as Hoth.
  { intros b' Hne. eapply frame_line_of; [exact Hf|]. cbn. by rewrite bool_decide_eq_false_2. }
  split; [|done].
  assert (forall b', collateral_of s' b' = collateral_of s b') as Ec
    by (intros; by eapply frame_collateral_of).
  pose proof (idx_nodup _ _ HI) as Hnd.
  assert (b ∉ bs -> line_of s b = None) as Hnone.
  { intros Hni. destruct (line_of s b) eqn:E; [|done]. exfalso. apply Hni, (idx_lines _ _ H1). eauto. }
  assert (forall st, sumZ ((fun b' => ind st (status_of s' b')) <$> add_borrower b bs)
     = sumZ ((fun b' => ind st (status_of s b')) <$> bs)
       + (ind st (Some (cl_status line)) - ind st (status_of s b))) as Hsum.
  { intros st. rewrite (sum_moved (fun b' => ind st (status_of s b')) _ b bs Hnd).
    - cbn. unfold status_of at 2. by rewrite Hl.
    - intros. unfold status_of. by rewrite Hoth.
    - intros. unfold status_of. by rewrite Hnone. }
  pose proof (sum_ind_bounds Active (status_of s') (add_borrower b bs)) as Hab.
  pose proof (idx_count _ _ HI). pose proof (idx_count _ _ H1).
  pose proof (length_add_borrower b bs).
  split; try done.
  - intros b' l. destruct (decide (b' = b)) as [->|Hne]; [rewrite Hl; congruence|].
    rewrite Hoth by done. apply H2.
  - rewrite Ht, H3, (sum_moved (util_of s) _ b bs Hnd).
    + assert (util_of s' b = cl_utilized_amount line) as -> by (unfold util_of; by rewrite Hl). done.
    + intros. unfold util_of. by rewrite Hoth.
    + intros. unfold util_of. by rewrite Hnone.
  - rewrite Ha, active_delta_ind, H4, Hsum in *. case_match; bsimp; [lia|apply saturate_in; lia].
  - erewrite frame_pending, H5, Hsum by done. lia.
  - erewrite frame_total_collateral, H6, (sum_moved (collateral_of s) _ b bs Hnd) by eauto.
    rewrite Ec. lia.
  - intros b' Hb'%not_in_add_borrower. rewrite Ec. by apply H7.
  - intros _. by erewrite frame_admin.
  - lia.
Qed.

Lemma ledger_in bs d (s : S') b l : Ledger_off bs d s -> line_of s b = Some l -> b ∈ bs.
Proof. intros HL Hl. apply (idx_lines _ _ (lg_index _ _ _ HL)). eauto. Qed.

(** The same for a line that exists already: the index does not change. *)
Lemma persist_line_moves bs d b old line pu ps c (s : S') u s' :
  persist_credit_line b line pu ps c s = Ok u s' ->
  Ledger_off bs d s -> line_count s < u32_max -> line_of s b = Some old ->
  pu = cl_utilized_amount old -> ps = Some (cl_status old) -> cl_borrower line = cl_borrower old ->
  Ledger_off bs
    (d - (ind Defaulted (Some (cl_status line)) - ind Defaulted (Some (cl_status old)))) s' /\
  line_count s' = line_count s /\
  line_of s' b = Some line /\ (forall b', b' <> b -> line_of s' b' = line_of s b').
Proof.
  intros Hr HL Hlt Hold Hpu Hps Hb. pose proof (ledger_in _ _ _ _ _ HL Hold) as Hin.
  assert (add_borrower b bs = bs) as Eb by (unfold add_borrower; by rewrite decide_True).
  destruct (persist_moves bs d b line pu ps c s u s' Hr HL Hlt) as (HL' & Hl & Ho).
  - apply (lg_admin _ _ _ HL). intros ->. by apply elem_of_nil in Hin.
  - unfold util_of. by rewrite Hold.
  - unfold status_of. by rewrite Hold.
  - rewrite Hb. by eapply (lg_owner _ _ _ HL).
  - rewrite Eb, Hps in HL'. split; [done|]. split; [|done].
    rewrite (idx_count _ _ (lg_index _ _ _ HL)). apply (idx_count _ _ (lg_index _ _ _ HL')).
Qed.

(** ** The accrual loops: every status is kept, and so is the line they skip. *)
Record accrues (skip : Address -> Prop) (bs : list Address) (d : Z) (s s' : S') : Prop := {
  ac_ledger : Ledger_off bs d s';
  ac_count : line_count s' = line_count s;
  ac_status : forall b, status_of s' b = status_of s b;
  ac_skip : forall b, skip b -> line_of s' b = line_of s b;
}.

Lemma accrues_refl skip bs d s : Ledger_off bs d s -> accrues skip bs d s s.
Proof. by split. Qed.

Lemma accrues_trans skip bs d s1 s2 s3 :
  accrues skip bs d s1 s2 -> accrues skip bs d s2 s3 -> accrues skip bs d s1 s3.
Proof.
  intros [H1 H2 H3 H4] [H5 H6 H7 H8]. split; [done|congruence|intros; by rewrite H7|].
  intros. by rewrite H8, H4.
Qed.

Lemma accrue_and_persist_ok skip bs d b old c (s : S') u s' :
  accrue_and_persist b old c s = Ok u s' ->
  Ledger_off bs d s -> line_count s < u32_max -> line_of s b = Some old -> ~ skip b ->
  accrues skip bs d s s'.
Proof.
  unfold accrue_and_persist. intros Hr HL Hlt Hold Hsk. cbv zeta in Hr.
  apply mbind_ok in Hr as (line & s1 & Hacc & Hr). apply apply_accrual_ok in Hacc as [Hacc Hf].
  specialize (Hf keep_all). destruct (accrued_keeps _ _ _ Hacc) as (Hb & Hst & _).
  assert (Ledger_off bs d s1) as HL1 by (eapply ledger_frame; [|done]; by eapply frame_weaken).
  assert (line_count s1 = line_count s) as Hc by (by eapply frame_line_count).
  assert (forall b', line_of s1 b' = line_of s b') as El by (intros; by eapply frame_line_of).
  mstep Hr; [|by minv Hr; split; [|by apply (frame_line_count keep_all)|
                                     intros; by eapply (frame_status keep_all)|]].
  destruct (persist_line_moves bs d b old line _ _ c s1 u s' Hr HL1) as (HL' & Hc' & Hl & Ho);
    [lia|by rewrite El|done|done|done|].
  rewrite Hst in HL'. rewrite Z.sub_diag, Z.sub_0_r in HL'. split; [done|congruence| |].
  - intros b'. unfold status_of. destruct (decide (b' = b)) as [->|Hne].
    + rewrite Hl, Hold. cbn. by rewrite Hst.
    + by rewrite Ho, El.
  - intros b' Hb'. rewrite Ho, El; [done|]. by intros ->.
Qed.

Lemma mfor_accrues {A} skip bs d (l : list A) body c :
  (forall x s u s', body x c s = Ok u s' -> Ledger_off bs d s -> line_count s < u32_max ->
     accrues skip bs d s s') ->
  forall (s : S') u s', mfor l body c s = Ok u s' -> Ledger_off bs d s -> line_count s < u32_max ->
  accrues skip bs d s s'.
Proof.
  intros Hb. induction l as [|x l IH]; intros s u s' Hr HL Hlt; cbn [mfor] in Hr.
  - apply mret_ok in Hr as [_ ->]. by apply accrues_refl.
  - apply mbind_ok in Hr as ([] & s1 & Hx & Hr). specialize (Hb _ _ _ _ Hx HL Hlt).
    eapply accrues_trans; [exact Hb|]. eapply IH; [exact Hr|apply Hb|]. by rewrite (ac_count _ _ _ _ _ Hb).
Qed.

Lemma accrue_all_except_ok bs d b c (s : S') u s' :
  accrue_all_except b c s = Ok u s' -> Ledger_off bs d s -> line_count s < u32_max ->
  accrues (fun b' => b' = b) bs d s s'.
Proof.
  unfold accrue_all_except. intros Hr. mstep Hr. subst. eapply mfor_accrues; [|exact Hr].
  clear. intros i s u s' Hr HL Hlt. cbv beta in Hr. mstep Hr. subst. mstep Hr; [|minv Hr; by apply accrues_refl].
  mstep Hr; bsimp; [minv Hr; by apply accrues_refl|].
  mstep Hr. subst. mstep Hr; [|minv Hr; by apply accrues_refl].
  by eapply accrue_and_persist_ok.
Qed.

Lemma accrue_batch_ok bs d l c (s : S') u s' :
  accrue_batch l c s = Ok u s' -> Ledger_off bs d s -> line_count s < u32_max ->
  accrues (fun _ => False) bs d s s'.
Proof.
  unfold accrue_batch. revert s u s'. apply mfor_accrues.
  intros b s u s' Hr HL Hlt. cbv beta in Hr. mstep Hr. subst. mstep Hr; [|minv Hr; by apply accrues_refl].
  mstep Hr; [|minv Hr; by apply accrues_refl]. by eapply accrue_and_persist_ok; eauto.
Qed.

(** ** The collateral writer *)
Definition K_tc (a : area) (k : StorageKey) : bool :=
  match a, k with Inst, KData DK.TotalCollateral => false | _, _ => true end.

Lemma adjust_total_collateral_ok bs pb nb c (s : S') u s' :
  adjust_total_collateral pb nb c s = Ok u s' -> Index bs s -> nb <> pb ->
  frame K_tc s s' /\ total_collateral s' = total_collateral s + (nb - pb) /\
  total_collateral s' = sumZ (collateral_of s' <$> bs).
Proof.
  unfold adjust_total_collateral. intros Hr HI Hne. minv Hr; chk; subst; bsimp; [lia|].
  match goal with Hm : Soroban.iset _ _ _ _ = Ok _ ?s1 |- _ =>
    rename Hm into Hset; rename s1 into sm end.
  assert (frame K_tc s sm) as Hf by (by eapply frame_iset).
  assert (Index bs sm) as HI1 by (eapply frame_index; [|done];
    eapply frame_weaken; [|exact Hf]; by intros [] [[]|[]|[]| | |]).
  apply (assert_total_collateral_conserved_ok bs) in Hr as [Hsum ->]; [|done].
  split; [done|]. split; [|done].
  apply iset_ok in Hset as ->. unfold total_collateral at 1, inst. sput. done.
Qed.

Definition K_coll (b : Address) (a : area) (k : StorageKey) : bool :=
  match a, k with
  | Inst, KData DK.TotalCollateral => false
  | Pers, KData (DK.CollateralBalance b') => negb (bool_decide (b' = b))
  | _, _ => true
  end.

(** The conservation check forces the depositor to be an indexed borrower. *)
Lemma set_collateral_balance_ok bs d b v c (s : S') u s' :
  set_collateral_balance b v c s = Ok u s' -> Ledger_off bs d s -> v <> collateral_of s b ->
  Ledger_off bs d s' /\ frame (K_coll b) s s' /\ b ∈ bs /\ collateral_of s' b = v.
Proof.
  unfold set_collateral_balance. intros Hr HL Hne. pose proof (lg_index _ _ _ HL) as HI.
  mstep Hr. subst. cbv zeta in Hr. apply mbind_ok in Hr as ([] & s1 & Hput & Hr).
  apply mbind_ok in Hr as ([] & s2 & Hb & Hr). apply bump_persistent_ttl_ok in Hb as [_ ->].
  assert (frame (K_coll b) s s1) as Hf1
    by (eapply frame_pset; [exact Hput|]; cbn; by rewrite bool_decide_eq_true_2).
  assert (Index bs s1) as HI1 by (eapply frame_index; [|done];
    eapply frame_weaken; [|exact Hf1]; by intros [] [[]|[]|[]| | |]).
  eapply adjust_total_collateral_ok in Hr as (Hf2 & Ht & Hsum); [|done|done].
  change (total_collateral s' = total_collateral s1 + (v - collateral_of s b)) in Ht.
  assert (frame (K_coll b) s s') as Hf by (etrans; [exact Hf1|];
    eapply frame_weaken; [|exact Hf2]; by intros [] [[]|[]|[]| | |]).
  assert (collateral_of s1 b = v) as Hv
    by (apply pset_ok in Hput as ->; unfold collateral_of, pers; sput; done).
  rewrite <- (frame_collateral_of K_tc s1 s' b) in Hv by done.
  assert (forall b', b' <> b -> collateral_of s' b' = collateral_of s b') as Ho.
  { intros b' Hb'. eapply frame_collateral_of; [exact Hf|]. cbn. by rewrite bool_decide_eq_false_2. }
  assert (total_collateral s1 = total_collateral s) as Et by (by apply pset_ok in Hput as ->).
  assert (b ∈ bs) as Hin.
  { destruct (decide (b ∈ bs)) as [|Hni]; [done|]. exfalso.
    rewrite (sum_ext (collateral_of s') (collateral_of s)) in Hsum
      by (intros b' Hb'; apply Ho; congruence).
    rewrite <- (lg_collateral _ _ _ HL) in Hsum. lia. }
  split; [|done]. eapply ledger_rebuild; [|exact HL| |done| |].
  - eapply frame_weaken; [|exact Hf]. by intros [] [[]|[]|[]| | |].
  - rewrite (frame_pending (K_coll b) s s') by done. lia.
  - intros b' Hb'. rewrite Ho by congruence. by apply (lg_uncollateral _ _ _ HL).
  - by rewrite (frame_admin (K_coll b) s s').
Qed.

(** The second collateral ledger is not part of the recomputed sum, so a write
    that changes a balance never passes the conservation check. *)
Lemma set_collateral_balance_for_token_fails bs d b t v c (s : S') u s' :
  Ledger_off bs d s -> v <> unwrap_or (pers s (DK.CollateralBalanceV2 b t)) 0 ->
  set_collateral_balance_for_token b t v c s <> Ok u s'.
Proof.
  unfold set_collateral_balance_for_token, get_collateral_balance_for_token.
  intros HL Hne Hr. mstep Hr. subst. apply mbind_ok in Hr as ([] & s1 & Hput & Hr).
  apply mbind_ok in Hr as ([] & s2 & Hb & Hr). apply bump_persistent_ttl_ok in Hb as [_ ->].
  pose proof (lg_index _ _ _ HL) as HI. pose proof (lg_collateral _ _ _ HL) as H6.
  assert (frame K_ledger s s1) as Hf1 by (by eapply frame_pset).
  assert (Index bs s1) as HI1 by (eapply frame_index; [|done];
    eapply frame_weaken; [|exact Hf1]; by intros [] [[]|[]|[]| | |]).
  eapply adjust_total_collateral_ok in Hr as (Hf2 & Ht & Hsum); [|done|done].
  erewrite (frame_total_collateral _ _ _ Hf1) in Ht by done.
  rewrite (sum_ext (collateral_of s') (collateral_of s)) in Hsum.
  - change (total_collateral s' = total_collateral s +
      (v - unwrap_or (pers s (DK.CollateralBalanceV2 b t)) 0)) in Ht. lia.
  - intros b' _. transitivity (collateral_of s1 b'); by eapply frame_collateral_of.
Qed.
End moves.
