(* ===== verification/CreditInvariant.v ===== *)
(** * The entrypoints preserve the ledger and follow the status graph

    For every entrypoint that writes a key of the ledger invariant, what a
    successful run does to the invariant and to the status of each line; then
    the two statements over all entrypoints at once. *)
From S2P Require Import Prelude MathUtils Soroban CreditTypes CreditEvents CreditStorage CreditState Accrual Collateral Fees Freeze Oracles Scoring Risk Lifecycle Views CreditContract CreditCalls CreditLedger CreditMoves.

(** ** Tracking a handler from its start

    [Near bs d b s0 s]: between the start [s0] and [s] nothing happened to the
    line of [b] or to any status, and the pending counter is ahead by [d].
    [Wrote bs b st s0 s]: the line of [b] was written with status [st]. *)
Section tracking.
Context `{H : Host}.
Abbreviation S' := (State (C := CreditContract)).

Record Near (bs : list Address) (d : Z) (b : Address) (s0 s : S') : Prop := {
  nr_ledger : Ledger_off bs d s;
  nr_count : line_count s = line_count s0;
  nr_line : line_of s b = line_of s0 b;
  nr_status : forall b', status_of s b' = status_of s0 b';
  nr_admin : is_Some (admin_of s0) -> is_Some (admin_of s);
}.

Record Wrote (bs : list Address) (b : Address) (st : CreditStatus) (s0 s : S') : Prop := {
  wr_ledger : Ledger bs s;
  wr_status : forall b', status_of s b' = if decide (b' = b) then Some st else status_of s0 b';
}.

Lemma near_refl bs b s : Ledger bs s -> Near bs 0 b s s.
Proof. by split. Qed.

Lemma near_frame bs d b s0 s s' : Near bs d b s0 s -> frame K_ledger s s' -> Near bs d b s0 s'.
Proof.
  intros [H1 H2 H3 H4 H5] Hf. split.
  - by eapply ledger_frame.
  - by rewrite (frame_line_count K_ledger s s').
  - by rewrite (frame_line_of K_ledger s s').
  - intros b'. by rewrite (frame_status K_ledger s s').
  - by rewrite (frame_admin K_ledger s s').
Qed.

Lemma ledger_admin bs d s b : Ledger_off bs d s -> b ∈ bs -> is_Some (admin_of s).
Proof. intros HL Hb. apply (lg_admin _ _ _ HL). intros ->. by apply elem_of_nil in Hb. Qed.

Lemma wrote_frame bs b st s0 s s' : Wrote bs b st s0 s -> frame K_ledger s s' -> Wrote bs b st s0 s'.
Proof.
  intros [H1 H2] Hf. split.
  - by eapply ledger_frame.
  - intros b'. by rewrite (frame_status K_ledger s s').
Qed.

Lemma near_same_lines bs d d' b s0 s s' :
  Near bs d b s0 s -> Ledger_off bs d' s' -> (forall b, line_of s' b = line_of s b) -> b ∈ bs ->
  Near bs d' b s0 s'.
Proof.
  intros [H1 H2 H3 H4 H5] HL El Hb. split; [done| |by rewrite El| |].
  - by rewrite (idx_count _ _ (lg_index _ _ _ HL)), <- (idx_count _ _ (lg_index _ _ _ H1)).
  - intros b'. unfold status_of. rewrite El. apply H4.
  - intros _. by eapply ledger_admin.
Qed.

Lemma near_in bs d b s0 s old : Near bs d b s0 s -> line_of s0 b = Some old -> b ∈ bs.
Proof. intros [H1 H2 H3 H4 H5] Hl. eapply ledger_in; [exact H1|]. by rewrite H3. Qed.

Lemma near_increment bs b s0 s old c u s' :
  Near bs 0 b s0 s -> increment_pending_auction_count c s = Ok u s' -> line_count s0 < u32_max ->
  line_of s0 b = Some old -> Near bs 1 b s0 s'.
Proof.
  intros N Hr Hlt Hl. pose proof (near_in _ _ _ _ _ _ N Hl).
  eapply increment_pending_ok in Hr as [HL El]; [|apply N|by rewrite (nr_count _ _ _ _ _ N)].
  by eapply near_same_lines.
Qed.

Lemma near_decrement_if bs b s0 s old (k : bool) c u s' :
  Near bs 0 b s0 s -> (if k then decrement_pending_auction_count else mret tt) c s = Ok u s' ->
  line_of s0 b = Some old -> (k = true -> cl_status old = Defaulted) ->
  Near bs (if k then -1 else 0) b s0 s'.
Proof.
  intros N Hr Hl Hd. pose proof (near_in _ _ _ _ _ _ N Hl).
  destruct k; [|by apply mret_ok in Hr as [_ ->]].
  eapply decrement_pending_ok in Hr as [HL El]; [|apply N|].
  - by eapply near_same_lines.
  - rewrite (nr_status _ _ _ _ _ N). unfold status_of. rewrite Hl. cbn. by rewrite Hd.
Qed.

Lemma near_accrue_all bs b s0 s old c u s' :
  Near bs 0 b s0 s -> accrue_all_except b c s = Ok u s' -> line_count s0 < u32_max ->
  line_of s0 b = Some old -> Near bs 0 b s0 s'.
Proof.
  intros N Hr Hlt Hl. pose proof (near_in _ _ _ _ _ _ N Hl). destruct N as [H1 H2 H3 H4 H5].
  eapply accrue_all_except_ok in Hr as [A1 A2 A3 A4]; [|done|by rewrite H2].
  split; [done|congruence|by rewrite A4|intros; by rewrite A3|].
  intros _. by eapply ledger_admin.
Qed.

(** The write itself settles what the counter moved ahead. *)
Lemma near_persist bs d b s0 s old line pu ps c u s' :
  Near bs d b s0 s -> persist_credit_line b line pu ps c s = Ok u s' ->
  line_count s0 < u32_max -> line_of s0 b = Some old ->
  pu = cl_utilized_amount old -> ps = Some (cl_status old) -> cl_borrower line = cl_borrower old ->
  d = ind Defaulted (Some (cl_status line)) - ind Defaulted (Some (cl_status old)) ->
  Wrote bs b (cl_status line) s0 s'.
Proof.
  intros [H1 H2 H3 H4 _] Hr Hlt Hold Hpu Hps Hb Hd.
  eapply persist_line_moves in Hr as (HL & Hc & Hl & Ho);
    [|exact H1|by rewrite H2|by rewrite H3|done..].
  rewrite Hd, Z.sub_diag in HL. split; [done|].
  intros b'. unfold status_of at 1. case_decide as Hdec; [subst; by rewrite Hl|].
  rewrite Ho by done. apply H4.
Qed.

Lemma status_at s b l : line_of s b = Some l -> status_of s b = Some (cl_status l).
Proof. unfold status_of. by intros ->. Qed.

(** The same for a line that may be new. *)
Lemma near_persist_new bs b s0 s line pu ps c u s' :
  Near bs (- ind Defaulted (status_of s0 b)) b s0 s -> persist_credit_line b line pu ps c s = Ok u s' ->
  line_count s0 < u32_max -> is_Some (admin_of s0) ->
  pu = util_of s0 b -> ps = status_of s0 b -> cl_borrower line = b -> cl_status line <> Defaulted ->
  Wrote (add_borrower b bs) b (cl_status line) s0 s'.
Proof.
  intros [H1 H2 H3 H4 H5] Hr Hlt Ha Hpu Hps Hb Hnd.
  eapply persist_moves in Hr as (HL & Hl & Ho);
    [|exact H1|by rewrite H2|by apply H5|unfold util_of; by rewrite H3|by rewrite H4|done].
  assert (ind Defaulted (Some (cl_status line)) = 0) as Hi by (unfold ind; rewrite decide_False; congruence).
  rewrite Hps, Hi in HL. replace (_ - _) with 0 in HL by lia. split; [done|].
  intros b'. unfold status_of at 1. case_decide as Hdec; [subst; by rewrite Hl|].
  rewrite Ho by done. apply H4.
Qed.

Lemma wrote_count bs b st s0 s : Ledger bs s0 -> Wrote bs b st s0 s -> line_count s = line_count s0.
Proof.
  intros HL [HL' _]. by rewrite (idx_count _ _ (lg_index _ _ _ HL)), (idx_count _ _ (lg_index _ _ _ HL')).
Qed.
End tracking.

Section guards.
Context `{H : Host}.

Lemma require_valid_transition_ok cur tgt allowed err c s u s' :
  require_valid_transition cur tgt allowed err c s = Ok u s' -> cur ∈ allowed /\ s' = s.
Proof.
  unfold require_valid_transition. intros Hr. case_match; [|by minv Hr].
  bsimp. minv Hr. done.
Qed.

Lemma require_admin_auth_ok c s a s' :
  require_admin_auth c s = Ok a s' ->
  admin_of s = Some a /\ (exists h, host_require_auth a (host_state s) = Some h /\ s' = set_host h s).
Proof.
  unfold require_admin_auth, require_admin. intros Hr. apply mbind_ok in Hr as (x & s1 & Hm & Hr).
  mstep Hm. subst. apply or_panic_ok in Hm as [Ha ->]. mstep Hr. apply mret_ok in Hr as [-> ->].
  match goal with Hq : require_auth _ _ _ = _ |- _ => apply require_auth_ok in Hq as (h & ? & ->) end.
  split; [done|]. by exists h.
Qed.
End guards.

(** [track] walks a tracked state through the runs an inversion left behind:
    accrual contributes its description, counters and the writer their lemmas,
    everything else its frame. *)
Ltac track_read :=
  repeat match goal with
  | N : Near _ _ ?b ?s0 ?s, E : line_of ?s ?b = Some _ |- _ => rewrite (nr_line _ _ _ _ _ N) in E
  end.

Ltac track_step :=
  match goal with
  | N : Near _ _ _ _ ?s, Hm : apply_accrual _ ?c ?s = Ok _ ?s' |- _ =>
      let A := fresh "A" in let F := fresh "F" in
      apply apply_accrual_ok in Hm as [A F]; specialize (F K_ledger);
      apply (near_frame _ _ _ _ _ _ N) in F; clear N;
      destruct (accrued_keeps _ _ _ A) as (? & ? & ? & _)
  | Hm : require_valid_transition _ _ _ _ ?c ?s = Ok _ _ |- _ =>
      apply require_valid_transition_ok in Hm as [? ->]
  | N : Near _ 0 ?b ?s0 ?s, Hm : accrue_all_except ?b ?c ?s = Ok _ _ |- _ =>
      eapply (near_accrue_all _ _ _ _ _ _ _ _ N) in Hm; [|assumption|eassumption]; clear N
  | N : Near _ _ _ _ ?s, Hm : persist_credit_line _ _ _ _ _ ?s = Ok _ _ |- _ => fail 1
  | N : Near _ _ _ _ ?s, Hm : increment_pending_auction_count _ ?s = Ok _ _ |- _ =>
      eapply (near_increment _ _ _ _ _ _ _ _ N) in Hm; [|assumption|eassumption]; clear N
  | N : Near _ _ _ _ ?s, Hm : (if _ then decrement_pending_auction_count else _) _ ?s = Ok _ _ |- _ => fail 1
  | N : Near _ _ _ _ ?s, Hm : ?m ?c ?s = Ok _ _ |- _ =>
      framed K_ledger Hm;
      match goal with F : frame K_ledger s _ |- _ => apply (near_frame _ _ _ _ _ _ N) in F end;
      clear N
  | W : Wrote _ _ _ _ ?s, Hm : ?m ?c ?s = Ok _ _ |- _ =>
      framed K_ledger Hm;
      match goal with F : frame K_ledger s _ |- _ => apply (wrote_frame _ _ _ _ _ _ W) in F end;
      clear W
  end.

Ltac track := track_read; repeat (track_step; track_read).

(** Membership in a literal list, case by case. *)
Ltac elems :=
  repeat match goal with
  | E : _ ∈ _ :: _ |- _ => apply elem_of_cons in E as [E|E]
  | E : _ ∈ [] |- _ => by apply elem_of_nil in E
  end.

(** [wrote Hm] uses the run [Hm] of [persist_credit_line] on the tracked state. *)
Ltac wrote Hm :=
  match type of Hm with
  | persist_credit_line _ _ _ _ _ ?s = Ok _ _ =>
      match goal with N : Near _ _ _ _ s |- _ =>
        eapply (near_persist _ _ _ _ _ _ _ _ _ _ _ _ N) in Hm;
        [|assumption|eassumption|try (cbn; congruence)..]; clear N; cbn [cl_status set_status set_suspension_ts set_utilized set_accrued set_limit set_rate set_score set_last_rate_update_ts set_last_accrual_ts] in *
      end
  end.

(** [dec] uses the conditional decrement of the pending counter. *)
Ltac dec :=
  match goal with
  | N : Near _ 0 _ _ ?s, Hm : (if _ then decrement_pending_auction_count else _) _ ?s = Ok _ _ |- _ =>
      eapply (near_decrement_if _ _ _ _ _ _ _ _ _ N) in Hm; [|eassumption|intros; bsimp; try congruence];
      clear N
  end.

Ltac write :=
  match goal with Hm : persist_credit_line _ _ _ _ _ _ = Ok _ _ |- _ => wrote Hm end.

(** [chain] extends a frame from the start over the runs that follow it. *)
Ltac chain :=
  repeat match goal with
  | K : frame ?KK ?s0 ?s, Hm : ?m ?c ?s = Ok _ ?s' |- _ =>
      lazymatch m with
      | set_collateral_balance _ _ => fail
      | set_collateral_balance_for_token _ _ _ => fail
      | _ => idtac
      end;
      framed KK Hm;
      match goal with F : frame KK s s' |- _ =>
        let K' := fresh "K" in assert (frame KK s0 s') as K' by (etrans; [exact K|exact F]);
        clear K F; rename K' into K;
        repeat match goal with
        | E : context [collateral_of s' ?b] |- _ =>
            rewrite (frame_collateral_of KK s0 s' b K eq_refl) in E
        | E : context [pers s' ?k] |- _ => rewrite (frame_pers KK s0 s' k K eq_refl) in E
        end
      end
  end.

Ltac near_inv :=
  match goal with N : Near _ _ _ _ _ |- _ => destruct N as [HL Hc _ Hst _] end.

(** [known_status] replaces the status of the tracked borrower at the start. *)
Ltac known_status :=
  repeat match goal with
  | E : line_of ?s ?b = Some _ |- context [status_of ?s ?b] => rewrite (status_at _ _ _ E)
  end.

(** The counter side condition of [wrote]: compare the two known statuses. *)
Ltac ind_tac :=
  cbn in *; repeat match goal with
  | E : cl_status _ = _ |- _ => progress rewrite ?E
  end; unfold ind; repeat case_decide; simplify_eq; try congruence; try lia.

Lemma try_call_frame `{Host} {A} K (f : host -> option (A * host)) :
  steps (frame K) (Credit.try_call f).
Proof.
  intros c s a s'. unfold Credit.try_call. destruct (f (host_state s)) as [[x h]|].
  - intros [= _ <-]. by apply frame_same_stores.
  - intros [= _ <-]. by apply frame_same_stores.
Qed.

#[export] Hint Resolve try_call_frame : steps.

Section lifecycle.
Context `{H : Host} `{!AuctionClient} `{!Deployer} `{Crypto}.
Abbreviation S' := (State (C := CreditContract)).
Implicit Types (s : S') (bs : list Address).

Lemma suspend_internal_ok bs b st s0 c s u s' :
  suspend_credit_line_internal b st c s = Ok u s' -> Near bs 0 b s0 s -> line_count s0 < u32_max ->
  st = Suspended \/ st = SelfSuspended ->
  status_of s0 b = Some Active /\ Wrote bs b st s0 s'.
Proof.
  intros Hr N Hlt Hst. unfold suspend_credit_line_internal in Hr. minv Hr. track. elems.
  write.
  - track. known_status. split; [congruence|done].
  - destruct Hst as [->| ->]; ind_tac.
Qed.

Lemma previous_line_ok bs b s0 s now c pu ps x y z s' :
  previous_line (line_of s0 b) now c s = Ok (pu, ps, x, y, z) s' -> Near bs 0 b s0 s ->
  Near bs (- ind Defaulted (status_of s0 b)) b s0 s' /\
  pu = util_of s0 b /\ ps = status_of s0 b /\ status_of s0 b <> Some Active.
Proof.
  unfold previous_line, util_of, status_of. intros Hr N. destruct (line_of s0 b) as [old|] eqn:Eo.
  - mstep Hr. bsimp. apply mbind_ok in Hr as ([] & sm & Hdec & Hr).
    eapply (near_decrement_if _ _ _ _ old) in Hdec; [|done|done|by intros; bsimp].
    assert (Near bs (- ind Defaulted (cl_status <$> Some old)) b s0 sm) as N'.
    { unfold ind. cbn. destruct (cl_status old); exact Hdec. }
    mstep Hr; minv Hr; simplify_eq; (split; [exact N'|]); (split; [done|]); (split; [done|]); cbn; congruence.
  - minv Hr. simplify_eq. split; [exact N|done].
Qed.

Lemma open_ok bs b lim rate score c s u s' :
  Credit.open_credit_line b lim rate score c s = Ok u s' -> Ledger bs s -> line_count s < u32_max ->
  status_of s b <> Some Active /\ Wrote (add_borrower b bs) b Active s s'.
Proof.
  intros Hr HL Hlt. apply (near_refl bs b) in HL.
  unfold Credit.open_credit_line, Lifecycle.open_credit_line in Hr.
  apply mbind_ok in Hr as (a & s1 & Hadm & Hr).
  assert (is_Some (admin_of s)) as Ha by (apply require_admin_auth_ok in Hadm as [? _]; eauto).
  minv Hr. track. rename F0 into N.
  rewrite (nr_line _ _ _ _ _ N) in Hm2. eapply previous_line_ok in Hm2 as (N' & -> & -> & Hna); [|done].
  split; [done|]. eapply (near_persist_new _ _ _ _ _ _ _ _ _ _ N') in Hm3; [|done..]. clear N. track. done.
Qed.

Lemma resume_ok bs b s0 s old line c u s' topic :
  resume_line b line (cl_utilized_amount old) (cl_status old) topic c s = Ok u s' ->
  Near bs 0 b s0 s -> line_count s0 < u32_max -> line_of s0 b = Some old ->
  cl_borrower line = cl_borrower old -> cl_status old <> Defaulted ->
  Wrote bs b Active s0 s'.
Proof.
  unfold resume_line. intros Hr N Hlt Hl Hb Hd. minv Hr. wrote Hm; [track; done|].
  unfold ind. rewrite !decide_False by congruence. lia.
Qed.

Lemma unsuspend_ok bs b c s u s' :
  Credit.unsuspend_credit_line b c s = Ok u s' -> Ledger bs s -> line_count s < u32_max ->
  (status_of s b = Some Suspended \/ status_of s b = Some SelfSuspended) /\ Wrote bs b Active s s'.
Proof.
  intros Hr HL Hlt. apply (near_refl bs b) in HL.
  unfold Credit.unsuspend_credit_line, Lifecycle.unsuspend_credit_line in Hr. minv Hr; track.
  - elems; simplify_eq; destruct (cl_status a4); done.
  - match goal with E : cl_status a4 = cl_status a3 |- _ => rewrite E in * end.
    apply negb_false_iff, orb_true_iff in Heqb0 as [E|E]; apply bool_decide_eq_true in E.
    all: known_status; rewrite E; split; [by eauto|].
    all: eapply resume_ok; [exact Hr|eassumption..|congruence].
Qed.

Lemma self_unsuspend_ok bs b c s u s' :
  self_unsuspend_credit_line b c s = Ok u s' -> Ledger bs s -> line_count s < u32_max ->
  status_of s b = Some SelfSuspended /\ Wrote bs b Active s s'.
Proof.
  intros Hr HL Hlt. apply (near_refl bs b) in HL. unfold self_unsuspend_credit_line in Hr.
  minv Hr; track. elems. known_status. split; [congruence|].
  eapply resume_ok; [exact Hr|eassumption..|congruence].
Qed.

Lemma suspend_ok bs b c s u s' :
  Credit.suspend_credit_line b c s = Ok u s' -> Ledger bs s -> line_count s < u32_max ->
  status_of s b = Some Active /\ Wrote bs b Suspended s s'.
Proof.
  intros Hr HL Hlt. apply (near_refl bs b) in HL.
  unfold Credit.suspend_credit_line, Lifecycle.suspend_credit_line in Hr. minv Hr. track.
  eapply suspend_internal_ok; eauto.
Qed.

Lemma self_suspend_ok bs b c s u s' :
  self_suspend_credit_line b c s = Ok u s' -> Ledger bs s -> line_count s < u32_max ->
  status_of s b = Some Active /\ Wrote bs b SelfSuspended s s'.
Proof.
  intros Hr HL Hlt. apply (near_refl bs b) in HL.
  unfold self_suspend_credit_line in Hr. minv Hr. track. eapply suspend_internal_ok; eauto.
Qed.

Lemma close_ok bs b closer s0 c s u s' :
  Lifecycle.close_credit_line b closer c s = Ok u s' -> Near bs 0 b s0 s -> line_count s0 < u32_max ->
  (exists st, status_of s0 b = Some st /\ st <> Closed) /\ Wrote bs b Closed s0 s'.
Proof.
  intros Hr N Hlt. unfold Lifecycle.close_credit_line in Hr. minv Hr. track. dec. write.
  - track. known_status. split; [by eauto|done].
  - destruct (cl_status a2); done.
Qed.

Lemma default_ok bs b c s u s' :
  Credit.default_credit_line b c s = Ok u s' -> Ledger bs s -> line_count s < u32_max ->
  (exists st, status_of s b = Some st /\ st ∈ [Active; Suspended; SelfSuspended; Restricted]) /\
  Wrote bs b Defaulted s s'.
Proof.
  intros Hr HL Hlt. apply (near_refl bs b) in HL.
  unfold Credit.default_credit_line, Lifecycle.default_credit_line in Hr. minv Hr. track. write.
  - track. known_status. split; [|done]. eexists. split; [done|congruence].
  - elems; ind_tac.
Qed.

Lemma reinstate_ok bs b st c s u s' :
  Credit.reinstate_credit_line b st c s = Ok u s' -> Ledger bs s -> line_count s < u32_max ->
  (st = Active \/ st = Restricted) /\ status_of s b = Some Defaulted /\ Wrote bs b st s s'.
Proof.
  intros Hr HL Hlt. apply (near_refl bs b) in HL.
  unfold Credit.reinstate_credit_line, Lifecycle.reinstate_credit_line in Hr. minv Hr; track.
  assert (st = Active \/ st = Restricted) as Hst by (destruct st; cbn in *; tauto || discriminate).
  elems. dec. write.
  - track. known_status. split; [done|]. split; [congruence|done].
  - rewrite bool_decide_eq_true_2 by done. destruct Hst as [->| ->]; ind_tac.
Qed.

(** Operations that keep the status of the line they write. *)
Definition same_status (s s' : S') : Prop := forall b, status_of s' b = status_of s b.

Lemma wrote_same bs b s s' l :
  line_of s b = Some l -> Wrote bs b (cl_status l) s s' -> Ledger bs s' /\ same_status s s'.
Proof.
  intros Hl [H1' H2']. split; [done|]. intros b'. rewrite H2'. case_decide; [|done]. subst.
  symmetry. by apply status_at.
Qed.

Lemma forgive_ok bs b amt c s u s' :
  Credit.forgive_debt b amt c s = Ok u s' -> Ledger bs s -> line_count s < u32_max ->
  Ledger bs s' /\ same_status s s'.
Proof.
  intros Hr HL Hlt. apply (near_refl bs b) in HL.
  unfold Credit.forgive_debt, Lifecycle.forgive_debt in Hr. minv Hr. track. write; [|ind_tac].
  track. eapply wrote_same; [eassumption|]. congruence.
Qed.

Lemma reverse_draw_ok bs b amt ts r c s u s' :
  Credit.reverse_draw b amt ts r c s = Ok u s' -> Ledger bs s -> line_count s < u32_max ->
  Ledger bs s' /\ same_status s s'.
Proof.
  intros Hr HL Hlt. apply (near_refl bs b) in HL.
  unfold Credit.reverse_draw in Hr. minv Hr. track. write; [|ind_tac].
  track. eapply wrote_same; [eassumption|]. congruence.
Qed.

Lemma repay_ok bs b amt c s u s' :
  Credit.repay_credit b amt c s = Ok u s' -> Ledger bs s -> line_count s < u32_max ->
  Ledger bs s' /\ same_status s s'.
Proof.
  intros Hr HL Hlt. apply (near_refl bs b) in HL.
  unfold Credit.repay_credit, Credit.repay_publish, with_reentrancy_guard, Credit.repay_checks, Credit.repaid_line in Hr. minv Hr. simplify_eq. track. write; [|ind_tac].
  track. eapply wrote_same; [eassumption|]. congruence.
Qed.

Lemma draw_exposure_ok bs b s0 s old line pu amt c u s' :
  Credit.draw_exposure_guard b line pu amt c s = Ok u s' -> Near bs 0 b s0 s ->
  line_count s0 < u32_max -> line_of s0 b = Some old -> Near bs 0 b s0 s'.
Proof. unfold Credit.draw_exposure_guard. intros Hr N Hlt Hl. minv Hr; track; done. Qed.

Lemma draw_ok bs b amt c s u s' :
  Credit.draw_credit b amt c s = Ok u s' -> Ledger bs s -> line_count s < u32_max ->
  Ledger bs s' /\ same_status s s'.
Proof.
  intros Hr HL Hlt. apply (near_refl bs b) in HL.
  unfold Credit.draw_credit, Credit.draw_record, with_reentrancy_guard, Credit.draw_checks in Hr. minv Hr. track.
  match goal with Hm : Credit.draw_exposure_guard _ _ _ _ _ _ = Ok _ _, F : Near _ _ _ _ _ |- _ =>
    eapply draw_exposure_ok in Hm; [|eassumption..]; clear F end.
  track. write; [|ind_tac].
  track. eapply wrote_same; [eassumption|]. congruence.
Qed.

Lemma rate_change_guard_ok line rate c s line' s' :
  rate_change_guard line rate c s = Ok line' s' ->
  s' = s /\ cl_borrower line' = cl_borrower line /\ cl_status line' = cl_status line /\
  cl_utilized_amount line' = cl_utilized_amount line.
Proof. unfold rate_change_guard, get_rate_change_limits. intros Hr. minv Hr; done. Qed.

(** The one status change a parameter update can make. *)
Definition limit_edge (o o' : CreditStatus) : Prop :=
  o' = o \/ (o = Active /\ o' = Restricted) \/ (o = Restricted /\ o' = Active).

Lemma limit_status_edge st u l : limit_edge st (limit_status st u l).
Proof. unfold limit_edge, limit_status. case_match; destruct st; tauto. Qed.

Lemma update_risk_ok bs b lim rate score c s u s' :
  Credit.update_risk_parameters b lim rate score c s = Ok u s' -> Ledger bs s ->
  line_count s < u32_max ->
  exists o o', status_of s b = Some o /\ limit_edge o o' /\ Wrote bs b o' s s'.
Proof.
  intros Hr HL Hlt. apply (near_refl bs b) in HL.
  unfold Credit.update_risk_parameters, Risk.update_risk_parameters in Hr. minv Hr.
  match goal with Hm : rate_change_guard _ _ _ _ = Ok _ _ |- _ =>
    apply rate_change_guard_ok in Hm as (-> & Hb & Hst & Hu) end.
  track. write.
  - track. do 2 eexists. split; [by apply status_at|]. split; [|eassumption].
    rewrite Hst. match goal with E : cl_status _ = cl_status _ |- _ => rewrite E end.
    apply limit_status_edge.
  - rewrite Hst. match goal with E : cl_status ?x = cl_status ?y |- context [cl_status ?x] => rewrite E end.
    unfold limit_status. destruct (_ <? _), (cl_status a4); reflexivity.
Qed.

Lemma allocate_recovery_keeps line amt line' r :
  allocate_recovery line amt = Some (line', r) ->
  cl_borrower line' = cl_borrower line /\ cl_status line' = cl_status line.
Proof. unfold allocate_recovery. intros Hr. repeat case_match; simplify_eq; done. Qed.

Lemma settle_ok bs b amt i f p c s u s' :
  Credit.settle_default_liquidation b amt i f p c s = Ok u s' -> Ledger bs s -> line_count s < u32_max ->
  status_of s b = Some Defaulted /\
  exists o', (o' = Defaulted \/ o' = Closed) /\ Wrote bs b o' s s'.
Proof.
  intros Hr HL Hlt. apply (near_refl bs b) in HL.
  unfold Credit.settle_default_liquidation, with_reentrancy_guard, Lifecycle.settle_default_liquidation in Hr.
  minv Hr. match goal with E : allocate_recovery _ _ = _ |- _ =>
    apply allocate_recovery_keeps in E as [Hb Hst] end.
  set (L := if _ =? 0 then set_status _ _ else _) in *.
  assert (cl_borrower L = cl_borrower a13 /\ (cl_status L = Closed \/ cl_status L = Defaulted)) as [HLb HLs]
    by (unfold L; destruct (_ =? 0); cbn; rewrite ?Hb, ?Hst, ?H12; tauto).
  clearbody L. track. dec. write.
  - track. known_status. split; [congruence|]. exists (cl_status L). split; [tauto|done].
  - destruct HLs as [E|E]; rewrite E, H12 in *; match goal with E' : Defaulted = cl_status _ |- _ => rewrite <- E' end; done.
Qed.

(** The closed lines of a batch: every one had a line and is closed afterwards. *)
Lemma close_loop_ok bs l closer c s u s' :
  mfor l (fun b => Lifecycle.close_credit_line b closer) c s = Ok u s' -> Ledger bs s ->
  line_count s < u32_max ->
  Ledger bs s' /\
  forall b, if decide (b ∈ l) then (exists o, status_of s b = Some o /\ o <> Closed) /\
                                   status_of s' b = Some Closed
            else status_of s' b = status_of s b.
Proof.
  revert s. induction l as [|x l IH]; intros s Hr HL Hlt; cbn [mfor] in Hr.
  { apply mret_ok in Hr as [_ ->]. split; [done|]. intros b.
    rewrite decide_False by (by intros ?%elem_of_nil). done. }
  apply mbind_ok in Hr as ([] & s1 & Hx & Hr).
  eapply close_ok in Hx as [Ho W]; [|by apply near_refl|done].
  pose proof (wrote_count _ _ _ _ _ HL W) as Hc. destruct W as [HL1 Hst].
  apply IH in Hr as [HL' Hl]; [|done|by rewrite Hc]. split; [done|].
  intros b. specialize (Hl b). specialize (Hst b). destruct (decide (b = x)) as [->|Hne].
  - rewrite decide_True by (by left). destruct (decide (x ∈ l)).
    + destruct Hl as [(o & Ho' & Hn) _]. congruence.
    + split; [done|]. congruence.
  - destruct (decide (b ∈ l)).
    + rewrite decide_True by (by right). by rewrite <- Hst.
    + rewrite decide_False by (by intros [->|?]%elem_of_cons). congruence.
Qed.

Lemma close_batch_ok bs l c s u s' :
  Credit.close_credit_lines_batch l c s = Ok u s' -> Ledger bs s -> line_count s < u32_max ->
  Ledger bs s' /\
  forall b, if decide (b ∈ l) then (exists o, status_of s b = Some o /\ o <> Closed) /\
                                   status_of s' b = Some Closed
            else status_of s' b = status_of s b.
Proof.
  intros Hr HL Hlt. apply (near_refl bs (mkAddress 0)) in HL.
  unfold Credit.close_credit_lines_batch, Lifecycle.close_credit_lines_batch in Hr. minv Hr. track.
  near_inv.
  eapply close_loop_ok in Hr as [HL' Hl]; [|done|by rewrite Hc]. split; [done|].
  intros b. specialize (Hl b). by rewrite Hst in Hl.
Qed.

Lemma close_call_ok bs b closer c s u s' :
  Credit.close_credit_line b closer c s = Ok u s' -> Ledger bs s -> line_count s < u32_max ->
  (exists st, status_of s b = Some st /\ st <> Closed) /\ Wrote bs b Closed s s'.
Proof.
  intros Hr HL Hlt. apply (near_refl bs b) in HL. unfold Credit.close_credit_line in Hr.
  minv Hr. track. by eapply close_ok.
Qed.

Lemma accrue_batch_call_ok bs l c s u s' :
  Credit.accrue_batch l c s = Ok u s' -> Ledger bs s -> line_count s < u32_max ->
  Ledger bs s' /\ same_status s s'.
Proof.
  intros Hr HL Hlt. apply (near_refl bs (mkAddress 0)) in HL.
  unfold Credit.accrue_batch in Hr. minv Hr. track. near_inv.
  eapply accrue_batch_ok in Hr as [A1 A2 A3 A4]; [|done|by rewrite Hc]. split; [done|].
  intros b. by rewrite A3.
Qed.

Lemma frame_call_ok bs (m : M unit) c s u s' :
  m c s = Ok u s' -> steps (frame K_ledger) m -> Ledger bs s -> Ledger bs s' /\ same_status s s'.
Proof.
  intros Hr Hm HL. apply Hm in Hr. split; [by eapply ledger_frame|].
  intros b. by eapply frame_status.
Qed.

(** Initialisation runs once, when there is no line. *)
Definition K_init (a : area) (k : StorageKey) : bool :=
  match a, k with
  | Inst, KSym sym_admin | Inst, KData (DK.CreditLineCount | DK.TotalUtilized) => false
  | _, _ => K_ledger a k
  end.

Lemma init_ok bs a c s u s' :
  init a c s = Ok u s' -> Ledger bs s -> Ledger bs s' /\ same_status s s'.
Proof.
  intros Hr HL. assert (frame K_init s s') as Hf by (eapply frame_steps; [exact Hr|kframe]).
  assert (line_count s' = 0 /\ total_utilized s' = 0) as [Ec Eu].
  { unfold init, set_schema_version, CreditStorage.set_min_collateral_ratio_bps in Hr. minv Hr.
    repeat match goal with
      Hm : Soroban.iset _ _ _ _ = Ok _ _ |- _ => apply iset_ok in Hm end. subst.
    unfold line_count, total_utilized, inst. sput. done. }
  split; [|intros b; by eapply frame_status].
  unfold init in Hr. mstep Hr. subst. mstep Hr.
  assert (admin_of s = None) as Ha by (unfold admin_of, inst; by case_match).
  assert (bs = []) as ->.
  { destruct bs as [|x bs]; [done|]. destruct (lg_admin _ _ _ HL) as [y Hy]; [done|]. congruence. }
  clear Hr. destruct HL as [[I1 I2 I3 I4 I5] L2 L3 L4 L5 L6 L7 L8 L9].
  assert (forall b, line_of s' b = line_of s b) as El by (intros; by eapply frame_line_of).
  assert (forall b, collateral_of s' b = collateral_of s b) as Ecl
    by (intros; by eapply frame_collateral_of).
  split.
  - split; [done|by rewrite Ec| | |].
    + intros i b. rewrite (frame_borrower_at K_init s s') by done. apply I3.
    + intros b i. rewrite (frame_borrower_at K_init s s'), (frame_id_of K_init s s') by done. apply I4.
    + intros b. rewrite El. apply I5.
  - intros b l. rewrite El. apply L2.
  - by rewrite Eu.
  - by erewrite (frame_active K_init s s').
  - by erewrite (frame_pending K_init s s').
  - by erewrite (frame_total_collateral K_init s s').
  - intros b. rewrite Ecl. apply L7.
  - done.
  - lia.
Qed.

Lemma accept_admin_ok bs c s u s' :
  Credit.accept_admin c s = Ok u s' -> Ledger bs s -> Ledger bs s' /\ same_status s s'.
Proof.
  intros Hr HL.
  assert (frame (fun a k => match a, k with Inst, KSym sym_admin => false | _, _ => K_ledger a k end) s s')
    as Hf by (eapply frame_steps; [exact Hr|kframe]).
  assert (is_Some (admin_of s')) as Ha.
  { unfold Credit.accept_admin in Hr. minv Hr. eexists. 
    transitivity (admin_of s1).
    - transitivity (admin_of s3); [eapply (frame_admin K_ledger); [eapply frame_steps; [exact Hr|kframe]|done]|].
      transitivity (admin_of s2); eapply (frame_admin K_ledger); try done; by eapply frame_iremove.
    - match goal with E : Soroban.iset _ _ _ _ = Ok _ _ |- _ => apply iset_ok in E as -> end.
      unfold admin_of, inst. sput. done. }
  split; [|intros b; by eapply frame_status].
  eapply ledger_rebuild; [|exact HL|..|done].
  - eapply frame_weaken; [|exact Hf]. by intros [] [[]|[]|[]| | |].
  - erewrite (frame_pending _ _ _ Hf) by done. lia.
  - erewrite (frame_total_collateral _ _ _ Hf), (lg_collateral _ _ _ HL) by done.
    apply sum_ext. intros. symmetry. by eapply frame_collateral_of.
  - intros b Hb. erewrite (frame_collateral_of _ _ _ _ Hf) by done. by apply (lg_uncollateral _ _ _ HL).
Qed.

(** ** Collateral *)
Lemma set_collateral_call_ok bs b v c s s0 u s' :
  set_collateral_balance b v c s = Ok u s' -> frame K_ledger s0 s -> Ledger bs s0 ->
  v <> collateral_of s0 b -> Ledger bs s' /\ same_status s0 s' /\ b ∈ bs /\ collateral_of s' b = v.
Proof.
  intros Hr Hf HL Hne. assert (Ledger bs s) as HL1 by (by eapply ledger_frame).
  eapply set_collateral_balance_ok in Hr as (HL' & Hf' & Hb & Hv); [|exact HL1|].
  - split; [done|]. split; [|done]. intros b'.
    rewrite (frame_status (K_coll b) s s'), (frame_status K_ledger s0 s); done.
  - by rewrite (frame_collateral_of K_ledger s0 s).
Qed.


(** The collateral calls: frames up to the balance write, and after it. *)
Lemma set_collateral_run_ok bs b v c s0 s u s1 s' :
  frame K_ledger s0 s -> set_collateral_balance b v c s = Ok u s1 -> frame K_ledger s1 s' ->
  Ledger bs s0 -> v <> collateral_of s0 b ->
  Ledger bs s' /\ same_status s0 s' /\ b ∈ bs /\ collateral_of s' b = v.
Proof.
  intros Hf Hr Hf' HL Hne. eapply set_collateral_call_ok in Hr as (HL' & Hs & Hb & Hv); [|eassumption..].
  split; [by eapply ledger_frame|]. split; [|split; [done|]].
  - intros b'. by rewrite (frame_status K_ledger s1 s').
  - by rewrite (frame_collateral_of K_ledger s1 s').
Qed.

Ltac collateral_run :=
  match goal with
  | K : frame K_ledger ?s0 ?s, Hm : set_collateral_balance _ _ ?c ?s = Ok _ ?s1 |- _ =>
      let K' := fresh "K" in let Ks := fresh "K" in
      assert (frame K_ledger s1 s1) as K' by done; rename K into Ks;
      chain; eapply set_collateral_run_ok; [exact Ks|exact Hm|eassumption|eassumption|]
  end.

Lemma deposit_ok bs b amt c s u s' :
  deposit_collateral b amt c s = Ok u s' -> Ledger bs s ->
  Ledger bs s' /\ same_status s s' /\ b ∈ bs /\ collateral_of s' b = collateral_of s b + amt.
Proof.
  intros Hr HL. assert (frame K_ledger s s) as K by done. unfold deposit_collateral in Hr. minv Hr.
  chain. chk. subst.
  collateral_run. lia.
Qed.

Lemma withdraw_ok bs b amt c s u s' :
  withdraw_collateral b amt c s = Ok u s' -> Ledger bs s ->
  Ledger bs s' /\ same_status s s' /\ b ∈ bs /\ collateral_of s' b = collateral_of s b - amt.
Proof.
  intros Hr HL. assert (frame K_ledger s s) as K by done. unfold withdraw_collateral in Hr. minv Hr.
  chain. chk. subst. collateral_run. lia.
Qed.

Lemma partial_release_ok bs b amt c s u s' :
  partial_release_collateral b amt c s = Ok u s' -> Ledger bs s ->
  Ledger bs s' /\ same_status s s' /\ b ∈ bs /\ collateral_of s' b = collateral_of s b - amt.
Proof.
  intros Hr HL. assert (frame K_ledger s s) as K by done. unfold partial_release_collateral in Hr. minv Hr.
  all: chain; chk; subst; collateral_run; lia.
Qed.

(** The second ledger's keys, which the invariant does not read. *)
Definition K_v2 (a : area) (k : StorageKey) : bool :=
  match a, k with Pers, KData (DK.CollateralBalanceV2 _ _) => true | _, _ => K_ledger a k end.

Lemma v2_write_fails bs b t v c s s0 u s' :
  frame K_v2 s0 s -> Ledger bs s0 -> v <> unwrap_or (pers s0 (DK.CollateralBalanceV2 b t)) 0 ->
  set_collateral_balance_for_token b t v c s <> Ok u s'.
Proof.
  intros Hf HL Hne. eapply set_collateral_balance_for_token_fails.
  - eapply ledger_frame; [|exact HL]. eapply frame_weaken; [|exact Hf]. by intros [] [[]|[]|[]| | |].
  - by rewrite (frame_pers K_v2 s0 s).
Qed.

Lemma deposit_token_fails bs b t amt c s u s' :
  Ledger bs s -> deposit_collateral_token b t amt c s <> Ok u s'.
Proof.
  intros HL Hr. assert (frame K_v2 s s) as K by done.
  unfold deposit_collateral_token, get_collateral_balance_for_token in Hr.
  minv Hr. chain. chk. subst. eapply v2_write_fails; [exact K|exact HL| |eassumption]. lia.
Qed.

Lemma withdraw_token_fails bs b t amt c s u s' :
  Ledger bs s -> withdraw_collateral_token b t amt c s <> Ok u s'.
Proof.
  intros HL Hr. assert (frame K_v2 s s) as K by done.
  unfold withdraw_collateral_token, get_collateral_balance_for_token in Hr.
  minv Hr. chain. chk. subst. eapply v2_write_fails; [exact K|exact HL| |eassumption].
  lia.
Qed.
End lifecycle.
