(* ===== verification/Scenario.v ===== *)
(** * A concrete environment

    Instances of the parameters (a token ledger with signatures, an auction
    contract, a deployer, a toy digest) and a small history of the credit
    contract, on which the witnesses of the theorems are evaluated. *)
From S2P Require Import Prelude Soroban CreditTypes CreditEvents CreditStorage CreditState Accrual Collateral Fees Freeze Oracles Scoring Risk Lifecycle Views CreditContract CreditCalls.

(** Signatures of the transaction, the addresses already authorised in it, and
    token balances by (token, holder). *)
Record Bank := mkBank {
  signers : list Address;
  used : list Address;
  balances : list (Address * Address * Z);
}.

Definition bank_balance (l : list (Address * Address * Z)) (token who : Address) : Z :=
  sumZ (map (fun '(t, a, v) => if decide (t = token /\ a = who) then v else 0) l).

(** An address signs once per invocation; authorising it again fails. *)
Definition bank_auth (a : Address) (h : Bank) : option Bank :=
  if decide (a ∈ signers h /\ a ∉ used h) then Some (mkBank (signers h) (a :: used h) (balances h))
  else None.

Definition bank_transfer (token from to : Address) (amount : Z) (h : Bank) : option Bank :=
  if (0 <=? amount) && (amount <=? bank_balance (balances h) token from)
  then Some (mkBank (signers h) (used h) ((token, from, - amount) :: (token, to, amount) :: balances h))
  else None.

(** The instances stay inside a module, so that importing this file does not fix
    the parameters of the theorems. *)
Module Concrete.
#[export] Instance bank_host : Host := {|
  host := Bank;
  host_require_auth := bank_auth;
  token_balance token who h := Some (bank_balance (balances h) token who);
  token_decimals _ _ := Some 7;
  token_transfer _ token from to amount h := bank_transfer token from to amount h;
  token_transfer_from _ token _ from to amount h := bank_transfer token from to amount h;
|}.

#[export] Instance bank_auction : AuctionClient := {|
  try_get_version _ h := Some (mkVersion 1 0, h);
  try_settle_default_liquidation _ _ _ _ h := Some (500, h);
|}.

#[export] Instance bank_deployer : Deployer := {| update_current_contract_wasm _ h := Some h |}.

(** A digest of the right length; no theorem needs more of it. *)
#[export] Instance toy_crypto : Crypto := {| sha256 l := replicate 32 (sumZ l mod 256) |}.
End Concrete.
Import Concrete.

(** ** Running a call and keeping the state *)
Abbreviation St := (State (C := CreditContract)).

Definition succeeds (call : Call) (c : Ctx) (s : St) : bool :=
  match run call c s with Ok _ _ => true | Fail _ => false end.

Definition after (call : Call) (c : Ctx) (s : St) : St :=
  match run call c s with Ok _ s' => s' | Fail _ => s end.

Lemma run_after call c s : succeeds call c s = true -> run call c s = Ok tt (after call c s).
Proof. unfold succeeds, after. destruct (run call c s) as [[] s'|f]; [done|done]. Qed.

(** ** The history *)
Definition self : Address := mkAddress 1.
Definition admin : Address := mkAddress 2.
Definition alice : Address := mkAddress 3.
Definition token : Address := mkAddress 4.
Definition reserve : Address := mkAddress 5.

Definition at_time (t : Z) : Ctx := mkCtx t 1 self.

Definition signed_by (l : list Address) (s : St) : St :=
  set_host (mkBank l [] (balances (host_state s))) s.

Definition genesis : St :=
  mkState store_empty store_empty
    (mkBank [] [] [(token, reserve, 1000000); (token, alice, 1000000)]) [].

Definition step (who : Address) (call : Call) (t : Z) (s : St) : St :=
  after call (at_time t) (signed_by [who] s).

(** Configured, with alice's line open and collateral deposited. *)
Definition configured : St :=
  step admin (CSetLiquiditySource reserve) 100
  (step admin (CSetLiquidityToken token) 100
  (step admin (CInit admin) 100 genesis)).

Definition opened : St := step admin (COpenCreditLine alice 100000 1000 50) 100 configured.

Definition secured : St := step alice (CDepositCollateral alice 150000) 100 opened.

Definition drawn : St := step alice (CDrawCredit alice 50000) 200 secured.
