(* ===== verification/CreditTheorems.v ===== *)
(** * The credit contract as a whole

    The status graph as a specification, its refinement by every entrypoint, and
    the ledger invariant along every sequence of invocations. *)
From S2P Require Import Prelude MathUtils Soroban CreditTypes CreditEvents CreditStorage CreditState Accrual Collateral Fees Freeze Oracles Scoring Risk Lifecycle Views CreditContract CreditCalls CreditLedger CreditMoves CreditInvariant Scenario.

(** ** The specification: which call may move which line where *)
Definition own (b b' : Address) (P : Prop) (o o' : option CreditStatus) : Prop :=
  if decide (b' = b) then P else o' = o.

Definition status_step (call : Call) (b : Address) (o o' : option CreditStatus) : Prop :=
  match call with
  | COpenCreditLine x _ _ _ => own x b (o <> Some Active /\ o' = Some Active) o o'
  | CUpdateRiskParameters x _ _ _ =>
      own x b (exists st st', o = Some st /\ o' = Some st' /\ limit_edge st st') o o'
  | CSuspendCreditLine x => own x b (o = Some Active /\ o' = Some Suspended) o o'
  | CSelfSuspendCreditLine x => own x b (o = Some Active /\ o' = Some SelfSuspended) o o'
  | CUnsuspendCreditLine x =>
      own x b ((o = Some Suspended \/ o = Some SelfSuspended) /\ o' = Some Active) o o'
  | CSelfUnsuspendCreditLine x => own x b (o = Some SelfSuspended /\ o' = Some Active) o o'
  | CCloseCreditLine x _ =>
      own x b ((exists st, o = Some st /\ st <> Closed) /\ o' = Some Closed) o o'
  | CCloseCreditLinesBatch l =>
      if decide (b ∈ l) then (exists st, o = Some st /\ st <> Closed) /\ o' = Some Closed else o' = o
  | CDefaultCreditLine x =>
      own x b ((exists st, o = Some st /\ st ∈ [Active; Suspended; SelfSuspended; Restricted]) /\
               o' = Some Defaulted) o o'
  | CReinstateCreditLine x t =>
      own x b ((t = Active \/ t = Restricted) /\ o = Some Defaulted /\ o' = Some t) o o'
  | CSettleDefaultLiquidation x _ _ _ _ =>
      own x b (o = Some Defaulted /\ (o' = Some Defaulted \/ o' = Some Closed)) o o'
  | _ => o' = o
  end.

(** The index after a call: only an opening can add a borrower. *)
Definition next_index (call : Call) (bs : list Address) : list Address :=
  match call with COpenCreditLine b _ _ _ => add_borrower b bs | _ => bs end.

(** The calls that write no key of the ledger invariant. *)
Definition quiet (call : Call) : bool :=
  match call with
  | CInit _ | CAcceptAdmin | COpenCreditLine _ _ _ _ | CDrawCredit _ _ | CRepayCredit _ _
  | CUpdateRiskParameters _ _ _ _ | CDepositCollateral _ _ | CWithdrawCollateral _ _
  | CPartialReleaseCollateral _ _ | CDepositCollateralToken _ _ _ | CWithdrawCollateralToken _ _ _
  | CSuspendCreditLine _ | CSelfSuspendCreditLine _ | CUnsuspendCreditLine _
  | CSelfUnsuspendCreditLine _ | CCloseCreditLine _ _ | CCloseCreditLinesBatch _
  | CDefaultCreditLine _ | CReinstateCreditLine _ _ | CForgiveDebt _ _
  | CSettleDefaultLiquidation _ _ _ _ _ | CAccrueBatch _ | CReverseDraw _ _ _ _ => false
  | _ => true
  end.

Section run.
Context `{H : Host} `{!AuctionClient} `{!Deployer} `{Crypto}.
Abbreviation S' := (State (C := CreditContract)).
Implicit Types (s : S') (bs : list Address).

Lemma quiet_frame call : quiet call = true -> steps (frame K_ledger) (run call).
Proof. destruct call; try done; intros _; cbn [run]; kframe. Qed.

Lemma wrote_step bs b st s s' (P : option CreditStatus -> option CreditStatus -> Prop) :
  Wrote bs b st s s' -> P (status_of s b) (Some st) ->
  forall b', own b b' (P (status_of s b') (status_of s' b')) (status_of s b') (status_of s' b').
Proof. intros [_ W] HP b'. unfold own. rewrite W. case_decide; [by subst|done]. Qed.

(** [step W] settles the statuses after the write [W]. *)
Ltac step W :=
  let b' := fresh "b'" in intros b';
  match goal with |- own ?b _ ?P (status_of ?s _) (status_of ?s' _) =>
    let P' := eval pattern (status_of s b'), (status_of s' b') in P in
    lazymatch P' with ?Q _ _ => apply (wrote_step _ _ _ _ _ Q W) end
  end.

Lemma run_moves call bs c s u s' :
  run call c s = Ok u s' -> Ledger bs s -> line_count s < u32_max ->
  Ledger (next_index call bs) s' /\
  forall b, status_step call b (status_of s b) (status_of s' b).
Proof.
  intros Hr HL Hlt. destruct (quiet call) eqn:Hq.
  { destruct (frame_call_ok bs _ _ _ _ _ Hr (quiet_frame _ Hq) HL) as [HL' Hs].
    destruct call; try discriminate Hq; (split; [exact HL'|exact Hs]). }
  destruct call; try discriminate Hq; clear Hq; cbn [run next_index status_step] in *.
  - by eapply init_ok.
  - by eapply accept_admin_ok.
  - apply (open_ok bs) in Hr as [Hna W]; [|done..]. split; [apply W|]. by step W.
  - by eapply draw_ok.
  - by eapply repay_ok.
  - apply (update_risk_ok bs) in Hr as (o & o' & Ho & He & W); [|done..]. split; [apply W|].
    step W. by exists o, o'.
  - apply (deposit_ok bs) in Hr as (HL' & Hs & _); done.
  - apply (withdraw_ok bs) in Hr as (HL' & Hs & _); done.
  - apply (partial_release_ok bs) in Hr as (HL' & Hs & _); done.
  - by apply (deposit_token_fails bs) in Hr.
  - by apply (withdraw_token_fails bs) in Hr.
  - apply (suspend_ok bs) in Hr as [Ho W]; [|done..]. split; [apply W|]. by step W.
  - apply (self_suspend_ok bs) in Hr as [Ho W]; [|done..]. split; [apply W|]. by step W.
  - apply (unsuspend_ok bs) in Hr as [Ho W]; [|done..]. split; [apply W|]. by step W.
  - apply (self_unsuspend_ok bs) in Hr as [Ho W]; [|done..]. split; [apply W|]. by step W.
  - apply (close_call_ok bs) in Hr as [Ho W]; [|done..]. split; [apply W|]. by step W.
  - by apply (close_batch_ok bs) in Hr.
  - apply (default_ok bs) in Hr as [Ho W]; [|done..]. split; [apply W|]. by step W.
  - apply (reinstate_ok bs) in Hr as (Ht & Ho & W); [|done..]. split; [apply W|]. by step W.
  - by eapply forgive_ok.
  - apply (settle_ok bs) in Hr as (Ho & o' & Ho' & W); [|done..]. split; [apply W|].
    step W. split; [done|]. destruct Ho' as [->| ->]; tauto.
  - by eapply accrue_batch_call_ok.
  - by eapply reverse_draw_ok.
Qed.

(** ** Histories: any number of successful invocations, with any host in between *)
Inductive reachable : nat -> S' -> Prop :=
| reach_start h ev : reachable 0 (mkState store_empty store_empty h ev)
| reach_call n s h call c u s' :
    reachable n s -> run call c (set_host h s) = Ok u s' -> reachable (S n) s'.

Lemma ledger_start h ev : Ledger [] (mkState store_empty store_empty h ev).
Proof.
  split; try done.
  - split; try done.
    + constructor.
    + intros i b. unfold borrower_at, pers. cbn. split; [discriminate|]. by intros [_ ?].
    + by intros b [? ?].
Qed.

Lemma ledger_set_host bs s h : Ledger bs s -> Ledger bs (set_host h s).
Proof. intros HL. eapply ledger_frame; [|exact HL]. by apply frame_same_stores. Qed.

Lemma length_next_index call bs : (length (next_index call bs) <= S (length bs))%nat.
Proof. destruct call; cbn; try lia. apply length_add_borrower. Qed.

Lemma reachable_ledger n s :
  reachable n s -> Z.of_nat n <= u32_max -> exists bs, Ledger bs s /\ (length bs <= n)%nat.
Proof.
  induction 1 as [h ev|n s h call c u s' _ IH Hr]; intros Hn.
  - exists []. split; [apply ledger_start|done].
  - destruct IH as (bs & HL & Hlen); [lia|]. apply (run_moves call bs) in Hr as [HL' _].
    + exists (next_index call bs). split; [done|]. pose proof (length_next_index call bs). lia.
    + by apply ledger_set_host.
    + rewrite (idx_count _ _ (lg_index _ _ _ (ledger_set_host _ _ h HL))). lia.
Qed.
End run.

(** C2. After any history of fewer than 2^32 successful invocations, of any
    entrypoints in any order with any hosts, the books balance: the line ids
    enumerate exactly the borrowers with a line, and the four stored aggregates
    (total utilised, active lines, open auctions, total collateral) are the sums
    over them. *)
Theorem ledger_invariant `{H : Host} `{!AuctionClient} `{!Deployer} `{Crypto} n s :
  reachable n s -> Z.of_nat n <= u32_max -> exists bs, Ledger bs s.
Proof. intros Hr Hn. destruct (reachable_ledger n s Hr Hn) as (bs & HL & _). by exists bs. Qed.


(** ** The history of the scenario *)
Import Concrete.

Lemma reachable_step n who call t s :
  reachable n s -> succeeds call (at_time t) (signed_by [who] s) = true ->
  reachable (S n) (step who call t s).
Proof. intros Hr Hs. eapply reach_call; [exact Hr|]. by apply run_after. Qed.

Lemma reachable_drawn : reachable 6 drawn.
Proof.
  repeat (apply reachable_step; [|vm_compute; reflexivity]). apply reach_start.
Qed.

(** C2 on a history with an opening, a deposit and a draw. *)
Lemma ledger_invariant_witness : reachable 6 drawn /\ exists bs, Ledger bs drawn.
Proof. split; [exact reachable_drawn|]. apply (ledger_invariant 6 drawn reachable_drawn). vm_compute. discriminate. Defined.

