(* ===== verification/CreditSafety.v ===== *)
(** * Authorisation, pause, reentrancy and replay

    Who must sign each call, which calls the pause stops, that the reentrancy
    guard is always released, and that a settlement id is used once. *)
From S2P Require Import Prelude MathUtils Soroban CreditTypes CreditEvents CreditStorage CreditState Accrual Collateral Fees Freeze Oracles Scoring Risk Lifecycle Views CreditContract CreditCalls CreditLedger CreditMoves CreditInvariant Scenario CreditTheorems.

(** ** What a call needs of the state it starts in

    [needs P m]: every successful run of [m] started in a state satisfying [P].
    A prefix that keeps the host and the keys [P] reads can be skipped. *)
Section needs.
Context `{H : Host}.
Abbreviation S' := (State (C := CreditContract)).

Definition needs {A} (P : S' -> Prop) (m : M A) : Prop :=
  forall c s a s', m c s = Ok a s' -> P s.

(** The keys the guards read, and the host. *)
Definition K_guard (a : area) (k : StorageKey) : bool :=
  match a, k with
  | Inst, KSym (sym_admin | sym_paused | sym_proposed_admin) => true
  | _, _ => false
  end.

Definition same_guards (s s' : S') : Prop :=
  host_state s' = host_state s /\ frame K_guard s s'.

#[export] Instance same_guards_preorder : PreOrder same_guards.
Proof.
  split; [by intros s|]. intros s1 s2 s3 [H1 F1] [H2 F2]. split; [congruence|]. by etrans.
Qed.

Definition guarded (P : S' -> Prop) : Prop := forall s s', same_guards s s' -> P s' -> P s.

Lemma needs_l {A B} P (m : M A) (k : A -> M B) : needs P m -> needs P (mbind m k).
Proof. intros Hm c s a s' (x & s1 & H1 & _)%mbind_ok. by eapply Hm. Qed.

Lemma needs_r {A B} P (m : M A) (k : A -> M B) :
  guarded P -> steps same_guards m -> (forall x, needs P (k x)) -> needs P (mbind m k).
Proof.
  intros HP Hm Hk c s a s' (x & s1 & H1 & H2)%mbind_ok.
  eapply HP; [by eapply Hm|]. by eapply Hk.
Qed.

Lemma same_guards_frame {A} (m : M A) :
  steps (frame K_guard) m -> (forall c s a s', m c s = Ok a s' -> host_state s' = host_state s) ->
  steps same_guards m.
Proof. intros Hf Hh c s a s' Hr. split; [by eapply Hh|by eapply Hf]. Qed.

Lemma same_guards_iset k v : K_guard Inst k = false -> steps same_guards (Soroban.iset (C := CreditContract) k v).
Proof. intros Hk. apply same_guards_frame; [by apply steps_iset|]. by intros c s u s' ->%iset_ok. Qed.

Lemma same_guards_pset k v : steps same_guards (Soroban.pset (C := CreditContract) k v).
Proof. apply same_guards_frame; [by apply steps_pset|]. by intros c s u s' ->%pset_ok. Qed.

Lemma same_guards_iremove k : K_guard Inst k = false -> steps same_guards (Soroban.iremove (C := CreditContract) k).
Proof. intros Hk. apply same_guards_frame; [by apply steps_iremove|]. by intros c s u s' ->%iremove_ok. Qed.

Lemma same_guards_premove k : steps same_guards (Soroban.premove (C := CreditContract) k).
Proof. apply same_guards_frame; [by apply steps_premove|]. by intros c s u s' ->%premove_ok. Qed.

Lemma same_guards_publish e : steps same_guards (publish (C := CreditContract) e).
Proof. apply same_guards_frame; [by apply steps_publish|]. by intros c s u s' ->%publish_ok. Qed.

(** ** The three guards *)
Definition admin_signs (s : S') : Prop :=
  exists a, admin_of s = Some a /\ is_Some (host_require_auth a (host_state s)).

Definition signs (a : Address) (s : S') : Prop := is_Some (host_require_auth a (host_state s)).

Definition proposed_signs (s : S') : Prop :=
  exists a, inst s sym_proposed_admin = Some a /\ is_Some (host_require_auth a (host_state s)).

Definition not_paused (s : S') : Prop := paused s = false.

Lemma guarded_admin_signs : guarded admin_signs.
Proof.
  intros s s' [Hh Hf] (a & Ha & Hs). exists a. rewrite Hh in Hs.
  by rewrite <- (frame_admin K_guard s s').
Qed.

Lemma guarded_signs a : guarded (signs a).
Proof. intros s s' [Hh Hf] Hs. unfold signs in *. by rewrite Hh in Hs. Qed.

Lemma guarded_not_paused : guarded not_paused.
Proof.
  intros s s' [Hh Hf] Hs. unfold not_paused, paused in *. by rewrite <- (frame_inst K_guard s s').
Qed.

Lemma needs_require_admin_auth : needs admin_signs require_admin_auth.
Proof. intros c s a s' (Ha & h & Hh & _)%require_admin_auth_ok. exists a. split; [done|by exists h]. Qed.

Lemma needs_require_admin_auth_with_argument a :
  needs admin_signs (require_admin_auth_with_argument a).
Proof.
  unfold require_admin_auth_with_argument, require_admin. intros c s x s' Hr. minv Hr.
  match goal with Hq : require_auth _ _ _ = _ |- _ => apply require_auth_ok in Hq as (h & ? & ->) end.
  eexists. split; [eassumption|by exists h].
Qed.

Lemma needs_require_auth a : needs (signs a) (require_auth a).
Proof. intros c s x s' (h & Hh & _)%require_auth_ok. by exists h. Qed.

Lemma needs_assert_not_paused : needs not_paused assert_not_paused.
Proof. unfold assert_not_paused. intros c s x s' Hr. minv Hr. done. Qed.
End needs.

Create HintDb needs.

#[export] Hint Resolve guarded_admin_signs guarded_signs guarded_not_paused
  needs_require_admin_auth needs_require_admin_auth_with_argument needs_require_auth
  needs_assert_not_paused : needs.

(** [guards_tac] proves [steps same_guards m] like [kframe]; [needs_tac] finds the guard. *)
Ltac guards_tac :=
  cbv zeta;
  lazymatch goal with
  | |- steps _ (mbind _ _) => apply steps_bind; [apply _|guards_tac|intros ?; guards_tac]
  | |- steps _ (mfor _ _) => apply steps_mfor; [apply _|intros ?; guards_tac]
  | |- steps _ (mfold _ _ _) => apply steps_mfold; [apply _|intros ? ?; guards_tac]
  | |- steps _ (if ?b then _ else _) => destruct b; guards_tac
  | |- steps _ (match ?x with _ => _ end) => destruct x; guards_tac
  | |- steps _ (mret _) => apply steps_ret; apply _
  | |- steps _ (panic_if _ _) => apply steps_panic_if; apply _
  | |- steps _ (massert _ _) => apply steps_massert; apply _
  | |- steps _ (or_panic _ _) => apply steps_or_panic; apply _
  | |- steps _ (arith _) => apply steps_arith; apply _
  | |- steps _ (unwrap _ _) => apply steps_unwrap; apply _
  | |- steps _ (mfail _) => apply steps_mfail
  | |- steps _ (host_read _ _) => apply steps_host_read; apply _
  | |- steps _ (panic_with_error _) => apply steps_panic_with_error
  | |- steps _ (panic _) => apply steps_panic
  | |- steps _ (Soroban.pextend_ttl _) => apply steps_pextend; apply _
  | |- steps _ (publish _) => apply same_guards_publish
  | |- @steps ?C0 _ _ ?R (Soroban.iget ?k) => exact (@steps_iget C0 _ R _ k)
  | |- @steps ?C0 _ _ ?R (Soroban.pget ?k) => exact (@steps_pget C0 _ R _ k)
  | |- steps _ (Soroban.iset _ _) => apply same_guards_iset; reflexivity
  | |- steps _ (Soroban.pset _ _) => apply same_guards_pset
  | |- steps _ (Soroban.iremove _) => apply same_guards_iremove; reflexivity
  | |- steps _ (Soroban.premove _) => apply same_guards_premove
  | |- steps _ (host_call _ _) => fail
  | |- steps _ ?m =>
      first [ eapply steps_reads; apply _ | let h := head m in unfold h; guards_tac ]
  end.

Ltac needs_tac :=
  cbv zeta;
  first
  [ solve [eauto 2 with needs]
  | lazymatch goal with
    | |- needs _ (mbind _ _) =>
        first [ apply needs_l; solve [needs_tac]
              | apply needs_r; [solve [eauto 2 with needs]|guards_tac|intros ?; needs_tac] ]
    | |- needs _ ?m => let h := head m in unfold h; needs_tac
    end ].

(** ** Who signs *)
Inductive Authority := AdminOnly | Party (a : Address) | ProposedAdmin | Anyone.

Definition authority (call : Call) : Authority :=
  match call with
  | CInit _ | CVerifyAttestationProof _ _ _ | CAccrueBatch _ => Anyone
  | CAcceptAdmin => ProposedAdmin
  | CDrawCredit b _ | CRepayCredit b _ | CDepositCollateral b _ | CWithdrawCollateral b _
  | CPartialReleaseCollateral b _ | CDepositCollateralToken b _ _ | CWithdrawCollateralToken b _ _
  | CSelfSuspendCreditLine b | CSelfUnsuspendCreditLine b => Party b
  | CCloseCreditLine _ closer => Party closer
  | CReportValue o _ => Party o
  | _ => AdminOnly
  end.

Definition authorised `{Host} (auth : Authority) (s : State (C := CreditContract)) : Prop :=
  match auth with
  | AdminOnly => admin_signs s
  | Party a => signs a s
  | ProposedAdmin => proposed_signs s
  | Anyone => True
  end.

Section auth.
Context `{H : Host} `{!AuctionClient} `{!Deployer} `{Crypto}.

Lemma accept_admin_signs : needs proposed_signs Credit.accept_admin.
Proof.
  intros c s u s' Hr. unfold Credit.accept_admin in Hr. minv Hr.
  match goal with Hq : require_auth _ _ _ = _ |- _ => apply require_auth_ok in Hq as (h & ? & _) end.
  eexists. split; [eassumption|by exists h].
Qed.

Lemma run_needs call : needs (authorised (authority call)) (run call).
Proof.
  destruct call; cbn [authority run];
    try (by intros ? ? ? ? ?); try apply accept_admin_signs;
    match goal with
    | |- needs (authorised (Party ?a)) _ => change (authorised (Party a)) with (signs a)
    | |- needs (authorised AdminOnly) _ => change (authorised AdminOnly) with admin_signs
    end; needs_tac.
Qed.

(** C9. No entrypoint succeeds without the signature of the party it acts for:
    the stored admin for every administrative call, the borrower, the closer or
    the oracle for theirs, the proposed admin for the acceptance; only
    initialisation, accrual batches and proof checking are open to anyone. *)
Theorem calls_are_authorised call c s u s' :
  run call c s = Ok u s' -> authorised (authority call) s.
Proof. intros Hr. exact (run_needs call c s u s' Hr). Qed.

(** ** Pause *)
Definition stopped_by_pause (call : Call) : bool :=
  match call with
  | CCommitAttestationBatch _ _ _ | CClearAttestationBatch _ | COpenCreditLine _ _ _ _
  | CDrawCredit _ _ | CUpdateRiskParameters _ _ _ _ | CSetRateChangeLimits _ _
  | CSetPenaltySurchargeBps _ | CSetRiskAdminCooldown _ | CCommitVrfOutput _ _
  | CClearVrfCommitment _ | CSetBorrowerLiqGrace _ _ | CSetRepaymentSchedule _ _ _ _
  | CSetLateFeeFlat _ | CSetMaxDrawAmount _ | CSetMaxRepayAmount _ | CSetDrawMinInterval _
  | CSetBorrowAdminCooldown _ | CSetAccrualAdminCooldown _ | CSetCollateralRiskWeight _ _
  | CSetMinCollateralRatioBps _ | CSetColAdminCooldownSecs _ | CSetCollateralTokenAllowlist _
  | CSetCreditLimitBounds _ _ | CSuspendCreditLine _ | CSelfSuspendCreditLine _
  | CUnsuspendCreditLine _ | CSelfUnsuspendCreditLine _ | CCloseCreditLine _ _
  | CCloseCreditLinesBatch _ | CDefaultCreditLine _ | CReinstateCreditLine _ _ | CForgiveDebt _ _
  | CSetAuctionContract _ | CSetOracleConfig _ _ | CSetOracleQuorumConfig _ _ _
  | CSubmitOraclePrices _ | CAccrueBatch _ | CSetRateFormulaConfig _ _ _ _ | CReverseDraw _ _ _ _
  | CUpgrade _ => true
  | _ => false
  end.

Definition K_pause (a : area) (k : StorageKey) : bool :=
  match a, k with Inst, KSym sym_paused => true | _, _ => false end.

(** The keys are enough for some guards, whatever the prefix does to the host. *)
Lemma needs_frame_r {A B} K P (m : M A) (k : A -> M B) :
  (forall s s', frame K s s' -> P s' -> P s) ->
  steps (frame K) m -> (forall x, needs P (k x)) -> needs P (mbind m k).
Proof.
  intros HP Hm Hk c s a s' (x & s1 & H1' & H2')%mbind_ok. eapply HP; [by eapply Hm|by eapply Hk].
Qed.

Lemma pause_frame s s' : frame K_pause s s' -> not_paused s' -> not_paused s.
Proof. intros Hf Hp. unfold not_paused, paused in *. by rewrite (frame_inst K_pause s s' _ Hf) in Hp. Qed.

Definition K_re (a : area) (k : StorageKey) : bool :=
  match a, k with Inst, KSym sym_reentrancy => true | _, _ => false end.

Definition unlocked (s : State (C := CreditContract)) : Prop := inst s sym_reentrancy <> Some true.

Lemma re_frame s s' : frame K_re s s' -> unlocked s' -> unlocked s.
Proof. intros Hf Hp. unfold unlocked in *. by rewrite (frame_inst K_re s s' _ Hf) in Hp. Qed.

Lemma set_guard_unlocked : needs unlocked set_reentrancy_guard.
Proof.
  unfold set_reentrancy_guard. intros c s u s' Hr. mstep Hr. subst. mstep Hr. unfold unlocked, inst.
  intros E. rewrite E in *. done.
Qed.

Lemma with_reentrancy_guard_ok {A} (body : M A) c s a s' :
  with_reentrancy_guard body c s = Ok a s' -> inst s' sym_reentrancy = Some false.
Proof.
  unfold with_reentrancy_guard, clear_reentrancy_guard. intros Hr.
  apply mbind_ok in Hr as (x & s1 & _ & Hr). apply mbind_ok in Hr as (y & s2 & _ & Hr).
  apply mbind_ok in Hr as (z & s3 & Hset & Hr). apply mret_ok in Hr as [_ ->].
  apply iset_ok in Hset as ->. unfold inst. by sput.
Qed.
End auth.

(** [guard_tac fr gd]: find the guard [gd] behind prefixes framed by [fr]. *)
Ltac guard_tac fr gd :=
  cbv zeta;
  first
  [ exact gd
  | lazymatch goal with
    | |- needs _ (mbind _ _) =>
        first [ apply needs_l; solve [guard_tac fr gd]
              | eapply needs_frame_r; [exact fr|kframe|intros ?; guard_tac fr gd] ]
    | |- needs _ (if ?b then _ else _) => destruct b; guard_tac fr gd
    | |- needs _ ?m => let h := head m in unfold h; guard_tac fr gd
    end ].

Section pause.
Context `{H : Host} `{!AuctionClient} `{!Deployer} `{Crypto}.

(** C10. While the protocol is paused, no opening, draw, risk update, status
    transition, debt forgiveness, accrual batch, draw reversal, upgrade or
    configuration call of the pause list succeeds. *)
Theorem pause_stops call c s u s' :
  stopped_by_pause call = true -> run call c s = Ok u s' -> paused s = false.
Proof.
  intros Hp Hr. assert (needs not_paused (run call)) as Hn; [clear c s u s' Hr|by eapply Hn].
  destruct call; try discriminate Hp; cbn [run];
    guard_tac pause_frame (needs_assert_not_paused (H := H)).
Qed.
End pause.

(** ** Reentrancy *)
Definition guarded_call (call : Call) : bool :=
  match call with
  | CDrawCredit _ _ | CRepayCredit _ _ | CSettleDefaultLiquidation _ _ _ _ _ => true
  | _ => false
  end.

Section reentrancy.
Context `{H : Host} `{!AuctionClient} `{!Deployer} `{Crypto}.

Lemma unguarded_frame call : guarded_call call = false -> steps (frame K_re) (run call).
Proof. destruct call; try done; intros _; cbn [run]; kframe. Qed.

Lemma guarded_unlocks call c s u s' :
  guarded_call call = true -> run call c s = Ok u s' -> inst s' sym_reentrancy = Some false.
Proof.
  destruct call; try done; intros _ Hr; cbn [run] in Hr;
    first [ by eapply with_reentrancy_guard_ok
          | apply mbind_ok in Hr as (x & s1 & _ & Hr); by eapply with_reentrancy_guard_ok ].
Qed.

Lemma locked_fails call c s u s' :
  guarded_call call = true -> inst s sym_reentrancy = Some true -> run call c s <> Ok u s'.
Proof.
  intros Hg Hl Hr. assert (needs unlocked (run call)) as Hn; [|by apply (Hn _ _ _ _ Hr)].
  clear Hr. destruct call; try discriminate Hg; cbn [run];
    guard_tac re_frame (set_guard_unlocked (H := H)).
Qed.

(** The reentrancy guard is never left behind: after any history it is
    released, while a draw, a repayment or a settlement that starts with the
    guard set does not succeed. *)
Theorem reentrancy_guard n s :
  reachable n s ->
  inst s sym_reentrancy <> Some true /\
  forall call c s1 u s', guarded_call call = true -> inst s1 sym_reentrancy = Some true ->
    run call c s1 <> Ok u s'.
Proof.
  intros Hs. split; [|intros; by apply locked_fails].
  induction Hs as [h ev|n s h call c u s' _ IH Hr]; [done|].
  destruct (guarded_call call) eqn:Hg; [by rewrite (guarded_unlocks _ _ _ _ _ Hg Hr)|].
  by rewrite (frame_inst K_re _ _ _ (unguarded_frame _ Hg _ _ _ _ Hr)).
Qed.
End reentrancy.

(** ** Settlement markers *)
Definition is_settlement (call : Call) : bool :=
  match call with CSettleDefaultLiquidation _ _ _ _ _ => true | _ => false end.

(** One or more later invocations. *)
Inductive later `{H : Host} `{!AuctionClient} `{!Deployer} `{Crypto}
  : State (C := CreditContract) -> State (C := CreditContract) -> Prop :=
| later_refl s : later s s
| later_call s1 s2 h call c u s3 :
    later s1 s2 -> run call c (set_host h s2) = Ok u s3 -> later s1 s3.

Section replay.
Context `{H : Host} `{!AuctionClient} `{!Deployer} `{Crypto}.
Abbreviation S' := (State (C := CreditContract)).
Implicit Types (s : S').

Definition K_seen (a : area) (k : StorageKey) : bool :=
  match a, k with Pers, KLiqSeen _ _ => true | _, _ => false end.

Definition settled s b i : Prop := is_Some (pers s (KLiqSeen b i)).

Lemma settled_frame s s' b i : frame K_seen s s' -> settled s' b i <-> settled s b i.
Proof. intros Hf. unfold settled. by rewrite (frame_pers K_seen s s'). Qed.

Lemma not_settlement_frame call : is_settlement call = false -> steps (frame K_seen) (run call).
Proof. destruct call; try done; intros _; cbn [run]; kframe. Qed.

(** A settlement needs the marker absent, writes it, and touches no other one. *)
Lemma settle_marks b r i f p c s u s' :
  Credit.settle_default_liquidation b r i f p c s = Ok u s' ->
  ~ settled s b i /\ forall b' i', settled s' b' i' <-> (b' = b /\ i' = i) \/ settled s b' i'.
Proof.
  intros Hr. assert (frame K_seen s s) as K by done.
  unfold Credit.settle_default_liquidation, with_reentrancy_guard,
    Lifecycle.settle_default_liquidation in Hr. minv Hr.
  match goal with E : match persistent_store ?sm _ with _ => _ end = false |- _ =>
    assert (pers sm (KLiqSeen b i) = None) as Hn
      by (unfold pers; unfold liquidation_settlement_key in E;
          by destruct (persistent_store sm (KLiqSeen b i))); clear E end.
  chain. match goal with Hm : Soroban.pset _ _ _ ?sa = Ok _ ?sb |- _ =>
    rename sa into s_pre; rename sb into s_post; rename Hm into Hput end.
  rename K into K0. assert (frame K_seen s_post s_post) as K by done. chain.
  split; [intros [x Hx]; by rewrite Hn in Hx|]. intros b' i'.
  rewrite (settled_frame _ _ b' i' K), <- (settled_frame _ _ b' i' K0).
  apply pset_ok in Hput as ->. unfold settled, pers.
  destruct (decide (b' = b /\ i' = i)) as [[-> ->]|Hne].
  - sput. split; [by left|eauto].
  - sput. rewrite store_put_ne by (intros [= ? ?]; apply Hne; by split). split; [by right|]. intros [?|?]; [tauto|done].
Qed.

Lemma run_settled call c s u s' b i :
  run call c s = Ok u s' -> settled s b i -> settled s' b i.
Proof.
  intros Hr Hs. destruct (is_settlement call) eqn:E.
  - destruct call; try discriminate E. apply settle_marks in Hr as [_ Hr]. apply Hr. by right.
  - apply not_settlement_frame in E. apply E in Hr. by eapply settled_frame.
Qed.

Lemma later_settled s s' b i : later s s' -> settled s b i -> settled s' b i.
Proof. induction 1 as [|s1 s2 h call c u s3 _ IH Hr]; [done|]. intros Hs.
  eapply run_settled; [exact Hr|]. exact (IH Hs).
Qed.

(** C11. A settlement id settles once: after a successful settlement, no later
    invocation with the same borrower and id succeeds, whatever happened in
    between and whatever its other arguments are. *)
Theorem settlement_is_final b r i f p c s u s1 s2 h c' r' f' p' u' s3 :
  run (CSettleDefaultLiquidation b r i f p) c s = Ok u s1 -> later s1 s2 ->
  run (CSettleDefaultLiquidation b r' i f' p') c' (set_host h s2) <> Ok u' s3.
Proof.
  intros Hr Hl Hr'. apply settle_marks in Hr as [_ Hr]. apply settle_marks in Hr' as [Hn _].
  apply Hn. change (settled s2 b i). eapply later_settled; [exact Hl|]. apply Hr. by left.
Qed.
End replay.

(** ** The freeze cool-down is out of reach

    No entrypoint calls [set_freeze_cooldown_seconds], so the interval is never
    configured and [enforce_freeze_cooldown] lets every freeze through. *)
Section freeze_cooldown.
Context `{H : Host} `{!AuctionClient} `{!Deployer} `{Crypto}.

Definition K_freeze_cooldown (a : area) (k : StorageKey) : bool :=
  match a, k with Inst, KData DK.FreezeCooldownSeconds => true | _, _ => false end.

Lemma freeze_cooldown_frame call : steps (frame K_freeze_cooldown) (run call).
Proof. destruct call; cbn [run]; kframe. Qed.

Lemma freeze_cooldown_never_set n (s : State (C := CreditContract)) :
  reachable n s -> inst s DK.FreezeCooldownSeconds = None.
Proof.
  induction 1 as [h ev|n s h call c u s' _ IH Hr]; [done|].
  apply freeze_cooldown_frame in Hr. pose proof (Hr Inst DK.FreezeCooldownSeconds eq_refl) as E.
  unfold inst in *. cbn in E. by rewrite E.
Qed.

Lemma enforce_freeze_cooldown_passes n (s : State (C := CreditContract)) c :
  reachable n s -> enforce_freeze_cooldown c s = Ok tt s.
Proof.
  intros Hr. pose proof (freeze_cooldown_never_set n s Hr) as E. unfold inst in E.
  unfold enforce_freeze_cooldown, get_freeze_cooldown_seconds, mbind, iget. cbn.
  cbn in E. by rewrite E.
Qed.
End freeze_cooldown.

(** ** Witnesses *)
Import Concrete.

Definition defaulted : St := step admin (CDefaultCreditLine alice) 300 drawn.

Definition recovered : St :=
  step admin (CSettleDefaultLiquidation alice 500 "first"%string 10000 None) 400 defaulted.

Definition paused_state : St := step admin (CSetProtocolPaused true) 300 drawn.

(** C9: the admin's signature behind a default. *)
Lemma calls_are_authorised_witness :
  authorised (authority (CDefaultCreditLine alice)) (signed_by [admin] drawn).
Proof.
  apply (calls_are_authorised (CDefaultCreditLine alice) (at_time 300) _ tt defaulted).
  apply run_after. vm_compute. reflexivity.
Defined.

(** C10: alice's draw happened while the protocol was running; paused, it fails. *)
Lemma pause_stops_witness :
  paused (signed_by [alice] secured) = false /\
  succeeds (CDrawCredit alice 1) (at_time 300) (signed_by [alice] paused_state) = false /\
  succeeds (CRepayCredit alice 1) (at_time 300) (signed_by [alice] paused_state) = true.
Proof.
  split; [|split; vm_compute; reflexivity].
  apply (pause_stops (CDrawCredit alice 50000) (at_time 200) _ tt drawn); [reflexivity|].
  apply run_after. vm_compute. reflexivity.
Defined.

(** After the draw. *)
Lemma reentrancy_guard_witness : inst drawn sym_reentrancy <> Some true.
Proof. exact (proj1 (reentrancy_guard 6 drawn reachable_drawn)). Defined.

(** C11: the second settlement with the same id, after a repayment. *)
Lemma settlement_is_final_witness :
  run (CSettleDefaultLiquidation alice 500 "first"%string 10000 None) (at_time 600)
    (set_host (mkBank [admin] [] []) (step alice (CRepayCredit alice 100) 500 recovered))
  <> Ok tt recovered.
Proof.
  apply (settlement_is_final alice 500 "first"%string 10000 None (at_time 400)
           (signed_by [admin] defaulted) tt recovered).
  - apply run_after. vm_compute. reflexivity.
  - eapply later_call; [apply later_refl|]. apply run_after. vm_compute. reflexivity.
Defined.
