(* ===== verification/Pagination.v ===== *)
(** * Walking the book of credit lines page by page

    A client that follows [next_cursor], or the last id of a page, until there is
    nothing left: both walks end, and what they return is compared with the book
    of lines in id order ([views.rs::get_credit_lines_paginated],
    [lib.rs::enumerate_credit_lines]). *)
From S2P Require Import Prelude MathUtils Soroban CreditTypes CreditEvents CreditStorage CreditState History Accrual Collateral Fees Freeze Oracles Scoring Risk Lifecycle Views CreditContract CreditCalls CreditLedger CreditMoves CreditInvariant Scenario CreditTheorems.

Section pagination.
Context `{H : Host}.
Abbreviation S' := (State (C := CreditContract)).
Implicit Types (s : S') (c : Ctx).

(** [book] lists the credit lines by their stable ids, without gaps. *)
Record Book (book : list CreditLineData) s : Prop := {
  book_count : line_count s = Z.of_nat (length book);
  book_max : line_count s <= u32_max;
  book_at : forall i l, book !! i = Some l ->
    exists b, borrower_at s (Z.of_nat i) = Some b /\ line_of s b = Some l;
}.

(** The client of [get_credit_lines_paginated]: the pages from [cursor] on. *)
Fixpoint follow (fuel : nat) (limit : Z) (cursor : option Z) c s : option (list CreditLinesPage) :=
  match fuel with
  | O => None
  | S fuel' =>
      match get_credit_lines_paginated cursor limit c s with
      | Ok page s' =>
          match next_cursor page with
          | None => Some [page]
          | Some next => cons page <$> follow fuel' limit (Some next) c s'
          end
      | Fail _ => None
      end
  end.

(** The client of [enumerate_credit_lines], which passes the last id it saw. *)
Fixpoint follow_ids (fuel : nat) (limit : Z) (after : option Z) c s
  : option (list (Z * CreditLineData)) :=
  match fuel with
  | O => None
  | S fuel' =>
      match enumerate_credit_lines after limit c s with
      | Ok page s' =>
          match last page with
          | None => Some []
          | Some (id, _) => app page <$> follow_ids fuel' limit (Some id) c s'
          end
      | Fail _ => None
      end
  end.

(** ** The getters never fail *)
Lemma get_credit_line_run b c s : get_credit_line b c s = Ok (line_of s b) s.
Proof.
  unfold get_credit_line, bump_credit_line_ttl, line_of, pers, mbind, phas, pextend_ttl, pget, mret.
  cbn. destruct (persistent_store s (KLine b)) eqn:E; cbn; by rewrite ?E.
Qed.

Lemma get_borrower_run i c s : get_borrower_by_credit_line_id i c s = Ok (borrower_at s i) s.
Proof.
  unfold get_borrower_by_credit_line_id, bump_if_present, bump_persistent_ttl, borrower_at, pers,
    mbind, phas, pextend_ttl, pget, mret. cbn.
  destruct (persistent_store s (DK.CreditLineBorrowerById i)) eqn:E; cbn; by rewrite ?E.
Qed.

Lemma get_count_run c s : get_credit_line_count c s = Ok (line_count s) s.
Proof. done. Qed.

(** ** The slice of the book a page holds *)
Definition slice {A} (start len : Z) (l : list A) : list A :=
  take (Z.to_nat len) (drop (Z.to_nat start) l).

Lemma slice_length {A} (l : list A) start len :
  0 <= start -> 0 <= len -> start + len <= Z.of_nat (length l) ->
  Z.of_nat (length (slice start len l)) = len.
Proof. intros. unfold slice. rewrite length_take, length_drop. lia. Qed.

Lemma slice_snoc {A} (l : list A) start len x :
  0 <= start -> 0 <= len -> l !! Z.to_nat (start + len) = Some x ->
  slice start (len + 1) l = slice start len l ++ [x].
Proof.
  intros Hs Hl Hx. unfold slice. rewrite Z2Nat.inj_add by lia. change (Z.to_nat 1) with 1%nat.
  rewrite Nat.add_1_r. apply take_S_r. rewrite lookup_drop. by rewrite <- Z2Nat.inj_add by lia.
Qed.

Lemma slice_app {A} (l : list A) start len :
  0 <= start -> 0 <= len -> slice start len l ++ drop (Z.to_nat (start + len)) l = drop (Z.to_nat start) l.
Proof. intros. unfold slice. rewrite Z2Nat.inj_add by lia. by rewrite <- drop_drop, take_drop. Qed.

Lemma slice_0 {A} (l : list A) start : slice start 0 l = [].
Proof. done. Qed.

(** ** One page *)
Section page.
Context (book : list CreditLineData) (s : S') (c : Ctx) (HB : Book book s).
Let n : Z := Z.of_nat (length book).

Lemma book_lookup i : 0 <= i < n -> exists b l,
  borrower_at s i = Some b /\ line_of s b = Some l /\ book !! Z.to_nat i = Some l.
Proof.
  intros Hi. destruct (lookup_lt_is_Some_2 book (Z.to_nat i)) as [l Hl]; [lia|].
  destruct (book_at _ _ HB _ _ Hl) as (b & Hb & Hline). rewrite Z2Nat.id in Hb by lia. eauto.
Qed.

Lemma n_max : n <= u32_max.
Proof. pose proof (book_count _ _ HB). pose proof (book_max _ _ HB). lia. Qed.

Lemma next_u32 i : 0 <= i < n -> sat_u32 (i + 1) = i + 1.
Proof. intros. pose proof n_max. unfold saturate. lia. Qed.

(** [next_cursor] when the loop stands at [cur]: once the loop passes the last
    id, it keeps the value written before. *)
Definition cursor_at (start cur : Z) : option Z :=
  if (cur =? start) || (start =? n - 1) then None else Some (Z.min cur (n - 1)).

Lemma page_loop_run fuel limit start cur :
  0 <= start -> start <= cur <= n -> cur - start <= limit -> n - cur <= Z.of_nat fuel ->
  page_loop fuel limit (n - 1) cur (slice start (cur - start) book) (cursor_at start cur) c s
  = Ok (slice start (Z.min (start + limit) n - start) book,
        cursor_at start (Z.min (start + limit) n)) s.
Proof.
  revert cur. induction fuel as [|fuel IH]; intros cur H0 Hc Hl Hf; cbn [page_loop].
  { by replace (Z.min (start + limit) n) with cur by lia. }
  rewrite slice_length by lia.
  destruct (cur - start <? limit) eqn:E1, (cur <=? n - 1) eqn:E2; cbn [andb];
    [|by replace (Z.min (start + limit) n) with cur by lia..].
  destruct (book_lookup cur) as (b & l & Hb & Hline & Hl'); [lia|].
  rewrite (mbind_run _ _ _ _ _ _ (get_borrower_run cur c s)), Hb. cbv beta iota.
  erewrite mbind_run by
    (rewrite (mbind_run _ _ _ _ _ _ (get_credit_line_run b c s)), Hline; reflexivity).
  rewrite <- (slice_snoc book start (cur - start) l) by (rewrite ?Zplus_minus; lia || done).
  rewrite next_u32 by lia.
  replace (cur - start + 1) with (cur + 1 - start) by lia.
  rewrite <- (IH (cur + 1)) by lia. f_equal. rewrite slice_length by lia. unfold cursor_at.
  destruct (cur + 1 - start <? limit) eqn:E3, (cur <? n - 1) eqn:E4, (cur =? start) eqn:E5,
    (start =? n - 1) eqn:E6, (cur + 1 =? start) eqn:E7; cbn [andb orb]; try lia; f_equal; try lia;
    try done.
Qed.

Lemma page_run limit cursor :
  1 <= limit <= MAX_ENUMERATION_LIMIT -> 0 <= unwrap_or cursor 0 < n ->
  let start := unwrap_or cursor 0 in let stop := Z.min (start + limit) n in
  let next := if stop - start <? limit then None else cursor_at start stop in
  get_credit_lines_paginated cursor limit c s
  = Ok (mkPage (slice start (stop - start) book) next
               (match next with Some _ => true | None => false end)) s.
Proof.
  intros Hl Hc. cbv zeta. set (start := unwrap_or cursor 0) in *. unfold get_credit_lines_paginated.
  unfold panic_if. replace (MAX_ENUMERATION_LIMIT <? limit) with false by lia.
  erewrite mbind_run by reflexivity. rewrite (mbind_run _ _ _ _ _ _ (get_count_run c s)).
  rewrite (book_count _ _ HB). fold n start. cbv zeta.
  replace (n <=? start) with false by lia.
  replace (sat_u32 (n - 1)) with (n - 1) by (pose proof n_max; unfold saturate; lia).
  pose proof (page_loop_run (Z.to_nat (n - start)) limit start start) as Hp.
  rewrite Z.sub_diag, slice_0 in Hp. replace (cursor_at start start) with (@None Z) in Hp
    by (unfold cursor_at; by rewrite Z.eqb_refl).
  erewrite mbind_run by (apply Hp; lia). cbv beta iota zeta. by rewrite slice_length by lia.
Qed.

(** ** The walk along [next_cursor] *)

(** What the walk returns after the page that ends the book: the last line once
    more, when that page is full and holds more than one line. *)
Definition again (limit start : Z) : list CreditLineData :=
  if (2 <=? limit) && ((n - start) mod limit =? 0) then drop (Z.to_nat (n - 1)) book else [].

Lemma follow_last fuel limit :
  2 <= limit <= MAX_ENUMERATION_LIMIT -> 0 < n ->
  follow (S fuel) limit (Some (n - 1)) c s = Some [mkPage (drop (Z.to_nat (n - 1)) book) None false].
Proof.
  intros Hl Hn. cbn [follow]. rewrite page_run by (cbn; lia). cbv zeta. cbn [unwrap_or].
  replace (Z.min (n - 1 + limit) n) with n by lia. replace (n - (n - 1) <? limit) with true by lia.
  cbn [next_cursor]. do 3 f_equal. unfold slice. apply take_ge. rewrite length_drop. lia.
Qed.

Lemma follow_run fuel limit cursor :
  1 <= limit <= MAX_ENUMERATION_LIMIT -> 0 <= unwrap_or cursor 0 < n ->
  n - unwrap_or cursor 0 < Z.of_nat fuel ->
  exists pages, follow fuel limit cursor c s = Some pages /\
    concat (page_lines <$> pages)
    = drop (Z.to_nat (unwrap_or cursor 0)) book ++ again limit (unwrap_or cursor 0).
Proof.
  revert cursor. induction fuel as [|fuel IH]; intros cursor Hl Hc Hf; [lia|]. cbn [follow].
  rewrite page_run by done. cbv zeta. set (start := unwrap_or cursor 0) in *. clearbody start.
  clear cursor. unfold again.
  destruct (Z.lt_ge_cases (n - start) limit) as [Hs|Hs].
  - replace (Z.min (start + limit) n) with n by lia. replace (n - start <? limit) with true by lia.
    cbn [next_cursor]. eexists. split; [done|]. cbn.
    rewrite (Z.mod_small (n - start)) by lia. replace (n - start =? 0) with false by lia.
    rewrite andb_false_r, !app_nil_r. unfold slice. apply take_ge. rewrite length_drop. lia.
  - replace (Z.min (start + limit) n) with (start + limit) by lia.
    replace (start + limit - start) with limit by lia. rewrite Z.ltb_irrefl. unfold cursor_at.
    destruct (Z.eq_dec (n - start) limit) as [He|He].
    + rewrite He, Z.mod_same, Z.eqb_refl, andb_true_r by lia.
      replace (start + limit =? start) with false by lia.
      assert (slice start limit book = drop (Z.to_nat start) book) as ->
        by (unfold slice; apply take_ge; rewrite length_drop; lia).
      destruct (2 <=? limit) eqn:E2.
      * replace (start =? n - 1) with false by lia. cbn [orb next_cursor].
        replace (Z.min (start + limit) (n - 1)) with (n - 1) by lia.
        destruct fuel as [|fuel]; [lia|]. rewrite follow_last by lia. eexists. split; [done|].
        cbn. by rewrite app_nil_r.
      * replace (start =? n - 1) with true by lia. cbn [orb next_cursor]. eexists. split; [done|].
        done.
    + replace (start + limit =? start) with false by lia. replace (start =? n - 1) with false by lia.
      cbn [orb next_cursor]. replace (Z.min (start + limit) (n - 1)) with (start + limit) by lia.
      destruct (IH (Some (start + limit))) as (pages & -> & Hp); cbn [unwrap_or]; [lia..|].
      eexists. split; [done|]. rewrite fmap_cons. cbn [concat page_lines].
      cbn [unwrap_or] in Hp. unfold again in Hp.
      rewrite Hp, app_assoc, slice_app by lia. replace (n - (start + limit)) with (n - start + (-1) * limit) by lia.
      by rewrite Z.mod_add by lia.
Qed.

(** ** The walk along ids *)
Definition numbered : list (Z * CreditLineData) := imap (fun i l => (Z.of_nat i, l)) book.

Lemma numbered_length : length numbered = length book.
Proof. apply length_imap. Qed.

Lemma enumerate_loop_run fuel cap start cur :
  0 <= start -> start <= cur <= n -> cur - start <= cap <= MAX_ENUMERATION_LIMIT ->
  n - cur <= Z.of_nat fuel ->
  enumerate_loop fuel n cap cur (cur - start) (slice start (cur - start) numbered) c s
  = Ok (slice start (Z.min (start + cap) n - start) numbered) s.
Proof.
  revert cur. induction fuel as [|fuel IH]; intros cur H0 Hc Hl Hf; cbn [enumerate_loop].
  { by replace (Z.min (start + cap) n) with cur by lia. }
  destruct (cur <? n) eqn:E1, (cur - start <? cap) eqn:E2; cbn [andb];
    [|by replace (Z.min (start + cap) n) with cur by lia..].
  destruct (book_lookup cur) as (b & l & Hb & Hline & Hl'); [lia|].
  rewrite (mbind_run _ _ _ _ _ _ (get_borrower_run cur c s)), Hb. cbv beta iota.
  rewrite (mbind_run _ _ _ _ _ _ (get_credit_line_run b c s)), Hline. cbv beta iota.
  rewrite <- (slice_snoc numbered start (cur - start) (cur, l)); [|lia..|].
  - rewrite next_u32 by lia. replace (cur - start + 1) with (cur + 1 - start) by lia.
    replace (sat_u32 (cur + 1 - start)) with (cur + 1 - start)
      by (unfold saturate, MAX_ENUMERATION_LIMIT in *; lia).
    apply IH; lia.
  - rewrite Zplus_minus. unfold numbered. rewrite list_lookup_imap, Hl'. cbn. by rewrite Z2Nat.id by lia.
Qed.

(** Where a page after [after] starts. *)
Definition start_of (after : option Z) : Z := match after with Some id => sat_u32 (id + 1) | None => 0 end.

Lemma enumerate_run limit after :
  1 <= limit -> 0 <= start_of after <= n ->
  let stop := Z.min (start_of after + Z.min limit MAX_ENUMERATION_LIMIT) n in
  enumerate_credit_lines after limit c s = Ok (slice (start_of after) (stop - start_of after) numbered) s.
Proof.
  intros Hl Hc. cbv zeta. unfold enumerate_credit_lines. rewrite (mbind_run _ _ _ _ _ _ (get_count_run c s)).
  rewrite (book_count _ _ HB). fold n (start_of after). cbv zeta.
  set (cap := Z.min limit MAX_ENUMERATION_LIMIT).
  assert (0 < cap <= MAX_ENUMERATION_LIMIT) by (unfold cap, MAX_ENUMERATION_LIMIT; lia).
  replace (cap =? 0) with false by lia. destruct (n =? 0) eqn:E0; cbn [orb].
  - unfold numbered, slice. assert (book = []) as -> by (apply nil_length_inv; lia).
    cbn. by rewrite drop_nil, take_nil.
  - pose proof (enumerate_loop_run (Z.to_nat (n - start_of after)) cap (start_of after) (start_of after)) as Hp.
    rewrite Z.sub_diag, slice_0 in Hp. apply Hp; lia.
Qed.

Lemma last_numbered start stop :
  0 <= start < stop -> stop <= n ->
  exists l, last (slice start (stop - start) numbered) = Some (stop - 1, l).
Proof.
  intros Hs Hn. destruct (lookup_lt_is_Some_2 book (Z.to_nat (stop - 1))) as [l Hl]; [lia|]. exists l.
  replace (stop - start) with (stop - 1 - start + 1) by lia.
  erewrite slice_snoc; [apply last_snoc|lia..|]. rewrite Zplus_minus. unfold numbered.
  rewrite list_lookup_imap, Hl. cbn. by rewrite Z2Nat.id by lia.
Qed.

Lemma follow_ids_run fuel limit after :
  1 <= limit -> 0 <= start_of after <= n -> n - start_of after < Z.of_nat fuel ->
  follow_ids fuel limit after c s = Some (drop (Z.to_nat (start_of after)) numbered).
Proof.
  revert after. induction fuel as [|fuel IH]; intros after Hl Hc Hf; [lia|]. cbn [follow_ids].
  rewrite enumerate_run by done. cbv zeta. set (start := start_of after) in *. clearbody start.
  pose proof n_max. set (stop := Z.min (start + Z.min limit MAX_ENUMERATION_LIMIT) n).
  assert (start <= stop <= n /\ (start < n -> start < stop)) as [Hb Hlt]
    by (unfold stop, MAX_ENUMERATION_LIMIT; lia). clearbody stop.
  destruct (Z.eq_dec start n) as [->|Hne].
  - replace (stop - n) with 0 by lia. rewrite slice_0. cbn. rewrite drop_ge; [done|].
    rewrite numbered_length. lia.
  - destruct (last_numbered start stop) as [l ->]; [lia..|].
    assert (start_of (Some (stop - 1)) = stop) as E by (cbn; unfold saturate; lia).
    rewrite IH, E by (rewrite ?E; lia). cbn. f_equal.
    rewrite <- (slice_app numbered start (stop - start)) by lia. by rewrite Zplus_minus.
Qed.
End page.
End pagination.

(** ** The book of a reachable state *)
Section reachable.
Context `{H : Host} `{!AuctionClient} `{!Deployer} `{Crypto}.
Implicit Types (s : State (C := CreditContract)).

Lemma status_step_keeps call b o o' : status_step call b o o' -> is_Some o -> is_Some o'.
Proof.
  destruct call; cbn; unfold own; repeat case_decide; intros; simplify_eq; try done;
    destruct_and?; destruct_or?; naive_solver.
Qed.

(** Every borrower of the index has a line: no line is ever removed. *)
Lemma reachable_lines n s :
  reachable n s -> Z.of_nat n <= u32_max ->
  exists bs, Ledger bs s /\ (length bs <= n)%nat /\ forall b, b ∈ bs -> is_Some (status_of s b).
Proof.
  induction 1 as [h ev|n s h call c u s' _ IH Hr]; intros Hn.
  - exists []. split_and!; [apply ledger_start|done|]. by intros b ?%elem_of_nil.
  - destruct IH as (bs & HL & Hlen & Hb); [lia|]. apply (run_moves call bs) in Hr as [HL' Hst].
    + exists (next_index call bs). split_and!; [done| |].
      * pose proof (length_next_index call bs). lia.
      * intros b Hin. specialize (Hst b). specialize (Hb b).
        assert (b ∈ bs \/ exists l r k, call = COpenCreditLine b l r k) as [Hold|(l & r & k & ->)].
        { destruct call; cbn in Hin; try by left. unfold add_borrower in Hin. case_decide; [by left|].
          apply elem_of_app in Hin as [?| ->%list_elem_of_singleton]; [by left|]. right. eauto. }
        -- eapply status_step_keeps; [exact Hst|]. by apply Hb.
        -- cbn in Hst. unfold own in Hst. rewrite decide_True in Hst by done. by destruct Hst as [_ ->].
    + by apply ledger_set_host.
    + rewrite (idx_count _ _ (lg_index _ _ _ (ledger_set_host _ _ h HL))). lia.
Qed.

Lemma reachable_book n s : reachable n s -> Z.of_nat n <= u32_max -> exists book, Book book s.
Proof.
  intros Hr Hn. destruct (reachable_lines n s Hr Hn) as (bs & HL & _ & Hb).
  pose proof (lg_index _ _ _ HL) as HI.
  assert (exists book, Forall2 (fun b l => line_of s b = Some l) bs book) as [book HF].
  { clear HL HI Hr. induction bs as [|b bs IH]; [by exists []|].
    destruct IH as [book ?]; [intros; apply Hb; by right|].
    destruct (Hb b) as [st Hl]; [by left|]. unfold status_of in Hl.
    apply fmap_Some in Hl as (l & ? & _). exists (l :: book). by constructor. }
  exists book. split.
  - by rewrite (idx_count _ _ HI), (Forall2_length _ _ _ HF).
  - exact (lg_max _ _ _ HL).
  - intros i l Hl. destruct (Forall2_lookup_r _ _ _ _ _ HF Hl) as (b & Hi & Hline).
    exists b. split; [|done]. apply (idx_at _ _ HI). rewrite Nat2Z.id. split; [lia|done].
Qed.
End reachable.

(** C23. In every reachable state both ways of walking the credit lines end and
    miss nothing.  Passing the last id back to [enumerate_credit_lines] returns the
    book of lines, each line once, in id order, numbered with its id.  Following
    [next_cursor] of [get_credit_lines_paginated] returns the same book, but when
    the page size is at least two and divides the number of lines, the cursor of
    the last page points back at the last line, which is returned a second time. *)
Theorem walks_terminate `{H : Host} `{!AuctionClient} `{!Deployer} `{Crypto} n s c limit :
  reachable n s -> Z.of_nat n <= u32_max -> 1 <= limit <= MAX_ENUMERATION_LIMIT ->
  exists book, Book book s /\
    follow_ids (S (length book)) limit None c s = Some (numbered book) /\
    exists pages, follow (S (length book)) limit None c s = Some pages /\
      concat (page_lines <$> pages) = book ++
        (if (2 <=? limit) && (Z.of_nat (length book) mod limit =? 0)
         then drop (length book - 1) book else []).
Proof.
  intros Hr Hn Hl. destruct (reachable_book n s Hr Hn) as [book HB]. exists book. split; [done|].
  split; [rewrite (follow_ids_run book s c HB); [done|lia|cbn; lia..]|].
  destruct (decide (length book = 0%nat)) as [E|E].
  - apply nil_length_inv in E as ->. eexists. split.
    + cbn [follow length]. unfold get_credit_lines_paginated, panic_if.
      replace (MAX_ENUMERATION_LIMIT <? limit) with false by lia.
      erewrite mbind_run by reflexivity. rewrite (mbind_run _ _ _ _ _ _ (get_count_run c s)).
      rewrite (book_count _ _ HB). cbn. reflexivity.
    + cbn. by destruct ((2 <=? limit) && _).
  - destruct (follow_run book s c HB (S (length book)) limit None) as (pages & Hf & Hp); [done|cbn; lia..|].
    exists pages. split; [exact Hf|]. rewrite Hp. cbn [unwrap_or]. unfold again.
    rewrite Z.sub_0_r. by replace (Z.to_nat (Z.of_nat (length book) - 1)) with (length book - 1)%nat by lia.
Qed.

Import Concrete.

(** A second line is opened: bob's. *)
Definition two_lines : St := step admin (COpenCreditLine (mkAddress 7) 5000 700 40) 250 drawn.

(** C23. Two lines in pages of two: bob's is returned twice. *)
Lemma walks_terminate_witness :
  reachable 7 two_lines /\
  option_map (fun pages => map cl_credit_limit (concat (page_lines <$> pages)))
    (follow 3 2 None (at_time 300) two_lines) = Some [100000; 5000; 5000] /\
  exists book, Book book two_lines /\
    follow_ids (S (length book)) 2 None (at_time 300) two_lines = Some (numbered book) /\
    exists pages, follow (S (length book)) 2 None (at_time 300) two_lines = Some pages /\
      concat (page_lines <$> pages) = book ++
        (if (2 <=? 2) && (Z.of_nat (length book) mod 2 =? 0) then drop (length book - 1) book else []).
Proof.
  assert (reachable 7 two_lines) as Hr
    by (apply reachable_step; [exact reachable_drawn|vm_compute; reflexivity]).
  split; [exact Hr|]. split; [vm_compute; reflexivity|].
  apply (walks_terminate 7 two_lines (at_time 300) 2 Hr); unfold MAX_ENUMERATION_LIMIT; lia.
Defined.
