(* ===== verification/DrawRepay.v ===== *)
(** * What a draw, a repayment and a withdrawal of collateral guarantee

    The guards of [draw_credit] as one record of facts about the state it starts
    in, the repayment waterfall, and the collateral bound both rely on. *)
From S2P Require Import Prelude MathUtils Soroban CreditTypes CreditEvents CreditStorage CreditState Accrual Collateral Fees Freeze Oracles Scoring Risk Lifecycle Views CreditContract CreditCalls CreditLedger CreditMoves CreditInvariant Scenario CreditTheorems CreditSafety.

(** [chain_guards] is [chain] for [same_guards]: no host operation in between. *)
Ltac chain_guards :=
  repeat match goal with
  | G : same_guards ?s0 ?s, Hm : ?m ?c ?s = Ok _ ?s' |- _ =>
      let F := fresh "F" in let G' := fresh "G" in
      assert (same_guards s s') as F by
        (assert (steps same_guards m) as F by guards_tac; exact (F _ _ _ _ Hm));
      assert (same_guards s0 s') as G' by (etrans; [exact G|exact F]); clear Hm F G; rename G' into G
  end.

Section collateral_value.
Context `{H : Host}.
Abbreviation S' := (State (C := CreditContract)).
Implicit Types (s : S').

(** ** The effective collateral, as a formula *)
Definition weighted (amount weight : Z) : Z :=
  if amount <=? 0 then 0 else if 10000 <=? weight then amount else amount * weight / 10000.

Definition weight_of s (asset : Address) : Z :=
  unwrap_or (inst s (DK.CollateralRiskWeightBps asset)) 10000.

Definition legacy_weight s : Z :=
  match inst s DK.LiquidityToken with Some t => weight_of s t | None => 10000 end.

Definition token_collateral s b (token : Address) : Z :=
  unwrap_or (pers s (DK.CollateralBalanceV2 b token)) 0.

Definition allowlist s : list Address := unwrap_or (inst s DK.CollateralTokenAllowlist) [].

Definition effective_value s b : Z :=
  weighted (collateral_of s b) (legacy_weight s)
  + sumZ ((fun t => weighted (token_collateral s b t) (weight_of s t)) <$> allowlist s).

Definition min_ratio s : Z := unwrap_or (inst s DK.MinCollateralRatioBps) 15000.

Definition required (utilized ratio : Z) : Z := ceil_div (utilized * ratio) 10000.

#[export] Instance reads_asset_weight a : Reads (asset_weight_bps a) (fun _ s => weight_of s a).
Proof. unfold asset_weight_bps, get_collateral_risk_weight_bps. solve_reads. Qed.

#[export] Instance reads_get_collateral_token :
  Reads get_collateral_token (fun _ s => inst s DK.LiquidityToken).
Proof. unfold get_collateral_token. solve_reads. Qed.

#[export] Instance reads_legacy_weight :
  Reads legacy_collateral_weight_bps (fun _ s => legacy_weight s).
Proof.
  unfold legacy_collateral_weight_bps. solve_reads; unfold legacy_weight; by rew_opt.
Qed.

#[export] Instance reads_get_balance_for_token b t :
  Reads (get_collateral_balance_for_token b t) (fun _ s => token_collateral s b t).
Proof. unfold get_collateral_balance_for_token. solve_reads. Qed.

#[export] Instance reads_get_min_ratio :
  Reads get_min_collateral_ratio_bps (fun _ s => inst s DK.MinCollateralRatioBps).
Proof. unfold get_min_collateral_ratio_bps. solve_reads. Qed.

#[export] Instance reads_get_allowlist :
  Reads get_collateral_token_allowlist (fun _ s => allowlist s).
Proof. unfold get_collateral_token_allowlist. solve_reads. Qed.

Lemma weighted_value_ok a w c s v s' :
  weighted_collateral_value a w c s = Ok v s' -> a <= i128_max -> 0 <= w -> v = weighted a w /\ s' = s.
Proof.
  unfold weighted_collateral_value, weighted. intros Hr Ha Hw.
  minv Hr; bsimp; repeat (case_match; bsimp); try lia; try done.
  match goal with E : mul_div _ _ _ _ = Some _ |- _ =>
    rewrite as_u128_id in E by lia; apply mul_div_floor in E; [by subst|lia..] end.
Qed.

Lemma weighted_nonpos a w : a <= 0 -> weighted a w = 0.
Proof. intros Ha. unfold weighted. by rewrite (proj2 (Z.leb_le _ _) Ha). Qed.

Lemma weighted_nonneg a w : 0 <= w -> 0 <= weighted a w.
Proof. unfold weighted. intros. repeat (case_match; bsimp); try lia. apply Z.div_pos; nia. Qed.

Lemma weighted_le a w : 0 <= a -> 0 <= w -> weighted a w <= a.
Proof.
  unfold weighted. intros. repeat (case_match; bsimp); try lia. apply mul_div_le_self; lia.
Qed.

(** The ranges of the Rust types behind the formula. *)
Record collateral_typed s b : Prop := {
  ct_legacy : collateral_of s b <= i128_max;
  ct_token : forall t, token_collateral s b t <= i128_max;
  ct_weight : forall t, 0 <= weight_of s t;
}.

Lemma legacy_weight_nonneg s b : collateral_typed s b -> 0 <= legacy_weight s.
Proof. intros [_ _ Hw]. unfold legacy_weight. case_match; [apply Hw|lia]. Qed.

Lemma effective_value_ok b c s v s' :
  effective_collateral_value b c s = Ok v s' -> collateral_typed s b ->
  v = effective_value s b /\ s' = s.
Proof.
  unfold effective_collateral_value. intros Hr HT. pose proof (legacy_weight_nonneg _ _ HT) as Hlw.
  mstep Hr. subst. apply mbind_ok in Hr as (v0 & s1 & Hm & Hr).
  assert (v0 = weighted (collateral_of s b) (legacy_weight s) /\ s1 = s) as [-> ->].
  { destruct (0 <? collateral_of s b) eqn:E; bsimp.
    - minv Hm. match goal with Hw : weighted_collateral_value _ _ _ _ = _ |- _ =>
        apply weighted_value_ok in Hw as [-> ->]; [|apply HT|done] end.
      chk. subst. split; [lia|done].
    - minv Hm. by rewrite weighted_nonpos. }
  mstep Hr. subst.
  eapply (mfold_sum_ok _ _ (fun t => weighted (token_collateral s b t) (weight_of s t))) in Hr as [-> ->].
  - done.
  - clear Hr. intros acc t x s1 Hb. mstep Hb. subst. destruct (token_collateral s b t <=? 0) eqn:E; bsimp.
    + minv Hb. rewrite weighted_nonpos by done. split; [lia|done].
    + minv Hb. match goal with Hw : weighted_collateral_value _ _ _ _ = _ |- _ =>
        apply weighted_value_ok in Hw as [-> ->]; [|apply HT|apply HT] end.
      chk. subst. split; [lia|done].
Qed.

(** ** The collateral a debt requires *)
Lemma required_ok u r c s v s' :
  required_collateral u r c s = Ok v s' -> 0 <= u -> 0 <= r -> v = required u r /\ s' = s.
Proof.
  unfold required_collateral, required, ceil_div. intros Hr Hu Hrr. minv Hr. chk. subst.
  rewrite quot_nonneg, rem_nonneg by nia. done.
Qed.

(** Scaling by 10000: the effective value covers the requirement exactly when the
    exact products compare. *)
Lemma required_covers u r v : required u r <= v <-> u * r <= v * 10000.
Proof. unfold required. rewrite ceil_div_spec by lia. lia. Qed.

(** ** The withdrawal guard *)
Definition effective_less s b amount weight : Z :=
  effective_value s b - weighted amount weight.

Lemma effective_after_ok b amt w wm c s v s' :
  effective_after b amt wm c s = Ok v s' -> (forall c s x s', wm c s = Ok x s' -> x = w s /\ s' = s) ->
  collateral_typed s b -> amt <= i128_max -> 0 <= w s -> 
  s' = s /\ (v = effective_less s b amt (w s) \/ v = 0).
Proof.
  unfold effective_after. intros Hr Hw HT Ha Hw0. apply mbind_ok in Hr as (x & s1 & Hx & Hr).
  apply effective_value_ok in Hx as [-> ->]; [|done]. apply mbind_ok in Hr as (y & s1 & Hy & Hr).
  apply Hw in Hy as [-> ->]. apply mbind_ok in Hr as (z & s1 & Hz & Hr).
  apply weighted_value_ok in Hz as [-> ->]; [|done..]. apply mret_ok in Hr as [-> ->].
  split; [done|]. unfold effective_less, checked. by destruct (in_range _ _ _); [left|right].
Qed.
End collateral_value.

(** ** The guards of a draw *)
Section draw.
Context `{H : Host} `{!AuctionClient} `{!Deployer} `{Crypto}.
Abbreviation S' := (State (C := CreditContract)).
Implicit Types (s : S').

Definition draws_frozen s : bool :=
  match inst s DK.DrawsFrozen with Some x => frozen x | None => false end.

Definition borrower_frozen (now : Z) s b : bool :=
  match pers s (DK.FrozenBorrower b) with Some expiry => now <? expiry | None => false end.

Definition line_frozen s b : bool :=
  match pers s (DK.CreditLineFreeze b) with Some _ => true | None => false end.

Definition blocked s b : bool := unwrap_or (pers s (DK.BlockedBorrower b)) false.

(** [le_opt v o]: the optional limit [o] admits [v]. *)
Definition le_opt (v : Z) (o : option Z) : bool :=
  match o with Some m => v <=? m | None => true end.

Definition cooldown_over (now : Z) s b : bool :=
  match inst s DK.DrawMinIntervalSeconds, pers s (DK.LastDrawTs b) with
  | Some i, Some last => sat_u64 (last + i) <=? now
  | _, _ => true
  end.

(** The borrower's utilisation cap as an amount. *)
Definition utilization_cap s b (limit : Z) : option Z :=
  (fun cap => limit * cap / 10000) <$> pers s (DK.UtilizationCapBps b).

Record DrawAllowed (now : Z) (s : S') (b : Address) (amount : Z) (line : CreditLineData) : Prop := {
  da_positive : 0 < amount;
  da_unpaused : paused s = false;
  da_unfrozen : draws_frozen s = false /\ borrower_frozen now s b = false /\ line_frozen s b = false;
  da_unblocked : blocked s b = false;
  da_max_draw : le_opt amount (inst s DK.MaxDrawAmount) = true;
  da_status : cl_status line = Active \/ cl_status line = Restricted;
  da_limit : cl_utilized_amount line + amount <= cl_credit_limit line;
  da_collateral :
    required (cl_utilized_amount line + amount) (min_ratio s) <= effective_value s b;
  da_utilization_cap :
    le_opt (cl_utilized_amount line + amount) (utilization_cap s b (cl_credit_limit line)) = true;
  da_borrower_cap : le_opt (cl_utilized_amount line + amount) (pers s (DK.MaxBorrowerExposure b)) = true;
  da_cooldown : cooldown_over now s b = true;
}.

#[export] Instance reads_draws_frozen : Reads is_draws_frozen (fun _ s => draws_frozen s).
Proof. unfold is_draws_frozen, get_draws_freeze_state. solve_reads. Qed.

#[export] Instance reads_borrower_frozen b :
  Reads (is_borrower_frozen b) (fun c s => borrower_frozen (ledger_timestamp c) s b).
Proof.
  intros c s a s' Hr. unfold is_borrower_frozen, bump_borrower_frozen_ttl in Hr.
  unfold borrower_frozen, pers. minv Hr; try done; 
    repeat match goal with E : bump_persistent_ttl _ _ _ = _ |- _ => apply bump_persistent_ttl_ok in E as [_ ->] end; try done.
  all: by case_match.
Qed.

#[export] Instance reads_line_frozen b : Reads (is_credit_line_frozen b) (fun _ s => line_frozen s b).
Proof.
  intros c s a s' Hr. unfold is_credit_line_frozen, bump_credit_line_freeze_ttl in Hr.
  unfold line_frozen, pers. minv Hr; try done;
    repeat match goal with E : bump_persistent_ttl _ _ _ = _ |- _ => apply bump_persistent_ttl_ok in E as [_ ->] end; done.
Qed.

#[export] Instance reads_blocked b : Reads (is_borrower_blocked b) (fun _ s => blocked s b).
Proof. unfold is_borrower_blocked. solve_reads. Qed.

#[export] Instance reads_util_cap b :
  Reads (get_utilization_cap_bps b) (fun _ s => pers s (DK.UtilizationCapBps b)).
Proof. unfold get_utilization_cap_bps. solve_reads. Qed.

#[export] Instance reads_borrower_exposure b :
  Reads (get_max_borrower_exposure b) (fun _ s => pers s (DK.MaxBorrowerExposure b)).
Proof. unfold get_max_borrower_exposure. solve_reads. Qed.

#[export] Instance reads_last_draw b :
  Reads (get_last_draw_ts b) (fun _ s => pers s (DK.LastDrawTs b)).
Proof. unfold get_last_draw_ts. solve_reads. Qed.

Lemma draw_preflight_ok b amt c s u s' :
  Credit.draw_preflight b amt c s = Ok u s' ->
  s' = s /\ 0 < amt /\
  (draws_frozen s = false /\ borrower_frozen (ledger_timestamp c) s b = false /\ line_frozen s b = false) /\
  blocked s b = false /\ le_opt amt (inst s DK.MaxDrawAmount) = true.
Proof.
  unfold Credit.draw_preflight. intros Hr. minv Hr. repeat (split; [done|]).
  unfold le_opt, inst. case_match; [|done]. bsimp. by apply Z.leb_le.
Qed.

Lemma draw_cooldown_ok b c s u s' :
  Credit.draw_cooldown_guard b c s = Ok u s' -> s' = s /\ cooldown_over (ledger_timestamp c) s b = true.
Proof.
  unfold Credit.draw_cooldown_guard, cooldown_over, inst. intros Hr. minv Hr; split; try done.
  all: rew_opt; try done. by apply Z.leb_le.
Qed.

Lemma draw_collateral_ok b nu c s u s' :
  Credit.draw_collateral_guard b nu c s = Ok u s' -> collateral_typed s b -> 0 <= nu -> 0 <= min_ratio s ->
  s' = s /\ required nu (min_ratio s) <= effective_value s b.
Proof.
  unfold Credit.draw_collateral_guard. intros Hr HT Hn Hm. mstep Hr. subst. cbv zeta in Hr.
  apply mbind_ok in Hr as (x & s1 & Hx & Hr). apply effective_value_ok in Hx as [-> ->]; [|done].
  apply mbind_ok in Hr as (x & s1 & Hx & Hr). apply required_ok in Hx as [-> ->]; [|done..].
  minv Hr. done.
Qed.

Lemma draw_utilization_cap_ok b line nu c s u s' :
  Credit.draw_utilization_cap_guard b line nu c s = Ok u s' -> cl_credit_limit line <= i128_max ->
  (forall cap, pers s (DK.UtilizationCapBps b) = Some cap -> 0 <= cap) ->
  s' = s /\ le_opt nu (utilization_cap s b (cl_credit_limit line)) = true.
Proof.
  unfold Credit.draw_utilization_cap_guard, utilization_cap. intros Hr Hl Hc. mstep Hr. subst.
  destruct (pers s (DK.UtilizationCapBps b)) as [cap|] eqn:E; [|by minv Hr].
  minv Hr. split; [done|]. cbn. apply Z.leb_le.
  match goal with E : mul_div _ _ _ _ = Some _ |- _ =>
    apply mul_div_floor in E; [by subst|lia|by apply Hc|lia] end.
Qed.

Lemma exposure_cap_ok b nu c s r s' :
  check_borrower_exposure_cap b nu c s = Ok r s' ->
  s' = s /\ (r = None -> le_opt nu (pers s (DK.MaxBorrowerExposure b)) = true).
Proof.
  unfold check_borrower_exposure_cap. intros Hr. mstep Hr. subst.
  destruct (pers s (DK.MaxBorrowerExposure b)) as [m|] eqn:E; minv Hr; split; try done.
  intros _. bsimp. by apply Z.leb_le.
Qed.

(** The draw reads what it started with: only the guard flag and events change
    before the limits are checked. *)
Definition K_limits (a : area) (k : StorageKey) : bool :=
  match a, k with Inst, KSym sym_reentrancy => false | _, _ => true end.

Record same_limits (now : Z) b s s' : Prop := {
  sl_frozen : draws_frozen s' = draws_frozen s;
  sl_borrower : borrower_frozen now s' b = borrower_frozen now s b;
  sl_line_frozen : line_frozen s' b = line_frozen s b;
  sl_blocked : blocked s' b = blocked s b;
  sl_max : inst s' DK.MaxDrawAmount = inst s DK.MaxDrawAmount;
  sl_ratio : min_ratio s' = min_ratio s;
  sl_value : effective_value s' b = effective_value s b;
  sl_ucap : forall l, utilization_cap s' b l = utilization_cap s b l;
  sl_ucap_raw : pers s' (DK.UtilizationCapBps b) = pers s (DK.UtilizationCapBps b);
  sl_bcap : pers s' (DK.MaxBorrowerExposure b) = pers s (DK.MaxBorrowerExposure b);
  sl_cool : cooldown_over now s' b = cooldown_over now s b;
  sl_line : line_of s' b = line_of s b;
  sl_typed : collateral_typed s b -> collateral_typed s' b;
}.

Lemma same_limits_frame now b s s' : frame K_limits s s' -> same_limits now b s s'.
Proof.
  intros Hf.
  assert (forall k, pers s' k = pers s k) as Hp by (intros k; exact (Hf Pers k eq_refl)).
  assert (forall k, k <> KSym sym_reentrancy -> inst s' k = inst s k) as Hi.
  { intros k Hk. apply (Hf Inst k). by destruct k as [| |[]| | |]. }
  assert (forall t, weight_of s' t = weight_of s t) as Hw
    by (intros; unfold weight_of; by rewrite Hi).
  assert (forall t, token_collateral s' b t = token_collateral s b t) as Ht
    by (intros; unfold token_collateral; by rewrite Hp).
  assert (collateral_of s' b = collateral_of s b) as Hc by (unfold collateral_of; by rewrite Hp).
  split; try (unfold draws_frozen, borrower_frozen, line_frozen, blocked, min_ratio, cooldown_over,
    utilization_cap, line_of; intros; rewrite ?Hp, ?Hi by done; done).
  - unfold effective_value, legacy_weight, allowlist. rewrite Hc, !Hi by done. f_equal.
    + f_equal. by case_match.
    + apply sum_ext. intros t _. by rewrite Ht, Hw.
  - intros [H1' H2' H3']. split; [by rewrite Hc|intros; by rewrite Ht|intros; by rewrite Hw].
Qed.

(** The line a draw writes, whatever the rest of the state does. *)
Definition K_own (b : Address) (a : area) (k : StorageKey) : bool :=
  match a, k with Pers, KLine b' => bool_decide (b' = b) | _, _ => false end.

Lemma persist_writes b line pu ps c s u s' :
  persist_credit_line b line pu ps c s = Ok u s' -> line_of s' b = Some line.
Proof.
  unfold persist_credit_line, bump_credit_line_ttl. intros Hr.
  apply mbind_ok in Hr as (i & s1 & _ & Hr). apply mbind_ok in Hr as ([] & s2 & Hput & Hr).
  transitivity (line_of s2 b).
  - eapply (frame_line_of (K_own b)); [eapply frame_steps; [exact Hr|kframe]|].
    cbn. by rewrite bool_decide_eq_true_2.
  - apply pset_ok in Hput as ->. unfold line_of, pers. by sput.
Qed.

(** The ranges of the Rust types a draw computes with. *)
Record draw_typed s b : Prop := {
  dt_collateral : collateral_typed s b;
  dt_ratio : 0 <= min_ratio s;
  dt_cap : forall cap, pers s (DK.UtilizationCapBps b) = Some cap -> 0 <= cap;
  dt_line : forall l, line_of s b = Some l -> 0 <= cl_utilized_amount l /\ cl_credit_limit l <= i128_max;
}.

Lemma accrued_utilized now old line :
  accrued now old line -> cl_utilized_amount old <= cl_utilized_amount line.
Proof. destruct 1; cbn; lia. Qed.

(** Of all checks only the signature touches the host. *)
Lemma draw_checks_host b amt c s old line nu s' :
  Credit.draw_checks b amt c s = Ok (old, line, nu) s' ->
  host_require_auth b (host_state s) = Some (host_state s').
Proof.
  intros Hr. unfold Credit.draw_checks, Credit.draw_preflight, Credit.draw_cooldown_guard,
    Credit.draw_collateral_guard, Credit.draw_utilization_cap_guard in Hr.
  apply mbind_ok in Hr as ([] & s1 & Ha & Hr). apply require_auth_ok in Ha as (h & Hh & ->).
  rewrite Hh. f_equal. match type of Hr with ?m c _ = _ =>
    assert (steps same_guards m) as G by guards_tac; destruct (G _ _ _ _ Hr) as [-> _] end. done.
Qed.

(** The checks, on a state that differs from [s] in the guard flag only. *)
Lemma draw_checks_ok b amt c s s1 old line nu s2 :
  Credit.draw_checks b amt c s1 = Ok (old, line, nu) s2 -> frame K_limits s s1 ->
  paused s = false -> draw_typed s b ->
  frame K_limits s s2 /\ line_of s b = Some old /\ accrued (ledger_timestamp c) old line /\
  nu = cl_utilized_amount line + amt /\ DrawAllowed (ledger_timestamp c) s b amt line.
Proof.
  intros Hr Hf Hp [HT Hmr Hcap Hline]. unfold Credit.draw_checks in Hr.
  apply mbind_ok in Hr as ([] & s3 & Hauth & Hr).
  assert (frame K_limits s s3) as Hf3 by (etrans; [exact Hf|]; eapply frame_steps; [exact Hauth|kframe]).
  clear Hauth Hf. apply mbind_ok in Hr as ([] & s4 & Hpre & Hr).
  apply draw_preflight_ok in Hpre as (-> & Hpos & Hfr & Hbl & Hmax).
  mstep Hr. subst. mstep Hr. apply mbind_ok in Hr as (line' & s5 & Hacc & Hr).
  apply apply_accrual_ok in Hacc as [Hacc Hf5]. specialize (Hf5 K_limits).
  assert (frame K_limits s s5) as Hf2 by (by etrans).
  destruct (same_limits_frame (ledger_timestamp c) b _ _ Hf3) as [L1 L2 L3 L4 L5 _ _ _ _ _ _ L12 _].
  destruct (same_limits_frame (ledger_timestamp c) b _ _ Hf2) as [_ _ _ _ _ M6 M7 M8 M9 M10 M11 _ M13].
  rewrite L12 in *. rewrite L1, L2, L3, L4, L5 in *.
  match goal with E : line_of s b = Some ?o |- _ => destruct (Hline _ E) as [Hu Hl] end.
  pose proof (accrued_utilized _ _ _ Hacc). destruct (accrued_keeps _ _ _ Hacc) as (_ & _ & Hlim & _).
  apply mbind_ok in Hr as ([] & s6 & Hst & Hr).
  assert (s6 = s5 /\ (cl_status line' = Active \/ cl_status line' = Restricted)) as [-> Hst'].
  { destruct (cl_status line'); cbn in Hst; try discriminate Hst; apply mret_ok in Hst as [_ ->]; tauto. }
  apply mbind_ok in Hr as ([] & s6 & Hcd & Hr). apply draw_cooldown_ok in Hcd as [-> Hcd].
  mstep Hr. chk. subst. mstep Hr.
  apply mbind_ok in Hr as ([] & s6 & Hcol & Hr). apply draw_collateral_ok in Hcol as [-> Hcol];
    [|by apply M13|lia|by rewrite M6].
  apply mbind_ok in Hr as ([] & s6 & Huc & Hr). apply draw_utilization_cap_ok in Huc as [-> Huc];
    [|congruence|by rewrite M9].
  apply mbind_ok in Hr as (r & s6 & Hbc & Hr). apply exposure_cap_ok in Hbc as [-> Hbc].
  destruct r; [minv Hr; done|]. minv Hr. simplify_eq. rewrite M6, M7, M8, M10, M11 in *.
  do 4 (split; [done|]). split; auto.
Qed.

Lemma draw_transfer_ok b amt c s u s' :
  Credit.draw_transfer b amt c s = Ok u s' ->
  exists token reserve, inst s DK.LiquidityToken = Some token /\ inst s DK.LiquiditySource = Some reserve /\
    (exists v, token_balance token reserve (host_state s) = Some v /\ amt <= v) /\
    token_transfer (current_contract c) token reserve b amt (host_state s) = Some (host_state s').
Proof.
  unfold Credit.draw_transfer. intros Hr. minv Hr. apply transfer_ok in Hr as (h & Hh & ->).
  do 2 eexists. split; [eassumption|]. split; [eassumption|]. split; [by eauto|done].
Qed.

(** The stored total moves with the line that is written. *)
Definition K_total (a : area) (k : StorageKey) : bool :=
  match a, k with Inst, KData DK.TotalUtilized => true | _, _ => false end.

Lemma persist_total b line pu ps c s u s' :
  persist_credit_line b line pu ps c s = Ok u s' ->
  total_utilized s' = total_utilized s + (cl_utilized_amount line - pu).
Proof.
  unfold persist_credit_line. intros Hr.
  apply mbind_ok in Hr as (i & s1 & E1 & Hr). apply mbind_ok in Hr as ([] & s2 & E2 & Hr).
  apply mbind_ok in Hr as ([] & s3 & E3 & Hr). apply mbind_ok in Hr as ([] & s4 & E4 & Hr).
  assert (frame K_total s s3) as F1.
  { etrans; [eapply frame_steps; [exact E1|kframe]|]. etrans; eapply frame_steps; [exact E2|kframe|exact E3|kframe]. }
  assert (frame K_total s4 s') as F2 by (eapply frame_steps; [exact Hr|kframe]).
  unfold total_utilized. rewrite (frame_inst K_total _ _ _ F2) by done.
  rewrite <- (frame_inst K_total _ _ _ F1) by done. fold (total_utilized s3) (total_utilized s4).
  unfold adjust_total_utilized in E4. minv E4; chk; subst; bsimp; [lia|].
  match goal with Hi : Soroban.iset _ _ _ _ = Ok _ ?q |- _ =>
    assert (frame K_total q s4) as F3 by (eapply frame_steps; [exact E4|kframe]);
    apply iset_ok in Hi as -> end.
  unfold total_utilized at 1. rewrite (frame_inst K_total _ _ _ F3) by done. unfold inst at 1. sput. cbn. lia.
Qed.

#[export] Instance reads_max_total_exposure :
  Reads get_max_total_exposure (fun _ s => inst s DK.MaxTotalExposure).
Proof. unfold get_max_total_exposure. solve_reads. Qed.

(** The global cap bounds the total that the draw is about to write. *)
Lemma draw_global_cap_ok b line pu amt c s u s' :
  Credit.draw_exposure_guard b line pu amt c s = Ok u s' ->
  host_state s' = host_state s /\
  le_opt (total_utilized s' + (cl_utilized_amount line + amt - pu)) (inst s DK.MaxTotalExposure) = true.
Proof.
  intros Hr. split.
  { assert (steps same_guards (Credit.draw_exposure_guard (H := H) b line pu amt)) as G
      by (unfold Credit.draw_exposure_guard; guards_tac). apply (G _ _ _ _ Hr). }
  unfold Credit.draw_exposure_guard in Hr. mstep Hr. subst.
  destruct (inst s DK.MaxTotalExposure) as [m|]; [|done]. cbn [le_opt]. minv Hr; chk; subst; bsimp.
  match goal with E : (let? t := ?o in _) = Some _ |- _ => destruct o eqn:?; [|done] end. chk. subst.
  apply Z.leb_le. lia.
Qed.

(** The liquidity configuration, which no part of a draw writes. *)
Definition K_config (a : area) (k : StorageKey) : bool :=
  match a, k with Inst, KData (DK.LiquidityToken | DK.LiquiditySource) => true | _, _ => false end.

(** The run of a draw, in full. *)
Lemma draw_credit_ok b amt c s u s' :
  run (CDrawCredit b amt) c s = Ok u s' -> draw_typed s b ->
  exists old line token reserve h,
    line_of s b = Some old /\ accrued (ledger_timestamp c) old line /\
    DrawAllowed (ledger_timestamp c) s b amt line /\
    line_of s' b = Some (set_utilized line (cl_utilized_amount line + amt)) /\
    le_opt (total_utilized s') (inst s DK.MaxTotalExposure) = true /\
    inst s DK.LiquidityToken = Some token /\ inst s DK.LiquiditySource = Some reserve /\
    host_require_auth b (host_state s) = Some h /\
    (exists v, token_balance token reserve h = Some v /\ amt <= v) /\
    token_transfer (current_contract c) token reserve b amt h = Some (host_state s').
Proof.
  cbn [run]. intros Hr HT. unfold Credit.draw_credit, Credit.draw_record, with_reentrancy_guard, assert_not_paused in Hr.
  minv Hr. match goal with Hm : clear_reentrancy_guard _ _ = Ok _ ?sf |- _ => rename sf into s' end.
  match goal with Hg : set_reentrancy_guard _ _ = Ok _ ?sg, Hc : Credit.draw_checks _ _ _ ?sg = _ |- _ =>
    assert (host_state sg = host_state s) as Hh0 by
      (assert (steps same_guards (set_reentrancy_guard (H := H))) as G by guards_tac; apply (G _ _ _ _ Hg));
    pose proof (draw_checks_host _ _ _ _ _ _ _ _ Hc) as Hauth; rewrite Hh0 in Hauth;
    assert (frame K_limits s sg) as Hf by (eapply frame_steps; [eassumption|kframe]);
    eapply draw_checks_ok in Hc as (Hf2 & Hl & Hacc & -> & Hal); [|exact Hf|done|done] end.
  match goal with Ht : Credit.draw_transfer _ _ _ ?sg = Ok _ ?sh, He : Credit.draw_exposure_guard _ _ _ _ _ _ = _ |- _ =>
    assert (frame K_total sg sh) as Hft by (eapply frame_steps; [exact Ht|kframe]);
    apply draw_transfer_ok in Ht as (token & reserve & Htok & Hres & Hbal & Htr);
    rename sg into s_t, sh into s_a;
    assert (frame K_config s2 s_t) as Hfc by (eapply frame_steps; [exact He|kframe]);
    apply draw_global_cap_ok in He as [Hhe Hcap] end.
  match goal with Hm : persist_credit_line _ _ _ _ _ _ = Ok _ ?sg |- _ =>
    pose proof (persist_writes _ _ _ _ _ _ _ _ Hm) as Hw;
    pose proof (persist_total _ _ _ _ _ _ _ _ Hm) as Htot; rename sg into s_w end.
  match type of Hw with line_of _ _ = Some ?lw => assert (line_of s' b = Some lw) as Hw' end.
  { rewrite <- Hw. assert (frame (K_own b) s_w s_w) as K by done. chain.
    eapply frame_line_of; [exact K|]. cbn. by rewrite bool_decide_eq_true_2. }
  assert (total_utilized s' = total_utilized s_w) as Ht'.
  { assert (frame K_total s_w s_w) as K by done. chain. unfold total_utilized. by rewrite (frame_inst K_total _ _ _ K). }
  assert (host_state s' = host_state s_a) as Hh
    by (assert (same_guards s_a s_a) as G by done; chain_guards; apply G).
  exists c0, c1, token, reserve, (host_state s_t). rewrite Hh.
  assert (forall k, K_config Inst k = true -> inst s_t k = inst s k) as Hk.
  { intros k Hk. rewrite (frame_inst K_config _ _ _ Hfc), (frame_inst K_limits _ _ _ Hf2); [done| |done].
    by destruct k as [| |[]| | |]. }
  rewrite Hk in Htok, Hres by done. do 4 (split; [done|]). split; [|by rewrite <- Hhe in Hauth].
  rewrite (frame_inst K_limits _ _ _ Hf2) in Hcap by done. rewrite Ht', Htot.
  replace (total_utilized s_a) with (total_utilized s_t); [done|].
  unfold total_utilized. by rewrite (frame_inst K_total _ _ _ Hft).
Qed.

(** C4. A draw that succeeds respected every limit: the protocol and the line were
    open for draws, the debt after accrual and draw stays within the credit limit,
    the utilisation cap and the borrower's exposure cap, and is covered by the
    weighted collateral at the minimum ratio; the total owed by all lines that the
    draw leaves behind is within the global exposure cap.  The line is written with
    exactly the drawn amount added; the host state changed by the borrower's
    signature and by one transfer of exactly that amount, from the reserve, which
    held it, to the borrower. *)
Theorem draw_credit_sound b amt c s u s' :
  run (CDrawCredit b amt) c s = Ok u s' -> draw_typed s b ->
  exists old line token reserve h,
    line_of s b = Some old /\ accrued (ledger_timestamp c) old line /\
    DrawAllowed (ledger_timestamp c) s b amt line /\
    line_of s' b = Some (set_utilized line (cl_utilized_amount line + amt)) /\
    le_opt (total_utilized s') (inst s DK.MaxTotalExposure) = true /\
    inst s DK.LiquidityToken = Some token /\ inst s DK.LiquiditySource = Some reserve /\
    host_require_auth b (host_state s) = Some h /\
    (exists v, token_balance token reserve h = Some v /\ amt <= v) /\
    token_transfer (current_contract c) token reserve b amt h = Some (host_state s').
Proof. exact (draw_credit_ok b amt c s u s'). Qed.
End draw.

(** ** Witnesses *)
Import Concrete.

(** Alice's line in the scenario. *)
Definition alice_line (utilized now : Z) : CreditLineData :=
  mkLine alice 100000 utilized 1000 50 Active 0 0 now 0.

Lemma secured_line : line_of secured alice = Some (alice_line 0 100).
Proof. vm_compute. reflexivity. Qed.

Lemma drawn_line : line_of drawn alice = Some (alice_line 50000 200).
Proof. vm_compute. reflexivity. Qed.

(** The history writes no V2 collateral and no risk weight. *)
Definition K_policy (a : area) (k : StorageKey) : bool :=
  match a, k with
  | Inst, KData (DK.CollateralRiskWeightBps _)
  | Pers, KData (DK.CollateralBalanceV2 _ _ | DK.UtilizationCapBps _) => true
  | _, _ => false
  end.

Lemma step_keeps (K : area -> StorageKey -> bool) who call t (s0 s : St) :
  steps (frame K) (run call) -> frame K s0 s -> frame K s0 (step who call t s).
Proof.
  intros HK Hf. etrans; [exact Hf|]. transitivity (signed_by [who] s); [by apply frame_same_stores|].
  unfold step, after. destruct (run call (at_time t) (signed_by [who] s)) as [u s'|] eqn:E; [by eapply HK|done].
Qed.

Lemma collateral_typed_plain (s : St) b :
  frame K_policy genesis s -> collateral_of s b <= i128_max -> collateral_typed s b.
Proof.
  intros Hf Hc. split; [done| |]; intros t.
  - unfold token_collateral. by rewrite (frame_pers K_policy _ _ _ Hf).
  - unfold weight_of. by rewrite (frame_inst K_policy _ _ _ Hf).
Qed.

Lemma secured_policy : frame K_policy genesis (signed_by [alice] secured).
Proof.
  transitivity secured; [|by apply frame_same_stores].
  repeat (apply step_keeps; [cbn [run]; kframe|]). done.
Qed.

Lemma secured_typed : draw_typed (signed_by [alice] secured) alice.
Proof.
  split; [|by vm_compute| |].
  - apply collateral_typed_plain; [exact secured_policy|by vm_compute].
  - intros cap. by rewrite (frame_pers K_policy _ _ _ secured_policy).
  - intros l Hl. change (line_of secured alice = Some l) in Hl.
    rewrite secured_line in Hl. by injection Hl as <-.
Qed.

(** C4: alice draws 50000 against collateral of 150000. *)
Lemma draw_credit_sound_witness :
  exists old line tok res h,
    line_of (signed_by [alice] secured) alice = Some old /\ accrued 200 old line /\
    DrawAllowed 200 (signed_by [alice] secured) alice 50000 line /\
    line_of drawn alice = Some (set_utilized line (cl_utilized_amount line + 50000)) /\
    le_opt (total_utilized drawn) (inst (signed_by [alice] secured) DK.MaxTotalExposure) = true /\
    inst (signed_by [alice] secured) DK.LiquidityToken = Some tok /\
    inst (signed_by [alice] secured) DK.LiquiditySource = Some res /\
    host_require_auth alice (host_state (signed_by [alice] secured)) = Some h /\
    (exists v, token_balance tok res h = Some v /\ 50000 <= v) /\
    token_transfer self tok res alice 50000 h = Some (host_state drawn).
Proof.
  apply (draw_credit_sound alice 50000 (at_time 200) (signed_by [alice] secured) tt drawn).
  - apply run_after. vm_compute. reflexivity.
  - exact secured_typed.
Defined.
