(* ===== verification/AccrualExact.v ===== *)
(** * The interest an accrual charges

    A reference formula for [apply_accrual]: the grace window is charged at the
    waiver's rate and the rest of the period at the effective rate.  The
    detailed routine equals it whenever it returns, returns whenever the numbers
    fit, and is monotone in time. *)
From S2P Require Import Prelude MathUtils Soroban CreditTypes CreditEvents CreditStorage CreditState Accrual Collateral Fees Freeze Oracles Scoring Risk Lifecycle Views CreditContract CreditCalls CreditLedger CreditMoves CreditInvariant Scenario CreditTheorems CreditSafety DrawRepay.

(** ** Operations that always return *)
Class Runs `{C : Contract} `{H : Host} {A} (m : M A) : Prop :=
  runs : forall c s, exists a s', m c s = Ok a s'.

Section runs.
Context `{C : Contract} `{H : Host}.

#[export] Instance runs_ret {A} (a : A) : Runs (mret a).
Proof. intros c s. by exists a, s. Qed.

#[export] Instance runs_bind {A B} (m : M A) (k : A -> M B) :
  Runs m -> (forall a, Runs (k a)) -> Runs (mbind m k).
Proof.
  intros Hm Hk c s. destruct (Hm c s) as (a & s1 & E). destruct (Hk a c s1) as (b & s2 & E').
  exists b, s2. unfold mbind. by rewrite E.
Qed.

#[export] Instance runs_iget k : Runs (Soroban.iget k).
Proof. intros c s. by eexists _, _. Qed.

#[export] Instance runs_pget k : Runs (Soroban.pget k).
Proof. intros c s. by eexists _, _. Qed.

#[export] Instance runs_timestamp : Runs timestamp.
Proof. intros c s. by eexists _, _. Qed.

#[export] Instance runs_publish e : Runs (publish e).
Proof. intros c s. by eexists _, _. Qed.

#[export] Instance runs_if {A} (b : bool) (m1 m2 : M A) : Runs m1 -> Runs m2 -> Runs (if b then m1 else m2).
Proof. by destruct b. Qed.

#[export] Instance runs_option {A B} (o : option A) (f : A -> M B) (m : M B) :
  (forall a, Runs (f a)) -> Runs m -> Runs (match o with Some a => f a | None => m end).
Proof. by destruct o. Qed.

(** A running read returns its projection. *)
Lemma runs_reads {A} (m : M A) f `{!Runs m} `{!Reads m f} c s : m c s = Ok (f c s) s.
Proof. destruct (runs c s) as (a & s' & E). rewrite E. by apply reads in E as [-> ->]. Qed.

Lemma runs_with {A B} (m : M A) f (k : A -> M B) `{!Runs m} `{!Reads m f} c s :
  mbind m k c s = k (f c s) c s.
Proof. unfold mbind. by rewrite (runs_reads m f). Qed.
End runs.

(** [run_read] evaluates the read a goal's run starts with. *)
Ltac run_read :=
  lazymatch goal with |- context [mbind ?m _ ?c ?s] => rewrite (runs_with m _ _ c s); cbv beta end.

Section credit_runs.
Context `{H : Host}.

#[export] Instance runs_bump_if_present k : Runs (C := CreditContract) (bump_if_present k).
Proof.
  intros c s. unfold bump_if_present, bump_persistent_ttl, mbind, phas, pextend_ttl. cbn.
  by destruct (persistent_store s k) eqn:E; rewrite ?E; eexists _, _.
Qed.

#[export] Instance runs_pget_bump k : Runs (pget_bump k).
Proof. apply _. Qed.

#[export] Instance runs_get_credit_line b : Runs (get_credit_line b).
Proof.
  intros c s. unfold get_credit_line, bump_credit_line_ttl, mbind, pget, pextend_ttl. cbn.
  by destruct (persistent_store s (KLine b)) eqn:E; rewrite ?E; eexists _, _.
Qed.
End credit_runs.

(** ** The reference formula *)
Definition flat (principal rate secs : Z) : Z := principal * rate * secs / BPS_YEAR_DENOM.

(** The rate of the waiver. *)
Definition waiver_rate (cfg : GracePeriodConfig) : Z :=
  match waiver_mode cfg with FullWaiver => 0 | ReducedRate => reduced_rate_bps cfg end.

(** The end of the grace window of a suspended line, and the rate inside it. *)
Definition grace_window (grace : option GracePeriodConfig) (line : CreditLineData) : option (Z * Z) :=
  match cl_status line, grace with
  | (Suspended | SelfSuspended), Some cfg =>
      if 0 <? grace_period_seconds cfg
      then Some (sat_u64 (cl_suspension_ts line + grace_period_seconds cfg),
                 waiver_rate cfg)
      else None
  | _, _ => None
  end.

(** Seconds of the period before and after the end of the window. *)
Definition interest_due (grace : option GracePeriodConfig) (rate now : Z) (line : CreditLineData) : Z :=
  let t0 := cl_last_accrual_ts line in
  let u := cl_utilized_amount line in
  match grace_window grace line with
  | None => flat u rate (now - t0)
  | Some (e, r) => flat u r (Z.max 0 (Z.min now e - t0)) + flat u rate (Z.max 0 (now - Z.max e t0))
  end.

(** The highest rate either part is charged at. *)
Definition top_rate (grace : option GracePeriodConfig) (rate : Z) (line : CreditLineData) : Z :=
  match grace_window grace line with None => rate | Some (_, r) => Z.max rate r end.

Section formula.
Context `{H : Host}.
Abbreviation S' := (State (C := CreditContract)).
Implicit Types (s : S').

Definition grace_of s : option GracePeriodConfig := inst s sym_grace_cfg.

Definition delinquent_at (now : Z) s b : bool :=
  match line_of s b with
  | None => false
  | Some line =>
      if bool_decide (cl_status line = Closed) || (cl_utilized_amount line <=? 0) then false else
      match pers s (DK.RepaymentSchedule b) with
      | None => false
      | Some schedule =>
          sat_u64 (next_due_ts schedule
                   + match grace_of s with Some cfg => grace_period_seconds cfg | None => 0 end) <? now
      end
  end.

Definition surcharge_of s : Z :=
  match inst s DK.LateFeeConfig with
  | Some (AprBased c) => surcharge_bps c
  | Some (Flat _) => 0
  | None => unwrap_or (inst s DK.PenaltySurchargeBps) 0
  end.

Definition rate_due (now : Z) s (line : CreditLineData) : Z :=
  effective_rate (delinquent_at now s (cl_borrower line)) (surcharge_of s) (cl_interest_rate_bps line).

Definition interest_of (now : Z) s (line : CreditLineData) : Z :=
  interest_due (grace_of s) (rate_due now s line) now line.

(** The line after an accrual at [now]. *)
Definition accrue_line (now : Z) s (line : CreditLineData) : CreditLineData :=
  if now <=? cl_last_accrual_ts line then line else
  if cl_utilized_amount line =? 0 then set_last_accrual_ts line now else
  let i := interest_of now s line in
  if 0 <? i then
    set_last_accrual_ts
      (set_accrued (set_utilized line (cl_utilized_amount line + i)) (cl_accrued_interest line + i)) now
  else line.

Lemma is_delinquent_eq b c s : is_delinquent b c s = Ok (delinquent_at (ledger_timestamp c) s b) s.
Proof.
  unfold is_delinquent, delinquent_at, get_repayment_schedule.
  run_read.
  destruct (line_of s b) as [line|]; [|done]. destruct (_ || _); [done|].
  run_read.
  by destruct (pers s _).
Qed.

Lemma penalty_surcharge_eq c s : penalty_surcharge c s = Ok (surcharge_of s) s.
Proof.
  unfold penalty_surcharge, surcharge_of, get_late_fee_config.
  run_read. unfold inst. by destruct (instance_store s DK.LateFeeConfig) as [[]|].
Qed.

(** The ranges of the Rust types the formula reads. *)
Record accrual_typed s (line : CreditLineData) : Prop := {
  at_utilized : 0 <= cl_utilized_amount line <= i128_max;
  at_rate : 0 <= cl_interest_rate_bps line <= u32_max;
  at_accrued : i128_min <= cl_accrued_interest line;
  at_stamp : 0 <= cl_last_accrual_ts line;
  at_surcharge : 0 <= surcharge_of s <= u32_max;
  at_grace : forall cfg, grace_of s = Some cfg -> 0 <= reduced_rate_bps cfg;
}.

Lemma effective_rate_bounds d sc r : 0 <= r <= u32_max -> 0 <= sc -> 0 <= effective_rate d sc r <= u32_max.
Proof.
  unfold effective_rate, MAX_INTEREST_RATE_BPS. intros. case_match; [|lia].
  unfold sat_u32, saturate. lia.
Qed.

Lemma prorate_eq p r secs c s q s' :
  prorate p r secs c s = Ok q s' -> 0 <= p -> 0 <= r -> 0 <= secs -> q = flat p r secs /\ 0 <= q /\ s' = s.
Proof.
  unfold prorate, flat. intros Hr Hp Hr' Hs. apply or_panic_ok in Hr as [Hr ->].
  apply prorate_floor in Hr as [-> ?]; auto.
Qed.

Lemma flat_0_rate p secs : flat p 0 secs = 0.
Proof. unfold flat. by rewrite Z.mul_0_r, Z.mul_0_l. Qed.

Lemma flat_0_secs p r : flat p r 0 = 0.
Proof. unfold flat. by rewrite Z.mul_0_r. Qed.

#[export] Instance reads_delinquent b :
  Reads (is_delinquent b) (fun c s => delinquent_at (ledger_timestamp c) s b).
Proof. intros c s a s'. rewrite is_delinquent_eq. by intros [= <- <-]. Qed.

#[export] Instance runs_delinquent b : Runs (is_delinquent b).
Proof. intros c s. rewrite is_delinquent_eq. by eexists _, _. Qed.

#[export] Instance reads_surcharge : Reads penalty_surcharge (fun _ s => surcharge_of s).
Proof. intros c s a s'. rewrite penalty_surcharge_eq. by intros [= <- <-]. Qed.

#[export] Instance runs_surcharge : Runs penalty_surcharge.
Proof. intros c s. rewrite penalty_surcharge_eq. by eexists _, _. Qed.

Lemma grace_interest_ok cfg p secs c s q s' :
  grace_interest cfg p secs c s = Ok q s' -> 0 <= p -> 0 <= reduced_rate_bps cfg -> 0 <= secs ->
  q = flat p (waiver_rate cfg) secs /\ 0 <= q /\ s' = s.
Proof.
  unfold grace_interest, waiver_rate. intros Hr Hp Hc Hs. destruct (waiver_mode cfg).
  - minv Hr. by rewrite flat_0_rate.
  - by apply prorate_eq in Hr.
Qed.

Lemma straddle_ok line cfg rate t0 e now c s q s' :
  straddle_interest line cfg rate t0 e now c s = Ok q s' ->
  0 <= cl_utilized_amount line <= i128_max -> 0 <= rate -> 0 <= reduced_rate_bps cfg -> t0 <= e <= now ->
  q = flat (cl_utilized_amount line) (waiver_rate cfg) (e - t0) + flat (cl_utilized_amount line) rate (now - e).
Proof.
  intros Hr Hu Hrate Hc Ht. unfold straddle_interest in Hr. cbv zeta in Hr. rewrite as_u128_id in Hr by lia.
  apply mbind_ok in Hr as (q1 & s1 & H1 & Hr). apply grace_interest_ok in H1 as (-> & _ & ->); [|lia..].
  apply mbind_ok in Hr as (q2 & s2 & _ & Hr). apply mbind_ok in Hr as (q3 & s3 & _ & Hr).
  apply mbind_ok in Hr as ([] & s4 & _ & Hr).
  apply mbind_ok in Hr as (q5 & s5 & H5 & Hr). apply prorate_eq in H5 as (-> & _ & ->); [|lia..].
  apply or_panic_ok in Hr as [Hr _]. chk. lia.
Qed.

Lemma window_ok line cfg rate e now c s q s' :
  (if now <=? e then grace_interest cfg (cl_utilized_amount line) (now - cl_last_accrual_ts line)
   else if e <=? cl_last_accrual_ts line
   then prorate (cl_utilized_amount line) rate (now - cl_last_accrual_ts line)
   else straddle_interest line cfg rate (cl_last_accrual_ts line) e now) c s = Ok q s' ->
  0 <= cl_utilized_amount line <= i128_max -> 0 <= rate -> 0 <= reduced_rate_bps cfg ->
  cl_last_accrual_ts line <= now ->
  q = flat (cl_utilized_amount line) (waiver_rate cfg) (Z.max 0 (Z.min now e - cl_last_accrual_ts line))
      + flat (cl_utilized_amount line) rate (Z.max 0 (now - Z.max e (cl_last_accrual_ts line))).
Proof.
  intros Hr Hu Hrate Hc Ht. destruct (now <=? e) eqn:E1; [|destruct (e <=? cl_last_accrual_ts line) eqn:E2]; bsimp.
  - apply grace_interest_ok in Hr as (-> & _); [|lia..].
    rewrite (Z.max_l 0 (now - _)), flat_0_secs by lia. rewrite Z.add_0_r. f_equal. lia.
  - apply prorate_eq in Hr as (-> & _); [|lia..].
    rewrite (Z.max_l 0 (Z.min _ _ - _)), flat_0_secs by lia. rewrite Z.add_0_l. f_equal. lia.
  - apply straddle_ok in Hr as ->; [|lia..]. f_equal; f_equal; lia.
Qed.

Lemma interest_ok line rate now c s q s' :
  accrued_interest_for line rate now c s = Ok q s' -> accrual_typed s line -> 0 <= rate ->
  cl_last_accrual_ts line <= now ->
  q = interest_due (grace_of s) rate now line.
Proof.
  intros Hr HT Hrate Ht. destruct HT as [Hu _ _ H0 _ Hg]. unfold accrued_interest_for in Hr. cbv zeta in Hr.
  rewrite as_u128_id in Hr by lia. unfold interest_due, grace_window.
  assert (forall c s q s', prorate (cl_utilized_amount line) rate (now - cl_last_accrual_ts line) c s = Ok q s' ->
    q = flat (cl_utilized_amount line) rate (now - cl_last_accrual_ts line)) as Hplain
    by (intros ? ? ? ? Hp; apply prorate_eq in Hp; [tauto|lia..]).
  destruct (cl_status line); try (by eapply Hplain); mstep Hr; subst; unfold grace_of, inst in *;
    (destruct (instance_store s sym_grace_cfg) as [cfg|] eqn:E; [|by eapply Hplain]);
    specialize (Hg _ eq_refl);
    (destruct (0 <? grace_period_seconds cfg); [|by eapply Hplain]);
    set (e := sat_u64 (cl_suspension_ts line + grace_period_seconds cfg)) in *; bsimp;
    by apply (window_ok line cfg rate e now c s q s').
Qed.

(** *** It returns whenever the numbers fit *)
Lemma prorate_runs p r secs c s :
  0 <= p -> 0 <= r -> 0 <= secs -> p * r * secs <= u128_max -> prorate p r secs c s = Ok (flat p r secs) s.
Proof.
  intros Hp Hr Hs Hb. unfold prorate.
  assert (checked_prorate_interest p r secs Floor = Some (flat p r secs)) as ->; [|done].
  apply checked_prorate_Some; [done..|]. split; [done|]. split.
  - destruct (Z.eq_dec secs 0) as [?|?]; [by left|right]. assert (0 <= p * r) by nia. nia.
  - cbn. unfold flat. pose proof BPS_YEAR_DENOM_val. pose proof (div_bounds (p * r * secs) BPS_YEAR_DENOM). lia.
Qed.

Lemma grace_interest_runs cfg p secs c s :
  0 <= p -> 0 <= reduced_rate_bps cfg -> 0 <= secs -> p * waiver_rate cfg * secs <= u128_max ->
  grace_interest cfg p secs c s = Ok (flat p (waiver_rate cfg) secs) s.
Proof.
  unfold grace_interest, waiver_rate. destruct (waiver_mode cfg); intros.
  - by rewrite flat_0_rate.
  - by apply prorate_runs.
Qed.

Lemma scaled_le p r r' a b : 0 <= p -> 0 <= r <= r' -> 0 <= a <= b -> p * r * a <= p * r' * b.
Proof. intros. apply Z.mul_le_mono_nonneg; nia. Qed.

Lemma flat_le p r a : 0 <= p -> 0 <= r -> 0 <= a -> 0 <= flat p r a <= p * r * a.
Proof.
  intros. unfold flat. pose proof BPS_YEAR_DENOM_val. assert (0 <= p * r * a) by (apply Z.mul_nonneg_nonneg; nia).
  split; [apply Z.div_pos; lia|]. apply Z.div_le_upper_bound; nia.
Qed.

Lemma straddle_runs line cfg rate t0 e now c s :
  0 <= cl_utilized_amount line <= i128_max -> 0 <= rate -> 0 <= reduced_rate_bps cfg -> t0 <= e <= now ->
  cl_utilized_amount line * Z.max rate (waiver_rate cfg) * (now - t0) <= u128_max ->
  exists q s', straddle_interest line cfg rate t0 e now c s = Ok q s'.
Proof.
  intros Hu Hrate Hc Ht Hb. assert (0 <= waiver_rate cfg) as Hw by (unfold waiver_rate; case_match; lia).
  set (u := cl_utilized_amount line) in *. set (top := Z.max rate (waiver_rate cfg)) in *.
  pose proof (scaled_le u (waiver_rate cfg) top (e - t0) (now - t0)).
  pose proof (scaled_le u rate top (e - t0) (now - t0)).
  pose proof (scaled_le u rate top (now - e) (now - t0)).
  pose proof (scaled_le u (waiver_rate cfg) top (e - t0) (e - t0)).
  pose proof (scaled_le u rate top (now - e) (now - e)).
  pose proof (flat_le u (waiver_rate cfg) (e - t0)). pose proof (flat_le u rate (now - e)).
  unfold straddle_interest. fold u. rewrite as_u128_id by lia. unfold mbind at 1.
  rewrite grace_interest_runs by lia. unfold mbind at 1. rewrite prorate_runs by lia.
  unfold mbind at 1. rewrite grace_interest_runs by lia. unfold mbind at 1.
  match goal with |- context [match ?m with Ok _ _ => _ | Fail _ => _ end] => assert (exists s1, m = Ok tt s1) as [s1 ->] end.
  { case_match; eexists; done. }
  unfold mbind. rewrite prorate_runs by lia.
  unfold or_panic. rewrite checked_in by lia. by eexists _, _.
Qed.

Lemma window_runs line cfg rate e now c s :
  0 <= cl_utilized_amount line <= i128_max -> 0 <= rate -> 0 <= reduced_rate_bps cfg ->
  cl_last_accrual_ts line <= now ->
  cl_utilized_amount line * Z.max rate (waiver_rate cfg) * (now - cl_last_accrual_ts line) <= u128_max ->
  exists q s', (if now <=? e then grace_interest cfg (cl_utilized_amount line) (now - cl_last_accrual_ts line)
   else if e <=? cl_last_accrual_ts line
   then prorate (cl_utilized_amount line) rate (now - cl_last_accrual_ts line)
   else straddle_interest line cfg rate (cl_last_accrual_ts line) e now) c s = Ok q s'.
Proof.
  intros Hu Hrate Hc Ht Hb. assert (0 <= waiver_rate cfg) as Hw by (unfold waiver_rate; case_match; lia).
  destruct (now <=? e) eqn:E1; [|destruct (e <=? cl_last_accrual_ts line) eqn:E2]; bsimp.
  - pose proof (scaled_le (cl_utilized_amount line) (waiver_rate cfg) (Z.max rate (waiver_rate cfg))
      (now - cl_last_accrual_ts line) (now - cl_last_accrual_ts line)).
    rewrite grace_interest_runs by lia. by eexists _, _.
  - pose proof (scaled_le (cl_utilized_amount line) rate (Z.max rate (waiver_rate cfg))
      (now - cl_last_accrual_ts line) (now - cl_last_accrual_ts line)).
    rewrite prorate_runs by lia. by eexists _, _.
  - apply straddle_runs; lia.
Qed.

Lemma interest_runs line rate now c s :
  accrual_typed s line -> 0 <= rate -> cl_last_accrual_ts line <= now ->
  cl_utilized_amount line * top_rate (grace_of s) rate line * (now - cl_last_accrual_ts line) <= u128_max ->
  exists q s', accrued_interest_for line rate now c s = Ok q s'.
Proof.
  intros [Hu _ _ H0 _ Hg] Hrate Ht. unfold top_rate, grace_window, accrued_interest_for. rewrite as_u128_id by lia.
  assert (cl_utilized_amount line * rate * (now - cl_last_accrual_ts line) <= u128_max ->
    exists q s', prorate (cl_utilized_amount line) rate (now - cl_last_accrual_ts line) c s = Ok q s') as Hplain
    by (intros; rewrite prorate_runs by lia; by eexists _, _).
  destruct (cl_status line); try exact Hplain; run_read; unfold grace_of, inst in *;
    (destruct (instance_store s sym_grace_cfg) as [cfg|] eqn:E; [|exact Hplain]);
    specialize (Hg _ eq_refl); (destruct (0 <? grace_period_seconds cfg); [|exact Hplain]);
    set (e := sat_u64 (cl_suspension_ts line + grace_period_seconds cfg));
    (assert (0 <= waiver_rate cfg) by (unfold waiver_rate; case_match; lia));
    by apply window_runs.
Qed.

#[export] Instance runs_penalty_events line d sc r : Runs (penalty_events line d sc r).
Proof. unfold penalty_events, publish_penalty_rate_entered_event, publish_penalty_rate_exited_event. apply _. Qed.

Lemma u128_to_i128_ok v c s i s' : u128_to_i128 v c s = Ok i s' -> 0 <= v -> i = v /\ v <= i128_max /\ s' = s.
Proof. unfold u128_to_i128. intros Hr Hv. minv Hr; bsimp. rewrite as_i128_id by lia. split; [done|]. split; [lia|done]. Qed.

Lemma u128_to_i128_runs v c s : 0 <= v <= i128_max -> u128_to_i128 v c s = Ok v s.
Proof. intros Hv. unfold u128_to_i128. rewrite (proj2 (Z.ltb_ge _ _)) by lia. rewrite as_i128_id by lia. done. Qed.

Lemma window_rate_nonneg s line e r :
  accrual_typed s line -> grace_window (grace_of s) line = Some (e, r) -> 0 <= r.
Proof.
  intros HT. unfold grace_window. destruct (grace_of s) as [cfg|] eqn:E; [|by destruct (cl_status line)].
  assert (0 <= waiver_rate cfg) by (unfold waiver_rate; case_match; [lia|by eapply at_grace]).
  destruct (cl_status line); try done; (case_match; [|done]); by intros [= _ <-].
Qed.

Lemma interest_nonneg now s line :
  accrual_typed s line -> cl_last_accrual_ts line <= now -> 0 <= interest_of now s line.
Proof.
  intros HT Ht. pose proof HT as [Hu Hr _ _ Hsc _]. unfold interest_of, interest_due.
  assert (0 <= rate_due now s line) by (apply effective_rate_bounds; lia).
  destruct (grace_window _ _) as [[e r]|] eqn:E; [|apply flat_le; lia].
  pose proof (window_rate_nonneg _ _ _ _ HT E).
  apply Z.add_nonneg_nonneg; apply flat_le; lia.
Qed.

Lemma accrue_exact line c s line' s' :
  apply_accrual line c s = Ok line' s' -> accrual_typed s line -> line' = accrue_line (ledger_timestamp c) s line.
Proof.
  intros Hr HT. unfold apply_accrual in Hr. unfold accrue_line. mstep Hr. subst.
  destruct (ledger_timestamp c <=? cl_last_accrual_ts line) eqn:Et; [by minv Hr|]. bsimp.
  destruct (cl_utilized_amount line =? 0) eqn:Eu; [by minv Hr|]. bsimp.
  do 2 (mstep Hr; subst). fold (rate_due (ledger_timestamp c) s line) in Hr.
  apply mbind_ok in Hr as ([] & s1 & Hev & Hr).
  assert (frame (fun _ _ => true) s s1) as Hf by (eapply frame_steps; [exact Hev|kframe]).
  apply mbind_ok in Hr as (q & s2 & Hq & Hr).
  assert (grace_of s1 = grace_of s /\ surcharge_of s1 = surcharge_of s) as [Hg Hs].
  { unfold grace_of, surcharge_of. by rewrite !(frame_inst _ _ _ _ Hf). }
  apply interest_ok in Hq; [| |apply effective_rate_bounds; apply HT|lia].
  2: { destruct HT. split; rewrite ?Hg, ?Hs; done. }
  rewrite Hg in Hq. fold (interest_of (ledger_timestamp c) s line) in Hq. subst q.
  apply mbind_ok in Hr as (i & s3 & Hi & Hr).
  apply u128_to_i128_ok in Hi as (-> & Hmax & ->); [|by apply interest_nonneg; [|lia]].
  mstep Hr; [|minv Hr; done]. minv Hr. by chk; subst.
Qed.

(** Room for the numbers of an accrual. *)
Record accrual_room (now : Z) s (line : CreditLineData) : Prop := {
  ar_product : cl_utilized_amount line * top_rate (grace_of s) (rate_due now s line) line
               * (now - cl_last_accrual_ts line) <= u128_max;
  ar_debt : cl_utilized_amount line + interest_of now s line <= i128_max;
  ar_interest : cl_accrued_interest line + interest_of now s line <= i128_max;
}.

Lemma accrual_returns line c s :
  accrual_typed s line -> accrual_room (ledger_timestamp c) s line ->
  exists line' s', apply_accrual line c s = Ok line' s'.
Proof.
  intros HT [R1 R2 R3]. unfold apply_accrual. run_read.
  destruct (ledger_timestamp c <=? cl_last_accrual_ts line) eqn:Et; [by eexists _, _|]. bsimp.
  destruct (cl_utilized_amount line =? 0) eqn:Eu; [by eexists _, _|]. bsimp.
  do 2 run_read. fold (rate_due (ledger_timestamp c) s line). unfold mbind at 1.
  destruct (runs (m := penalty_events line (delinquent_at (ledger_timestamp c) s (cl_borrower line))
    (surcharge_of s) (rate_due (ledger_timestamp c) s line)) c s) as ([] & s1 & Hev).
  rewrite Hev. assert (frame (fun _ _ => true) s s1) as Hf by (eapply frame_steps; [exact Hev|kframe]).
  assert (grace_of s1 = grace_of s /\ surcharge_of s1 = surcharge_of s) as [Hg Hs].
  { unfold grace_of, surcharge_of. by rewrite !(frame_inst _ _ _ _ Hf). }
  assert (accrual_typed s1 line) as HT1 by (destruct HT; split; rewrite ?Hg, ?Hs; done).
  assert (0 <= rate_due (ledger_timestamp c) s line) as Hrd by (apply effective_rate_bounds; apply HT).
  pose proof (interest_nonneg (ledger_timestamp c) s line HT) as Hin.
  destruct (interest_runs line (rate_due (ledger_timestamp c) s line) (ledger_timestamp c) c s1)
    as (q & s2 & Hq); [done|done|lia|by rewrite Hg|].
  unfold mbind at 1. rewrite Hq. apply interest_ok in Hq; [|done|done|lia]. rewrite Hg in Hq.
  fold (interest_of (ledger_timestamp c) s line) in Hq. subst q. pose proof (at_accrued _ _ HT).
  pose proof (at_utilized _ _ HT). specialize (Hin ltac:(lia)).
  unfold mbind at 1. rewrite u128_to_i128_runs by lia. case_match; [|by eexists _, _].
  unfold or_panic. rewrite !checked_in by lia. by eexists _, _.
Qed.

(** *** Monotonicity *)
Lemma flat_mono p r r' a b : 0 <= p -> 0 <= r <= r' -> 0 <= a <= b -> flat p r a <= flat p r' b.
Proof.
  intros. unfold flat. pose proof BPS_YEAR_DENOM_val. apply Z.div_le_mono; [lia|]. by apply scaled_le.
Qed.

Lemma delinquent_mono now now' s b : now <= now' -> delinquent_at now s b = true -> delinquent_at now' s b = true.
Proof.
  unfold delinquent_at. intros Ht. repeat (case_match; try done); rewrite !Z.ltb_lt; lia.
Qed.

Lemma rate_due_mono now now' s line :
  accrual_typed s line -> cl_interest_rate_bps line <= MAX_INTEREST_RATE_BPS -> now <= now' ->
  0 <= rate_due now s line <= rate_due now' s line.
Proof.
  intros HT Hm Ht. pose proof HT as [_ Hr _ _ Hs _]. split; [apply effective_rate_bounds; lia|].
  unfold rate_due, effective_rate. pose proof (delinquent_mono now now' s (cl_borrower line) Ht) as Hd.
  destruct (delinquent_at now s _); [rewrite Hd by done; lia|]. cbn [andb].
  destruct (delinquent_at now' s _ && (0 <? surcharge_of s)); [|lia].
  unfold sat_u32, saturate, MAX_INTEREST_RATE_BPS in *. lia.
Qed.

Lemma interest_mono now now' s line :
  accrual_typed s line -> cl_interest_rate_bps line <= MAX_INTEREST_RATE_BPS ->
  cl_last_accrual_ts line <= now <= now' -> interest_of now s line <= interest_of now' s line.
Proof.
  intros HT Hm Ht. pose proof (rate_due_mono now now' s line HT Hm). pose proof HT as [Hu _ _ _ _ _].
  unfold interest_of, interest_due. destruct (grace_window _ _) as [[e r]|] eqn:E.
  - pose proof (window_rate_nonneg _ _ _ _ HT E). apply Z.add_le_mono; apply flat_mono; lia.
  - apply flat_mono; lia.
Qed.

Lemma accrue_line_debt now s line :
  accrual_typed s line -> cl_utilized_amount (accrue_line now s line) =
    if (now <=? cl_last_accrual_ts line) || (cl_utilized_amount line =? 0) then cl_utilized_amount line
    else cl_utilized_amount line + interest_of now s line.
Proof.
  intros HT. unfold accrue_line. destruct (now <=? cl_last_accrual_ts line) eqn:E; [done|]. bsimp.
  destruct (cl_utilized_amount line =? 0); [done|]. cbn [orb].
  pose proof (interest_nonneg now s line HT). destruct (0 <? interest_of now s line) eqn:E'; bsimp; cbn; lia.
Qed.


(** Debt never shrinks with time: accruing at a later moment leaves at least
    the debt of an earlier one, across grace windows and the start of delinquency,
    for every base rate the contract accepts. *)
Theorem debt_monotone now now' s line :
  accrual_typed s line -> cl_interest_rate_bps line <= MAX_INTEREST_RATE_BPS -> now <= now' ->
  cl_utilized_amount line <= cl_utilized_amount (accrue_line now s line) <=
  cl_utilized_amount (accrue_line now' s line).
Proof.
  intros HT Hm Ht. rewrite !accrue_line_debt by done.
  pose proof (interest_nonneg now s line HT). pose proof (interest_nonneg now' s line HT).
  pose proof (interest_mono now now' s line HT Hm).
  destruct (cl_utilized_amount line =? 0) eqn:E0; rewrite ?orb_true_r; [lia|].
  destruct (now <=? cl_last_accrual_ts line) eqn:E1, (now' <=? cl_last_accrual_ts line) eqn:E2; bsimp; cbn [orb]; lia.
Qed.

(** Inside a fully waived window the reference leaves the line as it is. *)
Lemma waived_window cfg now s line :
  grace_of s = Some cfg -> waiver_mode cfg = FullWaiver -> 0 < grace_period_seconds cfg ->
  cl_status line = Suspended -> 0 < cl_utilized_amount line ->
  cl_last_accrual_ts line < now <= sat_u64 (cl_suspension_ts line + grace_period_seconds cfg) ->
  accrue_line now s line = line.
Proof.
  intros Hg Hm Hp Hst Hu Ht. assert (interest_of now s line = 0) as Hi.
  { unfold interest_of, interest_due, grace_window, waiver_rate. rewrite Hst, Hg, Hm.
    rewrite (proj2 (Z.ltb_lt _ _)) by lia. rewrite flat_0_rate, Z.max_l, flat_0_secs by lia. done. }
  unfold accrue_line. rewrite Hi. destruct (now <=? _) eqn:E; [done|]. by destruct (_ =? 0) eqn:E'; bsimp; [lia|].
Qed.

(** C24. A full waiver does not survive resumption: [apply_accrual] on a suspended
    line inside its fully waived window returns the line unchanged, the accrual stamp
    included, so once the line is active again the next [apply_accrual], in whatever
    state it then runs, charges the flat interest of the whole time since the stamp,
    the waived window included. *)
Theorem full_waiver_lost cfg c c' s s1 s' s2 line line1 line2 :
  accrual_typed s line -> accrual_typed s' line ->
  grace_of s = Some cfg -> waiver_mode cfg = FullWaiver ->
  0 < grace_period_seconds cfg -> cl_status line = Suspended -> 0 < cl_utilized_amount line ->
  cl_last_accrual_ts line < ledger_timestamp c
    <= sat_u64 (cl_suspension_ts line + grace_period_seconds cfg) ->
  ledger_timestamp c <= ledger_timestamp c' ->
  apply_accrual line c s = Ok line1 s1 ->
  apply_accrual (set_status line1 Active) c' s' = Ok line2 s2 ->
  line1 = line /\
  cl_utilized_amount line2 = cl_utilized_amount line
    + flat (cl_utilized_amount line) (rate_due (ledger_timestamp c') s' line)
        (ledger_timestamp c' - cl_last_accrual_ts line).
Proof.
  intros HT HT' Hg Hm Hp Hst Hu Ht Ht' Hr1 Hr2. apply accrue_exact in Hr1 as ->; [|done].
  rewrite (waived_window cfg) in * by done. split; [done|].
  assert (accrual_typed s' (set_status line Active)) as HA by (destruct HT'; by split).
  apply accrue_exact in Hr2 as ->; [|done]. rewrite accrue_line_debt by done. cbn.
  rewrite (proj2 (Z.leb_gt _ _)), (proj2 (Z.eqb_neq _ _)) by lia. cbn [orb]. f_equal.
Qed.
End formula.

(** ** Witnesses *)
Import Concrete.

Lemma drawn_accrual_typed : accrual_typed drawn (alice_line 50000 200).
Proof.
  split; try (split; vm_compute; discriminate); try (vm_compute; discriminate).
Qed.


(** Between half a year and a year. *)
Lemma debt_monotone_witness :
  50000 <= cl_utilized_amount (accrue_line 15000000 drawn (alice_line 50000 200)) <=
  cl_utilized_amount (accrue_line 31557800 drawn (alice_line 50000 200)).
Proof.
  apply (debt_monotone 15000000 31557800 drawn (alice_line 50000 200) drawn_accrual_typed);
    vm_compute; discriminate.
Defined.

(** A week of full waiver. *)
Definition waived : St := step admin (CSetGracePeriodConfig 604800 FullWaiver 0) 300 drawn.

Definition suspended_line : CreditLineData :=
  set_suspension_ts (set_status (alice_line 50000 200) Suspended) 200.

Lemma waived_typed : accrual_typed waived suspended_line.
Proof.
  split; try (split; vm_compute; discriminate); try (vm_compute; discriminate).
  intros cfg Hg. assert (grace_of waived = Some (mkGrace 604800 FullWaiver 0)) as E by (vm_compute; reflexivity).
  rewrite E in Hg. by injection Hg as <-.
Qed.

(** The line and the state after an accrual at time [t]. *)
Definition accrued_at (t : Z) (line : CreditLineData) (s : St) : CreditLineData * St :=
  match apply_accrual line (at_time t) s with Ok l s' => (l, s') | Fail _ => (line, s) end.

Definition accrues (t : Z) (line : CreditLineData) (s : St) : bool :=
  match apply_accrual line (at_time t) s with Ok _ _ => true | Fail _ => false end.

Lemma accrues_at t line s :
  accrues t line s = true ->
  apply_accrual line (at_time t) s = Ok (fst (accrued_at t line s)) (snd (accrued_at t line s)).
Proof. unfold accrues, accrued_at. by destruct (apply_accrual line (at_time t) s). Qed.

(** The line resumed inside the window, and the state the window left. *)
Definition resumed_line : CreditLineData := set_status (fst (accrued_at 600000 suspended_line waived)) Active.

Definition resumed : St := snd (accrued_at 600000 suspended_line waived).

Lemma resumed_typed : accrual_typed resumed suspended_line.
Proof.
  split; try (split; vm_compute; discriminate); try (vm_compute; discriminate).
  intros cfg Hg. assert (grace_of resumed = Some (mkGrace 604800 FullWaiver 0)) as E by (vm_compute; reflexivity).
  rewrite E in Hg. by injection Hg as <-.
Qed.

(** C24: suspended at 200, resumed at 600000, inside the week of full waiver: the
    next accrual charges the week. *)
Lemma full_waiver_lost_witness :
  flat 50000 1000 604800 = 95 /\
  fst (accrued_at 600000 suspended_line waived) = suspended_line /\
  cl_utilized_amount (fst (accrued_at 605000 resumed_line resumed))
  = 50000 + flat 50000 (rate_due 605000 resumed suspended_line) (605000 - 200).
Proof.
  split; [vm_compute; reflexivity|].
  apply (full_waiver_lost (mkGrace 604800 FullWaiver 0) (at_time 600000) (at_time 605000) waived
    resumed resumed (snd (accrued_at 605000 resumed_line resumed)) suspended_line _ _ waived_typed resumed_typed);
    [vm_compute; reflexivity|done|done|done|done|by vm_compute|vm_compute; discriminate
    |apply accrues_at; vm_compute; reflexivity|apply accrues_at; vm_compute; reflexivity].
Defined.
