(* ===== verification/PriceTheorems.v ===== *)
(** * Oracle prices: sorting, quorum windows and the weighted median

    The two hand-written sorts sort, the quorum resolution finds a window exactly
    when enough submitted prices agree, and the weighted median splits the weight. *)
From S2P Require Import Prelude MathUtils Soroban CreditTypes CreditEvents CreditStorage CreditState Oracles.

(** ** Selection sort *)
Section selection.
Implicit Types (l : list Z).

Lemma min_index_spec l rest j m :
  rest = drop j l -> (m < length l)%nat -> (m < j)%nat ->
  let r := min_index l j m rest in
  (r < length l)%nat /\ (r = m \/ (j <= r)%nat) /\
  l !!! r <= l !!! m /\ (forall b, (j <= b < length l)%nat -> l !!! r <= l !!! b).
Proof.
  revert j m. induction rest as [|y rest IH]; intros j m Hd Hm Hj; cbn [min_index].
  - split; [done|]. split; [by left|]. split; [lia|]. intros b Hb.
    assert (length (drop j l) = 0%nat) as E by (by rewrite <- Hd). rewrite length_drop in E. lia.
  - assert (l !! j = Some y) as Hy by (by rewrite <- (Nat.add_0_r j), <- lookup_drop, <- Hd).
    pose proof (lookup_lt_Some _ _ _ Hy). apply list_lookup_total_correct in Hy as Hy'.
    assert (rest = drop (S j) l) as Hd' by (rewrite (drop_S _ _ _ Hy) in Hd; by injection Hd).
    destruct (IH (S j) (if y <? l !!! m then j else m)) as (H1 & H2 & H3 & H4);
      [done|by case_match|case_match; lia|]. cbv zeta. split; [done|]. split.
    { case_match; lia. }
    assert (l !!! (min_index l (S j) (if y <? l !!! m then j else m) rest) <= l !!! m /\
            l !!! (min_index l (S j) (if y <? l !!! m then j else m) rest) <= y) as [H5 H6].
    { destruct (y <? l !!! m) eqn:E; bsimp; lia. }
    split; [done|]. intros b Hb. destruct (decide (b = j)) as [->|]; [lia|]. apply H4. lia.
Qed.

Lemma swap_perm l i j : (i < length l)%nat -> (j < length l)%nat -> swap l i j ≡ₚ l.
Proof.
  intros Hi Hj. unfold swap. apply Permutation_insert_swap; by apply list_lookup_lookup_total_lt.
Qed.

Lemma length_swap l i j : length (swap l i j) = length l.
Proof. unfold swap. by rewrite !length_insert. Qed.

Lemma swap_lookup l i j b :
  (i < length l)%nat -> (j < length l)%nat ->
  swap l i j !!! b = if decide (b = j) then l !!! i else if decide (b = i) then l !!! j else l !!! b.
Proof.
  intros Hi Hj. unfold swap. rewrite list_lookup_total_insert, length_insert.
  destruct (decide (b = j)) as [->|]; [by rewrite decide_True|].
  rewrite decide_False by (intros [-> ?]; done). rewrite list_lookup_total_insert.
  destruct (decide (b = i)) as [->|]; [by rewrite decide_True|]. by rewrite decide_False by (intros [-> ?]; done).
Qed.

(** The first [i] elements are in place. *)
Definition settled_to l (i : nat) : Prop :=
  forall a b, (a < i)%nat -> (a <= b < length l)%nat -> l !!! a <= l !!! b.

Lemma selection_step_ok l i :
  (i < length l)%nat -> settled_to l i ->
  selection_step l i ≡ₚ l /\ settled_to (selection_step l i) (S i).
Proof.
  intros Hi Hs. unfold selection_step.
  destruct (min_index_spec l (drop (S i) l) (S i) i) as (H1 & H2 & H3 & H4); [done|done|lia|].
  set (r := min_index _ _ _ _) in *. split; [by apply swap_perm|].
  intros a b Ha Hb. rewrite length_swap in Hb. rewrite !swap_lookup by done.
  clearbody r. destruct H2 as [->|H2]; repeat case_decide; subst; try lia; first [apply H4; lia|apply Hs; lia].
Qed.

Lemma selection_fold l n i :
  (i + n = length l)%nat -> settled_to l i ->
  fold_left selection_step (seq i n) l ≡ₚ l /\ settled_to (fold_left selection_step (seq i n) l) (length l).
Proof.
  revert l i. induction n as [|n IH]; intros l i Hl Hs; cbn.
  - split; [done|]. by replace (length l) with i by lia.
  - destruct (selection_step_ok l i) as [Hp Hs']; [lia|done|].
    pose proof (Permutation_length Hp) as Hlen.
    destruct (IH (selection_step l i) (S i)) as [Hp' Hs'']; [lia|done|].
    split; [by rewrite Hp'|]. by rewrite Hlen in Hs''.
Qed.

Lemma selection_sort_perm l : selection_sort l ≡ₚ l.
Proof. apply selection_fold; [lia|]. intros a b Ha. lia. Qed.

Lemma settled_sorted l : settled_to l (length l) -> StronglySorted Z.le l.
Proof.
  induction l as [|x l IH]; intros Hs; [constructor|]. constructor.
  - apply IH. intros a b Ha Hb. apply (Hs (S a) (S b)); cbn; lia.
  - apply Forall_forall. intros y Hy. apply list_elem_of_lookup in Hy as [i Hi].
    specialize (Hs 0%nat (S i)). change ((x :: l) !!! S i) with (l !!! i) in Hs. apply list_lookup_total_correct in Hi as Hi'. rewrite Hi' in Hs.
    apply lookup_lt_Some in Hi. apply Hs; cbn; lia.
Qed.

Lemma selection_sort_sorted l : StronglySorted Z.le (selection_sort l).
Proof.
  destruct (selection_fold l (length l) 0) as [Hp Hs]; [lia|intros a b Ha; lia|].
  apply settled_sorted. unfold selection_sort. by rewrite (Permutation_length Hp).
Qed.
End selection.

(** ** Windows of a sorted list *)
Section windows.
Implicit Types (l ws : list Z).

Lemma submseteq_drop_head x ws l : x ∉ ws -> ws ⊆+ x :: l -> ws ⊆+ l.
Proof.
  intros Hx [?|(ws' & Hp & _)]%submseteq_cons_r; [done|]. exfalso. apply Hx. rewrite Hp. by left.
Qed.

Lemma sorted_submseteq_sublist l : forall ws,
  StronglySorted Z.le l -> StronglySorted Z.le ws -> ws ⊆+ l -> ws `sublist_of` l.
Proof.
  induction l as [|y l IH]; intros ws Hl Hw Hs.
  - apply submseteq_nil_r in Hs as ->. constructor.
  - apply StronglySorted_cons in Hl as [Hy Hl]. rewrite Forall_forall in Hy.
    destruct ws as [|x ws]; [apply sublist_nil_l|]. pose proof Hw as [Hx Hw']%StronglySorted_cons.
    destruct (decide (x = y)) as [->|Hne].
    + apply sublist_skip, IH; [done..|]. by apply (submseteq_app_inv_l ws l [y]).
    + apply sublist_cons, IH; [done..|]. eapply submseteq_drop_head; [|exact Hs].
      rewrite Forall_forall in Hx. intros Hin. apply elem_of_cons in Hin as [->|Hin]; [done|].
      specialize (Hx _ Hin). assert (x ∈ y :: l) as [?|Hxl]%elem_of_cons
        by (eapply elem_of_submseteq; [by left|exact Hs]); [done|]. specialize (Hy _ Hxl). lia.
Qed.

Lemma sublist_lookup_later (ws l : list Z) m x :
  ws `sublist_of` l -> ws !! m = Some x -> exists j, (m <= j)%nat /\ l !! j = Some x.
Proof.
  intros Hs. revert m. induction Hs as [|y ws l Hs IH|y ws l Hs IH]; intros m Hm; [done|..].
  - destruct m as [|m]; [by exists 0%nat|]. destruct (IH m Hm) as (j & ? & ?). exists (S j). by split; [lia|].
  - destruct (IH m Hm) as (j & ? & ?). exists (S j). by split; [lia|].
Qed.

(** First and last of a non-empty sublist, that far apart. *)
Lemma sublist_span (ws l : list Z) k lo hi :
  ws `sublist_of` l -> ws !! 0%nat = Some lo -> ws !! k = Some hi ->
  exists i j, (i + k <= j)%nat /\ l !! i = Some lo /\ l !! j = Some hi.
Proof.
  intros Hs. induction Hs as [|y ws l Hs IH|y ws l Hs IH]; intros H0 Hk; [done|..].
  - injection H0 as ->. destruct k as [|k].
    + exists 0%nat, 0%nat. by split; [lia|].
    + destruct (sublist_lookup_later _ _ _ _ Hs Hk) as (j & ? & ?). exists 0%nat, (S j). by split; [lia|].
  - destruct (IH H0 Hk) as (i & j & ? & ? & ?). exists (S i), (S j). by split; [lia|].
Qed.

Lemma sorted_lookup_le l i j x y :
  StronglySorted Z.le l -> l !! i = Some x -> l !! j = Some y -> (i <= j)%nat -> x <= y.
Proof.
  intros Hs. revert i j. induction Hs as [|z l Hs IH Hz]; intros i j Hi Hj Hij; [done|].
  rewrite Forall_forall in Hz. destruct i as [|i], j as [|j]; try lia; cbn in *.
  - simplify_eq. lia.
  - simplify_eq. apply Hz. by eapply list_elem_of_lookup_2.
  - apply (IH i j); [done..|lia].
Qed.

Lemma sorted_sublist l ws : StronglySorted Z.le l -> ws `sublist_of` l -> StronglySorted Z.le ws.
Proof.
  intros Hl Hs. induction Hs as [|y ws l Hs IH|y ws l Hs IH]; [done|..];
    apply StronglySorted_cons in Hl as [Hy Hl]; [|by apply IH].
  apply StronglySorted_cons. split; [|by apply IH]. rewrite Forall_forall in Hy |- *.
  intros x Hx. apply Hy. by eapply elem_of_submseteq, sublist_submseteq.
Qed.
End windows.

(** ** Quorum resolution *)

(** The spread the contract measures, the largest value standing for overflow. *)
Definition spread (hi lo : Z) : Z := unwrap_or (compute_deviation_bps hi lo) u32_max.

Lemma spread_eq hi lo : 0 < lo <= hi -> hi <= i128_max ->
  spread hi lo = if (hi - lo) * 10000 <=? u128_max then Z.min ((hi - lo) * 10000 / lo) u32_max else u32_max.
Proof.
  intros Hlo Hhi. unfold spread, compute_deviation_bps, BPS_DENOMINATOR.
  rewrite (proj2 (Z.leb_gt _ _)) by lia. rewrite (checked_in _ _ (hi - lo)) by lia. rewrite Z.abs_eq by lia.
  destruct (Z.leb_spec ((hi - lo) * 10000) u128_max).
  - rewrite checked_in by lia. rewrite as_u128_id by lia. done.
  - destruct (checked_u128 ((hi - lo) * 10000)) eqn:E; [|done]. chk. lia.
Qed.

(** A narrower window has a smaller spread. *)
Lemma spread_mono hi lo hi' lo' :
  0 < lo <= lo' -> lo' <= hi' <= hi -> hi <= i128_max -> spread hi' lo' <= spread hi lo.
Proof.
  intros Hlo Hhi Hmax. rewrite !spread_eq by lia.
  destruct (Z.leb_spec ((hi - lo) * 10000) u128_max), (Z.leb_spec ((hi' - lo') * 10000) u128_max); try lia.
  apply Z.min_le_compat_r. transitivity ((hi - lo) * 10000 / lo').
  - apply Z.div_le_mono; lia.
  - apply Z.div_le_compat_l; lia.
Qed.

(** [k] submitted prices, sorted, that agree up to the configured deviation. *)
Record quorum (prices : list Z) (cfg : OracleQuorumConfig) (ws : list Z) (lo hi : Z) : Prop := {
  q_prices : ws ⊆+ prices;
  q_sorted : StronglySorted Z.le ws;
  q_length : length ws = Z.to_nat (min_quorum_k cfg);
  q_lo : ws !! 0%nat = Some lo;
  q_hi : ws !! (Z.to_nat (min_quorum_k cfg) - 1)%nat = Some hi;
  q_spread : spread hi lo <= qc_max_deviation_bps cfg;
}.

Lemma window_scan_some l k dev starts p :
  window_scan l k dev starts = Some p ->
  exists i, i ∈ starts /\ spread (l !!! (i + k - 1)%nat) (l !!! i) <= dev /\ p = l !!! (i + (k - 1) / 2)%nat.
Proof.
  induction starts as [|i starts IH]; cbn; [done|]. intros Hr.
  destruct (_ <=? dev) eqn:E; bsimp.
  - injection Hr as <-. exists i. split; [by left|]. by split.
  - destruct (IH Hr) as (j & ? & ?). exists j. by split; [right|].
Qed.

Lemma window_scan_finds l k dev starts i :
  i ∈ starts -> spread (l !!! (i + k - 1)%nat) (l !!! i) <= dev -> is_Some (window_scan l k dev starts).
Proof.
  induction starts as [|j starts IH]; cbn; [by intros ?%elem_of_nil|]. intros Hin Hs.
  destruct (_ <=? dev) eqn:E; [done|]. apply elem_of_cons in Hin as [->|Hin]; [|by apply IH].
  bsimp. unfold spread in Hs. lia.
Qed.

Section quorums.
Implicit Types (prices : list Z) (cfg : OracleQuorumConfig).

(** The shape of input the resolution accepts. *)
Definition acceptable prices cfg : Prop :=
  2 <= min_quorum_k cfg <= Z.of_nat (length prices) /\ Z.of_nat (length prices) <= MAX_ORACLE_FEEDS /\
  Forall (fun p => 0 < p) prices.

Lemma existsb_nonpositive prices : existsb (fun p => p <=? 0) prices = false <-> Forall (fun p => 0 < p) prices.
Proof.
  induction prices as [|p prices IH]; cbn; [done|]. rewrite orb_false_iff, Forall_cons, IH, Z.leb_gt. tauto.
Qed.

Lemma resolve_acceptable prices cfg : acceptable prices cfg ->
  resolve_quorum_price prices cfg =
    match window_scan (selection_sort prices) (Z.to_nat (min_quorum_k cfg)) (qc_max_deviation_bps cfg)
            (seq 0 (length prices - Z.to_nat (min_quorum_k cfg) + 1)) with
    | Some p => inl p | None => inr OracleQuorumNotMet end.
Proof.
  intros (Hk & Hn & Hp). unfold resolve_quorum_price. apply existsb_nonpositive in Hp as ->.
  rewrite (proj2 (Z.eqb_neq _ _)), !(proj2 (Z.ltb_ge _ _)) by lia. done.
Qed.

Lemma resolve_inl_acceptable prices cfg p : resolve_quorum_price prices cfg = inl p -> acceptable prices cfg.
Proof.
  unfold resolve_quorum_price, acceptable. intros Hr.
  destruct (_ || _) eqn:E1 in Hr; [done|]. destruct (_ || _) eqn:E2 in Hr; [done|].
  destruct (existsb _ _) eqn:E3; [done|]. apply existsb_nonpositive in E3. bsimp. lia || (repeat split; try lia; done).
Qed.

Lemma take_window (l : list Z) k i :
  (0 < k)%nat -> (i + k <= length l)%nat ->
  take k (drop i l) !! 0%nat = Some (l !!! i) /\ take k (drop i l) !! (k - 1)%nat = Some (l !!! (i + k - 1)%nat) /\
  take k (drop i l) !! ((k - 1) / 2)%nat = Some (l !!! (i + (k - 1) / 2)%nat).
Proof.
  intros Hk Hi. assert (((k - 1) / 2 <= k - 1)%nat) by (apply Nat.Div0.div_le_upper_bound; lia).
  rewrite !lookup_take_lt, !lookup_drop by lia.
  rewrite !(list_lookup_lookup_total_lt l) by lia. rewrite Nat.add_0_r, Nat.add_sub_assoc by lia. done.
Qed.

Lemma resolve_sound prices cfg p :
  resolve_quorum_price prices cfg = inl p ->
  exists ws lo hi, quorum prices cfg ws lo hi /\ ws !! ((Z.to_nat (min_quorum_k cfg) - 1) / 2)%nat = Some p.
Proof.
  intros Hr. pose proof (resolve_inl_acceptable _ _ _ Hr) as HA. rewrite resolve_acceptable in Hr by done.
  destruct HA as (Hk & _ & _). set (k := Z.to_nat (min_quorum_k cfg)) in *.
  destruct (window_scan _ _ _ _) as [q|] eqn:E; [|done]. injection Hr as <-.
  apply window_scan_some in E as (i & Hi & Hs & ->). apply elem_of_seq in Hi.
  pose proof (Permutation_length (selection_sort_perm prices)) as Hlen.
  destruct (take_window (selection_sort prices) k i) as (H0 & H1 & H2); [lia|lia|].
  exists (take k (drop i (selection_sort prices))), (selection_sort prices !!! i),
    (selection_sort prices !!! (i + k - 1)%nat). split; [|done].
  assert (take k (drop i (selection_sort prices)) `sublist_of` selection_sort prices) as Hsub
    by (etrans; [apply sublist_take|apply sublist_drop]).
  split; fold k; [| |rewrite length_take, length_drop; lia|done..].
  - rewrite <- (selection_sort_perm prices) at 2. by apply sublist_submseteq.
  - eapply sorted_sublist; [apply selection_sort_sorted|exact Hsub].
Qed.

Lemma resolve_complete prices cfg ws lo hi :
  acceptable prices cfg -> Forall (fun p => p <= i128_max) prices -> quorum prices cfg ws lo hi ->
  is_Some (window_scan (selection_sort prices) (Z.to_nat (min_quorum_k cfg)) (qc_max_deviation_bps cfg)
            (seq 0 (length prices - Z.to_nat (min_quorum_k cfg) + 1))).
Proof.
  intros (Hk & Hn & Hp) Hmax [Q1 Q2 Q3 Q4 Q5 Q6]. set (k := Z.to_nat (min_quorum_k cfg)) in *.
  pose proof (selection_sort_sorted prices) as Hss. set (l := selection_sort prices) in *.
  assert (length l = length prices) as Hlen by apply Permutation_length, selection_sort_perm.
  assert (ws `sublist_of` l) as Hsub
    by (apply sorted_submseteq_sublist; [done..|]; unfold l; by rewrite selection_sort_perm).
  destruct (sublist_span _ _ _ _ _ Hsub Q4 Q5) as (i & j & Hij & Hi & Hj).
  pose proof (lookup_lt_Some _ _ _ Hj). assert (i + k - 1 < length l)%nat as Hlt by lia.
  apply (window_scan_finds l k _ _ i); [apply elem_of_seq; lia|].
  etrans; [|exact Q6]. apply list_lookup_total_correct in Hi as Ei. rewrite Ei.
  destruct (lookup_lt_is_Some_2 _ _ Hlt) as [m Hm]. apply list_lookup_total_correct in Hm as Em. rewrite Em.
  pose proof (sorted_lookup_le l _ _ _ _ Hss Hi Hm). pose proof (sorted_lookup_le l _ _ _ _ Hss Hm Hj).
  rewrite <- (selection_sort_perm prices) in Hp, Hmax. fold l in Hp, Hmax. rewrite Forall_forall in Hp, Hmax.
  assert (0 < lo) by (by eapply Hp, list_elem_of_lookup_2). assert (hi <= i128_max) by (by eapply Hmax, list_elem_of_lookup_2).
  apply spread_mono; lia.
Qed.
End quorums.

(** C16. Quorum resolution is sound and complete: the price it returns is the lower
    median of [k] submitted prices that agree within the configured deviation, all
    inputs being positive and at most twenty; and on such inputs it returns a price
    whenever any [k] of them agree, so outlying prices cannot hide a quorum. *)
Theorem quorum_price_correct prices cfg :
  Forall (fun p => p <= i128_max) prices ->
  (forall p, resolve_quorum_price prices cfg = inl p ->
     acceptable prices cfg /\
     exists ws lo hi, quorum prices cfg ws lo hi /\ ws !! ((Z.to_nat (min_quorum_k cfg) - 1) / 2)%nat = Some p) /\
  (acceptable prices cfg -> (exists ws lo hi, quorum prices cfg ws lo hi) ->
     exists p, resolve_quorum_price prices cfg = inl p).
Proof.
  intros Hmax. split.
  - intros p Hr. split; [by eapply resolve_inl_acceptable|by apply resolve_sound].
  - intros HA (ws & lo & hi & HQ). destruct (resolve_complete _ _ _ _ _ HA Hmax HQ) as [p Hp].
    exists p. by rewrite resolve_acceptable, Hp.
Qed.

(** ** The weighted median *)
Section median.
Implicit Types (l reports : list ReportWeight).

Definition by_value (a b : ReportWeight) : Prop := rw_value a <= rw_value b.

Lemma sort_row_ok x l m r :
  sort_row x l = (m, r) -> m :: r ≡ₚ x :: l /\ Forall (by_value m) r.
Proof.
  revert x m r. induction l as [|y l IH]; intros x m r; cbn.
  - intros [= <- <-]. by split.
  - destruct (rw_value y <? rw_value x) eqn:E; bsimp.
    + destruct (sort_row y l) as [m' r'] eqn:Er. intros [= <- <-]. apply IH in Er as [Hp Hm].
      split; [by rewrite Permutation_swap, Hp|]. constructor; [|done].
      assert (m' = y \/ by_value m' y) as [->|Hy] by
        (assert (y ∈ m' :: r') as [->|Hin]%elem_of_cons by (rewrite Hp; by left); [by left|right];
         rewrite Forall_forall in Hm; by apply Hm); unfold by_value in *; lia.
    + destruct (sort_row x l) as [m' r'] eqn:Er. intros [= <- <-]. apply IH in Er as [Hp Hm].
      split; [by rewrite Permutation_swap, Hp, Permutation_swap|]. constructor; [|done].
      assert (m' = x \/ by_value m' x) as [->|Hy] by
        (assert (x ∈ m' :: r') as [->|Hin]%elem_of_cons by (rewrite Hp; by left); [by left|right];
         rewrite Forall_forall in Hm; by apply Hm); unfold by_value in *; lia.
Qed.

Lemma exchange_sort_ok n l :
  (length l <= n)%nat -> exchange_sort n l ≡ₚ l /\ StronglySorted by_value (exchange_sort n l).
Proof.
  revert l. induction n as [|n IH]; intros l Hl; destruct l as [|x l]; cbn in *; try lia; try (by split; constructor).
  destruct (sort_row x l) as [m r] eqn:E. apply sort_row_ok in E as [Hp Hm].
  pose proof (Permutation_length Hp) as Hlen. cbn in Hlen. destruct (IH r) as [Hp' Hs]; [lia|].
  split; [by rewrite Hp'|]. constructor; [done|]. by rewrite Hp'.
Qed.

(** The weight of the reports whose value satisfies [P]. *)
Definition weight_where (P : Z -> bool) l : Z :=
  sumZ ((fun r => if P (rw_value r) then rw_weight r else 0) <$> l).

Definition total_of l : Z := sumZ (rw_weight <$> l).

Lemma weight_where_app P l1 l2 : weight_where P (l1 ++ l2) = weight_where P l1 + weight_where P l2.
Proof. unfold weight_where. by rewrite fmap_app, sumZ_app. Qed.

Lemma weight_where_one P r : weight_where P [r] = if P (rw_value r) then rw_weight r else 0.
Proof. unfold weight_where, sumZ. cbn. lia. Qed.

Lemma weight_where_perm P l l' : l ≡ₚ l' -> weight_where P l = weight_where P l'.
Proof. unfold weight_where. intros Hp. apply sumZ_perm. by rewrite Hp. Qed.

Lemma weight_where_all P l : Forall (fun r => P (rw_value r) = true) l -> weight_where P l = total_of l.
Proof.
  unfold weight_where, total_of, sumZ. induction 1 as [|r l Hr _ IH]; cbn; [done|]. by rewrite Hr, IH.
Qed.

Lemma weight_where_none P l : Forall (fun r => P (rw_value r) = false) l -> weight_where P l = 0.
Proof. unfold weight_where, sumZ. induction 1 as [|r l Hr _ IH]; cbn; [done|]. by rewrite Hr, IH. Qed.

Lemma weight_where_bounds P l : Forall (fun r => 0 <= rw_weight r) l -> 0 <= weight_where P l <= total_of l.
Proof.
  unfold weight_where, total_of, sumZ. induction 1 as [|r l Hr _ IH]; cbn in *; [lia|]. case_match; lia.
Qed.

(** Where the cumulative scan stops. *)
Lemma median_scan_ok target c l :
  Forall (fun r => 0 <= rw_weight r) l -> 0 <= c < target -> target <= c + total_of l -> c + total_of l <= u32_max ->
  exists l1 r l2, l = l1 ++ r :: l2 /\ median_scan target c l = inl (rw_value r) /\
    c + total_of l1 < target <= c + total_of l1 + rw_weight r.
Proof.
  intros Hw. revert c. induction Hw as [|r l Hr Hw IH]; intros c Hc Ht Hm; [unfold total_of, sumZ in Ht; cbn in Ht; lia|].
  assert (total_of (r :: l) = rw_weight r + total_of l) as E by done. rewrite E in *.
  pose proof (weight_where_bounds (fun _ => true) l Hw). cbn [median_scan].
  rewrite checked_in by lia. destruct (target <=? c + rw_weight r) eqn:El; bsimp.
  - exists [], r, l. do 2 (split; [done|]). unfold total_of, sumZ. cbn. lia.
  - destruct (IH (c + rw_weight r)) as (l1 & r' & l2 & -> & Hs & Hb); [lia..|].
    exists (r :: l1), r', l2. do 2 (split; [done|]).
    assert (total_of (r :: l1) = rw_weight r + total_of l1) as -> by done. lia.
Qed.

(** [v] is a weighted median: a reported value with at least half of the weight at
    or below it and less than half strictly below. *)
Definition is_median (v : Z) reports : Prop :=
  v ∈ rw_value <$> reports /\
  total_of reports <= 2 * weight_where (fun x => x <=? v) reports /\
  2 * weight_where (fun x => x <? v) reports < total_of reports.

(** The report where the scan of a sorted list reaches half of the weight. *)
Lemma half_reached_is_median reports l1 r l2 :
  reports ≡ₚ l1 ++ r :: l2 -> StronglySorted by_value (l1 ++ r :: l2) -> Forall (fun r => 0 <= rw_weight r) reports ->
  total_of l1 < ceil_div (total_of reports) 2 <= total_of l1 + rw_weight r -> is_median (rw_value r) reports.
Proof.
  intros Hp Hs Hw Hb. rewrite Hp in Hw. split.
  { rewrite Hp, fmap_app, fmap_cons. apply elem_of_app. right. by left. }
  pose proof (ceil_div_spec (total_of reports) 2) as Hc.
  rewrite (weight_where_perm _ _ _ Hp), (weight_where_perm (fun x => x <? _) _ _ Hp).
  apply StronglySorted_app in Hs as (H12 & _ & H2). apply StronglySorted_cons in H2 as [Hr _].
  rewrite Forall_app, Forall_cons in Hw. destruct Hw as (W1 & Wr & W2).
  change (r :: l2) with ([r] ++ l2). rewrite !weight_where_app.
  rewrite (weight_where_all (fun x => x <=? rw_value r) l1), (weight_where_none (fun x => x <? rw_value r) l2).
  - rewrite !weight_where_one, (proj2 (Z.leb_le _ _)), (proj2 (Z.ltb_ge _ _)) by lia.
    pose proof (weight_where_bounds (fun x => x <=? rw_value r) l2 W2).
    pose proof (weight_where_bounds (fun x => x <? rw_value r) l1 W1).
    pose proof (Hc (total_of l1 + rw_weight r)). pose proof (Hc (total_of l1)). lia.
  - eapply Forall_impl; [exact Hr|]. intros x. unfold by_value. rewrite Z.ltb_ge. lia.
  - apply Forall_forall. intros x Hx. apply Z.leb_le. apply (H12 x r); [done|by left].
Qed.

Lemma total_of_perm l l' : l ≡ₚ l' -> total_of l = total_of l'.
Proof. intros Hp. unfold total_of. apply sumZ_perm. by rewrite Hp. Qed.

(** The weighted median exists whenever there is weight, and is one. *)
Lemma weighted_median_ok reports :
  Forall (fun r => 0 <= rw_weight r) reports -> 0 < total_of reports <= u32_max ->
  exists v, weighted_median reports (total_of reports) = inl v /\ is_median v reports.
Proof.
  intros Hw Ht. destruct (exchange_sort_ok (length reports) reports) as [Hp Hs]; [done|].
  fold (sort_reports reports) in Hp, Hs. pose proof (total_of_perm _ _ Hp) as HtS.
  pose proof (ceil_div_spec (total_of reports) 2) as Hc.
  destruct (median_scan_ok (ceil_div (total_of reports) 2) 0 (sort_reports reports)) as (l1 & r & l2 & E & Hm & Hb);
    [by rewrite Hp|pose proof (Hc 0); lia|pose proof (Hc (total_of reports)); lia|lia|].
  exists (rw_value r). split; [exact Hm|]. rewrite E in Hp, Hs. eapply half_reached_is_median; [by symmetry|done..].
Qed.

(** A list has one weighted median. *)
Lemma weight_where_mono P Q l :
  Forall (fun r => 0 <= rw_weight r) l -> (forall x, P x = true -> Q x = true) -> weight_where P l <= weight_where Q l.
Proof.
  intros Hw HPQ. unfold weight_where, sumZ. induction Hw as [|r l Hr _ IH]; cbn; [done|].
  pose proof (HPQ (rw_value r)) as H. destruct (P (rw_value r)), (Q (rw_value r)); lia.
Qed.

Lemma is_median_unique v v' reports :
  Forall (fun r => 0 <= rw_weight r) reports -> is_median v reports -> is_median v' reports -> v = v'.
Proof.
  intros Hw (_ & Hv1 & Hv2) (_ & Hv1' & Hv2').
  assert (forall a b, a < b -> weight_where (fun x => x <=? a) reports <= weight_where (fun x => x <? b) reports) as Hlt.
  { intros a b Hab. apply weight_where_mono; [done|]. intros x. rewrite Z.leb_le, Z.ltb_lt. lia. }
  destruct (Z.lt_trichotomy v v') as [Hl|[->|Hl]]; [|done|]; pose proof (Hlt _ _ Hl); lia.
Qed.

(** ** The reference implementation of the source's property tests

    It sorts with the library's sort and counts in 64 bits. *)
Instance by_value_dec : RelDecision by_value := fun a b => Z_le_dec (rw_value a) (rw_value b).

Fixpoint reference_scan (target cumulative : Z) l : option Z :=
  match l with
  | [] => None
  | r :: l' => let c := cumulative + rw_weight r in
               if target <=? c then Some (rw_value r) else reference_scan target c l'
  end.

Definition reference_median reports : option Z :=
  match reports with
  | [] => None
  | _ => let sorted := merge_sort by_value reports in
         let total_weight := total_of sorted in
         if total_weight =? 0 then None else reference_scan ((total_weight + 1) / 2) 0 sorted
  end.

Lemma ceil_div_two n : ceil_div n 2 = (n + 1) / 2.
Proof.
  unfold ceil_div. pose proof (Z.div_mod n 2). pose proof (Z.div_mod (n + 1) 2).
  pose proof (Z.mod_pos_bound n 2). pose proof (Z.mod_pos_bound (n + 1) 2). case_match; bsimp; lia.
Qed.

Lemma reference_scan_ok target c l :
  c < target <= c + total_of l ->
  exists l1 r l2, l = l1 ++ r :: l2 /\ reference_scan target c l = Some (rw_value r) /\
    c + total_of l1 < target <= c + total_of l1 + rw_weight r.
Proof.
  revert c. induction l as [|r l IH]; intros c Hc; [unfold total_of, sumZ in Hc; cbn in Hc; lia|].
  assert (forall l', total_of (r :: l') = rw_weight r + total_of l') as E by done.
  rewrite E in Hc. cbn [reference_scan]. destruct (target <=? c + rw_weight r) eqn:El; bsimp.
  - exists [], r, l. do 2 (split; [done|]). unfold total_of, sumZ. cbn. lia.
  - destruct (IH (c + rw_weight r)) as (l1 & r' & l2 & -> & Hs & Hb); [lia|].
    exists (r :: l1), r', l2. do 2 (split; [done|]). rewrite E. lia.
Qed.

#[local] Instance by_value_total : Total by_value.
Proof. intros x y. unfold by_value. lia. Qed.

#[local] Instance by_value_trans : Transitive by_value.
Proof. intros x y z. unfold by_value. lia. Qed.

(** What the property tests of the registry sample: on every list of reports that
    carries weight the contract's median is the reference's. *)
Lemma weighted_median_is_reference reports :
  Forall (fun r => 0 <= rw_weight r) reports -> 0 < total_of reports <= u32_max ->
  exists v, weighted_median reports (total_of reports) = inl v /\ reference_median reports = Some v.
Proof.
  intros Hw Ht. destruct (weighted_median_ok reports Hw Ht) as (v & Hv & Hmed). exists v. split; [done|].
  pose proof (merge_sort_Permutation by_value reports) as Hp. pose proof (total_of_perm _ _ Hp) as HtS.
  pose proof (StronglySorted_merge_sort by_value reports) as Hs.
  assert (reference_median reports = reference_scan (ceil_div (total_of reports) 2) 0 (merge_sort by_value reports)) as ->.
  { unfold reference_median. rewrite HtS, (proj2 (Z.eqb_neq _ _)) by lia.
    destruct reports; [cbn in Ht; lia|]. by rewrite ceil_div_two. }
  pose proof (ceil_div_spec (total_of reports) 2) as Hc.
  destruct (reference_scan_ok (ceil_div (total_of reports) 2) 0 (merge_sort by_value reports)) as (l1 & r & l2 & E & Hm & Hb);
    [pose proof (Hc 0); pose proof (Hc (total_of reports)); lia|].
  rewrite Hm. f_equal. rewrite E in Hp, Hs. eapply is_median_unique; [done| |done].
  eapply half_reached_is_median; [by symmetry|done..].
Qed.
End median.

(** ** Witnesses *)

(** C16: three of four prices agree within a tenth. *)
Lemma quorum_price_correct_witness :
  acceptable [105; 300; 100; 101] (mkQuorumConfig 3 1000 60) /\
  exists ws lo hi, quorum [105; 300; 100; 101] (mkQuorumConfig 3 1000 60) ws lo hi /\ ws !! 1%nat = Some 101.
Proof.
  apply (quorum_price_correct [105; 300; 100; 101] (mkQuorumConfig 3 1000 60)).
  - repeat constructor; vm_compute; discriminate.
  - vm_compute. reflexivity.
Defined.
