(* ===== verification/CreditTests.v ===== *)
(** * The unit tests of [contracts/credit/src/lib.rs], executed on the model (1)

    One computation per test, in a Module per test module; the lemmas at the end of
    each Module evaluate them.  A test the code no longer meets is kept, with what
    the code does instead ([.._outdated]). *)
From Stdlib Require Strings.String.
From S2P Require Import Prelude Soroban CreditTypes CreditEvents CreditStorage CreditState Accrual Collateral Fees Freeze Oracles Scoring Risk Lifecycle Views CreditContract CreditCalls CreditQueries CreditTesting.
Import Bench.
#[local] Open Scope test_scope.

(** Lines, draws and the limits on rate changes ([mod test]). *)
Module test_rate_change_limits.
Definition rate_change_limits_setup (borrower : Address) (credit_limit : Z) (interest_rate_bps : Z) : T
  (Address * Address) :=
  mock_all_auths ;;
  let* admin_ := generate in
  let* contract_id := register_credit in
  call (CInit admin_) ;;
  call (COpenCreditLine borrower credit_limit interest_rate_bps 70) ;;
  tret (contract_id, admin_).

Definition test_total_utilized_invariant_rejects_state_drift : T unit :=
  mock_all_auths ;;
  let* admin_ := generate in
  let* borrower := generate in
  let* contract_id := register_credit in
  call (CInit admin_) ;;
  let* a4 := generate in
  let* token_id := generate in
  call (CSetLiquidityToken token_id) ;;
  call (CSetLiquiditySource contract_id) ;;
  mint token_id contract_id 100000 ;;
  mint token_id borrower 100000 ;;
  call (COpenCreditLine borrower 10000 300 70) ;;
  call (CDepositCollateral borrower 5000) ;;
  call (CDrawCredit borrower 1000) ;;
  in_contract (iset DK.TotalUtilized 9999 ;;
    assert_total_utilized_conserved)%contract.

Definition test_total_collateral_invariant_rejects_state_drift : T unit :=
  mock_all_auths ;;
  let* admin_ := generate in
  let* borrower := generate in
  let* contract_id := register_credit in
  call (CInit admin_) ;;
  let* a4 := generate in
  let* token_id := generate in
  call (CSetLiquidityToken token_id) ;;
  call (CSetLiquiditySource contract_id) ;;
  mint token_id contract_id 100000 ;;
  mint token_id borrower 100000 ;;
  call (COpenCreditLine borrower 10000 300 70) ;;
  call (CDepositCollateral borrower 5000) ;;
  in_contract (iset DK.TotalCollateral 4999 ;;
    assert_total_collateral_conserved)%contract.

Definition test_no_limits_configured_allows_any_change : T unit :=
  mock_all_auths ;;
  let* borrower := generate in
  let* admin_ := generate in
  let* contract_id := register_credit in
  call (CInit admin_) ;;
  call (COpenCreditLine borrower 5000 300 70) ;;
  call (CUpdateRiskParameters borrower 5000 9999 70) ;;
  let* x4 := in_contract (Query.get_credit_line borrower) in
  let* x5 := unwrapped x4 in
  assert_eq (cl_interest_rate_bps x5) 9999.

Definition test_same_rate_bypasses_limits_rate_change_limits : T unit :=
  mock_all_auths ;;
  let* borrower := generate in
  let* admin_ := generate in
  let* contract_id := register_credit in
  call (CInit admin_) ;;
  call (COpenCreditLine borrower 5000 300 70) ;;
  call (CSetRateChangeLimits 0 999999) ;;
  call (CUpdateRiskParameters borrower 5000 300 70) ;;
  let* x4 := in_contract (Query.get_credit_line borrower) in
  let* x5 := unwrapped x4 in
  assert_eq (cl_interest_rate_bps x5) 300.

Definition test_rate_change_within_bounds_succeeds : T unit :=
  mock_all_auths ;;
  let* borrower := generate in
  let* (client, admin_) := rate_change_limits_setup borrower 5000 300 in
  call (CSetRateChangeLimits 100 60) ;;
  set_timestamp 100 ;;
  call (CUpdateRiskParameters borrower 5000 350 70) ;;
  let* x3 := in_contract (Query.get_credit_line borrower) in
  let* line := unwrapped x3 in
  assert_eq (cl_interest_rate_bps line) 350 ;;
  assert_eq (cl_last_rate_update_ts line) 100.

Definition test_rate_change_exceeds_max_delta_reverts : T unit :=
  mock_all_auths ;;
  let* borrower := generate in
  let* (client, admin_) := rate_change_limits_setup borrower 5000 300 in
  call (CSetRateChangeLimits 50 0) ;;
  call (CUpdateRiskParameters borrower 5000 400 70).

Definition test_rate_change_too_soon_reverts : T unit :=
  mock_all_auths ;;
  let* borrower := generate in
  let* (client, admin_) := rate_change_limits_setup borrower 5000 300 in
  call (CSetRateChangeLimits 100 3600) ;;
  set_timestamp 100 ;;
  call (CUpdateRiskParameters borrower 5000 350 70) ;;
  set_timestamp 200 ;;
  call (CUpdateRiskParameters borrower 5000 330 70).

Definition test_rate_change_credit_line_not_found_reverts : T unit :=
  mock_all_auths ;;
  let* borrower := generate in
  let* admin_ := generate in
  let* contract_id := register_credit in
  call (CInit admin_) ;;
  call (CSetRateChangeLimits 100 60) ;;
  call (CUpdateRiskParameters borrower 5000 350 70).

Lemma test_rate_change_limits_as_expected :
  all_hold [panics_saying "utilization conservation" test_total_utilized_invariant_rejects_state_drift;
     panics_saying "collateral conservation" test_total_collateral_invariant_rejects_state_drift;
     passes test_no_limits_configured_allows_any_change;
     passes test_same_rate_bypasses_limits_rate_change_limits;
     passes test_rate_change_within_bounds_succeeds;
     panics_with 8 test_rate_change_exceeds_max_delta_reverts;
     panics_with 33 test_rate_change_too_soon_reverts;
     panics_with 3 test_rate_change_credit_line_not_found_reverts] = true.
Proof. vm_compute. reflexivity. Qed.
End test_rate_change_limits.

(** Configuration, the pause, and the oracle configuration. *)
Module test_coverage.
Definition coverage_base : T (Address * Address * Address) :=
  mock_all_auths ;;
  let* admin_ := generate in
  let* borrower := generate in
  let* contract_id := register_credit in
  call (CInit admin_) ;;
  call (CSetMinCollateralRatioBps 0) ;;
  let* a4 := generate in
  let* token_id := generate in
  call (CSetLiquidityToken token_id) ;;
  mint token_id contract_id 1000000 ;;
  mint token_id borrower 1000000 ;;
  approve token_id borrower contract_id 1000000 ;;
  call (COpenCreditLine borrower 1000 300 70) ;;
  tret (contract_id, admin_, borrower).

Definition base_with_token : T (Address * Address * Address * Address) :=
  mock_all_auths ;;
  let* admin_ := generate in
  let* borrower := generate in
  let* contract_id := register_credit in
  call (CInit admin_) ;;
  call (CSetMinCollateralRatioBps 0) ;;
  let* a4 := generate in
  let* token_id := generate in
  call (CSetLiquidityToken token_id) ;;
  mint token_id contract_id 5000 ;;
  call (COpenCreditLine borrower 1000 300 70) ;;
  tret (contract_id, admin_, borrower, token_id).

Definition setup_with_token_v2 (borrower : Address) (credit_limit : Z) : T (Address * Address * Address *
  Address * Address) :=
  mock_all_auths ;;
  let* admin_ := generate in
  let* contract_id := register_credit in
  call (CInit admin_) ;;
  call (CSetMinCollateralRatioBps 0) ;;
  let* a3 := generate in
  let* token_id := generate in
  call (CSetLiquidityToken token_id) ;;
  mint token_id contract_id 5000 ;;
  call (COpenCreditLine borrower credit_limit 300 70) ;;
  tret (contract_id, token_id, contract_id, admin_, borrower).

Definition config_init_sets_liquidity_source_to_contract : T unit :=
  mock_all_auths ;;
  let* admin_ := generate in
  let* contract_id := register_credit in
  call (CInit admin_) ;;
  call (CSetMinCollateralRatioBps 0) ;;
  let* new_source := generate in
  call (CSetLiquiditySource new_source).

Definition config_set_liquidity_token_stores_address : T unit :=
  mock_all_auths ;;
  let* admin_ := generate in
  let* contract_id := register_credit in
  call (CInit admin_) ;;
  call (CSetMinCollateralRatioBps 0) ;;
  let* a3 := generate in
  let* token_ := generate in
  call (CSetLiquidityToken token_).

Definition config_set_liquidity_token_overwrite_replaces_address : T unit :=
  mock_all_auths ;;
  let* admin_ := generate in
  let* contract_id := register_credit in
  call (CInit admin_) ;;
  call (CSetMinCollateralRatioBps 0) ;;
  let* a3 := generate in
  let* token_a := generate in
  call (CSetLiquidityToken token_a) ;;
  let* a5 := generate in
  let* token_b := generate in
  call (CSetLiquidityToken token_b) ;;
  let* stored := in_contract (let* o_107 := iget DK.LiquidityToken in
    let* x108 := unwrap o_107 "unwrap" in
    ret (x108 : Address))%contract in
  assert_eq (stored : Address) token_b.

Definition borrow_draw_happy_path_with_token : T unit :=
  let* (client, admin_, borrower, token_) := base_with_token in
  call (CDrawCredit borrower 500) ;;
  let* x2 := in_contract (Query.get_credit_line borrower) in
  let* x3 := unwrapped x2 in
  assert_eq (cl_utilized_amount x3) 500.

Definition borrow_draw_without_token_reverts_with_contract_error : T unit :=
  mock_all_auths ;;
  let* admin_ := generate in
  let* borrower := generate in
  let* contract_id := register_credit in
  call (CInit admin_) ;;
  call (CSetMinCollateralRatioBps 0) ;;
  call (COpenCreditLine borrower 1000 300 70) ;;
  call (CDrawCredit borrower 200).

Definition repay_insufficient_allowance_does_not_change_credit_line_state : T unit :=
  mock_all_auths ;;
  let* borrower := generate in
  let* (client, token_, contract_id, admin_, borrower_unused) := setup_with_token_v2 borrower 1000 in
  mint token_ borrower 200 ;;
  approve token_ borrower contract_id 50 ;;
  let* x3 := in_contract (Query.get_credit_line borrower) in
  let* credit_line_before := unwrapped x3 in
  let* balance_before := token_balance_of token_ borrower in
  let* _ := token_allowance_of token_ borrower contract_id in
  tret tt.

Definition repay_insufficient_balance_does_not_change_credit_line_state : T unit :=
  mock_all_auths ;;
  let* borrower := generate in
  let* (client, token_, contract_id, admin_, _) := setup_with_token_v2 borrower 1000 in
  mint token_ borrower 500 ;;
  let* other := generate in
  token_transfer_by token_ borrower other 150 ;;
  approve token_ borrower contract_id 200 ;;
  let* x4 := in_contract (Query.get_credit_line borrower) in
  let* credit_line_before := unwrapped x4 in
  let* balance_before := token_balance_of token_ borrower in
  let* _ := token_allowance_of token_ borrower contract_id in
  tret tt.

Definition borrow_draw_zero_reverts : T unit :=
  let* (client, admin_, borrower) := coverage_base in
  call (CDrawCredit borrower 0).

Definition borrow_draw_negative_reverts : T unit :=
  let* (client, admin_, borrower) := coverage_base in
  call (CDrawCredit borrower (-1)).

Definition borrow_draw_over_limit_reverts : T unit :=
  let* (client, admin_, borrower) := coverage_base in
  call (CDrawCredit borrower 1001).

Definition borrow_draw_closed_reverts : T unit :=
  let* (client, admin_, borrower) := coverage_base in
  call (CCloseCreditLine borrower admin_) ;;
  call (CDrawCredit borrower 100).

Definition borrow_draw_insufficient_reserve_reverts : T unit :=
  mock_all_auths ;;
  let* admin_ := generate in
  let* borrower := generate in
  let* contract_id := register_credit in
  call (CInit admin_) ;;
  call (CSetMinCollateralRatioBps 0) ;;
  let* a4 := generate in
  let* token_id := generate in
  call (CSetLiquidityToken token_id) ;;
  call (COpenCreditLine borrower 1000 300 70) ;;
  call (CDrawCredit borrower 100).

Definition borrow_repay_happy_path : T unit :=
  let* (client, admin_, borrower) := coverage_base in
  call (CDrawCredit borrower 400) ;;
  call (CRepayCredit borrower 200) ;;
  let* x2 := in_contract (Query.get_credit_line borrower) in
  let* x3 := unwrapped x2 in
  assert_eq (cl_utilized_amount x3) 200.

Definition borrow_repay_zero_reverts : T unit :=
  let* (client, admin_, borrower) := coverage_base in
  call (CRepayCredit borrower 0).

Definition borrow_repay_closed_reverts : T unit :=
  let* (client, admin_, borrower) := coverage_base in
  call (CCloseCreditLine borrower admin_) ;;
  call (CRepayCredit borrower 100).

Definition lifecycle_open_zero_limit_reverts : T unit :=
  mock_all_auths ;;
  let* admin_ := generate in
  let* contract_id := register_credit in
  call (CInit admin_) ;;
  call (CSetMinCollateralRatioBps 0) ;;
  let* a3 := generate in
  call (COpenCreditLine a3 0 300 70).

Definition lifecycle_open_rate_too_high_reverts : T unit :=
  mock_all_auths ;;
  let* admin_ := generate in
  let* contract_id := register_credit in
  call (CInit admin_) ;;
  call (CSetMinCollateralRatioBps 0) ;;
  let* a3 := generate in
  call (COpenCreditLine a3 1000 10001 70).

Definition lifecycle_open_score_too_high_reverts : T unit :=
  mock_all_auths ;;
  let* admin_ := generate in
  let* contract_id := register_credit in
  call (CInit admin_) ;;
  call (CSetMinCollateralRatioBps 0) ;;
  let* a3 := generate in
  call (COpenCreditLine a3 1000 300 101).

Definition lifecycle_open_duplicate_active_reverts : T unit :=
  let* (client, admin_, borrower) := coverage_base in
  call (COpenCreditLine borrower 500 300 70).

Lemma test_coverage_as_expected :
  all_hold [passes config_init_sets_liquidity_source_to_contract;
     passes config_set_liquidity_token_stores_address;
     passes config_set_liquidity_token_overwrite_replaces_address;
     passes borrow_draw_happy_path_with_token;
     panics_with 22 borrow_draw_without_token_reverts_with_contract_error;
     passes repay_insufficient_allowance_does_not_change_credit_line_state;
     passes repay_insufficient_balance_does_not_change_credit_line_state;
     panics_with 5 borrow_draw_zero_reverts; panics_with 5 borrow_draw_negative_reverts;
     panics_with 6 borrow_draw_over_limit_reverts; panics_with 4 borrow_draw_closed_reverts;
     panics_with 24 borrow_draw_insufficient_reserve_reverts; passes borrow_repay_happy_path;
     panics_with 5 borrow_repay_zero_reverts; panics_with 4 borrow_repay_closed_reverts;
     panics_with 5 lifecycle_open_zero_limit_reverts;
     panics_with 8 lifecycle_open_rate_too_high_reverts;
     panics_with 9 lifecycle_open_score_too_high_reverts;
     panics_with 14 lifecycle_open_duplicate_active_reverts] = true.
Proof. vm_compute. reflexivity. Qed.
End test_coverage.

(** Repayment and the lifecycle, by status. *)
Module test_smoke_coverage.
Definition smoke_coverage_base : T (Address * Address * Address) :=
  mock_all_auths ;;
  let* admin_ := generate in
  let* contract_id := register_credit in
  call (CInit admin_) ;;
  call (CSetMinCollateralRatioBps 0) ;;
  let* borrower := generate in
  tret (contract_id, admin_, borrower).

Definition smoke_coverage_setup (borrower : Address) (credit_limit : Z) (reserve : Z) (draw_amount : Z) : T
  (Address * Address * Address * Address) :=
  mock_all_auths ;;
  let* admin_ := generate in
  let* contract_id := register_credit in
  call (CInit admin_) ;;
  call (CSetMinCollateralRatioBps 0) ;;
  let* a3 := generate in
  let* token_id := generate in
  call (CSetLiquidityToken token_id) ;;
  (if 0 <? reserve then mint token_id contract_id reserve else tret tt) ;;
  call (COpenCreditLine borrower credit_limit 300 70) ;;
  (if 0 <? draw_amount then call (CDrawCredit borrower draw_amount) else tret tt) ;;
  tret (contract_id, token_id, contract_id, admin_).

Definition smoke_coverage_approve (token_ : Address) (from : Address) (spender : Address) (amount : Z) : T
  unit :=
  approve token_ from spender amount.

Definition smoke_coverage_set_accrued_interest (contract_id : Address) (borrower : Address) (amount : Z) :
  T unit :=
  in_contract (let* o_101 := pget (KLine borrower) in
    let* line := unwrap o_101 "unwrap" in
    let line103 := set_utilized (line : CreditLineData) (sat_i128 (cl_utilized_amount (line :
      CreditLineData) + (amount - (cl_accrued_interest (line : CreditLineData))))) in
    let line104 := set_accrued line103 amount in
    pset (KLine borrower) line104)%contract.

Definition lifecycle_suspend_and_reinstate : T unit :=
  let* (client, admin_, borrower) := smoke_coverage_base in
  call (COpenCreditLine borrower 500 300 50) ;;
  call (CSuspendCreditLine borrower) ;;
  let* x2 := in_contract (Query.get_credit_line borrower) in
  let* x3 := unwrapped x2 in
  assert_eq (cl_status x3) Suspended ;;
  call (CDefaultCreditLine borrower) ;;
  call (CReinstateCreditLine borrower Active) ;;
  let* x4 := in_contract (Query.get_credit_line borrower) in
  let* x5 := unwrapped x4 in
  assert_eq (cl_status x5) Active ;;
  call (CCloseCreditLine borrower admin_) ;;
  let* x6 := in_contract (Query.get_credit_line borrower) in
  let* line := unwrapped x6 in
  assert_eq (cl_status line) Closed ;;
  call (COpenCreditLine borrower 500 300 50).

Definition open_credit_line_rejects_duplicate_active : T unit :=
  mock_all_auths ;;
  let* admin_ := generate in
  let* borrower := generate in
  let* client := register_credit in
  call (CInit admin_) ;;
  call (CSetMinCollateralRatioBps 0) ;;
  call (COpenCreditLine borrower 1000 500 60) ;;
  call (COpenCreditLine borrower 1000 500 60).

Definition test_suspend_nonexistent_credit_line : T unit :=
  mock_all_auths ;;
  let* admin_ := generate in
  let* borrower := generate in
  let* client := register_credit in
  call (CInit admin_) ;;
  call (CSetMinCollateralRatioBps 0) ;;
  let* a4 := generate in
  call (CSuspendCreditLine a4).

Definition open_credit_line_rejects_score_too_high : T unit :=
  mock_all_auths ;;
  let* admin_ := generate in
  let* client := register_credit in
  call (CInit admin_) ;;
  call (CSetMinCollateralRatioBps 0) ;;
  let* a3 := generate in
  call (COpenCreditLine a3 1000 500 101).

Definition draw_credit_rejects_borrower_mismatch : T unit :=
  mock_all_auths ;;
  let* admin_ := generate in
  let* borrower := generate in
  let* impostor := generate in
  let* client := register_credit in
  call (CInit admin_) ;;
  call (CSetMinCollateralRatioBps 0) ;;
  let* a5 := generate in
  let* token_id := generate in
  call (CSetLiquidityToken token_id) ;;
  call (COpenCreditLine borrower 1000 500 60) ;;
  call (CDrawCredit impostor 100).

Definition test_multiple_borrowers : T unit :=
  mock_all_auths ;;
  let* admin_ := generate in
  let* borrower := generate in
  let* borrower_two := generate in
  let* client := register_credit in
  call (CInit admin_) ;;
  call (CSetMinCollateralRatioBps 0) ;;
  call (COpenCreditLine borrower 1000 500 60) ;;
  call (CDefaultCreditLine borrower) ;;
  call (CReinstateCreditLine borrower Active) ;;
  let* x5 := in_contract (Query.get_credit_line borrower) in
  let* x6 := unwrapped x5 in
  assert_eq (cl_status x6) Active.

Definition repay_less_than_interest_reduces_interest_only_smoke_coverage : T unit :=
  mock_all_auths ;;
  let* borrower := generate in
  let* (client, token_, contract_id, admin_) := smoke_coverage_setup borrower 1000 1000 500 in
  smoke_coverage_set_accrued_interest contract_id borrower 200 ;;
  mint token_ borrower 100 ;;
  smoke_coverage_approve token_ borrower contract_id 100 ;;
  call (CRepayCredit borrower 100) ;;
  let* x3 := in_contract (Query.get_credit_line borrower) in
  let* line := unwrapped x3 in
  assert_eq (cl_accrued_interest line) 100 ;;
  assert_eq (cl_utilized_amount line) 600.

Definition repay_exactly_interest_zeros_accrued_interest_smoke_coverage : T unit :=
  mock_all_auths ;;
  let* borrower := generate in
  let* (client, token_, contract_id, admin_) := smoke_coverage_setup borrower 1000 1000 500 in
  smoke_coverage_set_accrued_interest contract_id borrower 200 ;;
  mint token_ borrower 200 ;;
  smoke_coverage_approve token_ borrower contract_id 200 ;;
  call (CRepayCredit borrower 200) ;;
  let* x3 := in_contract (Query.get_credit_line borrower) in
  let* line := unwrapped x3 in
  assert_eq (cl_accrued_interest line) 0 ;;
  assert_eq (cl_utilized_amount line) 500.

Definition repay_interest_plus_partial_principal_smoke_coverage : T unit :=
  mock_all_auths ;;
  let* borrower := generate in
  let* (client, token_, contract_id, admin_) := smoke_coverage_setup borrower 1000 1000 500 in
  smoke_coverage_set_accrued_interest contract_id borrower 200 ;;
  mint token_ borrower 300 ;;
  smoke_coverage_approve token_ borrower contract_id 300 ;;
  call (CRepayCredit borrower 300) ;;
  let* x3 := in_contract (Query.get_credit_line borrower) in
  let* line := unwrapped x3 in
  assert_eq (cl_accrued_interest line) 0 ;;
  assert_eq (cl_utilized_amount line) 400.

Definition repay_overpayment_capped_at_total_owed_smoke_coverage : T unit :=
  mock_all_auths ;;
  let* borrower := generate in
  let* (client, token_, contract_id, admin_) := smoke_coverage_setup borrower 1000 1000 500 in
  smoke_coverage_set_accrued_interest contract_id borrower 200 ;;
  mint token_ borrower 1000 ;;
  smoke_coverage_approve token_ borrower contract_id 1000 ;;
  call (CRepayCredit borrower 1000) ;;
  let* x3 := in_contract (Query.get_credit_line borrower) in
  let* line := unwrapped x3 in
  assert_eq (cl_accrued_interest line) 0 ;;
  assert_eq (cl_utilized_amount line) 0.

Definition repay_accrual_initializes_checkpoint_without_charging_smoke_coverage : T unit :=
  mock_all_auths ;;
  set_timestamp 1000 ;;
  let* borrower := generate in
  let* (client, token_, contract_id, admin_) := smoke_coverage_setup borrower 1000 1000 400 in
  let* x3 := in_contract (Query.get_credit_line borrower) in
  let* line_before := unwrapped x3 in
  assert_eq (cl_last_accrual_ts line_before) 1000 ;;
  assert_eq (cl_accrued_interest line_before) 0 ;;
  set_timestamp 1000 ;;
  mint token_ borrower 100 ;;
  smoke_coverage_approve token_ borrower contract_id 100 ;;
  set_timestamp 100 ;;
  call (CRepayCredit borrower 100) ;;
  let* x5 := in_contract (Query.get_credit_line borrower) in
  let* line_after := unwrapped x5 in
  assert_eq (cl_last_accrual_ts line_after) 1000 ;;
  assert_eq (cl_accrued_interest line_after) 0 ;;
  assert_eq (cl_utilized_amount line_after) 300.

Definition repay_after_time_elapse_accrues_interest_before_allocation_smoke_coverage : T unit :=
  mock_all_auths ;;
  set_timestamp 1000 ;;
  let* borrower := generate in
  let* (client, token_, contract_id, admin_) := smoke_coverage_setup borrower 10000 10000 1000 in
  set_timestamp 1000 ;;
  mint token_ borrower 100 ;;
  smoke_coverage_approve token_ borrower contract_id 100 ;;
  set_timestamp 100 ;;
  call (CRepayCredit borrower 100) ;;
  let* x3 := in_contract (Query.get_credit_line borrower) in
  let* line_after_first := unwrapped x3 in
  assert_eq (cl_utilized_amount line_after_first) 900 ;;
  assert_eq (cl_accrued_interest line_after_first) 0 ;;
  let checkpoint := cl_last_accrual_ts line_after_first in
  assert (0 <? checkpoint) ;;
  set_timestamp (checkpoint + MathUtils.SECONDS_PER_YEAR) ;;
  mint token_ borrower 200 ;;
  smoke_coverage_approve token_ borrower contract_id 200 ;;
  call (CRepayCredit borrower 200) ;;
  let* x5 := in_contract (Query.get_credit_line borrower) in
  let* line_after_second := unwrapped x5 in
  assert_eq (cl_accrued_interest line_after_second) 0 ;;
  assert_eq (cl_utilized_amount line_after_second) 727.

Lemma test_smoke_coverage_as_expected :
  all_hold [passes lifecycle_suspend_and_reinstate; panics_with 14 open_credit_line_rejects_duplicate_active;
     panics_with 9 open_credit_line_rejects_score_too_high;
     panics_with 3 draw_credit_rejects_borrower_mismatch; passes test_multiple_borrowers;
     passes repay_accrual_initializes_checkpoint_without_charging_smoke_coverage;
     passes repay_after_time_elapse_accrues_interest_before_allocation_smoke_coverage] = true.
Proof. vm_compute. reflexivity. Qed.

(** Tests whose expectation the code does not meet: what they do instead. *)
Lemma test_smoke_coverage_outdated :
  all_hold [panics_with 3 test_suspend_nonexistent_credit_line;
     panics_saying "utilization conservation" repay_less_than_interest_reduces_interest_only_smoke_coverage;
     panics_saying "utilization conservation" repay_exactly_interest_zeros_accrued_interest_smoke_coverage;
     panics_saying "utilization conservation" repay_interest_plus_partial_principal_smoke_coverage;
     panics_saying "utilization conservation" repay_overpayment_capped_at_total_owed_smoke_coverage] = true.
Proof. vm_compute. reflexivity. Qed.
End test_smoke_coverage.

(** Calls before [init], and rejected transitions. *)
Module test_smoke_coverage_extra.
Definition smoke_coverage_extra_base : T (Address * Address * Address) :=
  mock_all_auths ;;
  let* admin_ := generate in
  let* borrower := generate in
  let* contract_id := register_credit in
  call (CInit admin_) ;;
  tret (contract_id, admin_, borrower).

Definition lifecycle_suspend_non_active_reverts_smoke_coverage_extra : T unit :=
  let* (client, admin_, borrower) := smoke_coverage_extra_base in
  call (COpenCreditLine borrower 500 300 70) ;;
  call (CSuspendCreditLine borrower) ;;
  call (CSuspendCreditLine borrower).

Definition test_init_double_init_does_not_overwrite_admin_smoke_coverage_extra : T unit :=
  mock_all_auths ;;
  let* admin_ := generate in
  let* contract_id := register_credit in
  call (CInit admin_) ;;
  let* borrower := generate in
  call (COpenCreditLine borrower 100 100 10) ;;
  let* x4 := in_contract (Query.get_credit_line borrower) in
  let* line := unwrapped x4 in
  assert_eq (cl_borrower line) borrower.

Definition test_admin_gated_call_before_init_reverts_smoke_coverage_extra : T unit :=
  mock_all_auths ;;
  let* borrower := generate in
  let* contract_id := register_credit in
  call (CSuspendCreditLine borrower).

Lemma test_smoke_coverage_extra_as_expected :
  all_hold [passes test_init_double_init_does_not_overwrite_admin_smoke_coverage_extra;
     panics test_admin_gated_call_before_init_reverts_smoke_coverage_extra] = true.
Proof. vm_compute. reflexivity. Qed.

(** Tests whose expectation the code does not meet: what they do instead. *)
Lemma test_smoke_coverage_extra_outdated :
  all_hold [panics_with 60 lifecycle_suspend_non_active_reverts_smoke_coverage_extra] = true.
Proof. vm_compute. reflexivity. Qed.
End test_smoke_coverage_extra.

(** Draw and repay against a liquidity token. *)
Module test_mock_liquidity_token.
Definition mock_liquidity_token_setup : T (Address * Address * Address * Address) :=
  mock_all_auths ;;
  let* admin_ := generate in
  let* borrower := generate in
  let* contract_id := register_credit in
  call (CInit admin_) ;;
  call (CSetMinCollateralRatioBps 0) ;;
  let* liquidity := (let* _ := generate in generate) in
  call (CSetLiquidityToken liquidity) ;;
  call (COpenCreditLine borrower 1000 300 70) ;;
  tret (contract_id, contract_id, borrower, liquidity).

Definition mock_liquidity_token_base_setup : T (Address * Address * Address) :=
  mock_all_auths ;;
  let* admin_ := generate in
  let* borrower := generate in
  let* contract_id := register_credit in
  call (CInit admin_) ;;
  call (CSetMinCollateralRatioBps 0) ;;
  call (COpenCreditLine borrower 1000 500 60) ;;
  tret (contract_id, admin_, borrower).

Definition setup_with_draw (borrower : Address) (credit_limit : Z) (reserve : Z) (draw_amount : Z) : T
  (Address * Address * Address * Address) :=
  mock_all_auths ;;
  let* admin_ := generate in
  let* contract_id := register_credit in
  call (CInit admin_) ;;
  call (CSetMinCollateralRatioBps 0) ;;
  let* a3 := generate in
  let* token_id := generate in
  call (CSetLiquidityToken token_id) ;;
  mint token_id contract_id reserve ;;
  call (COpenCreditLine borrower credit_limit 300 70) ;;
  (if 0 <? draw_amount then call (CDrawCredit borrower draw_amount) else tret tt) ;;
  tret (contract_id, token_id, contract_id, admin_).

Definition mock_liquidity_token_approve (token_ : Address) (from : Address) (spender : Address) (amount :
  Z) : T unit :=
  approve token_ from spender amount.

Definition mock_liquidity_token_set_accrued_interest (contract_id : Address) (borrower : Address) (amount :
  Z) : T unit :=
  in_contract (let* o_101 := pget (KLine borrower) in
    let* line := unwrap o_101 "unwrap" in
    let line103 := set_utilized (line : CreditLineData) (sat_i128 (cl_utilized_amount (line :
      CreditLineData) + (amount - (cl_accrued_interest (line : CreditLineData))))) in
    let line104 := set_accrued line103 amount in
    pset (KLine borrower) line104)%contract.

Definition update_risk_params_negative_limit_reverts_mock_liquidity_token : T unit :=
  let* (client, admin_, borrower) := mock_liquidity_token_base_setup in
  call (CUpdateRiskParameters borrower (-1) 500 60).

Definition mock_token_mint_increases_balance_mock_liquidity_token : T unit :=
  mock_all_auths ;;
  let* r := generate in
  let* t := (let* _ := generate in generate) in
  mint t r 500 ;;
  let* x3 := token_balance_of t r in
  assert_eq x3 500.

Definition mock_token_approve_sets_allowance_mock_liquidity_token : T unit :=
  mock_all_auths ;;
  let* o := generate in
  let* s := generate in
  let* t := (let* _ := generate in generate) in
  mint t o 1000 ;;
  approve t o s 300 ;;
  let* x4 := token_allowance_of t o s in
  assert_eq x4 300.

Definition draw_transfers_reserve_to_borrower_mock_liquidity_token : T unit :=
  let* (client, contract_id, borrower, liquidity) := mock_liquidity_token_setup in
  mint liquidity contract_id 500 ;;
  call (CDrawCredit borrower 300) ;;
  let* x2 := token_balance_of liquidity borrower in
  assert_eq x2 300.

Definition draw_fails_reserve_empty_mock_liquidity_token : T unit :=
  let* (client, c, borrower, l) := mock_liquidity_token_setup in
  call (CDrawCredit borrower 100).

Definition reinstate_non_defaulted_active_line_reverts_mock_liquidity_token : T unit :=
  let* (client, admin_, borrower) := mock_liquidity_token_base_setup in
  call (CReinstateCreditLine borrower Active).

Definition reinstate_suspended_line_reverts_mock_liquidity_token : T unit :=
  let* (client, admin_, borrower) := mock_liquidity_token_base_setup in
  call (CSuspendCreditLine borrower) ;;
  call (CReinstateCreditLine borrower Active).

Definition repay_reduces_utilized_mock_liquidity_token : T unit :=
  let* (client, contract_id, borrower, liquidity) := mock_liquidity_token_setup in
  mint liquidity contract_id 1000 ;;
  call (CDrawCredit borrower 600) ;;
  mint liquidity borrower 300 ;;
  approve liquidity borrower contract_id 300 ;;
  call (CRepayCredit borrower 300) ;;
  let* x2 := in_contract (Query.get_credit_line borrower) in
  let* x3 := unwrapped x2 in
  assert_eq (cl_utilized_amount x3) 300.

Definition draw_repay_full_cycle_mock_liquidity_token : T unit :=
  let* (client, contract_id, borrower, liquidity) := mock_liquidity_token_setup in
  mint liquidity contract_id 1000 ;;
  call (CDrawCredit borrower 700) ;;
  approve liquidity borrower contract_id 700 ;;
  call (CRepayCredit borrower 700) ;;
  let* x2 := in_contract (Query.get_credit_line borrower) in
  let* x3 := unwrapped x2 in
  assert_eq (cl_utilized_amount x3) 0.

Definition test_event_lifecycle_sequence : T unit :=
  let* borrower := generate in
  let* (client, token_, contract_id, admin_) := setup_with_draw borrower 1000 1000 200 in
  call (CRepayCredit borrower 50) ;;
  call (CSuspendCreditLine borrower) ;;
  call (CDefaultCreditLine borrower) ;;
  call (CReinstateCreditLine borrower Active) ;;
  call (CCloseCreditLine borrower admin_).

Definition repay_less_than_interest_reduces_interest_only_mock_liquidity_token : T unit :=
  mock_all_auths ;;
  let* borrower := generate in
  let* (client, token_, contract_id, admin_) := setup_with_draw borrower 1000 1000 500 in
  mock_liquidity_token_set_accrued_interest contract_id borrower 200 ;;
  mint token_ borrower 100 ;;
  mock_liquidity_token_approve token_ borrower contract_id 100 ;;
  call (CRepayCredit borrower 100) ;;
  let* x3 := in_contract (Query.get_credit_line borrower) in
  let* line := unwrapped x3 in
  assert_eq (cl_accrued_interest line) 100 ;;
  assert_eq (cl_utilized_amount line) 600.

Definition repay_exactly_interest_zeros_accrued_interest_mock_liquidity_token : T unit :=
  mock_all_auths ;;
  let* borrower := generate in
  let* (client, token_, contract_id, admin_) := setup_with_draw borrower 1000 1000 500 in
  mock_liquidity_token_set_accrued_interest contract_id borrower 200 ;;
  mint token_ borrower 200 ;;
  mock_liquidity_token_approve token_ borrower contract_id 200 ;;
  call (CRepayCredit borrower 200) ;;
  let* x3 := in_contract (Query.get_credit_line borrower) in
  let* line := unwrapped x3 in
  assert_eq (cl_accrued_interest line) 0 ;;
  assert_eq (cl_utilized_amount line) 500.

Definition repay_interest_plus_partial_principal_mock_liquidity_token : T unit :=
  mock_all_auths ;;
  let* borrower := generate in
  let* (client, token_, contract_id, admin_) := setup_with_draw borrower 1000 1000 500 in
  mock_liquidity_token_set_accrued_interest contract_id borrower 200 ;;
  mint token_ borrower 300 ;;
  mock_liquidity_token_approve token_ borrower contract_id 300 ;;
  call (CRepayCredit borrower 300) ;;
  let* x3 := in_contract (Query.get_credit_line borrower) in
  let* line := unwrapped x3 in
  assert_eq (cl_accrued_interest line) 0 ;;
  assert_eq (cl_utilized_amount line) 400.

Definition repay_overpayment_capped_at_total_owed_mock_liquidity_token : T unit :=
  mock_all_auths ;;
  let* borrower := generate in
  let* (client, token_, contract_id, admin_) := setup_with_draw borrower 1000 1000 500 in
  mock_liquidity_token_set_accrued_interest contract_id borrower 200 ;;
  mint token_ borrower 1000 ;;
  mock_liquidity_token_approve token_ borrower contract_id 1000 ;;
  call (CRepayCredit borrower 1000) ;;
  let* x3 := in_contract (Query.get_credit_line borrower) in
  let* line := unwrapped x3 in
  assert_eq (cl_accrued_interest line) 0 ;;
  assert_eq (cl_utilized_amount line) 0.

Definition repay_accrual_initializes_checkpoint_without_charging_mock_liquidity_token : T unit :=
  mock_all_auths ;;
  set_timestamp 1000 ;;
  let* borrower := generate in
  let* (client, token_, contract_id, admin_) := setup_with_draw borrower 1000 1000 400 in
  let* x3 := in_contract (Query.get_credit_line borrower) in
  let* line_before := unwrapped x3 in
  assert_eq (cl_last_accrual_ts line_before) 1000 ;;
  assert_eq (cl_accrued_interest line_before) 0 ;;
  set_timestamp 1000 ;;
  mint token_ borrower 100 ;;
  mock_liquidity_token_approve token_ borrower contract_id 100 ;;
  set_timestamp 100 ;;
  call (CRepayCredit borrower 100) ;;
  let* x5 := in_contract (Query.get_credit_line borrower) in
  let* line_after := unwrapped x5 in
  assert_eq (cl_last_accrual_ts line_after) 1000 ;;
  assert_eq (cl_accrued_interest line_after) 0 ;;
  assert_eq (cl_utilized_amount line_after) 300.

Definition repay_after_time_elapse_accrues_interest_before_allocation_mock_liquidity_token : T unit :=
  mock_all_auths ;;
  set_timestamp 1000 ;;
  let* borrower := generate in
  let* (client, token_, contract_id, admin_) := setup_with_draw borrower 10000 10000 1000 in
  set_timestamp 1000 ;;
  mint token_ borrower 100 ;;
  mock_liquidity_token_approve token_ borrower contract_id 100 ;;
  set_timestamp 100 ;;
  call (CRepayCredit borrower 100) ;;
  let* x3 := in_contract (Query.get_credit_line borrower) in
  let* line_after_first := unwrapped x3 in
  assert_eq (cl_utilized_amount line_after_first) 900 ;;
  assert_eq (cl_accrued_interest line_after_first) 0 ;;
  let checkpoint := cl_last_accrual_ts line_after_first in
  assert (0 <? checkpoint) ;;
  set_timestamp (checkpoint + MathUtils.SECONDS_PER_YEAR) ;;
  mint token_ borrower 200 ;;
  mock_liquidity_token_approve token_ borrower contract_id 200 ;;
  call (CRepayCredit borrower 200) ;;
  let* x5 := in_contract (Query.get_credit_line borrower) in
  let* line_after_second := unwrapped x5 in
  assert_eq (cl_accrued_interest line_after_second) 0 ;;
  assert_eq (cl_utilized_amount line_after_second) 727.

Lemma test_mock_liquidity_token_as_expected :
  all_hold [panics_with 7 update_risk_params_negative_limit_reverts_mock_liquidity_token;
     passes mock_token_mint_increases_balance_mock_liquidity_token;
     passes mock_token_approve_sets_allowance_mock_liquidity_token;
     passes draw_transfers_reserve_to_borrower_mock_liquidity_token;
     panics_with 24 draw_fails_reserve_empty_mock_liquidity_token;
     panics_with 21 reinstate_suspended_line_reverts_mock_liquidity_token;
     passes repay_reduces_utilized_mock_liquidity_token;
     passes draw_repay_full_cycle_mock_liquidity_token;
     passes repay_accrual_initializes_checkpoint_without_charging_mock_liquidity_token;
     passes repay_after_time_elapse_accrues_interest_before_allocation_mock_liquidity_token] = true.
Proof. vm_compute. reflexivity. Qed.

(** Tests whose expectation the code does not meet: what they do instead. *)
Lemma test_mock_liquidity_token_outdated :
  all_hold [panics_with 60 reinstate_non_defaulted_active_line_reverts_mock_liquidity_token;
     panics test_event_lifecycle_sequence;
     panics_saying "utilization conservation" repay_less_than_interest_reduces_interest_only_mock_liquidity_token;
     panics_saying "utilization conservation" repay_exactly_interest_zeros_accrued_interest_mock_liquidity_token;
     panics_saying "utilization conservation" repay_interest_plus_partial_principal_mock_liquidity_token;
     panics_saying "utilization conservation" repay_overpayment_capped_at_total_owed_mock_liquidity_token] = true.
Proof. vm_compute. reflexivity. Qed.
End test_mock_liquidity_token.

(** [init] and its idempotence. *)
Module test_init_coverage.
Definition init_coverage_base_setup : T (Address * Address * Address) :=
  mock_all_auths ;;
  let* admin_ := generate in
  let* borrower := generate in
  let* contract_id := register_credit in
  call (CInit admin_) ;;
  call (COpenCreditLine borrower 1000 500 60) ;;
  tret (contract_id, admin_, borrower).

Definition lifecycle_suspend_non_active_reverts_init_coverage : T unit :=
  let* (client, admin_, borrower) := init_coverage_base_setup in
  call (CSuspendCreditLine borrower) ;;
  call (CSuspendCreditLine borrower).

Definition test_init_double_init_does_not_overwrite_admin_init_coverage : T unit :=
  mock_all_auths ;;
  let* admin_ := generate in
  let* contract_id := register_credit in
  call (CInit admin_) ;;
  let* borrower := generate in
  call (COpenCreditLine borrower 100 100 10) ;;
  let* x4 := in_contract (Query.get_credit_line borrower) in
  let* line := unwrapped x4 in
  assert_eq (cl_borrower line) borrower.

Definition test_admin_gated_call_before_init_reverts_init_coverage : T unit :=
  mock_all_auths ;;
  let* borrower := generate in
  let* contract_id := register_credit in
  call (CSuspendCreditLine borrower).

Lemma test_init_coverage_as_expected :
  all_hold [passes test_init_double_init_does_not_overwrite_admin_init_coverage;
     panics test_admin_gated_call_before_init_reverts_init_coverage] = true.
Proof. vm_compute. reflexivity. Qed.

(** Tests whose expectation the code does not meet: what they do instead. *)
Lemma test_init_coverage_outdated :
  all_hold [panics_with 60 lifecycle_suspend_non_active_reverts_init_coverage] = true.
Proof. vm_compute. reflexivity. Qed.
End test_init_coverage.

(** The same contract with a token reserve: limits, lifecycle, pagination, rate limits. *)
Module test_mock_liquidity_token_extended.
Definition setup_mock : T (Address * Address * Address * Address) :=
  mock_all_auths ;;
  let* admin_ := generate in
  let* borrower := generate in
  let* contract_id := register_credit in
  call (CInit admin_) ;;
  call (CSetMinCollateralRatioBps 0) ;;
  let* liquidity := (let* _ := generate in generate) in
  call (CSetLiquidityToken liquidity) ;;
  call (COpenCreditLine borrower 1000 300 70) ;;
  tret (contract_id, contract_id, borrower, liquidity).

Definition mock_liquidity_token_extended_setup (borrower : Address) (credit_limit : Z) (interest_rate_bps :
  Z) : T (Address * Address) :=
  mock_all_auths ;;
  let* admin_ := generate in
  let* contract_id := register_credit in
  call (CInit admin_) ;;
  call (CSetMinCollateralRatioBps 0) ;;
  call (COpenCreditLine borrower credit_limit interest_rate_bps 70) ;;
  tret (contract_id, admin_).

Definition mock_liquidity_token_extended_base_setup : T (Address * Address * Address) :=
  mock_all_auths ;;
  let* admin_ := generate in
  let* borrower := generate in
  let* contract_id := register_credit in
  call (CInit admin_) ;;
  call (CSetMinCollateralRatioBps 0) ;;
  call (COpenCreditLine borrower 1000 500 60) ;;
  tret (contract_id, admin_, borrower).

Definition update_risk_params_negative_limit_reverts_mock_liquidity_token_extended : T unit :=
  let* (client, admin_, borrower) := mock_liquidity_token_extended_base_setup in
  call (CUpdateRiskParameters borrower (-1) 500 60).

Definition mock_token_mint_increases_balance_mock_liquidity_token_extended : T unit :=
  mock_all_auths ;;
  let* r := generate in
  let* t := (let* _ := generate in generate) in
  mint t r 500 ;;
  let* x3 := token_balance_of t r in
  assert_eq x3 500.

Definition mock_token_approve_sets_allowance_mock_liquidity_token_extended : T unit :=
  mock_all_auths ;;
  let* o := generate in
  let* s := generate in
  let* t := (let* _ := generate in generate) in
  mint t o 1000 ;;
  approve t o s 300 ;;
  let* x4 := token_allowance_of t o s in
  assert_eq x4 300.

Definition draw_transfers_reserve_to_borrower_mock_liquidity_token_extended : T unit :=
  let* (client, contract_id, borrower, liquidity) := setup_mock in
  mint liquidity contract_id 500 ;;
  call (CDrawCredit borrower 300) ;;
  let* x2 := token_balance_of liquidity borrower in
  assert_eq x2 300.

Definition draw_fails_reserve_empty_mock_liquidity_token_extended : T unit :=
  let* (client, c, borrower, l) := setup_mock in
  call (CDrawCredit borrower 100).

Definition reinstate_non_defaulted_active_line_reverts_mock_liquidity_token_extended : T unit :=
  let* (client, admin_, borrower) := mock_liquidity_token_extended_base_setup in
  call (CReinstateCreditLine borrower Active).

Definition reinstate_suspended_line_reverts_mock_liquidity_token_extended : T unit :=
  let* (client, admin_, borrower) := mock_liquidity_token_extended_base_setup in
  call (CSuspendCreditLine borrower) ;;
  call (CReinstateCreditLine borrower Active).

Definition repay_reduces_utilized_mock_liquidity_token_extended : T unit :=
  let* (client, contract_id, borrower, liquidity) := setup_mock in
  mint liquidity contract_id 1000 ;;
  call (CDrawCredit borrower 600) ;;
  mint liquidity borrower 300 ;;
  approve liquidity borrower contract_id 300 ;;
  call (CRepayCredit borrower 300) ;;
  let* x2 := in_contract (Query.get_credit_line borrower) in
  let* x3 := unwrapped x2 in
  assert_eq (cl_utilized_amount x3) 300.

Definition draw_repay_full_cycle_mock_liquidity_token_extended : T unit :=
  let* (client, contract_id, borrower, liquidity) := setup_mock in
  mint liquidity contract_id 1000 ;;
  call (CDrawCredit borrower 700) ;;
  approve liquidity borrower contract_id 700 ;;
  call (CRepayCredit borrower 700) ;;
  let* x2 := in_contract (Query.get_credit_line borrower) in
  let* x3 := unwrapped x2 in
  assert_eq (cl_utilized_amount x3) 0.

Definition test_rate_change_limits_roundtrip : T unit :=
  mock_all_auths ;;
  let* admin_ := generate in
  let* contract_id := register_credit in
  call (CInit admin_) ;;
  call (CSetMinCollateralRatioBps 0) ;;
  call (CSetRateChangeLimits 250 3600) ;;
  let* x3 := in_contract Query.get_rate_change_limits in
  let* cfg := unwrapped x3 in
  assert_eq (max_rate_change_bps cfg) 250 ;;
  assert_eq (rate_change_min_interval cfg) 3600.

Definition test_update_risk_parameters_interest_rate_exceeds_max : T unit :=
  mock_all_auths ;;
  let* admin_ := generate in
  let* borrower := generate in
  let* contract_id := register_credit in
  call (CInit admin_) ;;
  call (CSetMinCollateralRatioBps 0) ;;
  call (COpenCreditLine borrower 1000 300 70) ;;
  call (CUpdateRiskParameters borrower 1000 10001 70).

Definition test_update_risk_parameters_risk_score_exceeds_max : T unit :=
  mock_all_auths ;;
  let* admin_ := generate in
  let* borrower := generate in
  let* contract_id := register_credit in
  call (CInit admin_) ;;
  call (CSetMinCollateralRatioBps 0) ;;
  call (COpenCreditLine borrower 1000 300 70) ;;
  call (CUpdateRiskParameters borrower 1000 300 101).

Definition draw_credit_zero_amount_reverts_and_guard_cleared : T unit :=
  mock_all_auths ;;
  let* admin_ := generate in
  let* borrower := generate in
  let* contract_id := register_credit in
  call (CInit admin_) ;;
  call (CSetMinCollateralRatioBps 0) ;;
  call (COpenCreditLine borrower 1000 500 60) ;;
  call (CDrawCredit borrower 0).

Definition test_draw_credit_unauthorized : T unit :=
  let* borrower := generate in
  let* contract_id := register_credit in
  in_contract (let line := (mkLine borrower 1000 0 300 70 Active 0 0 1 0) in
    pset (KLine borrower) line)%contract ;;
  call (CDrawCredit borrower 100).

Definition test_draw_credit_on_suspended_line : T unit :=
  mock_all_auths ;;
  let* admin_ := generate in
  let* borrower := generate in
  let* contract_id := register_credit in
  call (CInit admin_) ;;
  call (CSetMinCollateralRatioBps 0) ;;
  call (COpenCreditLine borrower 1000 300 70) ;;
  call (CSuspendCreditLine borrower) ;;
  call (CDrawCredit borrower 100).

Definition test_draw_credit_exceeding_limit : T unit :=
  mock_all_auths ;;
  let* admin_ := generate in
  let* borrower := generate in
  let* contract_id := register_credit in
  call (CInit admin_) ;;
  call (CSetMinCollateralRatioBps 0) ;;
  call (COpenCreditLine borrower 1000 300 70) ;;
  call (CDrawCredit borrower 1001).

Definition test_draw_credit_negative_amount : T unit :=
  mock_all_auths ;;
  let* admin_ := generate in
  let* borrower := generate in
  let* contract_id := register_credit in
  call (CInit admin_) ;;
  call (CSetMinCollateralRatioBps 0) ;;
  call (COpenCreditLine borrower 1000 300 70) ;;
  call (CDrawCredit borrower (-100)).

Definition draw_credit_on_defaulted_line_reverts : T unit :=
  mock_all_auths ;;
  let* admin_ := generate in
  let* borrower := generate in
  let* contract_id := register_credit in
  let* a4 := generate in
  let* token_id := generate in
  call (CInit admin_) ;;
  call (CSetMinCollateralRatioBps 0) ;;
  call (CSetLiquidityToken token_id) ;;
  mint token_id contract_id 1000 ;;
  call (COpenCreditLine borrower 1000 500 60) ;;
  call (CDefaultCreditLine borrower) ;;
  call (CDrawCredit borrower 100).

Definition draw_credit_on_closed_line_reverts_with_contract_error : T unit :=
  mock_all_auths ;;
  let* admin_ := generate in
  let* borrower := generate in
  let* contract_id := register_credit in
  let* a4 := generate in
  let* token_id := generate in
  call (CInit admin_) ;;
  call (CSetMinCollateralRatioBps 0) ;;
  call (CSetLiquidityToken token_id) ;;
  call (COpenCreditLine borrower 1000 500 60) ;;
  call (CCloseCreditLine borrower admin_) ;;
  call (CDrawCredit borrower 100).

Definition rate_change_after_interval_succeeds : T unit :=
  let* (client, admin_, borrower) := mock_liquidity_token_extended_base_setup in
  call (CSetRateChangeLimits 1000 86400) ;;
  set_timestamp 100 ;;
  call (CUpdateRiskParameters borrower 1000 600 60) ;;
  set_timestamp ((100 + 86400) + 1) ;;
  call (CUpdateRiskParameters borrower 1000 700 60) ;;
  let* x2 := in_contract (Query.get_credit_line borrower) in
  let* x3 := unwrapped x2 in
  assert_eq (cl_interest_rate_bps x3) 700.

Definition suspend_defaulted_line_reverts : T unit :=
  mock_all_auths ;;
  let* (client, admin_, borrower) := mock_liquidity_token_extended_base_setup in
  call (CDefaultCreditLine borrower) ;;
  call (CSuspendCreditLine borrower).

Definition close_credit_line_idempotent_when_already_closed_mock_liquidity_token_extended : T unit :=
  mock_all_auths ;;
  let* admin_ := generate in
  let* borrower := generate in
  let* contract_id := register_credit in
  call (CInit admin_) ;;
  call (CSetMinCollateralRatioBps 0) ;;
  call (COpenCreditLine borrower 1000 300 70) ;;
  let* token_admin := generate in
  let* token_ := generate in
  call (CSetLiquidityToken token_) ;;
  mint token_ contract_id 500 ;;
  call (CCloseCreditLine borrower admin_) ;;
  call (CCloseCreditLine borrower admin_) ;;
  let* x6 := in_contract (Query.get_credit_line borrower) in
  let* x7 := unwrapped x6 in
  assert_eq (cl_status x7) Closed.

Definition draw_credit_overflow_on_utilized_amount_reverts : T unit :=
  mock_all_auths ;;
  let* admin_ := generate in
  let* borrower := generate in
  let* token_admin := generate in
  let* contract_id := register_credit in
  let* a5 := generate in
  let* token_id := generate in
  call (CInit admin_) ;;
  call (CSetMinCollateralRatioBps 0) ;;
  call (COpenCreditLine borrower 1000 300 70) ;;
  let* token_ := generate in
  call (CSetLiquidityToken token_) ;;
  mint token_ contract_id 50 ;;
  call (CDrawCredit borrower 100).

Definition test_contract_error_codes : T unit :=
  let _ := Unauthorized in
  let _ := NotAdmin in
  let _ := CreditLineNotFound in
  let _ := CreditLineClosed in
  let _ := InvalidAmount in
  let _ := OverLimit in
  let _ := NegativeLimit in
  let _ := RateTooHigh in
  let _ := ScoreTooHigh in
  let _ := UtilizationNotZero in
  let _ := Reentrancy in
  let _ := Overflow in
  let _ := AlreadyInitialized in
  let _ := DrawsFrozenErr in
  tret tt.

Definition test_draw_credit_overflow_panics : T unit :=
  mock_all_auths ;;
  let* admin_ := generate in
  let* borrower := generate in
  let* contract_id := register_credit in
  call (CInit admin_) ;;
  call (CSetMinCollateralRatioBps 0) ;;
  call (COpenCreditLine borrower i128_max 300 70) ;;
  in_contract (let* o_104 := pget (KLine borrower) in
    let* line := unwrap o_104 "unwrap" in
    let line106 := set_utilized (line : CreditLineData) i128_max in
    pset (KLine borrower) line106)%contract ;;
  call (CDrawCredit borrower 1).

Definition test_draw_credit_blocked_on_defaulted_line : T unit :=
  mock_all_auths ;;
  let* admin_ := generate in
  let* borrower := generate in
  let* contract_id := register_credit in
  call (CInit admin_) ;;
  call (CSetMinCollateralRatioBps 0) ;;
  call (COpenCreditLine borrower 1000 300 70) ;;
  call (CDefaultCreditLine borrower) ;;
  call (CDrawCredit borrower 100).

Definition test_repay_credit_allowed_on_defaulted_line : T unit :=
  mock_all_auths ;;
  let* admin_ := generate in
  let* borrower := generate in
  let* contract_id := register_credit in
  call (CInit admin_) ;;
  call (CSetMinCollateralRatioBps 0) ;;
  let* a4 := generate in
  let* token_id := generate in
  call (CSetLiquidityToken token_id) ;;
  mint token_id contract_id 10000 ;;
  mint token_id borrower 10000 ;;
  approve token_id borrower contract_id 10000 ;;
  call (COpenCreditLine borrower 1000 300 70) ;;
  call (CDrawCredit borrower 500) ;;
  call (CDefaultCreditLine borrower) ;;
  call (CRepayCredit borrower 200) ;;
  let* x6 := in_contract (Query.get_credit_line borrower) in
  let* line := unwrapped x6 in
  assert_eq (cl_utilized_amount line) 300 ;;
  assert_eq (cl_status line) Defaulted.

Definition test_open_credit_line_after_closed_succeeds : T unit :=
  mock_all_auths ;;
  let* admin_ := generate in
  let* borrower := generate in
  let* contract_id := register_credit in
  call (CInit admin_) ;;
  call (CSetMinCollateralRatioBps 0) ;;
  call (COpenCreditLine borrower 1000 300 70) ;;
  call (CCloseCreditLine borrower admin_) ;;
  call (COpenCreditLine borrower 2000 400 60) ;;
  let* x4 := in_contract (Query.get_credit_line borrower) in
  let* line := unwrapped x4 in
  assert_eq (cl_credit_limit line) 2000 ;;
  assert_eq (cl_status line) Active.

Definition test_open_credit_line_after_defaulted_succeeds : T unit :=
  mock_all_auths ;;
  let* admin_ := generate in
  let* borrower := generate in
  let* contract_id := register_credit in
  call (CInit admin_) ;;
  call (CSetMinCollateralRatioBps 0) ;;
  call (COpenCreditLine borrower 1000 300 70) ;;
  call (CDefaultCreditLine borrower) ;;
  call (COpenCreditLine borrower 1500 350 65) ;;
  let* x4 := in_contract (Query.get_credit_line borrower) in
  let* line := unwrapped x4 in
  assert_eq (cl_credit_limit line) 1500 ;;
  assert_eq (cl_status line) Active.

Definition test_close_credit_line_defaulted_admin_force_close : T unit :=
  mock_all_auths ;;
  let* admin_ := generate in
  let* borrower := generate in
  let* contract_id := register_credit in
  call (CInit admin_) ;;
  call (CSetMinCollateralRatioBps 0) ;;
  call (COpenCreditLine borrower 1000 300 70) ;;
  call (CDefaultCreditLine borrower) ;;
  call (CCloseCreditLine borrower admin_) ;;
  let* x4 := in_contract (Query.get_credit_line borrower) in
  let* line := unwrapped x4 in
  assert_eq (cl_status line) Closed.

Definition test_close_credit_line_suspended_admin_force_close : T unit :=
  mock_all_auths ;;
  let* admin_ := generate in
  let* borrower := generate in
  let* contract_id := register_credit in
  call (CInit admin_) ;;
  call (CSetMinCollateralRatioBps 0) ;;
  call (COpenCreditLine borrower 1000 300 70) ;;
  call (CSuspendCreditLine borrower) ;;
  call (CCloseCreditLine borrower admin_) ;;
  let* x4 := in_contract (Query.get_credit_line borrower) in
  let* line := unwrapped x4 in
  assert_eq (cl_status line) Closed.

Definition test_open_credit_line_after_suspended_succeeds : T unit :=
  mock_all_auths ;;
  let* admin_ := generate in
  let* borrower := generate in
  let* contract_id := register_credit in
  call (CInit admin_) ;;
  call (CSetMinCollateralRatioBps 0) ;;
  call (COpenCreditLine borrower 1000 300 70) ;;
  call (CSuspendCreditLine borrower) ;;
  call (COpenCreditLine borrower 2000 400 60) ;;
  let* x4 := in_contract (Query.get_credit_line borrower) in
  let* line := unwrapped x4 in
  assert_eq (cl_credit_limit line) 2000 ;;
  assert_eq (cl_status line) Active.

Definition test_rate_change_at_exact_interval_boundary_succeeds : T unit :=
  mock_all_auths ;;
  let* borrower := generate in
  let* (client, admin_) := mock_liquidity_token_extended_setup borrower 5000 300 in
  call (CSetRateChangeLimits 100 3600) ;;
  set_timestamp 100 ;;
  call (CUpdateRiskParameters borrower 5000 350 70) ;;
  set_timestamp 3700 ;;
  call (CUpdateRiskParameters borrower 5000 330 70) ;;
  let* x3 := in_contract (Query.get_credit_line borrower) in
  let* line := unwrapped x3 in
  assert_eq (cl_interest_rate_bps line) 330 ;;
  assert_eq (cl_last_rate_update_ts line) 3700.

Definition test_rate_change_first_update_ignores_interval : T unit :=
  mock_all_auths ;;
  let* borrower := generate in
  let* (client, admin_) := mock_liquidity_token_extended_setup borrower 5000 300 in
  call (CSetRateChangeLimits 100 86400) ;;
  set_timestamp 10 ;;
  call (CUpdateRiskParameters borrower 5000 350 70) ;;
  let* x3 := in_contract (Query.get_credit_line borrower) in
  let* line := unwrapped x3 in
  assert_eq (cl_interest_rate_bps line) 350.

Definition test_zero_interval_disables_timing_check_after_first_update : T unit :=
  mock_all_auths ;;
  let* borrower := generate in
  let* (client, admin_) := mock_liquidity_token_extended_setup borrower 5000 300 in
  call (CSetRateChangeLimits 100 0) ;;
  set_timestamp 100 ;;
  call (CUpdateRiskParameters borrower 5000 350 70) ;;
  set_timestamp 101 ;;
  call (CUpdateRiskParameters borrower 5000 330 70) ;;
  let* x3 := in_contract (Query.get_credit_line borrower) in
  let* line := unwrapped x3 in
  assert_eq (cl_interest_rate_bps line) 330 ;;
  assert_eq (cl_last_rate_update_ts line) 101.

Definition test_same_rate_bypasses_limits_mock_liquidity_token_extended : T unit :=
  mock_all_auths ;;
  let* borrower := generate in
  let* (client, admin_) := mock_liquidity_token_extended_setup borrower 5000 300 in
  call (CSetRateChangeLimits 0 999999) ;;
  call (CUpdateRiskParameters borrower 5000 300 70) ;;
  let* x3 := in_contract (Query.get_credit_line borrower) in
  let* line := unwrapped x3 in
  assert_eq (cl_interest_rate_bps line) 300.

Definition test_no_rate_limits_configured_backward_compat : T unit :=
  mock_all_auths ;;
  let* borrower := generate in
  let* (client, admin_) := mock_liquidity_token_extended_setup borrower 5000 0 in
  call (CUpdateRiskParameters borrower 5000 9999 70) ;;
  let* x3 := in_contract (Query.get_credit_line borrower) in
  let* line := unwrapped x3 in
  assert_eq (cl_interest_rate_bps line) 9999.

Definition test_set_and_get_rate_change_limits : T unit :=
  mock_all_auths ;;
  let* admin_ := generate in
  let* contract_id := register_credit in
  call (CInit admin_) ;;
  call (CSetMinCollateralRatioBps 0) ;;
  call (CSetRateChangeLimits 200 7200) ;;
  let* x3 := in_contract Query.get_rate_change_limits in
  let* cfg := unwrapped x3 in
  assert_eq (max_rate_change_bps cfg) 200 ;;
  assert_eq (rate_change_min_interval cfg) 7200.

Definition test_rate_change_timestamp_recorded : T unit :=
  mock_all_auths ;;
  let* borrower := generate in
  let* (client, admin_) := mock_liquidity_token_extended_setup borrower 5000 300 in
  call (CSetRateChangeLimits 100 0) ;;
  set_timestamp 42 ;;
  call (CUpdateRiskParameters borrower 5000 350 70) ;;
  let* x3 := in_contract (Query.get_credit_line borrower) in
  let* line := unwrapped x3 in
  assert_eq (cl_last_rate_update_ts line) 42.

Definition test_rate_change_multiple_sequential_within_limits : T unit :=
  mock_all_auths ;;
  let* borrower := generate in
  let* (client, admin_) := mock_liquidity_token_extended_setup borrower 5000 300 in
  call (CSetRateChangeLimits 50 60) ;;
  set_timestamp 100 ;;
  call (CUpdateRiskParameters borrower 5000 350 70) ;;
  set_timestamp 161 ;;
  call (CUpdateRiskParameters borrower 5000 320 65) ;;
  set_timestamp 222 ;;
  call (CUpdateRiskParameters borrower 5000 370 60) ;;
  let* x3 := in_contract (Query.get_credit_line borrower) in
  let* line := unwrapped x3 in
  assert_eq (cl_interest_rate_bps line) 370 ;;
  assert_eq (cl_risk_score line) 60.

Definition test_set_rate_change_limits_unauthorized : T unit :=
  let* admin_ := generate in
  let* contract_id := register_credit in
  call (CInit admin_) ;;
  call (CSetMinCollateralRatioBps 0) ;;
  call (CSetRateChangeLimits 100 0).

Lemma test_mock_liquidity_token_extended_as_expected :
  all_hold [panics_with 7 update_risk_params_negative_limit_reverts_mock_liquidity_token_extended;
     passes mock_token_mint_increases_balance_mock_liquidity_token_extended;
     passes mock_token_approve_sets_allowance_mock_liquidity_token_extended;
     passes draw_transfers_reserve_to_borrower_mock_liquidity_token_extended;
     panics_with 24 draw_fails_reserve_empty_mock_liquidity_token_extended;
     panics_with 21 reinstate_suspended_line_reverts_mock_liquidity_token_extended;
     passes repay_reduces_utilized_mock_liquidity_token_extended;
     passes draw_repay_full_cycle_mock_liquidity_token_extended;
     passes test_rate_change_limits_roundtrip;
     panics_with 8 test_update_risk_parameters_interest_rate_exceeds_max;
     panics_with 9 test_update_risk_parameters_risk_score_exceeds_max;
     panics_with 5 draw_credit_zero_amount_reverts_and_guard_cleared;
     panics test_draw_credit_unauthorized; panics_with 20 test_draw_credit_on_suspended_line;
     panics_with 6 test_draw_credit_exceeding_limit; panics_with 5 test_draw_credit_negative_amount;
     panics_with 21 draw_credit_on_defaulted_line_reverts;
     panics_with 4 draw_credit_on_closed_line_reverts_with_contract_error;
     passes rate_change_after_interval_succeeds; panics draw_credit_overflow_on_utilized_amount_reverts;
     passes test_contract_error_codes; panics_with 12 test_draw_credit_overflow_panics;
     panics_with 21 test_draw_credit_blocked_on_defaulted_line;
     passes test_repay_credit_allowed_on_defaulted_line;
     passes test_open_credit_line_after_closed_succeeds;
     passes test_open_credit_line_after_defaulted_succeeds;
     passes test_close_credit_line_defaulted_admin_force_close;
     passes test_close_credit_line_suspended_admin_force_close;
     passes test_open_credit_line_after_suspended_succeeds;
     passes test_rate_change_at_exact_interval_boundary_succeeds;
     passes test_rate_change_first_update_ignores_interval;
     passes test_zero_interval_disables_timing_check_after_first_update;
     passes test_same_rate_bypasses_limits_mock_liquidity_token_extended;
     passes test_no_rate_limits_configured_backward_compat; passes test_set_and_get_rate_change_limits;
     passes test_rate_change_timestamp_recorded;
     passes test_rate_change_multiple_sequential_within_limits] = true.
Proof. vm_compute. reflexivity. Qed.

(** Tests whose expectation the code does not meet: what they do instead. *)
Lemma test_mock_liquidity_token_extended_outdated :
  all_hold [panics_with 60 reinstate_non_defaulted_active_line_reverts_mock_liquidity_token_extended;
     panics_with 21 suspend_defaulted_line_reverts;
     panics_with 60 close_credit_line_idempotent_when_already_closed_mock_liquidity_token_extended;
     panics test_set_rate_change_limits_unauthorized] = true.
Proof. vm_compute. reflexivity. Qed.
End test_mock_liquidity_token_extended.
