(* ===== verification/CreditFlowTests.v ===== *)
(** * The unit tests of [contracts/credit/src/lib.rs], executed on the model (2)

    The test modules from [test_draw_freeze] on, as in [CreditTests]. *)
From Stdlib Require Strings.String.
From S2P Require Import Prelude Soroban CreditTypes CreditEvents CreditStorage CreditState Accrual Collateral Fees Freeze Oracles Scoring Risk Lifecycle Views CreditContract CreditCalls CreditQueries CreditTesting.
Import Bench.
#[local] Open Scope test_scope.

(** The contract-wide freeze of draws. *)
Module test_draw_freeze.
Definition draw_freeze_setup : T (Address * Address * Address) :=
  mock_all_auths ;;
  let* admin_ := generate in
  let* borrower := generate in
  let* contract_id := register_credit in
  call (CInit admin_) ;;
  call (CSetMinCollateralRatioBps 0) ;;
  let* a4 := generate in
  let* token_id := generate in
  call (CSetLiquidityToken token_id) ;;
  mint token_id contract_id 1000000 ;;
  call (COpenCreditLine borrower 1000 300 70) ;;
  tret (contract_id, admin_, borrower).

Definition draws_not_frozen_by_default : T unit :=
  let* (client, admin_, borrower) := draw_freeze_setup in
  let* x2 := in_contract Query.is_draws_frozen in
  assert (negb x2).

Definition freeze_draws_sets_flag : T unit :=
  let* (client, admin_, borrower) := draw_freeze_setup in
  call (CFreezeDraws LiquidityReserve) ;;
  let* x2 := in_contract Query.is_draws_frozen in
  assert x2.

Definition draw_credit_reverts_when_frozen : T unit :=
  let* (client, admin_, borrower) := draw_freeze_setup in
  call (CFreezeDraws LiquidityReserve) ;;
  call (CDrawCredit borrower 100).

Definition repay_credit_allowed_when_frozen : T unit :=
  mock_all_auths ;;
  let* admin_ := generate in
  let* borrower := generate in
  let* contract_id := register_credit in
  call (CInit admin_) ;;
  call (CSetMinCollateralRatioBps 0) ;;
  let* a4 := generate in
  let* token_id := generate in
  call (CSetLiquidityToken token_id) ;;
  mint token_id contract_id 1000 ;;
  call (COpenCreditLine borrower 1000 300 70) ;;
  call (CDrawCredit borrower 500) ;;
  call (CFreezeDraws LiquidityReserve) ;;
  mint token_id borrower 200 ;;
  approve token_id borrower contract_id 200 ;;
  call (CRepayCredit borrower 200) ;;
  let* x6 := in_contract (Query.get_credit_line borrower) in
  let* line := unwrapped x6 in
  assert_eq (cl_utilized_amount line) 300.

Definition unfreeze_draws_clears_flag : T unit :=
  let* (client, admin_, borrower) := draw_freeze_setup in
  call (CFreezeDraws LiquidityReserve) ;;
  let* x2 := in_contract Query.is_draws_frozen in
  assert x2 ;;
  call CUnfreezeDraws ;;
  let* x3 := in_contract Query.is_draws_frozen in
  assert (negb x3).

Definition draw_credit_succeeds_after_unfreeze : T unit :=
  let* (client, admin_, borrower) := draw_freeze_setup in
  call (CFreezeDraws LiquidityReserve) ;;
  call CUnfreezeDraws ;;
  call (CDrawCredit borrower 100) ;;
  let* x2 := in_contract (Query.get_credit_line borrower) in
  let* x3 := unwrapped x2 in
  assert_eq (cl_utilized_amount x3) 100.

Definition freeze_draws_requires_admin_auth : T unit :=
  let* admin_ := generate in
  let* contract_id := register_credit in
  call (CInit admin_) ;;
  call (CSetMinCollateralRatioBps 0) ;;
  call (CFreezeDraws LiquidityReserve).

Definition unfreeze_draws_requires_admin_auth : T unit :=
  let* admin_ := generate in
  let* contract_id := register_credit in
  call (CInit admin_) ;;
  call (CSetMinCollateralRatioBps 0) ;;
  call CUnfreezeDraws.

Definition freeze_blocks_all_borrowers : T unit :=
  mock_all_auths ;;
  let* admin_ := generate in
  let* borrower_a := generate in
  let* borrower_b := generate in
  let* contract_id := register_credit in
  call (CInit admin_) ;;
  call (CSetMinCollateralRatioBps 0) ;;
  call (COpenCreditLine borrower_a 1000 300 70) ;;
  call (COpenCreditLine borrower_b 2000 300 70) ;;
  call (CFreezeDraws LiquidityReserve) ;;
  let* x5 := in_contract Query.is_draws_frozen in
  assert x5.

Lemma test_draw_freeze_as_expected :
  all_hold [passes draws_not_frozen_by_default; passes freeze_draws_sets_flag;
     panics_with 19 draw_credit_reverts_when_frozen; passes repay_credit_allowed_when_frozen;
     passes unfreeze_draws_clears_flag; passes draw_credit_succeeds_after_unfreeze;
     panics freeze_draws_requires_admin_auth; panics unfreeze_draws_requires_admin_auth;
     passes freeze_blocks_all_borrowers] = true.
Proof. vm_compute. reflexivity. Qed.
End test_draw_freeze.

(** The freeze of one borrower. *)
Module test_borrower_freeze.
Definition borrower_freeze_setup : T (Address * Address * Address * Address) :=
  mock_all_auths ;;
  let* admin_ := generate in
  let* borrower := generate in
  let* contract_id := register_credit in
  call (CInit admin_) ;;
  call (CSetMinCollateralRatioBps 0) ;;
  call (COpenCreditLine borrower 1000 300 70) ;;
  tret (contract_id, admin_, borrower, contract_id).

Definition freeze_borrower_until_sets_freeze : T unit :=
  let* (client, admin_, borrower, contract_id) := borrower_freeze_setup in
  let now_ := 1700000000 in
  set_timestamp now_ ;;
  call (CFreezeBorrowerUntil admin_ borrower (now_ + 3600)) ;;
  let* x2 := in_contract (Query.is_borrower_frozen borrower) in
  assert x2 ;;
  let* x3 := in_contract (Query.get_borrower_frozen_until borrower) in
  assert_eq x3 (Some (now_ + 3600)).

Definition freeze_borrower_until_past_ts_reverts : T unit :=
  let* (client, admin_, borrower, contract_id) := borrower_freeze_setup in
  let now_ := 1700000000 in
  set_timestamp now_ ;;
  call (CFreezeBorrowerUntil admin_ borrower now_).

Definition freeze_auto_expires_after_ts : T unit :=
  let* (client, admin_, borrower, contract_id) := borrower_freeze_setup in
  let start := 1700000000 in
  set_timestamp start ;;
  call (CFreezeBorrowerUntil admin_ borrower (start + 3600)) ;;
  let* x2 := in_contract (Query.is_borrower_frozen borrower) in
  assert x2 ;;
  set_timestamp (start + 3600) ;;
  let* x3 := in_contract (Query.is_borrower_frozen borrower) in
  assert (negb x3).

Definition freeze_borrower_until_requires_auth : T unit :=
  let* (client, admin_, borrower, contract_id) := borrower_freeze_setup in
  let* non_admin := generate in
  let now_ := 1700000000 in
  set_timestamp now_ ;;
  call (CFreezeBorrowerUntil non_admin borrower (now_ + 3600)).

Definition unfreeze_borrower_lifts_freeze : T unit :=
  let* (client, admin_, borrower, contract_id) := borrower_freeze_setup in
  let now_ := 1700000000 in
  set_timestamp now_ ;;
  call (CFreezeBorrowerUntil admin_ borrower (now_ + 7200)) ;;
  let* x2 := in_contract (Query.is_borrower_frozen borrower) in
  assert x2 ;;
  call (CUnfreezeBorrower admin_ borrower) ;;
  let* x3 := in_contract (Query.is_borrower_frozen borrower) in
  assert (negb x3) ;;
  let* x4 := in_contract (Query.get_borrower_frozen_until borrower) in
  assert_eq x4 None.

Definition is_borrower_frozen_defaults_false : T unit :=
  let* (client, admin_, borrower, contract_id) := borrower_freeze_setup in
  let* x2 := in_contract (Query.is_borrower_frozen borrower) in
  assert (negb x2) ;;
  let* x3 := in_contract (Query.get_borrower_frozen_until borrower) in
  assert_eq x3 None.

Definition draw_credit_reverts_when_borrower_frozen : T unit :=
  mock_all_auths ;;
  let* (client, admin_, borrower, contract_id) := borrower_freeze_setup in
  let now_ := 1700000000 in
  set_timestamp now_ ;;
  let* a2 := generate in
  let* token_id := generate in
  call (CSetLiquidityToken token_id) ;;
  mint token_id contract_id 1000 ;;
  call (CFreezeBorrowerUntil admin_ borrower (now_ + 3600)) ;;
  call (CDrawCredit borrower 100).

Lemma test_borrower_freeze_as_expected :
  all_hold [passes freeze_borrower_until_sets_freeze; panics_with 5 freeze_borrower_until_past_ts_reverts;
     passes freeze_auto_expires_after_ts; panics freeze_borrower_until_requires_auth;
     passes unfreeze_borrower_lifts_freeze; passes is_borrower_frozen_defaults_false;
     panics_with 40 draw_credit_reverts_when_borrower_frozen] = true.
Proof. vm_compute. reflexivity. Qed.
End test_borrower_freeze.

(** The cap on a draw. *)
Module test_max_draw_amount.
Definition close_credit_line_idempotent_when_already_closed_max_draw_amount : T unit :=
  mock_all_auths ;;
  let* admin_ := generate in
  let* borrower := generate in
  let* contract_id := register_credit in
  call (CInit admin_) ;;
  call (COpenCreditLine borrower 1000 300 70) ;;
  call (CCloseCreditLine borrower admin_) ;;
  call (CCloseCreditLine borrower admin_) ;;
  let* x4 := in_contract (Query.get_credit_line borrower) in
  let* x5 := unwrapped x4 in
  assert_eq (cl_status x5) Closed.

Definition test_draw_credit_rejected_on_defaulted_line : T unit :=
  mock_all_auths ;;
  let* admin_ := generate in
  let* borrower := generate in
  let* contract_id := register_credit in
  call (CInit admin_) ;;
  call (CSetMinCollateralRatioBps 0) ;;
  call (COpenCreditLine borrower 1000 300 70) ;;
  call (CDefaultCreditLine borrower) ;;
  call (CDrawCredit borrower 100).


(** Tests whose expectation the code does not meet: what they do instead. *)
Lemma test_max_draw_amount_outdated :
  all_hold [panics_with 60 close_credit_line_idempotent_when_already_closed_max_draw_amount;
     panics_with 21 test_draw_credit_rejected_on_defaulted_line] = true.
Proof. vm_compute. reflexivity. Qed.
End test_max_draw_amount.

(** The reentrancy guard. *)
Module test_reentrancy_guard.
Definition setup_with_reserve (borrower : Address) (credit_limit : Z) (reserve : Z) : T (Address * Address)
  :=
  mock_all_auths ;;
  let* admin_ := generate in
  let* contract_id := register_credit in
  call (CInit admin_) ;;
  call (CSetMinCollateralRatioBps 0) ;;
  let* a3 := generate in
  let* token_id := generate in
  call (CSetLiquidityToken token_id) ;;
  (if 0 <? reserve then mint token_id contract_id reserve else tret tt) ;;
  call (COpenCreditLine borrower credit_limit 300 70) ;;
  tret (contract_id, contract_id).

Definition draw_credit_reverts_with_reentrancy_when_guard_already_set : T unit :=
  mock_all_auths ;;
  let* borrower := generate in
  let* (client, contract_id) := setup_with_reserve borrower 1000 1000 in
  in_contract (iset sym_reentrancy true)%contract ;;
  call (CDrawCredit borrower 100).

Definition repay_credit_reverts_with_reentrancy_when_guard_already_set : T unit :=
  mock_all_auths ;;
  let* borrower := generate in
  let* (client, contract_id) := setup_with_reserve borrower 1000 1000 in
  call (CDrawCredit borrower 500) ;;
  in_contract (iset sym_reentrancy true)%contract ;;
  call (CRepayCredit borrower 100).

Definition draw_credit_guard_cleared_after_normal_success_allows_sequential_draws : T unit :=
  mock_all_auths ;;
  let* borrower := generate in
  let* (client, contract_id) := setup_with_reserve borrower 1000 1000 in
  call (CDrawCredit borrower 200) ;;
  let* x3 := in_contract (Query.get_credit_line borrower) in
  let* x4 := unwrapped x3 in
  assert_eq (cl_utilized_amount x4) 200 ;;
  call (CDrawCredit borrower 300) ;;
  let* x5 := in_contract (Query.get_credit_line borrower) in
  let* x6 := unwrapped x5 in
  assert_eq (cl_utilized_amount x6) 500.

Definition repay_credit_guard_cleared_after_normal_success_allows_sequential_repays : T unit :=
  mock_all_auths ;;
  let* borrower := generate in
  let* (client, contract_id) := setup_with_reserve borrower 1000 1000 in
  call (CDrawCredit borrower 600) ;;
  let* token_address := in_contract (let* o_103 := iget DK.LiquidityToken in
    let* x104 := unwrap o_103 "unwrap" in
    ret (x104 : Address))%contract in
  mint (token_address : Address) borrower 600 ;;
  approve (token_address : Address) borrower contract_id 600 ;;
  call (CRepayCredit borrower 200) ;;
  let* x4 := in_contract (Query.get_credit_line borrower) in
  let* x5 := unwrapped x4 in
  assert_eq (cl_utilized_amount x5) 400 ;;
  call (CRepayCredit borrower 200) ;;
  let* x6 := in_contract (Query.get_credit_line borrower) in
  let* x7 := unwrapped x6 in
  assert_eq (cl_utilized_amount x7) 200.

Lemma test_reentrancy_guard_as_expected :
  all_hold [panics_with 11 draw_credit_reverts_with_reentrancy_when_guard_already_set;
     panics_with 11 repay_credit_reverts_with_reentrancy_when_guard_already_set;
     passes draw_credit_guard_cleared_after_normal_success_allows_sequential_draws;
     passes repay_credit_guard_cleared_after_normal_success_allows_sequential_repays] = true.
Proof. vm_compute. reflexivity. Qed.
End test_reentrancy_guard.

(** The error codes of missing liquidity. *)
Module test_liquidity_error_codes.
Definition liquidity_error_codes_setup (reserve : Z) : T (Address * Address * Address * Address) :=
  mock_all_auths ;;
  let* admin_ := generate in
  let* borrower := generate in
  let* contract_id := register_credit in
  call (CInit admin_) ;;
  call (CSetMinCollateralRatioBps 0) ;;
  let* a4 := generate in
  let* token_id := generate in
  call (CSetLiquidityToken token_id) ;;
  call (CSetLiquiditySource contract_id) ;;
  (if 0 <? reserve then mint token_id contract_id reserve else tret tt) ;;
  call (COpenCreditLine borrower 1000 300 70) ;;
  tret (contract_id, contract_id, borrower, token_id).

Definition draw_without_liquidity_token_uses_stable_error_code : T unit :=
  mock_all_auths ;;
  let* admin_ := generate in
  let* borrower := generate in
  let* contract_id := register_credit in
  call (CInit admin_) ;;
  call (CSetMinCollateralRatioBps 0) ;;
  call (COpenCreditLine borrower 1000 300 70) ;;
  call (CDrawCredit borrower 100).

Definition draw_without_liquidity_source_uses_stable_error_code : T unit :=
  let* (client, contract_id, borrower, token_) := liquidity_error_codes_setup 1000 in
  in_contract (iremove DK.LiquiditySource)%contract ;;
  call (CDrawCredit borrower 100).

Definition draw_with_insufficient_reserve_uses_stable_error_code : T unit :=
  let* (client, contract_id, borrower, token_) := liquidity_error_codes_setup 50 in
  call (CDrawCredit borrower 100).

Definition repay_with_insufficient_allowance_uses_stable_error_code : T unit :=
  let* (client, contract_id, borrower, token_) := liquidity_error_codes_setup 1000 in
  call (CDrawCredit borrower 200) ;;
  mint token_ borrower 200 ;;
  call (CRepayCredit borrower 200).

Definition repay_with_insufficient_balance_uses_stable_error_code : T unit :=
  let* (client, contract_id, borrower, token_) := liquidity_error_codes_setup 1000 in
  call (CDrawCredit borrower 200) ;;
  approve token_ borrower contract_id 200 ;;
  let* a2 := generate in
  token_transfer_by token_ borrower a2 200 ;;
  call (CRepayCredit borrower 200).

Lemma test_liquidity_error_codes_as_expected :
  all_hold [panics_with 22 draw_without_liquidity_token_uses_stable_error_code;
     panics_with 23 draw_without_liquidity_source_uses_stable_error_code;
     panics_with 24 draw_with_insufficient_reserve_uses_stable_error_code] = true.
Proof. vm_compute. reflexivity. Qed.

(** Tests whose expectation the code does not meet: what they do instead. *)
Lemma test_liquidity_error_codes_outdated :
  all_hold [panics repay_with_insufficient_allowance_uses_stable_error_code;
     panics repay_with_insufficient_balance_uses_stable_error_code] = true.
Proof. vm_compute. reflexivity. Qed.
End test_liquidity_error_codes.

(** The cap on a repayment. *)
Module test_max_repay_amount.
Definition setup_with_token : T (Address * Address * Address * Address) :=
  mock_all_auths ;;
  let* admin_ := generate in
  let* borrower := generate in
  let* contract_id := register_credit in
  call (CInit admin_) ;;
  call (CSetMinCollateralRatioBps 0) ;;
  let* a4 := generate in
  let* token_id := generate in
  call (CSetLiquidityToken token_id) ;;
  mint token_id contract_id 5000 ;;
  call (COpenCreditLine borrower 1000 300 70) ;;
  call (CDrawCredit borrower 500) ;;
  mint token_id borrower 5000 ;;
  approve token_id borrower contract_id 10000 ;;
  tret (contract_id, admin_, borrower, token_id).

Definition test_unset_max_repay_amount_allows_any : T unit :=
  let* (client, admin_, borrower, token_) := setup_with_token in
  let* x2 := in_contract Query.get_max_repay_amount in
  assert_eq x2 None ;;
  call (CRepayCredit borrower 400) ;;
  let* x3 := in_contract (Query.get_credit_line borrower) in
  let* line := unwrapped x3 in
  assert_eq (cl_utilized_amount line) 100.

Definition test_set_and_get_max_repay_amount : T unit :=
  let* (client, admin_, borrower, token_) := setup_with_token in
  call (CSetMaxRepayAmount 300) ;;
  let* x2 := in_contract Query.get_max_repay_amount in
  assert_eq x2 (Some 300).

Definition test_repay_exceeds_max_cap_reverts : T unit :=
  let* (client, admin_, borrower, token_) := setup_with_token in
  call (CSetMaxRepayAmount 300) ;;
  call (CRepayCredit borrower 400).

Definition test_repay_within_max_cap_succeeds : T unit :=
  let* (client, admin_, borrower, token_) := setup_with_token in
  call (CSetMaxRepayAmount 300) ;;
  call (CRepayCredit borrower 300) ;;
  let* x2 := in_contract (Query.get_credit_line borrower) in
  let* line := unwrapped x2 in
  assert_eq (cl_utilized_amount line) 200.

Definition test_set_max_repay_amount_zero_or_negative : T unit :=
  let* (client, admin_, borrower, token_) := setup_with_token in
  call (CSetMaxRepayAmount 0).

Lemma test_max_repay_amount_as_expected :
  all_hold [passes test_unset_max_repay_amount_allows_any; passes test_set_and_get_max_repay_amount;
     panics_with 28 test_repay_exceeds_max_cap_reverts; passes test_repay_within_max_cap_succeeds;
     panics_with 5 test_set_max_repay_amount_zero_or_negative] = true.
Proof. vm_compute. reflexivity. Qed.
End test_max_repay_amount.

(** Health factors. *)
Module test_health_factor.
Definition health_factor_setup (credit_limit : Z) (reserve : Z) : T (Address * Address * Address * Address)
  :=
  mock_all_auths ;;
  let* admin_ := generate in
  let* borrower := generate in
  let* contract_id := register_credit in
  call (CInit admin_) ;;
  let* a4 := generate in
  let* token_id := generate in
  call (CSetLiquidityToken token_id) ;;
  (if 0 <? reserve then mint token_id contract_id reserve else tret tt) ;;
  call (COpenCreditLine borrower credit_limit 300 70) ;;
  tret (contract_id, contract_id, borrower, token_id).

Definition no_credit_line_returns_max : T unit :=
  mock_all_auths ;;
  let* admin_ := generate in
  let* borrower := generate in
  let* contract_id := register_credit in
  call (CInit admin_) ;;
  let* x4 := in_contract (Query.get_health_factor borrower) in
  assert_eq x4 u32_max.

Definition zero_utilized_returns_max : T unit :=
  let* (client, contract, borrower, token_) := health_factor_setup 1000 0 in
  let* x2 := in_contract (Query.get_health_factor borrower) in
  assert_eq x2 u32_max.

Definition no_collateral_with_debt_returns_zero : T unit :=
  let* (client, contract, borrower, token_) := health_factor_setup 1000 1000 in
  call (CDrawCredit borrower 500) ;;
  let* x2 := in_contract (Query.get_health_factor borrower) in
  assert_eq x2 0.

Definition query_is_read_only : T unit :=
  let* (client, contract, borrower, token_) := health_factor_setup 1000 0 in
  mint token_ borrower 10000 ;;
  in_contract (Collateral.deposit_collateral borrower 1500) ;;
  let* hf_before := in_contract (Query.get_health_factor borrower) in
  let* hf_after := in_contract (Query.get_health_factor borrower) in
  assert_eq hf_before hf_after ;;
  let* x4 := in_contract (Query.get_credit_line borrower) in
  let* line_before := unwrapped x4 in
  let* collateral_before := in_contract (Query.get_collateral borrower) in
  let* hf_again := in_contract (Query.get_health_factor borrower) in
  let* x8 := in_contract (Query.get_credit_line borrower) in
  let* line_after := unwrapped x8 in
  let* collateral_after := in_contract (Query.get_collateral borrower) in
  assert_eq hf_again hf_before ;;
  assert_eq (cl_utilized_amount line_before) (cl_utilized_amount line_after) ;;
  assert_eq (cl_accrued_interest line_before) (cl_accrued_interest line_after) ;;
  assert_eq collateral_before collateral_after.

Definition default_min_collateral_ratio_is_15000 : T unit :=
  let* (client, contract, borrower, token_) := health_factor_setup 1000 10000 in
  mint token_ borrower 10000 ;;
  in_contract (Collateral.deposit_collateral borrower 1500) ;;
  call (CDrawCredit borrower 1000) ;;
  let* x2 := in_contract (Query.get_health_factor borrower) in
  assert_eq x2 10000.

Definition keeper_scenario_below_threshold_triggers_liquidation : T unit :=
  let* (client, contract, borrower, token_) := health_factor_setup 5000 10000 in
  mint token_ borrower 10000 ;;
  in_contract (Collateral.deposit_collateral borrower 3000) ;;
  call (CDrawCredit borrower 2500) ;;
  let* hf := in_contract (Query.get_health_factor borrower) in
  assert (hf <? 10000) ;;
  assert_eq hf 8000 ;;
  call (CDefaultCreditLine borrower) ;;
  let* x3 := in_contract (Query.get_credit_line borrower) in
  let* line := unwrapped x3 in
  assert_eq (cl_status line) Defaulted.

Definition keeper_scenario_healthy_position_skipped : T unit :=
  let* (client, contract, borrower, token_) := health_factor_setup 5000 10000 in
  mint token_ borrower 10000 ;;
  in_contract (Collateral.deposit_collateral borrower 10000) ;;
  call (CDrawCredit borrower 1000) ;;
  let* hf := in_contract (Query.get_health_factor borrower) in
  assert (10000 <? hf) ;;
  assert_eq hf 66666.

Definition default_credit_line_does_not_check_health_factor_on_chain : T unit :=
  let* (client, contract, borrower, token_) := health_factor_setup 5000 10000 in
  mint token_ borrower 10000 ;;
  in_contract (Collateral.deposit_collateral borrower 10000) ;;
  call (CDrawCredit borrower 1000) ;;
  let* hf := in_contract (Query.get_health_factor borrower) in
  assert (12000 <=? hf) ;;
  call (CDefaultCreditLine borrower) ;;
  let* x3 := in_contract (Query.get_credit_line borrower) in
  let* line := unwrapped x3 in
  assert_eq (cl_status line) Defaulted.

Definition delinquent_borrower_can_be_defaulted_despite_high_health_factor : T unit :=
  let* (client, contract, borrower, token_) := health_factor_setup 5000 10000 in
  mint token_ borrower 10000 ;;
  in_contract (Collateral.deposit_collateral borrower 10000) ;;
  call (CDrawCredit borrower 1000) ;;
  call (CSetRepaymentSchedule borrower 500 86400 100) ;;
  set_timestamp 200 ;;
  let* x2 := in_contract (Query.is_delinquent borrower) in
  assert x2 ;;
  let* hf := in_contract (Query.get_health_factor borrower) in
  assert (12000 <=? hf) ;;
  call (CDefaultCreditLine borrower) ;;
  let* x4 := in_contract (Query.get_credit_line borrower) in
  let* line := unwrapped x4 in
  assert_eq (cl_status line) Defaulted.

Lemma test_health_factor_as_expected :
  all_hold [passes no_credit_line_returns_max; passes zero_utilized_returns_max; passes query_is_read_only;
     passes default_min_collateral_ratio_is_15000; passes keeper_scenario_healthy_position_skipped;
     passes default_credit_line_does_not_check_health_factor_on_chain;
     passes delinquent_borrower_can_be_defaulted_despite_high_health_factor] = true.
Proof. vm_compute. reflexivity. Qed.

(** Tests whose expectation the code does not meet: what they do instead. *)
Lemma test_health_factor_outdated :
  all_hold [panics_with 35 no_collateral_with_debt_returns_zero;
     panics_with 35 keeper_scenario_below_threshold_triggers_liquidation] = true.
Proof. vm_compute. reflexivity. Qed.
End test_health_factor.

(** A blocked borrower draws nothing. *)
Module test_issue_1215_blocklist_draw.
Definition issue_1215_blocklist_draw_setup : T (Address * Address * Address * Address * Address) :=
  mock_all_auths ;;
  let* admin_ := generate in
  let* borrower := generate in
  let* contract_id := register_credit in
  call (CInit admin_) ;;
  let* a4 := generate in
  let* token_id := generate in
  call (CSetLiquidityToken token_id) ;;
  mint token_id contract_id 10000 ;;
  mint token_id borrower 10000 ;;
  approve token_id borrower contract_id 10000 ;;
  call (COpenCreditLine borrower 1000 300 70) ;;
  call (CSetMinCollateralRatioBps 0) ;;
  tret (contract_id, contract_id, admin_, borrower, token_id).

Definition blocked_borrower_draw_reverts_with_borrower_blocked : T unit :=
  let* (client, contract_id, admin_, borrower, token_) := issue_1215_blocklist_draw_setup in
  call (CBlockBorrower admin_ borrower) ;;
  let* x2 := in_contract (Query.is_borrower_blocked borrower) in
  assert x2 ;;
  let* outcome := try_invoke (CDrawCredit borrower 100) in
  assert (err_is outcome BorrowerBlocked) ;;
  let* x4 := in_contract (Query.get_credit_line borrower) in
  let* line := unwrapped x4 in
  assert_eq (cl_utilized_amount line) 0 ;;
  let* x6 := token_balance_of token_ borrower in
  assert_eq x6 10000 ;;
  let* x7 := token_balance_of token_ contract_id in
  assert_eq x7 10000.

Definition borrower_off_the_blocklist_still_draws : T unit :=
  let* (client, contract_id, admin_, borrower, token_) := issue_1215_blocklist_draw_setup in
  let* x2 := in_contract (Query.is_borrower_blocked borrower) in
  assert (negb x2) ;;
  call (CDrawCredit borrower 100) ;;
  let* x3 := in_contract (Query.get_credit_line borrower) in
  let* x4 := unwrapped x3 in
  assert_eq (cl_utilized_amount x4) 100 ;;
  let* other := generate in
  call (COpenCreditLine other 1000 300 70) ;;
  call (CBlockBorrower admin_ borrower) ;;
  let* res6 := try_invoke (CDrawCredit borrower 100) in
  assert (negb (ok_ res6)) ;;
  call (CDrawCredit other 100) ;;
  let* x7 := in_contract (Query.get_credit_line other) in
  let* x8 := unwrapped x7 in
  assert_eq (cl_utilized_amount x8) 100.

Definition blocked_borrower_can_still_repay : T unit :=
  let* (client, contract_id, admin_, borrower, token_) := issue_1215_blocklist_draw_setup in
  call (CDrawCredit borrower 400) ;;
  call (CBlockBorrower admin_ borrower) ;;
  call (CRepayCredit borrower 200) ;;
  let* x2 := in_contract (Query.get_credit_line borrower) in
  let* x3 := unwrapped x2 in
  assert_eq (cl_utilized_amount x3) 200.

Definition borrow_capabilities_can_draw_matches_the_draw_outcome : T unit :=
  let* (client, contract_id, admin_, borrower, token_) := issue_1215_blocklist_draw_setup in
  let* x2 := in_contract (Query.borrow_capabilities borrower) in
  assert (can_draw x2) ;;
  call (CDrawCredit borrower 10) ;;
  call (CBlockBorrower admin_ borrower) ;;
  let* blocked := in_contract (Query.borrow_capabilities borrower) in
  assert (negb (can_draw blocked)) ;;
  assert (can_repay blocked) ;;
  let* res4 := try_invoke (CDrawCredit borrower 10) in
  assert (err_is res4 BorrowerBlocked).

Lemma test_issue_1215_blocklist_draw_as_expected :
  all_hold [passes blocked_borrower_draw_reverts_with_borrower_blocked;
     passes borrower_off_the_blocklist_still_draws; passes blocked_borrower_can_still_repay;
     passes borrow_capabilities_can_draw_matches_the_draw_outcome] = true.
Proof. vm_compute. reflexivity. Qed.
End test_issue_1215_blocklist_draw.

(** A repayment needs a token. *)
Module test_issue_1221_repay_requires_liquidity_token.
Definition setup_without_token : T (Address * Address * Address) :=
  mock_all_auths ;;
  let* admin_ := generate in
  let* borrower := generate in
  let* contract_id := register_credit in
  call (CInit admin_) ;;
  call (COpenCreditLine borrower 1000 300 70) ;;
  tret (contract_id, contract_id, borrower).

Definition seed_debt (contract_id : Address) (borrower : Address) (amount : Z) : T unit :=
  in_contract (let* o_101 := pget (KLine borrower) in
    let* line := unwrap o_101 "unwrap" in
    let line103 := set_utilized (line : CreditLineData) amount in
    pset (KLine borrower) line103)%contract.

Definition repay_without_liquidity_token_reverts_with_missing_token : T unit :=
  let* (client, contract_id, borrower) := setup_without_token in
  seed_debt contract_id borrower 500 ;;
  let* outcome := try_invoke (CRepayCredit borrower 200) in
  assert (err_is outcome MissingLiquidityToken) ;;
  let* x3 := in_contract (Query.get_credit_line borrower) in
  let* x4 := unwrapped x3 in
  assert_eq (cl_utilized_amount x4) 500.

Definition repay_with_liquidity_token_still_reduces_debt : T unit :=
  mock_all_auths ;;
  let* admin_ := generate in
  let* borrower := generate in
  let* contract_id := register_credit in
  call (CInit admin_) ;;
  let* a4 := generate in
  let* token_id := generate in
  call (CSetLiquidityToken token_id) ;;
  mint token_id contract_id 10000 ;;
  mint token_id borrower 10000 ;;
  approve token_id borrower contract_id 10000 ;;
  call (COpenCreditLine borrower 1000 300 70) ;;
  call (CSetMinCollateralRatioBps 0) ;;
  call (CDrawCredit borrower 500) ;;
  call (CRepayCredit borrower 200) ;;
  let* x6 := in_contract (Query.get_credit_line borrower) in
  let* x7 := unwrapped x6 in
  assert_eq (cl_utilized_amount x7) 300 ;;
  let* x8 := token_balance_of token_id borrower in
  assert_eq x8 10300 ;;
  let* x9 := token_balance_of token_id contract_id in
  assert_eq x9 9700.

Lemma test_issue_1221_repay_requires_liquidity_token_as_expected :
  all_hold [passes repay_without_liquidity_token_reverts_with_missing_token;
     passes repay_with_liquidity_token_still_reduces_debt] = true.
Proof. vm_compute. reflexivity. Qed.
End test_issue_1221_repay_requires_liquidity_token.
