(* ===== verification/LifecycleTests.v ===== *)
(** * The unit tests of [lifecycle.rs], [oracles.rs] and
    [oracle_validation.rs], executed on the model

    As in [CreditTests]; a test of a pure function is a boolean. *)
From Stdlib Require Strings.String.
From S2P Require Import Prelude Soroban CreditTypes CreditEvents CreditStorage CreditState Accrual Collateral Fees Freeze Oracles Scoring Risk Lifecycle Views CreditContract CreditCalls CreditQueries PriceTheorems CreditTesting.
Import Bench.
#[local] Open Scope test_scope.

(** Self-suspension. *)
Module self_suspend.
Definition self_suspend_setup : T (Address * Address) :=
  mock_all_auths ;;
  let* admin_ := generate in
  let* borrower := generate in
  let* contract_id := register_credit in
  call (CInit admin_) ;;
  call (COpenCreditLine borrower 1000 500 50) ;;
  tret (contract_id, borrower).

Definition self_suspend_transitions_active_to_suspended : T unit :=
  let* (client, borrower) := self_suspend_setup in
  call (CSelfSuspendCreditLine borrower) ;;
  let* x2 := in_contract (Query.get_credit_line borrower) in
  let* line := unwrapped x2 in
  assert_eq (cl_status line) SelfSuspended.

Definition self_suspend_requires_borrower_auth : T unit :=
  let* admin_ := generate in
  let* borrower := generate in
  let* contract_id := register_credit in
  call (CInit admin_) ;;
  call (COpenCreditLine borrower 1000 500 50) ;;
  call (CSelfSuspendCreditLine borrower).

Definition self_suspend_twice_reverts : T unit :=
  let* (client, borrower) := self_suspend_setup in
  call (CSelfSuspendCreditLine borrower) ;;
  call (CSelfSuspendCreditLine borrower).

Definition self_suspend_blocks_draws_but_allows_repay : T unit :=
  let* (client, borrower) := self_suspend_setup in
  call (CSelfSuspendCreditLine borrower) ;;
  let* draw_result := try_invoke (CDrawCredit borrower 100) in
  assert (err_is draw_result CreditLineSuspended) ;;
  call (CRepayCredit borrower 1) ;;
  let* x := in_contract (Query.get_credit_line borrower) in
  let* line := unwrapped x in
  assert_eq (cl_status line) SelfSuspended.

Lemma self_suspend_as_expected :
  all_hold [passes self_suspend_transitions_active_to_suspended; panics self_suspend_requires_borrower_auth;
     panics_with 60 self_suspend_twice_reverts] = true.
Proof. vm_compute. reflexivity. Qed.

(** Tests whose expectation the code does not meet: what they do instead. *)
Lemma self_suspend_outdated :
  all_hold [panics_with (error_code MissingLiquidityToken) self_suspend_blocks_draws_but_allows_repay] = true.
Proof. vm_compute. reflexivity. Qed.
End self_suspend.

(** Late fees of overdue installments, and settlement of a default. *)
Module installment.
Definition setup_borrower : T (Address * Address) :=
  mock_all_auths ;;
  let* admin_ := generate in
  let* borrower := generate in
  let* contract_id := register_credit in
  call (CInit admin_) ;;
  let* a4 := generate in
  let* token_id := generate in
  call (CSetLiquidityToken token_id) ;;
  mint token_id contract_id 1000000000 ;;
  mint token_id borrower 1000000000 ;;
  approve token_id borrower contract_id 1000000000 ;;
  call (COpenCreditLine borrower 1000000 1000 50) ;;
  call (CDepositCollateral borrower 1500000) ;;
  tret (contract_id, borrower).

Definition with_schedule (client : Address) (borrower : Address) (amount_per_period : Z) (period_seconds :
  Z) (first_due_ts : Z) : T unit :=
  call (CSetRepaymentSchedule borrower amount_per_period period_seconds first_due_ts).

Definition setup_draw (client : Address) (borrower : Address) (draw_amount : Z) (at_ts : Z) : T unit :=
  set_timestamp at_ts ;;
  call (CDrawCredit borrower draw_amount).

Definition late_fee_happy_path_charges_fee_for_overdue_installment : T unit :=
  let* (client, borrower) := setup_borrower in
  setup_draw client borrower 500000 100 ;;
  with_schedule client borrower 100000 100 200 ;;
  call (CSetLateFeeFlat 50) ;;
  set_timestamp 300 ;;
  let* x2 := in_contract Query.get_protocol_summary in
  let treasury_before := ps_treasury_balance x2 in
  call (CRepayCredit borrower 100000) ;;
  let* x3 := in_contract Query.get_protocol_summary in
  let treasury_after := ps_treasury_balance x3 in
  assert_eq (treasury_after - treasury_before) 50.

Definition late_fee_zero_fee_preserves_existing_behavior : T unit :=
  let* (client, borrower) := setup_borrower in
  setup_draw client borrower 500000 100 ;;
  with_schedule client borrower 100000 100 200 ;;
  set_timestamp 300 ;;
  let* x2 := in_contract Query.get_protocol_summary in
  let treasury_before := ps_treasury_balance x2 in
  call (CRepayCredit borrower 100000) ;;
  let* x3 := in_contract Query.get_protocol_summary in
  let treasury_after := ps_treasury_balance x3 in
  assert_eq treasury_after treasury_before.

Definition late_fee_multiple_overdue_installments : T unit :=
  let* (client, borrower) := setup_borrower in
  setup_draw client borrower 500000 100 ;;
  with_schedule client borrower 100000 100 200 ;;
  call (CSetLateFeeFlat 30) ;;
  set_timestamp 600 ;;
  let* x2 := in_contract Query.get_protocol_summary in
  let treasury_before := ps_treasury_balance x2 in
  call (CRepayCredit borrower 400000) ;;
  let* x3 := in_contract Query.get_protocol_summary in
  let treasury_after := ps_treasury_balance x3 in
  assert_eq (treasury_after - treasury_before) (4 * 30).

Definition late_fee_no_fee_when_paid_on_time : T unit :=
  let* (client, borrower) := setup_borrower in
  setup_draw client borrower 500000 100 ;;
  with_schedule client borrower 100000 100 200 ;;
  call (CSetLateFeeFlat 50) ;;
  set_timestamp 150 ;;
  let* x2 := in_contract Query.get_protocol_summary in
  let treasury_before := ps_treasury_balance x2 in
  call (CRepayCredit borrower 100000) ;;
  let* x3 := in_contract Query.get_protocol_summary in
  let treasury_after := ps_treasury_balance x3 in
  assert_eq treasury_after treasury_before.

Definition late_fee_explicit_zero_disabled : T unit :=
  let* (client, borrower) := setup_borrower in
  setup_draw client borrower 500000 100 ;;
  with_schedule client borrower 100000 100 200 ;;
  call (CSetLateFeeFlat 0) ;;
  set_timestamp 300 ;;
  let* x2 := in_contract Query.get_protocol_summary in
  let treasury_before := ps_treasury_balance x2 in
  call (CRepayCredit borrower 100000) ;;
  let* x3 := in_contract Query.get_protocol_summary in
  let treasury_after := ps_treasury_balance x3 in
  assert_eq treasury_after treasury_before.

Definition late_fee_no_schedule_no_fee : T unit :=
  let* (client, borrower) := setup_borrower in
  setup_draw client borrower 500000 100 ;;
  call (CSetLateFeeFlat 50) ;;
  set_timestamp 300 ;;
  let* x2 := in_contract Query.get_protocol_summary in
  let treasury_before := ps_treasury_balance x2 in
  call (CRepayCredit borrower 100000) ;;
  let* x3 := in_contract Query.get_protocol_summary in
  let treasury_after := ps_treasury_balance x3 in
  assert_eq treasury_after treasury_before.

Definition late_fee_partial_payment_no_fee : T unit :=
  let* (client, borrower) := setup_borrower in
  setup_draw client borrower 500000 100 ;;
  with_schedule client borrower 100000 100 200 ;;
  call (CSetLateFeeFlat 50) ;;
  set_timestamp 300 ;;
  let* x2 := in_contract Query.get_protocol_summary in
  let treasury_before := ps_treasury_balance x2 in
  call (CRepayCredit borrower 50000) ;;
  let* x3 := in_contract Query.get_protocol_summary in
  let treasury_after := ps_treasury_balance x3 in
  assert_eq treasury_after treasury_before.

Definition late_fee_rejects_negative_fee : T unit :=
  mock_all_auths ;;
  let* admin_ := generate in
  let* contract_id := register_credit in
  call (CInit admin_) ;;
  call (CSetLateFeeFlat (-1)).

Definition late_fee_advance_payment_only_charges_overdue : T unit :=
  let* (client, borrower) := setup_borrower in
  setup_draw client borrower 500000 100 ;;
  with_schedule client borrower 100000 100 200 ;;
  call (CSetLateFeeFlat 30) ;;
  set_timestamp 250 ;;
  let* x2 := in_contract Query.get_protocol_summary in
  let treasury_before := ps_treasury_balance x2 in
  call (CRepayCredit borrower 200000) ;;
  let* x3 := in_contract Query.get_protocol_summary in
  let treasury_after := ps_treasury_balance x3 in
  assert_eq (treasury_after - treasury_before) 30.

Definition test_settle_default_liquidation_partial_50_percent : T unit :=
  mock_all_auths ;;
  let* admin_ := generate in
  let* borrower := generate in
  let* contract_id := register_credit in
  call (CInit admin_) ;;
  call (COpenCreditLine borrower 1000000 500 100) ;;
  call (CDrawCredit borrower 500000) ;;
  set_timestamp 3600 ;;
  call (CDefaultCreditLine borrower) ;;
  let* x4 := in_contract (Query.get_credit_line borrower) in
  let* before := unwrapped x4 in
  assert_eq (cl_status before) Defaulted ;;
  assert (500000 <? (cl_utilized_amount before)) ;;
  let settlement_id := "settle_1" in
  let recovered := 250000 in
  call (CSettleDefaultLiquidation borrower recovered settlement_id 5000 None) ;;
  let* x6 := in_contract (Query.get_credit_line borrower) in
  let* after := unwrapped x6 in
  assert_eq (cl_status after) Defaulted ;;
  assert ((cl_utilized_amount after) <? (cl_utilized_amount before)) ;;
  assert_eq (cl_utilized_amount after) ((cl_utilized_amount before) - recovered).

Definition test_settle_default_liquidation_full_close_factor : T unit :=
  mock_all_auths ;;
  let* admin_ := generate in
  let* borrower := generate in
  let* contract_id := register_credit in
  call (CInit admin_) ;;
  call (COpenCreditLine borrower 1000000 500 100) ;;
  call (CDrawCredit borrower 100000) ;;
  set_timestamp 3600 ;;
  call (CDefaultCreditLine borrower) ;;
  let* x4 := in_contract (Query.get_credit_line borrower) in
  let* before := unwrapped x4 in
  let utilized_with_accrual := cl_utilized_amount before in
  let settlement_id := "settle_full" in
  call (CSettleDefaultLiquidation borrower utilized_with_accrual settlement_id 10000 None) ;;
  let* x6 := in_contract (Query.get_credit_line borrower) in
  let* after := unwrapped x6 in
  assert_eq (cl_status after) Closed ;;
  assert_eq (cl_utilized_amount after) 0.

Definition test_settle_default_liquidation_exceeds_close_factor_limit : T unit :=
  mock_all_auths ;;
  let* admin_ := generate in
  let* borrower := generate in
  let* contract_id := register_credit in
  call (CInit admin_) ;;
  call (CSetCloseFactorBps 5000) ;;
  call (COpenCreditLine borrower 1000000 500 100) ;;
  call (CDrawCredit borrower 100000) ;;
  set_timestamp 3600 ;;
  call (CDefaultCreditLine borrower) ;;
  let* x4 := in_contract (Query.get_credit_line borrower) in
  let* before := unwrapped x4 in
  let settlement_id := "settle_fail" in
  call (CSettleDefaultLiquidation borrower (cl_utilized_amount before) settlement_id 10000 None).

Definition test_settle_default_liquidation_exceeds_max_recoverable : T unit :=
  mock_all_auths ;;
  let* admin_ := generate in
  let* borrower := generate in
  let* contract_id := register_credit in
  call (CInit admin_) ;;
  call (COpenCreditLine borrower 1000000 500 100) ;;
  call (CDrawCredit borrower 100000) ;;
  call (CDefaultCreditLine borrower) ;;
  let settlement_id := "settle_over" in
  call (CSettleDefaultLiquidation borrower 60000 settlement_id 5000 None).

Definition test_settle_default_liquidation_zero_close_factor : T unit :=
  mock_all_auths ;;
  let* admin_ := generate in
  let* borrower := generate in
  let* contract_id := register_credit in
  call (CInit admin_) ;;
  call (COpenCreditLine borrower 1000000 500 100) ;;
  call (CDrawCredit borrower 100000) ;;
  call (CDefaultCreditLine borrower) ;;
  let settlement_id := "settle_zero" in
  call (CSettleDefaultLiquidation borrower 10000 settlement_id 0 None).

Definition test_settle_default_liquidation_excessive_close_factor : T unit :=
  mock_all_auths ;;
  let* admin_ := generate in
  let* borrower := generate in
  let* contract_id := register_credit in
  call (CInit admin_) ;;
  call (COpenCreditLine borrower 1000000 500 100) ;;
  call (CDrawCredit borrower 100000) ;;
  call (CDefaultCreditLine borrower) ;;
  let settlement_id := "settle_excess" in
  call (CSettleDefaultLiquidation borrower 100000 settlement_id 10001 None).

Definition test_settle_default_liquidation_replay_protection : T unit :=
  mock_all_auths ;;
  let* admin_ := generate in
  let* borrower := generate in
  let* contract_id := register_credit in
  call (CInit admin_) ;;
  call (COpenCreditLine borrower 1000000 500 100) ;;
  call (CDrawCredit borrower 100000) ;;
  call (CDefaultCreditLine borrower) ;;
  let settlement_id := "settle_replay" in
  call (CSettleDefaultLiquidation borrower 50000 settlement_id 5000 None) ;;
  call (CSettleDefaultLiquidation borrower 25000 settlement_id 5000 None).

Definition test_settle_default_liquidation_multiple_rounds : T unit :=
  mock_all_auths ;;
  let* admin_ := generate in
  let* borrower := generate in
  let* contract_id := register_credit in
  call (CInit admin_) ;;
  call (COpenCreditLine borrower 1000000 500 100) ;;
  call (CDrawCredit borrower 100000) ;;
  call (CDefaultCreditLine borrower) ;;
  let* x4 := in_contract (Query.get_credit_line borrower) in
  let* before := unwrapped x4 in
  let total_utilized := cl_utilized_amount before in
  let settlement_id_1 := "settle_1" in
  let recovery_1 := total_utilized / 3 in
  call (CSettleDefaultLiquidation borrower recovery_1 settlement_id_1 3333 None) ;;
  let* x6 := in_contract (Query.get_credit_line borrower) in
  let* after_round_1 := unwrapped x6 in
  assert_eq (cl_utilized_amount after_round_1) (total_utilized - recovery_1) ;;
  assert_eq (cl_status after_round_1) Defaulted ;;
  let settlement_id_2 := "settle_2" in
  let recovery_2 := (total_utilized - recovery_1) / 2 in
  call (CSettleDefaultLiquidation borrower recovery_2 settlement_id_2 5000 None) ;;
  let* x8 := in_contract (Query.get_credit_line borrower) in
  let* after_round_2 := unwrapped x8 in
  assert_eq (cl_utilized_amount after_round_2) ((total_utilized - recovery_1) - recovery_2) ;;
  assert_eq (cl_status after_round_2) Defaulted ;;
  let settlement_id_3 := "settle_3" in
  let recovery_3 := cl_utilized_amount after_round_2 in
  call (CSettleDefaultLiquidation borrower recovery_3 settlement_id_3 10000 None) ;;
  let* x10 := in_contract (Query.get_credit_line borrower) in
  let* after_round_3 := unwrapped x10 in
  assert_eq (cl_utilized_amount after_round_3) 0 ;;
  assert_eq (cl_status after_round_3) Closed.

Definition test_settle_default_liquidation_zero_recovered_amount : T unit :=
  mock_all_auths ;;
  let* admin_ := generate in
  let* borrower := generate in
  let* contract_id := register_credit in
  call (CInit admin_) ;;
  call (COpenCreditLine borrower 1000000 500 100) ;;
  call (CDrawCredit borrower 100000) ;;
  call (CDefaultCreditLine borrower) ;;
  let settlement_id := "settle_zero_amt" in
  call (CSettleDefaultLiquidation borrower 0 settlement_id 5000 None).

Definition test_settle_default_liquidation_not_defaulted : T unit :=
  mock_all_auths ;;
  let* admin_ := generate in
  let* borrower := generate in
  let* contract_id := register_credit in
  call (CInit admin_) ;;
  call (COpenCreditLine borrower 1000000 500 100) ;;
  call (CDrawCredit borrower 100000) ;;
  let settlement_id := "settle_active" in
  call (CSettleDefaultLiquidation borrower 50000 settlement_id 5000 None).

Lemma installment_as_expected :
  all_hold [passes late_fee_happy_path_charges_fee_for_overdue_installment;
     passes late_fee_zero_fee_preserves_existing_behavior;
     passes late_fee_multiple_overdue_installments; passes late_fee_no_fee_when_paid_on_time;
     passes late_fee_explicit_zero_disabled; passes late_fee_no_schedule_no_fee;
     passes late_fee_partial_payment_no_fee; panics_with 5 late_fee_rejects_negative_fee;
     passes late_fee_advance_payment_only_charges_overdue] = true.
Proof. vm_compute. reflexivity. Qed.

(** Tests whose expectation the code does not meet: what they do instead. *)
Lemma installment_outdated :
  all_hold [panics_with 35 test_settle_default_liquidation_partial_50_percent;
     panics_with 35 test_settle_default_liquidation_full_close_factor;
     panics_with 35 test_settle_default_liquidation_exceeds_close_factor_limit;
     panics_with 35 test_settle_default_liquidation_exceeds_max_recoverable;
     panics_with 35 test_settle_default_liquidation_zero_close_factor;
     panics_with 35 test_settle_default_liquidation_excessive_close_factor;
     panics_with 35 test_settle_default_liquidation_replay_protection;
     panics_with 35 test_settle_default_liquidation_multiple_rounds;
     panics_with 35 test_settle_default_liquidation_zero_recovered_amount;
     panics_with 35 test_settle_default_liquidation_not_defaulted] = true.
Proof. vm_compute. reflexivity. Qed.
End installment.

(** Forgiveness of debt. *)
Module forgive.
Definition forgive_setup : T (Address * Address * Address) :=
  mock_all_auths ;;
  let* admin_ := generate in
  let* borrower := generate in
  let* contract_id := register_credit in
  call (CInit admin_) ;;
  let* a4 := generate in
  let* token_ := generate in
  call (CSetLiquidityToken token_) ;;
  mint token_ contract_id 1000000 ;;
  mint token_ borrower 1000000 ;;
  call (COpenCreditLine borrower 1000000 500 50) ;;
  call (CDepositCollateral borrower 1000000) ;;
  call (CDrawCredit borrower 500000) ;;
  tret (contract_id, admin_, borrower).

Definition forgive_partial_reduces_utilized_amount : T unit :=
  let* (client, admin_, borrower) := forgive_setup in
  let* x2 := in_contract (Query.get_credit_line borrower) in
  let* before := unwrapped x2 in
  let initial_utilized := cl_utilized_amount before in
  call (CForgiveDebt borrower 100000) ;;
  let* x4 := in_contract (Query.get_credit_line borrower) in
  let* after := unwrapped x4 in
  assert_eq (cl_utilized_amount after) (initial_utilized - 100000).

Definition forgive_full_amount_drives_utilized_to_zero : T unit :=
  let* (client, admin_, borrower) := forgive_setup in
  let* x2 := in_contract (Query.get_credit_line borrower) in
  let* line := unwrapped x2 in
  let full := cl_utilized_amount line in
  call (CForgiveDebt borrower full) ;;
  let* x4 := in_contract (Query.get_credit_line borrower) in
  let* after := unwrapped x4 in
  assert_eq (cl_utilized_amount after) 0.

Definition forgive_excess_capped_to_utilized_amount : T unit :=
  let* (client, admin_, borrower) := forgive_setup in
  let* x2 := in_contract (Query.get_credit_line borrower) in
  let* line := unwrapped x2 in
  let overshoot := (cl_utilized_amount line) + 999999 in
  call (CForgiveDebt borrower overshoot) ;;
  let* x4 := in_contract (Query.get_credit_line borrower) in
  let* after := unwrapped x4 in
  assert_eq (cl_utilized_amount after) 0.

Definition forgive_reduces_accrued_interest_first : T unit :=
  let* (client, admin_, borrower) := forgive_setup in
  set_timestamp 31536000 ;;
  let* x2 := in_contract (Query.get_credit_line borrower) in
  let* line_before := unwrapped x2 in
  let small_forgive := 1000 in
  call (CForgiveDebt borrower small_forgive) ;;
  let* x4 := in_contract (Query.get_credit_line borrower) in
  let* line_after := unwrapped x4 in
  assert ((cl_accrued_interest line_after) <=? (cl_accrued_interest line_before)) ;;
  assert ((cl_utilized_amount line_after) <? (cl_utilized_amount line_before)).

Definition forgive_does_not_change_status : T unit :=
  let* (client, admin_, borrower) := forgive_setup in
  call (CForgiveDebt borrower 1000) ;;
  let* x2 := in_contract (Query.get_credit_line borrower) in
  let* line := unwrapped x2 in
  assert_eq (cl_status line) Active.

Definition forgive_defaulted_line_succeeds : T unit :=
  let* (client, admin_, borrower) := forgive_setup in
  call (CDefaultCreditLine borrower) ;;
  let* x2 := in_contract (Query.get_credit_line borrower) in
  let* before := unwrapped x2 in
  assert_eq (cl_status before) Defaulted ;;
  call (CForgiveDebt borrower 100000) ;;
  let* x4 := in_contract (Query.get_credit_line borrower) in
  let* after := unwrapped x4 in
  assert ((cl_utilized_amount after) <? (cl_utilized_amount before)) ;;
  assert_eq (cl_status after) Defaulted.

Definition forgive_suspended_line_succeeds : T unit :=
  let* (client, admin_, borrower) := forgive_setup in
  call (CSuspendCreditLine borrower) ;;
  let* x2 := in_contract (Query.get_credit_line borrower) in
  let* before := unwrapped x2 in
  assert_eq (cl_status before) Suspended ;;
  call (CForgiveDebt borrower 50000) ;;
  let* x4 := in_contract (Query.get_credit_line borrower) in
  let* after := unwrapped x4 in
  assert ((cl_utilized_amount after) <? (cl_utilized_amount before)).

Definition forgive_closed_line_reverts_with_credit_line_closed : T unit :=
  let* (client, admin_, borrower) := forgive_setup in
  call (CCloseCreditLine borrower admin_) ;;
  call (CForgiveDebt borrower 1000).

Definition forgive_zero_debt_line_reverts_with_invalid_amount : T unit :=
  mock_all_auths ;;
  let* admin_ := generate in
  let* borrower := generate in
  let* contract_id := register_credit in
  call (CInit admin_) ;;
  call (COpenCreditLine borrower 1000000 500 50) ;;
  call (CForgiveDebt borrower 1000).

Definition forgive_after_full_forgiveness_reverts : T unit :=
  let* (client, admin_, borrower) := forgive_setup in
  let* x2 := in_contract (Query.get_credit_line borrower) in
  let* line := unwrapped x2 in
  call (CForgiveDebt borrower (cl_utilized_amount line)) ;;
  call (CForgiveDebt borrower 1).

Definition forgive_zero_amount_reverts : T unit :=
  let* (client, admin_, borrower) := forgive_setup in
  call (CForgiveDebt borrower 0).

Definition forgive_negative_amount_reverts : T unit :=
  let* (client, admin_, borrower) := forgive_setup in
  call (CForgiveDebt borrower (-1)).

Definition forgive_unknown_borrower_reverts : T unit :=
  mock_all_auths ;;
  let* admin_ := generate in
  let* unknown := generate in
  let* contract_id := register_credit in
  call (CInit admin_) ;;
  call (CForgiveDebt unknown 1000).

Lemma forgive_as_expected :
  all_hold [passes forgive_partial_reduces_utilized_amount; passes forgive_full_amount_drives_utilized_to_zero;
     passes forgive_excess_capped_to_utilized_amount; passes forgive_does_not_change_status;
     passes forgive_defaulted_line_succeeds; passes forgive_suspended_line_succeeds;
     panics_with 4 forgive_closed_line_reverts_with_credit_line_closed;
     panics_with 5 forgive_zero_debt_line_reverts_with_invalid_amount;
     panics_with 5 forgive_after_full_forgiveness_reverts; panics_with 5 forgive_zero_amount_reverts;
     panics_with 5 forgive_negative_amount_reverts; panics_with 3 forgive_unknown_borrower_reverts] = true.
Proof. vm_compute. reflexivity. Qed.

(** Tests whose expectation the code does not meet: what they do instead. *)
Lemma forgive_outdated :
  all_hold [panics forgive_reduces_accrued_interest_first] = true.
Proof. vm_compute. reflexivity. Qed.
End forgive.

(** The registry of reporters and its weighted median ([mod test]). *)
Module oracle_registry.
Definition setup_test : T (Address * Address) :=
  let* admin_ := generate in
  let* contract_id := register_credit in
  call (CInit admin_) ;;
  tret (contract_id, admin_).

Definition test_add_oracle_and_weights : T unit :=
  mock_all_auths ;;
  let* (client, admin_) := setup_test in
  let* oracle1 := generate in
  let* oracle2 := generate in
  call (CAddOracle oracle1 10) ;;
  call (CAddOracle oracle2 20) ;;
  let* list_ := in_contract (let* o_104 := iget OracleList in
    let* x105 := unwrap o_104 "unwrap" in
    ret (x105 : list Address))%contract in
  assert_eq (Z.of_nat (length (list_ : list Address))) 2 ;;
  assert (bool_decide (oracle1 ∈ (list_ : list Address))) ;;
  assert (bool_decide (oracle2 ∈ (list_ : list Address))) ;;
  let* w1 := in_contract (let* o_105 := iget (OracleWeight oracle1) in
    let* x106 := unwrap o_105 "unwrap" in
    ret (x106 : Z))%contract in
  let* w2 := in_contract (let* o_106 := iget (OracleWeight oracle2) in
    let* x107 := unwrap o_106 "unwrap" in
    ret (x107 : Z))%contract in
  assert_eq (w1 : Z) 10 ;;
  assert_eq (w2 : Z) 20 ;;
  call (CAddOracle oracle1 15) ;;
  let* w1_updated := in_contract (let* o_107 := iget (OracleWeight oracle1) in
    let* x108 := unwrap o_107 "unwrap" in
    ret (x108 : Z))%contract in
  assert_eq (w1_updated : Z) 15.

Definition test_add_oracle_zero_weight_panics : T unit :=
  mock_all_auths ;;
  let* (client, admin_) := setup_test in
  let* oracle := generate in
  call (CAddOracle oracle 0).

Definition test_remove_oracle : T unit :=
  mock_all_auths ;;
  let* (client, admin_) := setup_test in
  let* oracle := generate in
  call (CAddOracle oracle 10) ;;
  call (CReportValue oracle 100) ;;
  call (CRemoveOracle oracle) ;;
  let* list_ := in_contract (let* o_103 := iget OracleList in
    let* x104 := unwrap o_103 "unwrap" in
    ret (x104 : list Address))%contract in
  assert_eq (Z.of_nat (length (list_ : list Address))) 0 ;;
  let* exists_weight := in_contract (ihas (OracleWeight oracle))%contract in
  assert (negb (exists_weight : bool)) ;;
  let* exists_report := in_contract (phas (OracleReport oracle))%contract in
  assert (negb (exists_report : bool)).

Definition test_remove_nonexistent_oracle_panics : T unit :=
  mock_all_auths ;;
  let* (client, admin_) := setup_test in
  let* oracle := generate in
  call (CRemoveOracle oracle).

Definition test_report_value : T unit :=
  mock_all_auths ;;
  let* (client, admin_) := setup_test in
  let* oracle := generate in
  call (CAddOracle oracle 10) ;;
  call (CReportValue oracle 100) ;;
  let* report := in_contract (let* o_103 := pget (OracleReport oracle) in
    let* x104 := unwrap o_103 "unwrap" in
    ret (x104 : OracleReportData))%contract in
  assert_eq (report_value_ (report : OracleReportData)) 100 ;;
  let* ts4 := now in
  assert_eq (report_timestamp (report : OracleReportData)) ts4 ;;
  let* in_instance := in_contract (ihas (OracleReport oracle))%contract in
  assert (negb (in_instance : bool)).

Definition test_report_unregistered_oracle_panics : T unit :=
  mock_all_auths ;;
  let* (client, admin_) := setup_test in
  let* oracle := generate in
  call (CReportValue oracle 100).

Definition test_add_oracle_exceeding_cap_panics : T unit :=
  mock_all_auths ;;
  let* (client, admin_) := setup_test in
  for_each (seqZ 0 (MAX_ORACLE_FEEDS - 0)) (fun _ => let* oracle := generate in
    call (CAddOracle oracle 10)) ;;
  let* oracle_21 := generate in
  call (CAddOracle oracle_21 10).

Definition test_report_value_zero_panics : T unit :=
  mock_all_auths ;;
  let* (client, admin_) := setup_test in
  let* oracle := generate in
  call (CAddOracle oracle 10) ;;
  call (CReportValue oracle 0).

Definition test_instance_storage_does_not_grow_with_reports : T unit :=
  mock_all_auths ;;
  let* (client, admin_) := setup_test in
  let* oracle1 := generate in
  let* oracle2 := generate in
  call (CAddOracle oracle1 10) ;;
  call (CAddOracle oracle2 20) ;;
  call (CReportValue oracle1 100) ;;
  call (CReportValue oracle2 200) ;;
  in_contract (let* x104 := ihas (OracleReport oracle1) in
    massert (negb x104) "assert" ;;
    let* x105 := ihas (OracleReport oracle2) in
    massert (negb x105) "assert" ;;
    let* x106 := phas (OracleReport oracle1) in
    massert x106 "assert" ;;
    let* x107 := phas (OracleReport oracle2) in
    massert x107 "assert")%contract.

Definition test_get_median_value_threshold_unset_errors : T unit :=
  mock_all_auths ;;
  let* (client, admin_) := setup_test in
  let* oracle := generate in
  call (CAddOracle oracle 10) ;;
  call (CSetReportingWindow 3600) ;;
  call (CReportValue oracle 100) ;;
  let* res := try_result Query.get_median_value in
  assert (err_is res OracleQuorumNotMet).

Definition test_get_median_value_threshold_zero_errors : T unit :=
  mock_all_auths ;;
  let* (client, admin_) := setup_test in
  let* oracle := generate in
  call (CAddOracle oracle 10) ;;
  call (CSetQuorumThreshold 0) ;;
  call (CSetReportingWindow 3600) ;;
  call (CReportValue oracle 100) ;;
  let* res := try_result Query.get_median_value in
  assert (err_is res OracleQuorumNotMet).

Definition test_get_median_value_quorum_not_met : T unit :=
  mock_all_auths ;;
  let* (client, admin_) := setup_test in
  let* oracle := generate in
  call (CAddOracle oracle 10) ;;
  call (CSetQuorumThreshold 15) ;;
  call (CSetReportingWindow 3600) ;;
  call (CReportValue oracle 100) ;;
  let* res := try_result Query.get_median_value in
  assert (negb (ok_ res)).

Definition test_get_median_value_stale_reports : T unit :=
  mock_all_auths ;;
  let* (client, admin_) := setup_test in
  let* oracle := generate in
  call (CAddOracle oracle 10) ;;
  call (CSetQuorumThreshold 10) ;;
  call (CSetReportingWindow 60) ;;
  set_timestamp 100 ;;
  call (CReportValue oracle 100) ;;
  set_timestamp 161 ;;
  let* res := try_result Query.get_median_value in
  assert (negb (ok_ res)).

Definition test_weighted_median_calculations : T unit :=
  mock_all_auths ;;
  let* (client, admin_) := setup_test in
  let* oracle1 := generate in
  let* oracle2 := generate in
  let* oracle3 := generate in
  call (CAddOracle oracle1 10) ;;
  call (CAddOracle oracle2 20) ;;
  call (CAddOracle oracle3 15) ;;
  call (CSetQuorumThreshold 45) ;;
  call (CSetReportingWindow 100) ;;
  call (CReportValue oracle1 100) ;;
  call (CReportValue oracle2 200) ;;
  call (CReportValue oracle3 300) ;;
  let* val := returned Query.get_median_value in
  assert_eq val 200 ;;
  call (CReportValue oracle1 300) ;;
  call (CReportValue oracle2 100) ;;
  call (CReportValue oracle3 200) ;;
  let* val := returned Query.get_median_value in
  assert_eq val 200 ;;
  call (CAddOracle oracle2 40) ;;
  call (CSetQuorumThreshold 65) ;;
  call (CReportValue oracle1 500) ;;
  call (CReportValue oracle2 150) ;;
  call (CReportValue oracle3 900) ;;
  let* val := returned Query.get_median_value in
  assert_eq val 150.

Definition test_removed_oracle_ignored : T unit :=
  mock_all_auths ;;
  let* (client, _) := setup_test in
  let* o1 := generate in
  let* o2 := generate in
  call (CAddOracle o1 100) ;;
  call (CAddOracle o2 200) ;;
  call (CReportValue o1 10) ;;
  call (CReportValue o2 50) ;;
  call (CSetQuorumThreshold 100) ;;
  call (CSetReportingWindow 1000) ;;
  let* x4 := returned Query.get_median_value in
  assert_eq x4 50 ;;
  call (CRemoveOracle o2) ;;
  let* x5 := returned Query.get_median_value in
  assert_eq x5 10.

(** [first_oracle] is set in the first round of the loop. *)
Fixpoint add_oracles (rounds : list Z) (first_oracle : option Address) : T (option Address) :=
  match rounds with
  | [] => tret first_oracle
  | i :: rest =>
      let* oracle := generate in
      let first_oracle := if i =? 0 then Some oracle else first_oracle in
      call (CAddOracle oracle 10) ;;
      add_oracles rest first_oracle
  end.

Definition test_add_oracle_update_existing_at_cap_succeeds : T unit :=
  mock_all_auths ;;
  let* (client, admin_) := setup_test in
  let* first_oracle := add_oracles (seqZ 0 MAX_ORACLE_FEEDS) None in
  let* oracle := unwrapped first_oracle in
  call (CAddOracle oracle 25) ;;
  let* w := in_contract (let* o := iget (OracleWeight oracle) in unwrap o "unwrap")%contract in
  assert_eq (w : Z) 25.

(** The four property tests, for sampled [weights] and [values]; that the medians
    agree on all of them is [weighted_median_is_reference] of [PriceTheorems]. *)
Definition register_and_report (inputs : list (Z * Z)) : T unit :=
  for_each inputs (fun '(w, v) =>
    let* addr := generate in
    call (CAddOracle addr w) ;;
    call (CReportValue addr v)).

Definition reported (inputs : list (Z * Z)) : list ReportWeight :=
  map (fun '(w, v) => mkReportWeight v w) inputs.

Definition prop_random_inputs (weights values : list Z) : T unit :=
  mock_all_auths ;;
  let* (client, _) := setup_test in
  let inputs := zip weights values in
  register_and_report inputs ;;
  let total_weight := sumZ (map fst inputs) in
  call (CSetQuorumThreshold (total_weight / 2)) ;;
  call (CSetReportingWindow 1000) ;;
  let* contract_median := returned Query.get_median_value in
  let* ref_median := unwrapped (reference_median (reported inputs)) in
  assert_eq contract_median ref_median.

Definition prop_equal_weights (values : list Z) : T unit :=
  mock_all_auths ;;
  let* (client, _) := setup_test in
  let inputs := map (fun v => (100, v)) values in
  register_and_report inputs ;;
  call (CSetQuorumThreshold (Z.of_nat (length values) * 100 / 2)) ;;
  call (CSetReportingWindow 1000) ;;
  let* contract_median := returned Query.get_median_value in
  let* ref_median := unwrapped (reference_median (reported inputs)) in
  assert_eq contract_median ref_median.

Definition prop_single_dominant_weight (weights values : list Z) : T unit :=
  mock_all_auths ;;
  let* (client, _) := setup_test in
  let weights := (sumZ (tail weights) + 1) :: tail weights in
  let inputs := zip weights values in
  register_and_report inputs ;;
  let total_weight := sumZ (map fst inputs) in
  call (CSetQuorumThreshold (total_weight / 2)) ;;
  call (CSetReportingWindow 1000) ;;
  let* contract_median := returned Query.get_median_value in
  let* ref_median := unwrapped (reference_median (reported inputs)) in
  assert_eq contract_median ref_median ;;
  assert_eq contract_median (nth 0 values 0).

Definition prop_stale_reports_excluded (weights values : list Z) : T unit :=
  mock_all_auths ;;
  let* (client, _) := setup_test in
  let inputs := zip weights values in
  let indexed := zip (seqZ 0 (Z.of_nat (length inputs))) inputs in
  for_each indexed (fun '(i, (w, v)) =>
    let* addr := generate in
    call (CAddOracle addr w) ;;
    set_timestamp (if i mod 2 =? 0 then 0 else 2000) ;;
    call (CReportValue addr v)) ;;
  let valid := map snd (List.filter (fun '(i, _) => negb (i mod 2 =? 0)) indexed) in
  set_timestamp 2500 ;;
  let total_weight := sumZ (map fst valid) in
  call (CSetQuorumThreshold (total_weight / 2)) ;;
  call (CSetReportingWindow 1000) ;;
  match valid with
  | [] => let* r := try_result Query.get_median_value in assert (negb (ok_ r))
  | _ =>
      let* contract_median := returned Query.get_median_value in
      let* ref_median := unwrapped (reference_median (reported valid)) in
      assert_eq contract_median ref_median
  end.

(** A total weight of 1 lies in the sampled range too: half of it is a threshold of
    zero, which [get_median_value] refuses. *)
Lemma prop_random_inputs_unit_weight :
  panics_with (error_code OracleQuorumNotMet) (prop_random_inputs [1] [42]) = true.
Proof. vm_compute. reflexivity. Qed.

Lemma oracle_registry_as_expected :
  all_hold [passes test_add_oracle_and_weights; panics_with 5 test_add_oracle_zero_weight_panics;
     passes test_remove_oracle; panics_with 55 test_remove_nonexistent_oracle_panics;
     passes test_report_value; panics_with 1 test_report_unregistered_oracle_panics;
     panics_with 6 test_add_oracle_exceeding_cap_panics; panics_with 36 test_report_value_zero_panics;
     passes test_instance_storage_does_not_grow_with_reports;
     passes test_get_median_value_threshold_unset_errors;
     passes test_get_median_value_threshold_zero_errors; passes test_get_median_value_quorum_not_met;
     passes test_get_median_value_stale_reports; passes test_weighted_median_calculations;
     passes test_removed_oracle_ignored; passes test_add_oracle_update_existing_at_cap_succeeds;
     passes (prop_random_inputs [700; 1000000; 3] [42; 7; 1000000000; 9]);
     passes (prop_equal_weights [42; 7; 1000000000; 9]);
     passes (prop_single_dominant_weight [5; 700; 9] [42; 7; 1000000000]);
     passes (prop_stale_reports_excluded [10; 20; 30; 40] [42; 7; 1000000000; 9])] = true.
Proof. vm_compute. reflexivity. Qed.
End oracle_registry.

(** [resolve_quorum_price] ([mod tests]). *)
Module oracle_quorum.
Definition quorum_cfg (k dev : Z) : OracleQuorumConfig := mkQuorumConfig k dev 3600.

(** [assert_eq!(resolve_quorum_price(..), v)], and [#[should_panic]] *)
Definition resolves_to (r : Z + ContractError) (v : Z) : bool :=
  match r with inl p => p =? v | inr _ => false end.

Definition is_err (r : Z + ContractError) : bool := match r with inl _ => false | inr _ => true end.

Definition two_of_two_exact_match_returns_lower : bool :=
  resolves_to (resolve_quorum_price [1000; 1000] (quorum_cfg 2 0)) 1000.

Definition two_of_three_outlier_ignored : bool :=
  resolves_to (resolve_quorum_price [2000; 1000; 1040] (quorum_cfg 2 500)) 1000.

Definition three_of_five_returns_median_of_window : bool :=
  resolves_to (resolve_quorum_price [1000; 5000; 980; 990; 1010] (quorum_cfg 3 500)) 990.

Definition all_identical_prices_zero_deviation : bool :=
  resolves_to (resolve_quorum_price [500; 500; 500] (quorum_cfg 3 0)) 500.

Definition window_at_end_of_sorted_array : bool :=
  resolves_to (resolve_quorum_price [2010; 1000; 2000] (quorum_cfg 2 100)) 2000.

Definition four_of_four_returns_lower_median : bool :=
  resolves_to (resolve_quorum_price [130; 100; 120; 110] (quorum_cfg 4 5000)) 110.

Definition two_of_two_within_boundary_bps : bool :=
  resolves_to (resolve_quorum_price [1050; 1000] (quorum_cfg 2 500)) 1000.

Definition empty_prices_panics : bool :=
  is_err (resolve_quorum_price [] (quorum_cfg 2 500)).

Definition negative_price_panics : bool :=
  is_err (resolve_quorum_price [1000; (-1); 1010] (quorum_cfg 2 500)).

Definition zero_price_panics : bool :=
  is_err (resolve_quorum_price [1000; 0] (quorum_cfg 2 500)).

Definition k_greater_than_n_panics : bool :=
  is_err (resolve_quorum_price [1000; 1010] (quorum_cfg 3 500)).

Definition k_equals_one_panics : bool :=
  is_err (resolve_quorum_price [1000; 1010] (quorum_cfg 1 500)).

Definition k_equals_zero_panics : bool :=
  is_err (resolve_quorum_price [1000; 1010] (quorum_cfg 0 500)).

Definition no_qualifying_window_panics : bool :=
  is_err (resolve_quorum_price [1000; 2000; 4000] (quorum_cfg 2 500)).

Definition just_over_deviation_bound_panics : bool :=
  is_err (resolve_quorum_price [1051; 1000] (quorum_cfg 2 500)).

Lemma oracle_quorum_as_expected :
  all_hold [two_of_two_exact_match_returns_lower; two_of_three_outlier_ignored;
     three_of_five_returns_median_of_window; all_identical_prices_zero_deviation;
     window_at_end_of_sorted_array; four_of_four_returns_lower_median; two_of_two_within_boundary_bps;
     empty_prices_panics; negative_price_panics; zero_price_panics; k_greater_than_n_panics;
     k_equals_one_panics; k_equals_zero_panics; no_qualifying_window_panics;
     just_over_deviation_bound_panics] = true.
Proof. vm_compute. reflexivity. Qed.
End oracle_quorum.

(** Validation of the settlement price ([oracle_validation.rs]). *)
Module oracle_validation.
Definition setup_oracle_config (max_dev_bps max_age_sec : Z) : T unit :=
  in_contract (set_oracle_config (mkOracleConfig max_dev_bps max_age_sec)).

Definition setup_oracle_quorum_config (k max_dev_bps max_age_sec : Z) : T unit :=
  in_contract (set_oracle_quorum_config (mkQuorumConfig k max_dev_bps max_age_sec)).

(** The reports go to instance storage here; the contract keeps them in persistent storage. *)
Definition setup_registry (quorum window : Z) (reports : list (Address * Z * Z)) : T unit :=
  let* ts := now in
  for_each reports (fun '(oracle, weight, value) =>
    in_contract (iset (OracleWeight oracle) weight) ;;
    in_contract (iset (OracleReport oracle) (mkReport value ts))) ;;
  in_contract (iset OracleList (map (fun '(oracle, _, _) => oracle) reports)) ;;
  in_contract (iset QuorumThreshold quorum) ;;
  in_contract (iset ReportingWindow window).

Definition no_oracle_config_returns_not_configured : T unit :=
  mock_all_auths ;;
  let* _ := register_credit in
  let* result := in_contract (validate_settlement_oracle_price (Some 1000)) in
  assert_eq result NotConfigured ;;
  assert_eq (price result) None.

Definition no_oracle_config_accepts_none_price : T unit :=
  mock_all_auths ;;
  let* _ := register_credit in
  let* result := in_contract (validate_settlement_oracle_price None) in
  assert_eq result NotConfigured.

Definition single_oracle_first_price_accepted : T unit :=
  mock_all_auths ;;
  let* _ := register_credit in
  setup_oracle_config 500 3600 ;;
  let* result := in_contract (validate_settlement_oracle_price (Some 1000)) in
  assert_eq result (SingleOracleMode 1000).

Definition single_oracle_second_price_within_deviation : T unit :=
  mock_all_auths ;;
  let* _ := register_credit in
  setup_oracle_config 500 3600 ;;
  set_timestamp 1000 ;;
  let* _ := in_contract (validate_settlement_oracle_price (Some 1000)) in
  in_contract (record_accepted_oracle_price 1000) ;;
  set_timestamp 1500 ;;
  let* result := in_contract (validate_settlement_oracle_price (Some 1040)) in
  assert_eq result (SingleOracleMode 1040).

Definition single_oracle_price_at_exact_max_age_accepted : T unit :=
  mock_all_auths ;;
  let* _ := register_credit in
  setup_oracle_config 500 3600 ;;
  set_timestamp 1000 ;;
  let* _ := in_contract (validate_settlement_oracle_price (Some 1000)) in
  in_contract (record_accepted_oracle_price 1000) ;;
  set_timestamp (1000 + 3600) ;;
  let* result := in_contract (validate_settlement_oracle_price (Some 1010)) in
  assert (match result with SingleOracleMode _ => true | _ => false end).

Definition single_oracle_boundary_deviation_accepted : T unit :=
  mock_all_auths ;;
  let* _ := register_credit in
  setup_oracle_config 500 3600 ;;
  set_timestamp 1000 ;;
  let* _ := in_contract (validate_settlement_oracle_price (Some 1000)) in
  in_contract (record_accepted_oracle_price 1000) ;;
  set_timestamp 1500 ;;
  let* result := in_contract (validate_settlement_oracle_price (Some 1050)) in
  assert (match result with SingleOracleMode _ => true | _ => false end).

Definition single_oracle_missing_price_panics : T unit :=
  mock_all_auths ;;
  let* _ := register_credit in
  setup_oracle_config 500 3600 ;;
  let* _ := in_contract (validate_settlement_oracle_price None) in
  tret tt.

Definition single_oracle_zero_price_panics : T unit :=
  mock_all_auths ;;
  let* _ := register_credit in
  setup_oracle_config 500 3600 ;;
  let* _ := in_contract (validate_settlement_oracle_price (Some 0)) in
  tret tt.

Definition single_oracle_negative_price_panics : T unit :=
  mock_all_auths ;;
  let* _ := register_credit in
  setup_oracle_config 500 3600 ;;
  let* _ := in_contract (validate_settlement_oracle_price (Some (-100))) in
  tret tt.

Definition single_oracle_stale_price_panics : T unit :=
  mock_all_auths ;;
  let* _ := register_credit in
  setup_oracle_config 500 3600 ;;
  set_timestamp 1000 ;;
  let* _ := in_contract (validate_settlement_oracle_price (Some 1000)) in
  in_contract (record_accepted_oracle_price 1000) ;;
  set_timestamp (1000 + 3601) ;;
  let* _ := in_contract (validate_settlement_oracle_price (Some 1010)) in
  tret tt.

Definition single_oracle_upward_deviation_exceeds_bound : T unit :=
  mock_all_auths ;;
  let* _ := register_credit in
  setup_oracle_config 500 3600 ;;
  set_timestamp 1000 ;;
  let* _ := in_contract (validate_settlement_oracle_price (Some 1000)) in
  in_contract (record_accepted_oracle_price 1000) ;;
  set_timestamp 1500 ;;
  let* _ := in_contract (validate_settlement_oracle_price (Some 1100)) in
  tret tt.

Definition single_oracle_downward_deviation_exceeds_bound : T unit :=
  mock_all_auths ;;
  let* _ := register_credit in
  setup_oracle_config 500 3600 ;;
  set_timestamp 1000 ;;
  let* _ := in_contract (validate_settlement_oracle_price (Some 1000)) in
  in_contract (record_accepted_oracle_price 1000) ;;
  set_timestamp 1500 ;;
  let* _ := in_contract (validate_settlement_oracle_price (Some 900)) in
  tret tt.

Definition quorum_mode_takes_precedence_over_single_oracle : T unit :=
  mock_all_auths ;;
  let* _ := register_credit in
  setup_oracle_config 500 3600 ;;
  setup_oracle_quorum_config 2 500 3600 ;;
  let* ts := now in
  in_contract (set_oracle_quorum_price 2000 ts) ;;
  let* result := in_contract (validate_settlement_oracle_price (Some 1000)) in
  assert_eq result (QuorumMode 2000).

Definition quorum_mode_fresh_price_accepted : T unit :=
  mock_all_auths ;;
  let* _ := register_credit in
  setup_oracle_quorum_config 2 500 3600 ;;
  set_timestamp 1000 ;;
  in_contract (set_oracle_quorum_price 1000 1000) ;;
  set_timestamp 2000 ;;
  let* result := in_contract (validate_settlement_oracle_price None) in
  assert_eq result (QuorumMode 1000).

Definition quorum_mode_at_exact_max_age_accepted : T unit :=
  mock_all_auths ;;
  let* _ := register_credit in
  setup_oracle_quorum_config 2 500 3600 ;;
  set_timestamp 1000 ;;
  in_contract (set_oracle_quorum_price 1000 1000) ;;
  set_timestamp (1000 + 3600) ;;
  let* result := in_contract (validate_settlement_oracle_price None) in
  assert (match result with QuorumMode _ => true | _ => false end).

Definition quorum_mode_missing_price_panics : T unit :=
  mock_all_auths ;;
  let* _ := register_credit in
  setup_oracle_quorum_config 2 500 3600 ;;
  let* _ := in_contract (validate_settlement_oracle_price None) in
  tret tt.

Definition quorum_mode_stale_price_panics : T unit :=
  mock_all_auths ;;
  let* _ := register_credit in
  setup_oracle_quorum_config 2 500 3600 ;;
  set_timestamp 1000 ;;
  in_contract (set_oracle_quorum_price 1000 1000) ;;
  set_timestamp (1000 + 3601) ;;
  let* _ := in_contract (validate_settlement_oracle_price None) in
  tret tt.

Definition registry_median_is_resolved_when_registry_is_active : T unit :=
  mock_all_auths ;;
  let* _ := register_credit in
  set_timestamp 1000 ;;
  let* o1 := generate in
  let* o2 := generate in
  let* o3 := generate in
  setup_registry 60 3600 [(o1, 10, 1000); (o2, 20, 1100); (o3, 30, 1200)] ;;
  let* result := in_contract (validate_settlement_oracle_price None) in
  assert_eq result (RegistryMedianMode 1100).

Definition registry_median_takes_precedence_over_quorum_and_single_oracle : T unit :=
  mock_all_auths ;;
  let* _ := register_credit in
  set_timestamp 1000 ;;
  setup_oracle_config 500 3600 ;;
  setup_oracle_quorum_config 2 500 3600 ;;
  in_contract (set_oracle_quorum_price 2000 1000) ;;
  let* o1 := generate in
  let* o2 := generate in
  setup_registry 30 3600 [(o1, 10, 1000); (o2, 20, 1100)] ;;
  let* result := in_contract (validate_settlement_oracle_price (Some 9999)) in
  assert_eq result (RegistryMedianMode 1100).

Definition registry_median_below_quorum_panics : T unit :=
  mock_all_auths ;;
  let* _ := register_credit in
  set_timestamp 1000 ;;
  let* o1 := generate in
  setup_registry 60 3600 [(o1, 10, 1000)] ;;
  let* _ := in_contract (validate_settlement_oracle_price None) in
  tret tt.

Definition registry_median_without_reports_panics : T unit :=
  mock_all_auths ;;
  let* _ := register_credit in
  setup_registry 10 3600 [] ;;
  let* _ := in_contract (validate_settlement_oracle_price None) in
  tret tt.

Definition registry_median_ignores_stale_reports : T unit :=
  mock_all_auths ;;
  let* _ := register_credit in
  set_timestamp 1000 ;;
  let* o1 := generate in
  setup_registry 10 60 [(o1, 10, 1000)] ;;
  set_timestamp 1061 ;;
  let* _ := in_contract (validate_settlement_oracle_price None) in
  tret tt.

Definition resolved_price_extraction : bool :=
  bool_decide (price NotConfigured = None) &&
  bool_decide (price (RegistryMedianMode 1100) = Some 1100) &&
  bool_decide (price (QuorumMode 1500) = Some 1500) &&
  bool_decide (price (SingleOracleMode 2000) = Some 2000).

Lemma oracle_validation_as_expected :
  all_hold [passes no_oracle_config_returns_not_configured; passes no_oracle_config_accepts_none_price;
     passes single_oracle_first_price_accepted; passes single_oracle_second_price_within_deviation;
     passes single_oracle_price_at_exact_max_age_accepted;
     passes single_oracle_boundary_deviation_accepted;
     panics_with 36 single_oracle_missing_price_panics; panics_with 36 single_oracle_zero_price_panics;
     panics_with 36 single_oracle_negative_price_panics;
     panics_with 37 single_oracle_stale_price_panics;
     panics_with 38 single_oracle_upward_deviation_exceeds_bound;
     panics_with 38 single_oracle_downward_deviation_exceeds_bound;
     passes quorum_mode_takes_precedence_over_single_oracle; passes quorum_mode_fresh_price_accepted;
     passes quorum_mode_at_exact_max_age_accepted; panics_with 50 quorum_mode_missing_price_panics;
     panics_with 37 quorum_mode_stale_price_panics; panics_with 50 registry_median_below_quorum_panics;
     panics_with 50 registry_median_without_reports_panics;
     panics_with 50 registry_median_ignores_stale_reports; resolved_price_extraction] = true.
Proof. vm_compute. reflexivity. Qed.

(** Tests whose expectation the code does not meet: what they do instead. *)
Lemma oracle_validation_outdated :
  all_hold [panics_with (error_code OracleQuorumNotMet) registry_median_is_resolved_when_registry_is_active;
     panics_with (error_code OracleQuorumNotMet) registry_median_takes_precedence_over_quorum_and_single_oracle] = true.
Proof. vm_compute. reflexivity. Qed.
End oracle_validation.
