(* ===== verification/RateTests.v ===== *)
(** * The unit tests of [accrual_tests.rs] and [risk_formula_tests.rs], executed on the model

    As in [CreditTests]. *)
From Stdlib Require Strings.String.
From S2P Require Import Prelude Soroban CreditTypes CreditEvents CreditStorage CreditState Accrual Collateral Fees Freeze Oracles Scoring Risk Lifecycle Views CreditContract CreditCalls CreditQueries CreditTesting.
Import Bench.
#[local] Open Scope test_scope.

(** Accrual, penalties and the grace window. *)
Module accrual_tests.
Definition setup_env : T (unit * Address * Address * Address) :=
  mock_all_auths ;;
  let* admin_ := generate in
  let* borrower := generate in
  let* contract_id := register_credit in
  call (CInit admin_) ;;
  call (CSetMinCollateralRatioBps 0) ;;
  let* a4 := generate in
  let* token_id := generate in
  call (CSetLiquidityToken token_id) ;;
  mint token_id contract_id i128_max ;;
  mint token_id borrower 1000000000000 ;;
  approve token_id borrower contract_id 1000000000000 ;;
  tret (tt, admin_, borrower, contract_id).

Definition test_accrual_initialization_on_first_touch : T unit :=
  let* (env, admin_, borrower, client) := setup_env in
  call (COpenCreditLine borrower 1000 1000 50) ;;
  let* x2 := in_contract (Query.get_credit_line borrower) in
  let* line := unwrapped x2 in
  assert_eq (cl_last_accrual_ts line) 0 ;;
  set_timestamp 100 ;;
  call (CDrawCredit borrower 500) ;;
  let* x4 := in_contract (Query.get_credit_line borrower) in
  let* line := unwrapped x4 in
  assert_eq (cl_last_accrual_ts line) 100 ;;
  assert_eq (cl_accrued_interest line) 0 ;;
  assert_eq (cl_utilized_amount line) 500.

Definition test_no_accrual_at_same_timestamp : T unit :=
  let* (env, admin_, borrower, client) := setup_env in
  call (COpenCreditLine borrower 1000 1000 50) ;;
  set_timestamp 100 ;;
  call (CDrawCredit borrower 500) ;;
  call (CUpdateRiskParameters borrower 1000 1000 50) ;;
  let* x2 := in_contract (Query.get_credit_line borrower) in
  let* line := unwrapped x2 in
  assert_eq (cl_last_accrual_ts line) 100 ;;
  assert_eq (cl_accrued_interest line) 0.

Definition test_positive_accrual : T unit :=
  let* (env, admin_, borrower, client) := setup_env in
  call (COpenCreditLine borrower 1000000 1000 50) ;;
  set_timestamp 100 ;;
  call (CDrawCredit borrower 100000) ;;
  set_timestamp (100 + 31557600) ;;
  call (CUpdateRiskParameters borrower 1000000 1000 50) ;;
  let* x2 := in_contract (Query.get_credit_line borrower) in
  let* line := unwrapped x2 in
  assert_eq (cl_last_accrual_ts line) (100 + 31557600) ;;
  assert_eq (cl_accrued_interest line) 10000 ;;
  assert_eq (cl_utilized_amount line) 110000.

Definition test_multi_period_accrual : T unit :=
  let* (env, admin_, borrower, client) := setup_env in
  call (COpenCreditLine borrower 1000000 1000 50) ;;
  set_timestamp 100 ;;
  call (CDrawCredit borrower 100000) ;;
  set_timestamp (100 + 15778800) ;;
  call (CUpdateRiskParameters borrower 1000000 1000 50) ;;
  let* x2 := in_contract (Query.get_credit_line borrower) in
  let* line1 := unwrapped x2 in
  assert_eq (cl_accrued_interest line1) 5000 ;;
  set_timestamp (100 + 31557600) ;;
  call (CUpdateRiskParameters borrower 1000000 1000 50) ;;
  let* x4 := in_contract (Query.get_credit_line borrower) in
  let* line2 := unwrapped x4 in
  assert_eq (cl_accrued_interest line2) 10250.

Definition test_interest_first_repayment : T unit :=
  let* (env, admin_, borrower, client) := setup_env in
  call (COpenCreditLine borrower 1000000 1000 50) ;;
  set_timestamp 100 ;;
  call (CDrawCredit borrower 100000) ;;
  set_timestamp (100 + 31557600) ;;
  call (CRepayCredit borrower 5000) ;;
  let* x2 := in_contract (Query.get_credit_line borrower) in
  let* line := unwrapped x2 in
  assert_eq (cl_accrued_interest line) 5000 ;;
  assert_eq (cl_utilized_amount line) 105000 ;;
  call (CRepayCredit borrower 10000) ;;
  let* x4 := in_contract (Query.get_credit_line borrower) in
  let* line2 := unwrapped x4 in
  assert_eq (cl_accrued_interest line2) 0 ;;
  assert_eq (cl_utilized_amount line2) 95000.

Definition test_zero_utilization_no_accrual : T unit :=
  let* (env, admin_, borrower, client) := setup_env in
  call (COpenCreditLine borrower 1000000 1000 50) ;;
  set_timestamp 100 ;;
  call (CUpdateRiskParameters borrower 1000000 1000 50) ;;
  set_timestamp (100 + 31557600) ;;
  call (CUpdateRiskParameters borrower 1000000 1000 50) ;;
  let* x2 := in_contract (Query.get_credit_line borrower) in
  let* line := unwrapped x2 in
  assert_eq (cl_accrued_interest line) 0 ;;
  assert_eq (cl_utilized_amount line) 0.

Definition test_rounding_down : T unit :=
  let* (env, admin_, borrower, client) := setup_env in
  call (COpenCreditLine borrower 1000000 1000 50) ;;
  set_timestamp 100 ;;
  call (CDrawCredit borrower 100000) ;;
  set_timestamp 101 ;;
  call (CUpdateRiskParameters borrower 1000000 1000 50) ;;
  let* x2 := in_contract (Query.get_credit_line borrower) in
  let* line := unwrapped x2 in
  assert_eq (cl_accrued_interest line) 0 ;;
  assert_eq (cl_last_accrual_ts line) 100.

Definition test_overflow_protection : T unit :=
  let* (env, admin_, borrower, client) := setup_env in
  call (COpenCreditLine borrower i128_max 10000 100) ;;
  set_timestamp 100 ;;
  call (CDrawCredit borrower 1000000000000000000) ;;
  set_timestamp (100 + (100 * 31557600)) ;;
  call (CUpdateRiskParameters borrower i128_max 10000 100) ;;
  let* x2 := in_contract (Query.get_credit_line borrower) in
  let* line := unwrapped x2 in
  assert (0 <? (cl_accrued_interest line)).

Definition setup_suspended (credit_limit : Z) (draw_amount : Z) (rate_bps : Z) (suspend_ts : Z) : T
  (Address * Address * Address) :=
  mock_all_auths ;;
  let* admin_ := generate in
  let* borrower := generate in
  let* contract_id := register_credit in
  call (CInit admin_) ;;
  call (CSetMinCollateralRatioBps 0) ;;
  let* a4 := generate in
  let* token_id := generate in
  call (CSetLiquidityToken token_id) ;;
  mint token_id contract_id 1000000000000 ;;
  call (COpenCreditLine borrower credit_limit rate_bps 50) ;;
  set_timestamp 1 ;;
  call (CDrawCredit borrower draw_amount) ;;
  let* actual_suspend_ts := (if suspend_ts <? 1 then tret 1 else tret suspend_ts) in
  set_timestamp actual_suspend_ts ;;
  call (CSuspendCreditLine borrower) ;;
  tret (contract_id, contract_id, borrower).

Definition no_grace_config_suspended_line_accrues_at_full_rate : T unit :=
  let* (client, contract_id, borrower) := setup_suspended 1000000 100000 1000 1 in
  set_timestamp (1 + 31557600) ;;
  call (CUpdateRiskParameters borrower 1000000 1000 50) ;;
  let* x2 := in_contract (Query.get_credit_line borrower) in
  let* line := unwrapped x2 in
  assert_eq (cl_accrued_interest line) 10000 ;;
  assert_eq (cl_utilized_amount line) 110000.

Definition full_waiver_no_interest_inside_grace_window : T unit :=
  let* (client, contract_id, borrower) := setup_suspended 1000000 100000 1000 1 in
  call (CSetGracePeriodConfig 31557600 FullWaiver 0) ;;
  set_timestamp (1 + 15778800) ;;
  call (CUpdateRiskParameters borrower 1000000 1000 50) ;;
  let* x2 := in_contract (Query.get_credit_line borrower) in
  let* line := unwrapped x2 in
  assert_eq (cl_accrued_interest line) 0 ;;
  assert_eq (cl_utilized_amount line) 100000.

Definition full_waiver_no_interest_at_grace_boundary : T unit :=
  let* (client, contract_id, borrower) := setup_suspended 1000000 100000 1000 1 in
  call (CSetGracePeriodConfig 31557600 FullWaiver 0) ;;
  set_timestamp 31557601 ;;
  call (CUpdateRiskParameters borrower 1000000 1000 50) ;;
  let* x2 := in_contract (Query.get_credit_line borrower) in
  let* line := unwrapped x2 in
  assert_eq (cl_accrued_interest line) 0 ;;
  assert_eq (cl_utilized_amount line) 100000.

Definition full_waiver_full_rate_resumes_after_grace_window : T unit :=
  let* (client, contract_id, borrower) := setup_suspended 1000000 100000 1000 1 in
  call (CSetGracePeriodConfig 31557600 FullWaiver 0) ;;
  set_timestamp 63115201 ;;
  call (CUpdateRiskParameters borrower 1000000 1000 50) ;;
  let* x2 := in_contract (Query.get_credit_line borrower) in
  let* line := unwrapped x2 in
  assert_eq (cl_accrued_interest line) 10000 ;;
  assert_eq (cl_utilized_amount line) 110000.

Definition reduced_rate_accrues_at_waiver_rate_inside_window : T unit :=
  let* (client, contract_id, borrower) := setup_suspended 1000000 100000 1000 1 in
  call (CSetGracePeriodConfig 31557600 ReducedRate 200) ;;
  set_timestamp 31557601 ;;
  call (CUpdateRiskParameters borrower 1000000 1000 50) ;;
  let* x2 := in_contract (Query.get_credit_line borrower) in
  let* line := unwrapped x2 in
  assert_eq (cl_accrued_interest line) 2000 ;;
  assert_eq (cl_utilized_amount line) 102000.

Definition full_waiver_split_window_straddles_grace_boundary : T unit :=
  let* (client, contract_id, borrower) := setup_suspended 1000000 100000 1000 1 in
  call (CSetGracePeriodConfig 31557600 FullWaiver 0) ;;
  set_timestamp 47336401 ;;
  call (CUpdateRiskParameters borrower 1000000 1000 50) ;;
  let* x2 := in_contract (Query.get_credit_line borrower) in
  let* line := unwrapped x2 in
  assert_eq (cl_accrued_interest line) 5000 ;;
  assert_eq (cl_utilized_amount line) 105000.

Definition reduced_rate_split_window_straddles_grace_boundary : T unit :=
  let* (client, contract_id, borrower) := setup_suspended 1000000 100000 1000 1 in
  call (CSetGracePeriodConfig 31557600 ReducedRate 200) ;;
  set_timestamp 47336401 ;;
  call (CUpdateRiskParameters borrower 1000000 1000 50) ;;
  let* x2 := in_contract (Query.get_credit_line borrower) in
  let* line := unwrapped x2 in
  assert_eq (cl_accrued_interest line) 7000 ;;
  assert_eq (cl_utilized_amount line) 107000.

Definition zero_grace_period_seconds_disables_waiver : T unit :=
  let* (client, contract_id, borrower) := setup_suspended 1000000 100000 1000 1 in
  call (CSetGracePeriodConfig 0 FullWaiver 0) ;;
  set_timestamp (1 + 31557600) ;;
  call (CUpdateRiskParameters borrower 1000000 1000 50) ;;
  let* x2 := in_contract (Query.get_credit_line borrower) in
  let* line := unwrapped x2 in
  assert_eq (cl_accrued_interest line) 10000.

Definition grace_period_does_not_affect_active_lines : T unit :=
  mock_all_auths ;;
  let* admin_ := generate in
  let* borrower := generate in
  let* contract_id := register_credit in
  call (CInit admin_) ;;
  call (CSetMinCollateralRatioBps 0) ;;
  let* a4 := generate in
  let* token_id := generate in
  call (CSetLiquidityToken token_id) ;;
  mint token_id contract_id 1000000000 ;;
  call (COpenCreditLine borrower 1000000 1000 50) ;;
  set_timestamp 1 ;;
  call (CDrawCredit borrower 100000) ;;
  call (CSetGracePeriodConfig 31557600 FullWaiver 0) ;;
  set_timestamp (1 + 31557600) ;;
  call (CUpdateRiskParameters borrower 1000000 1000 50) ;;
  let* x6 := in_contract (Query.get_credit_line borrower) in
  let* line := unwrapped x6 in
  assert_eq (cl_accrued_interest line) 10000.

Definition suspension_ts_recorded_on_suspend : T unit :=
  let* (client, contract_id, borrower) := setup_suspended 1000000 100000 1000 12345 in
  let* x2 := in_contract (Query.get_credit_line borrower) in
  let* line := unwrapped x2 in
  assert_eq (cl_suspension_ts line) 12345 ;;
  assert_eq (cl_status line) Suspended.

Definition grace_period_config_roundtrip : T unit :=
  mock_all_auths ;;
  let* admin_ := generate in
  let* contract_id := register_credit in
  call (CInit admin_) ;;
  call (CSetMinCollateralRatioBps 0) ;;
  let* x3 := in_contract Query.get_grace_period_config in
  assert (negb (bool_decide (is_Some x3))) ;;
  call (CSetGracePeriodConfig 86400 ReducedRate 150) ;;
  let* x4 := in_contract Query.get_grace_period_config in
  let* cfg := unwrapped x4 in
  assert_eq (grace_period_seconds cfg) 86400 ;;
  assert_eq (waiver_mode cfg) ReducedRate ;;
  assert_eq (reduced_rate_bps cfg) 150.

Definition set_grace_period_config_rejects_rate_too_high : T unit :=
  mock_all_auths ;;
  let* admin_ := generate in
  let* contract_id := register_credit in
  call (CInit admin_) ;;
  call (CSetMinCollateralRatioBps 0) ;;
  call (CSetGracePeriodConfig 1000 ReducedRate 10001).

Definition default_during_grace_ends_grace_period : T unit :=
  let* (client, contract_id, borrower) := setup_suspended 1000000 100000 1000 0 in
  call (CSetGracePeriodConfig 31557600 FullWaiver 0) ;;
  set_timestamp 15778800 ;;
  call (CDefaultCreditLine borrower) ;;
  call (CReinstateCreditLine borrower Active) ;;
  set_timestamp (15778800 + 31557600) ;;
  call (CUpdateRiskParameters borrower 1000000 1000 50) ;;
  let* x2 := in_contract (Query.get_credit_line borrower) in
  let* line := unwrapped x2 in
  assert_eq (cl_accrued_interest line) 10000 ;;
  assert_eq (cl_status line) Active.

Definition suspension_ts_cleared_on_reinstatement : T unit :=
  let* (client, contract_id, borrower) := setup_suspended 1000000 100000 1000 100 in
  set_timestamp 200 ;;
  call (CDefaultCreditLine borrower) ;;
  call (CReinstateCreditLine borrower Active) ;;
  let* x2 := in_contract (Query.get_credit_line borrower) in
  let* line := unwrapped x2 in
  assert_eq (cl_suspension_ts line) 0 ;;
  assert_eq (cl_status line) Active.

Lemma accrual_tests_as_expected :
  all_hold [passes test_accrual_initialization_on_first_touch; passes test_no_accrual_at_same_timestamp;
     passes test_positive_accrual; passes test_multi_period_accrual;
     passes test_interest_first_repayment; passes test_zero_utilization_no_accrual;
     passes test_rounding_down; passes test_overflow_protection;
     passes no_grace_config_suspended_line_accrues_at_full_rate;
     passes full_waiver_no_interest_inside_grace_window;
     passes full_waiver_no_interest_at_grace_boundary;
     passes full_waiver_full_rate_resumes_after_grace_window;
     passes reduced_rate_accrues_at_waiver_rate_inside_window;
     passes full_waiver_split_window_straddles_grace_boundary;
     passes reduced_rate_split_window_straddles_grace_boundary;
     passes zero_grace_period_seconds_disables_waiver; passes grace_period_does_not_affect_active_lines;
     passes suspension_ts_recorded_on_suspend; passes grace_period_config_roundtrip;
     panics_with 8 set_grace_period_config_rejects_rate_too_high;
     passes suspension_ts_cleared_on_reinstatement] = true.
Proof. vm_compute. reflexivity. Qed.

(** Tests whose expectation the code does not meet: what they do instead. *)
Lemma accrual_tests_outdated :
  all_hold [panics default_during_grace_ends_grace_period] = true.
Proof. vm_compute. reflexivity. Qed.
End accrual_tests.

(** The rate formula of the risk score. *)
Module risk_formula_tests.
Definition formula_disabled_by_default : T unit :=
  mock_all_auths ;;
  let* admin_ := generate in
  let* contract_id := register_credit in
  call (CInit admin_) ;;
  let* x3 := in_contract Query.get_rate_formula_config in
  assert (negb (bool_decide (is_Some x3))).

Definition set_and_get_rate_formula_config : T unit :=
  mock_all_auths ;;
  let* admin_ := generate in
  let* contract_id := register_credit in
  call (CInit admin_) ;;
  call (CSetRateFormulaConfig 200 50 100 5000) ;;
  let* x3 := in_contract Query.get_rate_formula_config in
  let* cfg := unwrapped x3 in
  assert_eq (base_rate_bps cfg) 200 ;;
  assert_eq (slope_bps_per_score cfg) 50 ;;
  assert_eq (min_rate_bps cfg) 100 ;;
  assert_eq (max_rate_bps cfg) 5000.

Definition clear_rate_formula_config_removes_it : T unit :=
  mock_all_auths ;;
  let* admin_ := generate in
  let* contract_id := register_credit in
  call (CInit admin_) ;;
  call (CSetRateFormulaConfig 200 50 100 5000) ;;
  let* x3 := in_contract Query.get_rate_formula_config in
  assert (bool_decide (is_Some x3)) ;;
  call CClearRateFormulaConfig ;;
  let* x4 := in_contract Query.get_rate_formula_config in
  assert (negb (bool_decide (is_Some x4))).

Definition update_risk_uses_formula_when_enabled : T unit :=
  mock_all_auths ;;
  let* admin_ := generate in
  let* borrower := generate in
  let* contract_id := register_credit in
  call (CInit admin_) ;;
  call (COpenCreditLine borrower 10000 300 50) ;;
  call (CSetRateFormulaConfig 200 50 100 5000) ;;
  call (CUpdateRiskParameters borrower 10000 9999 60) ;;
  let* x4 := in_contract (Query.get_credit_line borrower) in
  let* line := unwrapped x4 in
  assert_eq (cl_interest_rate_bps line) 3200 ;;
  assert_eq (cl_risk_score line) 60.

Definition update_risk_uses_manual_rate_when_disabled : T unit :=
  mock_all_auths ;;
  let* admin_ := generate in
  let* borrower := generate in
  let* contract_id := register_credit in
  call (CInit admin_) ;;
  call (COpenCreditLine borrower 10000 300 50) ;;
  call (CUpdateRiskParameters borrower 10000 750 60) ;;
  let* x4 := in_contract (Query.get_credit_line borrower) in
  let* line := unwrapped x4 in
  assert_eq (cl_interest_rate_bps line) 750.

Definition formula_clamps_to_min_for_low_score : T unit :=
  mock_all_auths ;;
  let* admin_ := generate in
  let* borrower := generate in
  let* contract_id := register_credit in
  call (CInit admin_) ;;
  call (COpenCreditLine borrower 10000 500 0) ;;
  call (CSetRateFormulaConfig 100 10 500 5000) ;;
  call (CUpdateRiskParameters borrower 10000 0 0) ;;
  let* x4 := in_contract (Query.get_credit_line borrower) in
  let* x5 := unwrapped x4 in
  assert_eq (cl_interest_rate_bps x5) 500.

Definition formula_clamps_to_max_for_high_score : T unit :=
  mock_all_auths ;;
  let* admin_ := generate in
  let* borrower := generate in
  let* contract_id := register_credit in
  call (CInit admin_) ;;
  call (COpenCreditLine borrower 10000 300 50) ;;
  call (CSetRateFormulaConfig 200 100 100 5000) ;;
  call (CUpdateRiskParameters borrower 10000 0 100) ;;
  let* x4 := in_contract (Query.get_credit_line borrower) in
  let* x5 := unwrapped x4 in
  assert_eq (cl_interest_rate_bps x5) 5000.

Definition clearing_formula_restores_manual_mode : T unit :=
  mock_all_auths ;;
  let* admin_ := generate in
  let* borrower := generate in
  let* contract_id := register_credit in
  call (CInit admin_) ;;
  call (COpenCreditLine borrower 10000 300 50) ;;
  call (CSetRateFormulaConfig 200 50 100 5000) ;;
  call (CUpdateRiskParameters borrower 10000 9999 60) ;;
  let* x4 := in_contract (Query.get_credit_line borrower) in
  let* x5 := unwrapped x4 in
  assert_eq (cl_interest_rate_bps x5) 3200 ;;
  call CClearRateFormulaConfig ;;
  call (CUpdateRiskParameters borrower 10000 800 60) ;;
  let* x6 := in_contract (Query.get_credit_line borrower) in
  let* x7 := unwrapped x6 in
  assert_eq (cl_interest_rate_bps x7) 800.

Definition set_config_min_greater_than_max_reverts : T unit :=
  mock_all_auths ;;
  let* admin_ := generate in
  let* contract_id := register_credit in
  call (CInit admin_) ;;
  call (CSetRateFormulaConfig 200 50 5000 100).

Definition set_config_max_exceeds_cap_reverts : T unit :=
  mock_all_auths ;;
  let* admin_ := generate in
  let* contract_id := register_credit in
  call (CInit admin_) ;;
  call (CSetRateFormulaConfig 200 50 100 10001).

Definition set_config_base_exceeds_cap_reverts : T unit :=
  mock_all_auths ;;
  let* admin_ := generate in
  let* contract_id := register_credit in
  call (CInit admin_) ;;
  call (CSetRateFormulaConfig 10001 50 100 5000).

Definition set_config_min_exceeds_cap_reverts : T unit :=
  mock_all_auths ;;
  let* admin_ := generate in
  let* contract_id := register_credit in
  call (CInit admin_) ;;
  call (CSetRateFormulaConfig 200 50 12000 15000).

Definition set_config_requires_admin : T unit :=
  let* admin_ := generate in
  let* contract_id := register_credit in
  call (CInit admin_) ;;
  call (CSetRateFormulaConfig 200 50 100 5000).

Definition clear_config_requires_admin : T unit :=
  let* admin_ := generate in
  let* contract_id := register_credit in
  call (CInit admin_) ;;
  call CClearRateFormulaConfig.

Definition formula_with_all_boundary_scores : T unit :=
  mock_all_auths ;;
  let* admin_ := generate in
  let* borrower := generate in
  let* contract_id := register_credit in
  call (CInit admin_) ;;
  call (COpenCreditLine borrower 10000 300 0) ;;
  call (CSetRateFormulaConfig 300 70 200 8000) ;;
  call (CUpdateRiskParameters borrower 10000 0 0) ;;
  let* x4 := in_contract (Query.get_credit_line borrower) in
  let* x5 := unwrapped x4 in
  assert_eq (cl_interest_rate_bps x5) 300 ;;
  call (CUpdateRiskParameters borrower 10000 0 50) ;;
  let* x6 := in_contract (Query.get_credit_line borrower) in
  let* x7 := unwrapped x6 in
  assert_eq (cl_interest_rate_bps x7) 3800 ;;
  call (CUpdateRiskParameters borrower 10000 0 100) ;;
  let* x8 := in_contract (Query.get_credit_line borrower) in
  let* x9 := unwrapped x8 in
  assert_eq (cl_interest_rate_bps x9) 7300.

Definition existing_lines_unaffected_until_update : T unit :=
  mock_all_auths ;;
  let* admin_ := generate in
  let* borrower := generate in
  let* contract_id := register_credit in
  call (CInit admin_) ;;
  call (COpenCreditLine borrower 10000 300 50) ;;
  call (CSetRateFormulaConfig 200 50 100 5000) ;;
  let* x4 := in_contract (Query.get_credit_line borrower) in
  let* line := unwrapped x4 in
  assert_eq (cl_interest_rate_bps line) 300 ;;
  assert_eq (cl_status line) Active.

Definition formula_update_respects_rate_change_limits : T unit :=
  mock_all_auths ;;
  let* admin_ := generate in
  let* borrower := generate in
  let* contract_id := register_credit in
  call (CInit admin_) ;;
  call (COpenCreditLine borrower 10000 300 0) ;;
  call (CSetRateChangeLimits 50 0) ;;
  call (CSetRateFormulaConfig 300 100 100 5000) ;;
  call (CUpdateRiskParameters borrower 10000 0 1).

Definition formula_update_within_rate_change_limits_succeeds : T unit :=
  mock_all_auths ;;
  let* admin_ := generate in
  let* borrower := generate in
  let* contract_id := register_credit in
  call (CInit admin_) ;;
  call (COpenCreditLine borrower 10000 300 0) ;;
  call (CSetRateChangeLimits 150 0) ;;
  call (CSetRateFormulaConfig 300 100 100 5000) ;;
  call (CUpdateRiskParameters borrower 10000 0 1) ;;
  let* x4 := in_contract (Query.get_credit_line borrower) in
  let* x5 := unwrapped x4 in
  assert_eq (cl_interest_rate_bps x5) 400.

Lemma risk_formula_tests_as_expected :
  all_hold [passes formula_disabled_by_default; passes set_and_get_rate_formula_config;
     passes clear_rate_formula_config_removes_it; passes update_risk_uses_formula_when_enabled;
     passes update_risk_uses_manual_rate_when_disabled; passes formula_clamps_to_min_for_low_score;
     passes formula_clamps_to_max_for_high_score; passes clearing_formula_restores_manual_mode;
     panics_with 8 set_config_max_exceeds_cap_reverts;
     panics_with 8 set_config_base_exceeds_cap_reverts;
     panics_with 8 set_config_min_exceeds_cap_reverts; panics set_config_requires_admin;
     panics clear_config_requires_admin; passes formula_with_all_boundary_scores;
     passes existing_lines_unaffected_until_update;
     panics_with 8 formula_update_respects_rate_change_limits;
     passes formula_update_within_rate_change_limits_succeeds] = true.
Proof. vm_compute. reflexivity. Qed.

(** Tests whose expectation the code does not meet: what they do instead. *)
Lemma risk_formula_tests_outdated :
  all_hold [panics_with 5 set_config_min_greater_than_max_reverts] = true.
Proof. vm_compute. reflexivity. Qed.
End risk_formula_tests.
