(* ===== verification/RiskTheorems.v ===== *)
(** * What a risk update guarantees

    The score-to-rate formula, and [update_risk_parameters] as one record of facts
    about the state it starts in and the line it writes. *)
From S2P Require Import Prelude MathUtils Soroban CreditTypes CreditEvents CreditStorage CreditState Accrual Collateral Fees Freeze Oracles Scoring Risk Lifecycle Views CreditContract CreditCalls CreditLedger CreditMoves CreditInvariant Scenario CreditTheorems CreditSafety DrawRepay.

(** ** The formula *)
Lemma clamp_between raw lower upper : lower <= upper -> lower <= clamp raw lower upper <= upper.
Proof. unfold clamp. intros. repeat case_match; bsimp; lia. Qed.

Lemma clamp_mono raw raw' lower upper : raw <= raw' -> lower <= upper -> clamp raw lower upper <= clamp raw' lower upper.
Proof. unfold clamp. intros. repeat case_match; bsimp; lia. Qed.

(** The score formula never leaves the configured band, never exceeds the
    protocol's maximum rate, and charges a worse (higher) score at least as much. *)
Theorem score_rate_bounded cfg score score' :
  0 <= slope_bps_per_score cfg -> score <= score' ->
  Z.min (min_rate_bps cfg) (Z.min (max_rate_bps cfg) MAX_INTEREST_RATE_BPS)
    <= compute_rate_from_score cfg score <= compute_rate_from_score cfg score' /\
  compute_rate_from_score cfg score' <= Z.min (max_rate_bps cfg) MAX_INTEREST_RATE_BPS.
Proof.
  intros Hs Hle. unfold compute_rate_from_score.
  set (upper := Z.min (max_rate_bps cfg) MAX_INTEREST_RATE_BPS). set (lower := Z.min (min_rate_bps cfg) upper).
  assert (lower <= upper) as Hlu by (unfold lower; lia). split; [split|].
  - by apply clamp_between.
  - apply clamp_mono; [|done]. unfold sat_u32, saturate. nia.
  - by apply clamp_between.
Qed.

Section risk.
Context `{H : Host} `{!AuctionClient} `{!Deployer} `{Crypto}.
Abbreviation S' := (State (C := CreditContract)).
Implicit Types (s : S').

(** The keys an update reads; it writes none of them before the line. *)
Definition K_risk (a : area) (k : StorageKey) : bool :=
  match a, k with
  | Inst, KSym (sym_rate_form | sym_rate_cfg) => true
  | Inst, KData (DK.MinCreditLimit | DK.MaxCreditLimit) => true
  | Pers, KData (DK.RateFloorBps _ | DK.RateCeilingBps _ | DK.VrfCommitment _) => true
  | Pers, KLine _ => true
  | _, _ => false
  end.

(** The rate asked for: the formula's when one is configured. *)
Definition asked_rate s (rate score : Z) : Z :=
  match inst s sym_rate_form with Some cfg => compute_rate_from_score cfg score | None => rate end.

(** ... raised to the borrower's floor, then lowered to the ceiling. *)
Definition final_rate s b (rate score : Z) : Z :=
  let floored := match pers s (DK.RateFloorBps b) with
                 | Some f => Z.max (asked_rate s rate score) f | None => asked_rate s rate score end in
  match pers s (DK.RateCeilingBps b) with Some c => Z.min floored c | None => floored end.

(** A rate-change policy stamps a changed rate. *)
Definition restamped s (now rate : Z) (line : CreditLineData) : CreditLineData :=
  match inst s sym_rate_cfg with
  | Some _ => if rate =? cl_interest_rate_bps line then line else set_last_rate_update_ts line now
  | None => line
  end.

Definition updated_line s (now lim rate score : Z) (line : CreditLineData) : CreditLineData :=
  set_limit
    (set_status (set_score (set_rate (restamped s now rate line) rate) score)
       (limit_status (cl_status line) (cl_utilized_amount line) lim)) lim.

Record UpdateAllowed (now : Z) s b (lim rate score : Z) (line : CreditLineData) : Prop := {
  ua_limit : 0 <= lim;
  ua_min : forall m, inst s DK.MinCreditLimit = Some m -> m <= lim;
  ua_max : forall m, inst s DK.MaxCreditLimit = Some m -> lim <= m;
  ua_score : score <= MAX_RISK_SCORE;
  ua_rate : rate <= MAX_INTEREST_RATE_BPS;
  ua_commitment : forall v, pers s (DK.VrfCommitment b) = Some v -> score <> cl_risk_score line ->
    derive_score_from_hash (commitment_hash v) = score;
  ua_step : forall cfg, inst s sym_rate_cfg = Some cfg -> rate <> cl_interest_rate_bps line ->
    Z.abs (rate - cl_interest_rate_bps line) <= max_rate_change_bps cfg;
  ua_pace : forall cfg, inst s sym_rate_cfg = Some cfg -> rate <> cl_interest_rate_bps line ->
    0 < rate_change_min_interval cfg -> 0 < cl_last_rate_update_ts line ->
    rate_change_min_interval cfg <= sat_u64 (now - cl_last_rate_update_ts line);
}.

#[export] Instance reads_floor b : Reads (get_borrower_rate_floor b) (fun _ s => pers s (DK.RateFloorBps b)).
Proof. apply (reads_pget_bump (DK.RateFloorBps b)). Qed.

#[export] Instance reads_ceiling b : Reads (get_borrower_rate_ceiling b) (fun _ s => pers s (DK.RateCeilingBps b)).
Proof. apply (reads_pget_bump (DK.RateCeilingBps b)). Qed.

#[export] Instance reads_bounded_rate b rate score :
  Reads (bounded_rate b rate score) (fun _ s => final_rate s b rate score).
Proof.
  unfold bounded_rate, get_rate_formula_config. intros c s a s' Hr. minv Hr. done.
Qed.

Lemma restamped_ok line rate c s line' s' :
  rate_change_guard line rate c s = Ok line' s' ->
  s' = s /\ line' = restamped s (ledger_timestamp c) rate line /\
  forall cfg, inst s sym_rate_cfg = Some cfg -> rate <> cl_interest_rate_bps line ->
    Z.abs (rate - cl_interest_rate_bps line) <= max_rate_change_bps cfg /\
    (0 < rate_change_min_interval cfg -> 0 < cl_last_rate_update_ts line ->
     rate_change_min_interval cfg <= sat_u64 (ledger_timestamp c - cl_last_rate_update_ts line)).
Proof.
  unfold rate_change_guard, get_rate_change_limits, restamped, inst. intros Hr. mstep Hr. subst.
  destruct (instance_store s sym_rate_cfg) as [cfg|]; [|by minv Hr].
  destruct (rate =? cl_interest_rate_bps line) eqn:E; cbn [negb] in Hr; bsimp; [minv Hr; by repeat split|].
  apply mbind_ok in Hr as ([] & s1 & H1' & Hr). apply panic_if_ok in H1' as [Hmax ->]. mstep Hr. subst.
  apply mbind_ok in Hr as ([] & s1 & H1' & Hr). apply panic_if_ok in H1' as [Hpace ->]. minv Hr.
  do 2 (split; [done|]). intros cfg' [= <-] _. bsimp. split; [lia|]. intros Hi Hl.
  rewrite (proj2 (Z.ltb_lt _ _) Hi), (proj2 (Z.ltb_lt _ _) Hl) in Hpace. cbn in Hpace. by apply Z.ltb_ge.
Qed.

Lemma commitment_ok b old score c s u s' :
  check_score_commitment b old score c s = Ok u s' ->
  s' = s /\ forall v, pers s (DK.VrfCommitment b) = Some v -> score <> old ->
    derive_score_from_hash (commitment_hash v) = score.
Proof.
  unfold check_score_commitment, get_vrf_commitment, verify_vrf_commitment, bump_vrf_commitment_ttl,
    bump_persistent_ttl.
  generalize derive_score_from_hash as score_of. intros score_of Hr. destruct (score =? old) eqn:E; cbn [negb] in Hr; bsimp; [by minv Hr|].
  unfold pers. minv Hr; bsimp; (split; [done|]); intros v Hv _; first [congruence|by rewrite Hv in *].
Qed.

Lemma limit_bounds_ok lim c s u s' :
  validate_credit_limit_bounds lim c s = Ok u s' ->
  s' = s /\ (forall m, inst s DK.MinCreditLimit = Some m -> m <= lim) /\
  (forall m, inst s DK.MaxCreditLimit = Some m -> lim <= m).
Proof.
  unfold validate_credit_limit_bounds, get_min_credit_limit, get_max_credit_limit, inst. intros Hr. minv Hr.
  split; [done|]. split; intros m Hm;
    match goal with E : match ?o with _ => _ end = false |- _ => rewrite Hm in E; by apply Z.ltb_ge in E end.
Qed.

(** What an update reads, across steps that keep the keys it reads. *)
Lemma risk_view_frame b s s' : frame K_risk s s' ->
  (forall rate score, final_rate s' b rate score = final_rate s b rate score) /\
  inst s' DK.MinCreditLimit = inst s DK.MinCreditLimit /\
  inst s' DK.MaxCreditLimit = inst s DK.MaxCreditLimit /\
  pers s' (DK.VrfCommitment b) = pers s (DK.VrfCommitment b) /\
  inst s' sym_rate_cfg = inst s sym_rate_cfg /\ line_of s' b = line_of s b.
Proof.
  intros Hf. unfold final_rate, asked_rate, line_of.
  rewrite !(frame_pers K_risk _ _ _ Hf), !(frame_inst K_risk _ _ _ Hf) by done. done.
Qed.

(** C15. An accepted risk update stays inside every configured bound: the limit
    within the protocol's minimum and maximum, the score and the final rate below
    their ceilings, the rate no further from the current one and no sooner than the
    rate policy allows, and a changed score the one the VRF commitment fixed.  The
    accrued line is written with exactly the new limit, score, rate and status. *)
Theorem risk_update_sound b lim rate score c s u s' :
  run (CUpdateRiskParameters b lim rate score) c s = Ok u s' ->
  exists old line, line_of s b = Some old /\ accrued (ledger_timestamp c) old line /\
    UpdateAllowed (ledger_timestamp c) s b lim (final_rate s b rate score) score line /\
    line_of s' b = Some (updated_line s (ledger_timestamp c) lim (final_rate s b rate score) score line).
Proof.
  cbn [run]. unfold Credit.update_risk_parameters, Risk.update_risk_parameters. intros Hr.
  apply mbind_ok in Hr as (x & s1 & H1' & Hr). apply mbind_ok in Hr as ([] & s2 & H2' & Hr).
  apply mbind_ok in Hr as ([] & s3 & H3' & Hr). apply mbind_ok in Hr as ([] & s4 & H4' & Hr).
  assert (frame K_risk s s4) as Hf by
    (etrans; [eapply frame_steps; [exact H1'|kframe]|]; etrans; [eapply frame_steps; [exact H2'|kframe]|];
     etrans; [eapply frame_steps; [exact H3'|kframe]|]; eapply frame_steps; [exact H4'|kframe]).
  clear H1' H2' H3' H4'. mstep Hr. subst. mstep Hr.
  apply mbind_ok in Hr as (line & s5 & Hacc & Hr). apply apply_accrual_ok in Hacc as [Hacc Hf5].
  specialize (Hf5 K_risk). assert (frame K_risk s s5) as Hf2 by (by etrans). clear Hf5.
  apply mbind_ok in Hr as ([] & s6 & Hl & Hr). apply panic_if_ok in Hl as [Hl ->].
  apply mbind_ok in Hr as ([] & s6 & Hsc & Hr). apply panic_if_ok in Hsc as [Hsc ->].
  apply mbind_ok in Hr as ([] & s6 & Hv & Hr). apply commitment_ok in Hv as [-> Hv].
  apply mbind_ok in Hr as ([] & s6 & Hb & Hr). apply limit_bounds_ok in Hb as (-> & Hmin & Hmax).
  mstep Hr. subst. apply mbind_ok in Hr as (line' & s6 & Hg & Hr). apply restamped_ok in Hg as (-> & -> & Hg).
  apply mbind_ok in Hr as ([] & s6 & Hmaxr & Hr). apply panic_if_ok in Hmaxr as [Hmaxr ->].
  apply mbind_ok in Hr as ([] & s6 & Hw & Hr). apply persist_writes in Hw.
  assert (line_of s' b = line_of s6 b) as Hl'.
  { eapply (frame_line_of (K_own b)); [eapply frame_steps; [exact Hr|kframe]|]. cbn. by rewrite bool_decide_eq_true_2. }
  destruct (risk_view_frame b _ _ Hf2) as (V1 & V2 & V3 & V4 & V5 & V6).
  rewrite V1 in *. rewrite V2, V3, V4, V5 in *. bsimp.
  match goal with E : line_of s4 b = Some ?o |- _ => exists o, line;
    split; [by rewrite <- E; symmetry; apply (frame_line_of K_risk)|] end.
  split; [done|]. split; [|rewrite Hl', Hw; unfold updated_line, restamped; rewrite V5; by repeat case_match].
  split; try done; try lia; intros; by eapply Hg.
Qed.
End risk.

(** ** Witnesses *)
Import Concrete.

(** Scores 20 and 90 under a formula capped at 3000. *)
Lemma score_rate_bounded_witness :
  let cfg := mkFormula 500 50 600 3000 in
  600 <= compute_rate_from_score cfg 20 <= compute_rate_from_score cfg 90 /\
  compute_rate_from_score cfg 90 <= 3000.
Proof. apply (score_rate_bounded (mkFormula 500 50 600 3000) 20 90); vm_compute; discriminate. Defined.

(** A limit lowered below the debt restricts the line. *)
Definition restricted : St := step admin (CUpdateRiskParameters alice 40000 1200 60) 300 drawn.

(** C15 on that update. *)
Lemma risk_update_sound_witness :
  status_of restricted alice = Some Restricted /\
  exists old line, line_of (signed_by [admin] drawn) alice = Some old /\ accrued 300 old line /\
    UpdateAllowed 300 (signed_by [admin] drawn) alice 40000
      (final_rate (signed_by [admin] drawn) alice 1200 60) 60 line /\
    line_of restricted alice =
      Some (updated_line (signed_by [admin] drawn) 300 40000
              (final_rate (signed_by [admin] drawn) alice 1200 60) 60 line).
Proof.
  split; [vm_compute; reflexivity|].
  apply (risk_update_sound alice 40000 1200 60 (at_time 300) (signed_by [admin] drawn) tt restricted).
  apply run_after. vm_compute. reflexivity.
Defined.
