(* ===== verification/Milestones.v ===== *)
(** * The milestones contract ([soroban/contracts/milestones/src/lib.rs])

    A creator submits evidence for milestones, the platform approves or rejects
    them, and an approval releases the milestone's share of the campaign through
    the escrow contract.  The escrow is reached through [EscrowClient]. *)
From S2P Require Import Prelude Soroban CreditTypes.

Inductive MilestoneStatus := Pending | Submitted | Approved | Rejected.

#[export] Instance MilestoneStatus_eq_dec : EqDecision MilestoneStatus.
Proof. solve_decision. Defined.

Record Milestone := mkMilestone {
  title_hash : BytesN32;
  release_bps : Z;
  ms_status : MilestoneStatus;
  evidence_hash : option BytesN32;
}.

Inductive MilestonesKey := MkCreator | MkPlatform | MkEscrow | MkMilestones | MkInitialized.

#[export] Instance MilestonesKey_eq_dec : EqDecision MilestonesKey.
Proof. solve_decision. Defined.

Inductive MilestonesValType := MvBool | MvAddr | MvList.

#[export] Instance MilestonesValType_eq_dec : EqDecision MilestonesValType.
Proof. solve_decision. Defined.

Definition milestones_interp (t : MilestonesValType) : Type :=
  match t with MvBool => bool | MvAddr => Address | MvList => list Milestone end.

Definition MilestonesKey_type (k : MilestonesKey) : MilestonesValType :=
  match k with
  | MkCreator | MkPlatform | MkEscrow => MvAddr
  | MkMilestones => MvList
  | MkInitialized => MvBool
  end.

Inductive MilestonesEvent :=
| EvSubmit (index : Z) (evidence_hash : BytesN32)
| EvRelease (index : Z) (creator : Address) (release_amount : Z)
| EvApprove (index : Z)
| EvReject (index : Z) (reason_hash : BytesN32).

#[export] Instance MilestonesContract : Contract := {|
  skey := MilestonesKey;
  skey_eq_dec := MilestonesKey_eq_dec;
  sty := MilestonesValType;
  sty_eq_dec := MilestonesValType_eq_dec;
  sinterp := milestones_interp;
  kty := MilestonesKey_type;
  cevent := MilestonesEvent;
  cerror := Empty_set;
|}.

Abbreviation MM := (Soroban.M (C := MilestonesContract)).

(** The three calls of [invoke_contract]: escrow address, calling contract, arguments. *)
Class EscrowClient `{Host} := {
  invoke_get_total_raised : Address -> Address -> host -> option (Z * host);
  invoke_approve_withdrawal : Address -> Address -> Z -> host -> option (unit * host);
  invoke_execute_withdrawal : Address -> Address -> Address -> Z -> host -> option (unit * host);
}.

Module Milestones.
Section entrypoints.
Context `{H : Host} `{!EscrowClient}.
Abbreviation iget k := (Soroban.iget (C := MilestonesContract) k).
Abbreviation iset k v := (Soroban.iset (C := MilestonesContract) k v).
Abbreviation publish := (Soroban.publish (C := MilestonesContract)).

Definition bump_instance : MM unit := iextend_ttl.

(** [total_bps += m.release_bps] over the list, in [u32]. *)
Definition total_bps (milestones : list Milestone) : option Z :=
  foldl (fun acc m => let? t := acc in checked_u32 (t + release_bps m)) (Some 0) milestones.

Definition initialize (creator platform escrow : Address) (milestones : list Milestone) : MM unit :=
  let* initialized := Soroban.ihas (C := MilestonesContract) MkInitialized in
  panic_when initialized "Already initialized" ;;
  let* total := arith (total_bps milestones) in
  panic_when (negb (total =? 10000)) "Total BPS must be 10000" ;;
  iset MkCreator creator ;;
  iset MkPlatform platform ;;
  iset MkEscrow escrow ;;
  iset MkMilestones milestones ;;
  iset MkInitialized true ;;
  bump_instance.

(** [get(key).expect("Not initialized")] followed by [require_auth]. *)
Definition require_party (party : MM (option Address)) : MM Address :=
  let* o := party in
  let* who := unwrap o "Not initialized" in
  require_auth who ;;
  ret who.

(** The stored list and its entry at [index]. *)
Definition get_entry (index : Z) : MM (list Milestone * Milestone) :=
  let* o := iget MkMilestones in
  let* milestones := unwrap o "Not initialized" in
  let* milestone := unwrap (milestones !! Z.to_nat index) "Invalid index" in
  ret (milestones, milestone).

Definition submit_milestone (index : Z) (evidence : BytesN32) : MM unit :=
  require_party (iget MkCreator) ;;
  bump_instance ;;
  let* (milestones, milestone) := get_entry index in
  panic_when (negb (bool_decide (ms_status milestone = Pending)) &&
              negb (bool_decide (ms_status milestone = Rejected)))
             "Milestone already submitted or approved" ;;
  let milestone := mkMilestone (title_hash milestone) (release_bps milestone) Submitted (Some evidence) in
  iset MkMilestones (<[Z.to_nat index := milestone]> milestones) ;;
  publish (EvSubmit index evidence).

(** [(total_raised * release_bps) / 10000], truncating. *)
Definition release_amount_of (total_raised bps : Z) : option Z :=
  let? product := checked_i128 (total_raised * bps) in Some (Z.quot product 10000).

(** Approve and execute the withdrawal in the escrow. *)
Definition release (index : Z) (escrow_address creator : Address) (release_amount : Z) : MM unit :=
  host_call CallFailed (fun c h =>
    invoke_approve_withdrawal escrow_address (current_contract c) release_amount h) ;;
  host_call CallFailed (fun c h =>
    invoke_execute_withdrawal escrow_address (current_contract c) creator release_amount h) ;;
  publish (EvRelease index creator release_amount).

Definition approve_milestone (index : Z) : MM unit :=
  require_party (iget MkPlatform) ;;
  bump_instance ;;
  let* (milestones, milestone) := get_entry index in
  panic_when (negb (bool_decide (ms_status milestone = Submitted))) "Milestone not submitted" ;;
  let milestone := mkMilestone (title_hash milestone) (release_bps milestone) Approved (evidence_hash milestone) in
  iset MkMilestones (<[Z.to_nat index := milestone]> milestones) ;;
  let* o := iget MkEscrow in
  let* escrow_address := unwrap o "Not initialized" in
  let* o := iget MkCreator in
  let* creator := unwrap o "Not initialized" in
  let* total_raised := host_call CallFailed (fun c h =>
    invoke_get_total_raised escrow_address (current_contract c) h) in
  let* release_amount := arith (release_amount_of total_raised (release_bps milestone)) in
  (if 0 <? release_amount then release index escrow_address creator release_amount else ret tt) ;;
  publish (EvApprove index).

Definition reject_milestone (index : Z) (reason_hash : BytesN32) : MM unit :=
  require_party (iget MkPlatform) ;;
  bump_instance ;;
  let* (milestones, milestone) := get_entry index in
  panic_when (negb (bool_decide (ms_status milestone = Submitted))) "Milestone not submitted" ;;
  let milestone := mkMilestone (title_hash milestone) (release_bps milestone) Rejected (evidence_hash milestone) in
  iset MkMilestones (<[Z.to_nat index := milestone]> milestones) ;;
  publish (EvReject index reason_hash).

Definition get_milestone (index : Z) : MM Milestone :=
  let* (_, milestone) := get_entry index in ret milestone.

Definition get_all_milestones : MM (list Milestone) :=
  let* o := iget MkMilestones in unwrap o "Not initialized".
End entrypoints.
End Milestones.

(** ** The entrypoints that change state, as data *)
Inductive MCall :=
| MInitialize (creator platform escrow : Address) (milestones : list Milestone)
| MSubmit (index : Z) (evidence : BytesN32)
| MApprove (index : Z)
| MReject (index : Z) (reason_hash : BytesN32).

Definition run_milestones `{H : Host} `{!EscrowClient} (call : MCall) : MM unit :=
  match call with
  | MInitialize creator platform escrow milestones =>
      Milestones.initialize creator platform escrow milestones
  | MSubmit index evidence => Milestones.submit_milestone index evidence
  | MApprove index => Milestones.approve_milestone index
  | MReject index reason => Milestones.reject_milestone index reason
  end.
