(* ===== verification/Crowdpay.v ===== *)
(** * The crowdfunding contract ([soroban/contracts/crowdpay/src/lib.rs])

    Contributions to a goal until a deadline, milestone releases to the creator,
    and refunds once the campaign is marked as failed; every entrypoint. *)
From S2P Require Import Prelude Soroban.

Record CrowdMilestone := mkCrowdMilestone { cm_target : Z; cm_released : bool }.

(** The three symbols the status entry holds. *)
Inductive CampaignStatus := CsActive | CsFunded | CsFailed.

#[export] Instance CampaignStatus_eq_dec : EqDecision CampaignStatus.
Proof. solve_decision. Defined.

Inductive CrowdKey :=
| CkCampaignId | CkGoal | CkDeadline | CkCreator | CkToken | CkTotalRaised
| CkContributions (a : Address) | CkMilestones | CkStatus.

#[export] Instance CrowdKey_eq_dec : EqDecision CrowdKey.
Proof. solve_decision. Defined.

Inductive CrowdValType := CvZ | CvSymbol | CvAddr | CvStatus | CvList.

#[export] Instance CrowdValType_eq_dec : EqDecision CrowdValType.
Proof. solve_decision. Defined.

Definition crowd_interp (t : CrowdValType) : Type :=
  match t with
  | CvZ => Z | CvSymbol => Symbol | CvAddr => Address | CvStatus => CampaignStatus
  | CvList => list CrowdMilestone
  end.

Definition CrowdKey_type (k : CrowdKey) : CrowdValType :=
  match k with
  | CkCampaignId => CvSymbol
  | CkCreator | CkToken => CvAddr
  | CkStatus => CvStatus
  | CkMilestones => CvList
  | _ => CvZ
  end.

(** The contract publishes no event and fails by [panic!] only. *)
#[export] Instance CrowdPayContract : Contract := {|
  skey := CrowdKey;
  skey_eq_dec := CrowdKey_eq_dec;
  sty := CrowdValType;
  sty_eq_dec := CrowdValType_eq_dec;
  sinterp := crowd_interp;
  kty := CrowdKey_type;
  cevent := Empty_set;
  cerror := Empty_set;
|}.

Abbreviation PM := (Soroban.M (C := CrowdPayContract)).

Module Crowdpay.
Section entrypoints.
Context `{H : Host}.
Abbreviation iget k := (Soroban.iget (C := CrowdPayContract) k).
Abbreviation iset k v := (Soroban.iset (C := CrowdPayContract) k v).
Abbreviation pget k := (Soroban.pget (C := CrowdPayContract) k).
Abbreviation pset k v := (Soroban.pset (C := CrowdPayContract) k v).

Definition bump_instance : PM unit := iextend_ttl.

Definition bump_persistent (k : CrowdKey) : PM unit := Soroban.pextend_ttl (C := CrowdPayContract) k.

Definition initialize (campaign_id : Symbol) (creator token : Address) (goal deadline : Z)
    (milestones : list CrowdMilestone) : PM unit :=
  let* initialized := Soroban.ihas (C := CrowdPayContract) CkCampaignId in
  panic_when initialized "Already initialized" ;;
  iset CkCampaignId campaign_id ;;
  iset CkCreator creator ;;
  iset CkToken token ;;
  iset CkGoal goal ;;
  iset CkDeadline deadline ;;
  iset CkMilestones milestones ;;
  iset CkTotalRaised 0 ;;
  iset CkStatus CsActive ;;
  bump_instance.

Definition contribute (contributor : Address) (amount : Z) : PM unit :=
  require_auth contributor ;;
  bump_instance ;;
  let* o := iget CkStatus in
  let* status := unwrap o "unwrap" in
  panic_when (negb (bool_decide (status = CsActive)) && negb (bool_decide (status = CsFunded)))
    "Campaign is not accepting contributions" ;;
  let* o := iget CkDeadline in
  let* deadline := unwrap o "unwrap" in
  let* now := timestamp in
  panic_when (deadline <=? now) "Deadline passed" ;;
  let* o := iget CkToken in
  let* token_addr := unwrap o "unwrap" in
  let* self := current_contract_address in
  transfer token_addr contributor self amount ;;
  let* o := pget (CkContributions contributor) in
  let current_balance := unwrap_or o 0 in
  let* new_balance := arith (checked_i128 (current_balance + amount)) in
  pset (CkContributions contributor) new_balance ;;
  bump_persistent (CkContributions contributor) ;;
  let* o := iget CkTotalRaised in
  let total_raised := unwrap_or o 0 in
  let* new_total := arith (checked_i128 (total_raised + amount)) in
  iset CkTotalRaised new_total ;;
  let* o := iget CkGoal in
  let* goal := unwrap o "unwrap" in
  if (goal <=? new_total) && bool_decide (status = CsActive) then iset CkStatus CsFunded else ret tt.

Definition release_milestone (milestone_index : Z) : PM unit :=
  let* o := iget CkCreator in
  let* creator := unwrap o "unwrap" in
  require_auth creator ;;
  bump_instance ;;
  let* o := iget CkMilestones in
  let* milestones := unwrap o "unwrap" in
  let* milestone := unwrap (milestones !! Z.to_nat milestone_index) "Invalid milestone index" in
  panic_when (cm_released milestone) "Milestone already released" ;;
  let* o := iget CkTotalRaised in
  let total_raised := unwrap_or o 0 in
  panic_when (total_raised <? cm_target milestone) "Milestone target not met" ;;
  let milestone := mkCrowdMilestone (cm_target milestone) true in
  iset CkMilestones (<[Z.to_nat milestone_index := milestone]> milestones) ;;
  let* o := iget CkToken in
  let* token_addr := unwrap o "unwrap" in
  let* self := current_contract_address in
  let* bal := balance token_addr self in
  if 0 <? bal then transfer token_addr self creator bal else ret tt.

Definition refund (contributor : Address) : PM unit :=
  require_auth contributor ;;
  bump_instance ;;
  let* o := iget CkStatus in
  let* status := unwrap o "unwrap" in
  panic_when (negb (bool_decide (status = CsFailed))) "Campaign has not failed" ;;
  bump_persistent (CkContributions contributor) ;;
  let* o := pget (CkContributions contributor) in
  let amount := unwrap_or o 0 in
  panic_when (amount <=? 0) "No contribution to refund" ;;
  let* o := iget CkToken in
  let* token_addr := unwrap o "unwrap" in
  let* self := current_contract_address in
  transfer token_addr self contributor amount ;;
  pset (CkContributions contributor) 0.

Definition set_failed : PM unit :=
  bump_instance ;;
  let* o := iget CkDeadline in
  let* deadline := unwrap o "unwrap" in
  let* o := iget CkTotalRaised in
  let total_raised := unwrap_or o 0 in
  let* o := iget CkGoal in
  let* goal := unwrap o "unwrap" in
  let* now := timestamp in
  if (deadline <=? now) && (total_raised <? goal) then iset CkStatus CsFailed
  else
    let* o := iget CkCreator in
    let* creator := unwrap o "unwrap" in
    require_auth creator ;;
    iset CkStatus CsFailed.

Definition get_status : PM CampaignStatus := let* o := iget CkStatus in ret (unwrap_or o CsActive).

Definition get_total_raised : PM Z := let* o := iget CkTotalRaised in ret (unwrap_or o 0).
End entrypoints.
End Crowdpay.

(** ** The entrypoints that change state, as data *)
Inductive PCall :=
| PInitialize (campaign_id : Symbol) (creator token : Address) (goal deadline : Z)
    (milestones : list CrowdMilestone)
| PContribute (contributor : Address) (amount : Z)
| PRelease (milestone_index : Z)
| PRefund (contributor : Address)
| PSetFailed.

Definition run_crowdpay `{Host} (call : PCall) : PM unit :=
  match call with
  | PInitialize cid creator token goal deadline ms =>
      Crowdpay.initialize cid creator token goal deadline ms
  | PContribute a amount => Crowdpay.contribute a amount
  | PRelease i => Crowdpay.release_milestone i
  | PRefund a => Crowdpay.refund a
  | PSetFailed => Crowdpay.set_failed
  end.
