(* ===== verification/Vault.v ===== *)
(** * The collateral vault contract ([contracts/collateral/src])

    A per-user collateral balance, versioned, with legacy entries migrated on first
    access.  The contract keeps balances only: it moves no token. *)
From S2P Require Import Prelude Soroban.

(** ** [errors.rs] *)
Inductive CollateralError :=
| CeInvalidAmount | CeOverflow | CeMissingLiquidityToken | CeCollateralRatioBelowMinimum
| CeInsufficientCollateralBalance | CeCollateralTokenNotAllowed | CeCollateralRiskWeightOutOfRange
| CeCollateralTokenMismatch | CeCollateralPositionLocked | CeCollateralBalanceForTokenNotFound
| CeAuctionBidTooLate.

#[export] Instance CollateralError_eq_dec : EqDecision CollateralError.
Proof. solve_decision. Defined.

Definition collateral_error_code (e : CollateralError) : Z :=
  match e with
  | CeInvalidAmount => 5 | CeOverflow => 12 | CeMissingLiquidityToken => 22
  | CeCollateralRatioBelowMinimum => 35 | CeInsufficientCollateralBalance => 39
  | CeCollateralTokenNotAllowed => 100 | CeCollateralRiskWeightOutOfRange => 101
  | CeCollateralTokenMismatch => 102 | CeCollateralPositionLocked => 103
  | CeCollateralBalanceForTokenNotFound => 104 | CeAuctionBidTooLate => 105
  end.

(** ** [views.rs]: the capability bitmap *)
Definition CAPABILITY_DEPOSIT : Z := Z.shiftl 1 0.
Definition CAPABILITY_WITHDRAW : Z := Z.shiftl 1 1.
Definition CAPABILITY_PARTIAL_RELEASE : Z := Z.shiftl 1 2.
Definition CAPABILITY_MULTI_TOKEN : Z := Z.shiftl 1 3.
Definition CAPABILITY_RISK_WEIGHTING : Z := Z.shiftl 1 4.
Definition CAPABILITY_ADMIN_COOLDOWN : Z := Z.shiftl 1 5.
Definition CAPABILITY_RATIO_FLOOR : Z := Z.shiftl 1 6.

Definition ALL_COLLATERAL_CAPABILITIES : Z :=
  Z.lor CAPABILITY_DEPOSIT (Z.lor CAPABILITY_WITHDRAW (Z.lor CAPABILITY_PARTIAL_RELEASE
    (Z.lor CAPABILITY_MULTI_TOKEN (Z.lor CAPABILITY_RISK_WEIGHTING
      (Z.lor CAPABILITY_ADMIN_COOLDOWN CAPABILITY_RATIO_FLOOR))))).

Definition vault_capabilities : Z := ALL_COLLATERAL_CAPABILITIES.

(** ** [lib.rs] *)
Definition STATE_VERSION : Z := 1.

Record VersionedBalance := mkVersioned { vb_version : Z; vb_amount : Z }.

Inductive VaultKey := VkBalance (user : Address) | VkVersionedBalance (user : Address).

#[export] Instance VaultKey_eq_dec : EqDecision VaultKey.
Proof. solve_decision. Defined.

Inductive VaultValType := VvZ | VvVersioned.

#[export] Instance VaultValType_eq_dec : EqDecision VaultValType.
Proof. solve_decision. Defined.

Definition vault_interp (t : VaultValType) : Type :=
  match t with VvZ => Z | VvVersioned => VersionedBalance end.

Definition VaultKey_type (k : VaultKey) : VaultValType :=
  match k with VkBalance _ => VvZ | VkVersionedBalance _ => VvVersioned end.

#[export] Instance VaultContract : Contract := {|
  skey := VaultKey;
  skey_eq_dec := VaultKey_eq_dec;
  sty := VaultValType;
  sty_eq_dec := VaultValType_eq_dec;
  sinterp := vault_interp;
  kty := VaultKey_type;
  cevent := Empty_set;
  cerror := CollateralError;
|}.

Abbreviation VM := (Soroban.M (C := VaultContract)).

Module Vault.
Section entrypoints.
Context `{H : Host}.
Abbreviation pget k := (Soroban.pget (C := VaultContract) k).
Abbreviation pset k v := (Soroban.pset (C := VaultContract) k v).
Abbreviation premove k := (Soroban.premove (C := VaultContract) k).

Definition load_balance (user : Address) : VM Z :=
  let* o := pget (VkVersionedBalance user) in
  match o with
  | Some entry => ret (vb_amount entry)
  | None =>
      let* l := pget (VkBalance user) in
      match l with
      | Some legacy =>
          pset (VkVersionedBalance user) (mkVersioned STATE_VERSION legacy) ;;
          premove (VkBalance user) ;;
          ret legacy
      | None => ret 0
      end
  end.

Definition store_balance (user : Address) (amount : Z) : VM unit :=
  pset (VkVersionedBalance user) (mkVersioned STATE_VERSION amount).

(** An [Err] result fails the invocation with its code, like a panic with it. *)
Definition deposit (user : Address) (amount : Z) : VM unit :=
  require_auth user ;;
  panic_if (amount <=? 0) CeInvalidAmount ;;
  let* current_balance := load_balance user in
  let* new_balance := or_panic (checked_i128 (current_balance + amount)) CeOverflow in
  store_balance user new_balance.

Definition withdraw (user : Address) (amount : Z) : VM unit :=
  require_auth user ;;
  panic_if (amount <=? 0) CeInvalidAmount ;;
  let* current_balance := load_balance user in
  let* new_balance :=
    or_panic (checked_i128 (current_balance - amount)) CeInsufficientCollateralBalance in
  store_balance user new_balance.
End entrypoints.
End Vault.

Inductive VCall := VDeposit (user : Address) (amount : Z) | VWithdraw (user : Address) (amount : Z).

Definition run_vault `{Host} (call : VCall) : VM unit :=
  match call with
  | VDeposit user amount => Vault.deposit user amount
  | VWithdraw user amount => Vault.withdraw user amount
  end.
