(* ===== verification/RiskAdmin.v ===== *)
(** * The risk admin contract ([contracts/risk/src]) and the borrow admin cool-off
    ([contracts/borrow/src/admin.rs])

    A stored admin, a pause flag and a cool-off between recorded risk actions; and
    the instance-storage cool-off helpers of the borrow crate. *)
From S2P Require Import Prelude Soroban.

(** ** Errors and categories *)
Inductive RiskError := ReUnauthorized | ReNotAdmin | RePaused | ReRiskAdminCooldownActive.

#[export] Instance RiskError_eq_dec : EqDecision RiskError.
Proof. solve_decision. Defined.

Definition risk_error_code (e : RiskError) : Z :=
  match e with ReUnauthorized => 1 | ReNotAdmin => 2 | RePaused => 3 | ReRiskAdminCooldownActive => 54 end.

Inductive RiskErrorCategory := RcAuth | RcRisk.

Definition risk_category (e : RiskError) : RiskErrorCategory :=
  match e with ReUnauthorized | ReNotAdmin => RcAuth | RePaused | ReRiskAdminCooldownActive => RcRisk end.

(** ** Storage and events *)
Inductive RiskKey := RkAdmin | RkPaused | RkCool | RkLast.

#[export] Instance RiskKey_eq_dec : EqDecision RiskKey.
Proof. solve_decision. Defined.

Inductive RiskValType := RvZ | RvBool | RvAddr.

#[export] Instance RiskValType_eq_dec : EqDecision RiskValType.
Proof. solve_decision. Defined.

Definition risk_interp (t : RiskValType) : Type :=
  match t with RvZ => Z | RvBool => bool | RvAddr => Address end.

Definition RiskKey_type (k : RiskKey) : RiskValType :=
  match k with RkAdmin => RvAddr | RkPaused => RvBool | RkCool | RkLast => RvZ end.

Inductive RiskEvent :=
| RiskAdminCooldownConfiguredEvent (cooldown_seconds : Z)
| RiskAdminActionRecordedEvent (timestamp : Z)
| RiskInitializedEvent (admin : Address)
| RiskPausedEvent (paused : bool).

#[export] Instance RiskContract : Contract := {|
  skey := RiskKey;
  skey_eq_dec := RiskKey_eq_dec;
  sty := RiskValType;
  sty_eq_dec := RiskValType_eq_dec;
  sinterp := risk_interp;
  kty := RiskKey_type;
  cevent := RiskEvent;
  cerror := RiskError;
|}.

Abbreviation RM := (Soroban.M (C := RiskContract)).

Module RiskAdmin.
Section entrypoints.
Context `{H : Host}.
Abbreviation iget k := (Soroban.iget (C := RiskContract) k).
Abbreviation iset k v := (Soroban.iset (C := RiskContract) k v).
Abbreviation publish := (Soroban.publish (C := RiskContract)).

Definition publish_risk_admin_cooldown_configured (cooldown_seconds : Z) : RM unit :=
  publish (RiskAdminCooldownConfiguredEvent cooldown_seconds).

Definition publish_risk_admin_action_recorded (ts : Z) : RM unit :=
  publish (RiskAdminActionRecordedEvent ts).

Definition publish_risk_initialized (admin : Address) : RM unit := publish (RiskInitializedEvent admin).

Definition publish_risk_paused (paused : bool) : RM unit := publish (RiskPausedEvent paused).

(** *** [admin.rs] *)
Definition bump_instance_ttl : RM unit := iextend_ttl.

Definition get_risk_admin_cooldown_seconds : RM Z :=
  bump_instance_ttl ;; let* o := iget RkCool in ret (unwrap_or o 0).

Definition set_risk_admin_cooldown_seconds (seconds : Z) : RM unit :=
  bump_instance_ttl ;; iset RkCool seconds.

Definition get_last_risk_admin_action_ts : RM Z :=
  bump_instance_ttl ;; let* o := iget RkLast in ret (unwrap_or o 0).

Definition set_last_risk_admin_action_ts (ts : Z) : RM unit := bump_instance_ttl ;; iset RkLast ts.

Definition assert_risk_admin_cooldown_elapsed : RM unit :=
  let* cooldown := get_risk_admin_cooldown_seconds in
  if cooldown =? 0 then ret tt else
  let* last_ts := get_last_risk_admin_action_ts in
  if last_ts =? 0 then ret tt else
  let* now := timestamp in
  panic_if (now <? sat_u64 (last_ts + cooldown)) ReRiskAdminCooldownActive.

(** *** [lib.rs] *)
Definition require_admin_auth : RM unit :=
  let* o := iget RkAdmin in
  let* admin := or_panic o ReNotAdmin in
  require_auth admin.

Definition assert_not_paused : RM unit :=
  let* o := iget RkPaused in panic_if (unwrap_or o false) RePaused.

Definition init (admin : Address) : RM unit :=
  require_auth admin ;;
  bump_instance_ttl ;;
  iset RkAdmin admin ;;
  publish_risk_initialized admin.

Definition set_risk_admin_cooldown (seconds : Z) : RM unit :=
  assert_not_paused ;;
  require_admin_auth ;;
  set_risk_admin_cooldown_seconds seconds ;;
  publish_risk_admin_cooldown_configured seconds.

Definition set_paused (paused : bool) : RM unit :=
  require_admin_auth ;;
  bump_instance_ttl ;;
  iset RkPaused paused ;;
  publish_risk_paused paused.

Definition get_risk_admin_cooldown : RM Z := get_risk_admin_cooldown_seconds.

Definition record_risk_admin_action : RM unit :=
  assert_not_paused ;;
  require_admin_auth ;;
  assert_risk_admin_cooldown_elapsed ;;
  let* ts := timestamp in
  set_last_risk_admin_action_ts ts ;;
  publish_risk_admin_action_recorded ts.

Definition get_admin : RM Address :=
  bump_instance_ttl ;; let* o := iget RkAdmin in unwrap o "admin not initialized".
End entrypoints.
End RiskAdmin.

Inductive RCall := RInit (admin : Address) | RSetCooldown (seconds : Z) | RSetPaused (paused : bool) | RRecord.

Definition run_risk `{Host} (call : RCall) : RM unit :=
  match call with
  | RInit admin => RiskAdmin.init admin
  | RSetCooldown seconds => RiskAdmin.set_risk_admin_cooldown seconds
  | RSetPaused paused => RiskAdmin.set_paused paused
  | RRecord => RiskAdmin.record_risk_admin_action
  end.

(** ** The borrow crate's cool-off *)
Inductive BorrowAdminDataKey := CooldownSeconds | LastActionTimestamp.

#[export] Instance BorrowAdminDataKey_eq_dec : EqDecision BorrowAdminDataKey.
Proof. solve_decision. Defined.

Inductive BorrowValType := BvZ.

#[export] Instance BorrowValType_eq_dec : EqDecision BorrowValType.
Proof. solve_decision. Defined.

Inductive BorrowAdminCooldownError := CooldownActive.

#[export] Instance BorrowContract : Contract := {|
  skey := BorrowAdminDataKey;
  skey_eq_dec := BorrowAdminDataKey_eq_dec;
  sty := BorrowValType;
  sty_eq_dec := BorrowValType_eq_dec;
  sinterp := fun _ => Z;
  kty := fun _ => BvZ;
  cevent := Empty_set;
  cerror := BorrowAdminCooldownError;
|}.

Abbreviation BM := (Soroban.M (C := BorrowContract)).

Definition cooldown_allows (last_action : option Z) (now cooldown : Z) : bool :=
  if cooldown =? 0 then true else
  match last_action with
  | None => true
  | Some last => cooldown <=? sat_u64 (now - last)
  end.

Module BorrowAdmin.
Section helpers.
Context `{H : Host}.

Definition set_borrow_admin_cooldown (admin : Address) (seconds : Z) : BM unit :=
  require_auth admin ;;
  if seconds =? 0 then Soroban.iremove (C := BorrowContract) CooldownSeconds
  else Soroban.iset (C := BorrowContract) CooldownSeconds seconds.

Definition get_borrow_admin_cooldown : BM (option Z) := Soroban.iget (C := BorrowContract) CooldownSeconds.

Definition get_last_borrow_admin_action_timestamp : BM (option Z) :=
  Soroban.iget (C := BorrowContract) LastActionTimestamp.

(** [Ok(())] is [None]; [Err(e)] is [Some e]: the helper returns a result, it does not panic. *)
Definition check_borrow_admin_cooldown : BM (option BorrowAdminCooldownError) :=
  let* o := get_borrow_admin_cooldown in
  let cooldown := unwrap_or o 0 in
  let* last_action := get_last_borrow_admin_action_timestamp in
  let* now := timestamp in
  ret (if cooldown_allows last_action now cooldown then None else Some CooldownActive).

Definition record_borrow_admin_action : BM unit :=
  let* ts := timestamp in Soroban.iset (C := BorrowContract) LastActionTimestamp ts.
End helpers.
End BorrowAdmin.
