(* ===== verification/Treasury.v ===== *)
(** * Protocol fees and the treasury

    The split of a fee is exact, so the two accumulators grow by exactly what is
    collected; a repayment moves exactly its fee, its late fee and the rest; the
    treasury pays out exactly what was proposed, a day later, and in no other way. *)
From S2P Require Import Prelude MathUtils Soroban CreditTypes CreditEvents CreditStorage CreditState Accrual Collateral Fees Freeze Oracles Scoring Risk Lifecycle Views CreditContract CreditCalls CreditLedger CreditMoves CreditInvariant Scenario CreditTheorems CreditSafety DrawRepay.

(** The split of a fee by a share in [0..10000]: nothing is lost and the treasury
    part is the proportional one, rounded. *)
Lemma split_protocol_fee_exact fee share :
  0 < fee <= i128_max -> 0 <= share <= u32_max ->
  exists sp, split_protocol_fee fee share = Some sp /\
    treasury_amount sp + bounty_amount sp = fee /\ 0 <= treasury_amount sp /\ 0 <= bounty_amount sp /\
    (share <= 10000 -> fee * share / 10000 <= treasury_amount sp <= fee * share / 10000 + 1).
Proof.
  intros Hfee Hs. unfold split_protocol_fee, MAX_FEE_SHARE_BPS.
  rewrite (proj2 (Z.leb_gt _ _)) by lia.
  destruct (Z.eqb_spec share 0) as [->|Hs0].
  { eexists. split; [done|]. cbn. rewrite Z.mul_0_r, Z.div_0_l; lia. }
  destruct (Z.leb_spec 10000 share) as [Hle|Hlt].
  { eexists. split; [done|]. cbn. repeat (split; [lia|]). intros ?.
    assert (share = 10000) as -> by lia. rewrite Z.div_mul; lia. }
  cbv zeta. rewrite as_u128_id by lia.
  assert (sumZ [share; 10000 - share] = 10000) as HW by (unfold sumZ; cbn; lia).
  destruct (split_conserving_parts fee [share; 10000 - share]) as (parts & k & -> & Hl & Hsum & Hp);
    [lia|lia|rewrite HW; lia|repeat constructor; lia|cbn; lia|].
  pose proof (Hp 0%nat share eq_refl) as H0. pose proof (Hp 1%nat (10000 - share) eq_refl) as H1.
  rewrite !share_floor in H0, H1 by (rewrite HW; lia). rewrite HW in H0, H1.
  destruct parts as [|p0 [|p1 [|]]]; try discriminate Hl.
  change ([p0; p1] !! 0%nat) with (Some p0) in H0. change ([p0; p1] !! 1%nat) with (Some p1) in H1.
  assert (fee * share / 10000 <= p0 <= fee * share / 10000 + 1 /\
          fee * (10000 - share) / 10000 <= p1) as [Hp0 Hp1].
  { injection H0 as ->. injection H1 as ->. do 2 match goal with
      |- context [if ?d then _ else _] => destruct d end; lia. }
  assert (0 <= fee * share / 10000) by (apply Z.div_pos; nia).
  assert (0 <= fee * (10000 - share) / 10000) by (apply Z.div_pos; nia).
  assert (p0 + p1 = fee) by (unfold sumZ in Hsum; cbn in Hsum; lia).
  cbn. rewrite !as_i128_id by lia. eexists. split; [done|]. cbn. do 3 (split; [lia|]).
  intros _. exact Hp0.
Qed.

Section treasury.
Context `{H : Host} `{!AuctionClient} `{!Deployer} `{Crypto}.
Abbreviation S' := (State (C := CreditContract)).
Implicit Types (s : S').

Definition treasury_of s : Z := unwrap_or (inst s DK.TreasuryBalance) 0.

Definition bounty_of s : Z := unwrap_or (inst s DK.BountyBalance) 0.

Definition fee_share s : Z := unwrap_or (inst s DK.TreasuryFeeShareBps) 10000.

#[export] Instance reads_treasury_balance : Reads get_treasury_balance (fun _ s => treasury_of s).
Proof. unfold get_treasury_balance. solve_reads. Qed.

#[export] Instance reads_bounty_balance : Reads get_bounty_balance (fun _ s => bounty_of s).
Proof. unfold get_bounty_balance. solve_reads. Qed.

#[export] Instance reads_fee_share : Reads fees_get_treasury_fee_share_bps (fun _ s => fee_share s).
Proof. unfold fees_get_treasury_fee_share_bps, get_treasury_fee_share_bps. solve_reads. Qed.

Definition K_funds (a : area) (k : StorageKey) : bool :=
  match a, k with Inst, KData (DK.TreasuryBalance | DK.BountyBalance | DK.TreasuryFeeShareBps) => true | _, _ => false end.

Lemma add_treasury_ok amt c s u s' :
  (if 0 <? amt then add_treasury_balance amt else mret tt) c s = Ok u s' -> 0 <= amt ->
  treasury_of s' = treasury_of s + amt /\ bounty_of s' = bounty_of s /\ fee_share s' = fee_share s.
Proof.
  unfold add_treasury_balance. intros Hr Ha. destruct (0 <? amt) eqn:E; bsimp; [|minv Hr; repeat split; lia].
  minv Hr; bsimp; [lia|]. chk. subst. apply iset_ok in Hr as ->.
  unfold treasury_of, bounty_of, fee_share, inst. sput. repeat split; cbn; lia.
Qed.

Lemma add_bounty_ok amt c s u s' :
  (if 0 <? amt then add_bounty_balance amt else mret tt) c s = Ok u s' -> 0 <= amt ->
  bounty_of s' = bounty_of s + amt /\ treasury_of s' = treasury_of s /\ fee_share s' = fee_share s.
Proof.
  unfold add_bounty_balance. intros Hr Ha. destruct (0 <? amt) eqn:E; bsimp; [|minv Hr; repeat split; lia].
  minv Hr; bsimp; [lia|]. chk. subst. apply iset_ok in Hr as ->.
  unfold treasury_of, bounty_of, fee_share, inst. sput. repeat split; cbn; lia.
Qed.

Lemma accrue_fee_ok b fee c s u s' :
  accrue_protocol_fee b fee c s = Ok u s' -> 0 <= fee <= i128_max -> 0 <= fee_share s <= u32_max ->
  treasury_of s' + bounty_of s' = treasury_of s + bounty_of s + fee /\ fee_share s' = fee_share s.
Proof.
  unfold accrue_protocol_fee. intros Hr Hf Hs. destruct (fee <=? 0) eqn:E; bsimp; [minv Hr; lia|].
  mstep Hr. subst. mstep Hr.
  destruct (split_protocol_fee_exact fee (fee_share s)) as (sp & Hsp & Hsum & Ht & Hb & _); [lia|done|].
  match goal with E' : split_protocol_fee _ _ = Some _ |- _ => rewrite Hsp in E'; injection E' as <- end.
  apply mbind_ok in Hr as ([] & s1 & H1' & Hr). apply add_treasury_ok in H1' as (T1 & B1 & F1); [|done].
  apply mbind_ok in Hr as ([] & s2 & H2' & Hr). apply add_bounty_ok in H2' as (B2 & T2 & F2); [|done].
  assert (frame K_funds s2 s') as Hf' by (eapply frame_steps; [exact Hr|kframe]).
  unfold treasury_of, bounty_of, fee_share in *.
  rewrite !(frame_inst K_funds s2 s') by done. lia.
Qed.

(** ** The tokens and fees of a repayment *)

(** A transfer the contract makes only for a positive amount. *)
Definition pays (self token from to : Address) (amt : Z) (h h' : host) : Prop :=
  if 0 <? amt then token_transfer_from self token self from to amt h = Some h' else h' = h.

Definition funds s : Z := treasury_of s + bounty_of s.

Definition fee_rate s : Z := unwrap_or (inst s DK.ProtocolFeeBps) 0.

(** The protocol's share of the interest part. *)
Definition interest_fee (rate interest : Z) : Z :=
  if (0 <? rate) && (0 <? interest) then interest * rate / 10000 else 0.

Lemma repay_fee_ok rate ip paid fee :
  Credit.repay_fee rate ip paid = Some fee -> 0 <= ip <= i128_max -> rate <= 10000 ->
  fee = Z.min (interest_fee rate ip) paid /\ 0 <= interest_fee rate ip <= ip.
Proof.
  unfold Credit.repay_fee, interest_fee, apply_bps, BPS_DENOMINATOR. intros Hr Hip Hrate.
  destruct (0 <? rate) eqn:E1, (0 <? ip) eqn:E2; cbn [andb] in *; bsimp; try (injection Hr as <-; lia).
  rewrite as_u128_id in Hr by lia. destruct (mul_div ip rate 10000 Floor) as [f|] eqn:Ef; [|done].
  apply mul_div_floor in Ef as ->; [|lia..]. injection Hr as <-.
  assert (0 <= ip * rate / 10000) by (apply Z.div_pos; nia).
  pose proof (mul_div_le_self ip rate 10000). rewrite as_i128_id by lia. lia.
Qed.

Definition K_repay (a : area) (k : StorageKey) : bool :=
  match a, k with
  | Inst, KData (DK.TreasuryBalance | DK.BountyBalance | DK.TreasuryFeeShareBps | DK.ProtocolFeeBps
                 | DK.LiquidityToken | DK.LiquiditySource) => true
  | _, _ => false
  end.

Lemma frame_funds s s' : frame K_repay s s' ->
  funds s' = funds s /\ fee_share s' = fee_share s /\ fee_rate s' = fee_rate s /\
  inst s' DK.LiquidityToken = inst s DK.LiquidityToken /\
  inst s' DK.LiquiditySource = inst s DK.LiquiditySource.
Proof.
  intros Hf. unfold funds, treasury_of, bounty_of, fee_share, fee_rate.
  by rewrite !(frame_inst K_repay s s').
Qed.

Lemma transfer_from_pays b tok to amt c s u s' self :
  transfer_from tok self b to amt c s = Ok u s' -> self = current_contract c -> 0 < amt ->
  pays self tok b to amt (host_state s) (host_state s') /\ (forall K, frame K s s').
Proof.
  intros Hr -> Ha. apply transfer_from_ok in Hr as (h & Hh & ->). split.
  - unfold pays. by rewrite (proj2 (Z.ltb_lt _ _) Ha).
  - intros K. by apply frame_same_stores.
Qed.

Lemma accrue_fee_host b fee c s u s' :
  accrue_protocol_fee b fee c s = Ok u s' -> host_state s' = host_state s.
Proof.
  intros Hr. assert (steps same_guards (accrue_protocol_fee (H := H) b fee)) as Hs;
    [unfold accrue_protocol_fee, add_treasury_balance, add_bounty_balance|by apply (Hs _ _ _ _ Hr)].
  guards_tac.
Qed.

(** The configuration a repayment reads. *)
Definition K_conf (a : area) (k : StorageKey) : bool :=
  match a, k with
  | Inst, KData (DK.TreasuryFeeShareBps | DK.ProtocolFeeBps | DK.LiquidityToken | DK.LiquiditySource) => true
  | _, _ => false
  end.

Record same_conf s s' : Prop := {
  sc_share : fee_share s' = fee_share s;
  sc_rate : fee_rate s' = fee_rate s;
  sc_token : inst s' DK.LiquidityToken = inst s DK.LiquidityToken;
  sc_source : inst s' DK.LiquiditySource = inst s DK.LiquiditySource;
}.

Lemma same_conf_frame s s' : frame K_conf s s' -> same_conf s s'.
Proof. intros Hf. split; unfold fee_share, fee_rate; by rewrite !(frame_inst K_conf s s'). Qed.

Lemma funds_frame s s' : frame K_funds s s' -> funds s' = funds s.
Proof. intros Hf. unfold funds, treasury_of, bounty_of. by rewrite !(frame_inst K_funds s s'). Qed.

(** A fee collected and booked; nothing happens for a fee of zero. *)
Lemma collect_ok b tok fee self c s u s' :
  (if 0 <? fee then transfer_from tok self b self fee ;; accrue_protocol_fee b fee else mret tt) c s
    = Ok u s' ->
  self = current_contract c -> 0 <= fee <= i128_max -> 0 <= fee_share s <= u32_max ->
  pays self tok b self fee (host_state s) (host_state s') /\ funds s' = funds s + fee /\ same_conf s s'.
Proof.
  intros Hr Hself Hf Hs. pose proof Hr as Hr0. unfold pays. destruct (0 <? fee) eqn:E; bsimp.
  - apply mbind_ok in Hr as ([] & s1 & Ht & Hr). apply transfer_from_pays in Ht as [Hp Hk]; [|done..].
    destruct (same_conf_frame _ _ (Hk K_conf)) as [S1 _ _ _].
    pose proof (accrue_fee_host _ _ _ _ _ _ Hr) as Hh.
    pose proof Hr as Hr1. apply accrue_fee_ok in Hr as [Hfu _]; [|lia|by rewrite S1].
    rewrite Hh. unfold pays in Hp. rewrite (proj2 (Z.ltb_lt _ _) E) in Hp. split; [done|]. split.
    + unfold funds. rewrite Hfu. f_equal. apply (funds_frame _ _ (Hk K_funds)).
    + apply same_conf_frame. etrans; [apply (Hk K_conf)|]. eapply frame_steps; [exact Hr1|kframe].
  - minv Hr. split; [done|]. split; [lia|by split].
Qed.

Lemma repay_transfers_ok b tok paid ip c s u s' (self := current_contract c)
    (fee := Z.min (interest_fee (fee_rate s) ip) paid) :
  Credit.repay_transfers b tok paid ip c s = Ok u s' ->
  0 <= ip <= paid -> paid <= i128_max -> fee_rate s <= 10000 -> 0 <= fee_share s <= u32_max ->
  0 <= fee <= ip /\ funds s' = funds s + fee /\ same_conf s s' /\
  exists h, pays self tok b self fee (host_state s) h /\
    pays self tok b (unwrap_or (inst s DK.LiquiditySource) self) (paid - fee) h (host_state s').
Proof.
  intros Hr Hip Hpaid Hrate Hs. unfold Credit.repay_transfers, get_protocol_fee_bps in Hr.
  destruct (0 <? paid) eqn:E; bsimp.
  - mstep Hr. subst. mstep Hr. subst. cbv zeta in Hr. mstep Hr. subst. mstep Hr.
    match goal with Ef : Credit.repay_fee _ _ _ = Some ?f |- _ =>
      apply (repay_fee_ok (fee_rate s)) in Ef as [Ef Hfee]; [|lia|done]; subst f end.
    fold fee in Hr. assert (0 <= fee <= ip) as Hfr by (unfold fee; lia).
    apply mbind_ok in Hr as ([] & s1 & Hc & Hr). apply collect_ok in Hc as (Hp & Hfu & Hsc); [|done|lia|done].
    split; [done|]. rewrite saturate_in in Hr by lia. destruct (0 <? paid - fee) eqn:E2; bsimp.
    + apply transfer_from_pays in Hr as [Hp2 Hk]; [|done..].
      rewrite (funds_frame _ _ (Hk K_funds)). split; [done|]. split.
      * destruct (same_conf_frame _ _ (Hk K_conf)), Hsc. split; congruence.
      * by exists (host_state s1).
    + minv Hr. split; [done|]. split; [done|]. exists (host_state s1). split; [done|].
      unfold pays. by rewrite (proj2 (Z.ltb_ge _ _)) by lia.
  - assert (paid = 0 /\ ip = 0) as [-> ->] by lia. minv Hr.
    assert (fee = 0) as -> by (unfold fee, interest_fee; rewrite andb_false_r; lia).
    split; [lia|]. split; [lia|]. split; [by split|]. by exists (host_state s).
Qed.

Lemma collect_late_fee_ok b fee tok c s u s' (self := current_contract c) :
  Credit.collect_late_fee b fee c s = Ok u s' -> inst s DK.LiquidityToken = Some tok ->
  0 <= fee <= i128_max -> 0 <= fee_share s <= u32_max ->
  pays self tok b self fee (host_state s) (host_state s') /\ funds s' = funds s + fee /\ same_conf s s'.
Proof.
  intros Hr Htok Hf Hs. apply (collect_ok b tok fee self c s u s'); try done.
  unfold Credit.collect_late_fee in Hr. destruct (0 <? fee); [|done].
  mstep Hr. subst. rewrite Htok in Hr. mstep Hr. by subst.
Qed.
End treasury.

(** ** [repay_credit] *)
Section repay.
Context `{H : Host} `{!AuctionClient} `{!Deployer} `{Crypto}.
Abbreviation S' := (State (C := CreditContract)).
Implicit Types (s : S').

Lemma allocate_repayment_ok debt interest amt p i r :
  allocate_repayment debt interest amt = (p, i, r) -> 0 <= debt <= i128_max ->
  0 <= interest <= debt -> 0 < amt ->
  p = Z.min amt debt /\ i = Z.min p interest /\ r = p - i.
Proof.
  unfold allocate_repayment. cbv zeta. intros [= <- <- <-] Hd Hi Ha.
  assert (Z.max debt 0 = debt) as -> by lia. rewrite saturate_in; lia.
Qed.

Lemma late_fee_ok b schedule n c s fee s' :
  charge_late_fee b schedule n c s = Ok fee s' -> 0 <= fee <= i128_max.
Proof.
  unfold charge_late_fee. intros Hr. apply mbind_ok in Hr as (f & s1 & _ & Hr).
  minv Hr; bsimp; chk; subst; nia.
Qed.

Lemma advance_schedule_ok b paid ip c s fee s' :
  advance_repayment_schedule_after_repay b paid ip c s = Ok fee s' -> 0 <= fee <= i128_max.
Proof.
  unfold advance_repayment_schedule_after_repay. intros Hr.
  repeat (mstep Hr; try discriminate Hr; try (minv Hr; lia)).
  mleaf Hr. subst. by eapply late_fee_ok.
Qed.

(** ** The late fee, as the schedule defines it *)

(** The fee of one overdue installment: the structured configuration supersedes the
    legacy amount, and an APR configuration charges nothing here. *)
Definition installment_fee s : Z :=
  match inst s DK.LateFeeConfig with
  | Some (Flat cfg) => flat_amount cfg
  | Some (AprBased _) => 0
  | None => unwrap_or (inst s DK.LateFeeFlat) 0
  end.

(** How many of the next [n] installments, the [i]-th due at [due + i * period],
    were due strictly before [now]. *)
Definition overdue_among (now due period n : Z) : Z :=
  Z.of_nat (length (filter (fun i => due + i * period < now) (seqZ 0 n))).

Definition schedule_of s b : option RepaymentSchedule := pers s (DK.RepaymentSchedule b).

(** The whole installments in a repayment of [principal].  The code narrows the
    quotient to 64 bits. *)
Definition installments (sch : RepaymentSchedule) (principal : Z) : Z :=
  if (amount_per_period sch <=? 0) || (period_seconds sch =? 0) then 0
  else (principal / amount_per_period sch) mod 2 ^ 64.

Definition late_fee_due (now : Z) s b (principal : Z) : Z :=
  match schedule_of s b with
  | Some sch => Z.max (installment_fee s) 0 *
      overdue_among now (next_due_ts sch) (period_seconds sch) (installments sch principal)
  | None => 0
  end.

(** The schedule afterwards: each paid installment moves the due date by a period. *)
Definition schedule_after (principal : Z) (sch : RepaymentSchedule) : RepaymentSchedule :=
  mkSchedule (amount_per_period sch) (period_seconds sch)
    (sat_u64 (next_due_ts sch + sat_u64 (installments sch principal * period_seconds sch))).

Lemma filter_every {A} (P : A -> Prop) `{!forall x, Decision (P x)} (l : list A) :
  Forall P l -> filter P l = l.
Proof. induction 1; [done|]. by rewrite filter_cons, decide_True, IHForall by done. Qed.

Lemma filter_never {A} (P : A -> Prop) `{!forall x, Decision (P x)} (l : list A) :
  Forall (fun x => ~ P x) l -> filter P l = [].
Proof. induction 1; [done|]. by rewrite filter_cons, decide_False by done. Qed.

Lemma seqZ_below n k : 0 <= k ->
  Z.of_nat (length (filter (fun i => i < k) (seqZ 0 n))) = Z.max 0 (Z.min k n).
Proof.
  intros Hk. destruct (Z.le_gt_cases n 0) as [Hn|Hn].
  { rewrite seqZ_nil by lia. cbn. lia. }
  assert (n = Z.min k n + (n - Z.min k n)) as E by lia. rewrite E at 1.
  rewrite seqZ_app, filter_app, length_app by lia.
  rewrite (filter_every _ (seqZ 0 _)), (filter_never _ (seqZ (0 + _) _)).
  - rewrite length_seqZ. cbn. lia.
  - apply Forall_forall. intros i Hi%elem_of_seqZ. lia.
  - apply Forall_forall. intros i Hi%elem_of_seqZ. lia.
Qed.

(** The closed form the code uses counts exactly those installments. *)
Lemma overdue_count_exact now due period n :
  0 < period -> 0 <= n -> overdue_installment_count now due period n = overdue_among now due period n.
Proof.
  intros Hp Hn. unfold overdue_installment_count, overdue_among. rewrite (proj2 (Z.eqb_neq period 0)) by lia.
  rewrite orb_false_r. destruct (Z.leb_spec now due) as [Hle|Hlt].
  - rewrite orb_true_r, filter_never; [done|]. apply Forall_forall. intros i Hi%elem_of_seqZ. nia.
  - rewrite orb_false_r. set (k := (now - due - 1) / period + 1).
    assert (0 <= (now - due - 1) / period) by (apply Z.div_pos; lia).
    rewrite (list_filter_iff _ (fun i => i < k)).
    + rewrite seqZ_below by lia. destruct (Z.eqb_spec n 0); lia.
    + intros i. pose proof (Z.div_mod (now - due - 1) period ltac:(lia)).
      pose proof (Z.mod_pos_bound (now - due - 1) period Hp). subst k. nia.
Qed.

#[export] Instance reads_get_schedule b : Reads (get_repayment_schedule b) (fun _ s => schedule_of s b).
Proof. unfold get_repayment_schedule. solve_reads. Qed.

Lemma per_installment_ok c s f s' :
  per_installment_fee c s = Ok f s' -> s' = s /\ Z.max f 0 = Z.max (installment_fee s) 0.
Proof.
  unfold per_installment_fee, get_late_fee_config, get_late_fee_flat, installment_fee. intros Hr.
  mstep Hr. subst. destruct (inst s DK.LateFeeConfig) as [[cfg|cfg]|] eqn:E; fold (inst s DK.LateFeeConfig) in *;
    rewrite ?E in Hr.
  - cbn in Hr. rewrite Z.mul_1_r in Hr. destruct (flat_amount cfg <? 0) eqn:E1; [by minv Hr|].
    destruct (flat_amount cfg =? 0) eqn:E2; [minv Hr; bsimp; split; [done|lia]|].
    destruct (checked_i128 (flat_amount cfg)) eqn:E3; [|by minv Hr]. chk. subst. by minv Hr.
  - cbn in Hr. by minv Hr.
  - by minv Hr.
Qed.

Lemma charge_late_fee_exact b sch n c s fee s' :
  charge_late_fee b sch n c s = Ok fee s' -> 0 < period_seconds sch -> 0 <= n ->
  fee = Z.max (installment_fee s) 0 *
    overdue_among (ledger_timestamp c) (next_due_ts sch) (period_seconds sch) n.
Proof.
  unfold charge_late_fee. intros Hr Hp Hn. apply mbind_ok in Hr as (f & s1 & [-> Hf]%per_installment_ok & Hr).
  rewrite <- Hf, <- overdue_count_exact by done. set (k := overdue_installment_count _ _ _ _) in *.
  assert (0 <= k) by (subst k; rewrite overdue_count_exact by done; unfold overdue_among; lia).
  minv Hr; bsimp; chk; subst; nia.
Qed.

Lemma schedule_unmoved principal sch :
  installments sch principal = 0 -> is_u64 (next_due_ts sch) -> schedule_after principal sch = sch.
Proof.
  intros Hi Hd. unfold schedule_after. rewrite Hi, Z.mul_0_l, (saturate_in _ _ 0), Z.add_0_r, saturate_in by lia.
  by destruct sch.
Qed.

(** The late fee is the one due, and the due date moves by the paid installments. *)
Lemma advance_schedule_exact b paid ip c s fee s' :
  advance_repayment_schedule_after_repay b paid ip c s = Ok fee s' -> 0 <= ip <= paid -> paid <= i128_max ->
  (forall sch, schedule_of s b = Some sch -> 0 <= period_seconds sch /\ is_u64 (next_due_ts sch)) ->
  fee = late_fee_due (ledger_timestamp c) s b (paid - ip) /\
  schedule_of s' b = schedule_after (paid - ip) <$> schedule_of s b.
Proof.
  unfold advance_repayment_schedule_after_repay, late_fee_due. intros Hr Hip Hpaid HT.
  rewrite checked_in in Hr by lia.
  assert (forall sch, schedule_of s b = Some sch -> installments sch (paid - ip) = 0 ->
    0 = Z.max (installment_fee s) 0 * overdue_among (ledger_timestamp c) (next_due_ts sch) (period_seconds sch)
      (installments sch (paid - ip)) /\ schedule_of s b = Some (schedule_after (paid - ip) sch)) as Hzero.
  { intros sch Hs Hi. rewrite schedule_unmoved by (try done; by apply HT). rewrite Hi. split; [|done].
    unfold overdue_among. rewrite seqZ_nil by lia. cbn. lia. }
  destruct (Z.ltb_spec 0 (paid - ip)) as [Ep|Ep]; cbn [negb] in Hr.
  2:{ apply mret_ok in Hr as [-> ->]. destruct (schedule_of s b) as [sch|] eqn:Es; [|done].
      apply Hzero; [done|]. unfold installments. replace (paid - ip) with 0 by lia.
      destruct (_ || _); [done|]. by rewrite Zdiv_0_l. }
  mstep Hr. subst. destruct (schedule_of s b) as [sch|] eqn:Es; [|by apply mret_ok in Hr as [-> ->]; rewrite Es].
  destruct (_ || _) eqn:Ed.
  { apply mret_ok in Hr as [-> ->]. rewrite Es. apply Hzero; [done|]. unfold installments. by rewrite Ed. }
  destruct (HT _ eq_refl) as [Hper Hdue]. bsimp.
  assert (as_u64 (Z.quot (paid - ip) (amount_per_period sch)) = installments sch (paid - ip)) as Ei.
  { unfold installments. rewrite quot_nonneg by lia.
    by rewrite (proj2 (Z.leb_gt _ _)), (proj2 (Z.eqb_neq _ _)) by lia. }
  rewrite Ei in Hr. destruct (Z.eqb_spec (installments sch (paid - ip)) 0) as [Ez|Ez].
  { apply mret_ok in Hr as [-> ->]. rewrite Es. by apply Hzero. }
  apply mbind_ok in Hr as (fee' & s1 & Hc & Hr). minv Hr.
  apply charge_late_fee_exact in Hc as ->; [|lia|].
  2:{ unfold installments. destruct (_ || _); [done|]. apply Z.mod_pos_bound. lia. }
  split; [done|]. unfold set_repayment_schedule in Hm. apply mbind_ok in Hm as ([] & s2 & Hset & Hm).
  apply bump_persistent_ttl_ok in Hm as [_ ->]. apply pset_ok in Hset as ->.
  unfold schedule_of, pers. sput. done.
Qed.

(** What the late fee and the schedule are read from. *)
Definition K_late (a : area) (k : StorageKey) : bool :=
  match a, k with
  | Inst, KData (DK.LateFeeConfig | DK.LateFeeFlat) | Pers, KData (DK.RepaymentSchedule _) => true
  | _, _ => false
  end.

Lemma late_frame now s s' b principal : frame K_late s s' ->
  late_fee_due now s' b principal = late_fee_due now s b principal /\ schedule_of s' b = schedule_of s b.
Proof.
  intros Hf. assert (schedule_of s' b = schedule_of s b) as Hs
    by (unfold schedule_of; by rewrite (frame_pers K_late s s')).
  split; [|done]. unfold late_fee_due, installment_fee. by rewrite Hs, !(frame_inst K_late s s').
Qed.

Record repay_typed s b : Prop := {
  rt_rate : fee_rate s <= 10000;
  rt_share : 0 <= fee_share s <= u32_max;
  rt_line : forall l, line_of s b = Some l ->
    is_i128 (cl_utilized_amount l) /\ is_i128 (cl_accrued_interest l);
  rt_schedule : forall sch, schedule_of s b = Some sch ->
    0 <= period_seconds sch /\ is_u64 (next_due_ts sch);
}.

Lemma accrued_i128 now old line :
  accrued now old line -> is_i128 (cl_utilized_amount old) -> is_i128 (cl_accrued_interest old) ->
  is_i128 (cl_utilized_amount line) /\ is_i128 (cl_accrued_interest line).
Proof. destruct 1; cbn; auto. Qed.

(** The waterfall, as functions of the accrued line and the amount offered. *)
Definition debt (l : CreditLineData) : Z := Z.max (cl_utilized_amount l) 0.

Definition interest_due (l : CreditLineData) : Z := Z.max (Z.min (cl_accrued_interest l) (debt l)) 0.

Definition paid (amt : Z) (l : CreditLineData) : Z := Z.min amt (debt l).

Definition to_interest (amt : Z) (l : CreditLineData) : Z := Z.min (paid amt l) (interest_due l).

Definition fee_due (rate amt : Z) (l : CreditLineData) : Z :=
  Z.min (interest_fee rate (to_interest amt l)) (paid amt l).

Definition repaid (amt : Z) (l : CreditLineData) : CreditLineData :=
  set_utilized (set_accrued l (interest_due l - to_interest amt l)) (debt l - paid amt l).

Lemma waterfall_bounds amt l :
  0 < amt -> is_i128 (cl_utilized_amount l) ->
  0 <= to_interest amt l <= paid amt l /\ paid amt l <= debt l <= i128_max /\
  to_interest amt l <= interest_due l <= debt l.
Proof. unfold to_interest, paid, interest_due, debt. lia. Qed.

Lemma waterfall_allocate amt l p i r :
  allocate_repayment (Z.max (cl_utilized_amount l) 0) (interest_due l) amt = (p, i, r) ->
  0 < amt -> is_i128 (cl_utilized_amount l) -> p = paid amt l /\ i = to_interest amt l.
Proof.
  intros Hr Ha Hu. pose proof (waterfall_bounds amt l Ha Hu).
  apply allocate_repayment_ok in Hr as (-> & -> & _); unfold to_interest, paid, interest_due, debt in *; lia.
Qed.

Lemma waterfall_line amt l :
  0 < amt -> is_i128 (cl_utilized_amount l) ->
  Credit.repaid_line (set_accrued l (interest_due l)) (paid amt l) (to_interest amt l) = repaid amt l.
Proof.
  intros Ha Hu. pose proof (waterfall_bounds amt l Ha Hu). unfold Credit.repaid_line, repaid. cbn.
  rewrite checked_in by (unfold interest_due, debt in *; lia). cbn. unfold set_utilized, set_accrued. cbn.
  f_equal. unfold paid, debt in *. unfold saturate. lia.
Qed.

(** What [repay_checks] establishes. *)
Lemma repay_checks_ok b amt c s s1 old line s2 :
  Credit.repay_checks b amt c s1 = Ok (old, line) s2 -> frame K_limits s s1 ->
  host_state s1 = host_state s -> repay_typed s b ->
  frame K_limits s s2 /\ host_require_auth b (host_state s) = Some (host_state s2) /\ 0 < amt /\
  exists acc, line_of s b = Some old /\ accrued (ledger_timestamp c) old acc /\ cl_status acc <> Closed /\
    line = set_accrued acc (interest_due acc) /\
    is_i128 (cl_utilized_amount acc).
Proof.
  intros Hr Hf Hh [_ _ HTl]. unfold Credit.repay_checks in Hr.
  apply mbind_ok in Hr as ([] & s3 & Ha & Hr). apply require_auth_ok in Ha as (h & Hh3 & ->).
  assert (frame K_limits s (set_host h s1)) as Hf3 by (etrans; [exact Hf|by apply frame_same_stores]).
  minv Hr. match goal with Hm : apply_accrual _ _ _ = Ok _ ?sf |- _ => rename Hm into Hac, sf into s2 end.
  assert (host_state s2 = h) as Hh2.
  { assert (same_guards (set_host h s1) (set_host h s1)) as G by done. chain_guards.
    by destruct G as [-> _]. }
  apply apply_accrual_ok in Hac as [Hacc Hf2]. specialize (Hf2 K_limits).
  match goal with E : line_of _ b = Some _ |- _ =>
    rewrite (frame_line_of K_limits _ _ _ Hf3 eq_refl) in E; destruct (HTl _ E) as [Hu1 Hu2] end.
  destruct (accrued_i128 _ _ _ Hacc Hu1 Hu2) as [Hu _]. simplify_eq.
  split; [by etrans|]. split; [by rewrite <- Hh|]. split; [done|]. eauto 10.
Qed.

(** The rest of a repayment, once its tokens have moved. *)
Lemma repay_tail_ok b line pu ps eff ip tok c s u1 s1 late s2 u2 s3 u3 s4 u4 s5 u5 s6 e :
  persist_credit_line b line pu ps c s = Ok u1 s1 ->
  advance_repayment_schedule_after_repay b eff ip c s1 = Ok late s2 ->
  Credit.collect_late_fee b late c s2 = Ok u2 s3 ->
  publish_repayment_event b eff (cl_utilized_amount line) c s3 = Ok u3 s4 ->
  publish e c s4 = Ok u4 s5 ->
  clear_reentrancy_guard c s5 = Ok u5 s6 ->
  inst s DK.LiquidityToken = Some tok -> 0 <= fee_share s <= u32_max ->
  0 <= ip <= eff -> eff <= i128_max ->
  (forall sch, schedule_of s b = Some sch -> 0 <= period_seconds sch /\ is_u64 (next_due_ts sch)) ->
  line_of s6 b = Some line /\ late = late_fee_due (ledger_timestamp c) s b (eff - ip) /\
  schedule_of s6 b = schedule_after (eff - ip) <$> schedule_of s b /\ funds s6 = funds s + late /\
  pays (current_contract c) tok b (current_contract c) late (host_state s) (host_state s6).
Proof.
  intros H1' H2' H3' H4' H5' H6' Htok Hs Hip Heff HT. pose proof (persist_writes _ _ _ _ _ _ _ _ H1') as Hw.
  assert (frame K_late s s1) as L1 by (eapply frame_steps; [exact H1'|kframe]).
  destruct (late_frame (ledger_timestamp c) _ _ b (eff - ip) L1) as [Ll Ls].
  assert (schedule_of s6 b = schedule_of s2 b) as Es
    by (clear H1' H2'; assert (frame K_late s2 s2) as K by done; chain; by apply (late_frame 0 _ _ b 0)).
  pose proof (advance_schedule_exact _ _ _ _ _ _ _ H2' Hip Heff) as Hadv.
  rewrite Ls, Ll in Hadv. destruct (Hadv HT) as [Elate Esch].
  assert (line_of s6 b = line_of s1 b) as El.
  { clear H1'. assert (frame (K_own b) s1 s1) as K by done. chain.
    eapply frame_line_of; [exact K|]. cbn. by rewrite bool_decide_eq_true_2. }
  assert (frame K_conf s s2 /\ frame K_funds s s2 /\ host_state s2 = host_state s) as (K1 & K2 & Hh2).
  { assert (same_guards s s) as G by done. assert (frame K_conf s s) as K1 by done.
    assert (frame K_funds s s) as K2 by done. split; [|split].
    - etrans; eapply frame_steps; [exact H1'|kframe|exact H2'|kframe].
    - etrans; eapply frame_steps; [exact H1'|kframe|exact H2'|kframe].
    - clear H3' H4' H5' H6'. chain_guards. apply G. }
  assert (frame K_funds s3 s6 /\ host_state s6 = host_state s3) as (K3 & Hh3).
  { assert (same_guards s3 s3) as G by done. assert (frame K_funds s3 s3) as K by done. split.
    - chain. done.
    - chain_guards. apply G. }
  destruct (same_conf_frame _ _ K1) as [S1 S2 S3 S4].
  pose proof (advance_schedule_ok _ _ _ _ _ _ _ H2') as Hlate.
  eapply (collect_late_fee_ok _ _ tok) in H3' as (Hp & Hfu & _); [|by rewrite S3|done|by rewrite S1].
  rewrite El, Hh3, <- Hh2, (funds_frame _ _ K3), Hfu, (funds_frame _ _ K2), Es.
  by repeat (split; [done|]).
Qed.

End repay.

(** ** Treasury withdrawals *)
Section withdrawals.
Context `{H : Host} `{!AuctionClient} `{!Deployer} `{Crypto}.
Abbreviation S' := (State (C := CreditContract)).
Implicit Types (s : S').

Definition pending_of s : option TreasuryWithdrawalProposal := inst s DK.PendingTreasuryWithdrawal.

(** A day, the timelock of a proposal. *)
Definition timelocked (p : TreasuryWithdrawalProposal) : Prop :=
  tp_execute_after p = sat_u64 (tp_proposed_at p + 86400).

Definition K_pending (a : area) (k : StorageKey) : bool :=
  match a, k with Inst, KData DK.PendingTreasuryWithdrawal => true | _, _ => false end.

Definition moves_proposal (call : Call) : bool :=
  match call with
  | CProposeTreasuryWithdrawal _ | CExecuteTreasuryWithdrawal _ | CWithdrawTreasury _ => true
  | _ => false
  end.

Lemma other_pending call : moves_proposal call = false -> steps (frame K_pending) (run call).
Proof. destruct call; try done; intros _; cbn [run]; kframe. Qed.

#[export] Instance reads_treasury_address :
  Reads get_treasury_address (fun _ s => inst s DK.TreasuryAddress).
Proof. unfold get_treasury_address. solve_reads. Qed.

#[export] Instance reads_pending : Reads get_pending_treasury_withdrawal (fun _ s => pending_of s).
Proof. unfold get_pending_treasury_withdrawal. solve_reads. Qed.

(** The administrative signature changes nothing but the host. *)
Lemma admin_argument_ok a c s x s' :
  require_admin_auth_with_argument a c s = Ok x s' -> x = a /\ admin_of s = Some a /\
  exists h, host_require_auth a (host_state s) = Some h /\ s' = set_host h s.
Proof.
  unfold require_admin_auth_with_argument, require_admin. intros Hr. minv Hr.
  match goal with Hq : require_auth _ _ _ = _ |- _ => apply require_auth_ok in Hq as (h & ? & ->) end.
  bsimp. split; [done|]. split; [done|]. by exists h.
Qed.

Lemma propose_ok a c s u s' :
  Credit.propose_treasury_withdrawal a c s = Ok u s' ->
  exists recipient, inst s DK.TreasuryAddress = Some recipient /\ pending_of s = None /\
    pending_of s' = Some (mkProposal recipient (treasury_of s) a (ledger_timestamp c)
                            (sat_u64 (ledger_timestamp c + 86400))).
Proof.
  unfold Credit.propose_treasury_withdrawal, set_pending_treasury_withdrawal. intros Hr.
  apply mbind_ok in Hr as (x & s1 & (_ & _ & h & Hh & ->)%admin_argument_ok & Hr). minv Hr.
  match goal with Hp : match pending_of ?q with _ => _ end = false |- _ =>
    destruct (pending_of q) eqn:Hpend; [done|] end.
  match goal with Hi : Soroban.iset _ _ _ _ = Ok _ ?q |- _ =>
    assert (frame K_pending q s') as Hf by (eapply frame_steps; [exact Hr|kframe]); apply iset_ok in Hi as -> end.
  eexists. do 2 (split; [eassumption|]).
  unfold pending_of. rewrite (frame_inst K_pending _ _ _ Hf) by done. unfold inst. by sput.
Qed.

(** The payment of an executed proposal. *)
Definition paid_out (c : Ctx) (p : TreasuryWithdrawalProposal) (h h' : host) (tok : option Address) : Prop :=
  if 0 <? tp_amount p
  then exists t, tok = Some t /\
    token_transfer (current_contract c) t (current_contract c) (tp_recipient p) (tp_amount p) h = Some h'
  else h' = h.

(** The keys the payment leaves alone. *)
Definition K_payout (a : area) (k : StorageKey) : bool :=
  match a, k with Inst, KData (DK.PendingTreasuryWithdrawal | DK.TreasuryBalance) => true | _, _ => false end.

Lemma payment_ok p c s u s' :
  (if 0 <? tp_amount p then
     let* t := Soroban.iget DK.LiquidityToken in
     let* token_address := or_panic t MissingLiquidityToken in
     let* contract_address := current_contract_address in
     transfer token_address contract_address (tp_recipient p) (tp_amount p)
   else mret tt) c s = Ok u s' ->
  paid_out c p (host_state s) (host_state s') (inst s DK.LiquidityToken) /\ frame K_payout s s'.
Proof.
  intros Hr. split; [|eapply frame_steps; [exact Hr|kframe]]. unfold paid_out.
  destruct (0 <? tp_amount p); minv Hr; [|done].
  match goal with Ht : transfer _ _ _ _ _ _ = _ |- _ => apply transfer_ok in Ht as (h & Hh & ->) end. eauto.
Qed.

Lemma execute_ok a c s u s' :
  Credit.execute_treasury_withdrawal a c s = Ok u s' ->
  exists p h, pending_of s = Some p /\ tp_execute_after p <= ledger_timestamp c /\
    0 <= tp_amount p <= treasury_of s /\
    pending_of s' = None /\ treasury_of s' = treasury_of s - tp_amount p /\
    host_require_auth a (host_state s) = Some h /\
    paid_out c p h (host_state s') (inst s DK.LiquidityToken).
Proof.
  unfold Credit.execute_treasury_withdrawal, subtract_treasury_balance, clear_pending_treasury_withdrawal. intros Hr.
  apply mbind_ok in Hr as (x & s1 & (_ & _ & h & Hh & ->)%admin_argument_ok & Hr). minv Hr.
  match goal with Hi : Soroban.iset _ _ _ _ = _ |- _ => apply iset_ok in Hi as -> end.
  match goal with Hi : Soroban.iremove _ _ _ = _ |- _ => apply iremove_ok in Hi as -> end.
  match goal with Hp : _ = Ok _ ?q, He : publish_treasury_withdrawal_executed _ _ _ _ _ _ ?q = _ |- _ =>
    apply payment_ok in Hp as [Hpay Hf];
    assert (same_guards q s' /\ frame K_payout q s') as [Hg Hf'] end.
  { split; [assert (steps same_guards (publish_treasury_withdrawal_executed (H := H) (tp_recipient a1) (tp_amount a1) a
      (ledger_timestamp c) a6)) as G by guards_tac; exact (G _ _ _ _ Hr)|eapply frame_steps; [exact Hr|kframe]]. }
  assert (frame K_payout _ s') as HF by (etrans; [exact Hf|exact Hf']). exists a1, h. unfold pending_of, treasury_of.
  rewrite !(frame_inst K_payout _ _ _ HF) by done. destruct Hg as [-> _].
  assert (a6 = treasury_of s - tp_amount a1 /\ 0 <= tp_amount a1 /\ 0 <= a6) as (-> & Hp & Hle).
  { change (treasury_of (set_host h s)) with (treasury_of s) in H8.
    destruct (checked_i128 (treasury_of s - tp_amount a1)) as [b|] eqn:E; [|done]. chk.
    destruct ((0 <=? tp_amount a1) && (0 <=? b)) eqn:E'; [|done]. bsimp. injection H8 as ->. lia. }
  unfold inst, treasury_of, inst in *. sput. rewrite store_remove_ne, store_put_ne in Hpay by discriminate.
  cbn [unwrap_or]. by repeat (split; [first [done|lia]|]).
Qed.

(** A pending proposal was written by a proposal call, and stands since. *)
Definition proposed_by (n : nat) s (p : TreasuryWithdrawalProposal) : Prop :=
  exists m s0 h a c u s1 recipient,
    (m < n)%nat /\ reachable m s0 /\ run (CProposeTreasuryWithdrawal a) c (set_host h s0) = Ok u s1 /\
    later s1 s /\ inst s0 DK.TreasuryAddress = Some recipient /\
    p = mkProposal recipient (treasury_of s0) a (ledger_timestamp c) (sat_u64 (ledger_timestamp c + 86400)).

Lemma proposed_later n s h call c u s' p :
  proposed_by n s p -> run call c (set_host h s) = Ok u s' -> proposed_by (S n) s' p.
Proof.
  intros (m & s0 & h0 & a & c0 & u0 & s1 & r & Hm & H0' & H1' & H2' & H3' & ->) Hr.
  exists m, s0, h0, a, c0, u0, s1, r. repeat (split; [first [done|lia|by eapply later_call]|]). done.
Qed.

Lemma pending_origin n s p : reachable n s -> pending_of s = Some p -> proposed_by n s p.
Proof.
  induction 1 as [h ev|n s h call c u s' Hs IH Hr] in p |- *; [done|]. intros Hp.
  destruct (moves_proposal call) eqn:E.
  - destruct call; try discriminate E; cbn [run] in Hr.
    + pose proof Hr as Hr'. apply propose_ok in Hr as (r & Hrec & _ & Hp'). rewrite Hp in Hp'. injection Hp' as ->.
      exists n, s, h, admin, c, u, s', r. repeat (split; [first [done|lia|apply later_refl]|]). done.
    + apply execute_ok in Hr as (? & ? & _ & _ & _ & Hn & _). congruence.
    + unfold Credit.withdraw_treasury in Hr.
      apply mbind_ok in Hr as (x & s1 & _ & Hr). minv Hr. apply execute_ok in Hr as (? & ? & _ & _ & _ & Hn & _). congruence.
  - eapply proposed_later; [apply IH|exact Hr]. rewrite <- Hp.
    apply other_pending in E. specialize (E _ _ _ _ Hr). unfold pending_of.
    by rewrite (frame_inst K_pending _ _ _ E).
Qed.

(** ** Who moves the treasury balance *)
Definition grows s s' : Prop := treasury_of s <= treasury_of s'.

#[export] Instance grows_preorder : PreOrder grows.
Proof. split; [intros s|intros s1 s2 s3]; unfold grows; lia. Qed.

Definition K_treasury (a : area) (k : StorageKey) : bool :=
  match a, k with Inst, KData DK.TreasuryBalance => true | _, _ => false end.

Lemma frame_grows {A} (m : Soroban.M (C := CreditContract) A) : steps (frame K_treasury) m -> steps grows m.
Proof. intros Hm c s a s' Hr. unfold grows, treasury_of. by rewrite (frame_inst K_treasury _ _ _ (Hm _ _ _ _ Hr)). Qed.

Lemma accrue_grows b fee : steps grows (accrue_protocol_fee b fee).
Proof.
  intros c s u s' Hr. unfold accrue_protocol_fee in Hr. destruct (fee <=? 0); [by minv Hr|].
  mstep Hr. subst. mstep Hr. apply mbind_ok in Hr as ([] & s1 & Ht & Hr).
  assert (grows s s1) as ->.
  { match type of Ht with (if 0 <? ?t then _ else _) _ _ = _ => destruct (Z.le_gt_cases 0 t) as [Hle|Hlt] end.
    - apply add_treasury_ok in Ht as [Ht _]; [unfold grows; lia|done].
    - rewrite (proj2 (Z.ltb_ge _ _)) in Ht by lia. by minv Ht. }
  eapply frame_grows; [|exact Hr]. kframe.
Qed.

(** [grow_tac] follows a run to its fee bookings; the rest leaves the balance alone. *)
Ltac grow_tac :=
  cbv zeta;
  lazymatch goal with
  | |- steps _ (mbind _ _) => apply steps_bind; [apply _|grow_tac|intros ?; grow_tac]
  | |- steps _ (if ?b then _ else _) => destruct b; grow_tac
  | |- steps _ (match ?x with _ => _ end) => destruct x; grow_tac
  | |- steps _ (accrue_protocol_fee _ _) => apply accrue_grows
  | |- _ => apply frame_grows; kframe
  end.

Lemma repay_grows b amt : steps grows (Credit.repay_credit b amt).
Proof.
  unfold Credit.repay_credit, with_reentrancy_guard, Credit.repay_transfers, Credit.collect_late_fee. grow_tac.
Qed.

(** The administrator a call lets draw on the treasury. *)
Definition treasurer (call : Call) : option Address :=
  match call with
  | CExecuteTreasuryWithdrawal a | CWithdrawTreasury a => Some a
  | _ => None
  end.

Lemma other_grows call : treasurer call = None -> steps grows (run call).
Proof.
  destruct call; try done; intros _; cbn [run];
    first [apply repay_grows|apply frame_grows; kframe].
Qed.

(** The signatures a withdrawal asks for: [withdraw_treasury] checks the
    administrator itself and once more through [execute_treasury_withdrawal]. *)
Definition countersigned (call : Call) (a : Address) (h h1 : host) : Prop :=
  match call with
  | CWithdrawTreasury _ => exists h0, host_require_auth a h = Some h0 /\ host_require_auth a h0 = Some h1
  | _ => host_require_auth a h = Some h1
  end.

Lemma withdrawal_ok call a h c s u s' :
  treasurer call = Some a -> run call c (set_host h s) = Ok u s' ->
  admin_of s = Some a /\ exists p h1,
    pending_of s = Some p /\ tp_execute_after p <= ledger_timestamp c /\
    0 <= tp_amount p <= treasury_of s /\
    pending_of s' = None /\ treasury_of s' = treasury_of s - tp_amount p /\
    countersigned call a h h1 /\
    paid_out c p h1 (host_state s') (inst s DK.LiquidityToken).
Proof.
  destruct call; try done; intros [= ->] Hr; cbn [run countersigned] in *.
  - pose proof Hr as Ha. apply mbind_ok in Ha as (x & s1 & (_ & Hadm & _)%admin_argument_ok & _).
    split; [exact Hadm|]. apply execute_ok in Hr as (p & h1 & Hr). by exists p, h1.
  - unfold Credit.withdraw_treasury in Hr.
    apply mbind_ok in Hr as (x & s1 & (_ & Hadm & h0 & Hh0 & ->)%admin_argument_ok & Hr).
    split; [exact Hadm|]. minv Hr.
    apply execute_ok in Hr as (p & h1 & H1' & H2' & H3' & H4' & H5' & H6' & H7'). exists p, h1.
    repeat (split; [first [done|by exists h0]|]). done.
Qed.

(** On a host that accepts one signature of an address per invocation,
    [withdraw_treasury] cannot succeed: it asks for the administrator's twice. *)
Lemma withdraw_treasury_fails_once a h c s u s' :
  (forall h1 h2, host_require_auth a h1 = Some h2 -> host_require_auth a h2 = None) ->
  run (CWithdrawTreasury a) c (set_host h s) = Ok u s' -> False.
Proof.
  intros Honce Hr. destruct (withdrawal_ok (CWithdrawTreasury a) a _ _ _ _ _ eq_refl Hr) as (_ & p & h1 & _ & _ & _ & _ & _ & Hs & _).
  destruct Hs as (h0 & H1' & H2'). rewrite (Honce _ _ H1') in H2'. done.
Qed.

End withdrawals.

(** ** Witnesses: a repayment after a year, and the withdrawal of its fee *)
Import Concrete.

Definition charged : St :=
  step admin (CSetTreasury admin reserve) 300 (step admin (CSetProtocolFeeBps 1000) 300 drawn).

(** A year after the draw. *)
Definition year : Z := 31536200.

(** A schedule of monthly instalments of 10000 with a flat fee of 7, set before the
    repayment. *)
Definition scheduled : St :=
  step admin (CSetLateFeeFlat 7) 400 (step admin (CSetRepaymentSchedule alice 10000 2592000 1000) 400 charged).

Definition repaying : St := signed_by [alice] scheduled.

Definition repaid_late : St := step alice (CRepayCredit alice 30000) year scheduled.

Definition repaid_state : St := step alice (CRepayCredit alice 30000) year charged.

Definition proposed_state : St := step admin (CProposeTreasuryWithdrawal admin) year repaid_state.

Definition paid_state : St := step admin (CExecuteTreasuryWithdrawal admin) (year + 86400) proposed_state.

Lemma scheduled_line : line_of scheduled alice = Some (alice_line 50000 200).
Proof. vm_compute. reflexivity. Qed.

Lemma scheduled_schedule : schedule_of scheduled alice = Some (mkSchedule 10000 2592000 1000).
Proof. vm_compute. reflexivity. Qed.

Lemma repaying_typed : repay_typed repaying alice.
Proof.
  split; [by vm_compute|by vm_compute| |]; intros l Hl.
  - change (line_of scheduled alice = Some l) in Hl. rewrite scheduled_line in Hl. by injection Hl as <-.
  - change (schedule_of scheduled alice = Some l) in Hl. rewrite scheduled_schedule in Hl. by injection Hl as <-.
Qed.


Lemma reachable_proposed : reachable 10 proposed_state.
Proof.
  do 4 (apply reachable_step; [|vm_compute; reflexivity]). exact reachable_drawn.
Qed.

