(* ===== verification/AdminTheorems.v ===== *)
(** * The vault's and the risk admin contract's guarantees

    The vault's balances as a function of the history (legacy entries included) and
    the branches of its two operations; the spacing of recorded risk actions. *)
From S2P Require Import Prelude Soroban History Vault RiskAdmin Scenario.

(** ** The vault *)
Section vault.
Context `{H : Host}.
Abbreviation VS := (State (C := VaultContract)).
Implicit Types (s : VS).

(** The balance a user has, versioned or legacy. *)
Definition vault_balance s (u : Address) : Z :=
  match (persistent_store s (VkVersionedBalance u) : option VersionedBalance) with
  | Some e => vb_amount e
  | None => unwrap_or (persistent_store s (VkBalance u) : option Z) 0
  end.

Lemma load_balance_ok u c s b s' :
  Vault.load_balance u c s = Ok b s' ->
  b = vault_balance s u /\ host_state s' = host_state s /\ instance_store s' = instance_store s /\
  (forall u', vault_balance s' u' = vault_balance s u').
Proof.
  unfold Vault.load_balance. intros Hr. mstep Hr. subst. mstep Hr.
  - apply mret_ok in Hr as [-> ->]. unfold vault_balance at 1. by rewrite Heqo.
  - mstep Hr. subst. mstep Hr.
    + srun Hr. split; [unfold vault_balance; by rewrite Heqo, Heqo0|]. do 2 (split; [done|]). intros u'. unfold vault_balance.
      destruct (decide (u' = u)) as [->|Hne]; [sput; by rewrite Heqo, Heqo0|].
      cbn. by rewrite !store_remove_ne, !store_put_ne by congruence.
    + apply mret_ok in Hr as [-> ->]. unfold vault_balance at 1. by rewrite Heqo, Heqo0.
Qed.

Lemma store_balance_ok u b c s x s' :
  Vault.store_balance u b c s = Ok x s' ->
  host_state s' = host_state s /\
  (forall u', vault_balance s' u' = if decide (u' = u) then b else vault_balance s u').
Proof.
  unfold Vault.store_balance. intros Hr. apply pset_ok in Hr as ->. split; [done|]. intros u'.
  unfold vault_balance. case_decide as E; [subst; by sput|]. cbn. by rewrite !store_put_ne by congruence.
Qed.

(** What a call adds to its user's balance. *)
Definition vault_flow (u : Address) (call : VCall) : Z :=
  match call with
  | VDeposit u' a => if decide (u' = u) then a else 0
  | VWithdraw u' a => if decide (u' = u) then - a else 0
  end.

Definition vault_user (call : VCall) : Address := match call with VDeposit u _ | VWithdraw u _ => u end.

Definition vault_amount (call : VCall) : Z := match call with VDeposit _ a | VWithdraw _ a => a end.

Lemma run_vault_ok call c s x s' :
  run_vault call c s = Ok x s' ->
  0 < vault_amount call /\ host_require_auth (vault_user call) (host_state s) = Some (host_state s') /\
  forall u, vault_balance s' u = vault_balance s u + vault_flow u call.
Proof.
  assert (forall (u : Address) (f : Z -> option Z) (d a : Z) (e : CollateralError),
    (forall b r, f b = Some r -> r = b + d) ->
    (require_auth u ;; panic_if (C := VaultContract) (a <=? 0) CeInvalidAmount ;; let* b := Vault.load_balance u in
     let* r := or_panic (C := VaultContract) (f b) e in Vault.store_balance u r) c s = Ok x s' ->
    0 < a /\ host_require_auth u (host_state s) = Some (host_state s') /\
    forall u', vault_balance s' u' = vault_balance s u' + (if decide (u = u') then d else 0)) as Hcall.
  { intros u f d a e Hf Hr. apply mbind_ok in Hr as ([] & s1 & H1 & Hr). apply require_auth_ok in H1 as (h & Hh & ->).
    mstep Hr. bsimp. apply mbind_ok in Hr as (b & s2 & Hl & Hr). apply load_balance_ok in Hl as (-> & El & _ & Hb).
    mstep Hr. match goal with E : f _ = Some _ |- _ => apply Hf in E as -> end.
    apply store_balance_ok in Hr as [Es Hs]. split; [done|]. split; [rewrite Es, El; done|]. intros u'.
    rewrite Hs, Hb. change (vault_balance (set_host h s)) with (vault_balance s).
    repeat case_decide; subst; (done || lia || congruence). }
  destruct call as [u a|u a]; cbn [run_vault vault_amount vault_user vault_flow]; intros Hr.
  - apply (Hcall u (fun b => checked_i128 (b + a)) a a CeOverflow) in Hr; [done|]. intros b r E. by chk.
  - apply (Hcall u (fun b => checked_i128 (b - a)) (- a) a CeInsufficientCollateralBalance) in Hr; [done|].
    intros b r E. chk. lia.
Qed.

(** C34. The vault is a ledger: from any stores, legacy entries included, each user's
    balance after a history is the balance before plus their deposits less their
    withdrawals; every call needs its user's signature and a positive amount. *)
Theorem vault_ledger tr s0 s :
  history run_vault tr s0 s ->
  (forall u, vault_balance s u = vault_balance s0 u + sumZ (vault_flow u <$> tr)) /\
  forall call c x s', run_vault call c s = Ok x s' ->
    0 < vault_amount call /\ is_Some (host_require_auth (vault_user call) (host_state s)).
Proof.
  intros Hr. split; [|intros call c x s' (? & Ha & _)%run_vault_ok; split; [done|by eexists]].
  induction Hr as [s|tr s0 s h call c r s' _ IH Hr]; intros u; [unfold sumZ; cbn; lia|].
  apply run_vault_ok in Hr as (_ & _ & Hb). rewrite Hb, fmap_app, sumZ_app.
  change (vault_balance (set_host h s) u) with (vault_balance s u). rewrite IH. unfold sumZ. cbn. lia.
Qed.

Lemma load_balance_runs u c s : exists s1, Vault.load_balance u c s = Ok (vault_balance s u) s1.
Proof.
  unfold Vault.load_balance, mbind, Soroban.pget, Soroban.pset, Soroban.premove, mret, vault_balance.
  destruct (persistent_store s (VkVersionedBalance u)); [by eexists|].
  destruct (persistent_store s (VkBalance u)); by eexists.
Qed.

(** A withdrawal never compares the amount with the balance: with the user's
    signature every positive amount goes through down to the edge of [i128]. *)
Lemma vault_overdraws u a c s h :
  host_require_auth u (host_state s) = Some h -> 0 < a -> i128_min <= vault_balance s u - a <= i128_max ->
  exists s', run_vault (VWithdraw u a) c s = Ok tt s' /\ vault_balance s' u = vault_balance s u - a.
Proof.
  intros Hh Ha Hb. assert (exists s', run_vault (VWithdraw u a) c s = Ok tt s') as [s' E].
  { cbn [run_vault]. unfold Vault.withdraw. rewrite (mbind_run _ _ _ _ _ _ (require_auth_run _ _ _ _ Hh)).
    unfold panic_if. rewrite (proj2 (Z.leb_gt _ _)) by lia. rewrite (mbind_run _ _ _ _ tt (set_host h s)) by done.
    destruct (load_balance_runs u c (set_host h s)) as [s1 Hl]. rewrite (mbind_run _ _ _ _ _ _ Hl).
    change (vault_balance (set_host h s)) with (vault_balance s). rewrite checked_in by done. by eexists. }
  exists s'. split; [done|]. apply run_vault_ok in E as (_ & _ & Hf). rewrite Hf. cbn. rewrite decide_True by done. lia.
Qed.
End vault.

(** ** The risk admin contract *)
Section risk_admin.
Context `{H : Host}.
Abbreviation RS := (State (C := RiskContract)).
Implicit Types (s : RS).

Definition rinst s (k : RiskKey) : option (risk_interp (RiskKey_type k)) := instance_store s k.

Definition cooldown_of s : Z := unwrap_or (rinst s RkCool) 0.

Definition last_action_of s : Z := unwrap_or (rinst s RkLast) 0.

Definition risk_paused s : bool := unwrap_or (rinst s RkPaused) false.

#[export] Instance reads_rbump : Reads RiskAdmin.bump_instance_ttl (fun _ _ => tt).
Proof. apply reads_iextend. Qed.

#[export] Instance reads_cool : Reads RiskAdmin.get_risk_admin_cooldown_seconds (fun _ s => cooldown_of s).
Proof. intros c s a s' Hr. unfold RiskAdmin.get_risk_admin_cooldown_seconds in Hr. by minv Hr. Qed.

#[export] Instance reads_last : Reads RiskAdmin.get_last_risk_admin_action_ts (fun _ s => last_action_of s).
Proof. intros c s a s' Hr. unfold RiskAdmin.get_last_risk_admin_action_ts in Hr. by minv Hr. Qed.

Lemma elapsed_ok c s u s' :
  RiskAdmin.assert_risk_admin_cooldown_elapsed c s = Ok u s' ->
  s' = s /\ (cooldown_of s <> 0 -> last_action_of s <> 0 ->
             sat_u64 (last_action_of s + cooldown_of s) <= ledger_timestamp c).
Proof.
  unfold RiskAdmin.assert_risk_admin_cooldown_elapsed. intros Hr. minv Hr; split; try done; intros; bsimp; lia.
Qed.

Definition risk_admin_signed s : Prop :=
  exists a, rinst s RkAdmin = Some a /\ is_Some (host_require_auth a (host_state s)).

Lemma risk_admin_auth_ok c s u s' :
  RiskAdmin.require_admin_auth c s = Ok u s' -> risk_admin_signed s /\ exists h, s' = set_host h s.
Proof. unfold RiskAdmin.require_admin_auth. intros Hr. srun Hr. split; [|by eexists]. eexists. split; [eassumption|by eexists]. Qed.

Lemma risk_not_paused_ok c s u s' : RiskAdmin.assert_not_paused c s = Ok u s' -> risk_paused s = false /\ s' = s.
Proof. unfold RiskAdmin.assert_not_paused. intros Hr. by minv Hr. Qed.

Lemma record_ok c s u s' :
  RiskAdmin.record_risk_admin_action c s = Ok u s' ->
  risk_paused s = false /\ risk_admin_signed s /\
  (cooldown_of s <> 0 -> last_action_of s <> 0 ->
   sat_u64 (last_action_of s + cooldown_of s) <= ledger_timestamp c) /\
  last_action_of s' = ledger_timestamp c /\ cooldown_of s' = cooldown_of s.
Proof.
  unfold RiskAdmin.record_risk_admin_action. intros Hr.
  apply mbind_ok in Hr as ([] & s1 & H1 & Hr). apply risk_not_paused_ok in H1 as [Hp ->].
  apply mbind_ok in Hr as ([] & s1 & H1 & Hr). apply risk_admin_auth_ok in H1 as [Ha [h ->]].
  apply mbind_ok in Hr as ([] & s1 & H1 & Hr). apply elapsed_ok in H1 as [-> He].
  unfold RiskAdmin.set_last_risk_admin_action_ts, RiskAdmin.publish_risk_admin_action_recorded in Hr. srun Hr.
  do 2 (split; [done|]). split; [exact He|]. unfold last_action_of, cooldown_of, rinst. by sput.
Qed.

(** Which calls touch the two cool-off entries. *)
Lemma run_risk_keeps call c s u s' :
  run_risk call c s = Ok u s' -> match call with RRecord | RSetCooldown _ => False | _ => True end ->
  last_action_of s' = last_action_of s /\ cooldown_of s' = cooldown_of s.
Proof.
  destruct call; cbn [run_risk]; intros Hr Hc; try done; unfold last_action_of, cooldown_of, rinst.
  - unfold RiskAdmin.init, RiskAdmin.publish_risk_initialized in Hr. srun Hr. done.
  - unfold RiskAdmin.set_paused, RiskAdmin.publish_risk_paused in Hr.
    apply mbind_ok in Hr as ([] & s1 & H1 & Hr). apply risk_admin_auth_ok in H1 as [Ha [h ->]]. srun Hr. done.
Qed.

(** Recorded risk actions are spaced by the cool-off: after a record at time
    [t > 0] under cool-off [d > 0], along any history that changes neither the
    cool-off nor records in between, the next record succeeds only from [t + d] on,
    while the contract is not paused and with the stored admin's signature. *)
Theorem risk_actions_spaced c0 s0 u0 s1 tr s2 h c u s3 :
  run_risk RRecord c0 s0 = Ok u0 s1 -> 0 < ledger_timestamp c0 -> 0 < cooldown_of s1 ->
  history run_risk tr s1 s2 ->
  Forall (fun call => match call with RRecord | RSetCooldown _ => False | _ => True end) tr ->
  run_risk RRecord c (set_host h s2) = Ok u s3 ->
  sat_u64 (ledger_timestamp c0 + cooldown_of s1) <= ledger_timestamp c /\
  risk_paused s2 = false /\ risk_admin_signed (set_host h s2).
Proof.
  cbn [run_risk]. intros H0 Ht Hd Hh Hf Hr. apply record_ok in H0 as (_ & _ & _ & Hl & _).
  apply record_ok in Hr as (Hp & Ha & Hs & _).
  change (cooldown_of (set_host h s2)) with (cooldown_of s2) in Hs.
  change (last_action_of (set_host h s2)) with (last_action_of s2) in Hs.
  assert (last_action_of s2 = last_action_of s1 /\ cooldown_of s2 = cooldown_of s1) as [El Ec].
  { clear Hl Hs Ha Hp Hd. induction Hh as [s|tr s1 s h1 call c1 r s' _ IH Hr]; [done|].
    apply Forall_app in Hf as [Hf Hc]. rewrite Forall_singleton in Hc. destruct (IH Hf) as [I1 I2].
    apply run_risk_keeps in Hr as [K1 K2]; [|done]. by rewrite K1, K2. }
  split; [|done]. rewrite El, Ec, Hl in Hs. apply Hs; lia.
Qed.

(** [init] has no guard: whoever signs for an address becomes the admin, at any time. *)
Lemma risk_init_takes_over a c s h :
  host_require_auth a (host_state s) = Some h ->
  exists s', run_risk (RInit a) c s = Ok tt s' /\ rinst s' RkAdmin = Some a.
Proof.
  intros Hh. cbn [run_risk]. unfold RiskAdmin.init, require_auth, host_call, mbind. rewrite Hh. cbn.
  eexists. split; [reflexivity|]. unfold rinst. by sput.
Qed.
End risk_admin.

(** ** Witnesses *)
Import Concrete.

Module Desk.
Abbreviation DSt := (State (C := VaultContract)).

Definition dsigned (l : list Address) (s : DSt) : DSt := set_host (C := VaultContract) (mkBank l [] []) s.

(** Alice's balance is a legacy entry. *)
Definition legacy : DSt :=
  mkState (C := VaultContract) store_empty (store_put (H := VaultContract) (VkBalance alice) 70 store_empty) (mkBank [] [] []) [].

Definition vstep (call : VCall) (s : DSt) : DSt := next run_vault call (at_time 10) (dsigned [alice] s).

Definition moved_out : DSt := vstep (VWithdraw alice 40) (vstep (VDeposit alice 30) legacy).

Abbreviation ASt := (State (C := RiskContract)).

Definition rsigned (l : list Address) (s : ASt) : ASt := set_host (C := RiskContract) (mkBank l [] []) s.

Definition rstep (call : RCall) (t : Z) (s : ASt) : ASt := next run_risk call (at_time t) (rsigned [admin] s).

Definition guarded_desk : ASt :=
  rstep (RSetCooldown 60) 10 (rstep (RInit admin) 10 (mkState (C := RiskContract) store_empty store_empty (mkBank [] [] []) [])).

Definition recorded : ASt := rstep RRecord 100 guarded_desk.

Definition resumed : ASt := rstep (RSetPaused false) 120 (rstep (RSetPaused true) 110 recorded).
End Desk.
Import Desk.

(** C34: 70 legacy, 30 deposited, 40 withdrawn. *)
Lemma vault_ledger_witness :
  vault_balance moved_out alice = 70 + sumZ (vault_flow alice <$> [VDeposit alice 30; VWithdraw alice 40]).
Proof.
  destruct (vault_ledger (([] ++ [VDeposit alice 30]) ++ [VWithdraw alice 40]) legacy moved_out) as [Hb _].
  - repeat (eapply history_next; [|vm_compute; reflexivity]). apply hist_start.
  - rewrite Hb. vm_compute. reflexivity.
Defined.

(** Recorded at 100 with a minute's cool-off, paused and resumed, recorded at 160. *)
Lemma risk_actions_spaced_witness : sat_u64 (100 + cooldown_of recorded) <= 160.
Proof.
  assert (result run_risk RRecord (at_time 100) (rsigned [admin] guarded_desk) = Some tt) as H1 by (vm_compute; reflexivity).
  assert (result run_risk RRecord (at_time 160) (rsigned [admin] resumed) = Some tt) as H2 by (vm_compute; reflexivity).
  refine (proj1 (risk_actions_spaced (at_time 100) (rsigned [admin] guarded_desk) tt recorded
    (([] ++ [RSetPaused true]) ++ [RSetPaused false]) resumed (mkBank [admin] [] []) (at_time 160) tt
    (next run_risk RRecord (at_time 160) (rsigned [admin] resumed)) _ _ _ _ _ _)).
  - exact (run_next run_risk _ _ _ _ H1).
  - reflexivity.
  - vm_compute. reflexivity.
  - repeat (eapply history_next; [|vm_compute; reflexivity]). apply hist_start.
  - repeat constructor.
  - exact (run_next run_risk _ _ _ _ H2).
Defined.
