(* ===== verification/EscrowTheorems.v ===== *)
(** * The escrow's guarantees

    The books of a campaign, refunds, the split of a withdrawal, the two-step fee
    change, and what the missing authorisation of [execute_withdrawal] allows. *)
From S2P Require Import Prelude Soroban History Escrow Scenario.

Section escrow.
Context `{H : Host}.
Abbreviation ES := (State (C := EscrowContract)).
Implicit Types (s : ES).

Definition einst s (k : EscrowKey) : option (escrow_interp (EscrowKey_type k)) := instance_store s k.

Definition epers s (k : EscrowKey) : option (escrow_interp (EscrowKey_type k)) := persistent_store s k.

Definition balance_of s a : Z := unwrap_or (epers s (EkBalances a)) 0.

Definition total_raised_of s : Z := unwrap_or (einst s EkTotalRaised) 0.

Definition approved_of s : Z := unwrap_or (einst s EkApprovedWithdrawal) 0.

Definition fee_bps_of s : Z := unwrap_or (einst s EkPlatformFeeBps) 0.

#[export] Instance reads_bump : Reads Escrow.bump_instance (fun _ _ => tt).
Proof. apply reads_iextend. Qed.

#[export] Instance reads_bump_persistent k : Reads (Escrow.bump_persistent k) (fun _ _ => tt).
Proof. by intros c s [] s' [_ ->]%pextend_ttl_ok. Qed.

Lemma escrow_require_admin_ok c s a s' :
  Escrow.require_admin c s = Ok a s' ->
  einst s EkAdmin = Some a /\ exists h, host_require_auth a (host_state s) = Some h /\ s' = set_host h s.
Proof. unfold Escrow.require_admin. intros Hr. srun Hr. by eauto. Qed.

(** Only the instance entries in [ki] and the balances of [ab] may change. *)
Definition touches (ki : list EscrowKey) (ab : option Address) s s' : Prop :=
  (forall k, k ∉ ki -> einst s' k = einst s k) /\
  (forall a, ab <> Some a -> balance_of s' a = balance_of s a).

(** [eff] evaluates the observations above on an updated state. *)
Ltac eff :=
  unfold touches, balance_of, total_raised_of, approved_of, fee_bps_of, einst, epers in *;
  sput; cbn [unwrap_or] in *;
  first [ done | lia
        | split; [ intros k Hk; repeat first [ rewrite store_put_ne by (intros <-; apply Hk; set_solver)
                                      | rewrite store_remove_ne by (intros <-; apply Hk; set_solver) ]; done
                 | intros; repeat rewrite store_put_ne by congruence; done ] ].

Lemma escrow_deposit_ok a amt c s u s' :
  Escrow.deposit a amt c s = Ok u s' ->
  exists deadline asset h, einst s EkDeadline = Some deadline /\ ledger_timestamp c <= deadline /\
    einst s EkAsset = Some asset /\ host_require_auth a (host_state s) = Some h /\
    token_transfer (current_contract c) asset a (current_contract c) amt h = Some (host_state s') /\
    balance_of s' a = balance_of s a + amt /\ total_raised_of s' = total_raised_of s + amt /\
    touches [EkTotalRaised] (Some a) s s'.
Proof.
  unfold Escrow.deposit. intros Hr. srun Hr. chk. subst.
  do 3 eexists. repeat (split; [eassumption|]). split; [eff|]. split; [eff|]. eff.
Qed.

Lemma escrow_approve_ok amt c s u s' :
  Escrow.approve_withdrawal amt c s = Ok u s' ->
  exists a h, einst s EkAdmin = Some a /\ host_require_auth a (host_state s) = Some h /\
    host_state s' = h /\ approved_of s' = approved_of s + amt /\ touches [EkApprovedWithdrawal] None s s'.
Proof.
  unfold Escrow.approve_withdrawal. intros Hr.
  apply mbind_ok in Hr as (a & s1 & Ha & Hr). apply escrow_require_admin_ok in Ha as (Ha & h & Hh & ->).
  srun Hr. chk. subst. exists a, h. do 2 (split; [done|]). split; [done|]. split; eff.
Qed.

Lemma escrow_initialize_ok a cid target deadline asset bps rcp c s u s' :
  Escrow.initialize a cid target deadline asset bps rcp c s = Ok u s' ->
  einst s EkIsInitialized = None /\ bps <= MAX_FEE_BPS /\ host_state s' = host_state s /\
  einst s' EkIsInitialized = Some true /\ fee_bps_of s' = bps /\ total_raised_of s' = 0 /\
  approved_of s' = 0 /\
  touches [EkAdmin; EkCampaignId; EkTarget; EkDeadline; EkAsset; EkTotalRaised; EkApprovedWithdrawal;
           EkIsInitialized; EkPlatformFeeBps; EkPlatformFeeRecipient] None s s'.
Proof.
  unfold Escrow.initialize. intros Hr. srun Hr. split.
  - unfold einst. by destruct (instance_store s EkIsInitialized).
  - split; [lia|]. split; [done|]. repeat (split; [eff|]). eff.
Qed.

Lemma escrow_propose_ok bps c s u s' :
  Escrow.propose_fee_change bps c s = Ok u s' ->
  is_Some (einst s EkAdmin) /\ bps <= MAX_FEE_BPS /\ einst s' EkPendingFeeBps = Some bps /\ touches [EkPendingFeeBps] None s s'.
Proof.
  unfold Escrow.propose_fee_change. intros Hr.
  apply mbind_ok in Hr as (a & s1 & Ha & Hr). apply escrow_require_admin_ok in Ha as (Ha & h & Hh & ->).
  srun Hr. split; [by exists a|]. split; [lia|]. split; eff.
Qed.

Lemma escrow_confirm_ok c s u s' :
  Escrow.confirm_fee_change c s = Ok u s' ->
  exists bps, is_Some (einst s EkAdmin) /\ einst s EkPendingFeeBps = Some bps /\ bps <= MAX_FEE_BPS /\
    einst s' EkPendingFeeBps = None /\ fee_bps_of s' = bps /\
    touches [EkPendingFeeBps; EkPlatformFeeBps] None s s'.
Proof.
  unfold Escrow.confirm_fee_change. intros Hr.
  apply mbind_ok in Hr as (a & s1 & Ha & Hr). apply escrow_require_admin_ok in Ha as (Ha & h & Hh & ->).
  srun Hr. eexists. split; [by exists a|]. split; [eassumption|]. split; [lia|]. split; [eff|]. split; eff.
Qed.

Lemma escrow_cancel_ok c s u s' :
  Escrow.cancel_fee_change c s = Ok u s' ->
  is_Some (einst s EkAdmin) /\ einst s' EkPendingFeeBps = None /\ touches [EkPendingFeeBps] None s s'.
Proof.
  unfold Escrow.cancel_fee_change. intros Hr.
  apply mbind_ok in Hr as (a & s1 & Ha & Hr). apply escrow_require_admin_ok in Ha as (Ha & h & Hh & ->).
  srun Hr. split; [by exists a|]. split; eff.
Qed.

(** The token movements of a withdrawal. *)
Definition released (self asset to : Address) (recipient : option Address) (net fee : Z) (h h' : host) : Prop :=
  exists h1, (if 0 <? net then token_transfer self asset self to net h = Some h1 else h1 = h) /\
    (if 0 <? fee then exists r, recipient = Some r /\ token_transfer self asset self r fee h1 = Some h'
     else h' = h1).

Lemma escrow_pay_release_ok asset to net fee c s u s' :
  Escrow.pay_release asset to net fee c s = Ok u s' ->
  released (current_contract c) asset to (einst s EkPlatformFeeRecipient) net fee (host_state s) (host_state s') /\
  s' = set_host (host_state s') s.
Proof.
  unfold Escrow.pay_release, released. intros Hr. mstep Hr. subst.
  apply mbind_ok in Hr as ([] & s1 & H1 & Hr).
  assert (exists h1, s1 = set_host h1 s /\
    (if 0 <? net then token_transfer (current_contract c) asset (current_contract c) to net (host_state s) = Some h1
     else h1 = host_state s)) as (h1 & -> & Hn).
  { destruct (0 <? net); [srun H1; by eauto|]. apply mret_ok in H1 as [_ ->].
    exists (host_state s). split; [by destruct s|done]. }
  destruct (0 <? fee); [|minv Hr; split; [by exists h1|by destruct s]].
  srun Hr. split; [|done]. exists h1. split; [done|]. by eauto.
Qed.

Lemma escrow_execute_ok to amt c s u s' :
  Escrow.execute_withdrawal to amt c s = Ok u s' ->
  exists asset fee, einst s EkAsset = Some asset /\ amt <= approved_of s /\
    fee = Z.quot (amt * fee_bps_of s) 10000 /\
    released (current_contract c) asset to (einst s EkPlatformFeeRecipient) (amt - fee) fee
      (host_state s) (host_state s') /\
    approved_of s' = approved_of s - amt /\ touches [EkApprovedWithdrawal] None s s'.
Proof.
  unfold Escrow.execute_withdrawal, Escrow.fee_amount_of. intros Hr.
  do 8 (mstep Hr; subst; cbv zeta in Hr). destruct (checked_i128 (amt * _)) eqn:E; [|done]. chk. simplify_eq.
  repeat match goal with E : Some _ = Some _ |- _ => injection E as <- end.
  apply mbind_ok in Hr as ([] & s1 & Hp & Hr). apply escrow_pay_release_ok in Hp as [Hp Hs1].
  destruct s1 as [i p h ev]. unfold set_host in Hs1. injection Hs1 as -> -> ->. srun Hr. chk. subst.
  bsimp. do 2 eexists. split; [eassumption|]. split; [eff|]. split; [reflexivity|]. split; [exact Hp|].
  split; eff.
Qed.

Lemma escrow_refund_ok a c s u s' :
  Escrow.refund a c s = Ok u s' ->
  exists deadline target asset, einst s EkDeadline = Some deadline /\ deadline <= ledger_timestamp c /\
    einst s EkTarget = Some target /\ total_raised_of s < target /\ einst s EkAsset = Some asset /\
    0 < balance_of s a /\
    token_transfer (current_contract c) asset (current_contract c) a (balance_of s a) (host_state s)
      = Some (host_state s') /\
    balance_of s' a = 0 /\ total_raised_of s' = total_raised_of s - balance_of s a /\
    touches [EkTotalRaised] (Some a) s s'.
Proof.
  unfold Escrow.refund. intros Hr. srun Hr. chk. subst.
  do 3 eexists. repeat (split; [eassumption || eff|]). eff.
Qed.

(** ** The books *)
Record Books s : Prop := {
  bk_total : total_of (balance_of s) (total_raised_of s);
  bk_fee : fee_bps_of s <= MAX_FEE_BPS;
  bk_pending : forall bps, einst s EkPendingFeeBps = Some bps -> bps <= MAX_FEE_BPS;
  bk_start : einst s EkIsInitialized = None ->
    einst s EkAdmin = None /\ einst s EkDeadline = None /\ einst s EkAsset = None /\
    approved_of s = 0 /\ forall a, balance_of s a = 0;
}.

Lemma books_set_host h s : Books s -> Books (set_host h s).
Proof. by intros [? ? ? ?]. Qed.

Lemma books_fresh s : fresh s -> Books s.
Proof.
  intros [Hi Hp]. assert (forall k, einst s k = None) as Ei by (intros; unfold einst; by rewrite Hi).
  assert (forall a, balance_of s a = 0) as Eb by (intros; unfold balance_of, epers; by rewrite Hp).
  split; unfold total_raised_of, fee_bps_of, approved_of; rewrite ?Ei; try done. by apply total_of_zero.
Qed.

(** Every call but the initialisation needs an initialised contract. *)
Lemma call_started call c s u s' :
  run_escrow call c s = Ok u s' -> Books s ->
  (forall a cid tgt d ass f r, call <> EInitialize a cid tgt d ass f r) -> is_Some (einst s EkIsInitialized).
Proof.
  intros Hr [_ _ _ B] Hc. destruct (einst s EkIsInitialized) eqn:E; [done|].
  destruct (B eq_refl) as (Ba & Bd & Bs & _). exfalso. destruct call; cbn [run_escrow] in Hr.
  - by eapply Hc.
  - apply escrow_deposit_ok in Hr as (? & ? & ? & ? & _). congruence.
  - apply escrow_approve_ok in Hr as (? & ? & ? & _). congruence.
  - apply escrow_propose_ok in Hr as ([? ?] & _). congruence.
  - apply escrow_confirm_ok in Hr as (? & [? ?] & _). congruence.
  - apply escrow_cancel_ok in Hr as ([? ?] & _). congruence.
  - apply escrow_execute_ok in Hr as (? & ? & ? & _). congruence.
  - apply escrow_refund_ok in Hr as (? & ? & ? & ? & _). congruence.
Qed.

Lemma books_keep ki s s' :
  touches ki None s s' -> EkTotalRaised ∉ ki -> EkIsInitialized ∉ ki -> is_Some (einst s EkIsInitialized) ->
  Books s -> fee_bps_of s' <= MAX_FEE_BPS ->
  (forall bps, einst s' EkPendingFeeBps = Some bps -> bps <= MAX_FEE_BPS) -> Books s'.
Proof.
  intros [Hi Hb] Ht Hn [x Hs] [B1 B2 B3 B4] Hf Hp. split; [|done|done|].
  - assert (total_raised_of s' = total_raised_of s) as -> by (unfold total_raised_of; by rewrite Hi).
    eapply total_of_ext; [|done]. intros. by apply Hb.
  - rewrite Hi by done. congruence.
Qed.

(** A contributor's balance and the total move together. *)
Lemma books_move a d s s' :
  touches [EkTotalRaised] (Some a) s s' -> balance_of s' a = balance_of s a + d ->
  total_raised_of s' = total_raised_of s + d -> is_Some (einst s EkIsInitialized) -> Books s -> Books s'.
Proof.
  intros [Hi Hb] Ea Et [x Hd] [B1 B2 B3 B4]. split.
  - rewrite Et. replace d with (balance_of s' a - balance_of s a) by lia.
    apply total_of_update; [done|]. intros a' Hne. apply Hb. congruence.
  - unfold fee_bps_of in *. rewrite Hi; [done|set_solver].
  - rewrite Hi by set_solver. exact B3.
  - rewrite Hi by set_solver. congruence.
Qed.

Lemma fee_untouched ki ab s s' : touches ki ab s s' -> EkPlatformFeeBps ∉ ki -> fee_bps_of s' = fee_bps_of s.
Proof. intros [Hi _] Hn. unfold fee_bps_of. by rewrite Hi. Qed.

Lemma call_books call c s u s' : run_escrow call c s = Ok u s' -> Books s -> Books s'.
Proof.
  intros Hr HB. pose proof (call_started _ _ _ _ _ Hr HB) as Hst.
  pose proof (bk_fee _ HB) as B2. pose proof (bk_pending _ HB) as B3.
  destruct call; try (specialize (Hst ltac:(discriminate))); cbn [run_escrow] in Hr.
  - apply escrow_initialize_ok in Hr as (Hn & Hb & _ & Hi & Hf & Ht & _ & [Hk Hbal]).
    destruct (bk_start _ HB Hn) as (_ & _ & _ & _ & B5). split.
    + rewrite Ht. apply total_of_zero. intros b. rewrite Hbal by done. apply B5.
    + lia.
    + rewrite Hk by set_solver. exact B3.
    + by rewrite Hi.
  - apply escrow_deposit_ok in Hr as (d & ass & h & _ & _ & _ & _ & _ & Hb & Ht & Hto). by eapply books_move.
  - apply escrow_approve_ok in Hr as (a & h & _ & _ & _ & _ & Hto). eapply books_keep; [exact Hto|set_solver..|exact Hst|exact HB| |].
    + rewrite (fee_untouched _ _ _ _ Hto) by set_solver. done.
    + destruct Hto as [Hi _]. rewrite Hi by set_solver. done.
  - apply escrow_propose_ok in Hr as (_ & Hb & Hp & Hto). eapply books_keep; [exact Hto|set_solver..|exact Hst|exact HB| |].
    + rewrite (fee_untouched _ _ _ _ Hto) by set_solver. done.
    + rewrite Hp. intros ? [= <-]. done.
  - apply escrow_confirm_ok in Hr as (b & _ & _ & Hb & Hp & Hf & Hto). eapply books_keep; [exact Hto|set_solver..|exact Hst|exact HB| |].
    + lia.
    + by rewrite Hp.
  - apply escrow_cancel_ok in Hr as (_ & Hp & Hto). eapply books_keep; [exact Hto|set_solver..|exact Hst|exact HB| |].
    + rewrite (fee_untouched _ _ _ _ Hto) by set_solver. done.
    + by rewrite Hp.
  - apply escrow_execute_ok in Hr as (a & f & _ & _ & _ & _ & _ & Hto). eapply books_keep; [exact Hto|set_solver..|exact Hst|exact HB| |].
    + rewrite (fee_untouched _ _ _ _ Hto) by set_solver. done.
    + destruct Hto as [Hi _]. rewrite Hi by set_solver. done.
  - apply escrow_refund_ok in Hr as (d & tg & ass & _ & _ & _ & _ & _ & _ & _ & Hb & Ht & Hto).
    eapply (books_move _ (- balance_of s contributor)); [exact Hto|lia|lia|done|done].
Qed.

(** Approvals granted less withdrawals executed. *)
Definition approval_flow (call : ECall) : Z :=
  match call with EApprove a => a | EExecute _ a => - a | _ => 0 end.

Lemma call_flow call c s u s' :
  run_escrow call c s = Ok u s' -> Books s -> approved_of s' = approved_of s + approval_flow call.
Proof.
  intros Hr HB. assert (forall ki ab, touches ki ab s s' -> EkApprovedWithdrawal ∉ ki -> approved_of s' = approved_of s + 0) as Hk.
  { intros ki ab [Hi _] Hn. unfold approved_of. rewrite Hi by done. lia. }
  destruct call; cbn [run_escrow approval_flow] in *.
  - apply escrow_initialize_ok in Hr as (Hn & _ & _ & _ & _ & _ & Ha & _).
    destruct (bk_start _ HB Hn) as (_ & _ & _ & B & _). lia.
  - apply escrow_deposit_ok in Hr as (? & ? & ? & _ & _ & _ & _ & _ & _ & _ & Ht). eapply Hk; [exact Ht|set_solver].
  - by apply escrow_approve_ok in Hr as (? & ? & _ & _ & _ & Ha & _).
  - apply escrow_propose_ok in Hr as (_ & _ & _ & Ht). eapply Hk; [exact Ht|set_solver].
  - apply escrow_confirm_ok in Hr as (? & _ & _ & _ & _ & _ & Ht). eapply Hk; [exact Ht|set_solver].
  - apply escrow_cancel_ok in Hr as (_ & _ & Ht). eapply Hk; [exact Ht|set_solver].
  - apply escrow_execute_ok in Hr as (? & ? & _ & _ & _ & _ & Ha & _). lia.
  - apply escrow_refund_ok in Hr as (? & ? & ? & _ & _ & _ & _ & _ & _ & _ & _ & _ & Ht). eapply Hk; [exact Ht|set_solver].
Qed.

Lemma history_books tr s0 s :
  history run_escrow tr s0 s -> fresh s0 ->
  Books s /\ approved_of s = sumZ (approval_flow <$> tr).
Proof.
  induction 1 as [s|tr s0 s h call c r s' _ IH Hr]; intros Hf.
  - split; [by apply books_fresh|]. destruct Hf as [Hi _]. unfold approved_of, einst. by rewrite Hi.
  - destruct (IH Hf) as [HB Ha]. pose proof (books_set_host h _ HB) as HB'.
    split; [by eapply call_books|]. rewrite (call_flow _ _ _ _ _ Hr HB').
    change (approved_of (set_host h s)) with (approved_of s). rewrite Ha, fmap_app, sumZ_app. unfold sumZ. cbn. lia.
Qed.

(** What a contributor can get back only by depositing again. *)
Definition not_deposit (a : Address) (call : ECall) : Prop :=
  match call with EDeposit a' _ => a' <> a | _ => True end.

Lemma call_refunded a call c s u s' :
  run_escrow call c s = Ok u s' -> not_deposit a call -> balance_of s a = 0 -> balance_of s' a = 0.
Proof.
  intros Hr Hn H0. assert (forall ki ab, touches ki ab s s' -> ab <> Some a -> balance_of s' a = 0) as Hk.
  { intros ki ab [_ Hb] Hne. by rewrite Hb. }
  destruct call; cbn [run_escrow not_deposit] in *.
  - apply escrow_initialize_ok in Hr as (_ & _ & _ & _ & _ & _ & _ & Ht). by eapply Hk.
  - apply escrow_deposit_ok in Hr as (? & ? & ? & _ & _ & _ & _ & _ & _ & _ & Ht). eapply Hk; [exact Ht|congruence].
  - apply escrow_approve_ok in Hr as (? & ? & _ & _ & _ & _ & Ht). by eapply Hk.
  - apply escrow_propose_ok in Hr as (_ & _ & _ & Ht). by eapply Hk.
  - apply escrow_confirm_ok in Hr as (? & _ & _ & _ & _ & _ & Ht). by eapply Hk.
  - apply escrow_cancel_ok in Hr as (_ & _ & Ht). by eapply Hk.
  - apply escrow_execute_ok in Hr as (? & ? & _ & _ & _ & _ & _ & Ht). by eapply Hk.
  - apply escrow_refund_ok in Hr as (? & ? & ? & _ & _ & _ & _ & _ & _ & _ & Hz & _ & Ht).
    destruct (decide (contributor = a)) as [->|]; [done|]. eapply Hk; [exact Ht|congruence].
Qed.

Lemma history_refunded a tr s0 s :
  history run_escrow tr s0 s -> Forall (not_deposit a) tr -> balance_of s0 a = 0 -> balance_of s a = 0.
Proof.
  induction 1 as [s|tr s0 s h call c r s' _ IH Hr]; intros Hf H0; [done|].
  apply Forall_app in Hf as [Hf Hc]. rewrite Forall_singleton in Hc.
  exact (call_refunded a _ _ _ _ _ Hr Hc (IH Hf H0)).
Qed.

(** C29. The campaign's books: after any history of a freshly deployed escrow the
    total raised is the sum of the contributors' balances, the active and the
    proposed fee are within the cap, and the amount still approved for withdrawal
    is what was approved less what was executed. *)
Theorem campaign_books tr s0 s :
  fresh s0 -> history run_escrow tr s0 s ->
  total_of (balance_of s) (total_raised_of s) /\ fee_bps_of s <= MAX_FEE_BPS /\
  (forall bps, einst s EkPendingFeeBps = Some bps -> bps <= MAX_FEE_BPS) /\
  approved_of s = sumZ (approval_flow <$> tr).
Proof. intros Hf Hr. by destruct (history_books _ _ _ Hr Hf) as [[? ? ? _] ?]. Qed.

(** C30. A refund happens only after the deadline of a campaign below its target and
    pays the contributor exactly the recorded contribution; it leaves the others'
    balances alone, and until the same contributor deposits again no further refund
    to them succeeds. *)
Theorem refund_once a c s u s' :
  run_escrow (ERefund a) c s = Ok u s' ->
  (exists deadline target asset, einst s EkDeadline = Some deadline /\ deadline <= ledger_timestamp c /\
    einst s EkTarget = Some target /\ total_raised_of s < target /\ einst s EkAsset = Some asset /\
    0 < balance_of s a /\
    token_transfer (current_contract c) asset (current_contract c) a (balance_of s a) (host_state s)
      = Some (host_state s')) /\
  total_raised_of s' = total_raised_of s - balance_of s a /\
  (forall a', a' <> a -> balance_of s' a' = balance_of s a') /\
  forall tr s2 c2 u2 s3, history run_escrow tr s' s2 -> Forall (not_deposit a) tr ->
    run_escrow (ERefund a) c2 s2 <> Ok u2 s3.
Proof.
  cbn [run_escrow]. intros Hr.
  apply escrow_refund_ok in Hr as (d & tg & ass & E1 & E2 & E3 & E4 & E5 & E6 & E7 & Hz & Ht & [_ Hb]).
  split; [by exists d, tg, ass|]. split; [done|]. split; [intros; apply Hb; congruence|].
  intros tr s2 c2 u2 s3 Hh Hn Hr2. apply escrow_refund_ok in Hr2 as (? & ? & ? & _ & _ & _ & _ & _ & Hp & _).
  rewrite (history_refunded _ _ _ _ Hh Hn Hz) in Hp. lia.
Qed.

(** A withdrawal of an approved amount splits it exactly: the fee is the
    configured share rounded down, at most a tenth while the fee is within the cap,
    recipient and fee recipient together receive the whole amount, each in one
    transfer, and the approval shrinks by it. *)
Theorem withdrawal_split to amt c s u s' :
  run_escrow (EExecute to amt) c s = Ok u s' -> 0 <= amt -> 0 <= fee_bps_of s <= MAX_FEE_BPS ->
  exists asset, let fee := amt * fee_bps_of s / 10000 in
    einst s EkAsset = Some asset /\ amt <= approved_of s /\ 0 <= fee /\ 10 * fee <= amt /\
    released (current_contract c) asset to (einst s EkPlatformFeeRecipient) (amt - fee) fee
      (host_state s) (host_state s') /\
    approved_of s' = approved_of s - amt /\ total_raised_of s' = total_raised_of s.
Proof.
  cbn [run_escrow]. intros Hr Ha Hf. unfold MAX_FEE_BPS in Hf.
  apply escrow_execute_ok in Hr as (asset & fee & Hs & Hle & Hfee & Hrel & Hap & [Hi _]).
  rewrite Z.quot_div_nonneg in Hfee by nia. exists asset. cbv zeta. rewrite <- Hfee.
  assert (0 <= fee /\ 10 * fee <= amt) as [? ?] by (subst fee; split; [apply Z.div_pos; nia|];
    pose proof (Z.mul_div_le (amt * fee_bps_of s) 10000); nia).
  split_and!; try done. unfold total_raised_of. rewrite Hi; [done|set_solver].
Qed.

(** Executing a withdrawal needs no signature and accepts a negative amount: with
    an empty transaction anyone raises the approved amount by any [x], moving no
    token, and can then withdraw it.  The approval by the admin bounds nothing. *)
Theorem anyone_raises_approval thief x asset c s :
  einst s EkAsset = Some asset -> 0 <= approved_of s -> 0 < x -> approved_of s + x <= i128_max ->
  0 <= fee_bps_of s <= MAX_FEE_BPS -> x * MAX_FEE_BPS <= i128_max ->
  exists s', run_escrow (EExecute thief (- x)) c s = Ok tt s' /\
    host_state s' = host_state s /\ approved_of s' = approved_of s + x.
Proof.
  intros Ha Hap Hx Hov Hfee Hxf. unfold MAX_FEE_BPS in *.
  set (p := - x * fee_bps_of s). set (fee := Z.quot p 10000).
  assert (- i128_max <= p <= 0) as Hp by (unfold p; nia).
  assert (- x <= fee <= 0) as Hf.
  { unfold fee, p. replace (- x * fee_bps_of s) with (- (x * fee_bps_of s)) by lia. rewrite Z.quot_opp_l by lia.
    rewrite Z.quot_div_nonneg by nia. pose proof (Z.div_pos (x * fee_bps_of s) 10000).
    pose proof (Z.div_le_upper_bound (x * fee_bps_of s) 10000 x). nia. }
  cbn [run_escrow]. unfold einst in Ha.
  unfold Escrow.execute_withdrawal, Escrow.fee_amount_of, Escrow.pay_release, Escrow.bump_instance,
    iextend_ttl, mbind, Soroban.iget, mret, panic_when.
  change (unwrap_or (instance_store s EkApprovedWithdrawal) 0) with (approved_of s).
  rewrite (proj2 (Z.ltb_ge _ _)) by lia. cbn -[Z.mul Z.quot]. unfold unwrap, arith. rewrite Ha.
  cbn -[Z.mul Z.quot]. change (unwrap_or (instance_store s EkPlatformFeeBps) 0) with (fee_bps_of s).
  fold p. rewrite (checked_in _ _ p) by lia. cbn -[Z.mul Z.quot]. fold fee.
  rewrite checked_in by lia. cbn -[Z.mul Z.quot].
  rewrite (proj2 (Z.ltb_ge 0 (- x - fee))), (proj2 (Z.ltb_ge 0 fee)) by lia. cbn -[Z.mul Z.quot].
  rewrite checked_in by lia. eexists. split; [reflexivity|]. split; [done|].
  unfold approved_of at 1, einst. sput. cbn. lia.
Qed.
End escrow.

(** ** A campaign *)
Import Concrete.

Module Campaign.
Abbreviation CSt := (State (C := EscrowContract)).

Definition vault : Address := mkAddress 30.
Definition owner : Address := mkAddress 31.
Definition platform : Address := mkAddress 32.
Definition carol : Address := mkAddress 33.
Definition thief : Address := mkAddress 34.

Definition vault_at (t : Z) : Ctx := mkCtx t 1 vault.

Definition signing (l : list Address) (s : CSt) : CSt :=
  set_host (mkBank l [] (balances (host_state s))) s.

Definition estep (who : list Address) (call : ECall) (t : Z) (s : CSt) : CSt :=
  next run_escrow call (vault_at t) (signing who s).

Definition deployed : CSt := mkState store_empty store_empty (mkBank [] [] [(token, carol, 900)]) [].

Definition opened : CSt := estep [] (EInitialize owner 7 1000 500 token 250 platform) 100 deployed.

Definition funded : CSt := estep [carol] (EDeposit carol 800) 200 opened.

Definition approved : CSt := estep [owner] (EApprove 300) 300 funded.

Definition withdrawn : CSt := estep [] (EExecute owner 300) 310 approved.

Definition calls : list ECall :=
  [EInitialize owner 7 1000 500 token 250 platform; EDeposit carol 800; EApprove 300; EExecute owner 300].

Lemma campaign_history : history run_escrow calls deployed withdrawn.
Proof.
  unfold calls.
  change [EInitialize owner 7 1000 500 token 250 platform; EDeposit carol 800; EApprove 300; EExecute owner 300]
    with (((([] ++ [EInitialize owner 7 1000 500 token 250 platform]) ++ [EDeposit carol 800]) ++ [EApprove 300])
            ++ [EExecute owner 300]).
  repeat (eapply history_next; [|vm_compute; reflexivity]). apply hist_start.
Qed.
End Campaign.
Import Campaign.

(** C29 along an initialisation, a deposit, an approval and a withdrawal. *)
Lemma campaign_books_witness :
  total_of (balance_of withdrawn) (total_raised_of withdrawn) /\ total_raised_of withdrawn = 800 /\
  approved_of withdrawn = 0.
Proof.
  split; [exact (proj1 (campaign_books calls deployed withdrawn (conj eq_refl eq_refl) campaign_history))|].
  split; vm_compute; reflexivity.
Defined.

(** C30: carol's refund after the deadline, and the refused second one. *)
Lemma refund_once_witness :
  run_escrow (ERefund carol) (vault_at 600) (estep [] (ERefund carol) 500 funded) <>
    Ok tt (estep [] (ERefund carol) 500 funded).
Proof.
  apply (refund_once carol (vault_at 500) (signing [] funded) tt (estep [] (ERefund carol) 500 funded)) with (tr := []).
  - apply run_next. vm_compute. reflexivity.
  - apply hist_start.
  - constructor.
Defined.

(** With 300 withdrawn at 2.5%: 293 to the owner, 7 to the platform. *)
Lemma withdrawal_split_witness :
  exists asset, let fee := 300 * fee_bps_of approved / 10000 in
    einst approved EkAsset = Some asset /\ 300 <= approved_of approved /\ 0 <= fee /\ 10 * fee <= 300 /\
    released vault asset owner (einst approved EkPlatformFeeRecipient) (300 - fee) fee
      (host_state (signing [] approved)) (host_state withdrawn) /\
    approved_of withdrawn = approved_of approved - 300 /\ total_raised_of withdrawn = total_raised_of approved.
Proof.
  apply (withdrawal_split owner 300 (vault_at 310) (signing [] approved) tt withdrawn).
  - apply run_next. vm_compute. reflexivity.
  - lia.
  - vm_compute. split; discriminate.
Defined.

(** A thief approves all 800 of carol's contribution to themselves. *)
Lemma anyone_raises_approval_witness :
  exists s', run_escrow (EExecute thief (- 800)) (vault_at 210) (signing [] funded) = Ok tt s' /\
    host_state s' = host_state (signing [] funded) /\ approved_of s' = approved_of (signing [] funded) + 800.
Proof.
  apply (anyone_raises_approval thief 800 token (vault_at 210) (signing [] funded));
    [vm_compute; reflexivity|vm_compute; discriminate|reflexivity|vm_compute; discriminate
    |vm_compute; split; discriminate|vm_compute; discriminate].
Defined.
