(* ===== verification/MilestonesTheorems.v ===== *)
(** * The milestones contract's guarantees

    The status machine of a milestone, the shares of the campaign, and the release
    of an approved milestone through the escrow contract of the repository. *)
From S2P Require Import Prelude MathUtils Soroban History World CreditTypes Escrow Milestones Scenario EscrowTheorems.

Section milestones.
Context `{H : Host} `{!EscrowClient}.
Abbreviation MS := (State (C := MilestonesContract)).
Implicit Types (s : MS).

Definition minst s (k : MilestonesKey) : option (milestones_interp (MilestonesKey_type k)) := instance_store s k.

Definition list_of s : option (list Milestone) := minst s MkMilestones.

Definition status_of_milestone s (i : nat) : option MilestoneStatus :=
  let? l := list_of s in ms_status <$> l !! i.

(** [m] with a new status and evidence; title and share stay. *)
Definition moved (m : Milestone) (st : MilestoneStatus) (ev : option BytesN32) : Milestone :=
  mkMilestone (title_hash m) (release_bps m) st ev.

(** The step of each entrypoint on the list: one entry moves along one edge. *)
Definition milestone_step (call : MCall) (o o' : option (list Milestone)) : Prop :=
  match call with
  | MInitialize _ _ _ l => o' = Some l /\ Milestones.total_bps l = Some 10000
  | MSubmit i e => exists l m, o = Some l /\ l !! Z.to_nat i = Some m /\
      (ms_status m = Pending \/ ms_status m = Rejected) /\
      o' = Some (<[Z.to_nat i := moved m Submitted (Some e)]> l)
  | MApprove i => exists l m, o = Some l /\ l !! Z.to_nat i = Some m /\ ms_status m = Submitted /\
      o' = Some (<[Z.to_nat i := moved m Approved (evidence_hash m)]> l)
  | MReject i _ => exists l m, o = Some l /\ l !! Z.to_nat i = Some m /\ ms_status m = Submitted /\
      o' = Some (<[Z.to_nat i := moved m Rejected (evidence_hash m)]> l)
  end.

#[export] Instance reads_mbump : Reads Milestones.bump_instance (fun _ _ => tt).
Proof. apply reads_iextend. Qed.

Lemma require_party_ok p f `{!Reads p f} c s a s' :
  Milestones.require_party p c s = Ok a s' ->
  f c s = Some a /\ exists h, host_require_auth a (host_state s) = Some h /\ s' = set_host h s.
Proof.
  unfold Milestones.require_party. intros Hr. apply mbind_ok in Hr as (o & s1 & Hp & Hr).
  apply reads in Hp as [-> ->]. srun Hr. by eauto.
Qed.

Lemma get_entry_ok i c s l m s' :
  Milestones.get_entry i c s = Ok (l, m) s' -> list_of s = Some l /\ l !! Z.to_nat i = Some m /\ s' = s.
Proof. unfold Milestones.get_entry. intros Hr. srun Hr. simplify_eq. done. Qed.

(** The head of the three handlers that move one milestone. *)
Lemma entry_head {A} p f (Hrd : Reads p f) i (k : list Milestone * Milestone -> MM A) c s a s' :
  (Milestones.require_party p ;; Milestones.bump_instance ;; let* x := Milestones.get_entry i in k x) c s = Ok a s' ->
  exists who h l m, f c s = Some who /\ host_require_auth who (host_state s) = Some h /\
    list_of s = Some l /\ l !! Z.to_nat i = Some m /\ k (l, m) c (set_host h s) = Ok a s'.
Proof.
  intros Hr. apply mbind_ok in Hr as (who & s1 & Hp & Hr). apply (require_party_ok p f) in Hp as (Hf & h & Hh & ->).
  apply mbind_ok in Hr as ([] & s1 & Hb & Hr). apply reads in Hb as [_ ->].
  apply mbind_ok in Hr as ([l m] & s1 & Hg & Hr). apply get_entry_ok in Hg as (Hl & Hm & ->).
  by exists who, h, l, m.
Qed.

(** The list survives what the release does. *)
Definition K_list (a : area) (k : MilestonesKey) : bool :=
  match a, k with Inst, _ => true | _, _ => false end.

Lemma frame_list s s' : frame K_list s s' -> list_of s' = list_of s.
Proof. intros Hf. exact (Hf Inst MkMilestones eq_refl). Qed.

(** An approval's release: the escrow's approval and execution for the creator. *)
Definition released_by (self escrow creator : Address) (bps : Z) (h h' : host) : Prop :=
  exists total h1 amount, invoke_get_total_raised escrow self h = Some (total, h1) /\
    Milestones.release_amount_of total bps = Some amount /\
    if 0 <? amount then
      exists h2, invoke_approve_withdrawal escrow self amount h1 = Some (tt, h2) /\
        invoke_execute_withdrawal escrow self creator amount h2 = Some (tt, h')
    else h' = h1.

Lemma milestone_release_ok i escrow creator amt c s u s' :
  (if 0 <? amt then Milestones.release i escrow creator amt else mret tt) c s = Ok u s' ->
  (if 0 <? amt then
     exists h2, invoke_approve_withdrawal escrow (current_contract c) amt (host_state s) = Some (tt, h2) /\
       invoke_execute_withdrawal escrow (current_contract c) creator amt h2 = Some (tt, host_state s')
   else host_state s' = host_state s) /\ instance_store s' = instance_store s.
Proof.
  destruct (0 <? amt); intros Hr; [|by apply mret_ok in Hr as [_ ->]].
  unfold Milestones.release in Hr.
  apply mbind_ok in Hr as ([] & s1 & H1 & Hr). apply host_call_ok in H1 as (h2 & H1 & ->).
  apply mbind_ok in Hr as ([] & s2 & H2 & Hr). apply host_call_ok in H2 as (h3 & H2 & ->).
  apply publish_ok in Hr as ->. split; [by exists h2|done].
Qed.

Lemma milestone_approve_ok i c s u s' :
  Milestones.approve_milestone i c s = Ok u s' ->
  exists who h l m escrow creator, minst s MkPlatform = Some who /\
    host_require_auth who (host_state s) = Some h /\
    list_of s = Some l /\ l !! Z.to_nat i = Some m /\ ms_status m = Submitted /\
    minst s MkEscrow = Some escrow /\ minst s MkCreator = Some creator /\
    released_by (current_contract c) escrow creator (release_bps m) h (host_state s') /\
    list_of s' = Some (<[Z.to_nat i := moved m Approved (evidence_hash m)]> l) /\
    minst s' MkInitialized = minst s MkInitialized.
Proof.
  unfold Milestones.approve_milestone. intros Hr.
  apply (entry_head _ _ (reads_iget (C := MilestonesContract) MkPlatform)) in Hr as (who & h & l & m & Hw & Hh & Hl & Hm & Hr).
  do 2 mstep Hr. prims. do 4 mstep Hr. subst.
  apply mbind_ok in Hr as (total & s1 & Ht & Hr). apply host_call_ok in Ht as (h1 & Ht & ->). mstep Hr.
  apply mbind_ok in Hr as ([] & s2 & Hrel & Hr). apply milestone_release_ok in Hrel as [Hrel Hi].
  apply publish_ok in Hr as ->. sput.
  repeat match goal with Hq : store_put _ _ _ _ = Some _ |- _ => rewrite store_put_ne in Hq by discriminate end.
  bsimp. exists who, h, l, m. do 2 eexists. repeat (split; [eassumption|]). split.
  - unfold released_by. by do 3 eexists.
  - unfold list_of, minst. cbn. rewrite Hi. split; by sput.
Qed.

Lemma minitialize_ok creator platform escrow l c s u s' :
  Milestones.initialize creator platform escrow l c s = Ok u s' ->
  minst s MkInitialized = None /\ minst s' MkInitialized = Some true /\
  Milestones.total_bps l = Some 10000 /\ list_of s' = Some l.
Proof.
  unfold Milestones.initialize. intros Hr. srun Hr. subst. unfold list_of, minst. sput.
  split; [|done]. by destruct (instance_store s MkInitialized).
Qed.

Lemma milestone_submit_ok i e c s u s' :
  Milestones.submit_milestone i e c s = Ok u s' ->
  milestone_step (MSubmit i e) (list_of s) (list_of s') /\ minst s' MkInitialized = minst s MkInitialized.
Proof.
  unfold Milestones.submit_milestone. intros Hr.
  apply (entry_head _ _ (reads_iget (C := MilestonesContract) MkCreator)) in Hr as (who & h & l & m & Hw & Hh & Hl & Hm & Hr).
  srun Hr. unfold minst. sput. split; [|done]. exists l, m. do 2 (split; [done|]). split; [|unfold list_of, minst; by sput].
  match goal with E : _ && _ = false |- _ => apply andb_false_iff in E as [E|E] end; bsimp; eauto.
Qed.

Lemma milestone_reject_ok i r c s u s' :
  Milestones.reject_milestone i r c s = Ok u s' ->
  milestone_step (MReject i r) (list_of s) (list_of s') /\ minst s' MkInitialized = minst s MkInitialized.
Proof.
  unfold Milestones.reject_milestone. intros Hr.
  apply (entry_head _ _ (reads_iget (C := MilestonesContract) MkPlatform)) in Hr as (who & h & l & m & Hw & Hh & Hl & Hm & Hr).
  srun Hr. unfold minst. sput. split; [|done]. exists l, m. do 3 (split; [done|]). unfold list_of, minst. by sput.
Qed.

Lemma run_milestone_step call c s u s' :
  run_milestones call c s = Ok u s' -> milestone_step call (list_of s) (list_of s').
Proof.
  destruct call; cbn [run_milestones]; intros Hr.
  - apply minitialize_ok in Hr as (_ & _ & Ht & Hl). by split.
  - by apply milestone_submit_ok in Hr as [? _].
  - apply milestone_approve_ok in Hr as (who & h & l & m & e & cr & _ & _ & Hl & Hm & Hs & _ & _ & _ & Hl' & _). by exists l, m.
  - by apply milestone_reject_ok in Hr as [? _].
Qed.

Lemma run_initialized call c s u s' :
  run_milestones call c s = Ok u s' ->
  match call with
  | MInitialize _ _ _ _ => minst s MkInitialized = None /\ minst s' MkInitialized = Some true
  | _ => minst s' MkInitialized = minst s MkInitialized
  end.
Proof.
  destruct call; cbn [run_milestones]; intros Hr.
  - by apply minitialize_ok in Hr as (? & ? & _ & _).
  - by apply milestone_submit_ok in Hr as [_ ?].
  - by apply milestone_approve_ok in Hr as (? & ? & ? & ? & ? & ? & _ & _ & _ & _ & _ & _ & _ & _ & _ & ?).
  - by apply milestone_reject_ok in Hr as [_ ?].
Qed.

(** *** The list along a history *)
Definition shares (o : option (list Milestone)) : option (list Z) := option_map (map release_bps) o.

Lemma insert_shares (l : list Milestone) i m st ev :
  l !! i = Some m -> map release_bps (<[i := moved m st ev]> l) = map release_bps l.
Proof. intros Hm. change (map release_bps) with (fmap (M := list) release_bps). rewrite list_fmap_insert. cbn. apply list_insert_id. by rewrite list_lookup_fmap, Hm. Qed.

(** Set up means: initialised, with shares [bps]. *)
Definition set_up (bps : list Z) s : Prop := is_Some (minst s MkInitialized) /\ shares (list_of s) = Some bps.

Lemma run_set_up call c s u s' bps : run_milestones call c s = Ok u s' -> set_up bps s -> set_up bps s'.
Proof.
  intros Hr [Hi Hl]. pose proof (run_initialized _ _ _ _ _ Hr) as Hin.
  pose proof (run_milestone_step _ _ _ _ _ Hr) as Hs. destruct call; cbn [milestone_step] in Hs.
  - destruct Hin as [Hn _]. rewrite Hn in Hi. by destruct Hi.
  - destruct Hs as (l & m & El & Hm & _ & El'). split; [by rewrite Hin|].
    rewrite El in Hl. rewrite El'. cbn in *. by rewrite insert_shares.
  - destruct Hs as (l & m & El & Hm & _ & El'). split; [by rewrite Hin|].
    rewrite El in Hl. rewrite El'. cbn in *. by rewrite insert_shares.
  - destruct Hs as (l & m & El & Hm & _ & El'). split; [by rewrite Hin|].
    rewrite El in Hl. rewrite El'. cbn in *. by rewrite insert_shares.
Qed.

Lemma history_set_up tr s0 s bps : history run_milestones tr s0 s -> set_up bps s0 -> set_up bps s.
Proof.
  apply history_keeps; [done|]. intros call c s1 r s2 Hr Hs. by eapply run_set_up.
Qed.

Lemma insert_status (l : list Milestone) i j m st ev :
  l !! i = Some m -> ms_status <$> <[i := moved m st ev]> l !! j = if decide (i = j) then Some st else ms_status <$> l !! j.
Proof.
  intros Hm. case_decide as E; [subst|by rewrite list_lookup_insert_ne].
  rewrite list_lookup_insert_eq; [done|]. by eapply lookup_lt_Some.
Qed.

(** An approved milestone keeps its status under every call. *)
Lemma run_keeps_approved call c s u s' i :
  run_milestones call c s = Ok u s' -> is_Some (minst s MkInitialized) ->
  status_of_milestone s i = Some Approved -> status_of_milestone s' i = Some Approved.
Proof.
  intros Hr Hi Ha. pose proof (run_initialized _ _ _ _ _ Hr) as Hin.
  pose proof (run_milestone_step _ _ _ _ _ Hr) as Hs. unfold status_of_milestone in *.
  destruct call; cbn [milestone_step] in Hs.
  1: { destruct Hin as [Hn _]. rewrite Hn in Hi. by destruct Hi. }
  all: destruct Hs as (l & m & El & Hm & Hst & El'); rewrite El in Ha; rewrite El', insert_status by done;
    case_decide as E; [subst; rewrite Hm in Ha; cbn in Ha; try done|done].
  - destruct Hst as [Hst|Hst]; rewrite Hst in Ha; done.
  - rewrite Hst in Ha. done.
Qed.

(** *** Shares *)
Lemma total_bps_sum l t : Milestones.total_bps l = Some t -> t = sumZ (map release_bps l).
Proof.
  unfold Milestones.total_bps.
  assert (forall acc, foldl (fun a m => let? x := a in checked_u32 (x + release_bps m)) acc l = Some t ->
    exists a, acc = Some a /\ t = a + sumZ (map release_bps l)) as Hg; [|by intros (a & [= <-] & ->)%Hg].
  induction l as [|m l IH]; intros acc; cbn.
  - intros ->. exists t. split; [done|]. unfold sumZ. cbn. lia.
  - intros (a & Ha & ->)%IH. destruct acc as [x|]; [|done]. chk. subst.
    exists x. split; [done|]. unfold sumZ. cbn. lia.
Qed.

(** Rounded-down shares of [t]: at most the whole, at least the whole less one unit each. *)
Lemma floor_shares t l :
  0 <= t -> 10000 * sumZ (map (fun b => t * b / 10000) l) <= t * sumZ l /\
  t * sumZ l <= 10000 * sumZ (map (fun b => t * b / 10000) l) + 9999 * Z.of_nat (length l).
Proof.
  intros Ht. induction l as [|b l [IH1 IH2]]; [unfold sumZ; cbn; lia|].
  change (map (fun b => t * b / 10000) (b :: l)) with (t * b / 10000 :: map (fun b => t * b / 10000) l).
  change (sumZ (b :: l)) with (b + sumZ l).
  change (sumZ (t * b / 10000 :: ?x)) with (t * b / 10000 + sumZ x).
  pose proof (Z.div_mod (t * b) 10000). pose proof (Z.mod_pos_bound (t * b) 10000).
  cbn [length]. lia.
Qed.

Definition initialised_list s : Prop :=
  minst s MkInitialized = None /\ list_of s = None \/ exists bps, set_up bps s /\ sumZ bps = 10000.

Lemma run_initialised call c s u s' :
  run_milestones call c s = Ok u s' -> initialised_list s -> initialised_list s'.
Proof.
  intros Hr [[Hi Hl]|(bps & Hs & Ht)]; [|right; exists bps; split; [by eapply run_set_up|done]].
  pose proof (run_initialized _ _ _ _ _ Hr) as Hin. pose proof (run_milestone_step _ _ _ _ _ Hr) as Hst.
  destruct call; cbn [milestone_step] in Hst; try (destruct Hst as (? & ? & ? & _); congruence).
  destruct Hst as [El Et]. right. exists (map release_bps milestones). split; [|by apply total_bps_sum in Et].
  split; [by destruct Hin as [_ ->]|]. by rewrite El.
Qed.

(** C31. Milestones: after any history of a freshly deployed contract the shares of
    the stored list add up to exactly 10000 basis points; every call moves exactly
    the milestone it names along its edge (submitted from pending or rejected,
    approved or rejected from submitted), title and share unchanged; and an
    approved milestone stays approved and is never approved, hence paid, again. *)
Theorem milestone_lifecycle tr s0 s :
  fresh s0 -> history run_milestones tr s0 s ->
  (forall l, list_of s = Some l -> sumZ (map release_bps l) = 10000) /\
  (forall call c u s', run_milestones call c s = Ok u s' -> milestone_step call (list_of s) (list_of s')) /\
  (forall i tr' s2, history run_milestones tr' s s2 -> status_of_milestone s (Z.to_nat i) = Some Approved ->
    status_of_milestone s2 (Z.to_nat i) = Some Approved /\
    forall c u s3, run_milestones (MApprove i) c s2 <> Ok u s3).
Proof.
  intros [Hf _] Hr. assert (initialised_list s) as HI.
  { eapply history_keeps; [| |exact Hr|]; [done|intros; by eapply run_initialised|].
    left. unfold list_of, minst. by rewrite Hf. }
  split; [|split; [intros; by eapply run_milestone_step|]].
  - intros l Hl. destruct HI as [[_ Hn]|(bps & [_ Hs] & Ht)]; [congruence|]. rewrite Hl in Hs. by injection Hs as <-.
  - intros i tr' s2 Hh Ha. assert (is_Some (minst s MkInitialized)) as Hi.
    { destruct HI as [[_ Hn]|(bps & [? _] & _)]; [|done]. unfold status_of_milestone in Ha. by rewrite Hn in Ha. }
    assert (is_Some (minst s2 MkInitialized) /\ status_of_milestone s2 (Z.to_nat i) = Some Approved) as [Hi2 Ha2].
    { eapply (history_keeps _ (fun s => is_Some (minst s MkInitialized) /\ status_of_milestone s (Z.to_nat i) = Some Approved));
        [done| |exact Hh|done].
      intros call c s1 r s1' Hr1 [H1 H2]. split; [|by eapply run_keeps_approved].
      pose proof (run_initialized _ _ _ _ _ Hr1) as E. destruct call; [by destruct E as [_ ->]|by rewrite E..]. }
    split; [done|]. intros c u s3 Hr3. apply run_milestone_step in Hr3 as (l & m & El & Hm & Hst & _).
    unfold status_of_milestone in Ha2. rewrite El, Hm in Ha2. cbn in Ha2. congruence.
Qed.

(** At a fixed amount raised the releases of all milestones are well defined and
    together pay out at most the whole amount and leave less than one unit per
    milestone behind. *)
Theorem releases_cover total l :
  Milestones.total_bps l = Some 10000 -> 0 <= total -> total * 10000 <= i128_max ->
  Forall (fun m => is_u32 (release_bps m)) l ->
  exists amounts, mapM (fun m => Milestones.release_amount_of total (release_bps m)) l = Some amounts /\
    Forall (fun a => 0 <= a) amounts /\ sumZ amounts <= total <= sumZ amounts + Z.of_nat (length l).
Proof.
  intros Ht Hpos Hov Hu. apply total_bps_sum in Ht.
  assert (Forall (fun m => release_bps m <= 10000) l) as Hb.
  { rewrite Ht. apply Forall_forall. intros m Hm. apply elem_le_sumZ.
    - apply Forall_map. eapply Forall_impl; [exact Hu|]. cbn. lia.
    - by apply list_elem_of_fmap_2. }
  destruct (floor_shares total (map release_bps l) Hpos) as [F1 F2]. rewrite <- Ht, length_map in *.
  exists (map (fun b => total * b / 10000) (map release_bps l)). split; [|split; [|lia]].
  - apply mapM_Some. clear Ht F1 F2. induction l as [|m l IH]; [constructor|].
    apply Forall_cons in Hu as [Hu1 Hu]. apply Forall_cons in Hb as [Hb1 Hb]. cbn. constructor; [|by apply IH].
    unfold Milestones.release_amount_of. rewrite checked_in by nia. by rewrite Z.quot_div_nonneg by nia.
  - apply Forall_map, Forall_map. eapply Forall_impl; [exact Hu|]. cbn. intros m Hm. apply Z.div_pos; nia.
Qed.
End milestones.

(** ** With the escrow contract of the repository *)
Abbreviation EWorld base := (World EscrowContract (@host base)).

(** The three calls, as runs of the escrow's own entrypoints called by [self]. *)
Definition escrow_call (base : Host) {A} (m : forall h : Host, M (C := EscrowContract) (H := h) A)
    (escrow self : Address) (w : EWorld base) : option (A * EWorld base) :=
  call_into (invoker_host self base) (m (invoker_host self base)) (mkCtx 0 0 escrow) w.

Definition escrow_client (base : Host) : @EscrowClient (joint_host EscrowContract base) :=
  @Build_EscrowClient (joint_host EscrowContract base)
    (fun escrow self => escrow_call base (fun h => Escrow.get_total_raised (H := h)) escrow self)
    (fun escrow self amt => escrow_call base (fun h => Escrow.approve_withdrawal (H := h) amt) escrow self)
    (fun escrow self to amt => escrow_call base (fun h => Escrow.execute_withdrawal (H := h) to amt) escrow self).

Section composed.
Context (base : Host).
Instance campaign_host : Host := joint_host EscrowContract base.
Instance campaign_client : EscrowClient := escrow_client base.
Abbreviation CS := (State (C := MilestonesContract) (H := campaign_host)).

(** The escrow inside the milestones contract's world. *)
Definition escrow_in (s : CS) : State (C := EscrowContract) (H := base) := state_in base (host_state s).

(** What a release does to the escrow. *)
Definition escrow_paid (self escrow creator : Address) (r : Z) (w w' : EWorld base) : Prop :=
  exists admin asset h2, let fee := Z.quot (r * fee_bps_of (state_in base w)) 10000 in
    w_inst w EkAdmin = Some admin /\ w_inst w EkAsset = Some asset /\
    @host_require_auth (invoker_host self base) admin (w_base w) = Some h2 /\
    released (H := base) escrow asset creator (einst (state_in base w) EkPlatformFeeRecipient) (r - fee) fee
      h2 (w_base w').

Lemma escrow_total_ok escrow self (w w' : EWorld base) t :
  invoke_get_total_raised escrow self w = Some (t, w') -> t = total_raised_of (state_in base w) /\ w' = w.
Proof.
  intros (s' & Hs & ->)%(call_into_ok (C := EscrowContract) (invoker_host self base)).
  unfold Escrow.get_total_raised in Hs. srun Hs. split; [done|]. by destruct w.
Qed.

Lemma escrow_release_ok escrow self creator r (w w1 w2 : EWorld base) :
  invoke_approve_withdrawal escrow self r w = Some (tt, w1) ->
  invoke_execute_withdrawal escrow self creator r w1 = Some (tt, w2) ->
  escrow_paid self escrow creator r w w2 /\
  total_raised_of (state_in base w2) = total_raised_of (state_in base w) /\
  approved_of (state_in base w2) = approved_of (state_in base w) /\ 0 <= approved_of (state_in base w).
Proof.
  intros (s1 & H1 & ->)%(call_into_ok (C := EscrowContract) (invoker_host self base))
         (s2 & H2 & ->)%(call_into_ok (C := EscrowContract) (invoker_host self base)).
  rewrite state_in_world_of in H2.
  apply escrow_approve_ok in H1 as (admin & h & Ha & Hh & <- & Hap & [Hi1 _]).
  apply escrow_execute_ok in H2 as (asset & fee & Hs & Hle & -> & Hrel & Hap2 & [Hi2 _]).
  assert (forall k, k ∉ [EkApprovedWithdrawal] -> einst s2 k = w_inst w k) as Hi
    by (intros; rewrite Hi2, Hi1 by done; done).
  change (approved_of (state_in (invoker_host self base) w)) with (approved_of (state_in base w)) in Hap.
  change (approved_of (state_in base (world_of (invoker_host self base) s2))) with (approved_of s2).
  split; [|split; [|split; [lia|lia]]].
  - exists admin, asset, (host_state s1). cbv zeta. split; [exact Ha|].
    split; [exact (eq_trans (eq_sym (Hi1 EkAsset ltac:(set_solver))) Hs)|]. split; [exact Hh|].
    assert (fee_bps_of s1 = fee_bps_of (state_in base w)) as <-
      by (unfold fee_bps_of; rewrite Hi1 by set_solver; done).
    assert (einst s1 EkPlatformFeeRecipient = einst (state_in base w) EkPlatformFeeRecipient) as <-
      by (rewrite Hi1 by set_solver; done).
    exact Hrel.
  - change (total_raised_of (state_in base (world_of (invoker_host self base) s2))) with (total_raised_of s2).
    unfold total_raised_of. rewrite Hi by set_solver. done.
Qed.

(** A milestone's part of the amount raised, and the platform's part of a payment,
    both rounded down. *)
Definition share_of (raised : Z) (m : Milestone) : Z := raised * release_bps m / 10000.

Definition platform_fee (rate share : Z) : Z := share * rate / 10000.

(** C32. In the world of both contracts, approving milestone [i] pays the milestone's
    share of the amount raised, [raised * bps / 10000] rounded down, out of the escrow:
    the platform's fee, [share * rate / 10000] rounded down, to the fee recipient and
    the rest of the share to the creator; nothing moves for a share of zero.  The
    escrow's approval is raised by the share and used up by the same call, its total is
    untouched, the milestone is approved, and the approval needs the platform's
    signature and the escrow's admin (the milestones contract itself, in the intended
    deployment). *)
Theorem approval_pays i c (s s' : CS) u (vault := escrow_in s) :
  run_milestones (MApprove i) c s = Ok u s' ->
  0 <= total_raised_of vault -> 0 <= fee_bps_of vault ->
  (forall l m, list_of s = Some l -> m ∈ l -> 0 <= release_bps m) ->
  exists who b l m escrow creator,
    let share := share_of (total_raised_of vault) m in
    let fee := platform_fee (fee_bps_of vault) share in
    minst s MkPlatform = Some who /\
    @host_require_auth base who (w_base (host_state s)) = Some b /\
    list_of s = Some l /\ l !! Z.to_nat i = Some m /\ ms_status m = Submitted /\
    minst s MkEscrow = Some escrow /\ minst s MkCreator = Some creator /\
    status_of_milestone s' (Z.to_nat i) = Some Approved /\
    total_raised_of (escrow_in s') = total_raised_of vault /\
    approved_of (escrow_in s') = approved_of vault /\
    (0 < share -> exists admin asset h,
      einst vault EkAdmin = Some admin /\ einst vault EkAsset = Some asset /\
      @host_require_auth (invoker_host (current_contract c) base) admin b = Some h /\
      released (H := base) escrow asset creator (einst vault EkPlatformFeeRecipient) (share - fee) fee
        h (w_base (host_state s'))) /\
    (share = 0 -> w_base (host_state s') = b).
Proof.
  cbn [run_milestones]. intros Hr Htot Hfee Hbps.
  apply milestone_approve_ok in Hr as (who & h & l & m & escrow & creator & Hw & Hh & Hl & Hm & Hst & He & Hc & Hrel & Hl' & _).
  destruct Hrel as (total & h1 & r & Ht & Hamt & Hrel).
  apply escrow_total_ok in Ht as [-> ->]. apply on_base_keeps in Hh as (Ei & Ep & Hb).
  assert (total_raised_of (state_in base h) = total_raised_of vault) as Et
    by (unfold total_raised_of, einst; cbn; by rewrite Ei).
  assert (approved_of (state_in base h) = approved_of vault) as Ea
    by (unfold approved_of, einst; cbn; by rewrite Ei).
  assert (fee_bps_of (state_in base h) = fee_bps_of vault) as Ef
    by (unfold fee_bps_of, einst; cbn; by rewrite Ei).
  pose proof (Hbps _ _ Hl (list_elem_of_lookup_2 _ _ _ Hm)) as Hmb.
  assert (r = share_of (total_raised_of vault) m) as ->.
  { unfold Milestones.release_amount_of in Hamt. rewrite Et in Hamt. destruct (checked_i128 _) eqn:E; [|done].
    chk. subst. injection Hamt as <-. unfold share_of. by rewrite quot_nonneg by nia. }
  assert (0 <= share_of (total_raised_of vault) m) as Hs by (apply Z.div_pos; nia).
  exists who, (w_base h), l, m, escrow, creator. cbv zeta. do 7 (split; [assumption|]). split.
  { unfold status_of_milestone. by rewrite Hl', insert_status, decide_True. }
  set (share := share_of (total_raised_of vault) m) in *. destruct (Z.ltb_spec 0 share) as [Hr|Hr].
  - destruct Hrel as (w1 & H1 & H2). pose proof (escrow_release_ok _ _ _ _ _ _ _ H1 H2) as (Hp & Ht & Ha & _).
    unfold escrow_in at 1 2. rewrite Ht, Ha. split; [done|]. split; [done|]. split; [|lia]. intros _.
    destruct Hp as (admin & asset & h2 & Hp). cbv zeta in Hp. rewrite Ef, quot_nonneg in Hp by nia.
    destruct Hp as (Hadm & Hass & Hau & Hpay). rewrite Ei in Hadm, Hass. exists admin, asset, h2.
    unfold einst in Hpay. cbn in Hpay. rewrite Ei in Hpay. done.
  - unfold escrow_in at 1 2. rewrite Hrel. split; [done|]. split; [done|]. split; [lia|done].
Qed.
End composed.

(** ** A campaign with two milestones *)
Import Concrete.
Import Campaign.

Module Staged.
Definition stages : Address := mkAddress 40.
Definition judge : Address := mkAddress 41.

Definition half (title : Z) : Milestone := mkMilestone [title] 5000 Pending None.

(** The escrow, administered by the milestones contract and funded with 800. *)
Definition vaulted : CSt :=
  estep [carol] (EDeposit carol 800) 200
    (estep [] (EInitialize stages 7 1000 500 token 250 platform) 100 deployed).

#[export] Instance staged_host : Host := campaign_host bank_host.
#[export] Instance staged_client : EscrowClient := campaign_client bank_host.

Abbreviation GSt := (@State MilestonesContract staged_host).

Definition gsigned (l : list Address) (s : GSt) : GSt :=
  let w := host_state s in
  set_host (C := MilestonesContract)
    (mkWorld (mkBank l [] (balances (w_base w))) (w_inst w) (w_pers w) (w_events w)) s.

Definition gstep (who : list Address) (call : MCall) (t : Z) (s : GSt) : GSt :=
  next run_milestones call (mkCtx t 1 stages) (gsigned who s).

Definition start : GSt :=
  mkState (C := MilestonesContract) store_empty store_empty
    (mkWorld (host_state vaulted) (instance_store vaulted) (persistent_store vaulted) []) [].

Definition planned : GSt := gstep [] (MInitialize owner judge vault [half 1; half 2]) 210 start.

Definition submitted : GSt := gstep [owner] (MSubmit 0 [9]) 220 planned.

Definition paid : GSt := gstep [judge] (MApprove 0) 230 submitted.
End Staged.
Import Staged.

(** C31: planned, submitted and approved; approving again fails. *)
Lemma milestone_lifecycle_witness :
  status_of_milestone paid 0 = Some Approved /\ run_milestones (MApprove 0) (mkCtx 240 1 stages) paid <> Ok tt paid.
Proof.
  split; [vm_compute; reflexivity|].
  refine (proj2 (proj2 (proj2 (milestone_lifecycle ((([] ++ [MInitialize owner judge vault [half 1; half 2]]) ++ [MSubmit 0 [9]]) ++ [MApprove 0])
    start paid (conj eq_refl eq_refl) _)) 0 [] paid _ _) (mkCtx 240 1 stages) tt paid).
  - repeat (eapply history_next; [|vm_compute; reflexivity]). apply hist_start.
  - apply hist_start.
  - vm_compute. reflexivity.
Defined.

(** At 800 raised and two halves. *)
Lemma releases_cover_witness :
  exists amounts, mapM (fun m => Milestones.release_amount_of 801 (release_bps m)) [half 1; half 2] = Some amounts /\
    Forall (fun a => 0 <= a) amounts /\ sumZ amounts <= 801 <= sumZ amounts + 2.
Proof.
  apply (releases_cover 801 [half 1; half 2]);
    [vm_compute; reflexivity|lia|lia|repeat constructor; cbn; lia].
Defined.

(** The numbers of the approval are those of the Rust types. *)
Lemma submitted_shares l m :
  list_of (gsigned [judge] submitted) = Some l -> m ∈ l -> 0 <= release_bps m.
Proof.
  intros Hl Hm. assert (list_of (gsigned [judge] submitted)
    = Some [mkMilestone [1] 5000 Submitted (Some [9]); half 2]) as E by (vm_compute; reflexivity).
  rewrite E in Hl. injection Hl as <-. by apply list_elem_of_In in Hm as [<-|[<-|[]]].
Qed.

(** C32: the first half pays 400, of which 10 are the platform's. *)
Lemma approval_pays_witness :
  let s := gsigned [judge] submitted in
  let raised := total_raised_of (escrow_in bank_host s) in
  result run_milestones (MApprove 0) (mkCtx 230 1 stages) s = Some tt /\
  (share_of raised (half 1) = 400 /\ platform_fee (fee_bps_of (escrow_in bank_host s)) 400 = 10) /\
  bank_balance (balances (w_base (host_state paid))) token owner
    = bank_balance (balances (w_base (host_state s))) token owner + 390 /\
  status_of_milestone paid 0 = Some Approved /\ approved_of (escrow_in bank_host paid) = 0.
Proof.
  cbv zeta. assert (result run_milestones (MApprove 0) (mkCtx 230 1 stages) (gsigned [judge] submitted) = Some tt) as Hrun
    by (vm_compute; reflexivity).
  split; [exact Hrun|]. do 2 (split; [repeat split; vm_compute; reflexivity|]).
  destruct (approval_pays bank_host 0 (mkCtx 230 1 stages) (gsigned [judge] submitted) paid tt)
    as (_ & _ & _ & _ & _ & _ & _ & _ & _ & _ & _ & _ & _ & Hs & _ & Ha & _).
  - exact (run_next run_milestones _ _ _ _ Hrun).
  - vm_compute. discriminate.
  - vm_compute. discriminate.
  - exact submitted_shares.
  - split; [exact Hs|]. rewrite Ha. vm_compute. reflexivity.
Defined.
