(* ===== verification/CrowdpayTheorems.v ===== *)
(** * The crowdfunding contract's guarantees

    The ledger of contributions as a function of the history, the status machine,
    and what a release takes. *)
From S2P Require Import Prelude Soroban History Crowdpay Scenario.

Section crowdpay.
Context `{H : Host}.
Abbreviation PS := (State (C := CrowdPayContract)).
Implicit Types (s : PS).

Definition cinst s (k : CrowdKey) : option (crowd_interp (CrowdKey_type k)) := instance_store s k.

Definition contribution_of s a : Z :=
  unwrap_or (persistent_store s (CkContributions a) : option Z) 0.

Definition raised_of s : Z := unwrap_or (cinst s CkTotalRaised) 0.

Definition campaign_status s : option CampaignStatus := cinst s CkStatus.

#[export] Instance reads_cbump : Reads Crowdpay.bump_instance (fun _ _ => tt).
Proof. apply reads_iextend. Qed.

#[export] Instance reads_cbump_persistent k : Reads (Crowdpay.bump_persistent k) (fun _ _ => tt).
Proof. by intros c s [] s' [_ ->]%pextend_ttl_ok. Qed.

(** [ceff] evaluates the observations on an updated state. *)
Ltac ceff :=
  unfold contribution_of, raised_of, campaign_status, cinst in *; sput; cbn [unwrap_or] in *;
  first [ done | lia | intros; repeat rewrite store_put_ne by congruence; done ].

Lemma accepting st :
  negb (bool_decide (st = CsActive)) && negb (bool_decide (st = CsFunded)) = false -> st = CsActive \/ st = CsFunded.
Proof. intros [E|E]%andb_false_iff; bsimp; auto. Qed.

Lemma crowd_initialize_ok cid cr t g d ms c s u s' :
  Crowdpay.initialize cid cr t g d ms c s = Ok u s' ->
  cinst s CkCampaignId = None /\ cinst s' CkCampaignId = Some cid /\ host_state s' = host_state s /\
  campaign_status s' = Some CsActive /\ raised_of s' = 0 /\
  (forall a, contribution_of s' a = contribution_of s a).
Proof.
  unfold Crowdpay.initialize. intros Hr. srun Hr. split; [|repeat (split; [ceff|]); ceff].
  unfold cinst. by destruct (instance_store s CkCampaignId).
Qed.

Lemma contribute_ok a amt c s u s' :
  Crowdpay.contribute a amt c s = Ok u s' ->
  exists st deadline goal t h, campaign_status s = Some st /\ (st = CsActive \/ st = CsFunded) /\
    cinst s CkDeadline = Some deadline /\ ledger_timestamp c < deadline /\ cinst s CkGoal = Some goal /\
    cinst s CkToken = Some t /\ host_require_auth a (host_state s) = Some h /\
    token_transfer (current_contract c) t a (current_contract c) amt h = Some (host_state s') /\
    contribution_of s' a = contribution_of s a + amt /\
    (forall a', a' <> a -> contribution_of s' a' = contribution_of s a') /\
    raised_of s' = raised_of s + amt /\ cinst s' CkCampaignId = cinst s CkCampaignId /\
    campaign_status s' = Some (if (goal <=? raised_of s') && bool_decide (st = CsActive) then CsFunded else st).
Proof.
  unfold Crowdpay.contribute. intros Hr. srun Hr; chk; subst;
    do 5 eexists; (split; [eassumption|]); (split; [by apply accepting|]);
    repeat (split; [eassumption || ceff|]);
    unfold campaign_status, raised_of, cinst; sput; cbn [unwrap_or];
    match goal with E : ?b = _ |- context [if ?b' then _ else _] => change b' with b; rewrite E end; done.
Qed.

Lemma crowd_refund_ok a c s u s' :
  Crowdpay.refund a c s = Ok u s' ->
  exists t h, campaign_status s = Some CsFailed /\ cinst s CkToken = Some t /\
    host_require_auth a (host_state s) = Some h /\ 0 < contribution_of s a /\
    token_transfer (current_contract c) t (current_contract c) a (contribution_of s a) h = Some (host_state s') /\
    contribution_of s' a = 0 /\ (forall a', a' <> a -> contribution_of s' a' = contribution_of s a') /\
    (forall k, cinst s' k = cinst s k).
Proof.
  unfold Crowdpay.refund. intros Hr. srun Hr. do 2 eexists.
  repeat (split; [eassumption || ceff|]). ceff.
Qed.

Lemma set_failed_ok c s u s' :
  Crowdpay.set_failed c s = Ok u s' ->
  campaign_status s' = Some CsFailed /\ (forall k, k <> CkStatus -> cinst s' k = cinst s k) /\
  (forall a, contribution_of s' a = contribution_of s a) /\
  exists deadline goal, cinst s CkDeadline = Some deadline /\ cinst s CkGoal = Some goal /\
    (deadline <= ledger_timestamp c /\ raised_of s < goal \/
     exists cr h, cinst s CkCreator = Some cr /\ host_require_auth cr (host_state s) = Some h).
Proof.
  unfold Crowdpay.set_failed. intros Hr. srun Hr.
  all: split; [ceff|]; split; [ceff|]; split; [ceff|]; do 2 eexists; do 2 (split; [eassumption|]).
  - left. bsimp. by split.
  - right. by do 2 eexists.
Qed.

Lemma crowd_release_ok i c s u s' :
  Crowdpay.release_milestone i c s = Ok u s' ->
  exists cr h l m t bal, cinst s CkCreator = Some cr /\ host_require_auth cr (host_state s) = Some h /\
    cinst s CkMilestones = Some l /\ l !! Z.to_nat i = Some m /\ cm_released m = false /\
    cm_target m <= raised_of s /\ cinst s CkToken = Some t /\
    token_balance t (current_contract c) h = Some bal /\
    (if 0 <? bal then token_transfer (current_contract c) t (current_contract c) cr bal h = Some (host_state s')
     else host_state s' = h) /\
    cinst s' CkMilestones = Some (<[Z.to_nat i := mkCrowdMilestone (cm_target m) true]> l) /\
    (forall k, k <> CkMilestones -> cinst s' k = cinst s k) /\
    (forall a, contribution_of s' a = contribution_of s a).
Proof.
  unfold Crowdpay.release_milestone. intros Hr. srun Hr; do 6 eexists; do 8 (split; [eassumption|]);
    (split; [match goal with E : (0 <? _) = _ |- _ => by rewrite E end|]);
    (split; [ceff|]); (split; [ceff|]); ceff.
Qed.

(** ** The contributions as a function of the history *)
Definition expected (a : Address) (tr : list PCall) : Z :=
  foldl (fun acc call =>
    match call with
    | PContribute a' x => if decide (a' = a) then acc + x else acc
    | PRefund a' => if decide (a' = a) then 0 else acc
    | _ => acc
    end) 0 tr.

Definition contributed (tr : list PCall) : Z :=
  sumZ (map (fun call => match call with PContribute _ x => x | _ => 0 end) tr).

Lemma expected_snoc a tr call :
  expected a (tr ++ [call]) =
  match call with
  | PContribute a' x => if decide (a' = a) then expected a tr + x else expected a tr
  | PRefund a' => if decide (a' = a) then 0 else expected a tr
  | _ => expected a tr
  end.
Proof. unfold expected. by rewrite foldl_app. Qed.

Lemma contributed_snoc tr call :
  contributed (tr ++ [call]) = contributed tr + match call with PContribute _ x => x | _ => 0 end.
Proof. unfold contributed. rewrite map_app, sumZ_app. unfold sumZ. cbn. lia. Qed.

(** The status edge of each entrypoint. *)
Definition crowd_edge (call : PCall) (o o' : option CampaignStatus) : Prop :=
  match call with
  | PInitialize _ _ _ _ _ _ => o' = Some CsActive
  | PContribute _ _ => (o = Some CsActive /\ (o' = Some CsActive \/ o' = Some CsFunded)) \/
                       (o = Some CsFunded /\ o' = Some CsFunded)
  | PRelease _ => o' = o
  | PRefund _ => o = Some CsFailed /\ o' = Some CsFailed
  | PSetFailed => o' = Some CsFailed
  end.

Lemma run_crowd_edge call c s u s' :
  run_crowdpay call c s = Ok u s' -> crowd_edge call (campaign_status s) (campaign_status s').
Proof.
  destruct call; cbn [run_crowdpay crowd_edge]; intros Hr.
  - by apply crowd_initialize_ok in Hr as (_ & _ & _ & ? & _).
  - apply contribute_ok in Hr as (st & d & g & t & h & Hst & Hor & _ & _ & _ & _ & _ & _ & _ & _ & _ & _ & Hs').
    rewrite Hst, Hs'. destruct Hor as [-> | ->].
    + left. split; [done|]. destruct (_ && _); auto.
    + right. split; [done|]. by rewrite bool_decide_eq_false_2, andb_false_r by done.
  - apply crowd_release_ok in Hr as (? & ? & ? & ? & ? & ? & _ & _ & _ & _ & _ & _ & _ & _ & _ & _ & Hk & _).
    exact (Hk CkStatus ltac:(discriminate)).
  - apply crowd_refund_ok in Hr as (? & ? & Hs & _ & _ & _ & _ & _ & _ & Hk). split; [done|].
    unfold campaign_status. by rewrite Hk.
  - by apply set_failed_ok in Hr as [? _].
Qed.

Record Tally tr s : Prop := {
  ty_each : forall a, contribution_of s a = expected a tr;
  ty_raised : raised_of s = contributed tr;
  ty_start : cinst s CkCampaignId = None ->
    campaign_status s = None /\ cinst s CkDeadline = None /\ cinst s CkCreator = None /\ raised_of s = 0;
}.

Lemma tally_fresh s : fresh s -> Tally [] s.
Proof.
  intros [Hi Hp]. assert (forall k, cinst s k = None) as Ei by (intros; unfold cinst; by rewrite Hi).
  split; unfold raised_of, campaign_status; rewrite ?Ei; try done. intros a. unfold contribution_of. by rewrite Hp.
Qed.

(** A call that keeps contributions, total and campaign id, on a started campaign. *)
Lemma tally_keep tr call s s' :
  (forall a, contribution_of s' a = contribution_of s a) -> raised_of s' = raised_of s ->
  cinst s' CkCampaignId = cinst s CkCampaignId -> cinst s CkCampaignId <> None ->
  match call with PContribute _ _ | PRefund _ => False | _ => True end ->
  Tally tr s -> Tally (tr ++ [call]) s'.
Proof.
  intros Hb Hr Hc Hn Hk [T1 T2 T3]. split.
  - intros a. rewrite Hb, T1, expected_snoc. by destruct call.
  - rewrite Hr, T2, contributed_snoc. destruct call; (done || lia).
  - by rewrite Hc.
Qed.

Lemma run_tally tr call c s u s' : run_crowdpay call c s = Ok u s' -> Tally tr s -> Tally (tr ++ [call]) s'.
Proof.
  intros Hr HT. pose proof HT as [T1 T2 T3]. destruct call; cbn [run_crowdpay] in Hr.
  - apply crowd_initialize_ok in Hr as (Hn & Hc & _ & _ & Hz & Hb). destruct (T3 Hn) as (_ & _ & _ & Hz').
    split; [intros; by rewrite Hb, T1, expected_snoc|rewrite contributed_snoc; lia|by rewrite Hc].
  - apply contribute_ok in Hr as (st & d & g & t & h & Hst & _ & _ & _ & _ & _ & _ & _ & Hb & Hob & Hra & Hc & _).
    split.
    + intros a. rewrite expected_snoc. case_decide as E; [subst; by rewrite Hb, T1|rewrite Hob by congruence; apply T1].
    + rewrite contributed_snoc. lia.
    + rewrite Hc. intros E. destruct (T3 E) as [? _]. congruence.
  - apply crowd_release_ok in Hr as (cr & h & l & m & t & b & Hcr & _ & _ & _ & _ & _ & _ & _ & _ & _ & Hk & Hb).
    apply (tally_keep tr (PRelease milestone_index) s); [done| |by apply Hk| |done|done].
    + unfold raised_of. by rewrite Hk.
    + intros E. destruct (T3 E) as (_ & _ & ? & _). congruence.
  - apply crowd_refund_ok in Hr as (t & h & Hst & _ & _ & _ & _ & Hz & Hob & Hk). split.
    + intros a. rewrite expected_snoc. case_decide as E; [by subst|rewrite Hob by congruence; apply T1].
    + rewrite contributed_snoc. unfold raised_of in *. rewrite Hk. lia.
    + rewrite Hk. intros E. destruct (T3 E) as [? _]. congruence.
  - apply set_failed_ok in Hr as (_ & Hk & Hb & d & g & Hd & _). apply (tally_keep tr PSetFailed s); [done| |by apply Hk| |done|done].
    + unfold raised_of. by rewrite Hk.
    + intros E. destruct (T3 E) as (_ & ? & _). congruence.
Qed.

Lemma history_tally tr s0 s : history run_crowdpay tr s0 s -> fresh s0 -> Tally tr s.
Proof.
  induction 1 as [s|tr s0 s h call c r s' _ IH Hr]; intros Hf; [by apply tally_fresh|].
  eapply run_tally; [exact Hr|]. destruct (IH Hf) as [? ? ?]. by split.
Qed.

(** A failed campaign stays failed. *)
Lemma run_failed call c s u s' :
  run_crowdpay call c s = Ok u s' -> cinst s CkCampaignId <> None -> campaign_status s = Some CsFailed ->
  cinst s' CkCampaignId <> None /\ campaign_status s' = Some CsFailed.
Proof.
  intros Hr Hc Hs. pose proof (run_crowd_edge _ _ _ _ _ Hr) as He. destruct call; cbn [run_crowdpay crowd_edge] in *.
  - by apply crowd_initialize_ok in Hr as (? & _).
  - destruct He as [[? _]|[? _]]; congruence.
  - apply crowd_release_ok in Hr as (? & ? & ? & ? & ? & ? & _ & _ & _ & _ & _ & _ & _ & _ & _ & _ & Hk & _).
    rewrite Hk by done. by split; [|rewrite He].
  - apply crowd_refund_ok in Hr as (? & ? & _ & _ & _ & _ & _ & _ & _ & Hk). rewrite Hk. by split; [|destruct He].
  - apply set_failed_ok in Hr as (? & Hk & _). by rewrite Hk.
Qed.

(** C33. The contributions of a campaign are a function of its history: each
    contributor is credited what they contributed since their last refund, the
    total raised is everything ever contributed; every call moves the status along
    its edge, and once failed a campaign stays failed and takes no contribution. *)
Theorem crowd_ledger tr s0 s :
  fresh s0 -> history run_crowdpay tr s0 s ->
  (forall a, contribution_of s a = expected a tr) /\ raised_of s = contributed tr /\
  (forall call c u s', run_crowdpay call c s = Ok u s' -> crowd_edge call (campaign_status s) (campaign_status s')) /\
  (campaign_status s = Some CsFailed -> forall tr' s2, history run_crowdpay tr' s s2 ->
    campaign_status s2 = Some CsFailed /\
    forall a x c u s3, run_crowdpay (PContribute a x) c s2 <> Ok u s3).
Proof.
  intros Hf Hr. destruct (history_tally _ _ _ Hr Hf) as [T1 T2 T3]. split; [done|]. split; [done|].
  split; [intros; by eapply run_crowd_edge|]. intros Hs tr' s2 Hh.
  assert (cinst s2 CkCampaignId <> None /\ campaign_status s2 = Some CsFailed) as [_ Hs2].
  { eapply (history_keeps _ (fun s => cinst s CkCampaignId <> None /\ campaign_status s = Some CsFailed)); [done| |exact Hh|].
    - intros call c s1 r s1' Hr1 [H1 H2]. by eapply run_failed.
    - split; [|done]. intros E. destruct (T3 E) as [? _]. congruence. }
  split; [done|]. intros a x c u s3 Hc. apply run_crowd_edge in Hc. cbn in Hc. rewrite Hs2 in Hc.
  by destruct Hc as [[? _]|[? _]].
Qed.

(** ** What a release takes *)

(** The documented behaviour of a Stellar token the finding relies on: a transfer
    is covered by the sender's balance and lowers it by the amount, and a signature
    moves no token. *)
Class TokenLaws : Prop := {
  transfer_covered self t from to amt h h' :
    token_transfer self t from to amt h = Some h' -> from <> to ->
    exists b, token_balance t from h = Some b /\ amt <= b /\ token_balance t from h' = Some (b - amt);
}.

(** Releasing any one milestone hands the creator the whole balance of the
    contract, whatever the milestone's target and whatever the status of the
    campaign; on the emptied contract no refund succeeds, although the campaign
    has failed and the contribution is on record. *)
Theorem release_takes_everything `{!TokenLaws} i c s u s' cr :
  run_crowdpay (PRelease i) c s = Ok u s' -> cinst s CkCreator = Some cr -> cr <> current_contract c ->
  exists t, cinst s CkToken = Some t /\
    (forall bal, token_balance t (current_contract c) (host_state s') = Some bal -> bal <= 0) /\
    forall a h c2 u2 s2, current_contract c2 = current_contract c -> a <> current_contract c ->
      (forall h1, host_require_auth a h = Some h1 ->
         token_balance t (current_contract c) h1 = token_balance t (current_contract c) (host_state s')) ->
      run_crowdpay (PRefund a) c2 (set_host h s') <> Ok u2 s2.
Proof.
  cbn [run_crowdpay]. intros Hr Hcr Hne.
  apply crowd_release_ok in Hr as (cr' & h & l & m & t & bal & Hcr' & _ & _ & _ & _ & _ & Ht & Hb & Htr & _ & Hk & Hcb).
  assert (cr' = cr) as -> by congruence.
  assert (forall b, token_balance t (current_contract c) (host_state s') = Some b -> b <= 0) as Hz.
  { intros b Hb'. destruct (Z.ltb_spec 0 bal) as [Hp|Hp].
    - destruct (transfer_covered _ _ _ _ _ _ _ Htr) as (b0 & Hb0 & _ & Hb1); [congruence|].
      rewrite Hb in Hb0. injection Hb0 as <-. rewrite Hb1 in Hb'. injection Hb' as <-. lia.
    - rewrite Htr, Hb in Hb'. injection Hb' as <-. lia. }
  exists t. split; [done|]. split; [done|]. intros a h2 c2 u2 s2 Hc2 Ha Hauth Hr2.
  apply crowd_refund_ok in Hr2 as (t' & h1 & _ & Ht' & Hh1 & Hpos & Htr2 & _).
  change (cinst s' CkToken = Some t') in Ht'. rewrite Hk in Ht' by done. assert (t' = t) as -> by congruence.
  rewrite Hc2 in Htr2. destruct (transfer_covered _ _ _ _ _ _ _ Htr2) as (b & Hb2 & Hle & _); [congruence|].
  rewrite (Hauth _ Hh1) in Hb2. specialize (Hz _ Hb2). lia.
Qed.
End crowdpay.

(** ** A campaign *)
Import Concrete.

#[export] Instance bank_token_laws : TokenLaws.
Proof.
  split. intros self t from to amt h h' Htr Hne. cbn in *. unfold bank_transfer in Htr.
  destruct ((0 <=? amt) && _) eqn:E; [|done]. injection Htr as <-. apply andb_true_iff in E as [E1 E2].
  apply Z.leb_le in E2. eexists. split; [done|]. split; [done|]. cbn. f_equal.
  unfold bank_balance. cbn [map]. unfold sumZ. cbn [foldr].
  rewrite decide_True by done. rewrite decide_False by naive_solver. lia.
Qed.

Module Crowd.
Abbreviation FSt := (State (C := CrowdPayContract)).

Definition fund : Address := mkAddress 50.
Definition maker : Address := mkAddress 51.
Definition dave : Address := mkAddress 52.

Definition fund_at (t : Z) : Ctx := mkCtx t 1 fund.

Definition fsigned (l : list Address) (s : FSt) : FSt :=
  set_host (mkBank l [] (balances (host_state s))) s.

Definition fstep (who : list Address) (call : PCall) (t : Z) (s : FSt) : FSt :=
  next run_crowdpay call (fund_at t) (fsigned who s).

Definition undeployed : FSt := mkState store_empty store_empty (mkBank [] [] [(token, dave, 500)]) [].

Definition announced : FSt :=
  fstep [] (PInitialize "film"%string maker token 1000 400 [mkCrowdMilestone 100 false]) 10 undeployed.

Definition given : FSt := fstep [dave] (PContribute dave 300) 20 announced.

(** Past the deadline and below the goal: failed; then the creator releases. *)
Definition failed : FSt := fstep [] PSetFailed 400 given.

Definition emptied : FSt := fstep [maker] (PRelease 0) 410 failed.
End Crowd.
Import Crowd.

(** C33: announced, contributed to, failed. *)
Lemma crowd_ledger_witness :
  contribution_of failed dave = 300 /\ raised_of failed = 300 /\
  run_crowdpay (PContribute dave 5) (fund_at 401) failed <> Ok tt failed.
Proof.
  destruct (crowd_ledger (((([] ++ [PInitialize "film"%string maker token 1000 400 [mkCrowdMilestone 100 false]])
      ++ [PContribute dave 300]) ++ [PSetFailed])) undeployed failed (conj eq_refl eq_refl)) as (H1 & H2 & _ & H4).
  - repeat (eapply history_next; [|vm_compute; reflexivity]). apply hist_start.
  - split; [by rewrite H1|]. split; [by rewrite H2|].
    apply (proj2 (H4 ltac:(vm_compute; reflexivity) [] failed (hist_start _ _))).
Defined.

(** After the release dave's refund fails. *)
Lemma release_takes_everything_witness :
  contribution_of emptied dave = 300 /\ campaign_status emptied = Some CsFailed /\
  run_crowdpay (PRefund dave) (fund_at 420) (fsigned [dave] emptied) <> Ok tt emptied.
Proof.
  split; [vm_compute; reflexivity|]. split; [vm_compute; reflexivity|].
  assert (result run_crowdpay (PRelease 0) (fund_at 410) (fsigned [maker] failed) = Some tt) as Hrun
    by (vm_compute; reflexivity).
  destruct (release_takes_everything 0 (fund_at 410) (fsigned [maker] failed) tt emptied maker)
    as (t & Ht & _ & Hno).
  - exact (run_next run_crowdpay _ _ _ _ Hrun).
  - vm_compute. reflexivity.
  - discriminate.
  - assert (t = token) as -> by (revert Ht; vm_compute; congruence).
    apply (Hno dave (mkBank [dave] [] (balances (host_state emptied)))); [reflexivity|discriminate|].
    intros h1. cbn. unfold bank_auth. case_decide; [|discriminate]. by intros [= <-].
Defined.
