(* ===== verification/AuctionTheorems.v ===== *)
(** * The auction contract's guarantees

    The Dutch price falls from start to floor; an accepted bid is at least what the
    configuration asks and, where a bid token is stored, is escrowed and refunds the
    previous bidder (no entrypoint stores one); an auction is settled or claimed at
    most once. *)
From S2P Require Import Prelude MathUtils Soroban CreditTypes AuctionCurves AuctionStorage Auction Scenario.
Import AStore.

(** ** Dutch prices *)
Section dutch.

(** Splitting the quotient avoids overflow and loses nothing. *)
Lemma scaled_drop_exact p e d :
  0 <= p <= i128_max -> 0 <= e <= d -> 0 < d <= u64_max -> scaled_drop p e d = Some (p * e / d).
Proof.
  intros Hp He Hd. unfold scaled_drop.
  pose proof (Z.div_mod p d ltac:(lia)) as Hdm. pose proof (Z.mod_pos_bound p d ltac:(lia)) as Hm.
  assert (0 <= p / d) as Hq by (apply Z.div_pos; lia).
  assert (p * e / d = p / d * e + p mod d * e / d) as E.
  { rewrite Hdm at 1. replace ((d * (p / d) + p mod d) * e) with (p mod d * e + (p / d * e) * d) by ring.
    rewrite Z.div_add by lia. lia. }
  assert (p * e / d <= p) by (apply mul_div_le_self; lia).
  assert (0 <= p mod d * e / d) by (apply Z.div_pos; nia).
  assert (0 <= p / d * e) by nia.
  assert (0 <= p mod d * e <= u64_max * u64_max) by nia.
  rewrite (checked_in _ _ (p / d * e)) by lia. cbn. rewrite (checked_in _ _ (p mod d * e)) by lia. cbn.
  rewrite checked_in by lia. cbn. rewrite as_i128_id by lia. by rewrite E.
Qed.

Lemma decay_factor_ok t f :
  0 <= f <= 10000 -> exists f', decay_factor t f = Some f' /\ 0 <= f' <= f.
Proof.
  revert f. induction t as [|t IH]; intros f Hf; cbn [decay_factor]; [exists f; split; [done|lia]|].
  rewrite checked_in by lia. cbn.
  assert (0 <= f * 9900 / 10000) by (apply Z.div_pos; lia).
  assert (f * 9900 / 10000 <= f) by (apply Z.div_le_upper_bound; lia).
  destruct (IH (f * 9900 / 10000)) as (f' & Hf' & Hb); [lia|]. exists f'. split; [done|lia].
Qed.

Lemma decay_factor_add t u f f1 :
  decay_factor t f = Some f1 -> decay_factor (t + u) f = decay_factor u f1.
Proof.
  revert f. induction t as [|t IH]; intros f; cbn [decay_factor]; [by intros [= ->]|].
  cbn [Nat.add decay_factor]. destruct (checked_u128 (f * 9900)) as [g|]; [|done]. cbn. apply IH.
Qed.

(** The fraction of the drop, out of [scale], reached at [elapsed]. *)
Definition progress (elapsed duration : Z) (decay : DutchAuctionDecay) (steps : option Z) : option (Z * Z) :=
  match decay with
  | NoDecay | Linear => Some (elapsed, duration)
  | Stepped => match steps with Some n => Some (elapsed * n / duration, n) | None => None end
  | Exponential =>
      match decay_factor (Z.to_nat (Z.min elapsed 100)) 10000 with
      | Some f => Some (10000 - f, 10000)
      | None => None
      end
  end.

Definition curve_ok (decay : DutchAuctionDecay) (steps : option Z) : Prop :=
  match decay with Stepped => exists n, steps = Some n /\ 0 < n <= u32_max | _ => True end.

Lemma progress_ok elapsed duration decay steps :
  0 <= elapsed < duration -> duration <= u64_max -> curve_ok decay steps ->
  exists e d, progress elapsed duration decay steps = Some (e, d) /\ 0 <= e <= d /\ 0 < d <= u64_max /\
    forall p, 0 <= p <= i128_max ->
      drop_so_far p elapsed duration decay steps = Some (p * e / d).
Proof.
  intros He Hd Hc. destruct decay; cbn [progress drop_so_far].
  - exists elapsed, duration. repeat (split; [done || lia|]). intros. apply scaled_drop_exact; lia.
  - exists elapsed, duration. repeat (split; [done || lia|]). intros. apply scaled_drop_exact; lia.
  - destruct Hc as (n & -> & Hn). exists (elapsed * n / duration), n.
    assert (0 <= elapsed * n / duration) by (apply Z.div_pos; nia).
    assert (elapsed * n / duration <= n) by (apply Z.div_le_upper_bound; nia).
    split; [done|]. split; [lia|]. split; [lia|]. intros p Hp.
    rewrite (proj2 (Z.ltb_lt 0 n)) by lia. cbn. rewrite checked_in by nia. cbn. apply scaled_drop_exact; lia.
  - destruct (decay_factor_ok (Z.to_nat (Z.min elapsed 100)) 10000) as (f & Hf & Hb); [lia|].
    rewrite Hf. exists (10000 - f), 10000. split; [done|]. split; [lia|]. split; [lia|]. intros p Hp.
    cbn. rewrite checked_in by lia. cbn. apply scaled_drop_exact; lia.
Qed.

(** Progress only grows with time. *)
Lemma progress_mono elapsed elapsed' duration decay steps e d e' d' :
  0 <= elapsed <= elapsed' -> 0 < duration -> curve_ok decay steps ->
  progress elapsed duration decay steps = Some (e, d) ->
  progress elapsed' duration decay steps = Some (e', d') -> d' = d /\ e <= e'.
Proof.
  intros He Hd Hc. destruct decay; cbn [progress].
  - intros [= <- <-] [= <- <-]. split; [done|lia].
  - intros [= <- <-] [= <- <-]. split; [done|lia].
  - destruct Hc as (n & -> & Hn). intros [= <- <-] [= <- <-]. split; [done|]. apply Z.div_le_mono; nia.
  - destruct (decay_factor (Z.to_nat (Z.min elapsed 100)) 10000) as [f|] eqn:E; [|done]. intros [= <- <-].
    destruct (decay_factor_ok (Z.to_nat (Z.min elapsed 100)) 10000) as (f0 & E0 & Hf0); [lia|].
    rewrite E in E0. injection E0 as <-.
    replace (Z.to_nat (Z.min elapsed' 100))
      with (Z.to_nat (Z.min elapsed 100) + Z.to_nat (Z.min elapsed' 100 - Z.min elapsed 100))%nat by lia.
    rewrite (decay_factor_add _ _ _ _ E).
    destruct (decay_factor_ok (Z.to_nat (Z.min elapsed' 100 - Z.min elapsed 100)) f) as (f1 & -> & Hf1); [lia|].
    intros [= <- <-]. split; [done|lia].
Qed.

Lemma dutch_price_eq start floor elapsed duration decay steps :
  floor <= start -> is_i128 start -> is_i128 floor -> start - floor <= i128_max ->
  0 <= elapsed < duration -> duration <= u64_max -> curve_ok decay steps ->
  exists e d, progress elapsed duration decay steps = Some (e, d) /\ 0 <= e <= d /\ 0 < d /\
    compute_dutch_price start floor elapsed duration decay steps = Some (start - (start - floor) * e / d) /\
    floor <= start - (start - floor) * e / d <= start.
Proof.
  intros Hfs Hs Hf Hp He Hd Hc.
  destruct (progress_ok elapsed duration decay steps He Hd Hc) as (e & d & Hpr & Hed & Hd0 & Hdrop).
  exists e, d. do 2 (split; [done|]). split; [lia|].
  assert (0 <= (start - floor) * e / d) by (apply Z.div_pos; nia).
  assert ((start - floor) * e / d <= start - floor) by (apply mul_div_le_self; lia).
  unfold compute_dutch_price. rewrite (proj2 (Z.eqb_neq _ _)), (proj2 (Z.leb_gt _ _)) by lia.
  rewrite checked_in by lia. cbn. rewrite as_u128_id by lia. rewrite Hdrop by lia. cbn.
  rewrite checked_in by lia. cbn. split; [f_equal; lia|lia].
Qed.

(** C26. The Dutch price is well defined for every curve, starts at the start price,
    ends at the floor, stays between them and never rises: a later bid faces a price
    at most that of an earlier one. *)
Theorem dutch_price_falls start floor elapsed elapsed' duration decay steps :
  floor <= start -> is_i128 start -> is_i128 floor -> start - floor <= i128_max ->
  0 <= elapsed <= elapsed' -> 0 < duration <= u64_max -> curve_ok decay steps ->
  exists p p', compute_dutch_price start floor elapsed duration decay steps = Some p /\
    compute_dutch_price start floor elapsed' duration decay steps = Some p' /\
    floor <= p' <= p /\ p <= start /\ (elapsed = 0 -> p = start) /\ (duration <= elapsed -> p = floor).
Proof.
  intros Hfs Hs Hf Hp He Hd Hc.
  assert (forall t, duration <= t -> compute_dutch_price start floor t duration decay steps = Some floor) as Hend.
  { intros t Ht. unfold compute_dutch_price. rewrite (proj2 (Z.eqb_neq _ _)), (proj2 (Z.leb_le _ _)) by lia. done. }
  destruct (Z_lt_le_dec elapsed duration) as [Hlt|Hge].
  2: { exists floor, floor. rewrite !Hend by lia. repeat (split; [done || lia|]). lia. }
  destruct (dutch_price_eq start floor elapsed duration decay steps) as (e & d & Hpr & Hed & Hd0 & Hc1 & Hb1); [done || lia..|].
  assert (elapsed = 0 -> e = 0) as He0.
  { intros ->. destruct decay; cbn in Hpr; try (injection Hpr as <- <-; lia).
    destruct Hc as (n & -> & _). by injection Hpr as <- <-. }
  destruct (Z_lt_le_dec elapsed' duration) as [Hlt'|Hge'].
  - destruct (dutch_price_eq start floor elapsed' duration decay steps) as (e' & d' & Hpr' & Hed' & _ & Hc1' & Hb1'); [done || lia..|].
    assert (0 < duration) as Hd1 by lia.
    destruct (progress_mono _ _ _ _ _ _ _ _ _ He Hd1 Hc Hpr Hpr') as [-> Hle].
    do 2 eexists. split; [exact Hc1|]. split; [exact Hc1'|].
    assert ((start - floor) * e / d <= (start - floor) * e' / d) by (apply Z.div_le_mono; nia).
    split; [lia|]. split; [lia|]. split; [|lia]. intros H0. rewrite (He0 H0), Z.mul_0_r, Z.div_0_l; lia.
  - do 2 eexists. split; [exact Hc1|]. split; [by apply Hend|].
    split; [lia|]. split; [lia|]. split; [|lia]. intros H0. rewrite (He0 H0), Z.mul_0_r, Z.div_0_l; lia.
Qed.
End dutch.

(** ** Outbidding *)

(** The increment over [highest]: its share in basis points rounded up, at least one. *)
Definition next_bid (highest bps : Z) : Z := highest + Z.max (ceil_div (highest * bps) 10000) 1.

Lemma min_next_bid_eq highest bps t :
  0 <= highest -> 0 <= bps -> min_next_bid highest bps = Some t -> t = next_bid highest bps.
Proof.
  intros Hh Hb. unfold min_next_bid, next_bid, ceil_div.
  destruct (checked_i128 (highest * bps)) as [p|] eqn:Ep; [|done]. chk. subst. cbn.
  rewrite quot_nonneg, rem_nonneg by lia.
  destruct (checked_i128 _) as [i|] eqn:Ei; [|done]. chk. subst. cbn. intros Ht. chk. lia.
Qed.

Section auction.
Context `{H : Host}.
Abbreviation AS := (State (C := AuctionContract)).
Implicit Types (s : AS).

Definition ainst s (k : AuctionKey) : option (ainterp (AuctionKey_type k)) := instance_store s k.

Definition apers s (k : AuctionKey) : option (ainterp (AuctionKey_type k)) := persistent_store s k.

Definition auction_of s id : option AuctionState := apers s (AkAuction id).

Definition bid_token s : option Address := ainst s AkBidToken.

Definition factory_of s : option Address := ainst s AkFactoryContract.

Definition accepted s id b amt : bool :=
  match apers s (AkBidAccepted id b amt) with Some _ => true | None => false end.

Definition settled_flag s id : bool := unwrap_or (apers s (AkLiquidationSettled id)) false.

Definition grace_window_of s : Z := unwrap_or (ainst s AkGraceWindow) 0.

#[export] Instance reads_bump_existing k : Reads (bump_existing k) (fun _ _ => tt).
Proof. intros c s [] s' Hr. unfold bump_existing in Hr. minv Hr; done. Qed.

#[export] Instance reads_get_auction_bump id : Reads (bump_auction_state_ttl id) (fun _ _ => tt).
Proof. apply reads_bump_existing. Qed.

#[export] Instance reads_marker_bump k : Reads (bump_settlement_marker_ttl k) (fun _ _ => tt).
Proof. apply reads_bump_existing. Qed.

#[export] Instance reads_bump_instance : Reads AStore.bump_instance_ttl (fun _ _ => tt).
Proof. apply reads_iextend. Qed.

#[export] Instance reads_grace_window : Reads AStore.get_liquidation_grace_window (fun _ s => grace_window_of s).
Proof. intros c s a s' Hr. unfold AStore.get_liquidation_grace_window in Hr. minv Hr. done. Qed.

Lemma get_auction_ok id c s st s' :
  Auction.get_auction id c s = Ok st s' -> auction_of s id = Some st /\ s' = s.
Proof. unfold Auction.get_auction. intros Hr. minv Hr. done. Qed.

Lemma require_factory_ok c s f s' :
  Auction.require_factory_auth c s = Ok f s' ->
  factory_of s = Some f /\ exists h, host_require_auth f (host_state s) = Some h /\ s' = set_host h s.
Proof.
  unfold Auction.require_factory_auth, AStore.get_factory_contract. intros Hr. minv Hr.
  match goal with Hq : require_auth _ _ _ = _ |- _ => apply require_auth_ok in Hq as (h & ? & ->) end. by eauto.
Qed.

(** The token movements of an accepted bid. *)
Definition escrowed (tkn : option Address) (self b : Address) (amt : Z) (prev : option (Address * Z))
    (h h' : host) : Prop :=
  match tkn with
  | None => h' = h
  | Some t => exists h1, token_transfer self t b self amt h = Some h1 /\
      match prev with
      | Some (p, a) => token_transfer self t self p a h1 = Some h'
      | None => h' = h1
      end
  end.

(** What the handlers leave alone while tokens move. *)
Definition K_moving (a : area) (k : AuctionKey) : bool :=
  match a, k with Inst, AkReentrancy => false | _, _ => true end.

Lemma escrow_bid_ok b amt prev c s u s' :
  Auction.escrow_bid b amt prev c s = Ok u s' ->
  escrowed (bid_token s) (current_contract c) b amt prev (host_state s) (host_state s') /\ frame K_moving s s'.
Proof.
  intros Hr. split; [|eapply frame_steps; [exact Hr|unfold Auction.escrow_bid; kframe]].
  unfold Auction.escrow_bid, AStore.set_reentrancy_guard, AStore.clear_reentrancy_guard, escrowed in *.
  mstep Hr. subst. change (Soroban.instance_store _ _) with (bid_token s) in Hr. destruct (bid_token s) as [t|]; [|by minv Hr].
  minv Hr; repeat match goal with
    | Hq : Soroban.iset _ _ _ _ = _ |- _ => apply iset_ok in Hq as ->
    | Hq : AStore.publish_bid_refunded_event _ _ _ _ = _ |- _ => apply publish_ok in Hq as ->
    | Hq : transfer _ _ _ _ _ _ = _ |- _ => apply transfer_ok in Hq as (? & ? & ->) end.
  eexists. split; [eassumption|]. destruct prev as [[p a']|]; [|minv Hm1; done].
  match goal with Hq : _ = Ok _ ?sq |- context [host_state ?sf] => apply mbind_ok in Hq as ([] & sp & Hq1 & Hq2) end.
  unfold publish_bid_refunded_event in Hq1. apply publish_ok in Hq1 as ->. by apply transfer_ok in Hq2 as (h2 & Hh2 & ->).
Qed.

Lemma bid_checks_ok id amt c s st s' :
  Auction.bid_checks id amt c s = Ok st s' ->
  s' = s /\ auction_of s id = Some st /\ 0 < amt /\ as_status st = Open /\
  ledger_timestamp c < ac_end_time (as_config st) /\
  (0 < grace_window_of s -> sat_u64 (ac_start_time (as_config st) + grace_window_of s) <= ledger_timestamp c).
Proof.
  unfold Auction.bid_checks. intros Hr.
  apply mbind_ok in Hr as ([] & s1 & H1 & Hr). apply panic_if_ok in H1 as [Hp ->].
  apply mbind_ok in Hr as (st' & s1 & H1 & Hr). apply get_auction_ok in H1 as [Ha ->].
  minv Hr; bsimp. do 5 (split; [done|]). intros Hg.
  match goal with E : _ && _ = false |- _ => rewrite (proj2 (Z.ltb_lt _ _) Hg) in E; cbn in E; by apply Z.ltb_ge in E end.
Qed.

(** What a bid must reach: the outbidding threshold, or the Dutch price now. *)
Definition bid_floor (now : Z) (st : AuctionState) (floor : Z) : Prop :=
  match ac_mode (as_config st) with
  | English => Auction.english_threshold st = Some floor
  | Dutch => exists p, Auction.dutch_price_at (as_config st) now = Some p /\ floor = Z.max p (ac_min_bid (as_config st))
  end.

(** *** The least amount an auction accepts, stated on its configuration *)

(** What is left of 10000 after [t] steps of minus one per cent, rounded down. *)
Definition percent_left (t : nat) : Z := Nat.iter t (fun f => f * 9900 / 10000) 10000.

(** The part of the way from start to floor that a curve has gone. *)
Definition fraction (elapsed duration : Z) (decay : DutchAuctionDecay) (steps : option Z) : Z * Z :=
  match decay with
  | NoDecay | Linear => (elapsed, duration)
  | Stepped => let n := unwrap_or steps 1 in (elapsed * n / duration, n)
  | Exponential => (10000 - percent_left (Z.to_nat (Z.min elapsed 100)), 10000)
  end.

Definition start_price (cfg : AuctionConfig) : Z := unwrap_or (ac_dutch_start_price cfg) (ac_min_bid cfg).

Definition floor_price (cfg : AuctionConfig) : Z := unwrap_or (ac_dutch_floor_price cfg) (ac_min_bid cfg).

Definition dutch_ask (cfg : AuctionConfig) (now : Z) : Z :=
  let '(e, d) := fraction (Z.max 0 (now - ac_start_time cfg)) (ac_end_time cfg - ac_start_time cfg)
                   (ac_dutch_decay cfg) (ac_dutch_step_count cfg) in
  start_price cfg - (start_price cfg - floor_price cfg) * e / d.

(** English: the highest bid plus the increment, at least the minimum bid; without a
    bid, the minimum bid plus the increment.  Dutch: the price of the moment. *)
Definition least_bid (now : Z) (st : AuctionState) : Z :=
  let cfg := as_config st in
  match ac_mode cfg with
  | English =>
      if 0 <? as_highest_bid st
      then Z.max (next_bid (as_highest_bid st) (ac_min_increment_bps cfg)) (ac_min_bid cfg)
      else next_bid (ac_min_bid cfg) (ac_min_increment_bps cfg)
  | Dutch => Z.max (dutch_ask cfg now) (ac_min_bid cfg)
  end.

(** The ranges of the Rust types, and what [init_auction] requires. *)
Record bid_typed (cfg : AuctionConfig) : Prop := {
  bt_bps : 0 <= ac_min_increment_bps cfg;
  bt_min : 0 <= ac_min_bid cfg;
  bt_time : 0 <= ac_start_time cfg < ac_end_time cfg /\ ac_end_time cfg <= u64_max;
  bt_dutch : ac_mode cfg = Dutch ->
    floor_price cfg <= start_price cfg /\ is_i128 (start_price cfg) /\ is_i128 (floor_price cfg) /\
    start_price cfg - floor_price cfg <= i128_max /\ curve_ok (ac_dutch_decay cfg) (ac_dutch_step_count cfg);
}.

Lemma decay_factor_iter t f :
  0 <= f <= 10000 -> decay_factor t f = Some (Nat.iter t (fun f => f * 9900 / 10000) f).
Proof.
  revert f. induction t as [|t IH]; intros f Hf; [done|]. rewrite Nat.iter_succ_r. cbn [decay_factor].
  rewrite checked_in by lia. cbn. apply IH.
  pose proof (Z.div_pos (f * 9900) 10000). pose proof (Z.div_le_upper_bound (f * 9900) 10000 10000). lia.
Qed.

Lemma progress_fraction elapsed duration decay steps :
  curve_ok decay steps -> progress elapsed duration decay steps = Some (fraction elapsed duration decay steps).
Proof.
  destruct decay; cbn; try done.
  - by intros (n & -> & _).
  - intros _. by rewrite decay_factor_iter by lia.
Qed.

Lemma bid_floor_least now st floor :
  bid_floor now st floor -> bid_typed (as_config st) -> now < ac_end_time (as_config st) -> 0 <= now ->
  floor = least_bid now st.
Proof.
  unfold bid_floor, least_bid. intros Hf [Hb Hm [Ht Ht'] Hd] Hnow Hnow0. destruct (ac_mode (as_config st)) eqn:Emode.
  - unfold Auction.english_threshold in Hf. destruct (0 <? as_highest_bid st) eqn:E; bsimp.
    + destruct (min_next_bid _ _) as [t|] eqn:Et; [|done]. cbn in Hf. injection Hf as <-.
      apply min_next_bid_eq in Et as ->; lia.
    + by apply min_next_bid_eq in Hf as ->.
  - destruct Hf as (p & Hp & ->). f_equal. destruct (Hd eq_refl) as (H1 & H2 & H3 & H4 & H5).
    unfold Auction.dutch_price_at in Hp. rewrite checked_in in Hp by lia. cbn [unwrap_or] in Hp.
    unfold dutch_ask. fold (start_price (as_config st)) (floor_price (as_config st)) in Hp.
    replace (sat_u64 (now - ac_start_time (as_config st))) with (Z.max 0 (now - ac_start_time (as_config st))) in Hp
      by (unfold saturate; lia).
    set (el := Z.max 0 (now - ac_start_time (as_config st))) in *.
    set (du := ac_end_time (as_config st) - ac_start_time (as_config st)) in *.
    destruct (dutch_price_eq (start_price (as_config st)) (floor_price (as_config st)) el du
      (ac_dutch_decay (as_config st)) (ac_dutch_step_count (as_config st))) as (e & d & Hpr & _ & _ & Hc & _);
      [done|done|done|done|lia|lia|done|].
    rewrite progress_fraction in Hpr by done. injection Hpr as Hpr. rewrite Hpr. congruence.
Qed.

(** The auction after the bid: a Dutch auction closes. *)
Definition after_bid (st : AuctionState) (b : Address) (amt : Z) : AuctionState :=
  mkAuction (as_config st) (match ac_mode (as_config st) with English => as_status st | Dutch => Closed_ end)
    (Some b) amt.

(** Whom an accepted bid refunds. *)
Definition outbid (st : AuctionState) : option (Address * Z) :=
  match ac_mode (as_config st), as_highest_bidder st with
  | English, Some p => Some (p, as_highest_bid st)
  | _, _ => None
  end.

Lemma bid_mode_ok id st b amt c s st' s' :
  (match ac_mode (as_config st) with
   | English => Auction.bid_english st b amt
   | Dutch => Auction.bid_dutch id st b amt end) c s = Ok st' s' ->
  exists floor, bid_floor (ledger_timestamp c) st floor /\ floor <= amt /\ st' = after_bid st b amt /\
    escrowed (bid_token s) (current_contract c) b amt (outbid st) (host_state s) (host_state s') /\
    frame K_moving s s'.
Proof.
  unfold bid_floor, after_bid, outbid. destruct (ac_mode (as_config st)); intros Hr.
  - unfold Auction.bid_english in Hr. mstep Hr. mstep Hr. bsimp.
    apply mbind_ok in Hr as ([] & s1 & He & Hr). apply escrow_bid_ok in He as [He Hf]. minv Hr.
    eexists. split; [eassumption|]. split; [done|]. split; [done|]. split; [|done].
    by destruct (as_highest_bidder st).
  - unfold Auction.bid_dutch in Hr. mstep Hr. subst. mstep Hr. mstep Hr. mstep Hr. bsimp.
    apply mbind_ok in Hr as ([] & s1 & He & Hr). apply escrow_bid_ok in He as [He Hf]. cbv zeta in Hr.
    apply mbind_ok in Hr as ([] & s2 & Hp & Hr). unfold publish_auction_closed_event in Hp. apply publish_ok in Hp as ->. minv Hr.
    eexists. split; [by eexists|]. split; [lia|]. split; [done|]. split; [done|]. done.
Qed.

(** *** The stores after a bid *)
Lemma moving_pers s s' k : frame K_moving s s' -> apers s' k = apers s k.
Proof. intros Hf. exact (Hf Pers k eq_refl). Qed.

Lemma moving_token s s' : frame K_moving s s' -> bid_token s' = bid_token s.
Proof. intros Hf. exact (Hf Inst AkBidToken eq_refl). Qed.

Lemma place_bid_ok id b amt c s u s' :
  Auction.place_bid id b amt c s = Ok u s' ->
  exists h, host_require_auth b (host_state s) = Some h /\
  if accepted s id b amt then s' = set_host h s else
  exists st floor, auction_of s id = Some st /\ 0 < amt /\ as_status st = Open /\
    ledger_timestamp c < ac_end_time (as_config st) /\
    (0 < grace_window_of s -> sat_u64 (ac_start_time (as_config st) + grace_window_of s) <= ledger_timestamp c) /\
    bid_floor (ledger_timestamp c) st floor /\ floor <= amt /\
    escrowed (bid_token s) (current_contract c) b amt (outbid st) h (host_state s') /\
    auction_of s' id = Some (after_bid st b amt) /\ accepted s' id b amt = true /\
    (forall id', id' <> id -> auction_of s' id' = auction_of s id') /\
    (forall id', settled_flag s' id' = settled_flag s id') /\
    bid_token s' = bid_token s /\ factory_of s' = factory_of s.
Proof.
  unfold Auction.place_bid, require_bidder_auth. intros Hr. mstep Hr. subst.
  apply mbind_ok in Hr as ([] & s1 & Ha & Hr). apply require_auth_ok in Ha as (h & Hh & ->).
  exists h. split; [done|]. mstep Hr. subst. unfold accepted, apers.
  change (persistent_store (set_host h s)) with (persistent_store s) in Hr.
  destruct (persistent_store s _) as [x|] eqn:Ex; [by minv Hr|].
  apply mbind_ok in Hr as (st & s1 & Hc & Hr). apply bid_checks_ok in Hc as (-> & Hau & Hp & Hst & Hend & Hg).
  apply mbind_ok in Hr as (st' & s2 & Hm & Hr). apply bid_mode_ok in Hm as (floor & Hfl & Hle & -> & Hesc & Hf).
  exists st, floor. minv Hr.
  repeat match goal with Hq : Soroban.pset _ _ _ _ = _ |- _ => apply pset_ok in Hq as -> end.
  do 8 (split; [done|]). unfold auction_of, accepted, settled_flag, bid_token, factory_of, apers, ainst in *.
  sput. split; [done|]. split; [done|]. split; [|split].
  - intros id' Hne. rewrite !store_put_ne by congruence. exact (Hf Pers (AkAuction id') eq_refl).
  - intros id'. rewrite !store_put_ne by congruence. f_equal.
    exact (Hf Pers (AkLiquidationSettled id') eq_refl).
  - split; [exact (Hf Inst AkBidToken eq_refl)|exact (Hf Inst AkFactoryContract eq_refl)].
Qed.

(** *** Closing, settling, claiming *)
Lemma pay_out_ok tkn to amt c s u s' :
  Auction.pay_out tkn to amt c s = Ok u s' ->
  token_transfer (current_contract c) tkn (current_contract c) to amt (host_state s) = Some (host_state s') /\
  frame K_moving s s'.
Proof.
  intros Hr. split; [|eapply frame_steps; [exact Hr|unfold Auction.pay_out; kframe]].
  unfold Auction.pay_out, AStore.set_reentrancy_guard, AStore.clear_reentrancy_guard in Hr. minv Hr.
  match goal with Hq : transfer _ _ _ _ _ _ = _ |- _ => apply transfer_ok in Hq as (h & Hh & ->) end.
  repeat match goal with Hq : Soroban.iset _ _ _ _ = _ |- _ => apply iset_ok in Hq as -> end. done.
Qed.

Definition with_status (st : AuctionState) (x : AuctionStatus) : AuctionState :=
  mkAuction (as_config st) x (as_highest_bidder st) (as_highest_bid st).

(** Everything but auction [id] and the guard. *)
Definition K_auction (id : Symbol) (a : area) (k : AuctionKey) : bool :=
  match a, k with
  | Pers, AkAuction id' => negb (bool_decide (id' = id))
  | Inst, AkReentrancy => false
  | _, _ => true
  end.

Lemma K_auction_own id : K_auction id Pers (AkAuction id) = false.
Proof. cbn. by rewrite bool_decide_eq_true_2. Qed.

Lemma frame_auction_other id s s' id' :
  frame (K_auction id) s s' -> id' <> id -> auction_of s' id' = auction_of s id'.
Proof. intros Hf Hne. apply (Hf Pers (AkAuction id')). cbn. by rewrite bool_decide_eq_false_2. Qed.

(** The write of an auction's state, and what follows it. *)
Lemma write_auction_ok id st c s u s' :
  Soroban.pset (C := AuctionContract) (AkAuction id) st c s = Ok u s' ->
  auction_of s' id = Some st /\ frame (K_auction id) s s' /\ host_state s' = host_state s.
Proof.
  intros Hr. split; [|split; [eapply frame_pset; [exact Hr|apply K_auction_own]|]];
    apply pset_ok in Hr as ->; [|done]. unfold auction_of, apers. by sput.
Qed.

Lemma auction_close_ok id c s u s' :
  Auction.close_auction id c s = Ok u s' ->
  exists st f, auction_of s id = Some st /\ as_status st = Open /\ factory_of s = Some f /\
    (ledger_timestamp c < ac_end_time (as_config st) -> is_Some (host_require_auth f (host_state s))) /\
    auction_of s' id = Some (with_status st Closed_) /\ frame (K_auction id) s s'.
Proof.
  intros Hr. unfold Auction.close_auction, AStore.get_factory_contract in Hr. mstep Hr. subst. apply mbind_ok in Hr as (f & s1 & Hfac & Hr). apply or_panic_ok in Hfac as [Hfac ->].
  apply mbind_ok in Hr as (st & s1 & Ha & Hr). apply get_auction_ok in Ha as [Ha ->].
  apply mbind_ok in Hr as ([] & s1 & Hst & Hr).
  assert (as_status st = Open /\ s1 = s) as [Hopen ->] by (destruct (as_status st); minv Hst; done).
  mstep Hr. subst. apply mbind_ok in Hr as ([] & s1 & Hau & Hr).
  assert ((ledger_timestamp c < ac_end_time (as_config st) -> is_Some (host_require_auth f (host_state s))) /\
    frame (K_auction id) s s1) as [Hauth Hf1].
  { destruct (ac_end_time (as_config st) <=? ledger_timestamp c) eqn:E; bsimp.
    - minv Hau. split; [lia|done].
    - apply require_auth_ok in Hau as (h & Hh & ->). split; [by eauto|]. by apply frame_same_stores. }
  apply mbind_ok in Hr as ([] & s2 & Hw & Hr). apply write_auction_ok in Hw as (Hw & Hf2 & _).
  mstep Hr. subst. unfold publish_auction_closed_event in Hr. apply publish_ok in Hr as ->.
  exists st, f. do 3 (split; [done|]). split; [exact Hauth|]. split; [exact Hw|]. by etrans.
Qed.

Lemma claim_ok id c s u s' :
  Auction.claim_auction id c s = Ok u s' ->
  exists st w t h, auction_of s id = Some st /\ as_status st = Closed_ /\ settled_flag s id = false /\
    as_highest_bidder st = Some w /\ bid_token s = Some t /\
    host_require_auth w (host_state s) = Some h /\
    token_transfer (current_contract c) t (current_contract c) w (as_highest_bid st) h = Some (host_state s') /\
    auction_of s' id = Some (with_status st Claimed_) /\ frame (K_auction id) s s'.
Proof.
  intros Hr. unfold Auction.claim_auction, require_winner_auth in Hr. mstep Hr. subst.
  apply mbind_ok in Hr as (st & s1 & Ha & Hr). apply get_auction_ok in Ha as [Ha ->].
  mstep Hr. bsimp. mstep Hr. subst. do 2 (mstep Hr).
  apply mbind_ok in Hr as ([] & s1 & Hau & Hr). apply require_auth_ok in Hau as (h & Hh & ->).
  mstep Hr. mstep Hr. subst. mstep Hr.
  apply mbind_ok in Hr as ([] & s2 & Hw & Hr). apply write_auction_ok in Hw as (Hw & Hf2 & Hh2).
  mstep Hr. subst. apply pay_out_ok in Hr as [Hpay Hf]. rewrite Hh2 in Hpay.
  do 4 eexists. split; [exact Ha|]. split; [done|]. split; [eassumption|]. split; [eassumption|].
  split; [eassumption|]. split; [exact Hh|]. split; [exact Hpay|].
  split; [by unfold auction_of; rewrite (moving_pers _ _ _ Hf)|].
  transitivity s2; [exact Hf2|]. eapply frame_weaken; [|exact Hf]. by intros [] [].
Qed.

Lemma settle_payment_ok tkn cc amt c s u s' :
  match tkn with Some t => if 0 <? amt then Auction.pay_out t cc amt else mret tt | None => mret tt end c s = Ok u s' ->
  match tkn with
  | Some t => if 0 <? amt
      then token_transfer (current_contract c) t (current_contract c) cc amt (host_state s) = Some (host_state s')
      else host_state s' = host_state s
  | None => host_state s' = host_state s
  end /\ frame K_moving s s'.
Proof.
  destruct tkn as [t|]; [destruct (0 <? amt)|]; intros Hr; [by apply pay_out_ok in Hr|by minv Hr|by minv Hr].
Qed.

Lemma auction_settle_ok id cc b c s amt s' :
  Auction.settle_default_liquidation id cc b c s = Ok amt s' ->
  exists st, auction_of s id = Some st /\ as_status st = Closed_ /\ settled_flag s id = false /\
    factory_of s = Some cc /\ amt = as_highest_bid st /\
    (exists h, host_require_auth cc (host_state s) = Some h /\
       match bid_token s with
       | Some t => if 0 <? amt
           then token_transfer (current_contract c) t (current_contract c) cc amt h = Some (host_state s')
           else host_state s' = h
       | None => host_state s' = h
       end) /\
    (forall id', auction_of s' id' = auction_of s id') /\
    (forall id', settled_flag s' id' = if decide (id' = id) then true else settled_flag s id') /\
    bid_token s' = bid_token s /\ factory_of s' = factory_of s.
Proof.
  intros Hr. unfold Auction.settle_default_liquidation in Hr. mstep Hr. subst.
  apply mbind_ok in Hr as (f & s1 & Hf & Hr). apply require_factory_ok in Hf as (Hf & h & Hh & ->).
  mstep Hr. bsimp. subst.
  apply mbind_ok in Hr as (st & s1 & Ha & Hr). apply get_auction_ok in Ha as [Ha ->].
  mstep Hr. bsimp. mstep Hr. subst. mstep Hr. subst. mstep Hr.
  apply mbind_ok in Hr as ([] & s2 & Hw & Hr). apply pset_ok in Hw as ->. mstep Hr. subst. cbv zeta in Hr.
  apply mbind_ok in Hr as ([] & s3 & Hp & Hr).
  unfold publish_default_liquidation_settlement_event in Hp. apply publish_ok in Hp as ->.
  mstep Hr. subst. apply mbind_ok in Hr as ([] & s4 & Hpay & Hr). apply mret_ok in Hr as [-> ->].
  apply (settle_payment_ok (bid_token s)) in Hpay as [Hpay Hm].
  exists st. split; [exact Ha|]. do 4 (split; [done|]). split; [by exists h|].
  unfold auction_of, settled_flag, bid_token, factory_of, apers, ainst in *.
  split; [|split; [|split; [exact (Hm Inst AkBidToken eq_refl)|exact (Hm Inst AkFactoryContract eq_refl)]]].
  - intros id'. pose proof (Hm Pers (AkAuction id') eq_refl) as E. cbn in E. rewrite E. by rewrite store_put_ne.
  - intros id'. pose proof (Hm Pers (AkLiquidationSettled id') eq_refl) as E. cbn in E. rewrite E.
    case_decide; [subst; by rewrite store_put_eq|]. by rewrite store_put_ne by congruence.
Qed.

(** ** Whole calls *)

(** The calls that write neither bids nor statuses of an existing auction. *)
Definition K_admin (a : area) (k : AuctionKey) : bool :=
  match a, k with
  | Pers, AkAuction _ => false
  | Inst, (AkFactoryContract | AkGraceWindow | AkReentrancy) => false
  | _, _ => true
  end.

Lemma admin_call_frame call : 
  match call with AInit _ _ _ _ _ _ _ _ _ _ | ASetFactory _ | ASetGrace _ => True | _ => False end ->
  steps (frame K_admin) (run_auction call).
Proof. destruct call; try done; intros _; cbn [run_auction]; kframe. Qed.

Lemma K_auction_admin id s s' : frame (K_auction id) s s' -> frame K_admin s s'.
Proof. apply frame_weaken. by intros [] []. Qed.

(** Settlement flags only rise, and nothing configures the bid token. *)
Lemma call_keeps call c s r s' :
  run_auction call c s = Ok r s' ->
  bid_token s' = bid_token s /\ forall id, settled_flag s id = true -> settled_flag s' id = true.
Proof.
  assert (frame K_admin s s' -> bid_token s' = bid_token s /\
    forall id, settled_flag s id = true -> settled_flag s' id = true) as Hadm.
  { intros Hf. split; [exact (Hf Inst AkBidToken eq_refl)|]. intros id. unfold settled_flag, apers.
    pose proof (Hf Pers (AkLiquidationSettled id) eq_refl) as E. cbn in E. by rewrite E. }
  destruct call; intros Hr; try (apply Hadm; eapply frame_steps; [exact Hr|by apply admin_call_frame]);
    cbn [run_auction] in Hr.
  - minv Hr. match goal with Hq : Auction.place_bid _ _ _ _ _ = _ |- _ => apply place_bid_ok in Hq as (h & _ & Hz) end.
    destruct (accepted s auction_id bidder amount); [by subst|].
    destruct Hz as (st & fl & _ & _ & _ & _ & _ & _ & _ & _ & _ & _ & _ & Hs & Ht & _).
    split; [done|]. intros id. by rewrite Hs.
  - minv Hr. match goal with Hq : Auction.close_auction _ _ _ = _ |- _ => apply auction_close_ok in Hq as (? & ? & _ & _ & _ & _ & _ & Hz) end.
    by apply Hadm, (K_auction_admin auction_id).
  - apply auction_settle_ok in Hr as (st & _ & _ & _ & _ & _ & _ & _ & Hs & Ht & _).
    split; [done|]. intros id Hid. rewrite Hs. by case_decide.
  - minv Hr. match goal with Hq : Auction.claim_auction _ _ _ = _ |- _ => apply claim_ok in Hq as (? & ? & ? & ? & _ & _ & _ & _ & _ & _ & _ & _ & Hz) end.
    by apply Hadm, (K_auction_admin auction_id).
Qed.

Definition status_at s id : option AuctionStatus := as_status <$> auction_of s id.

(** The edge each call makes in the status of auction [id]. *)
Definition auction_step (call : ACall) id (o o' : option AuctionStatus) : Prop :=
  match call with
  | AInit i _ _ _ _ _ _ _ _ _ => o' = if decide (id = i) then Some Open else o
  | ABid i _ _ => o' = o \/ (id = i /\ o = Some Open /\ o' = Some Closed_)
  | AClose i => if decide (id = i) then o = Some Open /\ o' = Some Closed_ else o' = o
  | AClaim i => if decide (id = i) then o = Some Closed_ /\ o' = Some Claimed_ else o' = o
  | _ => o' = o
  end.

Lemma status_other i s s' id : frame (K_auction i) s s' -> id <> i -> status_at s' id = status_at s id.
Proof. intros Hf Hne. unfold status_at. by rewrite (frame_auction_other i s s' id Hf Hne). Qed.

Lemma status_keep s s' id : frame (fun a k => match a, k with Pers, AkAuction _ => true | _, _ => false end) s s' ->
  status_at s' id = status_at s id.
Proof. intros Hf. unfold status_at, auction_of, apers. pose proof (Hf Pers (AkAuction id) eq_refl) as E. cbn in E. by rewrite E. Qed.

Lemma lifecycle_step call c s r s' :
  run_auction call c s = Ok r s' -> forall id, auction_step call id (status_at s id) (status_at s' id).
Proof.
  destruct call; intros Hr id; cbn [auction_step];
    try (apply status_keep; eapply frame_steps; [exact Hr|cbn [run_auction]; kframe]);
    cbn [run_auction] in Hr.
  - minv Hr. match goal with Hq : Auction.init_auction _ _ _ _ _ _ _ _ _ _ _ _ = _ |- _ => unfold Auction.init_auction in Hq; mstep Hq; subst;
      apply mbind_ok in Hq as (f & s1 & Hf & Hq); apply require_factory_ok in Hf as (_ & h & _ & ->);
      mstep Hq; cbv zeta in Hq; apply mbind_ok in Hq as ([] & s2 & Hw & Hq); apply write_auction_ok in Hw as (Hw & Hf & _);
      apply reads in Hq as [_ ->] end.
    case_decide; [subst; unfold status_at; by rewrite Hw|]. by rewrite (status_other _ _ _ _ Hf).
  - minv Hr. match goal with Hq : Auction.place_bid _ _ _ _ _ = _ |- _ => apply place_bid_ok in Hq as (h & _ & Hz) end.
    destruct (accepted s auction_id bidder amount); [subst; by left|].
    destruct Hz as (st & fl & Ha & _ & Ho & _ & _ & _ & _ & _ & Ha' & _ & Hoth & _).
    destruct (decide (id = auction_id)) as [->|Hne].
    + unfold status_at. rewrite Ha, Ha'. unfold after_bid. cbn. rewrite Ho.
      destruct (ac_mode (as_config st)); [by left|by right].
    + left. unfold status_at. by rewrite Hoth.
  - minv Hr. match goal with Hq : Auction.close_auction _ _ _ = _ |- _ => apply auction_close_ok in Hq as (st & f & Ha & Ho & _ & _ & Ha' & Hf) end.
    case_decide; [|by eapply status_other]. subst. unfold status_at. rewrite Ha, Ha'. cbn. by rewrite Ho.
  - minv Hr. match goal with Hq : Auction.claim_auction _ _ _ = _ |- _ =>
      apply claim_ok in Hq as (st & w & t & h & Ha & Ho & _ & _ & _ & _ & _ & Ha' & Hf) end.
    case_decide; [|by eapply status_other]. subst. unfold status_at. rewrite Ha, Ha'. cbn. by rewrite Ho.
Qed.

(** One or more later calls, from those [P] allows. *)
Inductive auction_later (P : ACall -> Prop) : AS -> AS -> Prop :=
| alater_refl s : auction_later P s s
| alater_call s1 s2 h call c r s3 :
    auction_later P s1 s2 -> P call -> run_auction call c (set_host h s2) = Ok r s3 -> auction_later P s1 s3.

Lemma later_keeps P s s' :
  auction_later P s s' -> bid_token s' = bid_token s /\ forall id, settled_flag s id = true -> settled_flag s' id = true.
Proof.
  induction 1 as [|s1 s2 h call c r s3 _ [IHt IHs] _ Hr]; [done|].
  apply call_keeps in Hr as [Ht Hs]. split; [by rewrite Ht|]. intros id Hid. by apply Hs, IHs.
Qed.

Definition not_init (id : Symbol) (call : ACall) : Prop :=
  match call with AInit i _ _ _ _ _ _ _ _ _ => i <> id | _ => True end.

Lemma later_claimed id s s' :
  auction_later (not_init id) s s' -> status_at s id = Some Claimed_ -> status_at s' id = Some Claimed_.
Proof.
  induction 1 as [|s1 s2 h call c r s3 _ IH HP Hr]; [done|]. intros Hc. specialize (IH Hc).
  assert (auction_step call id (status_at s2 id) (status_at s3 id)) as Hst.
  { destruct (run_auction call c (set_host h s2)) eqn:E; [|done]. injection Hr as -> ->.
    by apply (lifecycle_step call c (set_host h s2) r s3). }
  rewrite IH in Hst. destruct call; cbn in Hst, HP; try done; try case_decide; subst; try done;
    by destruct Hst as [? ?] || destruct Hst as [?|(_ & ? & _)].
Qed.

Lemma later_weaken (P Q : ACall -> Prop) s s' :
  (forall k, P k -> Q k) -> auction_later P s s' -> auction_later Q s s'.
Proof. intros HPQ. induction 1; [constructor|]. eapply alater_call; eauto. Qed.

Definition status_rank (o : option AuctionStatus) : Z :=
  match o with None => 0 | Some Open => 1 | Some Closed_ => 2 | Some Claimed_ => 3 end.

Lemma step_rank call id o o' : not_init id call -> auction_step call id o o' -> status_rank o <= status_rank o'.
Proof.
  destruct call; cbn; try (intros _ ->; lia).
  - intros Hne ->. by rewrite decide_False.
  - intros _ [->|(_ & -> & ->)]; cbn; lia.
  - intros _. case_decide; [intros [-> ->]; cbn; lia|intros ->; lia].
  - intros _. case_decide; [intros [-> ->]; cbn; lia|intros ->; lia].
Qed.

(** Auctions only move from open to closed to claimed: every successful call
    makes exactly the status edge of its entrypoint on the auction it names and
    leaves the others alone, so over any history in which an auction is not created
    again its status never goes back. *)
Theorem auction_lifecycle id s s' :
  (forall call c r, run_auction call c s = Ok r s' -> auction_step call id (status_at s id) (status_at s' id)) /\
  (auction_later (not_init id) s s' -> status_rank (status_at s id) <= status_rank (status_at s' id)).
Proof.
  split; [intros call c r Hr; by eapply lifecycle_step|].
  induction 1 as [|s1 s2 h call c r s3 _ IH HP Hr]; [lia|]. etrans; [exact IH|].
  eapply step_rank; [exact HP|]. exact (lifecycle_step _ _ _ _ _ Hr id).
Qed.


(** A freshly deployed auction contract. *)
Definition deployed (s : AS) : Prop := instance_store s = store_empty /\ persistent_store s = store_empty.

(** No entrypoint configures the bid token. *)
Lemma deployed_token s0 s P : deployed s0 -> auction_later P s0 s -> bid_token s = None.
Proof.
  intros [Hi _] Hl. rewrite (proj1 (later_keeps _ _ _ Hl)). unfold bid_token, ainst. by rewrite Hi.
Qed.

(** C28. An accepted bid: the bidder signed; a repeated identity changes nothing;
    otherwise the auction is open, inside its window and past the grace period, the
    amount is at least what the configuration asks (English: the highest bid raised
    by the increment, and for the first bid the minimum bid raised by the increment,
    where [auction.md] and [ARCHITECTURE.md] ask for the minimum bid only; Dutch: the
    price of the moment on the curve), the bid becomes the highest one (a Dutch
    auction closes), and every other auction is untouched.  When the instance holds a
    bid token the amount is escrowed from the bidder and exactly the outbid amount
    goes back to the outbid bidder; without one no token moves, and that is the case
    in every history of a deployed contract, since no entrypoint stores the token. *)
Theorem bid_sound id b amt c s r s' (now := ledger_timestamp c) (self := current_contract c) :
  run_auction (ABid id b amt) c s = Ok r s' -> 0 <= now ->
  exists h, host_require_auth b (host_state s) = Some h /\
  if accepted s id b amt then s' = set_host h s else
  exists st, auction_of s id = Some st /\ 0 < amt /\ as_status st = Open /\
    now < ac_end_time (as_config st) /\
    (0 < grace_window_of s -> sat_u64 (ac_start_time (as_config st) + grace_window_of s) <= now) /\
    (bid_typed (as_config st) -> least_bid now st <= amt) /\
    auction_of s' id = Some (after_bid st b amt) /\ accepted s' id b amt = true /\
    match bid_token s with
    | Some t => exists h1, token_transfer self t b self amt h = Some h1 /\
        match outbid st with
        | Some (loser, owed) => token_transfer self t self loser owed h1 = Some (host_state s')
        | None => host_state s' = h1
        end
    | None => host_state s' = h
    end /\
    (forall s0 P, deployed s0 -> auction_later P s0 s -> host_state s' = h) /\
    (forall id', id' <> id -> auction_of s' id' = auction_of s id').
Proof.
  cbn [run_auction]. intros Hr Hnow. minv Hr.
  match goal with Hq : Auction.place_bid _ _ _ _ _ = _ |- _ => apply place_bid_ok in Hq as (h & Hh & Hz) end.
  exists h. split; [done|]. destruct (accepted s id b amt); [done|].
  destruct Hz as (st & fl & Ha & Hp & Ho & He & Hg & Hfl & Hle & Hesc & Ha' & Hacc & Hoth & _).
  exists st. do 5 (split; [done|]). split; [intros HT; by rewrite <- (bid_floor_least now _ _ Hfl HT He Hnow)|].
  do 3 (split; [done|]). split; [|done]. intros s1 P Hd Hl. rewrite (deployed_token _ _ _ Hd Hl) in Hesc. exact Hesc.
Qed.

(** No entrypoint configures the bid token, so in every history of a deployed
    contract bids are accepted without moving a token, a settlement reports the
    highest bid as recovered although nothing is transferred, and a claim never
    succeeds. *)
Theorem bid_token_is_never_set s0 s P call c h r s' :
  deployed s0 -> auction_later P s0 s -> run_auction call c (set_host h s) = Ok r s' ->
  match call with
  | ABid _ b _ => host_require_auth b h = Some (host_state s')
  | ASettle id cc _ => host_require_auth cc h = Some (host_state s') /\
      exists st, auction_of s id = Some st /\ r = as_highest_bid st
  | AClaim _ => False
  | _ => True
  end.
Proof.
  intros Hd Hl Hr. pose proof (deployed_token _ _ _ Hd Hl) as Hb.
  destruct call; try done; cbn [run_auction] in Hr.
  - minv Hr. match goal with Hq : Auction.place_bid _ _ _ _ _ = _ |- _ => apply place_bid_ok in Hq as (h' & Hh & Hz) end.
    destruct (accepted (set_host h s) auction_id bidder amount); [by subst|].
    destruct Hz as (st & fl & _ & _ & _ & _ & _ & _ & _ & Hesc & _). unfold escrowed in Hesc.
    change (bid_token (set_host h s)) with (bid_token s) in Hesc. rewrite Hb in Hesc. by rewrite Hesc.
  - apply auction_settle_ok in Hr as (st & Ha & _ & _ & _ & -> & (h' & Hh & Hz) & _).
    change (bid_token (set_host h s)) with (bid_token s) in Hz. rewrite Hb in Hz. rewrite Hz.
    split; [done|]. by exists st.
  - minv Hr. match goal with Hq : Auction.claim_auction _ _ _ = _ |- _ =>
      apply claim_ok in Hq as (st & ? & t & ? & _ & _ & _ & _ & Ht & _) end.
    change (bid_token s = Some t) in Ht. congruence.
Qed.
End auction.

(** ** Witnesses *)
Import Concrete.

Module Sale.
Abbreviation ASt := (State (C := AuctionContract)).

Definition aafter (call : ACall) (c : Ctx) (s : ASt) : ASt :=
  match run_auction call c s with Ok _ s' => s' | Fail _ => s end.

Definition asucceeds (call : ACall) (c : Ctx) (s : ASt) : bool :=
  match run_auction call c s with Ok _ _ => true | Fail _ => false end.

Definition aresult (call : ACall) (c : Ctx) (s : ASt) : Z :=
  match run_auction call c s with Ok r _ => r | Fail _ => 0 end.

Definition signing (l : list Address) (s : ASt) : ASt :=
  set_host (mkBank l [] (balances (host_state s))) s.

Definition astep (who : Address) (call : ACall) (t : Z) (s : ASt) : ASt :=
  aafter call (at_time t) (signing [who] s).

Definition factory : Address := mkAddress 10.
Definition bob : Address := mkAddress 11.

(** Deployed, and with the bid token a test environment would write. *)
Definition fresh_auction : ASt :=
  mkState store_empty store_empty (mkBank [] [] [(token, alice, 1000); (token, bob, 1000)]) [].

Definition with_token : ASt :=
  mkState (store_put (H := AuctionContract) AkBidToken token store_empty) store_empty
    (mkBank [] [] [(token, alice, 1000); (token, bob, 1000)]) [].

Definition listed (s : ASt) : ASt :=
  astep factory (AInit "sale"%string English 100 1000 50 500 None None None None) 100
    (astep factory (ASetFactory factory) 100 s).

Definition bid_once (s : ASt) : ASt := astep alice (ABid "sale"%string alice 100) 200 (listed s).

Definition closed (s : ASt) : ASt := astep bob (AClose "sale"%string) 1000 (bid_once s).

Definition settled_sale (s : ASt) : ASt := astep factory (ASettle "sale"%string factory bob) 1001 (closed s).

Lemma run_aafter call c s :
  asucceeds call c s = true -> run_auction call c s = Ok (aresult call c s) (aafter call c s).
Proof. unfold asucceeds, aresult, aafter. by destruct (run_auction call c s). Qed.

Lemma later_step P who call t s0 s :
  auction_later P s0 s -> P call -> asucceeds call (at_time t) (signing [who] s) = true ->
  auction_later P s0 (astep who call t s).
Proof. intros Hl HP Hs. eapply alater_call; [exact Hl|exact HP|]. by apply run_aafter. Qed.
End Sale.
Import Sale.

(** C26 on a stepped curve. *)
Lemma dutch_price_falls_witness :
  exists p p', compute_dutch_price 1000 500 30 100 Stepped (Some 4) = Some p /\
    compute_dutch_price 1000 500 60 100 Stepped (Some 4) = Some p' /\
    500 <= p' <= p /\ p <= 1000 /\ (30 = 0 -> p = 1000) /\ (100 <= 30 -> p = 500).
Proof.
  apply (dutch_price_falls 1000 500 30 60 100 Stepped (Some 4));
    first [lia | exists 4; split; [reflexivity|lia]].
Defined.

(** From the listing to the close. *)
Lemma auction_lifecycle_witness :
  status_at (closed with_token) "sale"%string = Some Closed_ /\
  status_rank (status_at (listed with_token) "sale"%string) <= status_rank (status_at (closed with_token) "sale"%string).
Proof.
  split; [vm_compute; reflexivity|].
  apply (auction_lifecycle "sale"%string (listed with_token) (closed with_token)).
  apply later_step; [|exact I|vm_compute; reflexivity].
  apply later_step; [|exact I|vm_compute; reflexivity]. apply alater_refl.
Defined.


(** C28: bob outbids alice, who gets her 100 back; with a minimum bid of 50 and an
    increment of five per cent the first bid had to be 53. *)
Lemma bid_sound_witness :
  let s := signing [bob] (bid_once with_token) in
  let s' := astep bob (ABid "sale"%string bob 110) 300 (bid_once with_token) in
  bank_balance (balances (host_state s')) token alice = 1000 /\
  (least_bid 200 <$> auction_of (listed with_token) "sale"%string = Some 53 /\
   asucceeds (ABid "sale"%string alice 52) (at_time 200) (signing [alice] (listed with_token)) = false) /\
  exists h, host_require_auth bob (host_state s) = Some h /\
  if accepted s "sale"%string bob 110 then s' = set_host h s else
  exists st, auction_of s "sale"%string = Some st /\ 0 < 110 /\ as_status st = Open /\
    300 < ac_end_time (as_config st) /\
    (0 < grace_window_of s -> sat_u64 (ac_start_time (as_config st) + grace_window_of s) <= 300) /\
    (bid_typed (as_config st) -> least_bid 300 st <= 110) /\
    auction_of s' "sale"%string = Some (after_bid st bob 110) /\ accepted s' "sale"%string bob 110 = true /\
    match bid_token s with
    | Some t => exists h1, token_transfer self t bob self 110 h = Some h1 /\
        match outbid st with
        | Some (loser, owed) => token_transfer self t self loser owed h1 = Some (host_state s')
        | None => host_state s' = h1
        end
    | None => host_state s' = h
    end /\
    (forall s0 P, deployed s0 -> auction_later P s0 s -> host_state s' = h) /\
    (forall id', id' <> "sale"%string -> auction_of s' id' = auction_of s id').
Proof.
  split; [vm_compute; reflexivity|]. split; [split; vm_compute; reflexivity|].
  apply (bid_sound "sale"%string bob 110 (at_time 300) (signing [bob] (bid_once with_token)) 0);
    [apply run_aafter; vm_compute; reflexivity|done].
Defined.

(** The settlement reports 100, and no token has moved. *)
Lemma bid_token_is_never_set_witness :
  aresult (ASettle "sale"%string factory bob) (at_time 1001) (signing [factory] (closed fresh_auction)) = 100 /\
  host_require_auth factory (mkBank [factory] [] (balances (host_state (closed fresh_auction))))
    = Some (host_state (settled_sale fresh_auction)).
Proof.
  split; [vm_compute; reflexivity|].
  apply (bid_token_is_never_set fresh_auction (closed fresh_auction) (fun _ => True)
    (ASettle "sale"%string factory bob) (at_time 1001) _ 100 (settled_sale fresh_auction)).
  - split; reflexivity.
  - do 4 (apply later_step; [|exact I|vm_compute; reflexivity]). apply alater_refl.
  - apply run_aafter. vm_compute. reflexivity.
Defined.
