(* ===== verification/Harness.v ===== *)
(** * The proof harnesses of the repository ([contracts/credit/proofs],
      [auction_contract/proofs])

    The harnesses state assertions about two arithmetic routines for a model
    checker.  Each is a function of the values it draws: [None] is a trap,
    [Some b] the conjunction of its assertions, and a draw outside the assumptions
    passes.  The theorems say that no draw fails. *)
From S2P Require Import Prelude MathUtils AuctionCurves.
From S2P Require AuctionTheorems.

(** [kani::assume]: a draw that violates the assumption is not checked. *)
Definition assuming (b : bool) (check : option bool) : option bool := if b then check else Some true.

(** ** [credit/proofs/prorate_interest.rs] *)
Module Prorate.
Definition PRINCIPAL_MAX : Z := 1000000000000000000000000.

Definition RATE_MAX : Z := 10000.

Definition TIME_MAX : Z := 1000000000.

Definition bounded (principal rate_bps time_delta : Z) : bool :=
  (principal <=? PRINCIPAL_MAX) && (rate_bps <=? RATE_MAX) && (time_delta <=? TIME_MAX).

Definition prorate_interest_overflow_safe (principal rate_bps time_delta : Z) : option bool :=
  assuming (bounded principal rate_bps time_delta) (
    let? _ := prorate_interest principal rate_bps time_delta Floor in
    let? _ := prorate_interest principal rate_bps time_delta Ceil in
    Some true).

Definition prorate_interest_monotonic_in_principal (principal rate_bps time_delta : Z) : option bool :=
  assuming ((principal <? PRINCIPAL_MAX) && (rate_bps <=? RATE_MAX) && (time_delta <=? TIME_MAX)) (
    let? lo_floor := prorate_interest principal rate_bps time_delta Floor in
    let? hi_floor := prorate_interest (principal + 1) rate_bps time_delta Floor in
    let? lo_ceil := prorate_interest principal rate_bps time_delta Ceil in
    let? hi_ceil := prorate_interest (principal + 1) rate_bps time_delta Ceil in
    Some ((lo_floor <=? hi_floor) && (lo_ceil <=? hi_ceil))).

Definition prorate_interest_monotonic_in_rate (principal rate_bps time_delta : Z) : option bool :=
  assuming ((principal <=? PRINCIPAL_MAX) && (rate_bps <? RATE_MAX) && (time_delta <=? TIME_MAX)) (
    let? lo_floor := prorate_interest principal rate_bps time_delta Floor in
    let? hi_floor := prorate_interest principal (rate_bps + 1) time_delta Floor in
    let? lo_ceil := prorate_interest principal rate_bps time_delta Ceil in
    let? hi_ceil := prorate_interest principal (rate_bps + 1) time_delta Ceil in
    Some ((lo_floor <=? hi_floor) && (lo_ceil <=? hi_ceil))).

Definition prorate_interest_monotonic_in_time (principal rate_bps time_delta : Z) : option bool :=
  assuming ((principal <=? PRINCIPAL_MAX) && (rate_bps <=? RATE_MAX) && (time_delta <? TIME_MAX)) (
    let? lo_floor := prorate_interest principal rate_bps time_delta Floor in
    let? hi_floor := prorate_interest principal rate_bps (time_delta + 1) Floor in
    let? lo_ceil := prorate_interest principal rate_bps time_delta Ceil in
    let? hi_ceil := prorate_interest principal rate_bps (time_delta + 1) Ceil in
    Some ((lo_floor <=? hi_floor) && (lo_ceil <=? hi_ceil))).

Definition prorate_interest_rounding_bounds (principal rate_bps time_delta : Z) : option bool :=
  assuming (bounded principal rate_bps time_delta) (
    let? floor := prorate_interest principal rate_bps time_delta Floor in
    let? ceil := prorate_interest principal rate_bps time_delta Ceil in
    let? gap := checked_u128 (ceil - floor) in
    Some ((floor <=? ceil) && (gap <=? 1))).

Definition prorate_interest_zero_short_circuit (principal rate_bps time_delta : Z) : option bool :=
  assuming (bounded principal rate_bps time_delta) (
    let? a := prorate_interest 0 rate_bps time_delta Ceil in
    let? b := prorate_interest principal 0 time_delta Ceil in
    let? c := prorate_interest principal rate_bps 0 Ceil in
    Some ((a =? 0) && (b =? 0) && (c =? 0))).
End Prorate.

(** ** [auction_contract/proofs/dutch_price.rs] *)
Module DutchPrice.
Definition prices_ok (start_price floor_price duration : Z) : bool :=
  (floor_price <=? start_price) && (0 <=? start_price) && (0 <=? floor_price) &&
  (0 <? duration) && (duration <=? 1000000000).

(** [price_drop <= i128::MAX / k] *)
Definition drop_fits (start_price floor_price k : Z) : option bool :=
  let? price_drop := checked_i128 (start_price - floor_price) in
  Some (price_drop <=? Z.quot i128_max k).

(** Two prices of one curve, and their order. *)
Definition non_increasing (start_price floor_price t1 t2 duration : Z) (decay : DutchAuctionDecay)
    (step_count : option Z) : option bool :=
  let? price_t1 := compute_dutch_price start_price floor_price t1 duration decay step_count in
  let? price_t2 := compute_dutch_price start_price floor_price t2 duration decay step_count in
  Some (price_t2 <=? price_t1).

(** One price, and its bounds. *)
Definition within_bounds (start_price floor_price elapsed_time duration : Z) (decay : DutchAuctionDecay)
    (step_count : option Z) : option bool :=
  let? price := compute_dutch_price start_price floor_price elapsed_time duration decay step_count in
  Some ((floor_price <=? price) && (price <=? start_price)).

Definition harness_linear_monotonicity (start_price floor_price duration t1 t2 : Z) : option bool :=
  assuming (prices_ok start_price floor_price duration && (t1 <? t2) && (t2 <? duration)) (
    let? fits := drop_fits start_price floor_price duration in
    assuming fits (non_increasing start_price floor_price t1 t2 duration Linear None)).

Definition harness_stepped_monotonicity (start_price floor_price duration step_count t1 t2 : Z)
  : option bool :=
  assuming (prices_ok start_price floor_price duration && (0 <? step_count) && (step_count <=? 1000) &&
            (t1 <? t2) && (t2 <? duration)) (
    let? fits := drop_fits start_price floor_price step_count in
    assuming (fits && (t1 <=? Z.quot i128_max step_count) && (t2 <=? Z.quot i128_max step_count))
      (non_increasing start_price floor_price t1 t2 duration Stepped (Some step_count))).

Definition harness_exponential_monotonicity (start_price floor_price duration t1 t2 : Z) : option bool :=
  assuming (prices_ok start_price floor_price duration && (t1 <? t2) && (t2 <? duration)) (
    let? fits := drop_fits start_price floor_price 10000 in
    assuming fits (non_increasing start_price floor_price t1 t2 duration Exponential None)).

Definition harness_linear_bounds (start_price floor_price duration elapsed_time : Z) : option bool :=
  assuming (prices_ok start_price floor_price duration) (
    let? fits := drop_fits start_price floor_price duration in
    assuming fits (within_bounds start_price floor_price elapsed_time duration Linear None)).

Definition harness_stepped_bounds (start_price floor_price duration step_count elapsed_time : Z)
  : option bool :=
  assuming (prices_ok start_price floor_price duration && (0 <? step_count) && (step_count <=? 1000)) (
    let? fits := drop_fits start_price floor_price step_count in
    assuming (fits && (elapsed_time <=? Z.quot i128_max step_count))
      (within_bounds start_price floor_price elapsed_time duration Stepped (Some step_count))).

Definition harness_exponential_bounds (start_price floor_price duration elapsed_time : Z) : option bool :=
  assuming (prices_ok start_price floor_price duration) (
    let? fits := drop_fits start_price floor_price 10000 in
    assuming fits (within_bounds start_price floor_price elapsed_time duration Exponential None)).
End DutchPrice.

(** ** [credit/fuzz/fuzz_targets/oracle_deviation.rs] *)

(** [a.wrapping_sub(b).unsigned_abs()] on [i128] *)
Definition wrapping_distance (a b : Z) : Z := Z.abs (as_i128 (a - b)).

(** The call to [compute_deviation_bps] traps when its subtraction does; otherwise
    its [None] is a value. *)
Definition oracle_deviation_target (new_price last_price : Z) : option bool :=
  let result := compute_deviation_bps new_price last_price in
  if last_price <=? 0 then Some (match result with None => true | Some _ => false end) else
  let? _ := checked_i128 (new_price - last_price) in
  let diff := wrapping_distance new_price last_price in
  let ref_numerator := checked_u128 (diff * 10000) in
  match result, ref_numerator with
  | None, Some _ => Some false
  | None, None => Some true
  | Some deviation, numerator_opt =>
      Some ((deviation <=? u32_max) &&
            (negb (new_price =? last_price) || (deviation =? 0)) &&
            match numerator_opt with
            | Some numerator => deviation =? Z.min (numerator / as_u128 last_price) u32_max mod (u32_max + 1)
            | None => true
            end)
  end.

(** ** No draw fails *)
Lemma assuming_holds b m : (b = true -> m = Some true) -> assuming b m = Some true.
Proof. intros Hm. unfold assuming. destruct b; auto. Qed.

Section prorate.
Import Prorate.

(** In the envelope the product stays below 10^37. *)
Lemma envelope_runs p rate dt r :
  0 <= p <= PRINCIPAL_MAX -> 0 <= rate <= RATE_MAX -> 0 <= dt <= TIME_MAX ->
  exists q, prorate_interest p rate dt r = Some q /\ 0 <= q /\
    rounds (p * rate * dt) BPS_YEAR_DENOM r q /\ p * rate * dt <= 10 ^ 37.
Proof.
  unfold PRINCIPAL_MAX, RATE_MAX, TIME_MAX. intros Hp Hr Ht.
  assert (0 <= p * rate <= 10 ^ 28) by nia. assert (0 <= p * rate * dt <= 10 ^ 37) by nia.
  pose proof BPS_YEAR_DENOM_val as Hy.
  destruct (round_div_total (p * rate * dt) BPS_YEAR_DENOM r) as [q Hq]; [lia..|].
  assert (rounds (p * rate * dt) BPS_YEAR_DENOM r q) as Hq' by (apply round_div_rounds; [lia..|done]).
  exists q. split; [|split; [eapply rounds_nonneg; [| |exact Hq']; lia|split; [exact Hq'|lia]]].
  apply checked_prorate_Some; [lia..|]. split; [lia|]. split; [right; lia|done].
Qed.

Lemma prorate_zero p rate dt r :
  p = 0 \/ rate = 0 \/ dt = 0 -> prorate_interest p rate dt r = Some 0.
Proof.
  intros Hz. unfold prorate_interest, checked_prorate_interest.
  replace ((p =? 0) || (rate =? 0) || (dt =? 0)) with true by lia. done.
Qed.

(** [rounds_to p rate dt] names the two roundings of an interest that does not trap. *)
Ltac rounds_to p rate dt :=
  let go r :=
    let q := fresh "q" in let E := fresh "E" in
    destruct (envelope_runs p rate dt r) as (q & E & ? & ? & ?);
      [unfold PRINCIPAL_MAX, RATE_MAX, TIME_MAX in *; lia..|]; (rewrite ?E) in
  go Floor; go Ceil.

(** More principal, rate or time, not less interest. *)
Ltac more := match goal with |- _ <= _ => eapply prorate_mono; [| | |eassumption..]; lia end.

Theorem prorate_assertions_hold p rate dt :
  0 <= p -> 0 <= rate -> 0 <= dt ->
  prorate_interest_overflow_safe p rate dt = Some true /\
  prorate_interest_monotonic_in_principal p rate dt = Some true /\
  prorate_interest_monotonic_in_rate p rate dt = Some true /\
  prorate_interest_monotonic_in_time p rate dt = Some true /\
  prorate_interest_rounding_bounds p rate dt = Some true /\
  prorate_interest_zero_short_circuit p rate dt = Some true.
Proof.
  intros Hp Hr Ht. split_and!; apply assuming_holds; unfold bounded; intros Hb; bsimp;
    rewrite ?prorate_zero by auto.
  - rounds_to p rate dt. done.
  - rounds_to p rate dt. rounds_to (p + 1) rate dt. f_equal. apply andb_true_iff. rewrite !Z.leb_le. split; more.
  - rounds_to p rate dt. rounds_to p (rate + 1) dt. f_equal. apply andb_true_iff. rewrite !Z.leb_le. split; more.
  - rounds_to p rate dt. rounds_to p rate (dt + 1). f_equal. apply andb_true_iff. rewrite !Z.leb_le. split; more.
  - rounds_to p rate dt. cbn [rounds] in *. pose proof BPS_YEAR_DENOM_val.
    assert (q <= q0 <= q + 1) by nia. rewrite checked_in by lia. f_equal. lia.
  - done.
Qed.
End prorate.

Section dutch.
Import DutchPrice.

Lemma prices_ok_spec start floor duration :
  prices_ok start floor duration = true -> 0 <= floor <= start /\ 0 < duration <= 1000000000.
Proof. unfold prices_ok. intros Hb. bsimp. lia. Qed.

Lemma drop_fits_runs start floor k :
  0 <= floor <= start -> start <= i128_max -> exists b, drop_fits start floor k = Some b.
Proof. intros. unfold drop_fits. rewrite checked_in by lia. eauto. Qed.

Lemma non_increasing_holds start floor t1 t2 duration decay steps :
  0 <= floor <= start -> start <= i128_max -> 0 <= t1 -> t1 < t2 < duration -> duration <= 1000000000 ->
  AuctionTheorems.curve_ok decay steps ->
  non_increasing start floor t1 t2 duration decay steps = Some true.
Proof.
  intros Hf Hs H1 H2 Hd Hc.
  destruct (AuctionTheorems.dutch_price_eq start floor t1 duration decay steps)
    as (e & d & Hp & He & Hd0 & E & _); [lia..|done|].
  destruct (AuctionTheorems.dutch_price_eq start floor t2 duration decay steps)
    as (e' & d' & Hp' & He' & _ & E' & _); [lia..|done|].
  destruct (AuctionTheorems.progress_mono t1 t2 duration decay steps e d e' d') as [-> Hle]; [lia..|done|done|done|].
  unfold non_increasing. rewrite E, E'. f_equal.
  assert ((start - floor) * e / d <= (start - floor) * e' / d) by (apply Z.div_le_mono; nia). lia.
Qed.

Lemma within_bounds_holds start floor t duration decay steps :
  0 <= floor <= start -> start <= i128_max -> 0 <= t -> 0 < duration <= 1000000000 ->
  AuctionTheorems.curve_ok decay steps ->
  within_bounds start floor t duration decay steps = Some true.
Proof.
  intros Hf Hs Ht Hd Hc. unfold within_bounds.
  destruct (Z.lt_ge_cases t duration).
  - destruct (AuctionTheorems.dutch_price_eq start floor t duration decay steps)
      as (e & d & _ & _ & _ & -> & Hb); [lia..|done|]. f_equal. lia.
  - unfold compute_dutch_price. replace (duration =? 0) with false by lia.
    replace (duration <=? t) with true by lia. f_equal. lia.
Qed.

Theorem dutch_assertions_hold start floor duration steps t t' :
  is_i128 start -> is_i128 floor -> 0 <= duration -> 0 <= steps -> 0 <= t -> 0 <= t' ->
  harness_linear_monotonicity start floor duration t t' = Some true /\
  harness_stepped_monotonicity start floor duration steps t t' = Some true /\
  harness_exponential_monotonicity start floor duration t t' = Some true /\
  harness_linear_bounds start floor duration t = Some true /\
  harness_stepped_bounds start floor duration steps t = Some true /\
  harness_exponential_bounds start floor duration t = Some true.
Proof.
  intros Hs Hf Hd Hn Ht Ht'. split_and!; apply assuming_holds; intros Hb; bsimp;
    match goal with Hq : prices_ok _ _ _ = true |- _ => apply prices_ok_spec in Hq as [? ?] end;
    match goal with |- context [drop_fits ?a ?b ?k] =>
      destruct (drop_fits_runs a b k) as [fits ->]; [lia..|] end;
    apply assuming_holds; intros Hfits;
    first [apply non_increasing_holds|apply within_bounds_holds]; try lia; cbn; try done;
    exists steps; (split; [done|lia]).
Qed.
End dutch.

Section deviation.

Lemma as_i128_fix z : is_i128 z -> as_i128 z = z.
Proof.
  intros Hz. destruct (Z.lt_ge_cases z 0); [|by apply as_i128_id]. unfold as_i128.
  replace (z mod (u128_max + 1)) with (z + (u128_max + 1))
    by (apply Z.mod_unique with (-1); lia).
  destruct (Z.leb_spec (z + (u128_max + 1)) i128_max); lia.
Qed.

(** The assertions of the oracle target hold of every pair of prices but those
    whose difference leaves [i128]; there [compute_deviation_bps] traps. *)
Theorem deviation_assertions_hold new_price last_price :
  is_i128 new_price -> is_i128 last_price ->
  oracle_deviation_target new_price last_price =
    (if (last_price <=? 0) || (i128_min <=? new_price - last_price) then Some true else None).
Proof.
  intros Hn Hl. unfold oracle_deviation_target, compute_deviation_bps.
  destruct (last_price <=? 0) eqn:E0; [done|]. cbn [orb]. apply Z.leb_gt in E0.
  destruct (i128_min <=? new_price - last_price) eqn:E1.
  - assert (is_i128 (new_price - last_price)) as Hr by lia. rewrite checked_in by lia.
    unfold wrapping_distance. rewrite as_i128_fix by lia. set (diff := Z.abs (new_price - last_price)).
    change (diff * BPS_DENOMINATOR) with (diff * 10000).
    destruct (checked_u128 (diff * 10000)) as [m|] eqn:Em; [|done]. autorewrite with ints in Em.
    destruct Em as [-> Hm]. rewrite as_u128_id by lia.
    assert (0 <= diff * 10000 / last_price) by (apply Z.div_pos; lia).
    rewrite (Z.mod_small (Z.min _ _)) by lia. f_equal. rewrite Z.eqb_refl, andb_true_r.
    replace (Z.min (diff * 10000 / last_price) u32_max <=? u32_max) with true by lia.
    destruct (Z.eqb_spec new_price last_price) as [->|]; [|done]. cbn.
    assert (diff = 0) as -> by (unfold diff; lia). done.
  - unfold checked_i128, checked, in_range.
    by replace (i128_min <=? new_price - last_price) with false.
Qed.

(** The smallest and the largest [i128] are such a pair. *)
Example deviation_traps : oracle_deviation_target i128_min i128_max = None.
Proof. vm_compute. reflexivity. Qed.
End deviation.
