(* ===== verification/Composition.v ===== *)
(** * The credit contract and the auction contract together

    The two contracts in one world: the credit contract's calls of its auction
    client are runs of the auction contract of this repository on its own stores.
    A settlement succeeds only against a closed, unsettled auction whose highest
    bid is the amount recovered, and marks it settled. *)
From S2P Require Import Prelude MathUtils Soroban World CreditTypes AuctionCurves AuctionStorage Auction CreditEvents CreditStorage CreditState Accrual Collateral Fees Freeze Oracles Scoring Risk Lifecycle Views CreditContract CreditCalls CreditLedger CreditMoves CreditInvariant Scenario CreditTheorems CreditSafety DrawRepay AuctionTheorems.

(** The client the credit contract generates ([cc] is the caller, whose signature
    its own call carries): a call runs the auction contract at
    its address.  [version] is what a [get_version] entrypoint answers; the auction
    contract of the repository has none, and the call fails. *)
Abbreviation AWorld base := (World AuctionContract (@host base)).

Definition settle_call (base : Host) (addr : Address) (id : Symbol) (cc b : Address) (w : AWorld base)
  : option (Z * AWorld base) :=
  call_into (invoker_host cc base)
    (Auction.settle_default_liquidation (H := invoker_host cc base) id cc b) (mkCtx 0 0 addr) w.

Definition version_call (base : Host) (version : option ProtocolVersion) (addr : Address)
    (w : AWorld base) : option (ProtocolVersion * AWorld base) :=
  match version with Some v => Some (v, w) | None => None end.

Definition auction_client (base : Host) (version : option ProtocolVersion) : @AuctionClient (joint_host AuctionContract base) :=
  @Build_AuctionClient (joint_host AuctionContract base) (version_call base version) (settle_call base).

Section bodies.
Context `{H : Host} `{!AuctionClient} `{!Deployer} `{Crypto}.
Lemma lifecycle_settle_host b r id f p : steps same_guards (Lifecycle.settle_default_liquidation b r id f p).
Proof. unfold Lifecycle.settle_default_liquidation. guards_tac. Qed.
End bodies.

Section composed.
Context (base : Host) (version : option ProtocolVersion).
Instance composed_host : Host := joint_host AuctionContract base.
Instance composed_client : AuctionClient := auction_client base version.
Context `{!Deployer} `{Crypto}.
Abbreviation S' := (State (C := CreditContract)).
Implicit Types (s : S').

Definition auction_in s : State (C := AuctionContract) (H := base) := state_in base (host_state s).

Lemma auth_keeps_auction a h h' :
  host_require_auth a h = Some h' -> w_inst h' = w_inst h /\ w_pers h' = w_pers h.
Proof. by intros (? & ? & _)%on_base_keeps. Qed.

Lemma try_call_ok {A} (f : host -> option (A * host)) c s o s' :
  Credit.try_call f c s = Ok o s' ->
  match o with Some a => exists h, f (host_state s) = Some (a, h) /\ s' = set_host h s
             | None => f (host_state s) = None /\ s' = s end.
Proof.
  unfold Credit.try_call. destruct (f (host_state s)) as [[a h]|]; intros [= <- <-]; [by exists h|done].
Qed.

(** The hook, when an auction contract is configured. *)
Lemma hook_ok b r id addr c s u s' :
  Credit.auction_hook b r id c s = Ok u s' -> inst s DK.AuctionContract = Some addr ->
  exists v st, version = Some v /\ verify_version v = true /\
    auction_of (auction_in s) id = Some st /\ as_status st = Closed_ /\ as_highest_bid st = r /\
    factory_of (auction_in s) = Some (current_contract c) /\
    settled_flag (auction_in s) id = false /\ settled_flag (auction_in s') id = true.
Proof.
  unfold Credit.auction_hook, get_auction_contract. intros Hr Ha.
  apply mbind_ok in Hr as (o & s1 & Hg & Hr).
  assert (o = Some addr /\ s1 = s) as [-> ->] by (minv Hg; split; [exact Ha|done]).
  apply mbind_ok in Hr as (v & s1 & Hv & Hr). apply try_call_ok in Hv.
  destruct v as [v|]; [|by minv Hr]. destruct Hv as (h & Hv & ->). cbn in Hv. unfold version_call in Hv.
  destruct version as [v0|]; [|done]. injection Hv as <- <-.
  assert (set_host (host_state s) s = s) as Eid by (by destruct s). rewrite Eid in Hr. clear Eid.
  apply mbind_ok in Hr as (v' & s1 & Hv & Hr). apply or_panic_ok in Hv as [[= <-] ->].
  apply mbind_ok in Hr as ([] & s1 & Hv & Hr). apply panic_if_ok in Hv as [Hv ->].
  apply mbind_ok in Hr as (self & s1 & Hs & Hr). apply reads in Hs as [-> ->].
  apply mbind_ok in Hr as (o & s1 & Hc & Hr). apply try_call_ok in Hc.
  destruct o as [amt|]; [|by minv Hr]. destruct Hc as (h' & Hc & ->). cbn in Hc. unfold settle_call in Hc.
  apply (call_into_ok (C := AuctionContract) (invoker_host (current_contract c) base)) in Hc as (sa & E & ->).
  apply auction_settle_ok in E as (st & Hau & Hst & Hfl & Hfac & -> & _ & _ & Hset & _).
  apply mbind_ok in Hr as (a & s1 & Ho & Hr). apply or_panic_ok in Ho as [[= <-] ->].
  apply panic_if_ok in Hr as [Hamt ->]. bsimp.
  exists v0, st. split; [done|]. split; [by destruct (verify_version v0)|].
  do 2 (split; [done|]). split; [done|]. do 2 (split; [done|]).
  specialize (Hset id). by rewrite decide_True in Hset.
Qed.

(** What [set_reentrancy_guard] leaves alone. *)
Lemma guard_ok c s u s' :
  set_reentrancy_guard c s = Ok u s' ->
  host_state s' = host_state s /\ inst s' DK.AuctionContract = inst s DK.AuctionContract.
Proof. unfold set_reentrancy_guard. intros Hr. mstep Hr. subst. mstep Hr. apply iset_ok in Hr as ->. split; [done|]. unfold inst. by sput. Qed.

Lemma clear_guard_host c s u s' : clear_reentrancy_guard c s = Ok u s' -> host_state s' = host_state s.
Proof. unfold clear_reentrancy_guard. intros Hr. by apply iset_ok in Hr as ->. Qed.

(** C25. A successful settlement of the credit contract against a configured auction
    contract took place on a closed, unsettled auction of that id whose highest
    bid is the amount recovered and whose factory is the credit contract; it
    needed the auction contract to answer a compatible version; and it leaves the
    auction settled.  The auction contract of the repository has no [get_version]
    entrypoint ([version = None]), so there every such settlement fails. *)
Theorem settlement_agrees b r id f p addr c s u s' :
  run (CSettleDefaultLiquidation b r id f p) c s = Ok u s' -> inst s DK.AuctionContract = Some addr ->
  exists v st, version = Some v /\ verify_version v = true /\
    auction_of (auction_in s) id = Some st /\ as_status st = Closed_ /\ as_highest_bid st = r /\
    factory_of (auction_in s) = Some (current_contract c) /\
    settled_flag (auction_in s) id = false /\ settled_flag (auction_in s') id = true.
Proof.
  cbn [run]. unfold Credit.settle_default_liquidation, with_reentrancy_guard. intros Hr Ha.
  apply mbind_ok in Hr as (a & s1 & H1 & Hr). apply require_admin_auth_ok in H1 as (_ & h & Hh & ->).
  apply auth_keeps_auction in Hh as [Ei Ep].
  apply mbind_ok in Hr as ([] & s2 & Hg & Hr). apply guard_ok in Hg as [Eh Hk].
  apply mbind_ok in Hr as (x & s3 & Hb & Hr). apply mbind_ok in Hr as ([] & s4 & Hc & Hr).
  apply clear_guard_host in Hc. apply mret_ok in Hr as [_ ->].
  apply mbind_ok in Hb as ([] & s5 & Hhook & Hl). apply lifecycle_settle_host in Hl as [El _].
  apply (hook_ok _ _ _ addr) in Hhook as (v & st & Hv & Hv' & Hst & Hcl & Hbid & Hfac & Hfl & Hset).
  2: by rewrite Hk.
  exists v, st. revert Hst Hfac Hfl Hset.
  unfold auction_in, auction_of, factory_of, settled_flag, pers, inst, state_in. cbn.
  rewrite Hc, El, Eh. cbn. by rewrite Ei, Ep.
Qed.
End composed.

(** ** A world with both contracts *)
Import Concrete.
Import Sale.

Module Joint.
Definition house : Address := mkAddress 20.
Definition versions : option ProtocolVersion := Some (mkVersion 1 0).

(** The auction "sale" listed by the credit contract, bid on by bob and closed. *)
Definition house_at (t : Z) : Ctx := mkCtx t 1 house.

Definition hstep (who : Address) (call : ACall) (t : Z) (s : State (C := AuctionContract)) :=
  aafter call (house_at t) (signing [who] s).

Definition sold : State (C := AuctionContract) :=
  hstep bob (AClose "sale"%string) 1000
  (hstep bob (ABid "sale"%string bob 500) 200
  (hstep self (AInit "sale"%string English 100 1000 50 500 None None None None) 100
  (hstep self (ASetFactory self) 100 (mkState store_empty store_empty (mkBank [] [] []) [])))).

#[export] Instance world_host : Host := composed_host bank_host.
#[export] Instance world_client : AuctionClient := composed_client bank_host versions.
#[export] Instance world_deployer : Deployer := {| update_current_contract_wasm _ h := Some h |}.

Abbreviation WSt := (@State CreditContract world_host).

(** The credit contract's side: alice's line is opened, drawn on and defaulted. *)
Definition signed (l : list Address) (s : WSt) : WSt :=
  let w := host_state s in
  set_host (C := CreditContract) (mkWorld (mkBank l [] (balances (w_base w))) (w_inst w) (w_pers w) (w_events w)) s.

Definition wafter (call : Call) (c : Ctx) (s : WSt) : WSt :=
  match run call c s with Ok _ s' => s' | Fail _ => s end.

Definition wsucceeds (call : Call) (c : Ctx) (s : WSt) : bool :=
  match run call c s with Ok _ _ => true | Fail _ => false end.

Definition wstep (who : Address) (call : Call) (t : Z) (s : WSt) : WSt :=
  wafter call (at_time t) (signed [who] s).

Definition world : WSt :=
  mkState (C := CreditContract) store_empty store_empty
    (mkWorld (mkBank [] [] [(token, reserve, 1000000); (token, alice, 1000000)])
       (instance_store sold) (persistent_store sold) []) [].

Definition defaulted : WSt :=
  wstep admin (CSetAuctionContract house) 300
  (wstep admin (CDefaultCreditLine alice) 300
  (wstep alice (CDrawCredit alice 50000) 200
  (wstep alice (CDepositCollateral alice 150000) 100
  (wstep admin (COpenCreditLine alice 100000 1000 50) 100
  (wstep admin (CSetLiquiditySource reserve) 100
  (wstep admin (CSetLiquidityToken token) 100
  (wstep admin (CInit admin) 100 world))))))).

Definition settlement : Call := CSettleDefaultLiquidation alice 500 "sale"%string 10000 None.

Definition before : WSt := signed [admin] defaulted.

Lemma run_wafter call c s : wsucceeds call c s = true -> run call c s = Ok tt (wafter call c s).
Proof. unfold wsucceeds, wafter. by destruct (run call c s) as [[] s'|f]. Qed.
End Joint.
Import Joint.

(** C25: the settlement of alice's line against the sold auction. *)
Lemma settlement_agrees_witness :
  wsucceeds settlement (at_time 400) before = true /\
  exists v st, versions = Some v /\ verify_version v = true /\
    auction_of (auction_in bank_host before) "sale"%string = Some st /\ as_status st = Closed_ /\
    as_highest_bid st = 500 /\ factory_of (auction_in bank_host before) = Some self /\
    settled_flag (auction_in bank_host before) "sale"%string = false /\
    settled_flag (auction_in bank_host (wafter settlement (at_time 400) before)) "sale"%string = true.
Proof.
  split; [vm_compute; reflexivity|].
  apply (settlement_agrees bank_host versions alice 500 "sale"%string 10000 None house
           (at_time 400) before tt).
  - apply run_wafter. vm_compute. reflexivity.
  - vm_compute. reflexivity.
Defined.
