(* ===== verification/Custody.v ===== *)
(** * Custody: the contract holds what it owes

    Collateral deposits, treasury and bounty are liabilities of the credit
    contract, all in the liquidity token.  Against the laws of a token contract
    ([TokenLaws]) every entrypoint leaves the surplus of the contract's own
    balance over these books at least as large as it was, unless draws are paid
    out of the contract itself or the administrator switches the token. *)
From S2P Require Import Prelude MathUtils Soroban CreditTypes CreditEvents CreditStorage CreditState Accrual Collateral Fees Freeze Oracles Scoring Risk Lifecycle Views CreditContract CreditCalls CreditLedger CreditMoves CreditInvariant Scenario CreditTheorems CreditSafety DrawRepay Treasury.

(** ** What the host promises about a token *)
Definition holdings `{Host} (t who : Address) (h : host) : Z := unwrap_or (token_balance t who h) 0.

(** What [amount] moved from [from] to [to] adds to the balance of [who]. *)
Definition net (from to : Address) (amount : Z) (who : Address) : Z :=
  (if decide (who = to) then amount else 0) - (if decide (who = from) then amount else 0).

(** [tok] is a token in the sense of the token interface, and nothing but its own
    transfers lowers what [self] holds of it. *)
Class TokenLaws `{H : Host} `{!AuctionClient} `{!Deployer} (self tok : Address) : Prop := {
  law_transfer : forall caller from to amount h h',
    token_transfer caller tok from to amount h = Some h' ->
    0 <= amount /\
    forall who, holdings tok who h' = holdings tok who h + net from to amount who;
  law_transfer_from : forall caller spender from to amount h h',
    token_transfer_from caller tok spender from to amount h = Some h' ->
    0 <= amount /\
    forall who, holdings tok who h' = holdings tok who h + net from to amount who;
  law_auth : forall a h h',
    host_require_auth a h = Some h' -> holdings tok self h' = holdings tok self h;
  law_version : forall a h v h',
    try_get_version a h = Some (v, h') -> holdings tok self h <= holdings tok self h';
  law_settle : forall a i x b h v h',
    try_settle_default_liquidation a i x b h = Some (v, h') ->
    holdings tok self h <= holdings tok self h';
  law_deploy : forall w h h',
    update_current_contract_wasm w h = Some h' -> holdings tok self h' = holdings tok self h;
}.

Lemma net_to from to amount : from <> to -> net from to amount to = amount.
Proof. intros Hne. unfold net. rewrite decide_True, decide_False by done. lia. Qed.

Lemma net_from_le from to amount : 0 <= amount -> - amount <= net from to amount from.
Proof. intros Ha. unfold net. repeat case_decide; lia. Qed.

Lemma net_other from to amount who : who <> from -> 0 <= amount -> 0 <= net from to amount who.
Proof. intros Hne Ha. unfold net. rewrite (decide_False (P := who = from)) by done. case_decide; lia. Qed.

Section custody.
Context `{H : Host} `{!AuctionClient} `{!Deployer} `{Crypto}.
Context (self tok : Address) `{!TokenLaws self tok}.
Abbreviation S' := (State (C := CreditContract)).
Implicit Types (s : S') (c : Ctx).

(** What the contract owes: fees it collected and collateral it keeps. *)
Definition owed s : Z := funds s + total_collateral s.

Definition surplus s : Z := holdings tok self (host_state s) - owed s.

(** The configuration the books rely on. *)
Record configured_for s : Prop := {
  cf_token : forall t, inst s DK.LiquidityToken = Some t -> t = tok;
  cf_share : 0 <= fee_share s <= u32_max;
}.

(** The relation every invocation satisfies. *)
Definition safe s s' : Prop := configured_for s -> configured_for s' /\ surplus s <= surplus s'.

#[export] Instance safe_preorder : PreOrder safe.
Proof.
  split; [intros s Hs; split; [done|lia]|]. intros s1 s2 s3 H12 H23 Hs.
  apply H12 in Hs as [Hs ?]. apply H23 in Hs as [Hs ?]. split; [done|lia].
Qed.

(** ** Operations that neither write the books nor move the contract's tokens *)
Definition K_books (a : area) (k : StorageKey) : bool :=
  match a, k with
  | Inst, KData (DK.TreasuryBalance | DK.BountyBalance | DK.TreasuryFeeShareBps | DK.LiquidityToken
                 | DK.TotalCollateral) => true
  | _, _ => false
  end.

Definition untouched (K : area -> StorageKey -> bool) s s' : Prop :=
  frame K s s' /\ holdings tok self (host_state s) <= holdings tok self (host_state s').

#[export] Instance untouched_preorder K : PreOrder (untouched K).
Proof.
  split; [intros s; split; [done|lia]|]. intros s1 s2 s3 [F1 L1] [F2 L2].
  split; [by etrans|lia].
Qed.

Lemma books_configured s s' : frame K_books s s' -> configured_for s -> configured_for s'.
Proof.
  intros Hf [Ht Hs]. split; unfold fee_share in *; by rewrite (frame_inst K_books s s').
Qed.

Lemma books_owed s s' : frame K_books s s' -> owed s' = owed s.
Proof.
  intros Hf. unfold owed, funds, treasury_of, bounty_of, total_collateral.
  by rewrite !(frame_inst K_books s s').
Qed.

Lemma untouched_safe s s' : untouched K_books s s' -> safe s s'.
Proof.
  intros [Hf Hh] Hs. split; [by eapply books_configured|].
  unfold surplus. rewrite (books_owed _ _ Hf). lia.
Qed.

Lemma untouched_host K s h :
  holdings tok self (host_state s) <= holdings tok self h -> untouched K s (set_host h s).
Proof. intros Hh. split; [by apply frame_same_stores|done]. Qed.

Lemma untouched_same {A} K (m : M A) :
  steps (frame K) m -> (forall c s a s', m c s = Ok a s' -> host_state s' = host_state s) ->
  steps (untouched K) m.
Proof. intros Hf Hh c s a s' Hr. split; [by eapply Hf|]. by rewrite (Hh _ _ _ _ Hr). Qed.

Lemma untouched_iset K k v : K Inst k = false -> steps (untouched K) (Soroban.iset (C := CreditContract) k v).
Proof. intros Hk. apply untouched_same; [by apply steps_iset|]. by intros c s u s' ->%iset_ok. Qed.

Lemma untouched_pset K k v : K Pers k = false -> steps (untouched K) (Soroban.pset (C := CreditContract) k v).
Proof. intros Hk. apply untouched_same; [by apply steps_pset|]. by intros c s u s' ->%pset_ok. Qed.

Lemma untouched_iremove K k : K Inst k = false -> steps (untouched K) (Soroban.iremove (C := CreditContract) k).
Proof. intros Hk. apply untouched_same; [by apply steps_iremove|]. by intros c s u s' ->%iremove_ok. Qed.

Lemma untouched_premove K k : K Pers k = false -> steps (untouched K) (Soroban.premove (C := CreditContract) k).
Proof. intros Hk. apply untouched_same; [by apply steps_premove|]. by intros c s u s' ->%premove_ok. Qed.

Lemma untouched_publish K e : steps (untouched K) (publish (C := CreditContract) e).
Proof. apply untouched_same; [by apply steps_publish|]. by intros c s u s' ->%publish_ok. Qed.

Lemma untouched_auth K a : steps (untouched K) (require_auth (C := CreditContract) a).
Proof.
  intros c s u s' (h & Hh & ->)%require_auth_ok. apply untouched_host.
  by rewrite (law_auth _ _ _ Hh).
Qed.

Lemma untouched_version K a : steps (untouched K) (Credit.try_call (try_get_version a)).
Proof.
  intros c s u s' Hr. unfold Credit.try_call in Hr.
  destruct (try_get_version a (host_state s)) as [[v h]|] eqn:E; injection Hr as _ <-; [|done].
  apply untouched_host. by eapply law_version.
Qed.

Lemma untouched_settle K a i x b :
  steps (untouched K) (Credit.try_call (try_settle_default_liquidation a i x b)).
Proof.
  intros c s u s' Hr. unfold Credit.try_call in Hr.
  destruct (try_settle_default_liquidation a i x b (host_state s)) as [[v h]|] eqn:E;
    injection Hr as _ <-; [|done].
  apply untouched_host. by eapply law_settle.
Qed.

Lemma untouched_deploy K w :
  steps (untouched K) (host_call (C := CreditContract) CallFailed
    (fun _ h => option_map (pair tt) (update_current_contract_wasm w h))).
Proof.
  intros c s u s' Hr. unfold host_call in Hr.
  destruct (update_current_contract_wasm w (host_state s)) as [h|] eqn:E; [|done].
  injection Hr as _ <-. apply untouched_host. by rewrite (law_deploy _ _ _ E).
Qed.
End custody.

(** [untouched_tac] proves [steps (untouched self tok K) m] by unfolding [m]. *)
Ltac untouched_tac :=
  cbv zeta;
  lazymatch goal with
  | |- steps _ (mbind _ _) => apply steps_bind; [apply _|untouched_tac|intros ?; untouched_tac]
  | |- steps _ (mfor _ _) => apply steps_mfor; [apply _|intros ?; untouched_tac]
  | |- steps _ (mfold _ _ _) => apply steps_mfold; [apply _|intros ? ?; untouched_tac]
  | |- steps _ (if ?b then _ else _) => destruct b; untouched_tac
  | |- steps _ (match ?x with _ => _ end) => destruct x; untouched_tac
  | |- steps _ (mret _) => apply steps_ret; apply _
  | |- steps _ (panic_if _ _) => apply steps_panic_if; apply _
  | |- steps _ (massert _ _) => apply steps_massert; apply _
  | |- steps _ (or_panic _ _) => apply steps_or_panic; apply _
  | |- steps _ (arith _) => apply steps_arith; apply _
  | |- steps _ (unwrap _ _) => apply steps_unwrap; apply _
  | |- steps _ (mfail _) => apply steps_mfail
  | |- steps _ (host_read _ _) => apply steps_host_read; apply _
  | |- steps _ (panic_with_error _) => apply steps_panic_with_error
  | |- steps _ (panic _) => apply steps_panic
  | |- steps _ (Soroban.pextend_ttl _) => apply steps_pextend; apply _
  | |- steps _ (publish _) => apply untouched_publish
  | |- steps _ (require_auth _) => apply untouched_auth; apply _
  | |- steps _ (Credit.try_call (try_get_version _)) => apply untouched_version; apply _
  | |- steps _ (Credit.try_call (try_settle_default_liquidation _ _ _ _)) =>
      apply untouched_settle; apply _
  | |- @steps ?C0 _ _ ?R (Soroban.iget ?k) => exact (@steps_iget C0 _ R _ k)
  | |- @steps ?C0 _ _ ?R (Soroban.pget ?k) => exact (@steps_pget C0 _ R _ k)
  | |- steps _ (Soroban.iset _ _) => apply untouched_iset; reflexivity
  | |- steps _ (Soroban.pset _ _) => apply untouched_pset; reflexivity
  | |- steps _ (Soroban.iremove _) => apply untouched_iremove; reflexivity
  | |- steps _ (Soroban.premove _) => apply untouched_premove; reflexivity
  | |- steps _ (host_call _ _) => apply untouched_deploy; apply _
  | |- steps _ ?m =>
      first [ eapply steps_reads; apply _ | let h := head m in unfold h; untouched_tac ]
  end.

Section calls.
Context `{H : Host} `{!AuctionClient} `{!Deployer} `{Crypto}.
Context (self tok : Address) `{!TokenLaws self tok}.
Abbreviation S' := (State (C := CreditContract)).
Implicit Types (s : S') (c : Ctx).
Abbreviation untouched := (untouched self tok).
Abbreviation safe := (safe self tok).

(** The calls that write the books or move tokens. *)
Definition moves_funds (call : Call) : bool :=
  match call with
  | CSetLiquidityToken _ | CSetTreasuryFeeShareBps _ | CDrawCredit _ _ | CRepayCredit _ _
  | CExecuteTreasuryWithdrawal _ | CWithdrawTreasury _ | CWithdrawBounty _
  | CDepositCollateral _ _ | CWithdrawCollateral _ _ | CPartialReleaseCollateral _ _
  | CDepositCollateralToken _ _ _ | CWithdrawCollateralToken _ _ _ => true
  | _ => false
  end.

Lemma other_untouched call : moves_funds call = false -> steps (untouched K_books) (run call).
Proof. destruct call; try done; intros _; cbn [run]; untouched_tac. Qed.

Lemma untouched_weaken (K K' : area -> StorageKey -> bool) s s' :
  (forall a k, K' a k = true -> K a k = true) -> untouched K s s' -> untouched K' s s'.
Proof. intros HK [Hf Hh]. split; [by eapply frame_weaken|done]. Qed.

(** A transfer of the token, as the holdings of [self] see it. *)
Lemma transfer_net t from to amt c s u s' :
  transfer t from to amt c s = Ok u s' -> t = tok ->
  0 <= amt /\ (forall K, frame K s s') /\
  holdings tok self (host_state s') = holdings tok self (host_state s) + net from to amt self.
Proof.
  intros (h & Hh & ->)%transfer_ok ->. apply law_transfer in Hh as [Ha Hn].
  split; [done|]. split; [intros K; by apply frame_same_stores|]. apply Hn.
Qed.

Lemma transfer_from_net t sp from to amt c s u s' :
  transfer_from t sp from to amt c s = Ok u s' -> t = tok ->
  0 <= amt /\ (forall K, frame K s s') /\
  holdings tok self (host_state s') = holdings tok self (host_state s) + net from to amt self.
Proof.
  intros (h & Hh & ->)%transfer_from_ok ->. apply law_transfer_from in Hh as [Ha Hn].
  split; [done|]. split; [intros K; by apply frame_same_stores|]. apply Hn.
Qed.

(** ** Collateral *)
Lemma set_collateral_host b v c s u s' :
  set_collateral_balance b v c s = Ok u s' -> host_state s' = host_state s.
Proof.
  intros Hr. assert (steps same_guards (set_collateral_balance (H := H) b v)) as Hs by guards_tac.
  by apply (Hs _ _ _ _ Hr).
Qed.

Lemma set_collateral_owed bs b v c s u s' :
  set_collateral_balance b v c s = Ok u s' -> Ledger bs s -> v <> collateral_of s b ->
  (configured_for tok s -> configured_for tok s') /\ owed s' = owed s + (v - collateral_of s b).
Proof.
  intros Hr HL Hne. eapply set_collateral_balance_ok in Hr as (HL' & Hf & Hb & Hv); [|done..].
  assert (forall b', b' <> b -> collateral_of s' b' = collateral_of s b') as Ho.
  { intros b' Hb'. eapply frame_collateral_of; [exact Hf|]. cbn. by rewrite bool_decide_eq_false_2. }
  split.
  - intros [Ht Hs]. split; unfold fee_share in *; by rewrite (frame_inst _ _ _ _ Hf).
  - unfold owed, funds, treasury_of, bounty_of. rewrite !(frame_inst _ _ _ _ Hf) by done.
    rewrite (lg_collateral _ _ _ HL), (lg_collateral _ _ _ HL').
    rewrite (sum_update (collateral_of s) (collateral_of s') bs b);
      [lia|apply (idx_nodup _ _ (lg_index _ _ _ HL))|done|]. intros b'. apply Ho.
Qed.

Definition keep_all (a : area) (k : StorageKey) : bool := true.

(** Any collateral call: reads, a transfer, the balance write, events. *)
Lemma collateral_safe bs b v t from to amt c s0 s1 u1 s2 u2 s3 s' :
  untouched keep_all s0 s1 -> transfer t from to amt c s1 = Ok u1 s2 ->
  set_collateral_balance b v c s2 = Ok u2 s3 -> untouched K_books s3 s' ->
  Ledger bs s0 -> inst s0 DK.LiquidityToken = Some t -> v <> collateral_of s0 b ->
  (0 <= amt -> v - collateral_of s0 b <= net from to amt self) -> safe s0 s'.
Proof.
  intros [F1 L1] Ht Hset [F3 L3] HL Htok Hv Hnet Hc.
  apply transfer_net in Ht as (Ha & F2 & L2); [|by apply Hc].
  assert (frame keep_all s0 s2) as F by (etrans; [exact F1|apply F2]).
  assert (collateral_of s2 b = collateral_of s0 b) as Ec by (by apply (frame_collateral_of keep_all)).
  assert (frame K_books s0 s2) as FB by (by eapply frame_weaken; [|exact F]).
  pose proof (set_collateral_host _ _ _ _ _ _ Hset) as Hh.
  apply (set_collateral_owed bs) in Hset as [Hc3 Ho3];
    [|eapply ledger_frame; [|exact HL]; by eapply frame_weaken; [|exact F]|by rewrite Ec].
  split; [by eapply books_configured, Hc3, books_configured|].
  unfold surplus. rewrite (books_owed _ _ F3), Ho3, (books_owed _ _ FB), Ec.
  rewrite Hh in L3. specialize (Hnet Ha). lia.
Qed.
Lemma keep_collateral s s' b : untouched keep_all s s' -> collateral_of s' b = collateral_of s b.
Proof. intros [Hf _]. by apply (frame_collateral_of keep_all). Qed.

Lemma keep_token s s' : untouched keep_all s s' -> inst s' DK.LiquidityToken = inst s DK.LiquidityToken.
Proof. intros [Hf _]. by apply (frame_inst keep_all). Qed.

Lemma transfer_collateral t from to amt c s u s' b :
  transfer t from to amt c s = Ok u s' -> collateral_of s' b = collateral_of s b.
Proof. by intros (h & _ & ->)%transfer_ok. Qed.
End calls.

(** [chain_untouched] collects the runs that follow the state of [G]; what they
    read of the collateral and the token is what the start has. *)
Ltac chain_untouched :=
  repeat match goal with
  | G : untouched ?x ?t ?K ?s0 ?s, Hm : ?m ?c ?s = Ok _ ?s' |- _ =>
      let F := fresh "F" in let G' := fresh "G" in
      assert (untouched x t K s s') as F by
        (assert (steps (untouched x t K) m) as F by untouched_tac; exact (F _ _ _ _ Hm));
      assert (untouched x t K s0 s') as G' by (etrans; [exact G|exact F]);
      clear Hm F G; rename G' into G;
      repeat match goal with
      | E : context [collateral_of s' ?b] |- _ => rewrite (keep_collateral x t s0 s' b G) in E
      | E : context [inst s' (KData DK.LiquidityToken)] |- _ => rewrite (keep_token x t s0 s' G) in E
      end
  end.

(** [chain_safe]: the same for [safe], by way of [untouched]. *)
Ltac chain_safe :=
  repeat match goal with
  | G : safe ?x ?t ?s0 ?s, Hm : ?m ?c ?s = Ok _ ?s' |- _ =>
      let F := fresh "F" in let G' := fresh "G" in
      assert (safe x t s s') as F by
        (apply untouched_safe;
         assert (steps (untouched x t K_books) m) as F by untouched_tac; exact (F _ _ _ _ Hm));
      assert (safe x t s0 s') as G' by (etrans; [exact G|exact F]);
      clear Hm F G; rename G' into G
  end.

Section money.
Context `{H : Host} `{!AuctionClient} `{!Deployer} `{Crypto}.
Context (self tok : Address) `{!TokenLaws self tok}.
Abbreviation S' := (State (C := CreditContract)).
Implicit Types (s : S') (c : Ctx).
Abbreviation untouched := (untouched self tok).
Abbreviation safe := (safe self tok).

Lemma deposit_safe bs b amt c s u s' :
  deposit_collateral b amt c s = Ok u s' -> Ledger bs s -> b <> self -> current_contract c = self ->
  safe s s'.
Proof.
  intros Hr HL Hb. unfold deposit_collateral in Hr. minv Hr. chk. subst. intros Hc.
  assert (untouched keep_all s s) as G by done.
  assert (untouched K_books s2 s2) as G2 by done. chain_untouched.
  erewrite (transfer_collateral _ _ _ _ _ s0), (keep_collateral _ _ _ _ _ G) in * by eassumption.
  eapply collateral_safe; [apply _|exact G|eassumption..|lia|].
  intros _. rewrite Hc, net_to by done. lia.
Qed.

(** [payout_safe s]: a withdrawal from [s], once its guard is passed. *)
Ltac payout_safe s :=
  match goal with Hs : set_collateral_balance _ _ _ _ = Ok _ ?s3 |- _ =>
    assert (untouched keep_all s s) as G by done;
    assert (untouched K_books s3 s3) as G2 by done
  end; chain_untouched;
  eapply collateral_safe; [apply _|eassumption..|lia|];
  match goal with Hc : current_contract _ = self |- _ => rewrite Hc end;
  intros ?; match goal with |- _ <= net _ ?b ?amt _ => pose proof (net_from_le self b amt) end; lia.

Lemma withdraw_safe bs b amt c s u s' :
  withdraw_collateral b amt c s = Ok u s' -> Ledger bs s -> current_contract c = self -> safe s s'.
Proof.
  intros Hr HL. unfold withdraw_collateral in Hr. minv Hr. chk. subst. intros Hc. payout_safe s.
Qed.

Lemma partial_release_safe bs b amt c s u s' :
  partial_release_collateral b amt c s = Ok u s' -> Ledger bs s -> current_contract c = self -> safe s s'.
Proof.
  intros Hr HL. unfold partial_release_collateral in Hr. minv Hr. 
  all: chk; subst; intros Hc; payout_safe s.
Qed.

(** ** Repayments *)
Definition K_collected (a : area) (k : StorageKey) : bool :=
  match a, k with
  | Inst, KData (DK.TreasuryFeeShareBps | DK.LiquidityToken | DK.TotalCollateral) => true
  | _, _ => false
  end.

(** A collected fee is booked: both sides grow by it. *)
Lemma collect_safe b fee t c s u s' :
  (if 0 <? fee then transfer_from t self b self fee ;; accrue_protocol_fee b fee else mret tt) c s
    = Ok u s' -> t = tok -> b <> self -> fee <= i128_max -> safe s s'.
Proof.
  intros Hr Ht Hb Hmax. destruct (0 <? fee); [|by apply mret_ok in Hr as [_ ->]].
  apply mbind_ok in Hr as ([] & s1 & Htr & Hr). apply (transfer_from_net self tok) in Htr as (Ha & F1 & L1); [|done].
  specialize (F1 K_books). pose proof (accrue_fee_host _ _ _ _ _ _ Hr) as Hh.
  assert (frame K_collected s1 s') as F2 by (eapply frame_steps; [exact Hr|kframe]).
  intros [Ct Cs]%(books_configured _ _ _ F1).
  eapply accrue_fee_ok in Hr as [Hf Hs]; [|done..]. split.
  - split; [by rewrite (frame_inst K_collected s1 s')|by rewrite Hs].
  - rewrite net_to in L1 by done. unfold surplus. rewrite <- (books_owed _ _ F1), Hh, L1.
    unfold owed, funds, total_collateral. rewrite Hf, (frame_inst K_collected s1 s') by done. lia.
Qed.

Lemma collect_late_fee_safe b fee c s u s' :
  Credit.collect_late_fee b fee c s = Ok u s' -> current_contract c = self -> b <> self ->
  fee <= i128_max -> safe s s'.
Proof.
  intros Hr Hc Hb Hmax Hs. unfold Credit.collect_late_fee in Hr.
  assert (safe s s') as Hsafe; [|by apply Hsafe]. destruct (0 <? fee) eqn:E; [|by minv Hr].
  mstep Hr. subst a. change (instance_store s DK.LiquidityToken) with (inst s DK.LiquidityToken) in Hr.
  destruct (inst s DK.LiquidityToken) as [t|] eqn:Et; [|by minv Hr].
  mstep Hr. subst a. rewrite Hc in Hr.
  apply (collect_safe b fee t c s u s'); [by rewrite E|by apply (cf_token _ _ Hs)|done..].
Qed.

Lemma repay_fee_i128 rate ip paid fee : Credit.repay_fee rate ip paid = Some fee -> fee <= i128_max.
Proof.
  unfold Credit.repay_fee. intros Hr. destruct (_ && _); [|injection Hr as <-; lia].
  destruct (apply_bps _ _ _) as [f|]; [|done]. injection Hr as <-.
  pose proof (as_i128_max f). lia.
Qed.

Lemma repay_transfers_safe b t paid ip c s u s' :
  Credit.repay_transfers b t paid ip c s = Ok u s' -> current_contract c = self -> t = tok ->
  b <> self -> safe s s'.
Proof.
  intros Hr Hc Ht Hb. unfold Credit.repay_transfers, get_protocol_fee_bps in Hr.
  destruct (0 <? paid); [|by minv Hr].
  mstep Hr. mstep Hr. mstep Hr. subst a0. rewrite Hc in Hr. mstep Hr.
  apply mbind_ok in Hr as ([] & s1 & Hf & Hr). apply collect_safe in Hf; [|done..|by eapply repay_fee_i128].
  etrans; [exact Hf|]. apply untouched_safe. cbv zeta in Hr. case_match; [|by minv Hr].
  apply (transfer_from_net self tok) in Hr as (Ha & F & L); [|done]. split; [apply F|].
  rewrite L. pose proof (fun to amt => net_other b to amt self (not_eq_sym Hb)) as Hn.
  match goal with |- context [net b ?to ?amt self] => specialize (Hn to amt) end. lia.
Qed.

Lemma repay_safe b amt c s u s' :
  Credit.repay_credit b amt c s = Ok u s' -> b <> self -> current_contract c = self -> safe s s'.
Proof.
  intros Hr Hb. unfold Credit.repay_credit, Credit.repay_publish, with_reentrancy_guard in Hr. minv Hr. intros Hc.
  match goal with Hm : advance_repayment_schedule_after_repay _ _ _ _ _ = _ |- _ =>
    pose proof (advance_schedule_ok _ _ _ _ _ _ _ Hm) as Hlate end.
  assert (safe s s) as G by done. chain_safe. intros Hs.
  match goal with E : inst ?sm (KData DK.LiquidityToken) = Some _, G : safe s ?sm |- _ =>
    pose proof (cf_token _ _ (proj1 (G Hs)) _ E) as Ht end.
  revert Hs. change (safe s s8).
  match goal with Hm : Credit.repay_transfers _ _ _ _ _ _ = _ |- _ =>
    apply repay_transfers_safe in Hm; [|done..] end.
  assert (safe s s3) as G3 by (by etrans). clear G; rename G3 into G; chain_safe.
  match goal with Hm : Credit.collect_late_fee _ _ _ _ = _ |- _ =>
    apply collect_late_fee_safe in Hm; [|done..|lia] end.
  assert (safe s s6) as G6 by (by etrans). clear G; rename G6 into G; chain_safe. exact G.
Qed.

(** ** Draws, which the reserve pays *)
Definition K_reserve (a : area) (k : StorageKey) : bool :=
  K_books a k || match a, k with Inst, KData DK.LiquiditySource => true | _, _ => false end.

Lemma draw_transfer_safe b amt c s u s' :
  Credit.draw_transfer b amt c s = Ok u s' -> inst s DK.LiquiditySource <> Some self -> safe s s'.
Proof.
  intros Hr Hsrc Hs. assert (safe s s') as Hsafe; [|by apply Hsafe].
  unfold Credit.draw_transfer in Hr. minv Hr.
  apply (transfer_net self tok) in Hr as (Ha & F & L); [|by eapply (cf_token _ _ Hs)].
  apply untouched_safe. split; [apply F|]. rewrite L.
  match goal with E : instance_store s _ = Some ?from |- context [net ?from ?to ?x self] =>
    assert (self <> from) as Hne by (intros <-; by apply Hsrc); pose proof (net_other from to x self Hne) end. lia.
Qed.

Lemma draw_safe b amt c s u s' :
  Credit.draw_credit b amt c s = Ok u s' -> inst s DK.LiquiditySource <> Some self -> safe s s'.
Proof.
  intros Hr Hsrc. unfold Credit.draw_credit, Credit.draw_record, with_reentrancy_guard in Hr. minv Hr.
  assert (untouched K_reserve s s) as G by done. chain_untouched.
  match goal with Hm : Credit.draw_transfer _ _ _ ?sm = Ok _ _ |- _ =>
    apply draw_transfer_safe in Hm; [|by rewrite (frame_inst _ _ _ DK.LiquiditySource (proj1 G))];
    assert (safe s sm) as Gs by (apply untouched_safe; eapply untouched_weaken; [|exact G];
                                   by intros [] [[]|[]|[]| | |]) end.
  etrans; [exact Gs|]. clear Gs G. chain_safe. assumption.
Qed.

(** ** The fee accumulators leave *)
Lemma execute_safe a c s u s' :
  Credit.execute_treasury_withdrawal a c s = Ok u s' -> current_contract c = self -> safe s s'.
Proof.
  intros Hr Hc.
  assert (frame (fun a k => match a, k with Inst, KData DK.TreasuryBalance => false | _, _ => K_books a k end)
            s s') as F by (eapply frame_steps; [exact Hr|kframe]).
  apply execute_ok in Hr as (p & h & _ & _ & Ha & _ & Hb & Hau & Hpay).
  intros [Ct Cs]. split; [split; unfold fee_share in *; by rewrite (frame_inst _ _ _ _ F)|].
  assert (holdings tok self h - tp_amount p <= holdings tok self (host_state s')).
  { unfold paid_out in Hpay. destruct (0 <? tp_amount p) eqn:E; bsimp; [|rewrite Hpay; lia].
    destruct Hpay as (t & Et & Hpay). rewrite Hc, (Ct _ Et) in Hpay. apply law_transfer in Hpay as [Hr L].
    rewrite L. pose proof (net_from_le self (tp_recipient p) (tp_amount p)). lia. }
  rewrite (law_auth _ _ _ Hau) in *.
  unfold surplus, owed, funds, bounty_of, total_collateral. rewrite Hb, !(frame_inst _ _ _ _ F) by done. lia.
Qed.

Lemma withdraw_treasury_safe a c s u s' :
  Credit.withdraw_treasury a c s = Ok u s' -> current_contract c = self -> safe s s'.
Proof.
  intros Hr. unfold Credit.withdraw_treasury in Hr.
  apply mbind_ok in Hr as (x & s1 & (_ & _ & h & Hh & ->)%admin_argument_ok & Hr). minv Hr.
  intros Hc. apply execute_safe in Hr; [|done]. etrans; [|exact Hr].
  apply untouched_safe, untouched_host. by rewrite (law_auth _ _ _ Hh).
Qed.

Lemma withdraw_bounty_safe a c s u s' :
  Credit.withdraw_bounty a c s = Ok u s' -> current_contract c = self -> safe s s'.
Proof.
  intros Hr. unfold Credit.withdraw_bounty, get_bounty_address, clear_bounty_balance in Hr. minv Hr; intros Hc.
  - assert (safe s s) as G by done. by chain_safe.
  - assert (safe s s) as G by done. chain_safe. etrans; [exact G|]. clear G. intros [Ct Cs].
    match goal with Ht : transfer ?t _ _ _ _ _ = _, E : inst _ _ = Some ?t |- _ =>
      apply (transfer_net self tok) in Ht as (Ha & F & L); [|by apply Ct] end.
    specialize (F K_books). rewrite Hc in L.
    assert (frame (fun a k => match a, k with Inst, KData DK.BountyBalance => false | _, _ => K_books a k end)
              s0 s') as F' by (etrans; [eapply frame_weaken; [|exact F]; by intros [] [[]|[]|[]| | |]
                              |by eapply frame_iset]).
    assert (bounty_of s' = 0 /\ host_state s' = host_state s1) as [Eb Eh]
      by (apply iset_ok in Hr as ->; unfold bounty_of, inst; by sput).
    split; [split; unfold fee_share in *; by rewrite (frame_inst _ _ _ _ F')|].
    unfold surplus, owed, funds, treasury_of, total_collateral.
    rewrite Eb, Eh, L, !(frame_inst _ _ _ _ F') by done.
    pose proof (net_from_le self a3 (bounty_of s0)). lia.
Qed.

(** ** Configuration *)
Lemma set_token_safe t c s u s' :
  set_liquidity_token t c s = Ok u s' -> t = tok -> safe s s'.
Proof.
  intros Hr. unfold set_liquidity_token in Hr. minv Hr. intros Ht.
  assert (safe s s) as G by done. chain_safe. etrans; [exact G|]. intros [Ct Cs].
  apply iset_ok in Hr as ->. split; [split|by apply Z.eq_le_incl].
  - intros t'. unfold inst. sput. by intros [= <-].
  - exact Cs.
Qed.

Lemma set_share_safe bps c s u s' :
  Credit.set_treasury_fee_share_bps bps c s = Ok u s' -> 0 <= bps -> safe s s'.
Proof.
  intros Hr Hb. unfold Credit.set_treasury_fee_share_bps, set_treasury_fee_share_bps in Hr. minv Hr.
  assert (safe s s) as G by done. chain_safe. etrans; [exact G|]. intros [Ct Cs].
  apply iset_ok in Hr as ->. split; [split; [exact Ct|]|by apply Z.eq_le_incl].
  unfold fee_share, inst. sput. unfold MAX_FEE_SHARE_BPS in *. cbn. lia.
Qed.
End money.

(** ** All calls *)
Section histories.
Context `{H : Host} `{!AuctionClient} `{!Deployer} `{Crypto}.
Context (self tok : Address) `{!TokenLaws self tok}.
Abbreviation S' := (State (C := CreditContract)).
Implicit Types (s : S') (c : Ctx).

(** The calls of a custodian's history: the one liquidity token is never replaced by
    another, a configured share is an unsigned integer, and draws are paid by another
    account than the contract. *)
Definition custodial (call : Call) s : Prop :=
  match call with
  | CSetLiquidityToken t => t = tok
  | CSetTreasuryFeeShareBps bps => 0 <= bps
  | CDrawCredit _ _ => inst s DK.LiquiditySource <> Some self
  | _ => True
  end.

(** Histories of the deployed contract: between two invocations others move their
    own tokens but not the contract's, and the contract signs for nobody. *)
Inductive custody_history : nat -> S' -> Prop :=
| ch_deployed h ev :
    0 <= holdings tok self h -> custody_history 0 (mkState store_empty store_empty h ev)
| ch_call n s h call c u s' :
    custody_history n s -> holdings tok self (host_state s) <= holdings tok self h ->
    host_require_auth self h = None -> current_contract c = self -> custodial call s ->
    run call c (set_host h s) = Ok u s' -> custody_history (S n) s'.

Lemma signer_not_self b s : signs b s -> host_require_auth self (host_state s) = None -> b <> self.
Proof. intros [h Hh] Hn ->. congruence. Qed.

Lemma run_safe bs call c s u s' :
  run call c s = Ok u s' -> Ledger bs s -> custodial call s -> current_contract c = self ->
  host_require_auth self (host_state s) = None -> safe self tok s s'.
Proof.
  intros Hr HL Hcu Hc Hself. destruct (moves_funds call) eqn:Hm.
  2: { by eapply untouched_safe, other_untouched. }
  pose proof (run_needs call c s u s' Hr) as Hauth.
  destruct call; try discriminate Hm; cbn [run custodial authority authorised] in *;
    try (pose proof (signer_not_self _ _ Hauth Hself) as Hb).
  - by eapply set_token_safe.
  - by eapply draw_safe.
  - by eapply repay_safe.
  - by eapply execute_safe.
  - by eapply set_share_safe.
  - by eapply withdraw_bounty_safe.
  - by eapply withdraw_treasury_safe.
  - by eapply deposit_safe.
  - by eapply withdraw_safe.
  - by eapply partial_release_safe.
  - by apply (deposit_token_fails bs) in Hr.
  - by apply (withdraw_token_fails bs) in Hr.
Qed.

Lemma custody_reachable n s : custody_history n s -> reachable n s.
Proof. induction 1; [constructor|by econstructor]. Qed.

Lemma custody_safe n s :
  custody_history n s -> Z.of_nat n <= u32_max -> configured_for tok s /\ 0 <= surplus self tok s.
Proof.
  induction 1 as [h ev Hh|n s h call c u s' Hs IH Hhold Hself Hc Hcu Hr]; intros Hn.
  { split; [by split|]. unfold surplus. change (owed _) with 0. cbn. lia. }
  destruct IH as [Hcf Hsur]; [lia|].
  destruct (reachable_ledger n s (custody_reachable _ _ Hs)) as (bs & HL & _); [lia|].
  apply (run_safe bs) in Hr; [|by apply ledger_set_host|by destruct call|done|done].
  assert (safe self tok s s') as Hsafe.
  { etrans; [|exact Hr]. by apply untouched_safe, untouched_host. }
  apply Hsafe in Hcf as [Hcf' Hle]. split; [done|lia].
Qed.

(** C1. The contract holds what it owes.  Along any history in which draws are paid
    by an account other than the contract, every configuration of the liquidity token
    names the same token, and every configured treasury share is non-negative (an
    unsigned integer in the source), the contract's own balance of that token covers
    treasury, bounty and the collateral of all borrowers together, whatever
    signatures and auction contract it is deployed against, provided the token moves
    balances by transfers only and the contract signs for nobody.  The conditions on
    the token and on the source are needed: the code lets the administrator switch
    the token while it owes in the old one, and falls back on the contract itself as
    the source (the witness computes both shortfalls). *)
Theorem custody n s :
  custody_history n s -> Z.of_nat n <= u32_max ->
  exists bs, Ledger bs s /\
    treasury_of s + bounty_of s + sumZ (collateral_of s <$> bs) <= holdings tok self (host_state s).
Proof.
  intros Hs Hn. destruct (reachable_ledger n s (custody_reachable _ _ Hs) Hn) as (bs & HL & _).
  exists bs. split; [done|]. destruct (custody_safe n s Hs Hn) as [_ Hsur].
  unfold surplus, owed, funds in Hsur. rewrite (lg_collateral _ _ _ HL) in Hsur. lia.
Qed.
End histories.

(** ** Witness: the concrete bank obeys the laws *)
Import Concrete.

(** ** Witness: the concrete bank obeys the laws *)
Import Concrete.

Lemma bank_transfer_net t from to amt h h' :
  bank_transfer t from to amt h = Some h' ->
  0 <= amt /\ forall who, holdings t who h' = holdings t who h + net from to amt who.
Proof.
  unfold bank_transfer. intros Hr. destruct (_ && _) eqn:E; [|done]. bsimp. injection Hr as <-.
  split; [lia|]. intros who. unfold holdings, net. cbn. unfold bank_balance, sumZ. cbn.
  repeat case_decide; intuition (subst; try congruence); lia.
Qed.

#[local] Instance bank_laws : TokenLaws self token.
Proof.
  split.
  - intros caller from to amt h h'. apply bank_transfer_net.
  - intros caller spender from to amt h h'. apply bank_transfer_net.
  - intros a h h' Hr. cbn in Hr. unfold bank_auth in Hr. case_decide; [|done]. by injection Hr as <-.
  - by intros a h v h' [= _ <-].
  - by intros a i x b h v h' [= _ <-].
  - by intros w h h' [= <-].
Qed.

Lemma custody_step n who call t (s : St) :
  custody_history self token n s -> who <> self -> custodial self token call s ->
  succeeds call (at_time t) (signed_by [who] s) = true ->
  custody_history self token (S n) (step who call t s).
Proof.
  intros Hs Hw Hcu Hr.
  apply (ch_call self token n s (mkBank [who] [] (balances (host_state s))) call (at_time t) tt);
    [exact Hs| | |reflexivity|exact Hcu|apply run_after, Hr].
  - done.
  - cbn. unfold bank_auth. cbn. apply decide_False. intros [Hin%list_elem_of_singleton _]. congruence.
Qed.

(** Collateral, a draw, a repayment with its fee, a partial withdrawal. *)
Definition custodial_state : St := step alice (CWithdrawCollateral alice 50000) year repaid_state.

Lemma custody_of_state : custody_history self token 10 custodial_state.
Proof.
  unfold custodial_state, repaid_state, charged, drawn, secured, opened, configured.
  repeat (apply custody_step; [|done|by first [exact I|vm_compute|discriminate]|vm_compute; reflexivity]).
  apply ch_deployed. by vm_compute.
Qed.

(** Without the configuration of a reserve the source is the contract itself, as
    [init] leaves it: the draw is paid out of the deposits. *)
Definition unconfigured : St :=
  step alice (CDrawCredit alice 50000) 200
  (step alice (CDepositCollateral alice 150000) 100
  (step admin (COpenCreditLine alice 100000 1000 50) 100
  (step admin (CSetLiquidityToken token) 100 (step admin (CInit admin) 100 genesis)))).

(** The administrator switches the token after a deposit: what is owed from then on
    is owed in a token the contract never received. *)
Definition other_token : Address := mkAddress 9.

Definition switched : St := step admin (CSetLiquidityToken other_token) 300 secured.

(** C1: what the contract holds and owes; the shortfall of the default source and of
    a switched token. *)
Lemma custody_witness :
  (owed custodial_state = 100499 /\ holdings token self (host_state custodial_state) = 100499) /\
  (owed unconfigured = 150000 /\ holdings token self (host_state unconfigured) = 100000) /\
  (inst switched DK.LiquidityToken = Some other_token /\
   owed switched = 150000 /\ holdings other_token self (host_state switched) = 0) /\
  exists bs, Ledger bs custodial_state /\
    treasury_of custodial_state + bounty_of custodial_state + sumZ (collateral_of custodial_state <$> bs)
      <= holdings token self (host_state custodial_state).
Proof.
  do 3 (split; [repeat split; vm_compute; reflexivity|]).
  exact (custody self token 10 custodial_state custody_of_state ltac:(done)).
Defined.
