(* ===== verification/Governance.v ===== *)
(** * Governance of the credit contract

    How the administrator changes, and the per-borrower caps that can be set but
    not cleared. *)
From S2P Require Import Prelude MathUtils Soroban CreditTypes CreditEvents CreditStorage CreditState Accrual Collateral Fees Freeze Oracles Scoring Risk Lifecycle Views CreditContract CreditCalls CreditLedger CreditMoves CreditInvariant Scenario CreditTheorems CreditSafety.

(** ** The administrator *)
Section admin.
Context `{H : Host} `{!AuctionClient} `{!Deployer} `{Crypto}.
Abbreviation S' := (State (C := CreditContract)).
Implicit Types (s : S') (c : Ctx).

Definition proposed_admin s : option Address := inst s sym_proposed_admin.

Definition accept_after s : Z := unwrap_or (inst s sym_proposed_at) 0.

Definition K_admin (a : area) (k : StorageKey) : bool :=
  match a, k with
  | Inst, KSym (sym_admin | sym_proposed_admin | sym_proposed_at) => true
  | _, _ => false
  end.

Definition moves_admin (call : Call) : bool :=
  match call with CInit _ | CProposeAdmin _ _ | CAcceptAdmin => true | _ => false end.

Lemma other_admin call : moves_admin call = false -> steps (frame K_admin) (run call).
Proof. destruct call; try done; intros _; cbn [run]; kframe. Qed.

Lemma init_admin a c s u s' :
  init a c s = Ok u s' ->
  admin_of s = None /\ admin_of s' = Some a /\ proposed_admin s' = proposed_admin s /\
  accept_after s' = accept_after s.
Proof.
  unfold init. intros Hr. mstep Hr. subst. mstep Hr. apply mbind_ok in Hr as ([] & s1 & Hset & Hr).
  assert (frame K_admin s1 s') as F by (eapply frame_steps; [exact Hr|kframe]).
  split; [unfold admin_of, inst; by case_match|].
  unfold admin_of, proposed_admin, accept_after. rewrite !(frame_inst _ _ _ _ F) by done.
  apply iset_ok in Hset as ->. unfold inst. by sput.
Qed.

Lemma propose_admin_ok a d c s u s' :
  Credit.propose_admin a d c s = Ok u s' ->
  admin_of s' = admin_of s /\ proposed_admin s' = Some a /\
  accept_after s' = sat_u64 (ledger_timestamp c + d).
Proof.
  unfold Credit.propose_admin. intros Hr.
  apply mbind_ok in Hr as (x & s1 & (_ & h & _ & ->)%require_admin_auth_ok & Hr). mstep Hr. subst. cbv zeta in Hr.
  apply mbind_ok in Hr as ([] & s2 & ->%iset_ok & Hr). apply mbind_ok in Hr as ([] & s3 & ->%iset_ok & Hr).
  match type of Hr with _ ?sp = _ =>
    assert (frame K_admin sp s') as F by (eapply frame_steps; [exact Hr|kframe]) end.
  unfold admin_of, proposed_admin, accept_after. rewrite !(frame_inst _ _ _ _ F) by done.
  unfold inst. by sput.
Qed.

Lemma accept_admin_moves c s u s' :
  Credit.accept_admin c s = Ok u s' ->
  exists a, proposed_admin s = Some a /\ accept_after s <= ledger_timestamp c /\
    signs a s /\ admin_of s' = Some a /\ proposed_admin s' = None.
Proof.
  unfold Credit.accept_admin. intros Hr. minv Hr.
  match goal with Hq : require_auth _ _ _ = _ |- _ => apply require_auth_ok in Hq as (h & ? & ->) end.
  match goal with Hi : Soroban.iset _ _ _ _ = _ |- _ => apply iset_ok in Hi as -> end.
  repeat match goal with Hi : Soroban.iremove _ _ _ = _ |- _ => apply iremove_ok in Hi as -> end.
  match type of Hr with _ ?sp = _ =>
    assert (frame K_admin sp s') as F by (eapply frame_steps; [exact Hr|kframe]) end.
  eexists. split; [eassumption|]. split; [done|]. split; [by exists h|].
  unfold admin_of, proposed_admin. rewrite !(frame_inst _ _ _ _ F) by done. unfold inst. by sput.
Qed.

(** A pending proposal was made by whoever is the administrator now. *)
Definition proposed_earlier (n : nat) s (a : Address) : Prop :=
  exists m s0 h d c u s1,
    (m < n)%nat /\ reachable m s0 /\ run (CProposeAdmin a d) c (set_host h s0) = Ok u s1 /\
    later s1 s /\ admin_signs (set_host h s0) /\ admin_of s0 = admin_of s /\
    accept_after s = sat_u64 (ledger_timestamp c + d).

Lemma proposal_stays n s h call c u s' a :
  proposed_earlier n s a -> run call c (set_host h s) = Ok u s' ->
  admin_of s' = admin_of s -> accept_after s' = accept_after s -> proposed_earlier (S n) s' a.
Proof.
  intros (m & s0 & h0 & d & c0 & u0 & s1 & Hm & Hs0 & Hr0 & Hl & Hsig & Ha & Ht) Hr Ea Et.
  exists m, s0, h0, d, c0, u0, s1. repeat (split; [first [done|lia|by eapply later_call|congruence]|]).
  by rewrite Et.
Qed.

Lemma proposal_origin n s a : reachable n s -> proposed_admin s = Some a -> proposed_earlier n s a.
Proof.
  induction 1 as [h ev|n s h call c u s' Hs IH Hr] in a |- *; [done|]. intros Hp.
  destruct (moves_admin call) eqn:Hm.
  - destruct call; try discriminate Hm; pose proof Hr as Hr0; cbn [run] in Hr.
    + apply init_admin in Hr as (Hn & Ha & Hp' & _). exfalso.
      destruct (IH a) as (m & s0 & h0 & d & c0 & u0 & s1 & _ & _ & _ & _ & (x & Hx & _) & Ha0 & _).
      { by rewrite <- Hp, Hp'. }
      change (admin_of s0 = Some x) in Hx. change (admin_of s = None) in Hn. congruence.
    + pose proof (run_needs _ _ _ _ _ Hr0) as Hsig. apply propose_admin_ok in Hr as (Ha & Hp' & Ht).
      assert (a = new_admin) as -> by congruence.
      exists n, s, h, delay_seconds, c, u, s'.
      repeat (split; [first [done|lia|apply later_refl|by rewrite Ha]|]). done.
    + apply accept_admin_moves in Hr as (x & _ & _ & _ & _ & Hp'). congruence.
  - pose proof (other_admin _ Hm _ _ _ _ Hr) as F.
    eapply proposal_stays; [apply IH|exact Hr| |].
    + rewrite <- Hp. symmetry. by apply (frame_inst _ _ _ sym_proposed_admin F).
    + by apply (frame_admin _ _ _ F).
    + unfold accept_after. by rewrite (frame_inst _ _ _ sym_proposed_at F).
Qed.

(** C13. The administrator changes in two ways only: initialisation sets it once,
    when there is none; and a proposed successor takes over by its own signature,
    after the delay of a proposal that an earlier call signed by the administrator
    of that moment made, who is still the administrator when it is accepted. *)
Theorem admin_handover n s h call c u s' :
  reachable n s -> run call c (set_host h s) = Ok u s' -> admin_of s' <> admin_of s ->
  (exists a, call = CInit a /\ admin_of s = None /\ admin_of s' = Some a) \/
  (call = CAcceptAdmin /\ exists a, admin_of s' = Some a /\ signs a (set_host h s) /\
     proposed_earlier n s a /\ accept_after s <= ledger_timestamp c).
Proof.
  intros Hs Hr Hne. destruct (moves_admin call) eqn:Hm.
  2: { exfalso. apply Hne. by apply (frame_admin _ _ _ (other_admin _ Hm _ _ _ _ Hr)). }
  destruct call; try discriminate Hm; cbn [run] in Hr.
  - apply init_admin in Hr as (Hn & Ha & _). left. by exists admin.
  - by apply propose_admin_ok in Hr as (Ha & _).
  - apply accept_admin_moves in Hr as (a & Hp & Ht & Hsig & Ha & _). right. split; [done|].
    exists a. split; [done|]. split; [done|]. split; [|done]. by apply proposal_origin.
Qed.
End admin.

(** ** Per-borrower caps

    The setters remove a cleared entry and then extend its lifetime, which the
    host refuses for an entry that is not there. *)
Section caps.
Context `{H : Host} `{!AuctionClient} `{!Deployer} `{Crypto}.
Abbreviation S' := (State (C := CreditContract)).
Implicit Types (s : S') (c : Ctx).

Definition cap_key (k : StorageKey) : bool :=
  match k with
  | KData (DK.RateFloorBps _ | DK.RateCeilingBps _ | DK.UtilizationCapBps _) => true
  | _ => false
  end.

Definition K_caps (a : area) (k : StorageKey) : bool :=
  match a with Pers => cap_key k | Inst => false end.

(** The calls documented to clear a cap. *)
Definition clears_cap (call : Call) : bool :=
  match call with
  | CSetBorrowerRateFloor _ None | CSetBorrowerRateCeiling _ None => true
  | CSetUtilizationCap _ cap => cap =? 0
  | _ => false
  end.

Definition sets_cap (call : Call) : bool :=
  match call with
  | CSetBorrowerRateFloor _ _ | CSetBorrowerRateCeiling _ _ | CSetUtilizationCap _ _ => true
  | _ => false
  end.

Lemma other_caps call : sets_cap call = false -> steps (frame K_caps) (run call).
Proof. destruct call; try done; intros _; cbn [run]; kframe. Qed.

(** Writing an optional entry and refreshing it: only [Some] passes, and no entry
    disappears. *)
Lemma write_and_bump k (v : option (sval k)) c s u s' :
  (match v with Some x => Soroban.pset (C := CreditContract) k x | None => Soroban.premove k end ;;
   bump_persistent_ttl k) c s = Ok u s' ->
  v <> None /\ forall k', is_Some (pers s k') -> is_Some (pers s' k').
Proof.
  intros Hr. apply mbind_ok in Hr as ([] & s1 & Hw & Hr). apply bump_persistent_ttl_ok in Hr as [Hs ->].
  destruct v as [x|].
  - split; [done|]. apply pset_ok in Hw as ->. intros k' Hk. unfold pers in *. cbn.
    unfold store_put. destruct (decide (k = k')) as [<-|]; [|done]. rewrite cast_val_refl. eauto.
  - exfalso. apply premove_ok in Hw as ->. unfold pers in Hs. cbn in Hs. rewrite store_remove_eq in Hs.
    by destruct Hs.
Qed.

Lemma frame_is_some K s s' k :
  frame K s s' -> K Pers k = true -> is_Some (pers s k) -> is_Some (pers s' k).
Proof. intros Hf Hk. by rewrite (frame_pers K s s' k Hf Hk). Qed.

Lemma admin_auth_pers c s a s' k : require_admin_auth c s = Ok a s' -> pers s' k = pers s k.
Proof. by intros (_ & h & _ & ->)%require_admin_auth_ok. Qed.

Lemma setters_keep call c s u s' :
  sets_cap call = true -> run call c s = Ok u s' ->
  clears_cap call = false /\ forall k, is_Some (pers s k) -> is_Some (pers s' k).
Proof.
  intros Hc Hr. destruct call; try discriminate Hc; cbn [run clears_cap] in *.
  - unfold risk_set_borrower_rate_floor, set_borrower_rate_floor in Hr.
    apply mbind_ok in Hr as (a & s1 & Ha & Hr). do 2 mstep Hr.
    apply (write_and_bump (KData (DK.RateFloorBps borrower)) floor_bps) in Hr as [Hv Hk]. split; [by destruct floor_bps|].
    intros k. rewrite <- (admin_auth_pers _ _ _ _ k Ha). apply Hk.
  - unfold risk_set_borrower_rate_ceiling, set_borrower_rate_ceiling in Hr.
    apply mbind_ok in Hr as (a & s1 & Ha & Hr). apply mbind_ok in Hr as ([] & s2 & Hm & Hr).
    assert (s2 = s1) as -> by (clear Hr; unfold get_borrower_rate_floor in Hm; by minv Hm).
    mstep Hr.
    apply (write_and_bump (KData (DK.RateCeilingBps borrower)) ceiling_bps) in Hr as [Hv Hk]. split; [by destruct ceiling_bps|].
    intros k. rewrite <- (admin_auth_pers _ _ _ _ k Ha). apply Hk.
  - unfold Credit.set_utilization_cap, set_utilization_cap_bps in Hr.
    apply mbind_ok in Hr as (a & s1 & Ha & Hr). mstep Hr.
    apply (write_and_bump (KData (DK.UtilizationCapBps borrower))
             (if cap_bps =? 0 then None else Some cap_bps)) in Hr as [Hv Hk]. split; [by destruct (cap_bps =? 0)|].
    intros k. rewrite <- (admin_auth_pers _ _ _ _ k Ha). apply Hk.
Qed.

Lemma run_keeps_caps call c s u s' k :
  run call c s = Ok u s' -> cap_key k = true -> is_Some (pers s k) -> is_Some (pers s' k).
Proof.
  intros Hr Hk. destruct (sets_cap call) eqn:E.
  - by apply (setters_keep _ _ _ _ _ E Hr).
  - apply other_caps in E. by eapply frame_is_some; [eapply E|].
Qed.

(** C21. A borrower's rate floor, rate ceiling or utilisation cap, once set, is set
    for ever: no sequence of invocations removes it, and every call documented to
    clear one fails, whoever signs it and whatever the state is. *)
Theorem caps_are_permanent :
  (forall k s s', cap_key k = true -> later s s' -> is_Some (pers s k) -> is_Some (pers s' k)) /\
  (forall call c s u s', clears_cap call = true -> run call c s <> Ok u s').
Proof.
  split.
  - intros k s s' Hk Hl. induction Hl as [|s1 s2 h call c u s3 _ IH Hr]; [done|]. intros Hs.
    eapply run_keeps_caps; [exact Hr|done|]. exact (IH Hs).
  - intros call c s u s' Hc Hr.
    assert (sets_cap call = true) as Hs by (by destruct call).
    destruct (setters_keep _ _ _ _ _ Hs Hr) as [? _]. congruence.
Qed.
End caps.

(** ** Witnesses *)
Import Concrete.

Definition successor : Address := mkAddress 9.

Definition proposed : St := step admin (CProposeAdmin successor 3600) 300 drawn.

Definition handed_over : St := step successor CAcceptAdmin 4000 proposed.

Lemma reachable_proposed_admin : reachable 7 proposed.
Proof. apply (reachable_step 6); [exact reachable_drawn|vm_compute; reflexivity]. Qed.

(** C13: the successor takes over after an hour, not before. *)
Lemma admin_handover_witness :
  succeeds CAcceptAdmin (at_time 3800) (signed_by [successor] proposed) = false /\
  ((exists a, CAcceptAdmin = CInit a /\ admin_of proposed = None /\ admin_of handed_over = Some a) \/
   (CAcceptAdmin = CAcceptAdmin /\ exists a, admin_of handed_over = Some a /\
      signs a (set_host (mkBank [successor] [] (balances (host_state proposed))) proposed) /\
      proposed_earlier 7 proposed a /\ accept_after proposed <= ledger_timestamp (at_time 4000))).
Proof.
  split; [vm_compute; reflexivity|].
  apply (admin_handover 7 proposed (mkBank [successor] [] (balances (host_state proposed)))
           CAcceptAdmin (at_time 4000) tt).
  - exact reachable_proposed_admin.
  - apply run_after. vm_compute. reflexivity.
  - vm_compute. discriminate.
Defined.

Definition floored : St := step admin (CSetBorrowerRateFloor alice (Some 300)) 300 drawn.

(** C21: the floor of alice survives a repayment, and cannot be cleared. *)
Lemma caps_are_permanent_witness :
  is_Some (pers (step alice (CRepayCredit alice 100) 400 floored) (DK.RateFloorBps alice)) /\
  run (CSetBorrowerRateFloor alice None) (at_time 500) (signed_by [admin] floored) <> Ok tt floored.
Proof.
  split.
  - apply (proj1 caps_are_permanent (KData (DK.RateFloorBps alice)) floored); [reflexivity| |].
    + apply (later_call _ floored (mkBank [alice] [] (balances (host_state floored))) (CRepayCredit alice 100)
               (at_time 400) tt); [apply later_refl|].
      apply run_after. vm_compute. reflexivity.
    + vm_compute. eauto.
  - apply (proj2 caps_are_permanent). reflexivity.
Defined.
