(* ===== verification/Attestation.v ===== *)
(** * Attestation batches

    What the stored Merkle root of a borrower's attestations proves: over any
    history that does not replace the batch, a proof is accepted exactly when it is
    the path of a node of the committed tree, unless the digest collides. *)
From S2P Require Import Prelude MathUtils Soroban CreditTypes CreditEvents CreditStorage CreditState Accrual Collateral Fees Freeze Oracles Scoring Risk Lifecycle Views CreditContract CreditCalls CreditLedger CreditMoves CreditInvariant Scenario CreditTheorems CreditSafety.

(** ** Trees of digests *)
Inductive tree := Leaf (d : BytesN32) | Node (l r : tree).

Section trees.
Context `{Crypto}.

(** The message hashed for a pair, and the digest of a tree. *)
Definition pair_message (a b : BytesN32) : list Z :=
  if bytes32_le a b then [1] ++ a ++ b else [1] ++ b ++ a.

Fixpoint root (t : tree) : BytesN32 :=
  match t with Leaf d => d | Node l r => hash_pair (root l) (root r) end.

(** Every node with the siblings on its way to the root. *)
Fixpoint nodes (t : tree) : list (BytesN32 * list BytesN32) :=
  (root t, []) ::
  match t with
  | Leaf _ => []
  | Node l r => map (fun '(x, p) => (x, p ++ [root r])) (nodes l)
                ++ map (fun '(x, p) => (x, p ++ [root l])) (nodes r)
  end.

Fixpoint leaves (t : tree) : list BytesN32 :=
  match t with Leaf d => [d] | Node l r => leaves l ++ leaves r end.

(** The messages hashed to build the tree, and to check a proof. *)
Fixpoint tree_messages (t : tree) : list (list Z) :=
  match t with
  | Leaf _ => []
  | Node l r => pair_message (root l) (root r) :: tree_messages l ++ tree_messages r
  end.

Fixpoint proof_messages (x : BytesN32) (p : list BytesN32) : list (list Z) :=
  match p with [] => [] | s :: p' => pair_message x s :: proof_messages (hash_pair x s) p' end.

(** Nothing hashed for the proof collides with what was hashed for the tree. *)
Record collision_free (t : tree) (x : BytesN32) (p : list BytesN32) : Prop := {
  no_collision : forall m m', m ∈ tree_messages t -> m' ∈ proof_messages x p ->
    sha256 m = sha256 m' -> m = m';
  no_leaf : forall m, m ∈ proof_messages x p -> sha256 m ∉ leaves t;
}.

(** ** Sorted pairs *)
Lemma hash_pair_message a b : hash_pair a b = sha256 (pair_message a b).
Proof. unfold hash_pair, pair_message. by destruct (bytes32_le a b). Qed.

Lemma bytes_le_total n i a b : bytes_le n i a b = false -> bytes_le n i b a = true.
Proof.
  revert i. induction n as [|n IH]; intros i; [done|]. cbn.
  destruct (Z.ltb_spec (unwrap_or (a !! i) 0) (unwrap_or (b !! i) 0)); [done|].
  destruct (Z.ltb_spec (unwrap_or (b !! i) 0) (unwrap_or (a !! i) 0)); [done|]. apply IH.
Qed.

Lemma bytes_le_antisym n i a b :
  bytes_le n i a b = true -> bytes_le n i b a = true ->
  forall j, (i <= j < i + n)%nat -> unwrap_or (a !! j) 0 = unwrap_or (b !! j) 0.
Proof.
  revert i. induction n as [|n IH]; intros i; cbn; [intros; lia|].
  destruct (Z.ltb_spec (unwrap_or (a !! i) 0) (unwrap_or (b !! i) 0)),
    (Z.ltb_spec (unwrap_or (b !! i) 0) (unwrap_or (a !! i) 0)); try done; [lia|].
  intros Hab Hba j Hj. destruct (decide (j = i)) as [->|]; [lia|]. apply (IH (S i)); [done..|lia].
Qed.

Lemma bytes32_antisym (a b : BytesN32) :
  length a = 32%nat -> length b = 32%nat ->
  bytes32_le a b = true -> bytes32_le b a = true -> a = b.
Proof.
  intros Ha Hb Hab Hba. apply list_eq. intros j. destruct (decide (j < 32)%nat) as [Hj|Hj].
  - pose proof (bytes_le_antisym 32 0 a b Hab Hba j ltac:(lia)) as E.
    destruct (lookup_lt_is_Some_2 a j ltac:(lia)) as [va Ea], (lookup_lt_is_Some_2 b j ltac:(lia)) as [vb Eb].
    change BytesN32 with (list Z) in E. rewrite Ea, Eb in *. cbn in E. by subst.
  - by rewrite !lookup_ge_None_2 by lia.
Qed.

Lemma pair_message_comm a b :
  length a = 32%nat -> length b = 32%nat -> pair_message a b = pair_message b a.
Proof.
  intros Ha Hb. unfold pair_message.
  destruct (bytes32_le a b) eqn:E1, (bytes32_le b a) eqn:E2; try done.
  - by rewrite (bytes32_antisym a b Ha Hb E1 E2).
  - apply bytes_le_total in E1. unfold bytes32_le in E2. congruence.
Qed.

Lemma pair_message_inj a b a' b' :
  length a = 32%nat -> length b = 32%nat -> length a' = 32%nat -> length b' = 32%nat ->
  pair_message a b = pair_message a' b' -> (a = a' /\ b = b') \/ (a = b' /\ b = a').
Proof.
  unfold pair_message. intros. repeat case_match;
    match goal with E : [1] ++ _ ++ _ = _ |- _ => apply app_inv_head, app_inj_1 in E as [-> ->]; [|congruence] end;
    auto.
Qed.

(** ** Paths *)
Lemma compute_root_app x p s : compute_root x (p ++ [s]) = hash_pair (compute_root x p) s.
Proof. unfold compute_root. by rewrite fold_left_app. Qed.

Lemma proof_messages_app x p s :
  proof_messages x (p ++ [s]) = proof_messages x p ++ [pair_message (compute_root x p) s].
Proof. revert x. induction p as [|y p IH]; intros x; [done|]. cbn. by rewrite IH. Qed.

Context (sha_length : forall m, length (sha256 m) = 32%nat).

Definition sized (t : tree) : Prop := Forall (fun d => length d = 32%nat) (leaves t).

Lemma root_length t : sized t -> length (root t) = 32%nat.
Proof.
  unfold sized. destruct t as [d|l r]; cbn; [by intros [? _]%Forall_cons|].
  intros _. rewrite hash_pair_message. apply sha_length.
Qed.

Lemma sized_node l r : sized (Node l r) -> sized l /\ sized r.
Proof. unfold sized. cbn. apply Forall_app. Qed.

Lemma compute_root_length x p :
  length x = 32%nat -> length (compute_root x p) = 32%nat.
Proof.
  intros Hx. destruct p as [|s p _] using rev_ind; [done|].
  rewrite compute_root_app, hash_pair_message. apply sha_length.
Qed.

Lemma nodes_sound t x p : sized t -> (x, p) ∈ nodes t -> compute_root x p = root t.
Proof.
  intros Hs. induction t as [d|l IHl r IHr] in x, p, Hs |- *; cbn [nodes root]; intros Hin.
  { apply list_elem_of_singleton in Hin. by injection Hin as -> ->. }
  apply sized_node in Hs as [Hl Hr]. apply elem_of_cons in Hin as [[= -> ->]|Hin]; [done|].
  apply elem_of_app in Hin as [Hin|Hin]; apply list_elem_of_fmap in Hin as ([y q] & [= -> ->] & Hin);
    rewrite compute_root_app.
  - by rewrite (IHl y q).
  - rewrite (IHr y q) by done. rewrite !hash_pair_message. f_equal.
    apply pair_message_comm; by apply root_length.
Qed.

Lemma collision_free_node l r x p s :
  collision_free (Node l r) x (p ++ [s]) -> collision_free l x p /\ collision_free r x p.
Proof.
  intros [Hm Hl]. rewrite proof_messages_app in *. cbn [tree_messages leaves] in *.
  split; split; intros m; intros; try (eapply Hm; set_solver).
  - intros ?. apply (Hl m); set_solver.
  - intros ?. apply (Hl m); set_solver.
Qed.

Lemma nodes_complete t x p :
  sized t -> length x = 32%nat -> Forall (fun d => length d = 32%nat) p -> collision_free t x p ->
  compute_root x p = root t -> (x, p) ∈ nodes t.
Proof.
  intros Hs Hx. induction t as [d|l IHl r IHr] in p, Hs |- *; intros Hp Hc E.
  - destruct p as [|s p _] using rev_ind; [cbn in E; rewrite E; by left|]. exfalso.
    rewrite compute_root_app, hash_pair_message in E.
    apply (no_leaf _ _ _ Hc (pair_message (compute_root x p) s)).
    + rewrite proof_messages_app. set_solver.
    + rewrite E. by left.
  - destruct p as [|s p _] using rev_ind; [cbn in E; rewrite E; by left|].
    apply sized_node in Hs as [Hl Hr]. apply Forall_app in Hp as [Hp [Hsz _]%Forall_cons].
    destruct (collision_free_node _ _ _ _ _ Hc) as [Hcl Hcr].
    rewrite compute_root_app in E. cbn [root] in E. rewrite !hash_pair_message in E.
    symmetry in E. apply (no_collision _ _ _ Hc) in E; [|cbn; by left|rewrite proof_messages_app; set_solver].
    apply pair_message_inj in E as [[El Er]|[El Er]];
      [| |by apply root_length..|by apply compute_root_length|done].
    + cbn [nodes]. right. apply elem_of_app. left. apply list_elem_of_fmap. exists (x, p).
      split; [by rewrite Er|]. by apply IHl.
    + cbn [nodes]. right. apply elem_of_app. right. apply list_elem_of_fmap. exists (x, p).
      split; [by rewrite El|]. by apply IHr.
Qed.
End trees.

(** ** The stored batch *)
Section batches.
Context `{H : Host} `{!AuctionClient} `{!Deployer} `{Crypto}.
Abbreviation S' := (State (C := CreditContract)).
Implicit Types (s : S') (c : Ctx).

Definition batch_of s b : option AttestationBatch := pers s (DK.AttestationBatch b).

Definition K_batch (b : Address) (a : area) (k : StorageKey) : bool :=
  match a, k with Pers, KData (DK.AttestationBatch b') => bool_decide (b' = b) | _, _ => false end.

Definition moves_batch (call : Call) : option Address :=
  match call with
  | CCommitAttestationBatch b _ _ | CClearAttestationBatch b => Some b
  | _ => None
  end.

Lemma other_batch call b : moves_batch call = None -> steps (frame (K_batch b)) (run call).
Proof. destruct call; try done; intros _; cbn [run]; kframe. Qed.

Definition K_batches (a : area) (k : StorageKey) : bool :=
  match a, k with Pers, KData (DK.AttestationBatch _) => true | _, _ => false end.

Lemma frame_batch s s' b : frame K_batches s s' -> batch_of s' b = batch_of s b.
Proof. intros Hf. exact (frame_pers K_batches s s' (DK.AttestationBatch b) Hf eq_refl). Qed.

Lemma commit_batch_ok b r n c s u s' :
  commit_attestation_batch b r n c s = Ok u s' ->
  batch_of s' b = Some (mkBatch r n (ledger_timestamp c)) /\
  forall b', b' <> b -> batch_of s' b' = batch_of s b'.
Proof.
  intros Hr. assert (frame K_batches s s) as K by done. unfold commit_attestation_batch in Hr. minv Hr. chain.
  match goal with Hm : Soroban.pset _ _ _ ?sa = Ok _ ?sb |- _ =>
    rename K into K0, Hm into Hput; assert (frame K_batches sb sb) as K by done end. chain.
  apply pset_ok in Hput as ->. split; [|intros b' Hne]; rewrite (frame_batch _ _ _ K); unfold batch_of, pers.
  - by sput.
  - sput. apply (frame_batch _ _ _ K0).
Qed.

Lemma clear_batch_ok b c s u s' :
  clear_attestation_batch b c s = Ok u s' -> forall b', b' <> b -> batch_of s' b' = batch_of s b'.
Proof.
  intros Hr. assert (frame K_batches s s) as K by done. unfold clear_attestation_batch in Hr. minv Hr. chain.
  apply premove_ok in Hr as ->. intros b' Hne. unfold batch_of, pers. sput. apply (frame_batch _ _ _ K).
Qed.

Lemma run_keeps_batch call b c s u s' :
  run call c s = Ok u s' -> moves_batch call <> Some b -> batch_of s' b = batch_of s b.
Proof.
  intros Hr Hm. destruct (moves_batch call) as [b0|] eqn:E.
  - destruct call; try discriminate E; injection E as ->; cbn [run] in Hr.
    + apply commit_batch_ok in Hr as [_ Ho]. apply Ho. congruence.
    + eapply clear_batch_ok; [exact Hr|]. congruence.
  - apply (other_batch _ b) in E. apply (frame_pers (K_batch b) s s' (DK.AttestationBatch b)); [by eapply E|].
    cbn. by rewrite bool_decide_eq_true_2.
Qed.

(** Later invocations that do not replace the batch of [b]. *)
Inductive later_keeping (b : Address) : S' -> S' -> Prop :=
| lk_refl s : later_keeping b s s
| lk_call s1 s2 h call c u s3 :
    later_keeping b s1 s2 -> moves_batch call <> Some b ->
    run call c (set_host h s2) = Ok u s3 -> later_keeping b s1 s3.

Lemma later_batch b s1 s2 : later_keeping b s1 s2 -> batch_of s2 b = batch_of s1 b.
Proof.
  induction 1 as [|s1 s2 h call c u s3 _ IH Hm Hr]; [done|].
  rewrite (run_keeps_batch _ _ _ _ _ _ Hr Hm). exact IH.
Qed.

Lemma verify_proof_run b batch x p c s :
  batch_of s b = Some batch ->
  verify_attestation_proof b x p c s = Ok (bool_decide (compute_root x p = merkle_root batch)) s.
Proof.
  unfold batch_of, pers. intros E. unfold verify_attestation_proof, mbind, pget. rewrite E.
  unfold or_panic, mret, pextend_ttl. by rewrite E.
Qed.

(** C22. The committed root of a tree of attestations accepts exactly its nodes:
    until the borrower's batch is replaced or cleared, checking a proof never
    fails; each leaf with its siblings is accepted; and whatever is accepted is a
    node of the tree with its siblings, unless a message hashed for the proof
    collides with one of the tree.  Inner nodes are accepted as well, down to the
    root itself with the empty proof: leaves are not hashed apart from them. *)
Theorem attestation_membership t b n c s u s1 s2 x p h c' :
  (forall m, length (sha256 m) = 32%nat) -> sized t ->
  length x = 32%nat -> Forall (fun d => length d = 32%nat) p ->
  run (CCommitAttestationBatch b (root t) n) c s = Ok u s1 -> later_keeping b s1 s2 ->
  exists accepted,
    verify_attestation_proof b x p c' (set_host h s2) = Ok accepted (set_host h s2) /\
    ((x, p) ∈ nodes t -> accepted = true) /\
    (collision_free t x p -> accepted = true -> (x, p) ∈ nodes t) /\
    (x = root t -> p = [] -> accepted = true).
Proof.
  intros Hsha Ht Hx Hp Hr Hl. cbn [run] in Hr. apply commit_batch_ok in Hr as [Hb _].
  pose proof (later_batch _ _ _ Hl) as El. rewrite Hb in El.
  rewrite (verify_proof_run b (mkBatch (root t) n (ledger_timestamp c))) by exact El.
  eexists. split; [reflexivity|]. cbn [merkle_root].
  split; [|split].
  - intros Hin. apply bool_decide_eq_true_2. by apply nodes_sound.
  - intros Hc E. apply nodes_complete; [done..|]. by apply bool_decide_eq_true_1 in E.
  - intros -> ->. by apply bool_decide_eq_true_2.
Qed.
End batches.

(** ** Witness: two attestations *)
Import Concrete.

Definition leaf_of (v : Z) : BytesN32 := replicate 32 v.

Definition pair_tree : tree := Node (Node (Leaf (leaf_of 7)) (Leaf (leaf_of 9))) (Leaf (leaf_of 200)).

Definition committed : St := step admin (CCommitAttestationBatch alice (root pair_tree) 3) 300 drawn.

Lemma pair_tree_collision_free : collision_free pair_tree (leaf_of 9) [leaf_of 7; leaf_of 200].
Proof.
  split.
  - intros m m' Hm Hm'. cbn [tree_messages pair_tree app] in Hm. cbn [proof_messages] in Hm'.
    elems; subst; intros E; first [by vm_compute | vm_compute in E; discriminate E].
  - intros m Hm. cbn [proof_messages] in Hm. cbn [leaves pair_tree app].
    elems; subst; intros Hin; elems; by vm_compute in Hin.
Qed.

(** C22: the second leaf, the inner node above it, and a stranger. *)
Lemma attestation_membership_witness :
  (leaf_of 9, [leaf_of 7; leaf_of 200]) ∈ nodes pair_tree /\
  (root (Node (Leaf (leaf_of 7)) (Leaf (leaf_of 9))), [leaf_of 200]) ∈ nodes pair_tree /\
  verify_attestation_proof alice (8 :: replicate 31 9) [leaf_of 7; leaf_of 200] (at_time 400) committed = Ok false committed /\
  collision_free pair_tree (leaf_of 9) [leaf_of 7; leaf_of 200] /\
  exists accepted,
    verify_attestation_proof alice (leaf_of 9) [leaf_of 7; leaf_of 200] (at_time 400)
      (set_host (host_state committed) committed) = Ok accepted (set_host (host_state committed) committed) /\
    ((leaf_of 9, [leaf_of 7; leaf_of 200]) ∈ nodes pair_tree -> accepted = true) /\
    (collision_free pair_tree (leaf_of 9) [leaf_of 7; leaf_of 200] -> accepted = true ->
     (leaf_of 9, [leaf_of 7; leaf_of 200]) ∈ nodes pair_tree) /\
    (leaf_of 9 = root pair_tree -> [leaf_of 7; leaf_of 200] = [] -> accepted = true).
Proof.
  do 4 (split; [first [exact pair_tree_collision_free|idtac]; first [vm_compute; reflexivity|apply (bool_decide_eq_true_1 _); vm_compute; reflexivity]|]).
  apply (attestation_membership pair_tree alice 3 (at_time 300) (signed_by [admin] drawn) tt committed).
  - intros m. apply length_replicate.
  - repeat constructor.
  - reflexivity.
  - repeat constructor.
  - apply run_after. vm_compute. reflexivity.
  - apply lk_refl.
Defined.
