(* ===== verification/Exit.v ===== *)
(** * A borrower without debt gets the collateral back

    The books never hold a negative amount, so the conservation check cannot fail
    and, by custody, the contract's own balance covers the payment: withdrawing
    collateral that secures no debt succeeds in every state the contract reaches. *)
From S2P Require Import Prelude MathUtils Soroban History CreditTypes CreditEvents CreditStorage CreditState Accrual Collateral Fees Freeze Oracles Scoring Risk Lifecycle Views CreditContract CreditCalls CreditLedger CreditMoves CreditInvariant Scenario CreditTheorems CreditSafety DrawRepay Treasury Pagination Custody.

(** ** No negative books *)
Section solid.
Context `{H : Host} `{!AuctionClient} `{!Deployer} `{Crypto}.
Abbreviation S' := (State (C := CreditContract)).
Implicit Types (s : S') (c : Ctx).

Record solid s : Prop := {
  so_treasury : 0 <= treasury_of s;
  so_bounty : 0 <= bounty_of s;
  so_collateral : forall b, 0 <= collateral_of s b;
  so_total : total_collateral s <= i128_max;
}.

(** The relation of calls that keep the books solid. *)
Definition keeps_solid s s' : Prop := solid s -> solid s'.

#[export] Instance keeps_solid_preorder : PreOrder keeps_solid.
Proof. unfold keeps_solid. split; [by intros s Hs|]. intros s1 s2 s3 K1 K2 Hs. by apply K2, K1. Qed.

Definition K_solid (a : area) (k : StorageKey) : bool :=
  match a, k with
  | Inst, KData (DK.TreasuryBalance | DK.BountyBalance | DK.TotalCollateral) => true
  | Pers, KData (DK.CollateralBalance _) => true
  | _, _ => false
  end.

Lemma solid_frame s s' : frame K_solid s s' -> keeps_solid s s'.
Proof.
  intros Hf [Ht Hb Hc Hm]. split.
  - unfold treasury_of. by rewrite (frame_inst K_solid s s').
  - unfold bounty_of. by rewrite (frame_inst K_solid s s').
  - intros b. by rewrite (frame_collateral_of K_solid s s').
  - by rewrite (frame_total_collateral K_solid s s').
Qed.

(** The calls that write none of them. *)
Definition writes_books (call : Call) : bool :=
  match call with
  | CRepayCredit _ _ | CExecuteTreasuryWithdrawal _ | CWithdrawTreasury _ | CWithdrawBounty _
  | CDepositCollateral _ _ | CWithdrawCollateral _ _ | CPartialReleaseCollateral _ _
  | CDepositCollateralToken _ _ _ | CWithdrawCollateralToken _ _ _ => true
  | _ => false
  end.

Lemma other_solid call : writes_books call = false -> steps keeps_solid (run call).
Proof.
  intros E c s u s' Hr. apply solid_frame. eapply frame_steps; [exact Hr|]. clear Hr.
  destruct call; try done; cbn [run]; kframe.
Qed.

Lemma accrue_solid b fee c s u s' : accrue_protocol_fee b fee c s = Ok u s' -> keeps_solid s s'.
Proof.
  unfold accrue_protocol_fee. intros Hr. destruct (fee <=? 0); [by minv Hr|].
  mstep Hr. subst. mstep Hr.
  apply mbind_ok in Hr as ([] & s1 & Ht & Hr). apply mbind_ok in Hr as ([] & s2 & Hb & Hr).
  etrans; [|etrans; [|apply solid_frame; eapply frame_steps; [exact Hr|kframe]]].
  - clear Hb Hr. destruct (0 <? _) eqn:E in Ht; [|by minv Ht]. bsimp.
    intros [So Sb Sc Sm]. unfold add_treasury_balance in Ht. minv Ht; bsimp; [lia|]. chk. subst.
    apply iset_ok in Ht as ->. split; [|done..]. unfold treasury_of, inst in *. sput. cbn in *. lia.
  - clear Ht Hr. destruct (0 <? _) eqn:E in Hb; [|by minv Hb]. bsimp.
    intros [So Sb Sc Sm]. unfold add_bounty_balance in Hb. minv Hb; bsimp; [lia|]. chk. subst.
    apply iset_ok in Hb as ->. split; [done| |done..]. unfold bounty_of, inst in *. sput. cbn in *. lia.
Qed.

Lemma transfer_from_solid tk sp from to amt c s u s' :
  transfer_from tk sp from to amt c s = Ok u s' -> keeps_solid s s'.
Proof. intros (h & _ & ->)%transfer_from_ok. apply solid_frame. by apply frame_same_stores. Qed.

Lemma transfer_solid tk from to amt c s u s' :
  transfer tk from to amt c s = Ok u s' -> keeps_solid s s'.
Proof. intros (h & _ & ->)%transfer_ok. apply solid_frame. by apply frame_same_stores. Qed.

Lemma repay_transfers_solid b tk paid ip c s u s' :
  Credit.repay_transfers b tk paid ip c s = Ok u s' -> keeps_solid s s'.
Proof.
  unfold Credit.repay_transfers, get_protocol_fee_bps. intros Hr. destruct (0 <? paid); [|by minv Hr].
  do 4 mstep Hr. apply mbind_ok in Hr as ([] & s1 & Hf & Hr). etrans.
  - mstep Hf; [|by minv Hf]. apply mbind_ok in Hf as ([] & s2 & Ht & Hf).
    apply transfer_from_solid in Ht. apply accrue_solid in Hf. by etrans.
  - cbv zeta in Hr. mstep Hr; [by eapply transfer_from_solid|by minv Hr].
Qed.

Lemma collect_late_fee_solid b fee c s u s' :
  Credit.collect_late_fee b fee c s = Ok u s' -> keeps_solid s s'.
Proof.
  unfold Credit.collect_late_fee. intros Hr. destruct (0 <? fee); [|by minv Hr].
  mstep Hr. mstep Hr; [|by minv Hr]. mstep Hr. apply mbind_ok in Hr as ([] & s2 & Ht & Hf).
  apply transfer_from_solid in Ht. apply accrue_solid in Hf. by etrans.
Qed.

Lemma set_collateral_solid b v c s u s' :
  set_collateral_balance b v c s = Ok u s' -> 0 <= v -> keeps_solid s s'.
Proof.
  unfold set_collateral_balance, adjust_total_collateral. intros Hr Hv. mstep Hr. cbv zeta in Hr.
  apply mbind_ok in Hr as ([] & s1 & Hp & Hr). apply mbind_ok in Hr as ([] & s2 & [_ ->]%bump_persistent_ttl_ok & Hr).
  assert (keeps_solid s s1) as K1.
  { apply pset_ok in Hp as ->. intros [St Sb Sc Sm]. split; [done..| |done]. intros b'.
    unfold collateral_of, pers in *. sput. specialize (Sc b').
    unfold store_put. destruct (decide _) as [E|]; [|done]. injection E as <-. rewrite cast_val_refl. done. }
  etrans; [exact K1|]. clear K1 Hp. minv Hr; chk; subst; [done|].
  match goal with Hm : Soroban.iset _ _ _ _ = Ok _ ?sm |- _ =>
    etrans; [|apply solid_frame; eapply frame_steps; [exact Hr|kframe]]; apply iset_ok in Hm as -> end.
  intros [St Sb Sc Sm]. split; [done..|]. unfold total_collateral, inst in *. sput. cbn in *. lia.
Qed.
End solid.

(** [chain_solid] collects the runs that keep the books solid by their frame. *)
Ltac chain_solid :=
  repeat match goal with
  | G : keeps_solid ?s0 ?s, Hm : ?m ?c ?s = Ok _ ?s' |- _ =>
      let F := fresh "F" in let G' := fresh "G" in
      assert (keeps_solid s s') as F by
        first [ apply (transfer_solid _ _ _ _ _ _ _ _ Hm)
              | apply (repay_transfers_solid _ _ _ _ _ _ _ _ Hm)
              | apply (collect_late_fee_solid _ _ _ _ _ _ Hm)
              | apply (set_collateral_solid _ _ _ _ _ _ Hm); lia
              | apply solid_frame; refine (frame_steps K_solid m c s _ s' Hm _); kframe ];
      assert (keeps_solid s0 s') as G' by (etrans; [exact G|exact F]);
      clear Hm F G; rename G' into G
  end.

Section solid_calls.
Context `{H : Host} `{!AuctionClient} `{!Deployer} `{Crypto}.
Abbreviation S' := (State (C := CreditContract)).
Implicit Types (s : S') (c : Ctx).

Lemma repay_solid b amt c s u s' : Credit.repay_credit b amt c s = Ok u s' -> keeps_solid s s'.
Proof.
  unfold Credit.repay_credit, Credit.repay_publish, with_reentrancy_guard. intros Hr. minv Hr.
  assert (keeps_solid s s) as G by done. chain_solid. exact G.
Qed.

Lemma execute_solid a c s u s' :
  Credit.execute_treasury_withdrawal a c s = Ok u s' -> keeps_solid s s'.
Proof.
  intros Hr.
  assert (frame (fun a k => match a, k with Inst, KData DK.TreasuryBalance => false | _, _ => K_solid a k end)
            s s') as F by (eapply frame_steps; [exact Hr|kframe]).
  apply execute_ok in Hr as (p & h & _ & _ & Ha & _ & Hb & _). intros [St Sb Sc Sm]. split.
  - rewrite Hb. lia.
  - unfold bounty_of. by rewrite (frame_inst _ _ _ _ F).
  - intros b. by rewrite (frame_collateral_of _ _ _ _ F).
  - by rewrite (frame_total_collateral _ _ _ F).
Qed.

Lemma withdraw_treasury_solid a c s u s' :
  Credit.withdraw_treasury a c s = Ok u s' -> keeps_solid s s'.
Proof.
  unfold Credit.withdraw_treasury. intros Hr.
  apply mbind_ok in Hr as (x & s1 & (_ & _ & h & _ & ->)%admin_argument_ok & Hr). minv Hr.
  apply execute_solid in Hr. etrans; [|exact Hr]. apply solid_frame. by apply frame_same_stores.
Qed.

Lemma withdraw_bounty_solid a c s u s' :
  Credit.withdraw_bounty a c s = Ok u s' -> keeps_solid s s'.
Proof.
  unfold Credit.withdraw_bounty, get_bounty_address, clear_bounty_balance. intros Hr.
  assert (keeps_solid s s) as G by done. minv Hr; chain_solid; [done|].
  etrans; [exact G|]. apply iset_ok in Hr as ->. intros [St Sb Sc Sm]. split; [done| |done..].
  unfold bounty_of, inst. by sput.
Qed.

Lemma deposit_solid b amt c s u s' : deposit_collateral b amt c s = Ok u s' -> keeps_solid s s'.
Proof.
  unfold deposit_collateral. intros Hr Hs. assert (keeps_solid s s) as G by done. minv Hr.
  chk. subst. chain_solid.
  match goal with G : keeps_solid s ?sm |- _ => pose proof (so_collateral _ (G Hs) b) end.
  chain_solid. by apply G.
Qed.

Lemma withdraw_solid b amt c s u s' : withdraw_collateral b amt c s = Ok u s' -> keeps_solid s s'.
Proof.
  unfold withdraw_collateral. intros Hr. assert (keeps_solid s s) as G by done. minv Hr.
  chk. subst. by chain_solid.
Qed.

Lemma partial_release_solid b amt c s u s' :
  partial_release_collateral b amt c s = Ok u s' -> keeps_solid s s'.
Proof.
  unfold partial_release_collateral. intros Hr. assert (keeps_solid s s) as G by done. minv Hr.
  all: chk; subst; by chain_solid.
Qed.

Lemma run_solid bs call c s u s' : run call c s = Ok u s' -> Ledger bs s -> keeps_solid s s'.
Proof.
  intros Hr HL. destruct (writes_books call) eqn:E; [|by eapply other_solid].
  destruct call; try discriminate E; cbn [run] in Hr.
  - by eapply repay_solid.
  - by eapply execute_solid.
  - by eapply withdraw_bounty_solid.
  - by eapply withdraw_treasury_solid.
  - by eapply deposit_solid.
  - by eapply withdraw_solid.
  - by eapply partial_release_solid.
  - by apply (deposit_token_fails bs) in Hr.
  - by apply (withdraw_token_fails bs) in Hr.
Qed.

Lemma reachable_solid n s : reachable n s -> Z.of_nat n <= u32_max -> solid s.
Proof.
  induction 1 as [h ev|n s h call c u s' Hs IH Hr]; intros Hn.
  - split; [done..|by intros b|done].
  - destruct (reachable_ledger n s Hs) as (bs & HL & _); [lia|].
    apply (run_solid bs) in Hr; [|by apply ledger_set_host]. apply Hr.
    assert (keeps_solid s (set_host h s)) as K by (apply solid_frame; by apply frame_same_stores).
    apply K, IH. lia.
Qed.
End solid_calls.

(** ** Running a withdrawal forwards *)
Section exit.
Context `{H : Host} `{!AuctionClient} `{!Deployer} `{Crypto}.
Abbreviation S' := (State (C := CreditContract)).
Implicit Types (s : S') (c : Ctx).

Lemma get_collateral_run b c s : get_collateral_balance b c s = Ok (collateral_of s b) s.
Proof.
  unfold get_collateral_balance, bump_if_present, bump_persistent_ttl, collateral_of, pers,
    mbind, phas, pextend_ttl, pget, mret. cbn.
  destruct (persistent_store s (DK.CollateralBalance b)) eqn:E; cbn; by rewrite ?E.
Qed.

Lemma recompute_collateral_run bs c s :
  Index bs s -> (forall b, 0 <= collateral_of s b) -> sumZ (collateral_of s <$> bs) <= i128_max ->
  recompute_total_collateral (line_count s) c s = Ok (sumZ (collateral_of s <$> bs)) s.
Proof.
  intros HI Hnn Hmax. unfold recompute_total_collateral. rewrite <- (at_id_seq bs s _ HI) in *.
  rewrite (mfold_sum_total _ _ (at_id (collateral_of s) s) i128_max);
    [f_equal; lia| |intros x _; unfold at_id; case_match; [apply Hnn|lia]|lia|lia].
  intros acc i Hi Hacc Hle. unfold mbind at 1. rewrite get_borrower_run. unfold at_id in *.
  destruct (borrower_at s i) as [b|]; [|by rewrite Z.add_0_r].
  unfold mbind. rewrite get_collateral_run. specialize (Hnn b). by rewrite checked_in by lia.
Qed.

Lemma assert_collateral_run bs c s :
  Index bs s -> (forall b, 0 <= collateral_of s b) ->
  total_collateral s = sumZ (collateral_of s <$> bs) -> total_collateral s <= i128_max ->
  assert_total_collateral_conserved c s = Ok tt s.
Proof.
  intros HI Hnn Ht Hmax. unfold assert_total_collateral_conserved.
  rewrite (mbind_run get_total_collateral _ c s (total_collateral s) s) by done.
  rewrite (mbind_run get_credit_line_count _ c s (line_count s) s) by done.
  rewrite (mbind_run _ _ _ _ _ _ (recompute_collateral_run bs c s HI Hnn ltac:(lia))).
  unfold massert. by rewrite Ht, Z.eqb_refl.
Qed.

Lemma sum_at_least (f : Address -> Z) bs b :
  (forall x, 0 <= f x) -> b ∈ bs -> f b <= sumZ (f <$> bs).
Proof.
  intros Hf. induction bs as [|x l IH]; [by intros ?%elem_of_nil|].
  assert (0 <= sumZ (f <$> l)) by (apply sumZ_nonneg, Forall_fmap, Forall_forall; intros y _; apply Hf).
  change (sumZ (f <$> x :: l)) with (f x + sumZ (f <$> l)). specialize (Hf x).
  intros [->|Hin]%elem_of_cons; [lia|]. specialize (IH Hin). lia.
Qed.

Lemma collateral_in_total bs b s :
  Ledger bs s -> solid s -> 0 <= collateral_of s b <= total_collateral s.
Proof.
  intros HL Hs. split; [apply Hs|]. rewrite (lg_collateral _ _ _ HL).
  destruct (decide (b ∈ bs)) as [Hin|Hn]; [apply sum_at_least; [apply Hs|done]|].
  rewrite (lg_uncollateral _ _ _ HL b Hn). apply sumZ_nonneg, Forall_fmap, Forall_forall.
  intros y _. apply Hs.
Qed.

(** Lowering a balance always passes the conservation check. *)
Lemma lower_collateral_run bs b v c s :
  Ledger bs s -> solid s -> 0 <= v < collateral_of s b ->
  exists s', set_collateral_balance b v c s = Ok tt s'.
Proof.
  intros HL Hs Hv. pose proof (lg_collateral _ _ _ HL) as Hsum.
  pose proof (collateral_in_total bs b s HL Hs) as [_ Hle]. destruct Hs as [_ _ Hnn Hmax].
  assert (b ∈ bs) as Hin.
  { destruct (decide (b ∈ bs)) as [|Hn]; [done|]. apply (lg_uncollateral _ _ _ HL) in Hn. lia. }
  set (s1 := set_persistent (store_put (H := CreditContract) (KData (DK.CollateralBalance b)) v (persistent_store s)) s).
  set (s2 := set_instance (store_put (H := CreditContract) (KData DK.TotalCollateral)
               (total_collateral s + (v - collateral_of s b)) (instance_store s1)) s1).
  exists s2. unfold set_collateral_balance.
  rewrite (mbind_run _ _ _ _ (pers s (DK.CollateralBalance b)) s) by done. cbv zeta.
  rewrite (mbind_run _ _ c s tt s1) by done.
  rewrite (mbind_run _ _ c s1 tt s1)
    by (unfold bump_persistent_ttl, pextend_ttl, s1; cbn; by rewrite store_put_eq).
  change (unwrap_or (pers s (DK.CollateralBalance b)) 0) with (collateral_of s b).
  unfold adjust_total_collateral. rewrite checked_in by lia.
  rewrite (mbind_run _ _ c s1 (v - collateral_of s b) s1) by done.
  rewrite (proj2 (Z.eqb_neq _ _)) by lia.
  rewrite (mbind_run get_total_collateral _ c s1 (total_collateral s) s1) by done.
  rewrite checked_in by lia. rewrite (mbind_run _ _ c s1 (total_collateral s + (v - collateral_of s b)) s1) by done.
  rewrite (mbind_run _ _ c s1 tt s2) by done.
  assert (frame (K_coll b) s s2) as F.
  { transitivity s1.
    - apply (frame_pset (C := CreditContract) (K_coll b) (DK.CollateralBalance b) v c s tt s1); [done|].
      cbn. by rewrite bool_decide_eq_true_2.
    - by apply (frame_iset (C := CreditContract) (K_coll b) DK.TotalCollateral
                 (total_collateral s + (v - collateral_of s b)) c s1 tt s2). }
  assert (collateral_of s2 b = v) as Ev by (unfold collateral_of, pers; subst s2 s1; by sput).
  assert (total_collateral s2 = total_collateral s + (v - collateral_of s b)) as Et
    by (unfold total_collateral at 1, inst; subst s2; by sput).
  assert (forall b', b' <> b -> collateral_of s2 b' = collateral_of s b') as Eo.
  { intros b' Hb. apply (frame_collateral_of _ _ _ _ F). cbn. by rewrite bool_decide_eq_false_2. }
  apply (assert_collateral_run bs).
  - eapply frame_index; [|exact (lg_index _ _ _ HL)]. eapply frame_weaken; [|exact F]. by intros [] [[]|[]|[]| | |].
  - intros b'. destruct (decide (b' = b)) as [->|Hb]; [lia|]. by rewrite Eo.
  - rewrite Et, Hsum, (sum_update (collateral_of s) (collateral_of s2) bs b), Ev;
      [done|apply (idx_nodup _ _ (lg_index _ _ _ HL))|done|done].
  - rewrite Et. lia.
Qed.

Lemma debt_free_guard b amt w c s :
  util_of s b <= 0 -> withdraw_guard b amt w c s = Ok tt s.
Proof.
  unfold withdraw_guard, util_of. intros Hu. rewrite (mbind_run _ _ _ _ _ _ (get_credit_line_run b c s)).
  destruct (line_of s b) as [l|]; [|done]. by rewrite (proj2 (Z.ltb_ge _ _) Hu).
Qed.

Lemma debt_free_withdrawal bs b amt tk c s h1 h2 :
  Ledger bs s -> solid s -> util_of s b <= 0 -> 0 < amt <= collateral_of s b ->
  inst s DK.LiquidityToken = Some tk -> host_require_auth b (host_state s) = Some h1 ->
  token_transfer (current_contract c) tk (current_contract c) b amt h1 = Some h2 ->
  exists s', withdraw_collateral b amt c s = Ok tt s' /\
    host_state s' = h2 /\ collateral_of s' b = collateral_of s b - amt.
Proof.
  intros HL Hs Hu Ha Htok Hauth Hpay. unfold withdraw_collateral.
  rewrite (proj2 (Z.leb_gt _ _)) by lia. rewrite (mbind_run _ _ c s tt s) by done.
  rewrite (mbind_run _ _ _ _ _ _ (require_auth_run _ _ _ _ Hauth)).
  rewrite (mbind_run _ _ _ _ _ _ (get_collateral_run b c _)).
  change (collateral_of (set_host h1 s) b) with (collateral_of s b).
  rewrite (proj2 (Z.ltb_ge _ _)) by lia. rewrite (mbind_run _ _ c (set_host h1 s) tt (set_host h1 s)) by done.
  pose proof (collateral_in_total bs b s HL Hs) as Hle. pose proof (so_total _ Hs) as Hmax.
  rewrite checked_in by lia. rewrite (mbind_run _ _ c (set_host h1 s) (collateral_of s b - amt) (set_host h1 s)) by done.
  rewrite (mbind_run _ _ _ _ _ _ (debt_free_guard b amt _ c (set_host h1 s) Hu)).
  rewrite (mbind_run get_collateral_token _ c _ (inst s DK.LiquidityToken) (set_host h1 s)) by done.
  rewrite Htok. rewrite (mbind_run _ _ c (set_host h1 s) tk (set_host h1 s)) by done.
  rewrite (mbind_run _ _ c (set_host h1 s) (current_contract c) (set_host h1 s)) by done.
  set (s2 := set_host h2 s).
  rewrite (mbind_run _ _ c (set_host h1 s) tt s2)
    by (unfold transfer, host_call; cbn; by rewrite Hpay).
  destruct (lower_collateral_run bs b (collateral_of s b - amt) c s2) as [s3 H3'];
    [by apply ledger_set_host| |change (collateral_of s2 b) with (collateral_of s b); lia|].
  { apply (solid_frame s); [by apply frame_same_stores|done]. }
  rewrite (mbind_run _ _ _ _ _ _ H3').
  pose proof (set_collateral_host _ _ _ _ _ _ H3') as Hh.
  apply (set_collateral_balance_ok bs 0) in H3' as (_ & _ & _ & Hv);
    [|by apply ledger_set_host|change (collateral_of s2 b) with (collateral_of s b); lia].
  eexists. split; [reflexivity|]. split; [exact Hh|exact Hv].
Qed.

(** C7. A borrower without debt can leave: in every state the contract reaches
    with an outside reserve, when the borrower signs, any part of the collateral can
    be withdrawn, and exactly that part is paid.  The only assumption about the token
    is that it pays what the contract's own balance covers. *)
Theorem exit_is_open (self tok : Address) `{!TokenLaws self tok} n s b amt c h h1 :
  custody_history self tok n s -> Z.of_nat n <= u32_max ->
  holdings tok self (host_state s) <= holdings tok self h ->
  host_require_auth b h = Some h1 -> current_contract c = self ->
  inst s DK.LiquidityToken = Some tok -> util_of s b <= 0 -> 0 < amt <= collateral_of s b ->
  (forall x h, 0 <= x <= holdings tok self h -> is_Some (token_transfer self tok self b x h)) ->
  exists s', run (CWithdrawCollateral b amt) c (set_host h s) = Ok tt s' /\
    collateral_of s' b = collateral_of s b - amt /\
    token_transfer self tok self b amt h1 = Some (host_state s').
Proof.
  intros Hs Hn Hh Hauth Hc Htok Hu Ha Hpay. pose proof (custody_reachable _ _ _ _ Hs) as Hrs.
  destruct (reachable_ledger n s Hrs Hn) as (bs & HL & _). pose proof (reachable_solid n s Hrs Hn) as Hso.
  destruct (custody_safe self tok n s Hs Hn) as [_ Hsur]. unfold surplus, owed, funds in Hsur.
  pose proof (collateral_in_total bs b s HL Hso). pose proof (so_treasury _ Hso). pose proof (so_bounty _ Hso).
  destruct (Hpay amt h1) as [h2 Hh2]; [rewrite (law_auth _ _ _ Hauth); lia|].
  destruct (debt_free_withdrawal bs b amt tok c (set_host h s) h1 h2) as (s' & Hr & Hh' & Hv);
    [by apply ledger_set_host| |done..|by rewrite Hc|].
  { by apply (solid_frame s); [by apply frame_same_stores|]. }
  exists s'. split; [exact Hr|]. split; [exact Hv|]. by rewrite Hh'.
Qed.
End exit.

(** ** Witness: alice repays and leaves *)
Import Concrete.

#[local] Existing Instance bank_laws.

Definition debt_free : St := step alice (CRepayCredit alice 60000) year charged.

Definition left : St := step alice (CWithdrawCollateral alice 150000) (year + 100) debt_free.

Lemma custody_of_debt_free : custody_history self token 9 debt_free.
Proof.
  unfold debt_free, charged, drawn, secured, opened, configured.
  repeat (apply custody_step; [|done|by first [exact I|vm_compute|discriminate]|vm_compute; reflexivity]).
  apply ch_deployed. by vm_compute.
Qed.

(** C7: with the debt outstanding the withdrawal fails, without it it succeeds. *)
Lemma exit_is_open_witness :
  succeeds (CWithdrawCollateral alice 150000) (at_time (year + 100)) (signed_by [alice] charged) = false /\
  collateral_of left alice = 0 /\
  exists s', run (CWithdrawCollateral alice 150000) (at_time (year + 100)) (signed_by [alice] debt_free) = Ok tt s' /\
    collateral_of s' alice = collateral_of debt_free alice - 150000 /\
    token_transfer self token self alice 150000
      (mkBank [alice] [alice] (balances (host_state debt_free))) = Some (host_state s').
Proof.
  do 2 (split; [vm_compute; reflexivity|]).
  apply (exit_is_open self token 9).
  - exact custody_of_debt_free.
  - done.
  - done.
  - vm_compute. reflexivity.
  - reflexivity.
  - vm_compute. reflexivity.
  - vm_compute. discriminate.
  - split; [lia|]. vm_compute. discriminate.
  - intros x h Hx. cbn. unfold bank_transfer, holdings in *. cbn in Hx.
    rewrite (proj2 (Z.leb_le _ _)), (proj2 (Z.leb_le _ _)) by lia. by eexists.
Defined.
