(* ===== verification/Settlement.v ===== *)
(** * Settling a default

    What a successful settlement of a defaulted line establishes: the price gate in
    each of the oracle modes, the close-factor bound, the order in which interest
    and principal are recovered; and the latch of the single-oracle mode, whose
    reference price only a settlement refreshes. *)
From S2P Require Import Prelude MathUtils Soroban CreditTypes CreditEvents CreditStorage CreditState Accrual Collateral Fees Freeze Oracles Scoring Risk Lifecycle Views CreditContract CreditCalls CreditLedger CreditMoves CreditInvariant Scenario CreditTheorems CreditSafety DrawRepay PriceTheorems.

(** ** The price gate *)
Section gate.
Context `{H : Host}.
Abbreviation S' := (State (C := CreditContract)).
Implicit Types (s : S').

Definition oracles_of s : list Address := unwrap_or (inst s OracleList) [].

Definition window_of s : Z := unwrap_or (inst s ReportingWindow) 0.

(** The reports that count: inside the reporting window, of a weighted oracle. *)
Definition fresh_report (now : Z) s (oracle : Address) : option ReportWeight :=
  match pers s (OracleReport oracle) with
  | Some report =>
      let weight := unwrap_or (inst s (OracleWeight oracle)) 0 in
      if (sat_u64 (now - report_timestamp report) <=? window_of s) && (0 <? weight)
      then Some (mkReportWeight (report_value_ report) weight) else None
  | None => None
  end.

Definition fresh_reports (now : Z) s : list ReportWeight := omap (fresh_report now s) (oracles_of s).

(** How far [p] is from [last], in basis points, rounded down. *)
Definition deviation (p last : Z) : Z := Z.min (Z.abs (p - last) * 10000 / last) u32_max.

(** [price_gate now s supplied accepted]: the price a settlement may use. *)
Inductive price_gate (now : Z) s (supplied : option Z) : option Z -> Prop :=
| gate_registry quorum p :
    inst s QuorumThreshold = Some quorum -> 0 < quorum <= total_of (fresh_reports now s) ->
    p <> 0 -> p <= i128_max -> is_median p (fresh_reports now s) ->
    price_gate now s supplied (Some p)
| gate_quorum cfg p ts :
    inst s QuorumThreshold = None -> inst s DK.OracleQuorumConfig = Some cfg ->
    inst s DK.OracleQuorumPrice = Some p -> inst s DK.OracleQuorumPriceTs = Some ts ->
    sat_u64 (now - ts) <= qc_max_age_seconds cfg ->
    price_gate now s supplied (Some p)
| gate_first cfg p :
    inst s QuorumThreshold = None -> inst s DK.OracleQuorumConfig = None ->
    inst s DK.OracleConfig = Some cfg -> supplied = Some p -> 0 < p ->
    inst s DK.OracleLastPrice = None \/ inst s DK.OracleLastPriceTs = None ->
    price_gate now s supplied (Some p)
| gate_single cfg p last ts :
    inst s QuorumThreshold = None -> inst s DK.OracleQuorumConfig = None ->
    inst s DK.OracleConfig = Some cfg -> supplied = Some p -> 0 < p ->
    inst s DK.OracleLastPrice = Some last -> inst s DK.OracleLastPriceTs = Some ts ->
    sat_u64 (now - ts) <= oc_max_age_seconds cfg -> 0 < last ->
    deviation p last <= oc_max_deviation_bps cfg ->
    price_gate now s supplied (Some p)
| gate_none :
    inst s QuorumThreshold = None -> inst s DK.OracleQuorumConfig = None ->
    inst s DK.OracleConfig = None ->
    price_gate now s supplied None.

#[export] Instance reads_get_oracle_list : Reads get_oracle_list (fun _ s => oracles_of s).
Proof. unfold get_oracle_list. solve_reads. Qed.

(** What the collection loop carries: the reports found and their total weight. *)
Definition collected (found : list ReportWeight) (acc : option (list ReportWeight * Z)) : Prop :=
  forall v t, acc = Some (v, t) ->
    v = found /\ t = total_of v /\ t <= u32_max /\ Forall (fun x => 0 <= rw_weight x) v.

Lemma total_of_snoc v r : total_of (v ++ [r]) = total_of v + rw_weight r.
Proof. unfold total_of. rewrite fmap_app, sumZ_app. unfold sumZ. cbn. lia. Qed.

Lemma collect_step found acc o now c s r s' :
  collect_report (window_of s) now acc o c s = Ok r s' -> collected found acc ->
  s' = s /\ collected (found ++ option_list (fresh_report now s o)) r.
Proof.
  unfold collect_report, fresh_report. intros Hr Hc.
  destruct acc as [[v t]|]; [|by apply mret_ok in Hr as [-> ->]].
  destruct (Hc v t eq_refl) as (-> & -> & Hm & Hw).
  mstep Hr. subst. unfold pers, inst. destruct (persistent_store s (OracleReport o)) as [rep|].
  2: { apply mret_ok in Hr as [-> ->]. cbn. by rewrite app_nil_r. }
  apply mbind_ok in Hr as ([] & s1 & [_ ->]%bump_persistent_ttl_ok & Hr).
  destruct (sat_u64 _ <=? window_of s); [|apply mret_ok in Hr as [-> ->]; cbn; by rewrite app_nil_r].
  mstep Hr. subst. cbv zeta in Hr. cbn [andb].
  destruct (0 <? _) eqn:E; [|apply mret_ok in Hr as [-> ->]; cbn; by rewrite app_nil_r].
  apply mret_ok in Hr as [-> ->]. split; [done|]. intros v' t' Hv. cbn in Hv.
  destruct (checked_u32 _) as [t1|] eqn:Ec; [|done]. injection Hv as <- <-. chk. subst. bsimp.
  split; [done|]. rewrite total_of_snoc. cbn. split; [done|]. split; [lia|].
  apply Forall_app. split; [done|]. apply Forall_singleton. by apply Z.lt_le_incl.
Qed.

(** The collection loop gathers the fresh reports in the order of the registry. *)
Lemma collect_reports l now c s found acc r s' :
  mfold l acc (collect_report (window_of s) now) c s = Ok r s' -> collected found acc ->
  s' = s /\ collected (found ++ omap (fresh_report now s) l) r.
Proof.
  revert found acc. induction l as [|o l IH]; intros found acc Hr Hc; cbn [mfold] in Hr.
  { apply mret_ok in Hr as [-> ->]. cbn. by rewrite app_nil_r. }
  apply mbind_ok in Hr as (acc' & s1 & Hb & Hr). eapply collect_step in Hb as [-> Hc']; [|exact Hc].
  eapply IH in Hr as [-> Hc'']; [|exact Hc']. split; [done|]. revert Hc''.
  rewrite <- app_assoc. cbn. by destruct (fresh_report now s o).
Qed.

Lemma get_median_value_ok c s v s' :
  get_median_value c s = Ok (inl v) s' ->
  s' = s /\ is_median v (fresh_reports (ledger_timestamp c) s) /\
  exists quorum, inst s QuorumThreshold = Some quorum /\
    0 < quorum <= total_of (fresh_reports (ledger_timestamp c) s).
Proof.
  unfold get_median_value. intros Hr. do 2 mstep Hr. subst. unfold inst.
  destruct (instance_store s QuorumThreshold) as [quorum|]; [|by minv Hr].
  destruct (0 <? quorum) eqn:Eq; [|by minv Hr]. mstep Hr. subst. cbv zeta in Hr. mstep Hr. subst.
  apply mbind_ok in Hr as (acc & s1 & Hf & Hr).
  apply (collect_reports (oracles_of s) (ledger_timestamp c) c s []) in Hf as [-> Hc].
  2: { intros v0 t0 [= <- <-]. split; [done|]. split; [done|]. split; [done|constructor]. }
  destruct acc as [[l t]|]; [|by minv Hr]. destruct (Hc l t eq_refl) as (-> & -> & Hm & Hw).
  change (_ ++ _) with (fresh_reports (ledger_timestamp c) s) in *.
  destruct (total_of _ <? quorum) eqn:Et; [by minv Hr|]. bsimp.
  destruct (weighted_median_ok _ Hw) as (v' & Hv & Hmed); [lia|].
  destruct (fresh_reports _ _) as [|x xs] eqn:El; [by minv Hr|]. apply mret_ok in Hr as [Hr ->].
  rewrite Hv in Hr. injection Hr as <-. split; [done|]. split; [done|]. exists quorum. split; [done|lia].
Qed.

Lemma deviation_ok p last c s d s' :
  deviation_or_panic p last c s = Ok d s' -> last <= i128_max ->
  s' = s /\ 0 < last /\ d = deviation p last.
Proof.
  unfold deviation_or_panic, compute_deviation_bps, deviation. intros Hr Hl. minv Hr. bsimp. chk.
  match goal with E : _ = Some d |- _ => rewrite checked_in in E by done; cbv zeta in E;
    destruct (checked_u128 _) eqn:En; [|done]; injection E as <- end.
  chk. subst. rewrite as_u128_id by lia. done.
Qed.

(** The recorded price, if any, is an [i128]. *)
Definition oracle_typed s : Prop := forall p, inst s DK.OracleLastPrice = Some p -> p <= i128_max.

Lemma registry_gate p c s r s' :
  validate_registry_median_mode c s = Ok r s' -> 
  s' = s /\ price_gate (ledger_timestamp c) s p (price r).
Proof.
  unfold validate_registry_median_mode. intros Hr. apply mbind_ok in Hr as (m & s1 & Hm & Hr).
  destruct m as [m|]; [|by minv Hr]. minv Hr. bsimp.
  apply get_median_value_ok in Hm as (-> & Hmed & quorum & Hq & Hle). split; [done|]. by eapply gate_registry.
Qed.

Lemma quorum_gate cfg p c s r s' :
  validate_quorum_mode cfg (ledger_timestamp c) c s = Ok r s' ->
  inst s QuorumThreshold = None -> inst s DK.OracleQuorumConfig = Some cfg ->
  s' = s /\ price_gate (ledger_timestamp c) s p (price r).
Proof.
  unfold validate_quorum_mode, get_oracle_quorum_price, get_oracle_quorum_price_ts.
  intros Hr Hq Hc. minv Hr. bsimp. split; [done|]. by eapply gate_quorum.
Qed.

Lemma single_gate cfg p c s v s' :
  validate_single_oracle_mode p cfg (ledger_timestamp c) c s = Ok v s' -> oracle_typed s ->
  inst s QuorumThreshold = None -> inst s DK.OracleQuorumConfig = None ->
  inst s DK.OracleConfig = Some cfg ->
  s' = s /\ price_gate (ledger_timestamp c) s p (Some v).
Proof.
  unfold validate_single_oracle_mode, get_oracle_last_price, get_oracle_last_price_ts.
  intros Hr HT Hq Hn Hc. do 4 mstep Hr. subst. bsimp.
  destruct (instance_store s DK.OracleLastPrice) as [last|] eqn:El.
  - destruct (instance_store s DK.OracleLastPriceTs) as [ts|] eqn:Et.
    + mstep Hr. bsimp. apply mbind_ok in Hr as (d & s1 & Hd & Hr).
      apply deviation_ok in Hd as (-> & Hl & ->); [|by apply HT]. minv Hr. bsimp.
      split; [done|]. by eapply gate_single.
    + minv Hr. split; [done|]. eapply gate_first; try done. by right.
  - minv Hr. split; [done|]. eapply gate_first; try done. by left.
Qed.

Lemma validate_price_ok p c s r s' :
  validate_settlement_oracle_price p c s = Ok r s' -> oracle_typed s ->
  s' = s /\ price_gate (ledger_timestamp c) s p (price r).
Proof.
  unfold validate_settlement_oracle_price, get_oracle_config, get_oracle_quorum_config,
    is_registry_configured, get_registry_quorum_threshold. intros Hr HT. do 4 mstep Hr. subst.
  destruct (instance_store s QuorumThreshold) as [q|] eqn:Eq; [by apply registry_gate|].
  destruct (instance_store s DK.OracleQuorumConfig) as [qcfg|] eqn:Ec; [by eapply quorum_gate|].
  destruct (instance_store s DK.OracleConfig) as [cfg|] eqn:Eo.
  - apply mbind_ok in Hr as (v & s1 & Hv & Hr). apply mret_ok in Hr as [-> ->]. by eapply single_gate.
  - apply mret_ok in Hr as [-> ->]. split; [done|]. by apply gate_none.
Qed.
End gate.

(** ** The settlement *)
Section settlement.
Context `{H : Host} `{!AuctionClient} `{!Deployer} `{Crypto}.
Abbreviation S' := (State (C := CreditContract)).
Implicit Types (s : S') (c : Ctx).

Definition K_oracle (a : area) (k : StorageKey) : bool :=
  match a, k with
  | Inst, KData (DK.OracleConfig | DK.OracleQuorumConfig | DK.OracleLastPrice | DK.OracleLastPriceTs
                 | DK.OracleQuorumPrice | DK.OracleQuorumPriceTs | DK.CloseFactorBps
                 | DK.AuctionContract)
  | _, KOracle _ => true
  | _, _ => false
  end.

(** The same and the lines. *)
Definition K_entry (a : area) (k : StorageKey) : bool :=
  match a, k with Pers, KLine _ => true | _, _ => K_oracle a k end.

Lemma entry_oracle s s' : frame K_entry s s' -> frame K_oracle s s'.
Proof. intros Hf a k Hk. apply Hf. unfold K_entry. by destruct a, k. Qed.

Lemma fresh_reports_frame now s s' : frame K_oracle s s' -> fresh_reports now s' = fresh_reports now s.
Proof.
  intros Hf. unfold fresh_reports, oracles_of. rewrite (frame_inst K_oracle s s' OracleList Hf eq_refl).
  apply list_omap_ext, Forall_Forall2_diag, Forall_forall. intros o _. unfold fresh_report, window_of.
  rewrite (frame_pers K_oracle s s' (OracleReport o) Hf eq_refl).
  rewrite (frame_inst K_oracle s s' ReportingWindow Hf eq_refl).
  by rewrite (frame_inst K_oracle s s' (OracleWeight o) Hf eq_refl).
Qed.

Lemma price_gate_frame now p r s s' :
  frame K_oracle s s' -> price_gate now s' p r -> price_gate now s p r.
Proof.
  intros Hf. destruct 1; repeat match goal with
    E : context [inst s' ?k] |- _ => rewrite (frame_inst K_oracle s s' k Hf eq_refl) in E end;
  rewrite ?(fresh_reports_frame _ _ _ Hf) in *.
  - by eapply gate_registry.
  - by eapply gate_quorum.
  - by eapply gate_first.
  - by eapply gate_single.
  - by apply gate_none.
Qed.

(** The line a settlement of [amt] leaves: interest first, closed when nothing is left. *)
Definition settled_line (line : CreditLineData) (amt : Z) : CreditLineData :=
  let paid := set_utilized
    (set_accrued line (cl_accrued_interest line - Z.min amt (cl_accrued_interest line)))
    (cl_utilized_amount line - amt) in
  if cl_utilized_amount line =? amt then set_status paid Closed else paid.

Definition close_factor s : Z := unwrap_or (inst s DK.CloseFactorBps) 10000.

Definition last_price s : option Z * option Z :=
  (inst s DK.OracleLastPrice, inst s DK.OracleLastPriceTs).

Lemma last_price_frame s s' : frame K_oracle s s' -> last_price s' = last_price s.
Proof. intros Hf. unfold last_price. f_equal; by apply (frame_inst K_oracle s s' _ Hf). Qed.

#[export] Instance reads_close_factor : Reads get_close_factor_bps (fun _ s => close_factor s).
Proof. unfold get_close_factor_bps. solve_reads. Qed.

Lemma allocate_exact line amt line' i pr :
  allocate_recovery line amt = Some (line', (i, pr)) -> amt <= cl_utilized_amount line ->
  i = Z.min amt (cl_accrued_interest line) /\ pr = amt - i /\
  line' = set_utilized (set_accrued line (cl_accrued_interest line - i)) (cl_utilized_amount line - amt).
Proof.
  unfold allocate_recovery. intros Hr Ha. rewrite (proj2 (Z.ltb_ge _ _)) in Hr by lia.
  cbv zeta in Hr. destruct (checked_i128 (amt - _)) eqn:E1; [|done]. cbn in Hr.
  destruct (checked_i128 (cl_accrued_interest _ - _)) eqn:E2; [|done]. cbn in Hr.
  destruct (checked_i128 (cl_utilized_amount _ - _)) eqn:E3; [|done]. cbn in Hr.
  chk. subst. by injection Hr as <- <- <-.
Qed.

(** The bound of the close factor, as the code computes it. *)
Lemma recoverable_pos amt u f :
  0 < amt <= Z.quot (u * f) 10000 -> 0 <= f <= 10000 -> 0 < f /\ amt <= u * f / 10000 /\ amt <= u.
Proof.
  intros [Ha Hq] Hf. assert (0 < u * f) as Hp.
  { apply Z.nle_gt. intros Hn. pose proof (Z.quot_rem' (u * f) 10000).
    pose proof (Z.rem_bound_abs (u * f) 10000 ltac:(done)). lia. }
  assert (0 < f) by (destruct (decide (f = 0)); [subst; lia|lia]). rewrite Z.quot_div_nonneg in Hq by lia.
  do 2 (split; [done|]).
  assert (0 < u) by nia. pose proof (Z.div_le_mono (u * f) (u * 10000) 10000). rewrite Z.div_mul in * by lia. nia.
Qed.
(** A configured auction reported the amount that is booked. *)
Lemma auction_hook_ok b amt i c s u s' :
  Credit.auction_hook b amt i c s = Ok u s' ->
  forall a, inst s DK.AuctionContract = Some a ->
    exists h h', try_settle_default_liquidation a i (current_contract c) b h = Some (amt, h').
Proof.
  unfold Credit.auction_hook, get_auction_contract. intros Hr a Ha. mstep Hr. subst.
  unfold inst in Ha. rewrite Ha in Hr. minv Hr. bsimp. subst.
  match goal with Hm : Credit.try_call (try_settle_default_liquidation _ _ _ _) _ ?sa = _ |- _ =>
    unfold Credit.try_call in Hm; rename sa into sx;
    destruct (try_settle_default_liquidation a i (current_contract c) b (host_state sx)) as [[v h']|] eqn:E;
    [injection Hm as -> _|discriminate Hm] end.
  by exists (host_state sx), h'.
Qed.

Lemma record_price_ok r c s u s' :
  match price r with Some p => record_accepted_oracle_price p | None => ret tt end c s = Ok u s' ->
  last_price s' = match price r with Some p => (Some p, Some (ledger_timestamp c)) | None => last_price s end.
Proof.
  intros Hr. destruct (price r) as [p|]; [|by apply mret_ok in Hr as [_ ->]].
  unfold record_accepted_oracle_price, set_oracle_last_price in Hr. mstep Hr. subst.
  apply mbind_ok in Hr as ([] & s1 & Hw & Hr).
  assert (last_price s' = last_price s1) as ->.
  { apply last_price_frame. eapply frame_steps; [exact Hr|kframe]. }
  apply mbind_ok in Hw as ([] & s2 & ->%iset_ok & ->%iset_ok). unfold last_price, inst. by sput.
Qed.

End settlement.

(** ** The latch of the single-oracle mode *)
Section latch.
Context `{H : Host} `{!AuctionClient} `{!Deployer} `{Crypto}.
Abbreviation S' := (State (C := CreditContract)).
Implicit Types (s : S') (c : Ctx).

(** The single-oracle mode with a price recorded at [ts]. *)
Record single_mode (cfg : OracleConfig) (ts : Z) s : Prop := {
  sm_registry : inst s QuorumThreshold = None;
  sm_quorum : inst s DK.OracleQuorumConfig = None;
  sm_config : inst s DK.OracleConfig = Some cfg;
  sm_price : is_Some (inst s DK.OracleLastPrice);
  sm_ts : inst s DK.OracleLastPriceTs = Some ts;
}.

(** The calls that choose the oracle mode or its parameters. *)
Definition tunes_oracles (call : Call) : bool :=
  match call with
  | CSetOracleConfig _ _ | CSetOracleQuorumConfig _ _ _ | CSetQuorumThreshold _ => true
  | _ => false
  end.

(** Calls from time [t] on, none of which reconfigures the oracles. *)
Inductive untuned (t : Z) s : S' -> Prop :=
| untuned_refl : untuned t s s
| untuned_call s' h call c u s'' :
    untuned t s s' -> tunes_oracles call = false -> t <= ledger_timestamp c ->
    run call c (set_host h s') = Ok u s'' -> untuned t s s''.

Definition K_mode (a : area) (k : StorageKey) : bool :=
  match a, k with
  | Inst, KData (DK.OracleConfig | DK.OracleQuorumConfig | DK.OracleLastPrice | DK.OracleLastPriceTs)
  | Inst, KOracle QuorumThreshold => true
  | _, _ => false
  end.

Lemma single_mode_frame cfg ts s s' : frame K_mode s s' -> single_mode cfg ts s -> single_mode cfg ts s'.
Proof.
  intros Hf [M1 M2 M3 M4 M5]. by split; rewrite (frame_inst K_mode s s' _ Hf).
Qed.

Lemma validate_fresh cfg ts p c s r s' :
  validate_settlement_oracle_price p c s = Ok r s' -> single_mode cfg ts s ->
  sat_u64 (ledger_timestamp c - ts) <= oc_max_age_seconds cfg.
Proof.
  unfold validate_settlement_oracle_price, validate_single_oracle_mode, is_registry_configured,
    get_registry_quorum_threshold, get_oracle_config, get_oracle_quorum_config, get_oracle_last_price,
    get_oracle_last_price_ts. unfold inst. intros Hr [M1 M2 M3 [last M4] M5]. unfold inst in *.
  do 4 mstep Hr. subst. rewrite M1, M2, M3 in Hr. apply mbind_ok in Hr as (v & s1 & Hv & _).
  do 4 mstep Hv. subst. rewrite M4, M5 in Hv. mstep Hv. by bsimp.
Qed.

Lemma settlement_fresh cfg ts b amt i f p c s u s' :
  run (CSettleDefaultLiquidation b amt i f p) c s = Ok u s' -> single_mode cfg ts s ->
  sat_u64 (ledger_timestamp c - ts) <= oc_max_age_seconds cfg.
Proof.
  cbn [run]. intros Hr HM.
  unfold Credit.settle_default_liquidation, with_reentrancy_guard, Lifecycle.settle_default_liquidation in Hr.
  minv Hr. match goal with Hv : validate_settlement_oracle_price _ _ ?sv = _ |- _ =>
    eapply (validate_fresh _ _ _ _ _ _ _ Hv), single_mode_frame; [|exact HM];
    clear Hv; assert (frame K_mode s s) as K by done; chain; exact K end.
Qed.

(** The calls that write the mode's state: settlements, quorum submissions, and
    the configuration calls. *)
Definition writes_mode (call : Call) : bool :=
  match call with
  | CSettleDefaultLiquidation _ _ _ _ _ | CSubmitOraclePrices _ => true
  | _ => tunes_oracles call
  end.

Lemma other_mode call : writes_mode call = false -> steps (frame K_mode) (run call).
Proof. destruct call; try done; intros _; cbn [run]; kframe. Qed.

Lemma submit_needs_quorum l c s u s' :
  run (CSubmitOraclePrices l) c s = Ok u s' -> inst s DK.OracleQuorumConfig <> None.
Proof.
  cbn [run]. unfold Credit.submit_oracle_prices, get_oracle_quorum_config. intros Hr.
  apply mbind_ok in Hr as (x & s1 & Hp & Hr). apply mbind_ok in Hr as (y & s2 & Ha & Hr).
  assert (frame K_mode s s2) as K by (assert (frame K_mode s s) as K by done; clear Hr; chain; exact K).
  mstep Hr. subst. mstep Hr. rewrite <- (frame_inst K_mode _ _ DK.OracleQuorumConfig K eq_refl).
  unfold inst. congruence.
Qed.

Lemma sat_u64_mono x y : x <= y -> sat_u64 x <= sat_u64 y.
Proof. intros Hxy. unfold saturate. lia. Qed.

(** C20. In the single-oracle mode, once the recorded price is older than the maximum
    age no settlement succeeds any more, whatever price it supplies and whatever
    calls come first, unless the administrator reconfigures the oracles: only a
    successful settlement refreshes the price it is measured against. *)
Theorem breaker_latches cfg ts t s s' :
  single_mode cfg ts s -> oc_max_age_seconds cfg < sat_u64 (t - ts) -> untuned t s s' ->
  single_mode cfg ts s' /\
  forall h c b amt i f p u s'', t <= ledger_timestamp c ->
    run (CSettleDefaultLiquidation b amt i f p) c (set_host h s') <> Ok u s''.
Proof.
  intros HM Hold. 
  assert (forall s1, single_mode cfg ts s1 -> forall h c b amt i f p u s'', t <= ledger_timestamp c ->
    run (CSettleDefaultLiquidation b amt i f p) c (set_host h s1) <> Ok u s'') as Hno.
  { intros s1 HM1 h c b amt i f p u s'' Ht Hr.
    eapply settlement_fresh in Hr; [|eapply single_mode_frame, HM1; by apply frame_same_stores].
    pose proof (sat_u64_mono (t - ts) (ledger_timestamp c - ts)). lia. }
  intros Hu. enough (single_mode cfg ts s') as HM' by (split; [done|by apply Hno]).
  induction Hu as [|s1 h call c u s2 _ IH Htu Ht Hr]; [done|].
  assert (single_mode cfg ts (set_host h s1)) as HM1 by (eapply single_mode_frame, IH; by apply frame_same_stores).
  destruct (writes_mode call) eqn:Ew; [|by eapply single_mode_frame, HM1; eapply other_mode].
  destruct call; try discriminate Ew; try discriminate Htu.
  - by apply Hno in Hr.
  - apply submit_needs_quorum in Hr. destruct HM1. done.
Qed.
End latch.

(** ** Witnesses *)
Import Concrete.

(** Alice's line in default, with a single oracle configured. *)
Definition gated : St :=
  step admin (CSetOracleConfig 1000 3600) 300 (step admin (CDefaultCreditLine alice) 300 drawn).

Definition recovery : Call := CSettleDefaultLiquidation alice 20000 "s1"%string 5000 (Some 100).

Definition part_recovered : St := step admin recovery 1000300 gated.

Lemma gated_typed : oracle_typed (signed_by [admin] gated).
Proof.
  intros p Hp. assert (inst (signed_by [admin] gated) DK.OracleLastPrice = None) as Hn by (vm_compute; reflexivity).
  rewrite Hn in Hp. discriminate Hp.
Qed.


(** C20: the price of that recovery is an hour old; a deposit does not help. *)
Lemma breaker_latches_witness :
  let s := step alice (CDepositCollateral alice 100) 1010000 part_recovered in
  single_mode (mkOracleConfig 1000 3600) 1000300 s /\
  forall h c b amt i f p u s'', 1010000 <= ledger_timestamp c ->
    run (CSettleDefaultLiquidation b amt i f p) c (set_host h s) <> Ok u s''.
Proof.
  apply (breaker_latches (mkOracleConfig 1000 3600) 1000300 1010000 part_recovered).
  - split; try (vm_compute; reflexivity). exists 100. vm_compute. reflexivity.
  - reflexivity.
  - eapply (untuned_call _ _ part_recovered); [apply untuned_refl| | |].
    + exact (eq_refl : tunes_oracles (CDepositCollateral alice 100) = false).
    + instantiate (1 := at_time 1010000). cbn. lia.
    + apply run_after. vm_compute. reflexivity.
Defined.
