(* ===== verification/ViewTheorems.v ===== *)
(** * What the views say and what the operations enforce

    The health factor against the collateral requirement, the requirement after a
    draw and after a withdrawal, and the capability bitmaps against the operations
    they announce. *)
From S2P Require Import Prelude MathUtils Soroban CreditTypes CreditEvents CreditStorage CreditState Accrual Collateral Fees Freeze Oracles Scoring Risk Lifecycle Views CreditContract CreditCalls CreditQueries CreditLedger CreditMoves CreditInvariant Scenario CreditTheorems CreditSafety DrawRepay.

(** ** The health factor *)
Section health.
Context `{H : Host} `{!AuctionClient} `{!Deployer} `{Crypto}.
Abbreviation S' := (State (C := CreditContract)).
Implicit Types (s : S') (c : Ctx).

(** The factor over a value [v] and a requirement [r], in basis points. *)
Definition health (v r : Z) : Z := Z.min u32_max (v * 10000 / r).

Lemma health_threshold v r : 0 < r -> health v r < 10000 <-> v < r.
Proof.
  intros Hr. unfold health. pose proof (Z.div_lt_upper_bound (v * 10000) r 10000).
  pose proof (Z.div_le_lower_bound (v * 10000) r 10000). lia.
Qed.

Lemma health_exact r : 0 < r -> health r r = 10000.
Proof. intros Hr. unfold health. rewrite Z.mul_comm, Z.div_mul; lia. Qed.

Lemma required_pos u r : 0 < u -> 0 < r -> 0 < required u r.
Proof. intros Hu Hr. unfold required. assert (~ ceil_div (u * r) 10000 <= 0); [|lia]. rewrite ceil_div_spec by lia. nia. Qed.

Lemma effective_value_nonneg s b : collateral_typed s b -> 0 <= effective_value s b.
Proof.
  intros HT. pose proof (legacy_weight_nonneg s b HT). destruct HT as [_ _ Hw]. unfold effective_value.
  apply Z.add_nonneg_nonneg; [by apply weighted_nonneg|]. apply sumZ_nonneg, Forall_fmap, Forall_forall.
  intros t _. by apply weighted_nonneg.
Qed.

Lemma required_fits u r c s v s' : required_collateral u r c s = Ok v s' -> v <= i128_max.
Proof. unfold required_collateral. intros Hr. minv Hr; chk; subst; lia. Qed.

Lemma health_factor_ok b line c s h s' :
  ask (QGetHealthFactor b) c s = Ok h s' -> line_of s b = Some line -> 0 < cl_utilized_amount line ->
  collateral_typed s b -> 0 <= min_ratio s -> effective_value s b * 10000 <= u128_max ->
  h = if min_ratio s =? 0 then u32_max
      else health (effective_value s b) (required (cl_utilized_amount line) (min_ratio s)).
Proof.
  intros Hr Hl Hu HT Hm Hv. cbn [ask] in Hr. unfold Query.get_health_factor, get_health_factor in Hr.
  mstep Hr. subst. rewrite Hl in Hr. cbv zeta in Hr. rewrite (proj2 (Z.leb_gt _ _)) in Hr by done.
  apply mbind_ok in Hr as (v & s1 & Hev & Hr). apply effective_value_ok in Hev as [-> ->]; [|done].
  mstep Hr. subst. change (unwrap_or (inst s DK.MinCollateralRatioBps) 15000) with (min_ratio s) in Hr.
  destruct (min_ratio s =? 0) eqn:E; [by minv Hr|]. bsimp.
  apply mbind_ok in Hr as (r & s1 & Hq & Hr). pose proof (required_fits _ _ _ _ _ _ Hq) as Hf.
  apply required_ok in Hq as [-> ->]; [|lia|done].
  pose proof (required_pos (cl_utilized_amount line) (min_ratio s) Hu ltac:(lia)) as Hp.
  pose proof (effective_value_nonneg s b HT) as Hn.
  set (r := required _ _) in *. set (v := effective_value s b) in *. clearbody r v.
  rewrite (proj2 (Z.eqb_neq r 0)), !Z.max_l, !as_u128_id, (proj2 (Z.eqb_neq r 0)), checked_in in Hr by lia.
  minv Hr. match goal with E' : Some _ = Some _ |- _ => cbn in E'; injection E' as <- end.
  assert (0 <= v * 10000 / r) as Hd by (apply Z.div_pos; lia). unfold u32_or_max, health.
  rewrite (proj2 (Z.leb_le _ _) Hd). cbn [andb]. destruct (Z.leb_spec (v * 10000 / r) u32_max); lia.
Qed.

(** C17. The health factor of a line in debt is the ratio of its weighted collateral
    to the collateral the draws and withdrawals require, in basis points and rounded
    down: below 10000 exactly when the requirement is not covered, 10000 when it is
    met exactly, and without a bound when no ratio is configured.  The collateral is
    taken to be small enough for the product with 10000 to fit 128 bits. *)
Theorem health_factor_exact b line c s h s' :
  ask (QGetHealthFactor b) c s = Ok h s' -> line_of s b = Some line -> 0 < cl_utilized_amount line ->
  collateral_typed s b -> 0 <= min_ratio s -> effective_value s b * 10000 <= u128_max ->
  let r := required (cl_utilized_amount line) (min_ratio s) in
  s' = s /\ (min_ratio s = 0 -> h = u32_max) /\
  (min_ratio s <> 0 -> h = Z.min u32_max (effective_value s b * 10000 / r)) /\
  (h < 10000 <-> effective_value s b < r) /\ (effective_value s b = r -> min_ratio s <> 0 -> h = 10000).
Proof.
  intros Hr Hl Hu HT Hm Hv r. split; [by eapply ask_pure|].
  rewrite (health_factor_ok _ _ _ _ _ _ Hr Hl Hu HT Hm Hv). fold r.
  pose proof (effective_value_nonneg s b HT) as Hn. destruct (min_ratio s =? 0) eqn:E; bsimp.
  - assert (r = 0) as -> by (unfold r, required; rewrite E, Z.mul_0_r; done).
    split; [done|]. split; [done|]. split; [split; [done|lia]|done].
  - assert (0 < r) as Hp by (apply required_pos; lia).
    split; [done|]. split; [done|]. split; [by apply health_threshold|]. intros -> _. by apply health_exact.
Qed.
End health.

(** ** The collateral floor *)
Section floor.
Context `{H : Host} `{!AuctionClient} `{!Deployer} `{Crypto}.
Abbreviation S' := (State (C := CreditContract)).
Implicit Types (s : S') (c : Ctx).

(** The debt of [b] is covered up to [slack] units of weighted collateral. *)
Definition covered_within (slack : Z) s b : Prop :=
  forall line, line_of s b = Some line -> 0 < cl_utilized_amount line ->
    required (cl_utilized_amount line) (min_ratio s) <= effective_value s b + slack.

(** What the valuation of [b] reads besides the balance. *)
Definition K_valuation (a : area) (k : StorageKey) : bool :=
  match a, k with
  | Inst, KData (DK.LiquidityToken | DK.CollateralRiskWeightBps _ | DK.CollateralTokenAllowlist
                 | DK.MinCollateralRatioBps)
  | Pers, KData (DK.CollateralBalanceV2 _ _) => true
  | _, _ => false
  end.

Definition K_value (a : area) (k : StorageKey) : bool :=
  match a, k with Pers, KData (DK.CollateralBalance _) => true | _, _ => K_valuation a k end.

Definition token_value s b : Z :=
  sumZ ((fun t => weighted (token_collateral s b t) (weight_of s t)) <$> allowlist s).

Lemma valuation_frame s s' b :
  frame K_valuation s s' ->
  legacy_weight s' = legacy_weight s /\ token_value s' b = token_value s b /\ min_ratio s' = min_ratio s.
Proof.
  intros Hf. assert (forall t, weight_of s' t = weight_of s t) as Hw
    by (intros t; unfold weight_of; by rewrite (frame_inst K_valuation s s' _ Hf)).
  split; [|split].
  - unfold legacy_weight. rewrite (frame_inst K_valuation s s' DK.LiquidityToken Hf eq_refl). by case_match.
  - unfold token_value, allowlist. rewrite (frame_inst K_valuation s s' DK.CollateralTokenAllowlist Hf eq_refl).
    apply sum_ext. intros t _. unfold token_collateral.
    by rewrite Hw, (frame_pers K_valuation s s' (DK.CollateralBalanceV2 b t) Hf eq_refl).
  - unfold min_ratio. by rewrite (frame_inst K_valuation s s' DK.MinCollateralRatioBps Hf eq_refl).
Qed.

Lemma div_add_le p q d : 0 < d -> (p + q) / d <= p / d + q / d + 1.
Proof.
  intros Hd. pose proof (Z.div_mod p d ltac:(lia)). pose proof (Z.div_mod q d ltac:(lia)).
  pose proof (Z.mod_pos_bound p d Hd). pose proof (Z.mod_pos_bound q d Hd).
  enough ((p + q) / d < p / d + q / d + 2) by lia. apply Z.div_lt_upper_bound; nia.
Qed.

(** Splitting a balance loses at most one unit of weighted value. *)
Lemma weighted_split x a w : 0 <= w -> 0 <= a <= x ->
  weighted x w - weighted a w - 1 <= weighted (x - a) w.
Proof.
  intros Hw Ha. unfold weighted. destruct (x <=? 0) eqn:E1, (a <=? 0) eqn:E2, (x - a <=? 0) eqn:E3,
    (10000 <=? w) eqn:E4; bsimp; try lia; pose proof (div_add_le ((x - a) * w) (a * w) 10000 ltac:(lia)) as Hd;
    replace ((x - a) * w + a * w) with (x * w) in Hd by ring.
  - assert (a = 0) as -> by lia. rewrite !Z.sub_0_r. lia.
  - assert (a = x) as -> by lia. lia.
  - lia.
Qed.

(** A withdrawal past the guard: the requirement holds with the released value
    subtracted. *)
Lemma withdraw_guard_ok b amt c s u s' :
  withdraw_guard b amt legacy_collateral_weight_bps c s = Ok u s' -> collateral_typed s b ->
  amt <= i128_max -> 0 <= min_ratio s ->
  s' = s /\ forall line, line_of s b = Some line -> 0 < cl_utilized_amount line ->
    required (cl_utilized_amount line) (min_ratio s) <= Z.max (effective_less s b amt (legacy_weight s)) 0.
Proof.
  unfold withdraw_guard. intros Hr HT Ha Hm. mstep Hr. subst.
  destruct (line_of s b) as [line|]; [|minv Hr; by split].
  destruct (0 <? cl_utilized_amount line) eqn:E; bsimp.
  2: { minv Hr. split; [done|]. intros ? [= <-]. lia. }
  apply mbind_ok in Hr as (v & s1 & Hv & Hr).
  eapply (effective_after_ok _ _ legacy_weight) in Hv as [-> Hv];
    [|intros ? ? ? ? Hw; by apply reads in Hw|done|done|by eapply legacy_weight_nonneg].
  apply mbind_ok in Hr as (r & s1 & Hq & Hr). unfold required_collateral_for in Hq.
  rewrite (proj2 (Z.leb_gt _ _)) in Hq by done. mstep Hq. subst.
  apply required_ok in Hq as [-> ->]; [|lia|exact Hm]. minv Hr. bsimp. split; [done|]. intros ? [= <-] _.
  change (unwrap_or (inst s DK.MinCollateralRatioBps) 15000) with (min_ratio s) in *. lia.
Qed.

(** The value after [amt] of the legacy balance is gone. *)
Lemma value_after b amt s s' :
  frame K_valuation s s' -> collateral_of s' b = collateral_of s b - amt -> collateral_typed s b ->
  0 <= amt <= collateral_of s b ->
  Z.max (effective_less s b amt (legacy_weight s)) 0 <= effective_value s' b + 1.
Proof.
  intros Hf Hc HT Ha. destruct (valuation_frame s s' b Hf) as (Hw & Ht & _).
  pose proof (legacy_weight_nonneg s b HT) as Hlw.
  assert (0 <= token_value s b) as Hn.
  { apply sumZ_nonneg, Forall_fmap, Forall_forall. intros t _. apply weighted_nonneg, HT. }
  unfold effective_less, effective_value. fold (token_value s b) (token_value s' b).
  rewrite Hw, Ht, Hc. pose proof (weighted_split (collateral_of s b) amt (legacy_weight s) Hlw Ha).
  pose proof (weighted_nonneg (collateral_of s b - amt) (legacy_weight s) Hlw). lia.
Qed.

(** The ranges of the Rust types a withdrawal computes with. *)
Record floor_typed s b : Prop := {
  ft_collateral : collateral_typed s b;
  ft_ratio : 0 <= min_ratio s;
}.

Lemma set_collateral_writes b v c s u s' :
  set_collateral_balance b v c s = Ok u s' -> collateral_of s' b = v.
Proof.
  unfold set_collateral_balance. intros Hr. mstep Hr. subst. cbv zeta in Hr.
  apply mbind_ok in Hr as ([] & s1 & Hput & Hr).
  transitivity (collateral_of s1 b).
  - apply (frame_collateral_of K_value); [|done]. eapply frame_steps; [exact Hr|kframe].
  - apply pset_ok in Hput as ->. unfold collateral_of, pers. by sput.
Qed.

(** The lines and the valuation, which a release of collateral leaves alone. *)
Definition K_release (a : area) (k : StorageKey) : bool :=
  match a, k with Pers, KLine _ => true | _, _ => K_valuation a k end.

(** The common end: the guard held at [s], the balance fell by [amt]. *)
Lemma release_covered b amt s s' :
  floor_typed s b -> frame K_release s s' -> collateral_of s' b = collateral_of s b - amt ->
  0 <= amt <= collateral_of s b ->
  (forall line, line_of s b = Some line -> 0 < cl_utilized_amount line ->
    required (cl_utilized_amount line) (min_ratio s) <= Z.max (effective_less s b amt (legacy_weight s)) 0) ->
  covered_within 1 s' b.
Proof.
  intros [HT _] Hf Hc Ha Hg line Hl Hu.
  assert (frame K_valuation s s') as Hv by (eapply frame_weaken; [|exact Hf]; by intros [] []).
  destruct (valuation_frame _ _ b Hv) as (_ & _ & ->). rewrite (frame_line_of K_release _ _ b Hf eq_refl) in Hl.
  etrans; [by apply Hg|]. by apply value_after.
Qed.

Lemma withdraw_covered b amt c s u s' :
  run (CWithdrawCollateral b amt) c s = Ok u s' -> floor_typed s b -> covered_within 1 s' b.
Proof.
  intros Hr HT. assert (frame K_release s s') as Hf by (eapply frame_steps; [exact Hr|cbn [run]; kframe]).
  destruct HT as [HC HM]. cbn [run] in Hr. unfold withdraw_collateral in Hr.
  mstep Hr. bsimp. apply mbind_ok in Hr as (x & s1 & (h & _ & ->)%require_auth_ok & Hr).
  do 3 mstep Hr. subst. bsimp. chk. subst.
  apply mbind_ok in Hr as (y & s2 & Hg & Hr). change (collateral_of (set_host h s) b) with (collateral_of s b) in *.
  assert (collateral_typed (set_host h s) b) as HC' by (destruct HC; by split).
  eapply withdraw_guard_ok in Hg as [-> Hg]; [|exact HC'|destruct HC; lia|exact HM].
  apply (release_covered b amt s s'); [by split|exact Hf| |lia|exact Hg].
  do 3 mstep Hr. subst. apply mbind_ok in Hr as (z & s3 & Ht & Hr). apply mbind_ok in Hr as (w & s4 & Hset & Hr).
  apply set_collateral_writes in Hset. rewrite <- Hset. apply (frame_collateral_of K_value); [|done].
  eapply frame_steps; [exact Hr|kframe].
Qed.

Lemma partial_release_covered b amt c s u s' :
  run (CPartialReleaseCollateral b amt) c s = Ok u s' -> floor_typed s b -> covered_within 1 s' b.
Proof.
  intros Hr HT. assert (frame K_release s s') as Hf by (eapply frame_steps; [exact Hr|cbn [run]; kframe]).
  destruct HT as [HC HM]. cbn [run] in Hr. unfold partial_release_collateral in Hr.
  mstep Hr. bsimp. apply mbind_ok in Hr as (x & s1 & (h & _ & ->)%require_auth_ok & Hr).
  do 4 mstep Hr. subst. bsimp. chk. subst. cbv zeta in Hr.
  apply mbind_ok in Hr as (v & s2 & Hv & Hr). change (collateral_of (set_host h s) b) with (collateral_of s b) in *.
  assert (collateral_typed (set_host h s) b) as HC' by (destruct HC; by split).
  eapply (effective_after_ok _ _ legacy_weight) in Hv as [-> Hv];
    [|intros ? ? ? ? Hw; by apply reads in Hw|exact HC'|destruct HC; lia|by eapply legacy_weight_nonneg].
  apply mbind_ok in Hr as (y & s2 & Hg & Hr).
  assert (s2 = set_host h s /\ forall line, line_of s b = Some line -> 0 < cl_utilized_amount line ->
    required (cl_utilized_amount line) (min_ratio s) <= v) as [-> Hq].
  { destruct (0 <? _) eqn:E; bsimp.
    - apply mbind_ok in Hg as (r & s3 & Hq & Hg). unfold required_collateral_for in Hq.
      rewrite (proj2 (Z.leb_gt _ _)) in Hq by done. mstep Hq. subst.
      apply required_ok in Hq as [-> ->]; [|lia|exact HM]. minv Hg. bsimp. split; [done|].
      intros line Hl Hu. change (line_of (set_host h s) b) with (line_of s b) in *. by rewrite Hl in *.
    - minv Hg. split; [done|]. intros line Hl Hu. change (line_of (set_host h s) b) with (line_of s b) in *.
      rewrite Hl in *. lia. }
  apply (release_covered b amt s s'); [by split|exact Hf| |lia|].
  2: { intros line Hl Hu. etrans; [by apply Hq|]. change (effective_less (set_host h s) b amt (legacy_weight (set_host h s))) with (effective_less s b amt (legacy_weight s)) in Hv. lia. }
  do 3 mstep Hr. subst. apply mbind_ok in Hr as (z & s3 & Ht & Hr). apply mbind_ok in Hr as (w & s4 & Hset & Hr).
  apply set_collateral_writes in Hset. rewrite <- Hset. apply (frame_collateral_of K_value); [|done].
  eapply frame_steps; [exact Hr|kframe].
Qed.

(** C8. The collateral floor is enforced where collateral backs a debt: after a draw
    the weighted collateral covers what the new debt requires; after a withdrawal or
    a partial release it covers the requirement up to one unit, the rounding lost by
    weighing the released amount on its own. *)
Theorem collateral_floor b amt c s u s' :
  floor_typed s b ->
  (run (CDrawCredit b amt) c s = Ok u s' -> draw_typed s b -> covered_within 0 s' b) /\
  (run (CWithdrawCollateral b amt) c s = Ok u s' \/ run (CPartialReleaseCollateral b amt) c s = Ok u s' ->
    covered_within 1 s' b).
Proof.
  intros HF. split.
  - intros Hr HT. assert (frame K_value s s') as Hf by (eapply frame_steps; [exact Hr|cbn [run]; kframe]).
    apply draw_credit_ok in Hr as (old & line & token & reserve & h & _ & _ & Hal & Hl & _); [|done].
    intros l Hl' Hu. rewrite Hl in Hl'. injection Hl' as <-.
    assert (frame K_valuation s s') as Hv by (eapply frame_weaken; [|exact Hf]; by intros [] [[]|[]|[]| | |]).
    destruct (valuation_frame _ _ b Hv) as (Hlw & Htv & Hm). rewrite Z.add_0_r, Hm.
    unfold effective_value. fold (token_value s' b). rewrite Hlw, Htv, (frame_collateral_of K_value s s' b Hf eq_refl).
    destruct Hal. done.
  - intros [Hr|Hr]; [by eapply withdraw_covered|by eapply partial_release_covered].
Qed.
End floor.

(** ** Capabilities *)

(** [to_accrual Hr] follows a run up to its accrual. *)
Ltac to_accrual Hr :=
  repeat lazymatch type of Hr with
  | mbind (apply_accrual _) _ _ _ = _ => fail
  | _ => mstep Hr
  end; subst.

Section capabilities.
Context `{H : Host} `{!AuctionClient} `{!Deployer} `{Crypto}.
Abbreviation S' := (State (C := CreditContract)).
Implicit Types (s : S') (c : Ctx).

Definition open_for_draws (now : Z) s b : bool :=
  negb (paused s) && negb (draws_frozen s) && negb (blocked s b) && negb (borrower_frozen now s b)
  && negb (line_frozen s b).

Definition borrow_caps (now : Z) s b : BorrowCapabilities :=
  match line_of s b with
  | None => mkBorrowCaps false false false
  | Some line =>
      mkBorrowCaps (bool_decide (cl_status line = Active \/ cl_status line = Restricted) && open_for_draws now s b)
        (negb (bool_decide (cl_status line = Closed))) (bool_decide (cl_status line = Active))
  end.

Definition lifecycle_caps s b : LifecycleCapabilities :=
  match line_of s b with
  | Some line =>
      if paused s then mkLifecycleCaps false false false false false false else
      let active := bool_decide (cl_status line = Active) in
      let open := negb (bool_decide (cl_status line = Closed)) in
      mkLifecycleCaps active active open (open && (cl_utilized_amount line =? 0))
        (bool_decide (cl_status line ∈ [Active; Restricted; Suspended; SelfSuspended]))
        (bool_decide (cl_status line = Defaulted))
  | None => mkLifecycleCaps false false false false false false
  end.

#[export] Instance reads_and_also (a b : Soroban.M (C := CreditContract) bool) f g
    `{!Reads a f} `{!Reads b g} : Reads (and_also a b) (fun c s => f c s && g c s).
Proof.
  intros c s x s' Hr. unfold and_also in Hr. mstep Hr. subst. destruct (f c s); minv Hr; by split.
Qed.

#[export] Instance reads_mnot (a : Soroban.M (C := CreditContract) bool) f `{!Reads a f} :
  Reads (mnot a) (fun c s => negb (f c s)).
Proof. intros c s x s' Hr. unfold mnot in Hr. minv Hr. by split. Qed.

#[export] Instance reads_ret {A} (a : A) : Reads (C := CreditContract) (mret a) (fun _ _ => a).
Proof. by intros c s x s' [-> ->]%mret_ok. Qed.

#[export] Instance reads_borrow_caps b :
  Reads (borrow_capabilities b) (fun c s => borrow_caps (ledger_timestamp c) s b).
Proof.
  intros c s x s' Hr. unfold borrow_capabilities in Hr. mstep Hr. subst. unfold borrow_caps.
  destruct (line_of s b) as [line|]; [|minv Hr; by split]. mstep Hr.
  minv Hr. split; [|done]. f_equal. unfold open_for_draws. by destruct (cl_status line), (paused s), (draws_frozen s), (blocked s b), (borrower_frozen (ledger_timestamp c) s b).
Qed.

#[export] Instance reads_lifecycle_caps b :
  Reads (lifecycle_capabilities b) (fun _ s => lifecycle_caps s b).
Proof.
  intros c s x s' Hr. unfold lifecycle_capabilities in Hr. do 2 mstep Hr. subst. unfold lifecycle_caps.
  destruct (line_of s b) as [line|]; [|minv Hr; by split]. destruct (paused s); minv Hr; split; try done.
  by destruct (cl_status line).
Qed.
(** The borrower a capability-guarded call is about, and what must be announced for
    it; [admin] is the administrator. *)
Definition subject (call : Call) : option Address :=
  match call with
  | CDrawCredit b _ | CRepayCredit b _ | CSelfSuspendCreditLine b | CSuspendCreditLine b
  | CCloseCreditLine b _ | CDefaultCreditLine b | CReinstateCreditLine b _ => Some b
  | _ => None
  end.

Definition announced (bc : BorrowCapabilities) (lc : LifecycleCapabilities) (admin : option Address)
    (call : Call) : bool :=
  match call with
  | CDrawCredit _ _ => can_draw bc
  | CRepayCredit _ _ => can_repay bc
  | CSelfSuspendCreditLine _ => can_self_suspend bc && lc_can_self_suspend lc
  | CSuspendCreditLine _ => lc_can_suspend lc
  | CCloseCreditLine _ closer =>
      lc_can_close_admin lc && (bool_decide (admin = Some closer) || lc_can_close_borrower lc)
  | CDefaultCreditLine _ => lc_can_default lc
  | CReinstateCreditLine _ _ => lc_can_reinstate lc
  | _ => true
  end.

(** What the capabilities read, apart from the clock. *)
Definition K_caps_read (a : area) (k : StorageKey) : bool :=
  match a, k with
  | Inst, KSym (sym_paused | sym_admin) | Inst, KData DK.DrawsFrozen
  | Pers, KLine _ | Pers, KData (DK.BlockedBorrower _ | DK.FrozenBorrower _ | DK.CreditLineFreeze _) => true
  | _, _ => false
  end.

Lemma caps_frame now s s' b :
  frame K_caps_read s s' ->
  borrow_caps now s' b = borrow_caps now s b /\ lifecycle_caps s' b = lifecycle_caps s b /\
  admin_of s' = admin_of s.
Proof.
  intros Hf. unfold borrow_caps, lifecycle_caps, open_for_draws, paused, draws_frozen, blocked,
    borrower_frozen, line_frozen, line_of, admin_of.
  by rewrite !(frame_pers K_caps_read s s' _ Hf), !(frame_inst K_caps_read s s' _ Hf).
Qed.

(** The status the transitions start from, read off the stored line. *)
Lemma suspend_from b target c s u s' :
  suspend_credit_line_internal b target c s = Ok u s' ->
  exists line, line_of s b = Some line /\ cl_status line = Active.
Proof.
  unfold suspend_credit_line_internal. intros Hr. to_accrual Hr.
  apply mbind_ok in Hr as (line & s1 & Hacc & Hr). apply apply_accrual_ok in Hacc as [Hacc _].
  apply mbind_ok in Hr as (x & s2 & [Hin _]%require_valid_transition_ok & _).
  destruct (accrued_keeps _ _ _ Hacc) as (_ & Hst & _). apply list_elem_of_singleton in Hin. eexists. split; [eassumption|congruence].
Qed.

Lemma default_from b c s u s' :
  Lifecycle.default_credit_line b c s = Ok u s' ->
  paused s = false /\ exists line, line_of s b = Some line /\ cl_status line ∈ [Active; Suspended; SelfSuspended; Restricted].
Proof.
  unfold Lifecycle.default_credit_line, assert_not_paused. intros Hr. to_accrual Hr.
  apply mbind_ok in Hr as (line & s1 & Hacc & Hr). apply apply_accrual_ok in Hacc as [Hacc _]. mstep Hr.
  apply mbind_ok in Hr as (x & s2 & [Hin _]%require_valid_transition_ok & _).
  destruct (accrued_keeps _ _ _ Hacc) as (_ & Hst & _). split; [by bsimp|]. eexists. split; [eassumption|congruence].
Qed.

Lemma reinstate_from b t c s u s' :
  Lifecycle.reinstate_credit_line b t c s = Ok u s' ->
  paused s = false /\ exists line, line_of s b = Some line /\ cl_status line = Defaulted.
Proof.
  unfold Lifecycle.reinstate_credit_line, assert_not_paused. intros Hr. to_accrual Hr.
  apply mbind_ok in Hr as (line & s1 & Hacc & Hr). apply apply_accrual_ok in Hacc as [Hacc _]. mstep Hr.
  apply mbind_ok in Hr as (x & s2 & [Hin _]%require_valid_transition_ok & _).
  destruct (accrued_keeps _ _ _ Hacc) as (_ & Hst & _). apply list_elem_of_singleton in Hin.
  split; [by bsimp|]. eexists. split; [eassumption|congruence].
Qed.

Lemma close_from b closer c s u s' :
  Lifecycle.close_credit_line b closer c s = Ok u s' ->
  paused s = false /\ exists line, line_of s b = Some line /\ cl_status line <> Closed /\
    (admin_of s = Some closer \/ cl_utilized_amount line = 0).
Proof.
  unfold Lifecycle.close_credit_line, assert_not_paused. intros Hr. mstep Hr.
  apply mbind_ok in Hr as (ad & s1 & Had & Hr). unfold require_admin in Had. minv Had. do 4 mstep Hr. subst.
  split; [done|]. eexists. split; [eassumption|]. split; [by bsimp|].
  destruct (bool_decide (closer = ad)) eqn:E1; [left|right].
  - apply bool_decide_eq_true in E1 as ->. done.
  - destruct (bool_decide (closer = b)); minv Hm. by bsimp.
Qed.

(** Once the guards are passed at [s1], which the views cannot tell from [s]. *)
Lemma announce_at now s s1 b call :
  frame K_caps_read s s1 ->
  announced (borrow_caps now s1 b) (lifecycle_caps s1 b) (admin_of s1) call = true ->
  announced (borrow_caps now s b) (lifecycle_caps s b) (admin_of s) call = true.
Proof. intros Hf. by destruct (caps_frame now _ _ b Hf) as (-> & -> & ->). Qed.

(** [wrapper Hr]: the admin's signature and the cool-down, after which the views
    answer as before. *)
Ltac wrapper Hr :=
  let Ha := fresh in let He := fresh in let Hf := fresh "Hf" in
  apply mbind_ok in Hr as (? & ? & Ha & Hr); apply mbind_ok in Hr as (? & ? & He & Hr);
  lazymatch type of Hr with _ _ ?s2 = _ => lazymatch type of Ha with _ _ ?s = _ =>
    assert (frame K_caps_read s s2) as Hf by (etrans; eapply frame_steps; [exact Ha|kframe|exact He|kframe]) end end;
  apply (announce_at _ _ _ _ _ Hf); clear Ha He.

Lemma draw_announced b amt c s u s' :
  run (CDrawCredit b amt) c s = Ok u s' -> can_draw (borrow_caps (ledger_timestamp c) s b) = true.
Proof.
  cbn [run]. unfold Credit.draw_credit, Credit.draw_record, with_reentrancy_guard, assert_not_paused, Credit.draw_checks. intros Hr.
  mstep Hr. apply mbind_ok in Hr as (x & s1 & Hg & Hr). apply mbind_ok in Hr as (y & s2 & Hd & _).
  apply mbind_ok in Hd as (z & s3 & Hc & _). apply mbind_ok in Hc as (w & s4 & Ha & Hc).
  assert (frame K_caps_read s s4) as Hf by (etrans; eapply frame_steps; [exact Hg|kframe|exact Ha|kframe]).
  apply mbind_ok in Hc as (v & s5 & (-> & _ & Hfr & Hbl & _)%draw_preflight_ok & Hc). do 2 mstep Hc. subst.
  apply mbind_ok in Hc as (line & s6 & Hacc & Hc). apply apply_accrual_ok in Hacc as [Hacc _].
  destruct (accrued_keeps _ _ _ Hacc) as (_ & Hst & _). apply mbind_ok in Hc as (o & s7 & Hs & _).
  destruct (caps_frame (ledger_timestamp c) _ _ b Hf) as (<- & _). unfold borrow_caps, open_for_draws.
  assert (paused s4 = false) as Hp.
  { unfold paused. rewrite (frame_inst K_caps_read _ _ sym_paused Hf eq_refl). by bsimp. }
  match goal with E : line_of s4 b = Some _ |- _ => rewrite E end. cbn [can_draw].
  destruct Hfr as (-> & -> & ->). rewrite Hbl, Hp. rewrite <- Hst. destruct (cl_status line); by vm_compute || discriminate Hs.
Qed.

Lemma repay_announced b amt c s u s' :
  run (CRepayCredit b amt) c s = Ok u s' -> can_repay (borrow_caps (ledger_timestamp c) s b) = true.
Proof.
  cbn [run]. unfold Credit.repay_credit, Credit.repay_publish, with_reentrancy_guard, Credit.repay_checks. intros Hr.
  apply mbind_ok in Hr as (x & s1 & Hg & Hr). apply mbind_ok in Hr as (y & s2 & Hd & _).
  apply mbind_ok in Hd as (z & s3 & Hc & _). apply mbind_ok in Hc as (w & s4 & Ha & Hc).
  assert (frame K_caps_read s s4) as Hf by (etrans; eapply frame_steps; [exact Hg|kframe|exact Ha|kframe]).
  to_accrual Hc. apply mbind_ok in Hc as (line & s6 & Hacc & Hc). apply apply_accrual_ok in Hacc as [Hacc _].
  destruct (accrued_keeps _ _ _ Hacc) as (_ & Hst & _). mstep Hc. bsimp.
  destruct (caps_frame (ledger_timestamp c) _ _ b Hf) as (<- & _). unfold borrow_caps.
  match goal with E : line_of s4 b = Some _ |- _ => rewrite E end. cbn [can_repay].
  rewrite bool_decide_eq_false_2 by congruence. done.
Qed.

Lemma caps_at s b line :
  line_of s b = Some line -> paused s = false ->
  lifecycle_caps s b =
    mkLifecycleCaps (bool_decide (cl_status line = Active)) (bool_decide (cl_status line = Active))
      (negb (bool_decide (cl_status line = Closed)))
      (negb (bool_decide (cl_status line = Closed)) && (cl_utilized_amount line =? 0))
      (bool_decide (cl_status line ∈ [Active; Restricted; Suspended; SelfSuspended]))
      (bool_decide (cl_status line = Defaulted)).
Proof. intros Hl Hp. unfold lifecycle_caps. by rewrite Hl, Hp. Qed.

(** The transitions of the lifecycle: the wrapper's checks lead to a state the views
    cannot tell from the start. *)
Lemma lifecycle_announced call b c s u s' :
  run call c s = Ok u s' -> subject call = Some b ->
  match call with CDrawCredit _ _ | CRepayCredit _ _ => false | _ => true end = true ->
  announced (borrow_caps (ledger_timestamp c) s b) (lifecycle_caps s b) (admin_of s) call = true.
Proof.
  intros Hr Hb Hk. destruct call; try discriminate Hb; try discriminate Hk; injection Hb as ->; cbn [run] in Hr.
  - unfold Credit.suspend_credit_line, Lifecycle.suspend_credit_line, assert_not_paused in Hr. wrapper Hr.
    mstep Hr. apply suspend_from in Hr as (line & Hl & Hst). cbn [announced]. rewrite (caps_at _ _ _ Hl) by done.
    cbn. by rewrite Hst.
  - unfold Lifecycle.self_suspend_credit_line, assert_not_paused in Hr. mstep Hr.
    apply mbind_ok in Hr as (x & s1 & Ha & Hr). pose proof (frame_steps K_caps_read _ _ _ _ _ Ha ltac:(kframe)) as Hf.
    apply (announce_at _ _ _ _ _ Hf). apply suspend_from in Hr as (line & Hl & Hst).
    assert (paused s1 = false) as Hp by (unfold paused; by rewrite (frame_inst K_caps_read _ _ sym_paused Hf eq_refl)).
    cbn [announced]. rewrite (caps_at _ _ _ Hl Hp). unfold borrow_caps. rewrite Hl. cbn. by rewrite Hst.
  - unfold Credit.close_credit_line in Hr. apply mbind_ok in Hr as (x & s1 & Ha & Hr).
    apply mbind_ok in Hr as (ad & s2 & Had & Hr). apply mbind_ok in Hr as (y & s3 & He & Hr).
    assert (frame K_caps_read s s3) as Hf.
    { etrans; [|etrans]; (eapply frame_steps; [first [exact Ha|exact Had|exact He]|kframe]). }
    apply (announce_at _ _ _ _ _ Hf). apply close_from in Hr as (Hp & line & Hl & Hc & Hor).
    cbn [announced]. rewrite (caps_at _ _ _ Hl Hp). cbn. rewrite bool_decide_eq_false_2 by done. cbn.
    destruct Hor as [->| ->]; [by rewrite bool_decide_eq_true_2|apply orb_true_r].
  - unfold Credit.default_credit_line in Hr. wrapper Hr. apply default_from in Hr as (Hp & line & Hl & Hin).
    cbn [announced]. rewrite (caps_at _ _ _ Hl Hp). cbn. apply bool_decide_eq_true. set_solver.
  - unfold Credit.reinstate_credit_line in Hr. wrapper Hr. apply reinstate_from in Hr as (Hp & line & Hl & Hst).
    cbn [announced]. rewrite (caps_at _ _ _ Hl Hp). cbn. by rewrite Hst.
Qed.

(** C18. The capability views announce every operation that can succeed: whenever a
    draw, a repayment, a suspension, a closing, a default or a reinstatement of a
    borrower's line succeeds, the bitmaps answered just before said so. *)
Theorem capabilities_announce call b c s u s' bc lc s1 s2 :
  run call c s = Ok u s' -> subject call = Some b ->
  ask (QBorrowCapabilities b) c s = Ok bc s1 -> ask (QLifecycleCapabilities b) c s = Ok lc s2 ->
  announced bc lc (admin_of s) call = true.
Proof.
  intros Hr Hb Hbc Hlc. cbn [ask] in Hbc, Hlc. unfold Query.borrow_capabilities, Query.lifecycle_capabilities in *.
  apply reads in Hbc as [-> _]. apply reads in Hlc as [-> _].
  destruct call; try discriminate Hb; injection Hb as ->.
  all: try by (eapply lifecycle_announced; [exact Hr|done..]).
  - by eapply draw_announced.
  - by eapply repay_announced.
Qed.
End capabilities.

(** ** Witnesses *)
Import Concrete.

(** The token counts half, the requirement is one to one; alice draws all that her
    150000 allow, then takes one unit out. *)
Definition halved : St :=
  step admin (CSetMinCollateralRatioBps 10000) 100
  (step admin (CSetCollateralRiskWeight token 5000) 100 secured).

Definition stretched : St := step alice (CDrawCredit alice 75000) 200 halved.

Definition shaved : St := step alice (CWithdrawCollateral alice 1) 300 stretched.

(** The history writes no other weight, no V2 collateral and no utilisation cap. *)
Definition K_other (a : area) (k : StorageKey) : bool :=
  match a, k with
  | Inst, KData (DK.CollateralRiskWeightBps t) => bool_decide (t <> token)
  | Pers, KData (DK.CollateralBalanceV2 _ _ | DK.UtilizationCapBps _) => true
  | _, _ => false
  end.

Lemma typed_other (s : St) b :
  frame K_other genesis s -> collateral_of s b <= i128_max -> 0 <= weight_of s token -> collateral_typed s b.
Proof.
  intros Hf Hc Ht. split; [done| |]; intros t.
  - unfold token_collateral. by rewrite (frame_pers K_other _ _ _ Hf).
  - destruct (decide (t = token)) as [->|Hne]; [done|]. unfold weight_of.
    rewrite (frame_inst K_other _ _ (DK.CollateralRiskWeightBps t) Hf); [done|]. by apply bool_decide_eq_true.
Qed.

Ltac other := repeat (apply step_keeps; [cbn [run]; kframe|]); done.

Lemma halved_other : frame K_other genesis halved.
Proof. other. Qed.

Lemma stretched_other : frame K_other genesis stretched.
Proof. other. Qed.

Lemma halved_line : line_of halved alice = Some (alice_line 0 100).
Proof. vm_compute. reflexivity. Qed.

Lemma floor_typed_other (s : St) b :
  frame K_other genesis s -> collateral_of s b <= i128_max -> 0 <= weight_of s token -> 0 <= min_ratio s ->
  floor_typed s b.
Proof. intros Hf Hc Hw Hm. split; [by apply typed_other|done]. Qed.

(** A state with other signatures is as typed as before. *)
Lemma signed_other l (s : St) : frame K_other genesis s -> frame K_other genesis (signed_by l s).
Proof. intros Hf. etrans; [exact Hf|]. by apply frame_same_stores. Qed.

(** C17: after alice's draw the factor is exactly 10000. *)
Lemma health_factor_exact_witness :
  exists h, ask (QGetHealthFactor alice) (at_time 300) stretched = Ok h stretched /\
    (h < 10000 <-> 75000 < 75000) /\ (75000 = 75000 -> h = 10000).
Proof.
  exists 10000. assert (ask (QGetHealthFactor alice) (at_time 300) stretched = Ok 10000 stretched) as Hr
    by (apply answer_ok; vm_compute; reflexivity).
  split; [exact Hr|]. assert (line_of stretched alice = Some (alice_line 75000 200)) as Hl by (vm_compute; reflexivity).
  destruct (health_factor_exact alice (alice_line 75000 200) (at_time 300) stretched 10000 stretched Hr Hl)
    as (_ & _ & _ & Hlt & Heq).
  - reflexivity.
  - apply typed_other; [exact stretched_other|by vm_compute|by vm_compute].
  - by vm_compute.
  - by vm_compute.
  - assert (effective_value stretched alice = 75000) as Hv by (vm_compute; reflexivity).
    assert (required (cl_utilized_amount (alice_line 75000 200)) (min_ratio stretched) = 75000) as Hq
      by (vm_compute; reflexivity).
    rewrite Hv, Hq in *. split; [exact Hlt|]. intros He. apply Heq; [exact He|]. by vm_compute.
Defined.

(** C8: covered after the draw; the withdrawal of one unit passes and leaves the debt
    one unit short of what it requires. *)
Lemma collateral_floor_witness :
  covered_within 0 stretched alice /\ covered_within 1 shaved alice /\ ~ covered_within 0 shaved alice.
Proof.
  split; [|split].
  - apply (collateral_floor alice 75000 (at_time 200) (signed_by [alice] halved) tt stretched).
    + apply floor_typed_other; [apply signed_other, halved_other|by vm_compute..].
    + apply run_after. vm_compute. reflexivity.
    + split; [|by vm_compute| |].
      * apply typed_other; [apply signed_other, halved_other|by vm_compute..].
      * intros cap. by rewrite (frame_pers K_other _ _ _ (signed_other [alice] _ halved_other)).
      * intros l Hl. change (line_of halved alice = Some l) in Hl. rewrite halved_line in Hl. by injection Hl as <-.
  - apply (collateral_floor alice 1 (at_time 300) (signed_by [alice] stretched) tt shaved).
    + apply floor_typed_other; [apply signed_other, stretched_other|by vm_compute..].
    + left. apply run_after. vm_compute. reflexivity.
  - assert (line_of shaved alice = Some (alice_line 75000 200)) as Hl by (vm_compute; reflexivity).
    intros Hc. specialize (Hc _ Hl). vm_compute in Hc. by apply Hc.
Defined.

(** C18: alice's draw of 75000 was announced. *)
Lemma capabilities_announce_witness :
  exists bc lc, ask (QBorrowCapabilities alice) (at_time 200) (signed_by [alice] halved) = Ok bc (signed_by [alice] halved) /\
    announced bc lc (admin_of (signed_by [alice] halved)) (CDrawCredit alice 75000) = true.
Proof.
  exists (mkBorrowCaps true true true), (mkLifecycleCaps true true true true true false).
  split; [apply answer_ok; vm_compute; reflexivity|].
  apply (capabilities_announce (CDrawCredit alice 75000) alice (at_time 200) (signed_by [alice] halved) tt stretched
           (mkBorrowCaps true true true) (mkLifecycleCaps true true true true true false)
           (signed_by [alice] halved) (signed_by [alice] halved)).
  - apply run_after. vm_compute. reflexivity.
  - reflexivity.
  - apply answer_ok. vm_compute. reflexivity.
  - apply answer_ok. vm_compute. reflexivity.
Defined.
