(* ===== verification/Configuration.v ===== *)
(** * The configuration round trip

    Which settings each configuration call writes, which settings each query reads,
    and that a query answers with what was configured last, whatever other calls are
    made in between. *)
From S2P Require Import Prelude MathUtils Soroban CreditTypes CreditEvents CreditStorage CreditState Accrual Collateral Fees Freeze Oracles Scoring Risk Lifecycle Views CreditContract CreditCalls CreditQueries CreditLedger CreditMoves CreditInvariant Scenario.

(** The global settings, each one instance entry. *)
Inductive Setting :=
| RateChangeLimits | PenaltySurcharge | RiskCooldown | GracePeriod | LateFee | LateFeeFlatFee
| MaxDraw | MaxRepay | DrawInterval | BorrowCooldown | AccrualCooldown | ProtocolFee
| Treasury | FeeShare | Bounty | MinRatio | CollateralCooldown | TokenAllowlist
| TotalExposure | MinLimit | MaxLimit | AuctionAddress | CloseFactor | SingleOracle
| QuorumOracle | RateFormula | PauseFlag | DrawFreeze | ReserveAddress.

#[export] Instance Setting_eq_dec : EqDecision Setting.
Proof. solve_decision. Defined.

Definition setting_key (x : Setting) : StorageKey :=
  match x with
  | RateChangeLimits => KSym sym_rate_cfg
  | PenaltySurcharge => KData DK.PenaltySurchargeBps
  | RiskCooldown => KSym sym_rad_cool
  | GracePeriod => KSym sym_grace_cfg
  | LateFee => KData DK.LateFeeConfig
  | LateFeeFlatFee => KData DK.LateFeeFlat
  | MaxDraw => KData DK.MaxDrawAmount
  | MaxRepay => KData DK.MaxRepayAmount
  | DrawInterval => KData DK.DrawMinIntervalSeconds
  | BorrowCooldown => KData DK.BorrowAdminCooldownSeconds
  | AccrualCooldown => KData DK.AccrualAdminCooldownSeconds
  | ProtocolFee => KData DK.ProtocolFeeBps
  | Treasury => KData DK.TreasuryAddress
  | FeeShare => KData DK.TreasuryFeeShareBps
  | Bounty => KData DK.BountyAddress
  | MinRatio => KData DK.MinCollateralRatioBps
  | CollateralCooldown => KData DK.AdminCollateralCooldownSeconds
  | TokenAllowlist => KData DK.CollateralTokenAllowlist
  | TotalExposure => KData DK.MaxTotalExposure
  | MinLimit => KData DK.MinCreditLimit
  | MaxLimit => KData DK.MaxCreditLimit
  | AuctionAddress => KData DK.AuctionContract
  | CloseFactor => KData DK.CloseFactorBps
  | SingleOracle => KData DK.OracleConfig
  | QuorumOracle => KData DK.OracleQuorumConfig
  | RateFormula => KSym sym_rate_form
  | PauseFlag => KSym sym_paused
  | DrawFreeze => KData DK.DrawsFrozen
  | ReserveAddress => KData DK.LiquiditySource
  end.

Definition setting_of (k : StorageKey) : option Setting :=
  match k with
  | KSym sym_rate_cfg => Some RateChangeLimits
  | KData DK.PenaltySurchargeBps => Some PenaltySurcharge
  | KSym sym_rad_cool => Some RiskCooldown
  | KSym sym_grace_cfg => Some GracePeriod
  | KData DK.LateFeeConfig => Some LateFee
  | KData DK.LateFeeFlat => Some LateFeeFlatFee
  | KData DK.MaxDrawAmount => Some MaxDraw
  | KData DK.MaxRepayAmount => Some MaxRepay
  | KData DK.DrawMinIntervalSeconds => Some DrawInterval
  | KData DK.BorrowAdminCooldownSeconds => Some BorrowCooldown
  | KData DK.AccrualAdminCooldownSeconds => Some AccrualCooldown
  | KData DK.ProtocolFeeBps => Some ProtocolFee
  | KData DK.TreasuryAddress => Some Treasury
  | KData DK.TreasuryFeeShareBps => Some FeeShare
  | KData DK.BountyAddress => Some Bounty
  | KData DK.MinCollateralRatioBps => Some MinRatio
  | KData DK.AdminCollateralCooldownSeconds => Some CollateralCooldown
  | KData DK.CollateralTokenAllowlist => Some TokenAllowlist
  | KData DK.MaxTotalExposure => Some TotalExposure
  | KData DK.MinCreditLimit => Some MinLimit
  | KData DK.MaxCreditLimit => Some MaxLimit
  | KData DK.AuctionContract => Some AuctionAddress
  | KData DK.CloseFactorBps => Some CloseFactor
  | KData DK.OracleConfig => Some SingleOracle
  | KData DK.OracleQuorumConfig => Some QuorumOracle
  | KSym sym_rate_form => Some RateFormula
  | KSym sym_paused => Some PauseFlag
  | KData DK.DrawsFrozen => Some DrawFreeze
  | KData DK.LiquiditySource => Some ReserveAddress
  | _ => None
  end.

(** The settings a call writes; initialisation writes two defaults. *)
Definition configured_by (call : Call) : list Setting :=
  match call with
  | CInit _ => [ReserveAddress; MinRatio]
  | CSetRateChangeLimits _ _ => [RateChangeLimits]
  | CSetPenaltySurchargeBps _ => [PenaltySurcharge]
  | CSetRiskAdminCooldown _ => [RiskCooldown]
  | CSetGracePeriodConfig _ _ _ => [GracePeriod]
  | CSetLateFeeConfig _ => [LateFee]
  | CSetLateFeeFlat _ => [LateFeeFlatFee]
  | CSetMaxDrawAmount _ => [MaxDraw]
  | CSetMaxRepayAmount _ => [MaxRepay]
  | CSetDrawMinInterval _ => [DrawInterval]
  | CSetBorrowAdminCooldown _ => [BorrowCooldown]
  | CSetAccrualAdminCooldown _ => [AccrualCooldown]
  | CSetProtocolFeeBps _ => [ProtocolFee]
  | CSetTreasury _ _ => [Treasury]
  | CSetTreasuryFeeShareBps _ => [FeeShare]
  | CSetBounty _ _ => [Bounty]
  | CSetMinCollateralRatioBps _ => [MinRatio]
  | CSetColAdminCooldownSecs _ => [CollateralCooldown]
  | CSetCollateralTokenAllowlist _ => [TokenAllowlist]
  | CSetMaxTotalExposure _ => [TotalExposure]
  | CSetCreditLimitBounds _ _ => [MinLimit; MaxLimit]
  | CSetAuctionContract _ => [AuctionAddress]
  | CSetCloseFactorBps _ => [CloseFactor]
  | CSetOracleConfig _ _ => [SingleOracle]
  | CSetOracleQuorumConfig _ _ _ => [QuorumOracle]
  | CSetRateFormulaConfig _ _ _ _ => [RateFormula]
  | CClearRateFormulaConfig => [RateFormula]
  | CSetProtocolPaused _ => [PauseFlag]
  | CSetProtocolPausedWithReason _ _ => [PauseFlag]
  | CFreezeDraws _ => [DrawFreeze]
  | CUnfreezeDraws => [DrawFreeze]
  | CSetLiquiditySource _ => [ReserveAddress]
  | _ => []
  end.

(** The settings a query reads. *)
Definition read_by {A} (q : Ask A) : list Setting :=
  match q with
  | QGetRateChangeLimits => [RateChangeLimits]
  | QGetPenaltySurchargeBps => [PenaltySurcharge]
  | QGetRiskAdminCooldown => [RiskCooldown]
  | QGetGracePeriodConfig => [GracePeriod]
  | QGetLateFeeConfig => [LateFee]
  | QGetLateFeeFlat => [LateFeeFlatFee]
  | QGetMaxDrawAmount => [MaxDraw]
  | QGetMaxRepayAmount => [MaxRepay]
  | QGetDrawMinInterval => [DrawInterval]
  | QGetBorrowAdminCooldown => [BorrowCooldown]
  | QGetAccrualAdminCooldown => [AccrualCooldown]
  | QGetProtocolFeeBps => [ProtocolFee]
  | QGetTreasury => [Treasury]
  | QGetTreasuryFeeShareBps => [FeeShare]
  | QGetBounty => [Bounty]
  | QGetMinCollateralRatioBps => [MinRatio]
  | QGetColAdminCooldownSecs => [CollateralCooldown]
  | QGetCollateralTokens => [TokenAllowlist]
  | QGetMaxTotalExposure => [TotalExposure]
  | QGetCreditLimitBounds => [MinLimit; MaxLimit]
  | QGetAuctionContract => [AuctionAddress]
  | QGetCloseFactorBps => [CloseFactor]
  | QGetOracleConfig => [SingleOracle]
  | QGetOracleQuorumConfig => [QuorumOracle]
  | QGetRateFormulaConfig => [RateFormula]
  | QIsProtocolPaused => [PauseFlag]
  | QIsDrawsFrozen => [DrawFreeze]
  | QGetDrawsFreezeReason => [DrawFreeze]
  | QGetLiquiditySource => [ReserveAddress]
  | _ => []
  end.

(** [configures call q a]: the documented effect of [call] is that [q] answers [a]. *)
Inductive configures : Call -> forall {A}, Ask A -> A -> Prop :=
| cfg_set_rate_change_limits m i : configures (CSetRateChangeLimits m i) QGetRateChangeLimits (Some (mkRateChange m i))
| cfg_set_penalty_surcharge_bps n : configures (CSetPenaltySurchargeBps n) QGetPenaltySurchargeBps n
| cfg_set_risk_admin_cooldown n : configures (CSetRiskAdminCooldown n) QGetRiskAdminCooldown n
| cfg_set_grace_period_config n m r : configures (CSetGracePeriodConfig n m r) QGetGracePeriodConfig (Some (mkGrace n m r))
| cfg_set_late_fee_config cfg : configures (CSetLateFeeConfig cfg) QGetLateFeeConfig cfg
| cfg_set_late_fee_flat n : configures (CSetLateFeeFlat n) QGetLateFeeFlat n
| cfg_set_max_draw_amount n : configures (CSetMaxDrawAmount n) QGetMaxDrawAmount (Some n)
| cfg_set_max_repay_amount n : configures (CSetMaxRepayAmount n) QGetMaxRepayAmount (Some n)
| cfg_set_draw_min_interval n : configures (CSetDrawMinInterval n) QGetDrawMinInterval (Some n)
| cfg_set_borrow_admin_cooldown n : configures (CSetBorrowAdminCooldown n) QGetBorrowAdminCooldown (Some n)
| cfg_set_accrual_admin_cooldown n : configures (CSetAccrualAdminCooldown n) QGetAccrualAdminCooldown (Some n)
| cfg_set_protocol_fee_bps n : configures (CSetProtocolFeeBps n) QGetProtocolFeeBps (Some n)
| cfg_set_treasury a t : configures (CSetTreasury a t) QGetTreasury (Some t)
| cfg_set_treasury_fee_share_bps n : configures (CSetTreasuryFeeShareBps n) QGetTreasuryFeeShareBps (Some n)
| cfg_set_bounty a t : configures (CSetBounty a t) QGetBounty (Some t)
| cfg_set_min_collateral_ratio_bps n : configures (CSetMinCollateralRatioBps n) QGetMinCollateralRatioBps (Some n)
| cfg_set_col_admin_cooldown_secs n : configures (CSetColAdminCooldownSecs n) QGetColAdminCooldownSecs (Some n)
| cfg_set_collateral_token_allowlist l : configures (CSetCollateralTokenAllowlist l) QGetCollateralTokens l
| cfg_set_max_total_exposure n : configures (CSetMaxTotalExposure n) QGetMaxTotalExposure (if n =? 0 then None else Some n)
| cfg_set_credit_limit_bounds lo hi : configures (CSetCreditLimitBounds lo hi) QGetCreditLimitBounds (Some lo, Some hi)
| cfg_set_auction_contract a : configures (CSetAuctionContract a) QGetAuctionContract (Some a)
| cfg_set_close_factor_bps n : configures (CSetCloseFactorBps n) QGetCloseFactorBps n
| cfg_set_oracle_config d a : configures (CSetOracleConfig d a) QGetOracleConfig (Some (mkOracleConfig d a))
| cfg_set_oracle_quorum_config k d a : configures (CSetOracleQuorumConfig k d a) QGetOracleQuorumConfig (Some (mkQuorumConfig k d a))
| cfg_set_rate_formula_config x y lo hi : configures (CSetRateFormulaConfig x y lo hi) QGetRateFormulaConfig (Some (mkFormula x y lo hi))
| cfg_clear_rate_formula_config : configures CClearRateFormulaConfig QGetRateFormulaConfig None
| cfg_set_protocol_paused p : configures (CSetProtocolPaused p) QIsProtocolPaused p
| cfg_set_protocol_paused_with_reason p r : configures (CSetProtocolPausedWithReason p r) QIsProtocolPaused p
| cfg_freeze_draws_flag r : configures (CFreezeDraws r) QIsDrawsFrozen true
| cfg_freeze_draws_reason r : configures (CFreezeDraws r) QGetDrawsFreezeReason (Some r)
| cfg_unfreeze_draws_flag : configures CUnfreezeDraws QIsDrawsFrozen false
| cfg_unfreeze_draws_reason : configures CUnfreezeDraws QGetDrawsFreezeReason None
| cfg_set_liquidity_source a : configures (CSetLiquiditySource a) QGetLiquiditySource a.

Lemma setting_of_key x : setting_of (setting_key x) = Some x.
Proof. by destruct x. Qed.

(** ** What a run leaves in a setting *)
Section leaves.
Context `{H : Host}.
Abbreviation S' := (State (C := CreditContract)).
Abbreviation M := (Soroban.M (C := CreditContract)).

(** Every successful run of [m] ends with [o] under the instance key [k]. *)
Definition leaves {A} (k : StorageKey) (o : option (interp (StorageKey_type k))) (m : M A) : Prop :=
  forall c s a s', m c s = Ok a s' -> inst s' k = o.

Definition K_only (k : StorageKey) (a : area) (k' : StorageKey) : bool :=
  match a with Inst => bool_decide (k' = k) | Pers => false end.

Lemma leaves_later {A B} k o (m : M A) (f : A -> M B) :
  (forall a, leaves k o (f a)) -> leaves k o (mbind m f).
Proof. intros Hf c s b s' (a & s1 & _ & Hr)%mbind_ok. by eapply Hf. Qed.

Lemma leaves_now {A B} k o (m : M A) (f : A -> M B) :
  leaves k o m -> (forall a, steps (frame (K_only k)) (f a)) -> leaves k o (mbind m f).
Proof.
  intros Hm Hf c s b s' (a & s1 & Hr1 & Hr2)%mbind_ok. rewrite <- (Hm _ _ _ _ Hr1).
  apply (frame_inst (K_only k)); [by eapply Hf|]. by apply bool_decide_eq_true.
Qed.

Lemma leaves_set k v : leaves k (Some v) (Soroban.iset (C := CreditContract) k v).
Proof. intros c s u s' ->%iset_ok. unfold inst. by sput. Qed.

Lemma leaves_remove k : leaves k None (Soroban.iremove (C := CreditContract) k).
Proof. intros c s u s' ->%iremove_ok. unfold inst. by sput. Qed.

Lemma leaves_error {A} k o e : leaves k o (panic_with_error (A := A) e).
Proof. done. Qed.
End leaves.

(** [leaves_tac] finds the last write: a later part of the run that leaves the value,
    or the first part, framed by the rest. *)
Ltac leaves_tac :=
  cbv zeta;
  lazymatch goal with
  | |- leaves _ _ (mbind _ _) =>
      first [ apply leaves_later; intros ?; solve [leaves_tac]
            | apply leaves_now; [solve [leaves_tac]|intros ?; kframe] ]
  | |- leaves _ _ (if ?b then _ else _) => destruct b; leaves_tac
  | |- leaves _ _ (match ?x with _ => _ end) => destruct x; leaves_tac
  | |- leaves _ _ (Soroban.iset _ _) => apply leaves_set
  | |- leaves _ _ (Soroban.iremove _) => apply leaves_remove
  | |- leaves _ _ (mret _) => fail
  | |- leaves _ _ (panic_if _ _) => fail
  | |- leaves _ _ (mfor _ _) => fail
  | |- leaves _ _ (publish _) => fail
  | |- leaves _ _ (panic_with_error _) => apply leaves_error
  | |- leaves _ _ ?m => let h := head m in unfold h; leaves_tac
  end.

Section roundtrip.
Context `{H : Host} `{!AuctionClient} `{!Deployer} `{Crypto}.
Abbreviation S' := (State (C := CreditContract)).
Implicit Types (s : S') (c : Ctx).

Definition setting s (x : Setting) : option (interp (StorageKey_type (setting_key x))) :=
  inst s (setting_key x).

(** The settings a call does not write. *)
Definition K_settings (call : Call) (a : area) (k : StorageKey) : bool :=
  match a, setting_of k with
  | Inst, Some x => negb (bool_decide (x ∈ configured_by call))
  | _, _ => false
  end.

(** Only the calls listed by [configured_by] write a setting. *)
Lemma settings_frame call : steps (frame (K_settings call)) (run call).
Proof. destruct call; cbn [run]; kframe. Qed.
(** [asks]: the answer of a query, by evaluation. *)
Ltac asks :=
  cbv [ask Query.get_rate_change_limits Query.get_penalty_surcharge_bps Query.get_risk_admin_cooldown
    Query.get_grace_period_config Query.get_late_fee_config Query.get_late_fee_flat
    Query.get_max_draw_amount Query.get_max_repay_amount Query.get_draw_min_interval
    Query.get_borrow_admin_cooldown Query.get_accrual_admin_cooldown Query.get_protocol_fee_bps
    Query.get_treasury Query.get_treasury_fee_share_bps Query.get_bounty
    Query.get_min_collateral_ratio_bps Query.get_col_admin_cooldown_secs Query.get_collateral_tokens
    Query.get_max_total_exposure Query.get_credit_limit_bounds Query.get_auction_contract
    Query.get_close_factor_bps Query.get_oracle_config Query.get_oracle_quorum_config
    Query.get_rate_formula_config Query.is_protocol_paused Query.is_draws_frozen
    Query.get_draws_freeze_reason Credit.get_liquidity_source
    Risk.get_rate_change_limits CreditStorage.get_penalty_surcharge_bps get_risk_admin_cooldown_seconds
    CreditStorage.get_grace_period_config CreditStorage.get_late_fee_config CreditStorage.get_late_fee_flat
    CreditStorage.get_draw_min_interval CreditStorage.get_borrow_admin_cooldown
    CreditStorage.get_accrual_admin_cooldown CreditStorage.get_protocol_fee_bps get_treasury_address
    CreditStorage.get_treasury_fee_share_bps get_bounty_address
    CreditStorage.get_min_collateral_ratio_bps get_admin_collateral_cooldown_seconds
    get_collateral_token_allowlist CreditStorage.get_max_total_exposure Lifecycle.get_credit_limit_bounds
    get_min_credit_limit get_max_credit_limit CreditStorage.get_auction_contract
    CreditStorage.get_close_factor_bps CreditStorage.get_oracle_config CreditStorage.get_oracle_quorum_config
    Risk.get_rate_formula_config is_paused Freeze.is_draws_frozen Freeze.get_draws_freeze_reason
    get_draws_freeze_state bump_instance_ttl iextend_ttl mbind mret iget current_contract_address inst];
  cbn.

(** The flag written by the two pause calls: nothing is written when it has that
    value already. *)
Lemma pause_leaves p c s u s' :
  run (CSetProtocolPaused p) c s = Ok u s' \/ (exists r, run (CSetProtocolPausedWithReason p r) c s = Ok u s') ->
  paused s' = p.
Proof.
  assert (forall s1 s2, frame (K_only sym_paused) s1 s2 -> paused s2 = paused s1) as Hk.
  { intros s1 s2 Hf. unfold paused. by rewrite (frame_inst (K_only sym_paused) s1 s2 sym_paused Hf eq_refl). }
  cbn [run]. intros [Hr|[r Hr]].
  - unfold Credit.set_protocol_paused in Hr. apply mbind_ok in Hr as (ad & s1 & _ & Hr).
    mstep Hr. subst. destruct (Bool.eqb p (paused s1)) eqn:E.
    + apply eqb_prop in E as ->. apply Hk. eapply frame_steps; [exact Hr|kframe].
    + assert (inst s' sym_paused = Some p) as Hp; [|by unfold paused; rewrite Hp].
      revert Hr. apply (fun L : leaves sym_paused (Some p) _ => L c s1 u s'). leaves_tac.
  - unfold Credit.set_protocol_paused_with_reason in Hr. apply mbind_ok in Hr as (ad & s1 & _ & Hr).
    mstep Hr. subst. destruct p.
    + mstep Hr. subst. apply mbind_ok in Hr as (x & s2 & Hw & Hr).
      pose proof (frame_steps (K_only sym_paused) _ _ _ _ _ Hw ltac:(kframe)) as Hf.
      destruct (paused s1) eqn:E; [minv Hr; by rewrite (Hk _ _ Hf)|].
      assert (inst s' sym_paused = Some true) as Hp; [|by unfold paused; rewrite Hp].
      revert Hr. apply (fun L : leaves sym_paused (Some true) _ => L c s2 u s'). leaves_tac.
    + destruct (paused s1) eqn:E; [|by minv Hr].
      assert (inst s' sym_paused = Some false) as Hp; [|by unfold paused; rewrite Hp].
      revert Hr. apply (fun L : leaves sym_paused (Some false) _ => L c s1 u s'). leaves_tac.
Qed.

Lemma unfreeze_leaves c s u s' :
  run CUnfreezeDraws c s = Ok u s' -> exists r, inst s' DK.DrawsFrozen = Some (mkFreezeState false r).
Proof.
  cbn [run]. unfold unfreeze_draws. intros Hr. apply mbind_ok in Hr as (x & s1 & _ & Hr).
  apply mbind_ok in Hr as (y & s2 & _ & Hr). apply mbind_ok in Hr as (z & s3 & _ & Hr). cbv zeta in Hr.
  set (r := match z with Some _ => _ | None => _ end) in Hr. exists r. revert Hr.
  apply (fun L : leaves DK.DrawsFrozen (Some (mkFreezeState false r)) _ => L c s3 u s'). leaves_tac.
Qed.

Lemma answer_now call A (q : Ask A) a c s u s' c' :
  run call c s = Ok u s' -> configures call q a -> ask q c' s' = Ok a s'.
Proof.
  intros Hr Hc. destruct Hc.
  all: cbn [run] in Hr.
  all: try (lazymatch goal with |- ask ?q _ _ = _ =>
    let l := eval cbv in (read_by q) in
    lazymatch l with [?x] => let k := eval cbv in (setting_key x) in
      lazymatch type of Hr with ?m _ _ = _ =>
      eassert (leaves k _ m) as L by leaves_tac; apply L in Hr; clear L; unfold inst in Hr end end end).
  all: try (asks; rewrite Hr; reflexivity).
  - assert (inst s' DK.MaxTotalExposure = if n =? 0 then None else Some n) as Hx.
    { revert Hr. apply (fun L : leaves DK.MaxTotalExposure (if n =? 0 then None else Some n) _ => L c s u s').
      leaves_tac. }
    unfold inst in Hx. asks. rewrite Hx. done.
  - assert (inst s' DK.MinCreditLimit = Some lo) as H1'
      by (revert Hr; apply (fun L : leaves DK.MinCreditLimit (Some lo) _ => L c s u s'); leaves_tac).
    assert (inst s' DK.MaxCreditLimit = Some hi) as H2'
      by (revert Hr; apply (fun L : leaves DK.MaxCreditLimit (Some hi) _ => L c s u s'); leaves_tac).
    unfold inst in *. asks. by rewrite H1', H2'.
  - asks. by rewrite <- (pause_leaves _ _ _ _ _ (or_introl Hr)).
  - asks. by rewrite <- (pause_leaves _ _ _ _ _ (or_intror (ex_intro _ r Hr))).
  - apply unfreeze_leaves in Hr as [r Hr]. unfold inst in Hr. asks. by rewrite Hr.
  - apply unfreeze_leaves in Hr as [r Hr]. unfold inst in Hr. asks. by rewrite Hr.
Qed.
(** Later calls that configure none of the settings [xs]. *)
Inductive undisturbed (xs : list Setting) s : S' -> Prop :=
| undisturbed_refl : undisturbed xs s s
| undisturbed_call s' h call c u s'' :
    undisturbed xs s s' -> Forall (fun x => x ∉ configured_by call) xs ->
    run call c (set_host h s') = Ok u s'' -> undisturbed xs s s''.

Lemma undisturbed_keeps xs s s' x : undisturbed xs s s' -> x ∈ xs -> setting s' x = setting s x.
Proof.
  induction 1 as [|s' h call c u s'' _ IH Hx Hr]; [done|]. intros Hin. rewrite <- IH by done.
  transitivity (setting (set_host h s') x); [|done]. apply settings_frame in Hr. unfold setting.
  apply (frame_inst (K_settings call) _ _ (setting_key x) Hr). cbn. rewrite setting_of_key.
  rewrite Forall_forall in Hx. by rewrite bool_decide_eq_false_2 by auto.
Qed.

(** A query of a setting sees nothing else. *)
Lemma ask_settings {A} (q : Ask A) c s s' a :
  read_by q <> [] -> (forall x, x ∈ read_by q -> setting s' x = setting s x) ->
  ask q c s = Ok a s -> ask q c s' = Ok a s'.
Proof.
  intros Hne Hx.
  assert (forall x, x ∈ read_by q -> instance_store s' (setting_key x) = instance_store s (setting_key x)) as Hi
    by exact Hx.
  destruct q; try (by destruct Hne); clear Hne Hx; pose proof (Hi _ ltac:(by left)) as E1;
    try pose proof (Hi MaxLimit ltac:(by right; left)) as E2; cbn in E1; asks.
  all: rewrite ?E1; try (cbn in E2; rewrite E2); intros [= <-]; reflexivity.
Qed.

Lemma configures_reads call A (q : Ask A) a : configures call q a -> read_by q <> [].
Proof. by destruct 1. Qed.

(** C19. The configuration round trip: after a configuration call succeeds, the query
    documented for it answers with the configured value, in whatever state later
    calls lead to, at whatever time, as long as none of them configures the same
    setting; the entrypoints that do are those [configured_by] lists. *)
Theorem configuration_roundtrip call A (q : Ask A) a c s u s1 s2 c' :
  run call c s = Ok u s1 -> configures call q a -> undisturbed (read_by q) s1 s2 ->
  ask q c' s2 = Ok a s2.
Proof.
  intros Hr Hc Hu. apply (ask_settings q c' s1); [by eapply configures_reads| |by eapply answer_now].
  intros x Hx. by eapply undisturbed_keeps.
Qed.
End roundtrip.

(** ** Witness *)
Import Concrete.

(** C19: a close factor of half, still answered after alice opened, deposited and drew. *)
Lemma configuration_roundtrip_witness :
  let factored := step admin (CSetCloseFactorBps 5000) 100 configured in
  ask QGetCloseFactorBps (at_time 300)
    (step alice (CDepositCollateral alice 150000) 200 (step admin (COpenCreditLine alice 100000 1000 50) 150 factored))
  = Ok 5000
    (step alice (CDepositCollateral alice 150000) 200 (step admin (COpenCreditLine alice 100000 1000 50) 150 factored)).
Proof.
  intros factored.
  apply (configuration_roundtrip (CSetCloseFactorBps 5000) Z QGetCloseFactorBps 5000 (at_time 100)
           (signed_by [admin] configured) tt factored).
  - apply run_after. vm_compute. reflexivity.
  - constructor.
  - eapply (undisturbed_call _ _ (step admin (COpenCreditLine alice 100000 1000 50) 150 factored)).
    + eapply (undisturbed_call _ _ factored); [apply undisturbed_refl| |].
      * instantiate (1 := COpenCreditLine alice 100000 1000 50). constructor; [by intros ?%not_elem_of_nil|constructor].
      * apply run_after. vm_compute. reflexivity.
    + instantiate (1 := CDepositCollateral alice 150000). constructor; [by intros ?%not_elem_of_nil|constructor].
    + apply run_after. vm_compute. reflexivity.
Defined.
