(* ===== verification/CwState.v ===== *)
(** * The CosmWasm credit contract: data, storage and errors
    ([creditra-credit/src/state.rs], [error.rs], the value types of [handshake.rs]
    and [penalties.rs])

    The contract is a second implementation of the credit ledger, for chains
    that run CosmWasm.  It keeps one key-value store of typed entries
    ([cw_storage_plus] items and maps), reads the sender and the block header
    from its arguments, and answers an error or a response; the chain discards
    the writes of a call that fails.  The file defines the store, the two monads
    the code is written in - [R] for code that only reads, [W] for code that also
    writes - and the lemmas on successful runs and untouched keys. *)
From stdpp Require Export pretty.
From S2P Require Import Prelude Soroban.

(** ** Addresses, errors *)
Record Addr := mkAddr { addr_str : string }.

#[export] Instance Addr_eq_dec : EqDecision Addr.
Proof. solve_decision. Defined.

#[export] Instance Addr_countable : Countable Addr.
Proof. by apply (inj_countable' addr_str mkAddr); intros []. Defined.

(** The errors of the platform library that the code constructs or receives. *)
Inductive StdError :=
| StdNotFound (kind : string)
| StdParseErr (target msg : string)
| StdGenericErr (msg : string)
| StdOverflow
| StdDivideByZero
| StdAddrInvalid (input : string).

Inductive ContractErrorCategory :=
| CatStd | CatNotFound | CatAuth | CatCollateral | CatValidation | CatState | CatOracle.

Inductive ContractError :=
| Std (e : StdError)
| CreditLineNotFound (id : Z)
| DrawNotFound (draw_id credit_line_id : Z)
| Unauthorized
| CrossTenantIdentifier
| CollateralInsufficient
| InsufficientCollateralBalance
| InvalidAmount
| AlreadySettled
| OraclePriceInvalid
| OracleQuorumNotMet
| OracleNotFound
| RateTooHigh
| Overflow
| CollateralTokenNotAllowed
| TreasuryAddressNotSet
| BountyAddressNotSet
| LateFeeConfigInvalid
| ProtocolFeeBpsExceeded
| RateCeilingExceeded
| InvalidFeeShareBps
| InsufficientTreasuryBalance
| InsufficientBountyBalance
| OverLimit
| TooManyCollateralTokens.

Definition category (e : ContractError) : ContractErrorCategory :=
  match e with
  | Std _ => CatStd
  | CreditLineNotFound _ | DrawNotFound _ _ => CatNotFound
  | Unauthorized | CrossTenantIdentifier => CatAuth
  | CollateralInsufficient => CatCollateral
  | InsufficientCollateralBalance => CatCollateral
  | CollateralTokenNotAllowed => CatCollateral
  | InvalidAmount => CatValidation
  | AlreadySettled => CatState
  | OraclePriceInvalid => CatOracle
  | OracleQuorumNotMet => CatOracle
  | OracleNotFound => CatOracle
  | RateTooHigh => CatValidation
  | Overflow => CatState
  | RateCeilingExceeded => CatValidation
  | InvalidFeeShareBps => CatValidation
  | InsufficientTreasuryBalance => CatCollateral
  | InsufficientBountyBalance => CatCollateral
  | TreasuryAddressNotSet => CatState
  | BountyAddressNotSet => CatState
  | LateFeeConfigInvalid => CatValidation
  | ProtocolFeeBpsExceeded => CatValidation
  | OverLimit => CatValidation
  | TooManyCollateralTokens => CatValidation
  end.

(** [to_string] of the integer types. *)
Definition to_string (z : Z) : string := pretty z.

(** What the platform library supplies: address validation, the parser of
    [Uint128], and the rendering of its own errors. *)
Class CwApi := {
  addr_validate : string -> Addr + StdError;
  uint128_from_str : string -> option Z;
  uint128_from_str_range : forall s v, uint128_from_str s = Some v -> is_u128 v;
  std_error_to_string : StdError -> string;
}.

(** The [#[error("..")]] attributes. *)
Definition error_to_string `{CwApi} (e : ContractError) : string :=
  match e with
  | Std e => std_error_to_string e
  | CreditLineNotFound id => "CreditLine " +:+ to_string id +:+ " not found"
  | DrawNotFound d l => "Draw " +:+ to_string d +:+ " not found on credit line " +:+ to_string l
  | Unauthorized => "Unauthorized"
  | CrossTenantIdentifier => "CrossTenantIdentifier"
  | CollateralInsufficient => "CollateralInsufficient"
  | InsufficientCollateralBalance => "InsufficientCollateralBalance"
  | InvalidAmount => "InvalidAmount"
  | AlreadySettled => "AlreadySettled"
  | OraclePriceInvalid => "OraclePriceInvalid"
  | OracleQuorumNotMet => "OracleQuorumNotMet"
  | OracleNotFound => "OracleNotFound"
  | RateTooHigh => "RateTooHigh"
  | Overflow => "Overflow"
  | CollateralTokenNotAllowed => "CollateralTokenNotAllowed"
  | TreasuryAddressNotSet => "TreasuryAddressNotSet"
  | BountyAddressNotSet => "BountyAddressNotSet"
  | LateFeeConfigInvalid => "LateFeeConfigInvalid"
  | ProtocolFeeBpsExceeded => "ProtocolFeeBpsExceeded"
  | RateCeilingExceeded => "RateCeilingExceeded"
  | InvalidFeeShareBps => "InvalidFeeShareBps"
  | InsufficientTreasuryBalance => "InsufficientTreasuryBalance"
  | InsufficientBountyBalance => "InsufficientBountyBalance"
  | OverLimit => "OverLimit"
  | TooManyCollateralTokens => "TooManyCollateralTokens"
  end.

(** ** Stored data *)
Record Config := mkConfig { owner : Addr }.

Record CreditLine := mkCreditLine {
  cl_id : Z;
  borrower : Addr;
  collateral_denom : string;
  collateral_amount : Z;
  credit_denom : string;
  credit_amount : Z;
  active : bool;
}.

(** [Timestamp] counts nanoseconds. *)
Definition Timestamp : Type := Z.

Definition seconds (t : Timestamp) : Z := t / 1000000000.

Record Draw := mkDraw {
  dr_id : Z;
  dr_credit_line_id : Z;
  dr_amount : Z;
  dr_denom : string;
  drawn_at : Timestamp;
  drawn_by : Addr;
  repaid : bool;
}.

Inductive DrawAction := DrawCreated | Repaid | Liquidated | MemoAdded.

Record DrawAuditEntry := mkDrawAuditEntry {
  ae_seq : Z;
  ae_draw_id : Z;
  ae_credit_line_id : Z;
  ae_action : DrawAction;
  ae_timestamp : Timestamp;
  ae_block_height : Z;
  ae_by : Addr;
  ae_memo : string;
}.

Record DrawAuditEvent := mkDrawAuditEvent {
  ev_seq : Z;
  ev_action : DrawAction;
  ev_timestamp : Timestamp;
  ev_block_height : Z;
  ev_by : Addr;
  ev_memo : string;
}.

Definition into_event (e : DrawAuditEntry) : DrawAuditEvent :=
  mkDrawAuditEvent (ae_seq e) (ae_action e) (ae_timestamp e) (ae_block_height e) (ae_by e) (ae_memo e).

Record OracleQuorumConfig := mkOracleQuorumConfig {
  min_quorum_k : Z;
  max_deviation_bps : Z;
  max_age_seconds : Z;
}.

Record OracleReportData := mkOracleReportData { rep_value : Z; rep_timestamp : Z }.

Record OraclePriceRecord := mkOraclePriceRecord { pr_price : Z; pr_timestamp : Z }.

Definition MAX_ORACLE_FEEDS : Z := 20.

Definition MAX_COLLATERAL_TOKENS : Z := 50.

Definition DEFAULT_COLLATERAL_RISK_WEIGHT_BPS : Z := 10000.

(** [FlatFeeConfig] and [AprFeeConfig] have one field each. *)
Inductive LateFeeConfig := Flat (amount : Z) | AprBased (surcharge_bps : Z).

Record ProtocolVersion := mkProtocolVersion { major : Z; minor : Z }.

(** ** Storage keys: the [Item]s and [Map]s of the crate *)
Inductive CwKey :=
| CONFIG
| CREDIT_LINE_COUNT
| CREDIT_LINES (id : Z)
| DRAW_COUNT (credit_line_id : Z)
| DRAWS (credit_line_id draw_id : Z)
| DRAW_AUDIT_COUNT (credit_line_id draw_id : Z)
| DRAW_AUDIT (credit_line_id draw_id seq : Z)
| BORROWER_TO_ID (borrower : Addr)
| ORACLE_QUORUM_CONFIG
| ORACLE_PRICE_RECORD
| ORACLE_LIST
| ORACLE_WEIGHT (oracle : Addr)
| ORACLE_REPORT (oracle : Addr)
| LATE_FEE_CONFIG
| BORROWER_COLLATERAL_TOKENS (borrower : Addr)
| COLLATERAL_BALANCES (borrower : Addr) (denom : string)
| COLLATERAL_RISK_WEIGHTS (denom : string)
| COLLATERAL_TOKEN_ALLOWLIST
| DEFAULT_FEE_SHARE_BPS
| MARKET_FEE_SHARE_BPS (denom : string)
| TREASURY_BALANCE (denom : string)
| BOUNTY_BALANCE (denom : string)
| PROTOCOL_FEE_BPS
| PROTOCOL_VERSION.

#[export] Instance CwKey_eq_dec : EqDecision CwKey.
Proof. solve_decision. Defined.

Inductive CwValType :=
| TConfig | TInt | TCreditLine | TDraw | TAudit | TQuorum | TPrice | TAddrs | TReport | TLateFee
| TDenoms | TVersion.

#[export] Instance CwValType_eq_dec : EqDecision CwValType.
Proof. solve_decision. Defined.

Definition cw_interp (t : CwValType) : Type :=
  match t with
  | TConfig => Config
  | TInt => Z
  | TCreditLine => CreditLine
  | TDraw => Draw
  | TAudit => DrawAuditEntry
  | TQuorum => OracleQuorumConfig
  | TPrice => OraclePriceRecord
  | TAddrs => list Addr
  | TReport => OracleReportData
  | TLateFee => LateFeeConfig
  | TDenoms => list string
  | TVersion => ProtocolVersion
  end.

Definition CwKey_type (k : CwKey) : CwValType :=
  match k with
  | CONFIG => TConfig
  | CREDIT_LINE_COUNT | DRAW_COUNT _ | DRAW_AUDIT_COUNT _ _ | BORROWER_TO_ID _ => TInt
  | CREDIT_LINES _ => TCreditLine
  | DRAWS _ _ => TDraw
  | DRAW_AUDIT _ _ _ => TAudit
  | ORACLE_QUORUM_CONFIG => TQuorum
  | ORACLE_PRICE_RECORD => TPrice
  | ORACLE_LIST => TAddrs
  | ORACLE_WEIGHT _ => TInt
  | ORACLE_REPORT _ => TReport
  | LATE_FEE_CONFIG => TLateFee
  | BORROWER_COLLATERAL_TOKENS _ | COLLATERAL_TOKEN_ALLOWLIST => TDenoms
  | COLLATERAL_BALANCES _ _ | COLLATERAL_RISK_WEIGHTS _ => TInt
  | DEFAULT_FEE_SHARE_BPS | MARKET_FEE_SHARE_BPS _ | TREASURY_BALANCE _ | BOUNTY_BALANCE _ => TInt
  | PROTOCOL_FEE_BPS => TInt
  | PROTOCOL_VERSION => TVersion
  end.

#[export] Instance CwContract : Contract := {|
  skey := CwKey;
  skey_eq_dec := CwKey_eq_dec;
  sty := CwValType;
  sty_eq_dec := CwValType_eq_dec;
  sinterp := cw_interp;
  kty := CwKey_type;
  cevent := Empty_set;
  cerror := ContractError;
|}.

Abbreviation storage := (Soroban.store (H := CwContract)).
Abbreviation val k := (cw_interp (CwKey_type k)).

(** ** Outcomes

    [Err e] is a returned error; [Panics] an abort of the code (an overflow
    check, a slice out of bounds).  Either way the chain discards the writes. *)
Inductive cw_failure := Err (e : ContractError) | Panics.

Definition R (A : Type) : Type := A + cw_failure.

Definition rbind {A B} (m : R A) (k : A -> R B) : R B :=
  match m with inl a => k a | inr f => inr f end.

Definition W (A : Type) : Type := storage -> R (A * storage).

Definition wret {A} (a : A) : W A := fun s => inl (a, s).

Definition wbind {A B} (m : W A) (k : A -> W B) : W B :=
  fun s => match m s with inl (a, s') => k a s' | inr f => inr f end.

(** Running reading code: it cannot write. *)
Definition read {A} (f : storage -> R A) : W A :=
  fun s => match f s with inl a => inl (a, s) | inr f => inr f end.

Declare Scope cw_scope.
Delimit Scope cw_scope with cw.
Notation "'let!' x := m 'in' k" := (rbind m (fun x => k))
  (at level 10, x pattern, m at level 100, k at level 200) : cw_scope.
Notation "'let*' x := m 'in' k" := (wbind m (fun x => k))
  (at level 10, x pattern, m at level 100, k at level 200) : cw_scope.
Notation "m ;; k" := (wbind m (fun _ => k)) (at level 100, k at level 200, right associativity) : cw_scope.
#[global] Open Scope Z_scope.
#[global] Open Scope cw_scope.

Definition err {A} (e : ContractError) : R A := inr (Err e).

Definition ok_or {A} (o : option A) (e : ContractError) : R A :=
  match o with Some a => inl a | None => err e end.

(** Checked native arithmetic: the release profile aborts on overflow. *)
Definition native {A} (o : option A) : R A := match o with Some a => inl a | None => inr Panics end.

(** [e?] on a library result. *)
Definition std_try {A} (r : A + StdError) : R A :=
  match r with inl a => inl a | inr e => err (Std e) end.

Definition fail_if (b : bool) (e : ContractError) : W unit :=
  fun s => if b then inr (Err e) else inl (tt, s).

Definition lift {A} (r : R A) : W A := read (fun _ => r).

(** [Item]/[Map] operations.  Entries are only ever written by the typed [save]
    of the same key, so decoding them back never fails. *)
Definition may_load (k : CwKey) (s : storage) : option (val k) := s k.

Definition load (k : CwKey) (s : storage) : R (val k) :=
  ok_or (may_load k s) (Std (StdNotFound "entry")).

Definition save (k : CwKey) (v : val k) : W unit := fun s => inl (tt, store_put (H := CwContract) k v s).

Definition remove (k : CwKey) : W unit := fun s => inl (tt, store_remove (H := CwContract) k s).

Definition get (k : CwKey) : W (option (val k)) := fun s => inl (may_load k s, s).

(** A loop that only reads. *)
Fixpoint rfold {A B} (l : list A) (acc : B) (body : B -> A -> R B) : R B :=
  match l with
  | [] => inl acc
  | x :: l' => let! acc' := body acc x in rfold l' acc' body
  end.

(** The range [lo..hi] of a [for] over [u64]. *)
Definition range (lo hi : Z) : list Z := (fun i => lo + Z.of_nat i) <$> seq 0 (Z.to_nat (hi - lo)).

(** ** Block and message *)
Record Env := mkEnv { block_time : Timestamp; block_height : Z }.

Record MessageInfo := mkMessageInfo { sender : Addr }.

Record Response := mkResponse { attributes : list (string * string) }.

(** ** [outstanding_utilization] *)
Definition add_outstanding (s : storage) (credit_line_id : Z) (utilized did : Z) : R Z :=
  match may_load (DRAWS credit_line_id did) s with
  | Some draw =>
      if repaid draw then inl utilized
      else ok_or (checked_u128 (utilized + dr_amount draw)) Overflow
  | None => inl utilized
  end.

Definition outstanding_utilization (s : storage) (credit_line_id : Z) : R Z :=
  let draw_count := unwrap_or (may_load (DRAW_COUNT credit_line_id) s) 0 in
  rfold (range 0 draw_count) 0 (add_outstanding s credit_line_id).

(** ** Successful runs *)
Section successful_runs.
Implicit Types (s : storage).

Lemma rbind_inl {A B} (m : R A) (k : A -> R B) b :
  rbind m k = inl b -> exists a, m = inl a /\ k a = inl b.
Proof. destruct m; [eauto|done]. Qed.

Lemma wbind_inl {A B} (m : W A) (k : A -> W B) s b s' :
  wbind m k s = inl (b, s') -> exists a s1, m s = inl (a, s1) /\ k a s1 = inl (b, s').
Proof. unfold wbind. destruct (m s) as [[a s1]|]; [eauto|done]. Qed.

Lemma read_inl {A} (f : storage -> R A) s a s' : read f s = inl (a, s') -> f s = inl a /\ s' = s.
Proof. unfold read. destruct (f s); [|done]. by intros [= -> ->]. Qed.

Lemma wret_inl {A} (a : A) s b s' : wret a s = inl (b, s') -> b = a /\ s' = s.
Proof. by intros [= <- <-]. Qed.

Lemma fail_if_inl b e s u s' : fail_if b e s = inl (u, s') -> b = false /\ s' = s.
Proof. unfold fail_if. destruct b; [done|]. by intros [= _ ->]. Qed.

Lemma lift_inl {A} (r : R A) s a s' : lift r s = inl (a, s') -> r = inl a /\ s' = s.
Proof. apply read_inl. Qed.

Lemma get_inl k s o s' : get k s = inl (o, s') -> o = may_load k s /\ s' = s.
Proof. by intros [= <- <-]. Qed.

Lemma save_inl k v s u s' : save k v s = inl (u, s') -> s' = store_put (H := CwContract) k v s.
Proof. by intros [= _ <-]. Qed.

Lemma remove_inl k s u s' : remove k s = inl (u, s') -> s' = store_remove (H := CwContract) k s.
Proof. by intros [= _ <-]. Qed.

Lemma ok_or_inl {A} (o : option A) e a : ok_or o e = inl a -> o = Some a.
Proof. destruct o; [by intros [= ->]|done]. Qed.

Lemma native_inl {A} (o : option A) a : native o = inl a -> o = Some a.
Proof. destruct o; [by intros [= ->]|done]. Qed.

Lemma std_try_inl {A} (r : A + StdError) a : std_try r = inl a -> r = inl a.
Proof. destruct r; [by intros [= ->]|done]. Qed.

Lemma load_inl k s v : load k s = inl v -> may_load k s = Some v.
Proof. apply ok_or_inl. Qed.
End successful_runs.

(** [winv H] inverts a successful run down to its guards and writes. *)
Ltac wstep H :=
  let m := type of H in
  match m with
  | wbind _ _ _ = inl _ => let H1 := fresh "Hr" in
      apply wbind_inl in H as (? & ? & H1 & H); wstep H1; try discriminate H; wstep H
  | rbind _ _ = inl _ => let H1 := fresh "Hr" in
      apply rbind_inl in H as (? & H1 & H); wstep H1; wstep H
  | read _ _ = inl _ => apply read_inl in H as [H ?]; wstep H
  | lift _ _ = inl _ => apply lift_inl in H as [H ?]; wstep H
  | wret _ _ = inl _ => apply wret_inl in H as [? ?]
  | fail_if _ _ _ = inl _ => apply fail_if_inl in H as [H ?]
  | get _ _ = inl _ => apply get_inl in H as [? ?]
  | save _ _ _ = inl _ => apply save_inl in H
  | remove _ _ = inl _ => apply remove_inl in H
  | ok_or _ _ = inl _ => apply ok_or_inl in H
  | native _ = inl _ => apply native_inl in H
  | std_try _ = inl _ => apply std_try_inl in H
  | load _ _ = inl _ => apply load_inl in H
  | inl _ = inl _ => injection H as H
  | inr _ = inl _ => discriminate H
  | err _ = inl _ => discriminate H
  | (match ?x with _ => _ end) _ = inl _ => destruct x eqn:?; wstep H
  | (match ?x with _ => _ end) = inl _ => destruct x eqn:?; wstep H
  | _ => idtac
  end.

Ltac winv H := wstep H; subst.

(** ** Untouched keys: [touches P m] - a successful [m] changes only keys in [P] *)
Definition touches {A} (P : CwKey -> Prop) (m : W A) : Prop :=
  forall s a s' k, m s = inl (a, s') -> ~ P k -> s' k = s k.

Section touched_keys.
Context (P : CwKey -> Prop).

Lemma touches_bind {A B} (m : W A) (k : A -> W B) :
  touches P m -> (forall a, touches P (k a)) -> touches P (wbind m k).
Proof.
  intros Hm Hk s b s' q (a & s1 & H1 & H2)%wbind_inl Hq. by rewrite (Hk a _ _ _ _ H2 Hq), (Hm _ _ _ _ H1 Hq).
Qed.

Lemma touches_read {A} (f : storage -> R A) : touches P (read f).
Proof. by intros s a s' q [_ ->]%read_inl. Qed.

Lemma touches_lift {A} (r : R A) : touches P (lift r).
Proof. apply touches_read. Qed.

Lemma touches_ret {A} (a : A) : touches P (wret a).
Proof. by intros s b s' q [_ ->]%wret_inl. Qed.

Lemma touches_fail_if b e : touches P (fail_if b e).
Proof. by intros s u s' q [_ ->]%fail_if_inl. Qed.

Lemma touches_get k : touches P (get k).
Proof. by intros s u s' q [_ ->]%get_inl. Qed.

Lemma touches_save k v : P k -> touches P (save k v).
Proof. intros Hk s u s' q ->%save_inl Hq. apply store_put_ne. by intros ->. Qed.

Lemma touches_remove k : P k -> touches P (remove k).
Proof. intros Hk s u s' q ->%remove_inl Hq. apply store_remove_ne. by intros ->. Qed.
End touched_keys.

Lemma touches_weaken {A} (P Q : CwKey -> Prop) (m : W A) :
  (forall k, P k -> Q k) -> touches P m -> touches Q m.
Proof. intros HPQ Hm s a s' k Hr Hk. apply (Hm s a s' k Hr). by intros ?%HPQ. Qed.

Create HintDb touches.
#[export] Hint Resolve touches_bind touches_read touches_lift touches_ret touches_fail_if touches_get : touches.

Ltac touch :=
  repeat first
    [ progress intros
    | progress cbv beta
    | apply touches_read | apply touches_lift | apply touches_ret | apply touches_fail_if
    | apply touches_get | apply touches_bind
    | apply touches_save; solve [done | firstorder | eauto]
    | apply touches_remove; solve [done | firstorder | eauto]
    | match goal with |- touches _ (match ?x with _ => _ end) => destruct x end
    | solve [eauto with touches] ].

(** Reading back what was written. *)
Ltac cwput :=
  unfold may_load in *;
  repeat first
    [ rewrite (store_put_eq (C := CwContract))
    | rewrite (store_put_ne (C := CwContract)) by first [discriminate | congruence]
    | rewrite (store_remove_eq (C := CwContract))
    | rewrite (store_remove_ne (C := CwContract)) by first [discriminate | congruence] ].

Lemma rfold_ext {A B} (l : list A) (acc : B) f g : (forall b a, f b a = g b a) -> rfold l acc f = rfold l acc g.
Proof.
  intros Hfg. revert acc. induction l as [|x l IH]; intros acc; cbn; [done|]. rewrite Hfg.
  destruct (g acc x); [apply IH|done].
Qed.

(** Ranges. *)
Lemma elem_of_range lo hi i : i ∈ range lo hi <-> lo <= i < hi.
Proof.
  unfold range. rewrite list_elem_of_fmap. split.
  - intros (n & -> & Hn%elem_of_seq). lia.
  - intros Hi. exists (Z.to_nat (i - lo)). split; [lia|]. apply elem_of_seq. lia.
Qed.

Lemma range_snoc hi : 0 <= hi -> range 0 (hi + 1) = range 0 hi ++ [hi].
Proof.
  intros Hh. unfold range. replace (Z.to_nat (hi + 1 - 0)) with (S (Z.to_nat (hi - 0))) by lia.
  rewrite seq_S, fmap_app. cbn. do 2 f_equal. lia.
Qed.

Lemma length_range lo hi : length (range lo hi) = Z.to_nat (hi - lo).
Proof. unfold range. by rewrite length_fmap, length_seq. Qed.

Lemma NoDup_range lo hi : NoDup (range lo hi).
Proof. apply NoDup_fmap_2; [intros ? ?; lia|apply NoDup_seq]. Qed.
