(* ===== verification/CwRates.v ===== *)
(** * The CosmWasm credit contract: pure arithmetic
    ([creditra-credit/src/math_utils.rs], [accrual.rs], [limits.rs], [penalties.rs],
    [handshake.rs], [key.rs] and the fee split of [fees.rs])

    [Uint128] is a [Z] in range; its [checked_*] operations are [checked_u128].
    [limits.rs] is in the crate's directory but not among its modules. *)
From Stdlib Require Strings.String.
From S2P Require Import Prelude Soroban CwState.

(** ** [math_utils.rs] *)
Inductive Rounding := Floor | Ceil.

Definition mul_div (a numerator denominator : Z) (rounding : Rounding) : option Z :=
  if denominator =? 0 then None else
  let? product := checked_u128 (a * numerator) in
  let quotient := product / denominator in
  match rounding with
  | Floor => Some quotient
  | Ceil => if negb (product mod denominator =? 0) then checked_u128 (quotient + 1) else Some quotient
  end.

(** ** [accrual.rs] *)
Definition SECONDS_PER_YEAR : Z := 31536000.

Definition BPS_DENOMINATOR : Z := 10000.

Definition BPS_YEAR_DENOM : Z := BPS_DENOMINATOR * SECONDS_PER_YEAR.

Definition accrued_interest (principal rate_bps elapsed_seconds : Z) : R Z :=
  if (principal =? 0) || (rate_bps =? 0) || (elapsed_seconds =? 0) then inl 0 else
  let! numerator := ok_or (let? v := checked_u128 (principal * rate_bps) in
                           checked_u128 (v * elapsed_seconds)) Overflow in
  inl (numerator / BPS_YEAR_DENOM).

(** ** [limits.rs] *)
Definition limits_BPS_DENOMINATOR : Z := 10000.

Definition MAX_RATE_BPS : Z := 10000.

Definition is_valid_ceiling_bps (bps : Z) : bool := bps <=? MAX_RATE_BPS.

Definition validate_ceiling_bps (bps : Z) : R Z :=
  if is_valid_ceiling_bps bps then inl bps else err InvalidAmount.

Definition effective_ceiling_bps (default_bps : Z) (borrower_override : option Z) : Z :=
  match borrower_override with Some bps => bps | None => default_bps end.

Definition check_rate_within_ceiling (rate_bps ceiling_bps : Z) : R unit :=
  if ceiling_bps <? rate_bps then err RateCeilingExceeded else inl tt.

Definition clamp_rate_to_ceiling (rate_bps ceiling_bps : Z) : Z :=
  if rate_bps <? ceiling_bps then rate_bps else ceiling_bps.

Definition max_interest_for_principal (principal ceiling_bps : Z) : R Z :=
  let! scaled := ok_or (checked_u128 (principal * ceiling_bps)) InvalidAmount in
  inl (scaled / limits_BPS_DENOMINATOR).

(** ** [penalties.rs] *)
Definition MAX_SURCHARGE_BPS : Z := 10000.

Definition compute_late_fee (config : LateFeeConfig) (missed_installments : Z) : R Z :=
  if missed_installments =? 0 then inl 0 else
  match config with
  | Flat amount =>
      if amount =? 0 then inl 0 else ok_or (checked_u128 (amount * missed_installments)) Overflow
  | AprBased _ => inl 0
  end.

Definition validate_late_fee_config (config : LateFeeConfig) : R unit :=
  match config with
  | Flat amount => if amount =? 0 then err InvalidAmount else inl tt
  | AprBased surcharge_bps => if MAX_SURCHARGE_BPS <? surcharge_bps then err RateTooHigh else inl tt
  end.

(** ** The fee split of [fees.rs] *)
Definition MAX_PROTOCOL_FEE_BPS : Z := 1000.

Definition MAX_FEE_SHARE_BPS : Z := 10000.

Definition DEFAULT_TREASURY_FEE_SHARE_BPS : Z := 10000.

Record FeeSplitAmounts := mkFeeSplitAmounts { treasury_amount : Z; bounty_amount : Z }.

Definition split_protocol_fee (total_fee treasury_share_bps : Z) : R FeeSplitAmounts :=
  if MAX_FEE_SHARE_BPS <? treasury_share_bps then err InvalidFeeShareBps else
  if total_fee =? 0 then inl (mkFeeSplitAmounts 0 0) else
  if treasury_share_bps =? 0 then inl (mkFeeSplitAmounts 0 total_fee) else
  if MAX_FEE_SHARE_BPS <=? treasury_share_bps then inl (mkFeeSplitAmounts total_fee 0) else
  let! scaled := ok_or (checked_u128 (total_fee * treasury_share_bps)) (Std (StdGenericErr "Fee split overflow")) in
  let treasury := scaled / MAX_FEE_SHARE_BPS in
  let! bounty := ok_or (checked_u128 (total_fee - treasury))
                       (Std (StdGenericErr "Fee split subtraction overflow")) in
  inl (mkFeeSplitAmounts treasury bounty).

(** ** [handshake.rs]: version negotiation *)
Definition is_compatible_with (self other : ProtocolVersion) : bool := major self =? major other.

Definition meets_minimum (self min : ProtocolVersion) : bool :=
  (major self =? major min) && (minor min <=? minor self).

Definition negotiate (our_version their_version our_min_compat their_min_compat : ProtocolVersion)
  : option ProtocolVersion :=
  if negb (major our_version =? major their_version) then None else
  if negb (meets_minimum our_version their_min_compat) then None else
  if negb (meets_minimum their_version our_min_compat) then None else
  Some (mkProtocolVersion (major our_version) (Z.min (minor our_version) (minor their_version))).

Definition CURRENT_PROTOCOL_VERSION : ProtocolVersion := mkProtocolVersion 1 0.

Definition MIN_COMPATIBLE_VERSION : ProtocolVersion := mkProtocolVersion 1 0.

Definition verify_peer_version (our_version peer_version : ProtocolVersion) : bool :=
  is_compatible_with our_version peer_version && is_compatible_with peer_version our_version.

(** ** [key.rs]: borrower keys are the bytes of the address *)
Record BorrowerKey := mkBorrowerKey { key_bytes : list Byte.byte }.

Definition borrower_key_bytes (addr : Addr) : list Byte.byte := String.list_byte_of_string (addr_str addr).

Definition from_address (addr : Addr) : BorrowerKey := mkBorrowerKey (borrower_key_bytes addr).

Definition as_bytes (k : BorrowerKey) : list Byte.byte := key_bytes k.

Definition len (k : BorrowerKey) : Z := Z.of_nat (length (key_bytes k)).

Definition is_empty (k : BorrowerKey) : bool := len k =? 0.
