(* ===== verification/CwOracles.v ===== *)
(** * The CosmWasm credit contract: oracles ([creditra-credit/src/oracles.rs]) *)
From S2P Require Import Prelude Soroban CwState.

Definition add_oracle (oracle : Addr) (weight : Z) : W unit :=
  fail_if (weight =? 0) InvalidAmount ;;
  let* o := get ORACLE_LIST in
  let oracle_list := unwrap_or o [] in
  (if bool_decide (oracle ∈ oracle_list) then wret tt else save ORACLE_LIST (oracle_list ++ [oracle])) ;;
  save (ORACLE_WEIGHT oracle) weight.

(** [position] finds the first occurrence, [remove] shifts the rest. *)
Fixpoint position (oracle : Addr) (l : list Addr) : option nat :=
  match l with
  | [] => None
  | x :: l' => if decide (x = oracle) then Some 0%nat else option_map S (position oracle l')
  end.

Definition remove_oracle (oracle : Addr) : W unit :=
  let* o := get ORACLE_LIST in
  let oracle_list := unwrap_or o [] in
  match position oracle oracle_list with
  | Some idx =>
      save ORACLE_LIST (delete idx oracle_list) ;;
      remove (ORACLE_WEIGHT oracle) ;;
      remove (ORACLE_REPORT oracle)
  | None => lift (err OracleNotFound)
  end.

Definition report_value (env : Env) (info : MessageInfo) (value : Z) : W unit :=
  let* o := get ORACLE_LIST in
  fail_if (negb (bool_decide (sender info ∈ unwrap_or o []))) Unauthorized ;;
  save (ORACLE_REPORT (sender info)) (mkOracleReportData value (seconds (block_time env))).

Definition is_price_stale (record : OraclePriceRecord) (cfg : OracleQuorumConfig) (current_timestamp : Z)
  : bool :=
  if current_timestamp <? pr_timestamp record then true else
  max_age_seconds cfg <? sat_u64 (current_timestamp - pr_timestamp record).

(** The last line of the source is [Some(bps as u32)]: a truncation. *)
Definition compute_deviation_bps (price last_price : Z) : option Z :=
  if last_price <=? 0 then None else
  let diff := Z.abs (price - last_price) in
  let? scaled := checked_u128 (diff * 10000) in
  let? raised := checked_u128 (scaled + (as_u128 last_price - 1)) in
  let bps := raised / as_u128 last_price in
  Some (bps mod (u32_max + 1)).

(** Selection sort: index of the minimum, swapped to the front of the suffix. *)
Fixpoint min_index (l : list Z) (j min_idx : nat) (rest : list Z) : nat :=
  match rest with
  | [] => min_idx
  | y :: rest' => min_index l (S j) (if y <? l !!! min_idx then j else min_idx) rest'
  end.

Definition swap (l : list Z) (i j : nat) : list Z := <[j := l !!! i]> (<[i := l !!! j]> l).

Definition selection_step (l : list Z) (i : nat) : list Z :=
  swap l i (min_index l (S i) i (drop (S i) l)).

Definition selection_sort (l : list Z) : list Z := fold_left selection_step (seq 0 (length l)) l.

(** The scan of every consecutive [k]-wide window, lowest first. *)
Fixpoint window_scan (sorted : list Z) (k : nat) (max_deviation_bps : Z) (starts : list nat) : option Z :=
  match starts with
  | [] => None
  | i :: rest =>
      let lo := sorted !!! i in
      let hi := sorted !!! (i + k - 1)%nat in
      let dev := unwrap_or (compute_deviation_bps hi lo) u32_max in
      if dev <=? max_deviation_bps then Some (sorted !!! (i + (k - 1) / 2)%nat)
      else window_scan sorted k max_deviation_bps rest
  end.

Definition resolve_quorum_price (prices : list Z) (cfg : OracleQuorumConfig) : R Z :=
  let n := Z.of_nat (length prices) in
  if (n =? 0) || (MAX_ORACLE_FEEDS <? n) then err OraclePriceInvalid else
  let k := min_quorum_k cfg in
  if (k <? 2) || (n <? k) then err OracleQuorumNotMet else
  if existsb (fun p => p <=? 0) prices then err OraclePriceInvalid else
  let slice := selection_sort prices in
  let kk := Z.to_nat k in
  ok_or (window_scan slice kk (max_deviation_bps cfg) (seq 0 (length prices - kk + 1))) OracleQuorumNotMet.

(** Three feeds agree and one is an outlier. *)
Example quorum_of_three :
  resolve_quorum_price [105; 300; 100; 101] (mkOracleQuorumConfig 3 1000 60) = inl 101.
Proof. reflexivity. Qed.

(** Two feeds that differ by a factor of more than 2^28 pass for equal. *)
Example wrapped_deviation :
  resolve_quorum_price [1; 268435457] (mkOracleQuorumConfig 2 0 60) = inl 1.
Proof. reflexivity. Qed.
