(* ===== verification/CwCollateral.v ===== *)
(** * The CosmWasm credit contract: collateral and fee accumulators
    ([creditra-credit/src/collateral.rs], [fees.rs])

    Reading functions are functions of the storage; writing ones are [W]
    computations.  [Response] attributes are kept. *)
From S2P Require Import Prelude Soroban CwState CwRates.
From Stdlib Require Strings.String.

(** ** Collateral *)
Definition is_collateral_token_allowed (denom : string) (s : storage) : bool :=
  match may_load COLLATERAL_TOKEN_ALLOWLIST s with
  | Some list => bool_decide (denom ∈ list)
  | None => false
  end.

Definition collateral_risk_weight_bps (denom : string) (s : storage) : Z :=
  unwrap_or (may_load (COLLATERAL_RISK_WEIGHTS denom) s) DEFAULT_COLLATERAL_RISK_WEIGHT_BPS.

Definition collateral_response (action : string) (borrower : Addr) (denom : string) (amount : Z) : Response :=
  mkResponse [("action", action); ("borrower", addr_str borrower); ("denom", denom); ("amount", to_string amount)].

Definition deposit_collateral (borrower : Addr) (denom : string) (amount : Z) : W Response :=
  fail_if (amount =? 0) InvalidAmount ;;
  let* allowed := read (fun s => inl (is_collateral_token_allowed denom s)) in
  fail_if (negb allowed) CollateralTokenNotAllowed ;;
  let* o := get (COLLATERAL_BALANCES borrower denom) in
  let balance := unwrap_or o 0 in
  let* new_balance := lift (ok_or (checked_u128 (balance + amount)) Overflow) in
  save (COLLATERAL_BALANCES borrower denom) new_balance ;;
  let* t := get (BORROWER_COLLATERAL_TOKENS borrower) in
  let tokens := unwrap_or t [] in
  (if bool_decide (denom ∈ tokens) then wret tt
   else save (BORROWER_COLLATERAL_TOKENS borrower) (tokens ++ [denom])) ;;
  wret (collateral_response "deposit_collateral" borrower denom amount).

Definition withdraw_collateral (borrower : Addr) (denom : string) (amount : Z) : W Response :=
  fail_if (amount =? 0) InvalidAmount ;;
  let* o := get (COLLATERAL_BALANCES borrower denom) in
  let* balance := lift (ok_or o InsufficientCollateralBalance) in
  fail_if (balance <? amount) InsufficientCollateralBalance ;;
  let* new_balance := lift (ok_or (checked_u128 (balance - amount)) Overflow) in
  (if new_balance =? 0 then
     remove (COLLATERAL_BALANCES borrower denom) ;;
     let* t := get (BORROWER_COLLATERAL_TOKENS borrower) in
     save (BORROWER_COLLATERAL_TOKENS borrower) (filter (fun t => t <> denom) (unwrap_or t []))
   else save (COLLATERAL_BALANCES borrower denom) new_balance) ;;
  wret (collateral_response "withdraw_collateral" borrower denom amount).

Definition query_collateral_balance (borrower : Addr) (denom : string) (s : storage) : Z :=
  unwrap_or (may_load (COLLATERAL_BALANCES borrower denom) s) 0.

(** [sort_by] on the denominations: byte-wise, hence [String.leb]. *)
Definition denom_le (a b : string * Z) : Prop := String.leb a.1 b.1 = true.

#[export] Instance denom_le_dec : RelDecision denom_le.
Proof. unfold denom_le. intros a b. apply _. Defined.

Definition query_borrower_collateral (borrower : Addr) (s : storage) : list (string * Z) :=
  let tokens := unwrap_or (may_load (BORROWER_COLLATERAL_TOKENS borrower) s) [] in
  merge_sort denom_le
    (filter (fun p => p.2 <> 0) ((fun t => (t, query_collateral_balance borrower t s)) <$> tokens)).

Definition weighted_amount (denom : string) (balance : Z) (s : storage) : R Z :=
  let weight := collateral_risk_weight_bps denom s in
  let! product := ok_or (checked_u128 (balance * weight)) Overflow in
  inl (product / 10000).

Definition weighted_collateral_total (borrower : Addr) (s : storage) : R Z :=
  rfold (query_borrower_collateral borrower s) 0 (fun total p =>
    let! weighted := weighted_amount p.1 p.2 s in
    ok_or (checked_u128 (total + weighted)) Overflow).

Definition query_collateral_allowlist (s : storage) : list string :=
  unwrap_or (may_load COLLATERAL_TOKEN_ALLOWLIST s) [].

Definition token_response (action denom : string) (risk_weight_bps : Z) : Response :=
  mkResponse [("action", action); ("denom", denom); ("risk_weight_bps", to_string risk_weight_bps)].

Definition add_collateral_token (denom : string) (risk_weight_bps : Z) : W Response :=
  fail_if (10000 <? risk_weight_bps) InvalidAmount ;;
  let* o := get COLLATERAL_TOKEN_ALLOWLIST in
  let list := unwrap_or o [] in
  fail_if (bool_decide (denom ∈ list)) AlreadySettled ;;
  fail_if (MAX_COLLATERAL_TOKENS <=? Z.of_nat (length list)) TooManyCollateralTokens ;;
  save COLLATERAL_TOKEN_ALLOWLIST (list ++ [denom]) ;;
  (if negb (risk_weight_bps =? DEFAULT_COLLATERAL_RISK_WEIGHT_BPS)
   then save (COLLATERAL_RISK_WEIGHTS denom) risk_weight_bps else wret tt) ;;
  wret (token_response "add_collateral_token" denom risk_weight_bps).

Definition remove_collateral_token (denom : string) : W Response :=
  let* o := get COLLATERAL_TOKEN_ALLOWLIST in
  let list := unwrap_or o [] in
  fail_if (negb (bool_decide (denom ∈ list))) CollateralTokenNotAllowed ;;
  save COLLATERAL_TOKEN_ALLOWLIST (filter (fun d => d <> denom) list) ;;
  remove (COLLATERAL_RISK_WEIGHTS denom) ;;
  wret (mkResponse [("action", "remove_collateral_token"); ("denom", denom)]).

Definition set_collateral_risk_weight (denom : string) (risk_weight_bps : Z) : W Response :=
  fail_if (10000 <? risk_weight_bps) InvalidAmount ;;
  let* o := get COLLATERAL_TOKEN_ALLOWLIST in
  fail_if (negb (bool_decide (denom ∈ unwrap_or o []))) CollateralTokenNotAllowed ;;
  save (COLLATERAL_RISK_WEIGHTS denom) risk_weight_bps ;;
  wret (token_response "set_collateral_risk_weight" denom risk_weight_bps).

(** ** Fee accumulators *)
Definition get_treasury_fee_share_bps (market_denom : string) (s : storage) : Z :=
  match may_load (MARKET_FEE_SHARE_BPS market_denom) s with
  | Some bps => bps
  | None => unwrap_or (may_load DEFAULT_FEE_SHARE_BPS s) DEFAULT_TREASURY_FEE_SHARE_BPS
  end.

Definition accrue_protocol_fee (market_denom : string) (total_fee : Z) : W FeeSplitAmounts :=
  if total_fee =? 0 then wret (mkFeeSplitAmounts 0 0) else
  let* treasury_share_bps := read (fun s => inl (get_treasury_fee_share_bps market_denom s)) in
  let* split := lift (split_protocol_fee total_fee treasury_share_bps) in
  (if negb (treasury_amount split =? 0) then
     let* o := get (TREASURY_BALANCE market_denom) in
     let* updated := lift (ok_or (checked_u128 (unwrap_or o 0 + treasury_amount split))
                                 (Std (StdGenericErr "Treasury balance overflow"))) in
     save (TREASURY_BALANCE market_denom) updated
   else wret tt) ;;
  (if negb (bounty_amount split =? 0) then
     let* o := get (BOUNTY_BALANCE market_denom) in
     let* updated := lift (ok_or (checked_u128 (unwrap_or o 0 + bounty_amount split))
                                 (Std (StdGenericErr "Bounty balance overflow"))) in
     save (BOUNTY_BALANCE market_denom) updated
   else wret tt) ;;
  wret split.

Definition assert_owner (who : Addr) (s : storage) : R Config :=
  let! config := load CONFIG s in
  if negb (bool_decide (who = owner config)) then err Unauthorized else inl config.

Definition set_protocol_fee_bps (who : Addr) (bps : Z) : W unit :=
  read (assert_owner who) ;;
  fail_if (MAX_PROTOCOL_FEE_BPS <? bps) ProtocolFeeBpsExceeded ;;
  save PROTOCOL_FEE_BPS bps.

Definition get_protocol_fee_bps (s : storage) : Z := unwrap_or (may_load PROTOCOL_FEE_BPS s) 0.

Definition withdraw_treasury (who : Addr) (market_denom : string) (amount : Z) : W Z :=
  read (assert_owner who) ;;
  fail_if (amount =? 0) InvalidAmount ;;
  let* o := get (TREASURY_BALANCE market_denom) in
  let balance := unwrap_or o 0 in
  fail_if (balance <? amount) InsufficientTreasuryBalance ;;
  let* updated := lift (ok_or (checked_u128 (balance - amount)) (Std (StdGenericErr "Treasury withdrawal underflow"))) in
  save (TREASURY_BALANCE market_denom) updated ;;
  wret amount.

Definition withdraw_bounty (who : Addr) (market_denom : string) (amount : Z) : W Z :=
  read (assert_owner who) ;;
  fail_if (amount =? 0) InvalidAmount ;;
  let* o := get (BOUNTY_BALANCE market_denom) in
  let balance := unwrap_or o 0 in
  fail_if (balance <? amount) InsufficientBountyBalance ;;
  let* updated := lift (ok_or (checked_u128 (balance - amount)) (Std (StdGenericErr "Bounty withdrawal underflow"))) in
  save (BOUNTY_BALANCE market_denom) updated ;;
  wret amount.
