(* ===== verification/CwViews.v ===== *)
(** * The CosmWasm credit contract: queries ([creditra-credit/src/views.rs] and
    the response types of [msg.rs]) *)
From S2P Require Import Prelude Soroban CwState CwRates CwCollateral.
From Stdlib Require Strings.String.

(** ** Responses *)
Record DrawAuditTrailResponse := mkDrawAuditTrailResponse {
  at_credit_line_id : Z;
  at_draw_id : Z;
  at_draw_amount : string;
  at_draw_denom : string;
  at_drawn_at : Timestamp;
  at_drawn_by : Addr;
  at_repaid : bool;
  at_events : list DrawAuditEvent;
}.

Record DenomReserve := mkDenomReserve {
  de_denom : string;
  de_collateral_amount : Z;
  de_credit_limit : Z;
  de_drawn_amount : Z;
  de_repaid_amount : Z;
  de_net_outstanding : Z;
}.

Record ProofOfReserveResponse := mkProofOfReserveResponse {
  po_total_credit_lines : Z;
  po_active_credit_lines : Z;
  po_total_collateral : Z;
  po_total_credit_limit : Z;
  po_total_drawn : Z;
  po_total_repaid : Z;
  po_net_outstanding : Z;
  po_reserves_by_denom : list DenomReserve;
}.

Record CreditLineHealthResponse := mkCreditLineHealthResponse {
  he_credit_line_id : Z;
  he_collateral_denom : string;
  he_collateral_amount : Z;
  he_credit_denom : string;
  he_credit_amount : Z;
  he_utilized_amount : Z;
  he_health_factor_bps : Z;
}.

Record BorrowerHealthFactorResponse := mkBorrowerHealthFactorResponse {
  bh_borrower : string;
  bh_credit_lines : list CreditLineHealthResponse;
}.

Record CollateralEntryResponse := mkCollateralEntryResponse {
  ce_denom : string;
  ce_amount : Z;
  ce_risk_weight_bps : Z;
}.

Record CollateralBalanceResponse := mkCollateralBalanceResponse {
  cb_borrower : string;
  cb_entries : list CollateralEntryResponse;
  cb_weighted_total : Z;
}.

Record DrawSnapshotEntry := mkDrawSnapshotEntry {
  ds_draw_id : Z;
  ds_amount : Z;
  ds_denom : string;
  ds_drawn_at : Timestamp;
  ds_drawn_by : Addr;
  ds_repaid : bool;
}.

Record CreditLineSnapshotResponse := mkCreditLineSnapshotResponse {
  sn_credit_line_id : Z;
  sn_borrower : Addr;
  sn_collateral_denom : string;
  sn_collateral_amount : Z;
  sn_credit_denom : string;
  sn_credit_amount : Z;
  sn_active : bool;
  sn_total_utilized : Z;
  sn_multi_collateral : list CollateralEntryResponse;
  sn_weighted_collateral_total : Z;
  sn_health_factor_bps : Z;
  sn_draws : list DrawSnapshotEntry;
}.

Definition generic_err (msg : string) : ContractError := Std (StdGenericErr msg).

(** [v.push(f(i)?)] over a range. *)
Definition collect {A} (l : list Z) (f : Z -> R A) : R (list A) :=
  rfold l [] (fun acc i => let! a := f i in inl (acc ++ [a])).

(** ** Audit trail *)
Definition ensure_draw_exists (s : storage) (credit_line_id draw_id : Z) : R unit :=
  let! draw := ok_or (may_load (DRAWS credit_line_id draw_id) s) (DrawNotFound draw_id credit_line_id) in
  inl tt.

Definition build_response (s : storage) (credit_line_id draw_id : Z) : R DrawAuditTrailResponse :=
  let! draw := load (DRAWS credit_line_id draw_id) s in
  let audit_count := unwrap_or (may_load (DRAW_AUDIT_COUNT credit_line_id draw_id) s) 0 in
  let! events := collect (range 0 audit_count) (fun seq =>
    let! entry := load (DRAW_AUDIT credit_line_id draw_id seq) s in
    inl (into_event entry)) in
  inl (mkDrawAuditTrailResponse credit_line_id draw_id (to_string (dr_amount draw)) (dr_denom draw)
         (drawn_at draw) (drawn_by draw) (repaid draw) events).

Definition query_draw_audit_trail (s : storage) (credit_line_id : Z) (draw_id start_after limit : option Z)
  : R (list DrawAuditTrailResponse) :=
  let! line := ok_or (may_load (CREDIT_LINES credit_line_id) s) (CreditLineNotFound credit_line_id) in
  let limit := unwrap_or limit 30 in
  match draw_id with
  | Some did =>
      let! found := ensure_draw_exists s credit_line_id did in
      let! resp := build_response s credit_line_id did in
      inl [resp]
  | None =>
      let draw_count := unwrap_or (may_load (DRAW_COUNT credit_line_id) s) 0 in
      let! start := match start_after with Some x => native (checked_u64 (x + 1)) | None => inl 0 end in
      let! last := native (checked_u64 (start + limit)) in
      collect (range start (Z.min last draw_count)) (build_response s credit_line_id)
  end.

(** ** Proof of reserve

    [BTreeMap<String, DenomReserve>] is the list of its values in key order. *)
Definition new_reserve (denom : string) : DenomReserve := mkDenomReserve denom 0 0 0 0 0.

(** [map.entry(denom).or_insert_with(new)], then an update of the entry. *)
Fixpoint with_entry (denom : string) (f : DenomReserve -> R DenomReserve) (m : list DenomReserve)
  : R (list DenomReserve) :=
  match m with
  | [] => let! e := f (new_reserve denom) in inl [e]
  | e :: m' =>
      if String.eqb denom (de_denom e) then let! e' := f e in inl (e' :: m')
      else if String.ltb denom (de_denom e) then let! e' := f (new_reserve denom) in inl (e' :: e :: m')
      else let! m'' := with_entry denom f m' in inl (e :: m'')
  end.

Definition add_to_denom_collateral (denom : string) (amount : Z) (m : list DenomReserve) : R (list DenomReserve) :=
  with_entry denom (fun e =>
    let! c := ok_or (checked_u128 (de_collateral_amount e + amount)) (generic_err "Collateral overflow") in
    inl (mkDenomReserve (de_denom e) c (de_credit_limit e) (de_drawn_amount e) (de_repaid_amount e)
           (de_net_outstanding e))) m.

Definition add_credit_limit (denom : string) (amount : Z) (m : list DenomReserve) : R (list DenomReserve) :=
  with_entry denom (fun e =>
    let! l := ok_or (checked_u128 (de_credit_limit e + amount)) (generic_err "Credit limit overflow") in
    inl (mkDenomReserve (de_denom e) (de_collateral_amount e) l (de_drawn_amount e) (de_repaid_amount e)
           (de_net_outstanding e))) m.

Definition add_repaid (denom : string) (amount : Z) (m : list DenomReserve) : R (list DenomReserve) :=
  with_entry denom (fun e =>
    let! r := ok_or (checked_u128 (de_repaid_amount e + amount)) (generic_err "Repaid overflow") in
    inl (mkDenomReserve (de_denom e) (de_collateral_amount e) (de_credit_limit e) (de_drawn_amount e) r
           (de_net_outstanding e))) m.

Definition add_drawn (denom : string) (amount : Z) (m : list DenomReserve) : R (list DenomReserve) :=
  with_entry denom (fun e =>
    let! d := ok_or (checked_u128 (de_drawn_amount e + amount)) (generic_err "Drawn overflow") in
    inl (mkDenomReserve (de_denom e) (de_collateral_amount e) (de_credit_limit e) d (de_repaid_amount e)
           (de_net_outstanding e))) m.

(** The running totals of the loop. *)
Record Totals := mkTotals {
  total_credit_lines : Z;
  active_credit_lines : Z;
  total_collateral : Z;
  total_credit_limit : Z;
  total_drawn : Z;
  total_repaid : Z;
  denom_map : list DenomReserve;
}.

(** [filter.is_none() || filter == Some(denom)] *)
Definition selected (filter : option string) (denom : string) : bool :=
  match filter with Some target => String.eqb denom target | None => true end.

Definition line_matches (filter : option string) (cl : CreditLine) : bool :=
  match filter with
  | Some target => String.eqb (collateral_denom cl) target || String.eqb (credit_denom cl) target
  | None => true
  end.

(** An active line that matches the filter. *)
Definition reserve_line (filter : option string) (cl : CreditLine) (t : Totals) : R Totals :=
  let! collateral := ok_or (checked_u128 (total_collateral t + collateral_amount cl)) (generic_err "Collateral overflow") in
  let! limit := ok_or (checked_u128 (total_credit_limit t + credit_amount cl)) (generic_err "Credit limit overflow") in
  let! m1 := if selected filter (collateral_denom cl)
             then add_to_denom_collateral (collateral_denom cl) (collateral_amount cl) (denom_map t)
             else inl (denom_map t) in
  let! m2 := if selected filter (credit_denom cl)
             then add_credit_limit (credit_denom cl) (credit_amount cl) m1 else inl m1 in
  inl (mkTotals (total_credit_lines t) (sat_u64 (active_credit_lines t + 1)) collateral limit
         (total_drawn t) (total_repaid t) m2).

(** One token of the borrower's multi-collateral. *)
Definition reserve_token (filter : option string) (t : Totals) (p : string * Z) : R Totals :=
  if selected filter p.1 then
    let! m := add_to_denom_collateral p.1 p.2 (denom_map t) in
    let! collateral := ok_or (checked_u128 (total_collateral t + p.2)) (generic_err "Collateral overflow") in
    inl (mkTotals (total_credit_lines t) (active_credit_lines t) collateral (total_credit_limit t)
           (total_drawn t) (total_repaid t) m)
  else inl t.

Definition reserve_draw (s : storage) (filter : option string) (id : Z) (t : Totals) (did : Z) : R Totals :=
  match may_load (DRAWS id did) s with
  | None => inl t
  | Some draw =>
      if negb (selected filter (dr_denom draw)) then inl t else
      if repaid draw then
        let! r := ok_or (checked_u128 (total_repaid t + dr_amount draw)) (generic_err "Repaid overflow") in
        let! m := add_repaid (dr_denom draw) (dr_amount draw) (denom_map t) in
        inl (mkTotals (total_credit_lines t) (active_credit_lines t) (total_collateral t)
               (total_credit_limit t) (total_drawn t) r m)
      else
        let! d := ok_or (checked_u128 (total_drawn t + dr_amount draw)) (generic_err "Drawn overflow") in
        let! m := add_drawn (dr_denom draw) (dr_amount draw) (denom_map t) in
        inl (mkTotals (total_credit_lines t) (active_credit_lines t) (total_collateral t)
               (total_credit_limit t) d (total_repaid t) m)
  end.

Definition reserve_step (s : storage) (filter : option string) (t : Totals) (id : Z) : R Totals :=
  match may_load (CREDIT_LINES id) s with
  | None => inl t
  | Some cl =>
      let cl_matches := line_matches filter cl in
      let t1 := if cl_matches
                then mkTotals (sat_u64 (total_credit_lines t + 1)) (active_credit_lines t) (total_collateral t)
                       (total_credit_limit t) (total_drawn t) (total_repaid t) (denom_map t)
                else t in
      let! t2 := if active cl then
                   let! t' := if cl_matches then reserve_line filter cl t1 else inl t1 in
                   rfold (query_borrower_collateral (borrower cl) s) t' (reserve_token filter)
                 else inl t1 in
      let draw_count := unwrap_or (may_load (DRAW_COUNT id) s) 0 in
      rfold (range 0 draw_count) t2 (reserve_draw s filter id)
  end.

Definition query_proof_of_reserve (s : storage) (denom_filter : option string) : R ProofOfReserveResponse :=
  let credit_line_count := unwrap_or (may_load CREDIT_LINE_COUNT s) 0 in
  let! t := rfold (range 0 credit_line_count) (mkTotals 0 0 0 0 0 0 []) (reserve_step s denom_filter) in
  let reserves := (fun e => mkDenomReserve (de_denom e) (de_collateral_amount e) (de_credit_limit e)
                              (de_drawn_amount e) (de_repaid_amount e) (de_drawn_amount e)) <$> denom_map t in
  inl (mkProofOfReserveResponse (total_credit_lines t) (active_credit_lines t) (total_collateral t)
         (total_credit_limit t) (total_drawn t) (total_repaid t) (total_drawn t) reserves).

(** ** Health factors *)

(** [effective * 10_000 / utilized], saturated to [u32]. *)
Definition health_ratio (effective_collateral utilized : Z) : R Z :=
  let! numerator := ok_or (checked_u128 (effective_collateral * 10000)) (Std StdOverflow) in
  let! result := ok_or (if utilized =? 0 then None else Some (numerator / utilized)) (Std StdDivideByZero) in
  inl (if result <=? u32_max then result else u32_max).

Definition line_health (s : storage) (cl : CreditLine) (id : Z) : R CreditLineHealthResponse :=
  let! utilized_amount := outstanding_utilization s id in
  let! multi_total := weighted_collateral_total (borrower cl) s in
  let! effective_collateral := ok_or (checked_u128 (collateral_amount cl + multi_total)) (Std StdOverflow) in
  let! health_factor_bps :=
    if utilized_amount =? 0 then inl u32_max
    else if (effective_collateral =? 0) || (credit_amount cl =? 0) then inl 0
    else health_ratio effective_collateral utilized_amount in
  inl (mkCreditLineHealthResponse id (collateral_denom cl) (collateral_amount cl) (credit_denom cl)
         (credit_amount cl) utilized_amount health_factor_bps).

Definition health_step (s : storage) (who : Addr) (acc : list CreditLineHealthResponse) (id : Z)
  : R (list CreditLineHealthResponse) :=
  match may_load (CREDIT_LINES id) s with
  | Some cl =>
      if active cl && bool_decide (borrower cl = who)
      then let! h := line_health s cl id in inl (acc ++ [h])
      else inl acc
  | None => inl acc
  end.

Definition query_borrower_health_factor `{CwApi} (s : storage) (who : string) : R BorrowerHealthFactorResponse :=
  let! borrower_addr := std_try (addr_validate who) in
  let! count := load CREDIT_LINE_COUNT s in
  let! credit_lines := rfold (range 0 count) [] (health_step s borrower_addr) in
  inl (mkBorrowerHealthFactorResponse who credit_lines).

(** ** Snapshot of a line *)
Definition snapshot_draw (s : storage) (credit_line_id : Z) (did : Z) : list DrawSnapshotEntry :=
  match may_load (DRAWS credit_line_id did) s with
  | Some draw => [mkDrawSnapshotEntry did (dr_amount draw) (dr_denom draw) (drawn_at draw) (drawn_by draw) (repaid draw)]
  | None => []
  end.

Definition collateral_entries (s : storage) (raw : list (string * Z)) : list CollateralEntryResponse :=
  (fun p => mkCollateralEntryResponse p.1 p.2 (collateral_risk_weight_bps p.1 s)) <$> raw.

Definition query_credit_line_snapshot `{CwApi} (s : storage) (credit_line_id : Z)
  : R (option CreditLineSnapshotResponse) :=
  match may_load (CREDIT_LINES credit_line_id) s with
  | None => inl None
  | Some cl =>
      let draw_count := unwrap_or (may_load (DRAW_COUNT credit_line_id) s) 0 in
      let draws := range 0 draw_count ≫= snapshot_draw s credit_line_id in
      let! total_utilized := outstanding_utilization s credit_line_id in
      let multi_collateral := collateral_entries s (query_borrower_collateral (borrower cl) s) in
      let! weighted_total :=
        match weighted_collateral_total (borrower cl) s with
        | inr (Err e) => err (generic_err (error_to_string e))
        | r => r
        end in
      let! effective_collateral := ok_or (checked_u128 (collateral_amount cl + weighted_total)) (Std StdOverflow) in
      let! health_factor_bps :=
        if total_utilized =? 0 then inl u32_max
        else if effective_collateral =? 0 then inl 0
        else health_ratio effective_collateral total_utilized in
      inl (Some (mkCreditLineSnapshotResponse credit_line_id (borrower cl) (collateral_denom cl)
             (collateral_amount cl) (credit_denom cl) (credit_amount cl) (active cl) total_utilized
             multi_collateral weighted_total health_factor_bps draws))
  end.
