(* ===== verification/CwCredit.v ===== *)
(** * The CosmWasm credit contract: entrypoints ([creditra-credit/src/contract.rs],
    the stored version of [handshake.rs])

    [instantiate], [execute] and [query] dispatch to one definition per handler.
    The queries answer the value the code serialises to JSON. *)
From S2P Require Import Prelude Soroban CwState CwRates CwOracles CwCollateral CwViews.

(** ** Messages ([msg.rs]) *)
Record InstantiateMsg := mkInstantiateMsg { im_owner : string }.

Inductive ExecuteMsg :=
| CreateCreditLine (borrower collateral_denom collateral_amount credit_denom credit_amount : string)
| CreateDraw (credit_line_id : Z) (amount denom : string)
| RepayDraw (credit_line_id draw_id : Z)
| AddAuditMemo (credit_line_id draw_id : Z) (memo : string)
| UpdateProtocolVersion (major minor : Z)
| SetOracleQuorumConfig (min_quorum_k max_deviation_bps max_age_seconds : Z)
| AddOracle (oracle : string) (weight : Z)
| RemoveOracle (oracle : string)
| ReportValue (value : Z)
| SubmitOraclePrices (prices : list Z)
| SetLateFeeConfig (config : option LateFeeConfig)
| DepositCollateral (borrower denom amount : string)
| WithdrawCollateral (borrower denom amount : string)
| AddCollateralToken (denom : string) (risk_weight_bps : Z)
| RemoveCollateralToken (denom : string)
| SetCollateralRiskWeight (denom : string) (risk_weight_bps : Z).

Inductive QueryMsg :=
| DrawAuditTrail (credit_line_id : Z) (draw_id start_after limit : option Z)
| ProofOfReserve (denom : option string)
| BorrowerHealthFactor (borrower : string)
| GetOracleQuorumConfig
| GetOraclePrice
| GetLateFeeConfig
| GetCollateralBalance (borrower : string) (denom : option string)
| GetCollateralAllowlist
| CreditLineSnapshot (credit_line_id : Z).

Inductive QueryAnswer :=
| AuditTrailAnswer (resp : list DrawAuditTrailResponse)
| ReserveAnswer (resp : ProofOfReserveResponse)
| HealthAnswer (resp : BorrowerHealthFactorResponse)
| QuorumAnswer (config : option OracleQuorumConfig)
| PriceAnswer (price timestamp : option Z)
| LateFeeAnswer (config : option LateFeeConfig)
| CollateralAnswer (resp : CollateralBalanceResponse)
| AllowlistAnswer (denoms : list string)
| SnapshotAnswer (resp : option CreditLineSnapshotResponse).

(** ** The stored protocol version *)
Definition initialize_version : W unit :=
  let* o := get PROTOCOL_VERSION in
  match o with None => save PROTOCOL_VERSION CURRENT_PROTOCOL_VERSION | Some _ => wret tt end.

Definition query_protocol_version (s : storage) : R ProtocolVersion := load PROTOCOL_VERSION s.

Definition set_protocol_version (version : ProtocolVersion) : W ProtocolVersion :=
  save PROTOCOL_VERSION version ;;
  wret version.

Section entrypoints.
Context {api : CwApi}.

Definition instantiate (env : Env) (info : MessageInfo) (msg : InstantiateMsg) : W Response :=
  let* owner := lift (std_try (addr_validate (im_owner msg))) in
  save CONFIG (mkConfig owner) ;;
  save CREDIT_LINE_COUNT 0 ;;
  initialize_version ;;
  wret (mkResponse []).

(** [CONFIG.load] and the comparison with the sender that opens the owner's handlers. *)
Definition require_owner (info : MessageInfo) : W unit :=
  let* config := read (load CONFIG) in
  fail_if (negb (bool_decide (sender info = owner config))) Unauthorized.

Definition parse_uint128 (s : string) : R Z := ok_or (uint128_from_str s) (Std (StdParseErr "Uint128" s)).

Definition execute_create_credit_line (env : Env) (info : MessageInfo)
  (borrower collateral_denom collateral_amount credit_denom credit_amount : string) : W Response :=
  require_owner info ;;
  let* borrower_addr := lift (std_try (addr_validate borrower)) in
  let* count := read (load CREDIT_LINE_COUNT) in
  let* collateral := lift (parse_uint128 collateral_amount) in
  let* credit := lift (parse_uint128 credit_amount) in
  let credit_line := mkCreditLine count borrower_addr collateral_denom collateral credit_denom credit true in
  save (CREDIT_LINES count) credit_line ;;
  let* next := lift (native (checked_u64 (count + 1))) in
  save CREDIT_LINE_COUNT next ;;
  save (BORROWER_TO_ID borrower_addr) count ;;
  wret (mkResponse [("action", "create_credit_line"); ("credit_line_id", to_string count)]).

(** The line, for its borrower only. *)
Definition borrower_line (info : MessageInfo) (credit_line_id : Z) : W CreditLine :=
  let* o := get (CREDIT_LINES credit_line_id) in
  let* credit_line := lift (ok_or o (CreditLineNotFound credit_line_id)) in
  fail_if (negb (bool_decide (sender info = borrower credit_line))) CrossTenantIdentifier ;;
  wret credit_line.

Definition draw_response (action : string) (credit_line_id draw_id : Z) : list (string * string) :=
  [("action", action); ("credit_line_id", to_string credit_line_id); ("draw_id", to_string draw_id)].

Definition execute_create_draw (env : Env) (info : MessageInfo) (credit_line_id : Z) (amount denom : string)
  : W Response :=
  let* credit_line := borrower_line info credit_line_id in
  let* c := get (DRAW_COUNT credit_line_id) in
  let draw_count := unwrap_or c 0 in
  let* draw_amount := lift (parse_uint128 amount) in
  fail_if (draw_amount =? 0) InvalidAmount ;;
  let* outstanding := read (fun s => outstanding_utilization s credit_line_id) in
  let* projected := lift (ok_or (checked_u128 (outstanding + draw_amount)) Overflow) in
  fail_if (credit_amount credit_line <? projected) OverLimit ;;
  let draw := mkDraw draw_count credit_line_id draw_amount denom (block_time env) (sender info) false in
  save (DRAWS credit_line_id draw_count) draw ;;
  let* next := lift (native (checked_u64 (draw_count + 1))) in
  save (DRAW_COUNT credit_line_id) next ;;
  let audit_seq := 0 in
  save (DRAW_AUDIT credit_line_id draw_count audit_seq)
    (mkDrawAuditEntry audit_seq draw_count credit_line_id DrawCreated (block_time env) (block_height env)
       (sender info) "") ;;
  save (DRAW_AUDIT_COUNT credit_line_id draw_count) 1 ;;
  wret (mkResponse (draw_response "create_draw" credit_line_id draw_count)).

Definition append_audit_entry (env : Env) (info : MessageInfo) (credit_line_id draw_id : Z)
  (action : DrawAction) (memo : string) : W unit :=
  let* o := get (DRAW_AUDIT_COUNT credit_line_id draw_id) in
  let audit_count := unwrap_or o 0 in
  save (DRAW_AUDIT credit_line_id draw_id audit_count)
    (mkDrawAuditEntry audit_count draw_id credit_line_id action (block_time env) (block_height env)
       (sender info) memo) ;;
  let* next := lift (native (checked_u64 (audit_count + 1))) in
  save (DRAW_AUDIT_COUNT credit_line_id draw_id) next.

(** [amount.multiply_ratio(fee_bps, 10_000)]: exact product, floor, abort beyond [Uint128]. *)
Definition multiply_ratio (amount numerator denominator : Z) : R Z :=
  native (if denominator =? 0 then None else checked_u128 (amount * numerator / denominator)).

Definition execute_repay_draw (env : Env) (info : MessageInfo) (credit_line_id draw_id : Z) : W Response :=
  borrower_line info credit_line_id ;;
  let* o := get (DRAWS credit_line_id draw_id) in
  let* draw := lift (ok_or o (DrawNotFound draw_id credit_line_id)) in
  fail_if (negb (bool_decide (sender info = drawn_by draw))) Unauthorized ;;
  let* b := get PROTOCOL_FEE_BPS in
  let fee_bps := unwrap_or b 0 in
  let* fee_amount := (if (0 <? fee_bps) && negb (dr_amount draw =? 0)
                      then lift (multiply_ratio (dr_amount draw) fee_bps 10000) else wret 0) in
  (if negb (fee_amount =? 0)
   then (let* split := accrue_protocol_fee (dr_denom draw) fee_amount in wret tt) else wret tt) ;;
  save (DRAWS credit_line_id draw_id)
    (mkDraw (dr_id draw) (dr_credit_line_id draw) (dr_amount draw) (dr_denom draw) (drawn_at draw)
       (drawn_by draw) true) ;;
  append_audit_entry env info credit_line_id draw_id Repaid "" ;;
  wret (mkResponse (draw_response "repay_draw" credit_line_id draw_id ++
    (if negb (fee_amount =? 0) then [("protocol_fee_skimmed", to_string fee_amount)] else []))).

Definition execute_add_audit_memo (env : Env) (info : MessageInfo) (credit_line_id draw_id : Z) (memo : string)
  : W Response :=
  require_owner info ;;
  let* o := get (DRAWS credit_line_id draw_id) in
  let* draw := lift (ok_or o (DrawNotFound draw_id credit_line_id)) in
  append_audit_entry env info credit_line_id draw_id MemoAdded memo ;;
  wret (mkResponse (draw_response "add_audit_memo" credit_line_id draw_id)).

Definition execute_update_protocol_version (info : MessageInfo) (major minor : Z) : W Response :=
  require_owner info ;;
  set_protocol_version (mkProtocolVersion major minor) ;;
  wret (mkResponse [("action", "update_protocol_version"); ("major", to_string major); ("minor", to_string minor)]).

Definition execute_set_oracle_quorum_config (info : MessageInfo) (min_quorum_k max_deviation_bps max_age_seconds : Z)
  : W Response :=
  require_owner info ;;
  fail_if (min_quorum_k <? 2) InvalidAmount ;;
  fail_if (10000 <? max_deviation_bps) InvalidAmount ;;
  fail_if (max_age_seconds =? 0) InvalidAmount ;;
  save ORACLE_QUORUM_CONFIG (mkOracleQuorumConfig min_quorum_k max_deviation_bps max_age_seconds) ;;
  wret (mkResponse [("action", "set_oracle_quorum_config"); ("min_quorum_k", to_string min_quorum_k);
                    ("max_deviation_bps", to_string max_deviation_bps);
                    ("max_age_seconds", to_string max_age_seconds)]).

Definition execute_add_oracle (info : MessageInfo) (oracle : string) (weight : Z) : W Response :=
  require_owner info ;;
  let* oracle_addr := lift (std_try (addr_validate oracle)) in
  add_oracle oracle_addr weight ;;
  wret (mkResponse [("action", "add_oracle"); ("oracle", oracle)]).

Definition execute_remove_oracle (info : MessageInfo) (oracle : string) : W Response :=
  require_owner info ;;
  let* oracle_addr := lift (std_try (addr_validate oracle)) in
  remove_oracle oracle_addr ;;
  wret (mkResponse [("action", "remove_oracle"); ("oracle", oracle)]).

Definition execute_report_value (env : Env) (info : MessageInfo) (value : Z) : W Response :=
  report_value env info value ;;
  wret (mkResponse [("action", "report_value"); ("value", to_string value)]).

Definition execute_set_late_fee_config (info : MessageInfo) (config : option LateFeeConfig) : W Response :=
  read (assert_owner (sender info)) ;;
  match config with
  | Some value => lift (validate_late_fee_config value) ;; save LATE_FEE_CONFIG value
  | None => remove LATE_FEE_CONFIG
  end ;;
  wret (mkResponse [("action", "set_late_fee_config")]).

Definition execute_submit_oracle_prices (env : Env) (info : MessageInfo) (prices : list Z) : W Response :=
  require_owner info ;;
  let* o := get ORACLE_QUORUM_CONFIG in
  let* qcfg := lift (ok_or o OraclePriceInvalid) in
  fail_if (MAX_ORACLE_FEEDS <? Z.of_nat (length prices)) OraclePriceInvalid ;;
  let* canonical_price := lift (resolve_quorum_price prices qcfg) in
  let now := seconds (block_time env) in
  save ORACLE_PRICE_RECORD (mkOraclePriceRecord canonical_price now) ;;
  wret (mkResponse [("action", "submit_oracle_prices"); ("canonical_price", to_string canonical_price);
                    ("min_quorum_k", to_string (min_quorum_k qcfg)); ("timestamp", to_string now)]).

Definition execute_deposit_collateral (info : MessageInfo) (borrower denom amount : string) : W Response :=
  require_owner info ;;
  let* borrower_addr := lift (std_try (addr_validate borrower)) in
  let* parsed_amount := lift (parse_uint128 amount) in
  deposit_collateral borrower_addr denom parsed_amount.

Definition execute_withdraw_collateral (info : MessageInfo) (borrower denom amount : string) : W Response :=
  require_owner info ;;
  let* borrower_addr := lift (std_try (addr_validate borrower)) in
  let* parsed_amount := lift (parse_uint128 amount) in
  withdraw_collateral borrower_addr denom parsed_amount.

Definition execute_add_collateral_token (info : MessageInfo) (denom : string) (risk_weight_bps : Z) : W Response :=
  require_owner info ;;
  add_collateral_token denom risk_weight_bps.

Definition execute_remove_collateral_token (info : MessageInfo) (denom : string) : W Response :=
  require_owner info ;;
  remove_collateral_token denom.

Definition execute_set_collateral_risk_weight (info : MessageInfo) (denom : string) (risk_weight_bps : Z)
  : W Response :=
  require_owner info ;;
  set_collateral_risk_weight denom risk_weight_bps.

Definition execute (env : Env) (info : MessageInfo) (msg : ExecuteMsg) : W Response :=
  match msg with
  | CreateCreditLine b cd ca rd ra => execute_create_credit_line env info b cd ca rd ra
  | CreateDraw l amount denom => execute_create_draw env info l amount denom
  | RepayDraw l d => execute_repay_draw env info l d
  | AddAuditMemo l d memo => execute_add_audit_memo env info l d memo
  | UpdateProtocolVersion major minor => execute_update_protocol_version info major minor
  | SetOracleQuorumConfig k dev age => execute_set_oracle_quorum_config info k dev age
  | AddOracle oracle weight => execute_add_oracle info oracle weight
  | RemoveOracle oracle => execute_remove_oracle info oracle
  | ReportValue value => execute_report_value env info value
  | SubmitOraclePrices prices => execute_submit_oracle_prices env info prices
  | SetLateFeeConfig config => execute_set_late_fee_config info config
  | DepositCollateral b denom amount => execute_deposit_collateral info b denom amount
  | WithdrawCollateral b denom amount => execute_withdraw_collateral info b denom amount
  | AddCollateralToken denom w => execute_add_collateral_token info denom w
  | RemoveCollateralToken denom => execute_remove_collateral_token info denom
  | SetCollateralRiskWeight denom w => execute_set_collateral_risk_weight info denom w
  end.

(** ** Queries: contract errors become generic library errors *)
Definition stringify {A} (r : R A) : R A :=
  match r with
  | inr (Err e) => err (generic_err (error_to_string e))
  | r => r
  end.

Definition query_collateral_balance_of (s : storage) (who : string) (denom : option string)
  : R CollateralBalanceResponse :=
  let! borrower_addr := std_try (addr_validate who) in
  let entries := match denom with
    | Some d =>
        let amount := query_collateral_balance borrower_addr d s in
        let risk_weight_bps := collateral_risk_weight_bps d s in
        if amount =? 0 then [] else [mkCollateralEntryResponse d amount risk_weight_bps]
    | None => collateral_entries s (query_borrower_collateral borrower_addr s)
    end in
  let! weighted_total := stringify (weighted_collateral_total borrower_addr s) in
  inl (mkCollateralBalanceResponse who entries weighted_total).

Definition query (s : storage) (msg : QueryMsg) : R QueryAnswer :=
  match msg with
  | DrawAuditTrail l d start_after limit =>
      let! resp := stringify (query_draw_audit_trail s l d start_after limit) in inl (AuditTrailAnswer resp)
  | ProofOfReserve denom =>
      let! resp := stringify (query_proof_of_reserve s denom) in inl (ReserveAnswer resp)
  | BorrowerHealthFactor who =>
      let! resp := stringify (query_borrower_health_factor s who) in inl (HealthAnswer resp)
  | GetOracleQuorumConfig => inl (QuorumAnswer (may_load ORACLE_QUORUM_CONFIG s))
  | GetOraclePrice =>
      let record := may_load ORACLE_PRICE_RECORD s in
      inl (PriceAnswer (option_map pr_price record) (option_map pr_timestamp record))
  | GetLateFeeConfig => inl (LateFeeAnswer (may_load LATE_FEE_CONFIG s))
  | GetCollateralBalance who denom =>
      let! resp := query_collateral_balance_of s who denom in inl (CollateralAnswer resp)
  | GetCollateralAllowlist => inl (AllowlistAnswer (query_collateral_allowlist s))
  | CreditLineSnapshot l =>
      let! resp := stringify (query_credit_line_snapshot s l) in inl (SnapshotAnswer resp)
  end.

Definition migrate : W Response := wret (mkResponse []).
End entrypoints.
