(* ===== verification/CwUnitTests.v ===== *)
(** * The unit tests of the CosmWasm contract's pure modules
    ([creditra-credit/src]: [math_utils.rs], [limits.rs], [penalties.rs],
    [handshake.rs], [key.rs], [accrual.rs], [oracles.rs])

    A test is a [W] computation run on an empty storage.  One test is left out: the
    debug format of a key ([key.rs]) is text the derive macro makes. *)
From Stdlib Require Strings.Byte Strings.String.
From S2P Require Import Prelude Soroban CwState CwRates CwOracles CwCollateral CwViews CwCredit.

#[export] Instance CwStdError_eq_dec : EqDecision StdError.
Proof. solve_decision. Defined.

#[export] Instance CwContractError_eq_dec : EqDecision ContractError.
Proof. solve_decision. Defined.

#[export] Instance ProtocolVersion_eq_dec : EqDecision ProtocolVersion.
Proof. solve_decision. Defined.

#[export] Instance byte_eq_dec : EqDecision Byte.byte := Byte.byte_eq_dec.

#[export] Instance BorrowerKey_eq_dec : EqDecision BorrowerKey.
Proof. solve_decision. Defined.

(** ** Assertions *)
Definition w_assert (b : bool) : W unit := if b then wret tt else lift (inr Panics).

Definition w_eq {A} `{EqDecision A} (x y : A) : W unit := w_assert (bool_decide (x = y)).

(** [assert_eq!(f(..).unwrap(), v)], and [assert!(f(..).is_ok())] *)
Definition ok_is {A} `{EqDecision A} (r : R A) (v : A) : W unit := let* x := lift r in w_eq x v.

Definition is_ok {A} (r : R A) : W unit := let* _ := lift r in wret tt.

(** [assert_eq!(m.unwrap_err(), e)]: the failed call leaves the storage alone. *)
Definition fails_with {A} (m : W A) (e : ContractError) : W unit :=
  fun s => match m s with
           | inr (Err e') => if decide (e' = e) then inl (tt, s) else inr Panics
           | _ => inr Panics
           end.

Definition err_is {A} (r : R A) (e : ContractError) : W unit := fails_with (lift r) e.

(** The verdict, from [mock_dependencies()]. *)
Definition succeeds {A} (t : W A) : bool :=
  match t (store_empty (H := CwContract)) with inl _ => true | inr _ => false end.

(** ** [math_utils.rs] *)
Module MulDivTests.
Definition mul_div_basic := w_eq (mul_div 1000 300 10000 Floor) (Some 30).

Definition mul_div_truncates_toward_zero := w_eq (mul_div 7 1 3 Floor) (Some 2).

Definition mul_div_identity_denominator := w_eq (mul_div 42 1 1 Floor) (Some 42).

Definition mul_div_exact_floor := w_eq (mul_div 1000 3 10 Floor) (Some 300).

Definition mul_div_exact_ceil := w_eq (mul_div 1000 3 10 Ceil) (Some 300).

Definition mul_div_remainder_floor := w_eq (mul_div 1001 3 10 Floor) (Some 300).

Definition mul_div_remainder_ceil := w_eq (mul_div 1001 3 10 Ceil) (Some 301).

Definition mul_div_zero_numerator :=
  w_eq (mul_div 1000000 0 10000 Floor) (Some 0) ;;
  w_eq (mul_div 1000000 0 10000 Ceil) (Some 0).

Definition mul_div_zero_a :=
  w_eq (mul_div 0 300 10000 Floor) (Some 0) ;;
  w_eq (mul_div 0 300 10000 Ceil) (Some 0).

Definition mul_div_denominator_equals_numerator :=
  w_eq (mul_div 42 7 7 Floor) (Some 42) ;;
  w_eq (mul_div 42 7 7 Ceil) (Some 42).

Definition mul_div_large_values_floor :=
  let half := u128_max / 2 in w_eq (mul_div half 2 2 Floor) (Some half).

Definition mul_div_one_bps_of_small_amount_floor := w_eq (mul_div 1 1 10000 Floor) (Some 0).

Definition mul_div_one_bps_of_small_amount_ceil := w_eq (mul_div 1 1 10000 Ceil) (Some 1).

Definition mul_div_zero_denominator_returns_none := w_eq (mul_div 100 1 0 Floor) None.

Definition mul_div_overflow_returns_none := w_eq (mul_div u128_max 2 1 Floor) None.
Lemma mul_div_tests_pass :
  forallb succeeds [mul_div_basic; mul_div_truncates_toward_zero; mul_div_identity_denominator;
     mul_div_exact_floor; mul_div_exact_ceil; mul_div_remainder_floor; mul_div_remainder_ceil;
     mul_div_zero_numerator; mul_div_zero_a; mul_div_denominator_equals_numerator;
     mul_div_large_values_floor; mul_div_one_bps_of_small_amount_floor;
     mul_div_one_bps_of_small_amount_ceil; mul_div_zero_denominator_returns_none;
     mul_div_overflow_returns_none] = true.
Proof. vm_compute. reflexivity. Qed.
End MulDivTests.

(** ** [limits.rs] *)
Module LimitsTests.
Definition zero_ceiling_is_valid :=
  w_assert (is_valid_ceiling_bps 0) ;; ok_is (validate_ceiling_bps 0) 0.

Definition max_ceiling_is_valid :=
  w_assert (is_valid_ceiling_bps MAX_RATE_BPS) ;; ok_is (validate_ceiling_bps MAX_RATE_BPS) MAX_RATE_BPS.

Definition mid_range_ceiling_is_valid :=
  w_assert (is_valid_ceiling_bps 1500) ;; ok_is (validate_ceiling_bps 1500) 1500.

Definition just_over_max_is_invalid :=
  w_assert (negb (is_valid_ceiling_bps (MAX_RATE_BPS + 1))) ;;
  err_is (validate_ceiling_bps (MAX_RATE_BPS + 1)) InvalidAmount.

Definition far_over_max_is_invalid :=
  w_assert (negb (is_valid_ceiling_bps u32_max)) ;; err_is (validate_ceiling_bps u32_max) InvalidAmount.

Definition effective_falls_back_to_default_when_no_override :=
  w_eq (effective_ceiling_bps 1500 None) 1500 ;; w_eq (effective_ceiling_bps 0 None) 0.

Definition effective_override_takes_precedence := w_eq (effective_ceiling_bps 1500 (Some 800)) 800.

Definition effective_override_can_exceed_default := w_eq (effective_ceiling_bps 1000 (Some 2500)) 2500.

Definition effective_zero_override_disables_interest := w_eq (effective_ceiling_bps 1500 (Some 0)) 0.

Definition rate_below_ceiling_ok := ok_is (check_rate_within_ceiling 900 1000) tt.

Definition rate_equal_to_ceiling_ok := ok_is (check_rate_within_ceiling 1000 1000) tt.

Definition rate_above_ceiling_rejected := err_is (check_rate_within_ceiling 1001 1000) RateCeilingExceeded.

Definition zero_ceiling_rejects_any_positive_rate :=
  ok_is (check_rate_within_ceiling 0 0) tt ;; err_is (check_rate_within_ceiling 1 0) RateCeilingExceeded.

Definition clamp_leaves_rate_below_ceiling_unchanged := w_eq (clamp_rate_to_ceiling 900 1000) 900.

Definition clamp_caps_rate_above_ceiling := w_eq (clamp_rate_to_ceiling 5000 1000) 1000.

Definition clamp_at_exact_boundary := w_eq (clamp_rate_to_ceiling 1000 1000) 1000.

Definition clamp_to_zero_ceiling := w_eq (clamp_rate_to_ceiling 5000 0) 0.

Definition interest_at_full_rate_equals_principal := ok_is (max_interest_for_principal 1000 10000) 1000.

Definition interest_at_fifteen_percent := ok_is (max_interest_for_principal 1000 1500) 150.

Definition interest_zero_rate_is_zero := ok_is (max_interest_for_principal 1000 0) 0.

Definition interest_zero_principal_is_zero := ok_is (max_interest_for_principal 0 5000) 0.

Definition interest_truncates_toward_zero := ok_is (max_interest_for_principal 100 1) 0.

Definition interest_on_large_principal_does_not_overflow :=
  let principal := u128_max / MAX_RATE_BPS in is_ok (max_interest_for_principal principal MAX_RATE_BPS).

Definition interest_overflow_returns_error :=
  err_is (max_interest_for_principal u128_max MAX_RATE_BPS) InvalidAmount.
Lemma limits_tests_pass :
  forallb succeeds [zero_ceiling_is_valid; max_ceiling_is_valid; mid_range_ceiling_is_valid;
     just_over_max_is_invalid; far_over_max_is_invalid;
     effective_falls_back_to_default_when_no_override; effective_override_takes_precedence;
     effective_override_can_exceed_default; effective_zero_override_disables_interest;
     rate_below_ceiling_ok; rate_equal_to_ceiling_ok; rate_above_ceiling_rejected;
     zero_ceiling_rejects_any_positive_rate; clamp_leaves_rate_below_ceiling_unchanged;
     clamp_caps_rate_above_ceiling; clamp_at_exact_boundary; clamp_to_zero_ceiling;
     interest_at_full_rate_equals_principal; interest_at_fifteen_percent;
     interest_zero_rate_is_zero; interest_zero_principal_is_zero; interest_truncates_toward_zero;
     interest_on_large_principal_does_not_overflow; interest_overflow_returns_error] = true.
Proof. vm_compute. reflexivity. Qed.
End LimitsTests.

(** ** [penalties.rs] *)
Module PenaltyTests.
Definition flat_single_installment := ok_is (compute_late_fee (Flat 50) 1) 50.

Definition flat_multiple_installments := ok_is (compute_late_fee (Flat 50) 3) 150.

Definition flat_zero_amount_is_noop := ok_is (compute_late_fee (Flat 0) 5) 0.

Definition flat_large_amount := ok_is (compute_late_fee (Flat 1000000) 100) 100000000.

Definition flat_zero_missed_installments_returns_zero := ok_is (compute_late_fee (Flat 999) 0) 0.

Definition flat_boundary_one_token_one_installment := ok_is (compute_late_fee (Flat 1) 1) 1.

Definition flat_boundary_large_multiplication :=
  let amount := u128_max / 2 in
  let* fee := lift (compute_late_fee (Flat amount) 2) in
  w_eq (Some fee) (checked_u128 (amount * 2)).

Definition apr_always_returns_zero_for_any_installments := ok_is (compute_late_fee (AprBased 200) 5) 0.

Definition apr_zero_surcharge_returns_zero := ok_is (compute_late_fee (AprBased 0) 10) 0.

Definition apr_max_surcharge_returns_zero := ok_is (compute_late_fee (AprBased MAX_SURCHARGE_BPS) 100) 0.

Definition apr_zero_missed_installments_returns_zero := ok_is (compute_late_fee (AprBased 500) 0) 0.

Definition flat_and_apr_produce_different_results :=
  let* flat_fee := lift (compute_late_fee (Flat 100) 3) in
  let* apr_fee := lift (compute_late_fee (AprBased 500) 3) in
  w_eq flat_fee 300 ;; w_eq apr_fee 0 ;; w_assert (negb (flat_fee =? apr_fee)).

Definition switching_config_from_apr_to_flat_does_not_carry_state :=
  let* apr := lift (compute_late_fee (AprBased 9999) 10) in
  let* flat := lift (compute_late_fee (Flat 7) 10) in
  w_eq apr 0 ;; w_eq flat 70.

Definition validate_flat_config_with_positive_amount := is_ok (validate_late_fee_config (Flat 50)).

Definition validate_flat_config_zero_amount_errors := err_is (validate_late_fee_config (Flat 0)) InvalidAmount.

Definition validate_apr_config_within_bounds := is_ok (validate_late_fee_config (AprBased 5000)).

Definition validate_apr_config_at_max_bound := is_ok (validate_late_fee_config (AprBased MAX_SURCHARGE_BPS)).

Definition validate_apr_config_exceeds_max_errors :=
  err_is (validate_late_fee_config (AprBased (MAX_SURCHARGE_BPS + 1))) RateTooHigh.

Definition validate_apr_config_zero_bps_is_ok := is_ok (validate_late_fee_config (AprBased 0)).
Lemma penalty_tests_pass :
  forallb succeeds [flat_single_installment; flat_multiple_installments; flat_zero_amount_is_noop;
     flat_large_amount; flat_zero_missed_installments_returns_zero;
     flat_boundary_one_token_one_installment; flat_boundary_large_multiplication;
     apr_always_returns_zero_for_any_installments; apr_zero_surcharge_returns_zero;
     apr_max_surcharge_returns_zero; apr_zero_missed_installments_returns_zero;
     flat_and_apr_produce_different_results;
     switching_config_from_apr_to_flat_does_not_carry_state;
     validate_flat_config_with_positive_amount; validate_flat_config_zero_amount_errors;
     validate_apr_config_within_bounds; validate_apr_config_at_max_bound;
     validate_apr_config_exceeds_max_errors; validate_apr_config_zero_bps_is_ok] = true.
Proof. vm_compute. reflexivity. Qed.
End PenaltyTests.

(** ** [handshake.rs] *)
Module HandshakeTests.
Definition v (major minor : Z) : ProtocolVersion := mkProtocolVersion major minor.

Definition same_major :=
  w_assert (is_compatible_with (v 1 0) (v 1 5)) ;; w_assert (is_compatible_with (v 2 3) (v 2 0)).

Definition different_major :=
  w_assert (negb (is_compatible_with (v 1 0) (v 2 0))) ;;
  w_assert (negb (is_compatible_with (v 3 1) (v 2 9))).

Definition equal_versions := w_assert (is_compatible_with (v 1 0) (v 1 0)).

Definition exactly_at_minimum := w_assert (meets_minimum (v 1 0) (v 1 0)).

Definition above_minimum := w_assert (meets_minimum (v 1 5) (v 1 3)).

Definition below_minimum := w_assert (negb (meets_minimum (v 1 2) (v 1 5))).

Definition different_major_even_with_high_minor := w_assert (negb (meets_minimum (v 2 99) (v 1 0))).

Definition both_sides_meet_minimums :=
  w_eq (negotiate (v 1 5) (v 1 3) (v 1 1) (v 1 0)) (Some (v 1 3)).

Definition incompatible_major_versions := w_eq (negotiate (v 1 0) (v 2 0) (v 1 0) (v 2 0)) None.

Definition our_version_too_low_for_their_minimum :=
  w_eq (negotiate (v 1 0) (v 1 5) (v 1 0) (v 1 2)) None.

Definition their_version_too_low_for_our_minimum :=
  w_eq (negotiate (v 1 5) (v 1 0) (v 1 3) (v 1 0)) None.

Definition picks_lower_of_two_versions :=
  w_eq (negotiate (v 1 5) (v 1 3) (v 1 0) (v 1 0)) (Some (v 1 3)) ;;
  w_eq (negotiate (v 1 2) (v 1 7) (v 1 0) (v 1 0)) (Some (v 1 2)).

Definition equal_versions_negotiate_to_self :=
  w_eq (negotiate (v 1 0) (v 1 0) (v 1 0) (v 1 0)) (Some (v 1 0)).

Definition both_sides_exactly_at_each_others_minimum :=
  w_eq (negotiate (v 1 2) (v 1 3) (v 1 1) (v 1 0)) (Some (v 1 2)).

Definition zero_version := w_eq (negotiate (v 0 0) (v 0 0) (v 0 0) (v 0 0)) (Some (v 0 0)).

Definition version_zero_and_one_different_major :=
  w_eq (negotiate (v 0 5) (v 1 0) (v 0 0) (v 1 0)) None.

Definition same_major_is_compatible :=
  w_assert (verify_peer_version (v 1 0) (v 1 2)) ;; w_assert (verify_peer_version (v 2 5) (v 2 0)).

Definition different_major_is_incompatible :=
  w_assert (negb (verify_peer_version (v 1 0) (v 2 0))) ;;
  w_assert (negb (verify_peer_version (v 3 1) (v 2 9))).

Definition initialize_version_sets_default :=
  initialize_version ;;
  let* stored := read (load PROTOCOL_VERSION) in
  w_eq (stored : ProtocolVersion) CURRENT_PROTOCOL_VERSION.

Definition initialize_version_is_idempotent :=
  initialize_version ;;
  let custom := v 2 0 in
  save PROTOCOL_VERSION custom ;;
  initialize_version ;;
  let* stored := read (load PROTOCOL_VERSION) in
  w_eq (stored : ProtocolVersion) custom.

Definition query_protocol_version_returns_stored :=
  initialize_version ;;
  let* queried := read query_protocol_version in
  w_eq queried CURRENT_PROTOCOL_VERSION.

Definition set_protocol_version_overwrites :=
  initialize_version ;;
  let new_ver := v 2 1 in
  let* returned := set_protocol_version new_ver in
  w_eq returned new_ver ;;
  let* stored := read (load PROTOCOL_VERSION) in
  w_eq (stored : ProtocolVersion) new_ver.

Definition set_protocol_version_returns_new_version :=
  let ver := v 3 0 in
  let* result := set_protocol_version ver in
  w_eq result ver.
Lemma handshake_tests_pass :
  forallb succeeds [same_major; different_major; equal_versions; exactly_at_minimum; above_minimum;
     below_minimum; different_major_even_with_high_minor; both_sides_meet_minimums;
     incompatible_major_versions; our_version_too_low_for_their_minimum;
     their_version_too_low_for_our_minimum; picks_lower_of_two_versions;
     equal_versions_negotiate_to_self; both_sides_exactly_at_each_others_minimum; zero_version;
     version_zero_and_one_different_major; same_major_is_compatible;
     different_major_is_incompatible; initialize_version_sets_default;
     initialize_version_is_idempotent; query_protocol_version_returns_stored;
     set_protocol_version_overwrites; set_protocol_version_returns_new_version] = true.
Proof. vm_compute. reflexivity. Qed.
End HandshakeTests.

(** ** [key.rs] *)
Module KeyTests.
Definition make_addr (s : string) : Addr := mkAddr s.

Definition addr_a : Addr := make_addr "cosmos1qyqszqgpqyqszqgpqyqszqgpqyqszqgpjnp7du".

Definition addr_b : Addr := make_addr "cosmos1xv9tklw7d7se6rjketkxvqpn9h2v9pxm2sfvpn".

Definition borrower_key_is_deterministic :=
  let key1 := from_address addr_a in
  let key2 := from_address addr_a in
  let key3 := from_address addr_a in
  w_eq key1 key2 ;; w_eq key2 key3 ;; w_eq (as_bytes key1) (as_bytes key2).

Definition borrower_key_is_collision_free :=
  let key_a := from_address addr_a in
  let key_b := from_address addr_b in
  w_assert (bool_decide (key_a <> key_b)) ;; w_assert (bool_decide (as_bytes key_a <> as_bytes key_b)).

Definition borrower_key_is_non_empty := w_assert (negb (is_empty (from_address addr_a))).

Definition borrower_key_bytes_is_deterministic :=
  let bytes1 := borrower_key_bytes addr_a in
  let bytes2 := borrower_key_bytes addr_a in
  let bytes3 := borrower_key_bytes addr_a in
  w_eq bytes1 bytes2 ;; w_eq bytes2 bytes3.

Definition borrower_key_bytes_is_collision_free :=
  w_assert (bool_decide (borrower_key_bytes addr_a <> borrower_key_bytes addr_b)).

(** [as_ref] of the key against [as_bytes] of the address. *)
Definition borrower_key_as_ref_works :=
  let key := from_address addr_a in
  w_eq (as_bytes key) (String.list_byte_of_string (addr_str addr_a)).

Definition borrower_key_clone_is_equal :=
  let key := from_address (make_addr "cosmos1test") in
  let cloned := key in
  w_eq key cloned ;; w_eq (as_bytes key) (as_bytes cloned).
Lemma key_tests_pass :
  forallb succeeds [borrower_key_is_deterministic; borrower_key_is_collision_free; borrower_key_is_non_empty;
     borrower_key_bytes_is_deterministic; borrower_key_bytes_is_collision_free;
     borrower_key_as_ref_works; borrower_key_clone_is_equal] = true.
Proof. vm_compute. reflexivity. Qed.
End KeyTests.

(** ** [accrual.rs] *)
Module AccrualTests.
Definition one_full_year_at_three_percent := ok_is (accrued_interest 10000 300 SECONDS_PER_YEAR) 300.

Definition one_day_at_five_percent := ok_is (accrued_interest 1000000 500 86400) 136.

Definition zero_principal_is_zero := ok_is (accrued_interest 0 500 86400) 0.

Definition zero_rate_is_zero := ok_is (accrued_interest 1000000 0 86400) 0.

Definition zero_time_is_zero := ok_is (accrued_interest 1000000 500 0) 0.

Definition sub_unit_interest_floors_to_zero := ok_is (accrued_interest 1 1 1) 0.

Definition half_year_is_half_the_annual_interest :=
  let* full := lift (accrued_interest 1000000 400 SECONDS_PER_YEAR) in
  let* half := lift (accrued_interest 1000000 400 (SECONDS_PER_YEAR / 2)) in
  w_eq full 40000 ;; w_eq half 20000.

Definition overflow_returns_error := err_is (accrued_interest u128_max 10000 SECONDS_PER_YEAR) Overflow.

Definition large_but_representable_principal_ok :=
  let principal := u128_max / BPS_YEAR_DENOM in is_ok (accrued_interest principal 10000 SECONDS_PER_YEAR).
Lemma interest_tests_pass :
  forallb succeeds [one_full_year_at_three_percent; one_day_at_five_percent; zero_principal_is_zero;
     zero_rate_is_zero; zero_time_is_zero; sub_unit_interest_floors_to_zero;
     half_year_is_half_the_annual_interest; overflow_returns_error;
     large_but_representable_principal_ok] = true.
Proof. vm_compute. reflexivity. Qed.
End AccrualTests.

(** ** [oracles.rs] *)
Module QuorumTests.
Definition cfg (k dev : Z) : OracleQuorumConfig := mkOracleQuorumConfig k dev 3600.

Definition two_of_two_exact_match_returns_lower := ok_is (resolve_quorum_price [1000; 1000] (cfg 2 0)) 1000.

Definition two_of_three_outlier_ignored := ok_is (resolve_quorum_price [2000; 1000; 1040] (cfg 2 500)) 1000.

Definition three_of_five_returns_median_of_window :=
  ok_is (resolve_quorum_price [1000; 5000; 980; 990; 1010] (cfg 3 500)) 990.

Definition all_identical_prices_zero_deviation := ok_is (resolve_quorum_price [500; 500; 500] (cfg 3 0)) 500.

Definition window_at_end_of_sorted_array := ok_is (resolve_quorum_price [2010; 1000; 2000] (cfg 2 100)) 2000.

Definition four_of_four_returns_lower_median :=
  ok_is (resolve_quorum_price [130; 100; 120; 110] (cfg 4 5000)) 110.

Definition two_of_two_within_boundary_bps := ok_is (resolve_quorum_price [1050; 1000] (cfg 2 500)) 1000.

Definition empty_prices_returns_error := err_is (resolve_quorum_price [] (cfg 2 500)) OraclePriceInvalid.

Definition negative_price_returns_error :=
  err_is (resolve_quorum_price [1000; -1; 1010] (cfg 2 500)) OraclePriceInvalid.

Definition zero_price_returns_error := err_is (resolve_quorum_price [1000; 0] (cfg 2 500)) OraclePriceInvalid.

Definition k_greater_than_n_returns_error :=
  err_is (resolve_quorum_price [1000; 1010] (cfg 3 500)) OracleQuorumNotMet.

Definition k_equals_one_returns_error :=
  err_is (resolve_quorum_price [1000; 1010] (cfg 1 500)) OracleQuorumNotMet.

Definition k_equals_zero_returns_error :=
  err_is (resolve_quorum_price [1000; 1010] (cfg 0 500)) OracleQuorumNotMet.

Definition no_qualifying_window_returns_error :=
  err_is (resolve_quorum_price [1000; 2000; 4000] (cfg 2 500)) OracleQuorumNotMet.

Definition just_over_deviation_bound_returns_error :=
  err_is (resolve_quorum_price [1051; 1000] (cfg 2 500)) OracleQuorumNotMet.

Definition deviation_bps_exact_match := w_eq (compute_deviation_bps 1000 1000) (Some 0).

Definition deviation_bps_five_percent := w_eq (compute_deviation_bps 1050 1000) (Some 500).

Definition deviation_bps_zero_last_price := w_eq (compute_deviation_bps 1000 0) None.

Definition deviation_bps_negative_last_price := w_eq (compute_deviation_bps 1000 (-1)) None.

(** [unwrap()] of an option *)
Definition unwrapped {A} (o : option A) : W A := lift (native o).

Definition deviation_bps_asymmetric :=
  let* d1 := unwrapped (compute_deviation_bps 1050 1000) in
  let* d2 := unwrapped (compute_deviation_bps 1000 1050) in
  w_eq d1 500 ;; w_assert (d2 <=? 477).

Definition max_oracle_feeds_boundary :=
  let prices := replicate (Z.to_nat MAX_ORACLE_FEEDS) 1000 ++ [1001] in
  err_is (resolve_quorum_price prices (cfg 2 500)) OraclePriceInvalid.

Definition exactly_max_oracle_feeds_ok :=
  let prices := replicate (Z.to_nat MAX_ORACLE_FEEDS) 1000 in
  ok_is (resolve_quorum_price prices (cfg 2 0)) 1000.

Definition price_freshness_check :=
  let qcfg := cfg 2 500 in
  let record := mkOraclePriceRecord 1000 10000 in
  w_assert (negb (is_price_stale record qcfg 11000)) ;;
  w_assert (negb (is_price_stale record qcfg 13600)) ;;
  w_assert (is_price_stale record qcfg 13601) ;;
  w_assert (is_price_stale record qcfg 9999).
Lemma quorum_tests_pass :
  forallb succeeds [two_of_two_exact_match_returns_lower; two_of_three_outlier_ignored;
     three_of_five_returns_median_of_window; all_identical_prices_zero_deviation;
     window_at_end_of_sorted_array; four_of_four_returns_lower_median;
     two_of_two_within_boundary_bps; empty_prices_returns_error; negative_price_returns_error;
     zero_price_returns_error; k_greater_than_n_returns_error; k_equals_one_returns_error;
     k_equals_zero_returns_error; no_qualifying_window_returns_error;
     just_over_deviation_bound_returns_error; deviation_bps_exact_match;
     deviation_bps_five_percent; deviation_bps_zero_last_price;
     deviation_bps_negative_last_price; deviation_bps_asymmetric; max_oracle_feeds_boundary;
     exactly_max_oracle_feeds_ok; price_freshness_check] = true.
Proof. vm_compute. reflexivity. Qed.
End QuorumTests.
