(* ===== verification/CwMigrate.v ===== *)
(** * The CosmWasm credit contract: error encodings ([creditra-credit/src/migrate.rs])

    The two wire formats are data types; rendering them to bytes and back is the
    platform's JSON codec, a parameter ([JsonCodec]).  What the derived serialisers
    put into JSON is stated on JSON values ([v1_json], [v2_json]), and what the
    migration means is stated there too, apart from the code ([migrated_json]). *)
From S2P Require Import Prelude.
From Stdlib Require Import Ascii.
From Stdlib Require Strings.Byte.

Inductive ContractErrorEncodingV1 :=
| V1Std (message : string)
| V1CreditLineNotFound (id : Z)
| V1DrawNotFound (draw_id credit_line_id : Z)
| V1Unauthorized
| V1CollateralInsufficient
| V1InsufficientCollateralBalance
| V1InvalidAmount
| V1AlreadySettled
| V1OraclePriceInvalid
| V1OracleQuorumNotMet.

Inductive ContractErrorKindV2 :=
| V2Std (message : string)
| V2CreditLineNotFound (id : Z)
| V2DrawNotFound (draw_id credit_line_id : Z)
| V2Unauthorized
| V2CollateralInsufficient
| V2InsufficientCollateralBalance
| V2InvalidAmount
| V2AlreadySettled
| V2OraclePriceInvalid
| V2OracleQuorumNotMet.

Definition CONTRACT_ERROR_ENCODING_V2 : Z := 2.

Record ContractErrorEncodingV2 := mkEncodingV2 { version : Z; error : ContractErrorKindV2 }.

Inductive ErrorMigrationError :=
| InvalidEncoding (message : string)
| UnsupportedVersion (version : Z)
| Encode (message : string).

Definition kind_from_v1 (value : ContractErrorEncodingV1) : ContractErrorKindV2 :=
  match value with
  | V1Std message => V2Std message
  | V1CreditLineNotFound id => V2CreditLineNotFound id
  | V1DrawNotFound draw_id credit_line_id => V2DrawNotFound draw_id credit_line_id
  | V1Unauthorized => V2Unauthorized
  | V1CollateralInsufficient => V2CollateralInsufficient
  | V1InsufficientCollateralBalance => V2InsufficientCollateralBalance
  | V1InvalidAmount => V2InvalidAmount
  | V1AlreadySettled => V2AlreadySettled
  | V1OraclePriceInvalid => V2OraclePriceInvalid
  | V1OracleQuorumNotMet => V2OracleQuorumNotMet
  end.

Definition v2_from_v1 (value : ContractErrorEncodingV1) : ContractErrorEncodingV2 :=
  mkEncodingV2 CONTRACT_ERROR_ENCODING_V2 (kind_from_v1 value).

(** ** JSON, and what the derived serialisers write

    [Serialize] renders the old type externally tagged, the new one with the tag
    [code], the content [details] and the variant names in snake case. *)
#[warnings="-register-all"]
Inductive json :=
| JNum (n : Z)
| JStr (s : string)
| JArr (l : list json)
| JObj (fields : list (string * json)).

#[local] Open Scope string_scope.

Definition v1_json (v : ContractErrorEncodingV1) : json :=
  match v with
  | V1Std message => JObj [("Std", JStr message)]
  | V1CreditLineNotFound id => JObj [("CreditLineNotFound", JNum id)]
  | V1DrawNotFound draw_id credit_line_id => JObj [("DrawNotFound", JArr [JNum draw_id; JNum credit_line_id])]
  | V1Unauthorized => JStr "Unauthorized"
  | V1CollateralInsufficient => JStr "CollateralInsufficient"
  | V1InsufficientCollateralBalance => JStr "InsufficientCollateralBalance"
  | V1InvalidAmount => JStr "InvalidAmount"
  | V1AlreadySettled => JStr "AlreadySettled"
  | V1OraclePriceInvalid => JStr "OraclePriceInvalid"
  | V1OracleQuorumNotMet => JStr "OracleQuorumNotMet"
  end.

Definition tagged (code : string) (details : option json) : json :=
  JObj (("code", JStr code) :: match details with Some d => [("details", d)] | None => [] end).

Definition kind_json (k : ContractErrorKindV2) : json :=
  match k with
  | V2Std message => tagged "std" (Some (JStr message))
  | V2CreditLineNotFound id => tagged "credit_line_not_found" (Some (JNum id))
  | V2DrawNotFound draw_id credit_line_id =>
      tagged "draw_not_found" (Some (JObj [("draw_id", JNum draw_id); ("credit_line_id", JNum credit_line_id)]))
  | V2Unauthorized => tagged "unauthorized" None
  | V2CollateralInsufficient => tagged "collateral_insufficient" None
  | V2InsufficientCollateralBalance => tagged "insufficient_collateral_balance" None
  | V2InvalidAmount => tagged "invalid_amount" None
  | V2AlreadySettled => tagged "already_settled" None
  | V2OraclePriceInvalid => tagged "oracle_price_invalid" None
  | V2OracleQuorumNotMet => tagged "oracle_quorum_not_met" None
  end.

Definition envelope (version : Z) (error : json) : json :=
  JObj [("version", JNum version); ("error", error)].

Definition v2_json (w : ContractErrorEncodingV2) : json := envelope (version w) (kind_json (error w)).

(** *** The migration, on JSON values *)
Definition upper (c : ascii) : bool := let n := nat_of_ascii c in ((65 <=? n) && (n <=? 90))%nat.

Definition lower (c : ascii) : ascii := if upper c then ascii_of_nat (nat_of_ascii c + 32) else c.

Fixpoint snake_tail (s : string) : string :=
  match s with
  | EmptyString => EmptyString
  | String c s => if upper c then String "_" (String (lower c) (snake_tail s)) else String c (snake_tail s)
  end.

Definition snake_case (s : string) : string :=
  match s with EmptyString => EmptyString | String c s => String (lower c) (snake_tail s) end.

(** A variant's data is carried over; the two positions of [DrawNotFound] become the
    fields [draw_id] and [credit_line_id]. *)
Definition migrated_details (name : string) (data : json) : json :=
  match data with
  | JArr [draw_id; credit_line_id] =>
      if bool_decide (name = "DrawNotFound")
      then JObj [("draw_id", draw_id); ("credit_line_id", credit_line_id)] else data
  | _ => data
  end.

Definition migrated_json (old : json) : json :=
  envelope 2
    match old with
    | JStr name => tagged (snake_case name) None
    | JObj [(name, data)] => tagged (snake_case name) (Some (migrated_details name data))
    | _ => old
    end.

#[local] Close Scope string_scope.

(** *** The values the Rust types hold: [u8], [u64] and UTF-8 text *)
Definition utf8_start (c : Z) : option (nat * Z * Z) :=
  if c <=? 127 then Some (0%nat, 128, 191)
  else if c <? 194 then None
  else if c <=? 223 then Some (1%nat, 128, 191)
  else if c =? 224 then Some (2%nat, 160, 191)
  else if c =? 237 then Some (2%nat, 128, 159)
  else if c <=? 239 then Some (2%nat, 128, 191)
  else if c =? 240 then Some (3%nat, 144, 191)
  else if c <=? 243 then Some (3%nat, 128, 191)
  else if c =? 244 then Some (3%nat, 128, 143)
  else None.

(** [pending] bytes of the current character to come, the next one in [lo..hi]. *)
Fixpoint utf8 (pending : nat) (lo hi : Z) (s : string) : bool :=
  match s, pending with
  | EmptyString, O => true
  | EmptyString, S _ => false
  | String c s, O =>
      match utf8_start (Z.of_nat (nat_of_ascii c)) with
      | Some (n, lo, hi) => utf8 n lo hi s
      | None => false
      end
  | String c s, S n =>
      let c := Z.of_nat (nat_of_ascii c) in (lo <=? c) && (c <=? hi) && utf8 n 128 191 s
  end.

Definition is_text (s : string) : bool := utf8 0 128 191 s.

Definition u64_ok (n : Z) : bool := (0 <=? n) && (n <=? u64_max).

Definition v1_ok (v : ContractErrorEncodingV1) : bool :=
  match v with
  | V1Std message => is_text message
  | V1CreditLineNotFound id => u64_ok id
  | V1DrawNotFound draw_id credit_line_id => u64_ok draw_id && u64_ok credit_line_id
  | _ => true
  end.

Definition kind_ok (k : ContractErrorKindV2) : bool :=
  match k with
  | V2Std message => is_text message
  | V2CreditLineNotFound id => u64_ok id
  | V2DrawNotFound draw_id credit_line_id => u64_ok draw_id && u64_ok credit_line_id
  | _ => true
  end.

Definition v2_ok (w : ContractErrorEncodingV2) : bool :=
  (0 <=? version w) && (version w <=? 255) && kind_ok (error w).

(** ** The code *)
Abbreviation bytes := (list Byte.byte).

(** [from_json] at the two types and [to_json_vec], an error being its message; and
    the text of a JSON value. *)
Class JsonCodec := {
  from_json_v1 : bytes -> ContractErrorEncodingV1 + string;
  from_json_v2 : bytes -> ContractErrorEncodingV2 + string;
  to_json_vec_v2 : ContractErrorEncodingV2 -> bytes + string;
  json_text : json -> bytes;
}.

Section migration.
Context {J : JsonCodec}.

Definition migrate_v1_error_encoding (input : bytes) : bytes + ErrorMigrationError :=
  match from_json_v1 input with
  | inr error => inr (InvalidEncoding error)
  | inl legacy =>
      let migrated := v2_from_v1 legacy in
      match to_json_vec_v2 migrated with
      | inl b => inl b
      | inr error => inr (Encode error)
      end
  end.

Definition decode_contract_error (input : bytes) : ContractErrorEncodingV2 + ErrorMigrationError :=
  match from_json_v2 input with
  | inl versioned =>
      if negb (version versioned =? CONTRACT_ERROR_ENCODING_V2)
      then inr (UnsupportedVersion (version versioned))
      else inl versioned
  | inr _ =>
      match from_json_v1 input with
      | inl legacy => inl (v2_from_v1 legacy)
      | inr error => inr (InvalidEncoding error)
      end
  end.

(** What the JSON codec promises on the values of the Rust types. *)
Class CodecLaws := {
  to_json_text : forall w, v2_ok w = true -> to_json_vec_v2 w = inl (json_text (v2_json w));
  from_text_v2 : forall w, v2_ok w = true -> from_json_v2 (json_text (v2_json w)) = inl w;
  from_text_v1 : forall v, v1_ok v = true -> from_json_v1 (json_text (v1_json v)) = inl v;
  decoded_v1 : forall b v, from_json_v1 b = inl v -> v1_ok v = true;
  (** An externally tagged value is not an object with the fields [version] and [error]. *)
  v1_not_v2 : forall b v, from_json_v1 b = inl v -> exists e, from_json_v2 b = inr e;
}.

Lemma v2_from_v1_inj v v' : v2_from_v1 v = v2_from_v1 v' -> v = v'.
Proof. destruct v, v'; cbn; intros [=]; by subst. Qed.

(** The new value is the one whose JSON is the migrated JSON of the old. *)
Lemma v2_from_v1_json v : v2_json (v2_from_v1 v) = migrated_json (v1_json v).
Proof. by destruct v. Qed.

Lemma v2_from_v1_ok v : v1_ok v = true -> v2_ok (v2_from_v1 v) = true.
Proof. by destruct v. Qed.

(** No two values have the same JSON. *)
Lemma kind_json_inj k k' : kind_json k = kind_json k' -> k = k'.
Proof. destruct k, k'; cbn; unfold tagged; intros [=]; by subst. Qed.

Lemma v2_json_inj w w' : v2_json w = v2_json w' -> w = w'.
Proof. destruct w, w'; cbn; intros [= -> Hk%kind_json_inj]. by subst. Qed.

Lemma decode_text `{!CodecLaws} w : v2_ok w = true ->
  decode_contract_error (json_text (v2_json w)) =
    if version w =? CONTRACT_ERROR_ENCODING_V2 then inl w else inr (UnsupportedVersion (version w)).
Proof. intros Hw. unfold decode_contract_error. rewrite from_text_v2 by done. by destruct (version w =? _). Qed.

Lemma decode_old `{!CodecLaws} v b :
  from_json_v1 b = inl v -> decode_contract_error b = inl (v2_from_v1 v).
Proof. intros Hb. unfold decode_contract_error. destruct (v1_not_v2 b v Hb) as [e ->]. by rewrite Hb. Qed.

Lemma migrate_text `{!CodecLaws} b v :
  from_json_v1 b = inl v -> migrate_v1_error_encoding b = inl (json_text (v2_json (v2_from_v1 v))).
Proof.
  intros Hb. unfold migrate_v1_error_encoding. rewrite Hb.
  by rewrite to_json_text by (eapply v2_from_v1_ok, decoded_v1, Hb).
Qed.

Lemma migrate_inv `{!CodecLaws} b b' :
  migrate_v1_error_encoding b = inl b' ->
  exists v, from_json_v1 b = inl v /\ v1_ok v = true /\ b' = json_text (v2_json (v2_from_v1 v)).
Proof.
  intros Hm. destruct (from_json_v1 b) as [v|e] eqn:E.
  - rewrite (migrate_text b v E) in Hm. injection Hm as <-. exists v. split; [done|]. by split; [eapply decoded_v1|].
  - unfold migrate_v1_error_encoding in Hm. by rewrite E in Hm.
Qed.

(** C40. Migrating the wire format loses nothing.  A valid old encoding of [v] migrates
    to the text of the JSON value obtained from the old one by putting it into the
    envelope of version 2, with the variant's name in snake case as [code] and its
    data as [details] (the two positions of [DrawNotFound] under [draw_id] and
    [credit_line_id]); old and migrated bytes decode to one value, the one with that
    JSON.  An envelope decodes to itself exactly when its version is 2 and is refused
    by its version otherwise, so whatever decodes carries version 2, and old encodings
    of different errors stay different. *)
Theorem error_migration_roundtrip `{!CodecLaws} :
  (forall b v, from_json_v1 b = inl v ->
     let new := json_text (migrated_json (v1_json v)) in
     migrate_v1_error_encoding b = inl new /\
     exists w, v2_json w = migrated_json (v1_json v) /\ (forall w', v2_json w' = v2_json w -> w' = w) /\
       decode_contract_error b = inl w /\ decode_contract_error new = inl w) /\
  (forall w, v2_ok w = true ->
     decode_contract_error (json_text (v2_json w)) =
       if version w =? 2 then inl w else inr (UnsupportedVersion (version w))) /\
  (forall b w, decode_contract_error b = inl w -> version w = 2) /\
  (forall b1 b2 b', migrate_v1_error_encoding b1 = inl b' -> migrate_v1_error_encoding b2 = inl b' ->
     from_json_v1 b1 = from_json_v1 b2).
Proof.
  split; [|split; [|split]].
  - intros b v Hb. cbv zeta. rewrite <- v2_from_v1_json. split; [by apply migrate_text|].
    exists (v2_from_v1 v). split; [done|]. split; [by intros w' ?%v2_json_inj|]. split; [by apply decode_old|].
    by rewrite decode_text by (eapply v2_from_v1_ok, decoded_v1, Hb).
  - exact decode_text.
  - intros b v. unfold decode_contract_error. destruct (from_json_v2 b) as [w|e].
    + destruct (version w =? CONTRACT_ERROR_ENCODING_V2) eqn:E; [|done].
      intros [= <-]. by apply Z.eqb_eq in E.
    + destruct (from_json_v1 b); [|done]. by intros [= <-].
  - intros b1 b2 b' (v1 & -> & Hv1 & ->)%migrate_inv (v2 & -> & Hv2 & E)%migrate_inv.
    f_equal. apply v2_from_v1_inj. apply v2_from_v1_ok in Hv1, Hv2.
    pose proof (from_text_v2 _ Hv1) as H1. rewrite E, (from_text_v2 _ Hv2) in H1. congruence.
Qed.
End migration.

(** ** A concrete codec: the witness's stand-in for JSON text

    A JSON value is written as the bits of an injective numbering; reading looks for
    the shapes the derived deserialisers accept. *)
Fixpoint json_tree (j : json) : gen_tree (Z + string) :=
  match j with
  | JNum n => GenLeaf (inl n)
  | JStr s => GenLeaf (inr s)
  | JArr l => GenNode 0 (map json_tree l)
  | JObj l => GenNode 1 (map (fun p => GenNode 2 [GenLeaf (inr p.1); json_tree p.2]) l)
  end.

Fixpoint tree_json (t : gen_tree (Z + string)) : json :=
  match t with
  | GenLeaf (inl n) => JNum n
  | GenLeaf (inr s) => JStr s
  | GenNode 0 l => JArr (map tree_json l)
  | GenNode _ l =>
      JObj (map (fun t => match t with
                          | GenNode _ [GenLeaf (inr k); t] => (k, tree_json t)
                          | _ => (EmptyString, JNum 0)
                          end) l)
  end.

Lemma tree_of_json : forall j, tree_json (json_tree j) = j.
Proof.
  fix tree_of_json 1. intros j. destruct j as [n|s|l|l]; cbn; [done|done| |]; f_equal.
  - induction l as [|j l IH]; cbn; [done|]. by rewrite tree_of_json, IH.
  - induction l as [|[k j] l IH]; cbn; [done|]. by rewrite tree_of_json, IH.
Qed.

Fixpoint bits (p : positive) : bytes :=
  match p with
  | xH => []
  | xO p => Byte.x00 :: bits p
  | xI p => Byte.x01 :: bits p
  end.

Fixpoint unbits (b : bytes) : positive :=
  match b with
  | [] => xH
  | Byte.x00 :: b => xO (unbits b)
  | _ :: b => xI (unbits b)
  end.

Lemma unbits_bits p : unbits (bits p) = p.
Proof. induction p; cbn; by rewrite ?IHp. Qed.

Definition text (j : json) : bytes := bits (encode (json_tree j)).

Definition parse (b : bytes) : option json := tree_json <$> decode (unbits b).

Lemma parse_text j : parse (text j) = Some j.
Proof. unfold parse, text. rewrite unbits_bits, decode_encode. cbn. by rewrite tree_of_json. Qed.

(** The unit variants, by their old names. *)
Definition unit_variants : list ContractErrorEncodingV1 :=
  [V1Unauthorized; V1CollateralInsufficient; V1InsufficientCollateralBalance; V1InvalidAmount;
   V1AlreadySettled; V1OraclePriceInvalid; V1OracleQuorumNotMet].

Definition names (name : string) (v : ContractErrorEncodingV1) : bool :=
  match v1_json v with JStr s => String.eqb s name | _ => false end.

Definition read_v1 (j : json) : option ContractErrorEncodingV1 :=
  match j with
  | JStr name => find (names name) unit_variants
  | JObj [(name, JStr m)] => if String.eqb name "Std" then Some (V1Std m) else None
  | JObj [(name, JNum id)] => if String.eqb name "CreditLineNotFound" then Some (V1CreditLineNotFound id) else None
  | JObj [(name, JArr [JNum d; JNum l])] => if String.eqb name "DrawNotFound" then Some (V1DrawNotFound d l) else None
  | _ => None
  end.

Definition code_is (code : string) (v : ContractErrorEncodingV1) : bool :=
  match kind_json (kind_from_v1 v) with
  | JObj [(_, JStr s)] => String.eqb s code
  | _ => false
  end.

Definition read_kind (j : json) : option ContractErrorKindV2 :=
  match j with
  | JObj [(_, JStr code)] => kind_from_v1 <$> find (code_is code) unit_variants
  | JObj [_; (_, JStr m)] => Some (V2Std m)
  | JObj [_; (_, JNum id)] => Some (V2CreditLineNotFound id)
  | JObj [_; (_, JObj [(_, JNum d); (_, JNum l)])] => Some (V2DrawNotFound d l)
  | _ => None
  end.

Definition read_v2 (j : json) : option ContractErrorEncodingV2 :=
  match j with
  | JObj [(_, JNum n); (_, e)] => mkEncodingV2 n <$> read_kind e
  | _ => None
  end.

Definition accept {A} (ok : A -> bool) (o : option A) : A + string :=
  match o with Some a => if ok a then inl a else inr "out of range"%string | None => inr "bad value"%string end.

#[local] Instance demo_codec : JsonCodec := {|
  from_json_v1 b := accept v1_ok (parse b ≫= read_v1);
  from_json_v2 b := accept v2_ok (parse b ≫= read_v2);
  to_json_vec_v2 w := inl (text (v2_json w));
  json_text := text;
|}.

Lemma read_v1_json v : read_v1 (v1_json v) = Some v.
Proof. by destruct v. Qed.

Lemma read_v2_json w : read_v2 (v2_json w) = Some w.
Proof. destruct w as [n k]. by destruct k. Qed.

(** No value has both shapes. *)
Lemma read_apart j v w : read_v1 j = Some v -> read_v2 j = Some w -> False.
Proof. destruct j as [|?|?|[|[? []] [|]]]; cbn; intros; simplify_eq; repeat case_match; simplify_eq. Qed.

#[local] Instance demo_codec_laws : CodecLaws.
Proof.
  split; cbn [from_json_v1 from_json_v2 to_json_vec_v2 json_text demo_codec].
  - done.
  - intros w Hw. rewrite parse_text. change (accept v2_ok (read_v2 (v2_json w)) = inl w).
    rewrite read_v2_json. cbn. by rewrite Hw.
  - intros v Hv. rewrite parse_text. change (accept v1_ok (read_v1 (v1_json v)) = inl v).
    rewrite read_v1_json. cbn. by rewrite Hv.
  - intros b v. destruct (parse b ≫= read_v1) as [v'|]; cbn; [|done]. destruct (v1_ok v') eqn:E; [|done].
    by intros [= <-].
  - intros b v. destruct (parse b) as [j|]; cbn; [|done]. destruct (read_v1 j) as [v'|] eqn:E1; cbn; [|done].
    intros _. destruct (read_v2 j) as [w|] eqn:E2; [|by eexists]. by destruct (read_apart _ _ _ E1 E2).
Qed.

#[local] Open Scope string_scope.

(** Draw 3 of line 7 not found, in the old and in the new format. *)
Definition old_draw : json := JObj [("DrawNotFound", JArr [JNum 3; JNum 7])].

Definition new_draw : json :=
  JObj [("version", JNum 2);
        ("error", JObj [("code", JStr "draw_not_found");
                        ("details", JObj [("draw_id", JNum 3); ("credit_line_id", JNum 7)])])].

(** C40. The old text migrates to the new one, both decode to the same error, and an
    envelope of version 3 is refused. *)
Lemma error_migration_roundtrip_witness :
  migrate_v1_error_encoding (text old_draw) = inl (text new_draw) /\
  decode_contract_error (text old_draw) = inl (mkEncodingV2 2 (V2DrawNotFound 3 7)) /\
  decode_contract_error (text new_draw) = inl (mkEncodingV2 2 (V2DrawNotFound 3 7)) /\
  decode_contract_error (text (v2_json (mkEncodingV2 3 V2Unauthorized))) = inr (UnsupportedVersion 3).
Proof.
  destruct (error_migration_roundtrip (J := demo_codec)) as (H1 & H2 & _).
  destruct (H1 (text old_draw) (V1DrawNotFound 3 7)) as (Hm & w & Hw & Hu & Hd & Hd').
  { exact (from_text_v1 (V1DrawNotFound 3 7) eq_refl). }
  assert (w = mkEncodingV2 2 (V2DrawNotFound 3 7)) as -> by (symmetry; apply Hu; by rewrite Hw).
  split; [exact Hm|]. split; [exact Hd|]. split; [exact Hd'|]. exact (H2 (mkEncodingV2 3 V2Unauthorized) eq_refl).
Defined.
