(* ===== verification/CwLedger.v ===== *)
(** * The CosmWasm credit contract: its ledger invariant

    [deployed s]: storages a deployment can reach.  [ledger s]: credit lines,
    draws and audit entries are numbered without gaps, each record carries the
    numbers of its key, draws belong to the line's borrower, and what is owed on
    a line is within its credit amount. *)
From S2P Require Import Prelude Soroban CwState CwRates CwOracles CwCollateral CwViews CwCredit.

Section deployments.
Context {api : CwApi}.

Inductive deployed : storage -> Prop :=
| deployed_new env info msg r s :
    instantiate env info msg (store_empty (H := CwContract)) = inl (r, s) -> deployed s
| deployed_call env info msg s r s' :
    deployed s -> execute env info msg s = inl (r, s') -> deployed s'.
End deployments.

(** ** Reading the ledger *)
Definition line (s : storage) (l : Z) : option CreditLine := may_load (CREDIT_LINES l) s.

Definition draw_at (s : storage) (l d : Z) : option Draw := may_load (DRAWS l d) s.

Definition audit_at (s : storage) (l d q : Z) : option DrawAuditEntry := may_load (DRAW_AUDIT l d q) s.

Definition draws_of (s : storage) (l : Z) : Z := unwrap_or (may_load (DRAW_COUNT l) s) 0.

Definition audits_of (s : storage) (l d : Z) : Z := unwrap_or (may_load (DRAW_AUDIT_COUNT l d) s) 0.

Definition owed_by (o : option Draw) : Z :=
  match o with Some draw => if repaid draw then 0 else dr_amount draw | None => 0 end.

Definition owed (s : storage) (l d : Z) : Z := owed_by (draw_at s l d).

Definition total_owed (s : storage) (l : Z) : Z := sumZ (owed s l <$> range 0 (draws_of s l)).

(** The loop of [outstanding_utilization] is the checked sum of what is owed. *)
Lemma owed_fold s l ds acc :
  (forall d, d ∈ ds -> 0 <= owed s l d) -> is_u128 acc ->
  rfold ds acc (add_outstanding s l) =
  if acc + sumZ (owed s l <$> ds) <=? u128_max then inl (acc + sumZ (owed s l <$> ds)) else err Overflow.
Proof.
  revert acc. induction ds as [|d ds IH]; intros acc Hpos Hacc; cbn [rfold fmap list_fmap sumZ foldr].
  - rewrite Z.add_0_r. destruct (Z.leb_spec acc u128_max); [done|lia].
  - assert (Hnn : 0 <= sumZ (owed s l <$> ds)).
    { apply sumZ_nonneg, Forall_fmap, Forall_forall. intros d' Hd'. apply Hpos. by constructor. }
    assert (Hd : 0 <= owed s l d) by (apply Hpos; constructor).
    assert (Hstep : add_outstanding s l acc d =
                    if acc + owed s l d <=? u128_max then inl (acc + owed s l d) else err Overflow).
    { unfold add_outstanding, owed, owed_by, draw_at in *. destruct (may_load (DRAWS l d) s) as [dr|].
      - destruct (repaid dr); [rewrite Z.add_0_r; by destruct (Z.leb_spec acc u128_max); [|lia]|].
        unfold checked, in_range, ok_or. destruct (Z.leb_spec 0 (acc + dr_amount dr)); [|lia]. cbn.
        by destruct (_ <=? _).
      - rewrite Z.add_0_r. by destruct (Z.leb_spec acc u128_max); [|lia]. }
    rewrite Hstep. unfold sumZ in *. cbn [foldr].
    destruct (Z.leb_spec (acc + owed s l d) u128_max); cbn [rbind].
    + rewrite IH by first [lia | intros; apply Hpos; by constructor]. unfold sumZ. by rewrite !Z.add_assoc.
    + destruct (Z.leb_spec (acc + (owed s l d + foldr Z.add 0 (owed s l <$> ds))) u128_max); [lia|done].
Qed.

(** ** The invariant *)
Record lines_ok (s : storage) : Prop := {
  lines_numbered : exists n, may_load CREDIT_LINE_COUNT s = Some n /\ 0 <= n /\
    forall l, is_Some (line s l) <-> 0 <= l < n;
  line_data l cl : line s l = Some cl ->
    cl_id cl = l /\ is_u128 (collateral_amount cl) /\ is_u128 (credit_amount cl);
}.

(** A draw's record names its key and its borrower's line. *)
Definition draw_sound (s : storage) (l d : Z) (draw : Draw) : Prop :=
  dr_id draw = d /\ dr_credit_line_id draw = l /\ 0 < dr_amount draw /\
  exists cl, line s l = Some cl /\ drawn_by draw = borrower cl.

Record draws_ok (s : storage) : Prop := {
  draws_counted l : 0 <= draws_of s l;
  draws_numbered l d : is_Some (draw_at s l d) <-> 0 <= d < draws_of s l;
  draw_data l d draw : draw_at s l d = Some draw -> draw_sound s l d draw;
  within_limit l cl : line s l = Some cl -> total_owed s l <= credit_amount cl;
}.

Record audits_ok (s : storage) : Prop := {
  audits_counted l d : 0 <= audits_of s l d;
  audited l d : is_Some (draw_at s l d) <-> 0 < audits_of s l d;
  audits_numbered l d q : is_Some (audit_at s l d q) <-> 0 <= q < audits_of s l d;
  audit_data l d q e : audit_at s l d q = Some e ->
    ae_seq e = q /\ ae_draw_id e = d /\ ae_credit_line_id e = l;
}.

Record ledger (s : storage) : Prop := mk_ledger {
  ledger_lines : lines_ok s;
  ledger_draws : draws_ok s;
  ledger_audits : audits_ok s;
}.

Lemma owed_nonneg s l d : draws_ok s -> 0 <= owed s l d.
Proof.
  intros Hs. unfold owed, owed_by. destruct (draw_at s l d) as [dr|] eqn:E; [|done].
  destruct (draw_data s Hs _ _ _ E) as (_ & _ & H & _). destruct (repaid dr); lia.
Qed.

(** On a well-formed storage the code's sum is the mathematical one. *)
Lemma outstanding_total s l :
  draws_ok s ->
  outstanding_utilization s l = if total_owed s l <=? u128_max then inl (total_owed s l) else err Overflow.
Proof.
  intros Hs. unfold outstanding_utilization, total_owed. fold (draws_of s l).
  rewrite owed_fold; [by rewrite Z.add_0_l| |lia]. intros d _. by apply owed_nonneg.
Qed.

Lemma no_draws_without_line s l : draws_ok s -> line s l = None -> draws_of s l = 0.
Proof.
  intros Hs Hl. pose proof (draws_counted s Hs l). destruct (decide (draws_of s l = 0)); [done|].
  assert (is_Some (draw_at s l 0)) as [dr Hdr] by (apply draws_numbered; [done|lia]).
  destruct (draw_data s Hs _ _ _ Hdr) as (_ & _ & _ & cl & Hcl & _). congruence.
Qed.

(** ** Storages that agree on some keys *)
Definition agree (P : CwKey -> Prop) (s s' : storage) : Prop := forall k, P k -> s' k = s k.

Definition lines_key (k : CwKey) : Prop :=
  match k with CREDIT_LINE_COUNT | CREDIT_LINES _ => True | _ => False end.

Definition draws_key (k : CwKey) : Prop :=
  match k with CREDIT_LINES _ | DRAW_COUNT _ | DRAWS _ _ => True | _ => False end.

Definition audits_key (k : CwKey) : Prop :=
  match k with DRAWS _ _ | DRAW_AUDIT_COUNT _ _ | DRAW_AUDIT _ _ _ => True | _ => False end.

Definition ledger_key (k : CwKey) : Prop := lines_key k \/ draws_key k \/ audits_key k.

Definition not_ledger (k : CwKey) : Prop :=
  match k with
  | CREDIT_LINE_COUNT | CREDIT_LINES _ | DRAW_COUNT _ | DRAWS _ _ | DRAW_AUDIT_COUNT _ _ | DRAW_AUDIT _ _ _ => False
  | _ => True
  end.

Lemma ledger_key_not k : ledger_key k -> ~ not_ledger k.
Proof. intros [?|[?|?]]; destruct k; cbn in *; tauto. Qed.

Lemma touches_agree {A} (P Q : CwKey -> Prop) (m : W A) s a s' :
  touches Q m -> (forall k, P k -> ~ Q k) -> m s = inl (a, s') -> agree P s s'.
Proof. intros Hm HPQ Hr k Hk. apply (Hm s a s' k Hr). by apply HPQ. Qed.

Lemma lines_ok_ext s s' : agree lines_key s s' -> lines_ok s -> lines_ok s'.
Proof.
  intros Heq [(n & Hn & H0 & Hl) H2].
  assert (Hline : forall l, line s' l = line s l) by (intros; unfold line, may_load; by rewrite Heq).
  split.
  - exists n. unfold may_load. rewrite Heq by done. split; [done|]. split; [done|]. intros. by rewrite Hline.
  - intros l cl. rewrite Hline. apply H2.
Qed.

Lemma draws_ok_ext s s' : agree draws_key s s' -> draws_ok s -> draws_ok s'.
Proof.
  intros Heq [H1 H2 H3 H4].
  assert (Hline : forall l, line s' l = line s l) by (intros; unfold line, may_load; by rewrite Heq).
  assert (Hat : forall l d, draw_at s' l d = draw_at s l d) by (intros; unfold draw_at, may_load; by rewrite Heq).
  assert (Hdr : forall l, draws_of s' l = draws_of s l) by (intros; unfold draws_of, may_load; by rewrite Heq).
  split.
  - intros l. rewrite Hdr. apply H1.
  - intros l d. rewrite Hdr, Hat. apply H2.
  - intros l d draw. rewrite Hat. unfold draw_sound. rewrite Hline. apply H3.
  - intros l cl. rewrite Hline. intros Hl. unfold total_owed. rewrite Hdr.
    rewrite (sum_ext (owed s' l) (owed s l)) by (intros; unfold owed; by rewrite Hat). by apply H4.
Qed.

(** Only whether a draw exists matters to the trails. *)
Lemma audits_ok_ext s s' :
  (forall l d, is_Some (draw_at s' l d) <-> is_Some (draw_at s l d)) ->
  (forall l d, audits_of s' l d = audits_of s l d) -> (forall l d q, audit_at s' l d q = audit_at s l d q) ->
  audits_ok s -> audits_ok s'.
Proof.
  intros Hd Hc Ha [H1 H2 H3 H4]. split.
  - intros l d. rewrite Hc. apply H1.
  - intros l d. rewrite Hc, Hd. apply H2.
  - intros l d q. rewrite Hc, Ha. apply H3.
  - intros l d q e. rewrite Ha. apply H4.
Qed.

Lemma audits_ok_agree s s' : agree audits_key s s' -> audits_ok s -> audits_ok s'.
Proof.
  intros Heq. apply audits_ok_ext; intros;
    unfold draw_at, audits_of, audit_at, may_load; by rewrite Heq.
Qed.

Lemma ledger_ext s s' : agree ledger_key s s' -> ledger s -> ledger s'.
Proof.
  intros Heq [H1 H2 H3]. split.
  - eapply lines_ok_ext; [|done]. intros k Hk. apply Heq. by left.
  - eapply draws_ok_ext; [|done]. intros k Hk. apply Heq. right. by left.
  - eapply audits_ok_agree; [|done]. intros k Hk. apply Heq. right. by right.
Qed.

(** ** Reading after a write *)
Abbreviation put := (store_put (H := CwContract)).

Lemma line_put s n cl l : line (put (CREDIT_LINES n) cl s) l = if decide (l = n) then Some cl else line s l.
Proof. unfold line. case_decide; subst; by cwput. Qed.

Lemma draw_put s n m dr l d :
  draw_at (put (DRAWS n m) dr s) l d = if decide (l = n /\ d = m) then Some dr else draw_at s l d.
Proof.
  unfold draw_at. case_decide as Hd; [destruct Hd; subst; by cwput|].
  unfold may_load. rewrite (store_put_ne (C := CwContract)); [done|]. intros [= ? ?]. by apply Hd.
Qed.

Lemma audit_put s n m p e l d q :
  audit_at (put (DRAW_AUDIT n m p) e s) l d q = if decide (l = n /\ d = m /\ q = p) then Some e else audit_at s l d q.
Proof.
  unfold audit_at. case_decide as Hd; [destruct Hd as (? & ? & ?); subst; by cwput|].
  unfold may_load. rewrite (store_put_ne (C := CwContract)); [done|]. intros [= ? ? ?]. by apply Hd.
Qed.

Lemma draws_of_put s n c l : draws_of (put (DRAW_COUNT n) c s) l = if decide (l = n) then c else draws_of s l.
Proof. unfold draws_of. case_decide; subst; by cwput. Qed.

Lemma audits_of_put s n m c l d :
  audits_of (put (DRAW_AUDIT_COUNT n m) c s) l d = if decide (l = n /\ d = m) then c else audits_of s l d.
Proof.
  unfold audits_of. case_decide as Hd; [destruct Hd; subst; by cwput|]. unfold may_load.
  rewrite (store_put_ne (C := CwContract)); [done|]. intros [= ? ?]. by apply Hd.
Qed.

(** A write elsewhere is not seen. *)
Lemma agree_put (P : CwKey -> Prop) k v s : ~ P k -> agree P s (put k v s).
Proof. intros Hk k' Hk'. apply (store_put_ne (C := CwContract)). by intros ->. Qed.

Lemma agree_trans P s1 s2 s3 : agree P s1 s2 -> agree P s2 s3 -> agree P s1 s3.
Proof. intros H1 H2 k Hk. by rewrite H2, H1. Qed.

Ltac agree_puts :=
  repeat first [ apply agree_put; cbn; tauto | eapply agree_trans; [|apply agree_put; cbn; tauto] ].

Section preservation.
Context {api : CwApi}.

(** The handlers that leave lines, draws and audit entries alone. *)
Definition keeps_ledger (msg : ExecuteMsg) : bool :=
  match msg with
  | CreateCreditLine _ _ _ _ _ | CreateDraw _ _ _ | RepayDraw _ _ | AddAuditMemo _ _ _ => false
  | _ => true
  end.

Lemma touches_owner P info : touches P (require_owner info).
Proof. unfold require_owner. touch. Qed.

Lemma touches_fee denom fee : touches not_ledger (accrue_protocol_fee denom fee).
Proof. unfold accrue_protocol_fee. touch. Qed.

Hint Resolve touches_owner touches_fee : touches.

Lemma execute_keeps_ledger env info msg : keeps_ledger msg = true -> touches not_ledger (execute env info msg).
Proof.
  destruct msg; cbn [keeps_ledger execute]; try discriminate; intros _;
    unfold execute_update_protocol_version, execute_set_oracle_quorum_config, execute_add_oracle,
      execute_remove_oracle, execute_report_value, execute_submit_oracle_prices, execute_set_late_fee_config,
      execute_deposit_collateral, execute_withdraw_collateral, execute_add_collateral_token,
      execute_remove_collateral_token, execute_set_collateral_risk_weight, set_protocol_version, add_oracle,
      remove_oracle, report_value, deposit_collateral, withdraw_collateral, add_collateral_token,
      remove_collateral_token, set_collateral_risk_weight;
    touch.
Qed.

(** *** What the other four write *)
Lemma require_owner_inl info s u s' :
  require_owner info s = inl (u, s') ->
  s' = s /\ exists config, may_load CONFIG s = Some config /\ sender info = owner config.
Proof. unfold require_owner. intros H. winv H. bsimp. eauto. Qed.

Lemma borrower_line_inl info l s cl s' :
  borrower_line info l s = inl (cl, s') ->
  s' = s /\ may_load (CREDIT_LINES l) s = Some cl /\ sender info = borrower cl.
Proof. unfold borrower_line. intros H. winv H. bsimp. by subst. Qed.

Lemma parse_inl str v : parse_uint128 str = inl v -> is_u128 v.
Proof. intros H%ok_or_inl. by apply (uint128_from_str_range str). Qed.

Lemma create_line_inl env info b cd ca rd ra s r s' :
  execute_create_credit_line env info b cd ca rd ra s = inl (r, s') ->
  exists n who collateral credit,
    may_load CREDIT_LINE_COUNT s = Some n /\ is_u128 collateral /\ is_u128 credit /\
    s' = store_put (H := CwContract) (BORROWER_TO_ID who) n
          (store_put (H := CwContract) CREDIT_LINE_COUNT (n + 1)
          (store_put (H := CwContract) (CREDIT_LINES n) (mkCreditLine n who cd collateral rd credit true) s)).
Proof.
  unfold execute_create_credit_line. intros Hrun. apply wbind_inl in Hrun as (u & s1 & Ho & Hrun).
  apply require_owner_inl in Ho as [-> _]. winv Hrun. chk. subst.
  repeat match goal with Hp : parse_uint128 _ = inl _ |- _ => apply parse_inl in Hp end.
  eauto 10.
Qed.


(** *** Elementary changes of a ledger *)
Lemma range_empty lo hi : hi <= lo -> range lo hi = [].
Proof. intros. unfold range. by replace (Z.to_nat (hi - lo)) with 0%nat by lia. Qed.

Lemma ledger_new_line s n cl :
  ledger s -> may_load CREDIT_LINE_COUNT s = Some n -> cl_id cl = n ->
  is_u128 (collateral_amount cl) -> is_u128 (credit_amount cl) ->
  ledger (put CREDIT_LINE_COUNT (n + 1) (put (CREDIT_LINES n) cl s)).
Proof.
  intros [Hs Hd Ha] Hn Hid Hc Hr. set (s' := put CREDIT_LINE_COUNT _ _).
  assert (Hline : forall l, line s' l = if decide (l = n) then Some cl else line s l).
  { intros l. rewrite <- line_put. unfold s', line. by cwput. }
  destruct (lines_numbered s Hs) as (n' & Hn' & H0 & Hl). assert (n' = n) as -> by congruence.
  assert (Hnone : line s n = None) by (apply eq_None_not_Some; rewrite Hl; lia).
  assert (Hrest : agree (fun k => ~ lines_key k) s s') by (unfold s'; agree_puts).
  assert (Hat : forall l d, draw_at s' l d = draw_at s l d) by (intros; unfold draw_at, may_load; by rewrite Hrest by tauto).
  assert (Hdr : forall l, draws_of s' l = draws_of s l) by (intros; unfold draws_of, may_load; by rewrite Hrest by tauto).
  split; [split|split|].
  - exists (n + 1). split; [unfold s'; by cwput|]. split; [lia|]. intros l. rewrite Hline.
    case_decide; [split; [lia|eauto]|]. rewrite Hl. lia.
  - intros l cl'. rewrite Hline. case_decide; [intros [= <-]; by subst|by apply line_data].
  - intros l. rewrite Hdr. by apply draws_counted.
  - intros l d. rewrite Hdr, Hat. by apply draws_numbered.
  - intros l d draw. rewrite Hat. intros (? & ? & ? & cl' & Hcl' & ?)%draw_data; [|done].
    split; [done|]. split; [done|]. split; [done|]. exists cl'. rewrite Hline.
    case_decide; [congruence|done].
  - intros l cl'. rewrite Hline. unfold total_owed. rewrite Hdr.
    rewrite (sum_ext (owed s' l) (owed s l)) by (intros; unfold owed; by rewrite Hat).
    case_decide; [|by apply within_limit]. intros [= <-]. subst l.
    rewrite (no_draws_without_line s n), (range_empty 0 0) by first [done | lia]. unfold sumZ. cbn. lia.
  - eapply audits_ok_agree; [|done]. intros k Hk. apply Hrest. destruct k; cbn in *; tauto.
Qed.

(** A draw under the next free number, with its first audit entry. *)
Lemma draws_new_draw s l cl draw :
  draws_ok s -> line s l = Some cl -> dr_id draw = draws_of s l -> dr_credit_line_id draw = l ->
  0 < dr_amount draw -> drawn_by draw = borrower cl -> repaid draw = false ->
  total_owed s l + dr_amount draw <= credit_amount cl ->
  let s' := put (DRAW_COUNT l) (draws_of s l + 1) (put (DRAWS l (draws_of s l)) draw s) in
  draws_ok s' /\ forall l', total_owed s' l' = total_owed s l' + if decide (l' = l) then dr_amount draw else 0.
Proof.
  intros Hs Hcl Hid Hlid Hamt Hby Hrep Hlim s'. set (d := draws_of s l) in *.
  pose proof (draws_counted s Hs l : 0 <= d) as Hd0.
  assert (Hat : forall l' d', draw_at s' l' d' = if decide (l' = l /\ d' = d) then Some draw else draw_at s l' d').
  { intros. rewrite <- draw_put. unfold s', draw_at. by cwput. }
  assert (Hdr : forall l', draws_of s' l' = if decide (l' = l) then d + 1 else draws_of s l').
  { intros. unfold s'. rewrite draws_of_put. case_decide; [done|]. unfold draws_of. by cwput. }
  assert (Hline : forall l', line s' l' = line s l') by (intros; unfold s', line; by cwput).
  assert (Hold : forall l' d', (l', d') <> (l, d) -> owed s' l' d' = owed s l' d').
  { intros l' d' Hne. unfold owed. rewrite Hat, decide_False; [done|]. intros [-> ->]. done. }
  assert (Htot : forall l', total_owed s' l' = total_owed s l' + if decide (l' = l) then dr_amount draw else 0).
  { intros l'. unfold total_owed. rewrite Hdr. case_decide as Hll.
    - subst l'. rewrite range_snoc, fmap_app, sumZ_app by done. f_equal.
      + apply sum_ext. intros d' Hd'%elem_of_range. apply Hold. intros [= ->]. lia.
      + unfold sumZ. cbn. unfold owed. rewrite Hat, decide_True by done. cbn. rewrite Hrep. lia.
    - rewrite Z.add_0_r. apply sum_ext. intros d' _. apply Hold. congruence. }
  split; [split|done].
  - intros l'. rewrite Hdr. case_decide; [lia|by apply draws_counted].
  - intros l' d'. rewrite Hdr, Hat. destruct (decide (l' = l /\ d' = d)) as [[-> ->]|Hd].
    + rewrite decide_True by done. split; [lia|eauto].
    + rewrite (draws_numbered s Hs). case_decide; [subst; unfold d in *; lia|done].
  - intros l' d' dr. rewrite Hat. unfold draw_sound. setoid_rewrite Hline. case_decide as Hd; [|by apply draw_data].
    destruct Hd as [-> ->]. intros [= <-]. eauto 6.
  - intros l' cl'. rewrite Hline, Htot. intros Hcl'. case_decide; [simplify_eq; lia|].
    rewrite Z.add_0_r. by apply within_limit.
Qed.

(** An entry at the end of a trail; [seen] says which draws exist afterwards. *)
Lemma audits_new_entry s s1 l d e :
  audits_ok s -> (forall l' d', is_Some (draw_at s1 l' d') <-> is_Some (draw_at s l' d') \/ (l' = l /\ d' = d)) ->
  agree (fun k => match k with DRAW_AUDIT_COUNT _ _ | DRAW_AUDIT _ _ _ => True | _ => False end) s s1 ->
  ae_seq e = audits_of s l d -> ae_draw_id e = d -> ae_credit_line_id e = l ->
  audits_ok (put (DRAW_AUDIT_COUNT l d) (audits_of s l d + 1) (put (DRAW_AUDIT l d (audits_of s l d)) e s1)).
Proof.
  intros Hs Hseen Hag He1 He2 He3. set (k := audits_of s l d) in *. set (s' := put _ _ _).
  pose proof (audits_counted s Hs l d : 0 <= k) as Hk.
  assert (Hat : forall l' d' q, audit_at s' l' d' q = if decide (l' = l /\ d' = d /\ q = k) then Some e else audit_at s l' d' q).
  { intros. transitivity (audit_at (put (DRAW_AUDIT l d k) e s1) l' d' q); [unfold s', audit_at; by cwput|].
    rewrite audit_put. unfold audit_at at 1, may_load. by rewrite Hag. }
  assert (Hau : forall l' d', audits_of s' l' d' = if decide (l' = l /\ d' = d) then k + 1 else audits_of s l' d').
  { intros. unfold s'. rewrite audits_of_put. case_decide; [done|]. unfold audits_of. cwput. by rewrite Hag. }
  assert (Hd : forall l' d', draw_at s' l' d' = draw_at s1 l' d') by (intros; unfold s', draw_at; by cwput).
  split.
  - intros l' d'. rewrite Hau. case_decide; [lia|by apply audits_counted].
  - intros l' d'. rewrite Hau, Hd, Hseen, (audited s Hs). case_decide; [split; [lia|by right]|]. tauto.
  - intros l' d' q. rewrite Hat, Hau. destruct (decide (l' = l /\ d' = d)) as [[-> ->]|Hne].
    + destruct (decide (q = k)) as [->|]; [rewrite decide_True by done; split; [lia|eauto]|].
      rewrite decide_False by tauto. rewrite (audits_numbered s Hs). fold k. lia.
    + rewrite decide_False by tauto. by apply audits_numbered.
  - intros l' d' q e'. rewrite Hat. case_decide as Hq; [|by apply audit_data].
    destruct Hq as (-> & -> & ->). by intros [= <-].
Qed.

(** Marking a draw repaid. *)
Definition mark_repaid (draw : Draw) : Draw :=
  mkDraw (dr_id draw) (dr_credit_line_id draw) (dr_amount draw) (dr_denom draw) (drawn_at draw) (drawn_by draw) true.

Lemma draws_repaid s l d draw :
  draws_ok s -> draw_at s l d = Some draw ->
  let s' := put (DRAWS l d) (mark_repaid draw) s in
  draws_ok s' /\ (forall l' d', is_Some (draw_at s' l' d') <-> is_Some (draw_at s l' d')) /\
  (forall l', total_owed s' l' = total_owed s l' - if decide (l' = l) then owed_by (Some draw) else 0).
Proof.
  intros Hs Hdraw s'.
  assert (Hat : forall l' d', draw_at s' l' d' = if decide (l' = l /\ d' = d) then Some (mark_repaid draw) else draw_at s l' d')
    by (intros; apply draw_put).
  assert (Hdr : forall l', draws_of s' l' = draws_of s l') by (intros; unfold s', draws_of; by cwput).
  assert (Hline : forall l', line s' l' = line s l') by (intros; unfold s', line; by cwput).
  assert (Hsome : forall l' d', is_Some (draw_at s' l' d') <-> is_Some (draw_at s l' d')).
  { intros l' d'. rewrite Hat. case_decide as Hd; [|done]. destruct Hd as [-> ->]. rewrite Hdraw. split; eauto. }
  assert (Hold : forall l' d', (l', d') <> (l, d) -> owed s' l' d' = owed s l' d').
  { intros l' d' Hne. unfold owed. rewrite Hat, decide_False; [done|]. by intros [-> ->]. }
  assert (Htot : forall l', total_owed s' l' = total_owed s l' - if decide (l' = l) then owed_by (Some draw) else 0).
  { intros l'. unfold total_owed. rewrite Hdr. case_decide; subst.
    - rewrite (sum_update (owed s l) (owed s' l) _ d).
      + unfold owed at 2 3. rewrite Hat, decide_True, Hdraw by done. cbn. lia.
      + apply NoDup_range.
      + apply elem_of_range. by apply (draws_numbered s Hs).
      + intros d' Hd'. apply Hold. congruence.
    - rewrite Z.sub_0_r. apply sum_ext. intros d' _. apply Hold. congruence. }
  destruct (draw_data s Hs l d draw Hdraw) as (Hi & Hl & Hamt & Hby).
  split; [split|done].
  - intros l'. rewrite Hdr. by apply draws_counted.
  - intros l' d'. rewrite Hdr, Hsome. by apply draws_numbered.
  - intros l' d' dr. rewrite Hat. unfold draw_sound. setoid_rewrite Hline. case_decide as Hd; [|by apply draw_data].
    destruct Hd as [-> ->]. by intros [= <-].
  - intros l' cl'. rewrite Hline, Htot. intros Hcl'%within_limit; [|done].
    pose proof (owed_nonneg s l d Hs) as Hn. unfold owed in Hn. rewrite Hdraw in Hn. case_decide; lia.
Qed.

(** ** The four handlers that write the ledger *)
Definition audit_entry (env : Env) (info : MessageInfo) (l d seq : Z) (action : DrawAction) (memo : string)
  : DrawAuditEntry :=
  mkDrawAuditEntry seq d l action (block_time env) (block_height env) (sender info) memo.

Definition put_entry (l d seq : Z) (e : DrawAuditEntry) (s : storage) : storage :=
  put (DRAW_AUDIT_COUNT l d) (seq + 1) (put (DRAW_AUDIT l d seq) e s).

Lemma append_inl env info l d action memo s u s' :
  append_audit_entry env info l d action memo s = inl (u, s') ->
  s' = put_entry l d (audits_of s l d) (audit_entry env info l d (audits_of s l d) action memo) s.
Proof. unfold append_audit_entry. intros Hr. winv Hr. chk. by subst. Qed.

Definition new_draw (env : Env) (info : MessageInfo) (l d amount : Z) (denom : string) : Draw :=
  mkDraw d l amount denom (block_time env) (sender info) false.

Lemma create_draw_inl env info l amount denom s r s' :
  execute_create_draw env info l amount denom s = inl (r, s') ->
  exists cl amt u, line s l = Some cl /\ sender info = borrower cl /\ 0 <= amt /\ amt <> 0 /\
    outstanding_utilization s l = inl u /\ u + amt <= credit_amount cl /\
    let d := draws_of s l in
    s' = put_entry l d 0 (audit_entry env info l d 0 DrawCreated "")
           (put (DRAW_COUNT l) (d + 1) (put (DRAWS l d) (new_draw env info l d amt denom) s)).
Proof.
  unfold execute_create_draw. intros Hr. apply wbind_inl in Hr as (cl & s1 & Hl & Hr).
  apply borrower_line_inl in Hl as (-> & Hl & Hby). winv Hr. bsimp. chk. subst.
  match goal with Hp : parse_uint128 _ = inl _ |- _ => apply parse_inl in Hp end.
  match goal with Hu : ?u + ?a <= credit_amount cl |- _ => exists cl, a, u end.
  repeat (split; [first [assumption | lia]|]). done.
Qed.

Lemma repay_inl env info l d s r s' :
  execute_repay_draw env info l d s = inl (r, s') ->
  exists cl draw s1, line s l = Some cl /\ sender info = borrower cl /\ draw_at s l d = Some draw /\
    agree ledger_key s s1 /\
    s' = put_entry l d (audits_of s l d) (audit_entry env info l d (audits_of s l d) Repaid "")
           (put (DRAWS l d) (mark_repaid draw) s1).
Proof.
  unfold execute_repay_draw. intros Hr. apply wbind_inl in Hr as (cl & s1 & Hl & Hr).
  apply borrower_line_inl in Hl as (-> & Hl & Hby).
  apply wbind_inl in Hr as (o & s1 & [-> ->]%get_inl & Hr).
  apply wbind_inl in Hr as (draw & s1 & Hd & Hr). apply lift_inl in Hd as [Hd%ok_or_inl ->].
  apply wbind_inl in Hr as (u & s1 & [_ ->]%fail_if_inl & Hr).
  apply wbind_inl in Hr as (b & s1 & [_ ->]%get_inl & Hr).
  apply wbind_inl in Hr as (fee & s1 & Hf & Hr).
  assert (s1 = s) as -> by (by destruct (_ && _) in Hf; winv Hf).
  apply wbind_inl in Hr as (u' & s2 & Ha & Hr).
  assert (Hag : agree ledger_key s s2).
  { eapply (touches_agree ledger_key not_ledger); [|exact ledger_key_not|exact Ha].
    destruct (negb _); [|apply touches_ret]. apply touches_bind; [apply touches_fee|intros; apply touches_ret]. }
  apply wbind_inl in Hr as (u1 & s3 & ->%save_inl & Hr).
  apply wbind_inl in Hr as (u2 & s4 & ->%append_inl & [_ ->]%wret_inl).
  assert (Hau : audits_of (put (DRAWS l d) (mark_repaid draw) s2) l d = audits_of s l d).
  { unfold audits_of. cwput. by rewrite Hag by (right; right; exact I). }
  exists cl, draw, s2. rewrite <- Hau. done.
Qed.

Lemma memo_inl env info l d memo s r s' :
  execute_add_audit_memo env info l d memo s = inl (r, s') ->
  is_Some (draw_at s l d) /\
  s' = put_entry l d (audits_of s l d) (audit_entry env info l d (audits_of s l d) MemoAdded memo) s.
Proof.
  unfold execute_add_audit_memo. intros Hr.
  apply wbind_inl in Hr as (u & s1 & Ho & Hr). apply require_owner_inl in Ho as [-> _].
  apply wbind_inl in Hr as (o & s1 & [-> ->]%get_inl & Hr).
  apply wbind_inl in Hr as (draw & s1 & Hd & Hr). apply lift_inl in Hd as [Hd%ok_or_inl ->].
  apply wbind_inl in Hr as (u2 & s4 & ->%append_inl & [_ ->]%wret_inl). split; [by exists draw|done].
Qed.

(** *** Every message keeps the ledger *)
Lemma create_line_ledger env info b cd ca rd ra s r s' :
  ledger s -> execute_create_credit_line env info b cd ca rd ra s = inl (r, s') -> ledger s'.
Proof.
  intros Hs (n & who & c & a & Hn & Hc & Ha & ->)%create_line_inl.
  eapply ledger_ext; [apply agree_put; cbn; unfold ledger_key; cbn; tauto|]. by apply ledger_new_line.
Qed.

Lemma create_draw_ledger env info l amount denom s r s' :
  ledger s -> execute_create_draw env info l amount denom s = inl (r, s') -> ledger s'.
Proof.
  intros [Hl Hd Ha] (cl & amt & u & Hcl & Hby & H0 & Hne & Hu & Hlim & ->)%create_draw_inl.
  rewrite outstanding_total in Hu by done. destruct (total_owed s l <=? u128_max); [|done]. injection Hu as <-.
  destruct (draws_new_draw s l cl (new_draw env info l (draws_of s l) amt denom)) as [Hd' _]; try done; [cbn; lia|].
  assert (Hfree : ~ is_Some (draw_at s l (draws_of s l))) by (rewrite (draws_numbered s Hd); lia).
  assert (Hno : audits_of s l (draws_of s l) = 0).
  { pose proof (audits_counted s Ha l (draws_of s l)). pose proof (audited s Ha l (draws_of s l)).
    destruct (decide (audits_of s l (draws_of s l) = 0)); [done|]. exfalso. apply Hfree. apply H1. lia. }
  split.
  - eapply lines_ok_ext; [|exact Hl]. unfold put_entry. agree_puts.
  - eapply draws_ok_ext; [|exact Hd']. unfold put_entry. agree_puts.
  - rewrite <- Hno. apply audits_new_entry; [done| |agree_puts|done..].
    intros l' d'. transitivity (is_Some (draw_at (put (DRAWS l (draws_of s l)) (new_draw env info l (draws_of s l) amt denom) s) l' d')).
    { unfold draw_at. by cwput. }
    rewrite draw_put. case_decide; [split; [by right|eauto]|tauto].
Qed.

Lemma repay_ledger env info l d s r s' :
  ledger s -> execute_repay_draw env info l d s = inl (r, s') -> ledger s'.
Proof.
  intros Hs (cl & draw & s1 & Hcl & Hby & Hdraw & Hag & ->)%repay_inl.
  apply (ledger_ext s s1) in Hs as [Hl Hd Ha]; [|done].
  assert (Hdraw1 : draw_at s1 l d = Some draw).
  { unfold draw_at, may_load. by rewrite Hag by (right; right; exact I). }
  assert (Hau : audits_of s l d = audits_of s1 l d).
  { unfold audits_of, may_load. by rewrite Hag by (right; right; exact I). }
  destruct (draws_repaid s1 l d draw Hd Hdraw1) as (Hd' & Hsome & _). rewrite Hau. split.
  - eapply lines_ok_ext; [|exact Hl]. unfold put_entry. agree_puts.
  - eapply draws_ok_ext; [|exact Hd']. unfold put_entry. agree_puts.
  - apply audits_new_entry; [done| |agree_puts|done..].
    intros l' d'. rewrite Hsome. split; [by left|]. intros [?|[-> ->]]; [done|eauto].
Qed.

Lemma memo_ledger env info l d memo s r s' :
  ledger s -> execute_add_audit_memo env info l d memo s = inl (r, s') -> ledger s'.
Proof.
  intros [Hl Hd Ha] [Hsome ->]%memo_inl. split.
  - eapply lines_ok_ext; [|exact Hl]. unfold put_entry. agree_puts.
  - eapply draws_ok_ext; [|exact Hd]. unfold put_entry. agree_puts.
  - apply audits_new_entry; [done| |by intros k Hk|done..].
    intros l' d'. split; [by left|]. by intros [?|[-> ->]].
Qed.

Lemma execute_ledger env info msg s r s' :
  ledger s -> execute env info msg s = inl (r, s') -> ledger s'.
Proof.
  intros Hs Hr. destruct (keeps_ledger msg) eqn:Hk.
  - eapply ledger_ext; [|exact Hs]. eapply (touches_agree ledger_key not_ledger); [by apply execute_keeps_ledger|exact ledger_key_not|exact Hr].
  - destruct msg; try discriminate Hk; cbn [execute] in Hr;
      eauto using create_line_ledger, create_draw_ledger, repay_ledger, memo_ledger.
Qed.

Lemma instantiate_inl env info msg r s :
  instantiate env info msg (store_empty (H := CwContract)) = inl (r, s) ->
  exists who, s = put PROTOCOL_VERSION CURRENT_PROTOCOL_VERSION (put CREDIT_LINE_COUNT 0
                    (put CONFIG (mkConfig who) (store_empty (H := CwContract)))).
Proof.
  unfold instantiate, initialize_version. intros Hr. winv Hr.
  - match goal with H : Some _ = may_load _ _ |- _ => discriminate H end.
  - eauto.
Qed.

Lemma new_ledger env info msg r s :
  instantiate env info msg (store_empty (H := CwContract)) = inl (r, s) -> ledger s.
Proof.
  intros (who & ->)%instantiate_inl.
  set (s' := put _ _ _).
  assert (Hl : forall l, line s' l = None) by (intros; unfold s', line; by cwput).
  assert (Hd : forall l d, draw_at s' l d = None) by (intros; unfold s', draw_at; by cwput).
  assert (Ha : forall l d q, audit_at s' l d q = None) by (intros; unfold s', audit_at; by cwput).
  assert (Hc : forall l, draws_of s' l = 0) by (intros; unfold s', draws_of; by cwput).
  assert (Hk : forall l d, audits_of s' l d = 0) by (intros; unfold s', audits_of; by cwput).
  split; split; try (intros *; rewrite ?Hl, ?Hd, ?Ha, ?Hc, ?Hk; try done; rewrite ?is_Some_alt; lia).
  exists 0. split; [unfold s'; by cwput|]. split; [done|]. intros l. rewrite Hl, is_Some_alt. lia.
Qed.

Lemma deployed_ledger s : deployed s -> ledger s.
Proof. induction 1; [by eapply new_ledger|by eapply execute_ledger]. Qed.
End preservation.
