(* ===== verification/CwScenario.v ===== *)
(** * The CosmWasm credit contract: a concrete deployment

    A platform that accepts every address and parses decimal numbers, and a
    deployment with two credit lines, two draws and some collateral. *)
From Stdlib Require Ascii.
From S2P Require Import Prelude Soroban CwState CwRates CwOracles CwCollateral CwViews CwCredit CwLedger.

Definition digit (c : Ascii.ascii) : option Z :=
  let n := Z.of_N (Ascii.N_of_ascii c) in
  if (48 <=? n) && (n <=? 57) then Some (n - 48) else None.

Fixpoint decimal (acc : Z) (s : string) : option Z :=
  match s with
  | EmptyString => Some acc
  | String c s' => let? d := digit c in let? acc' := checked_u128 (acc * 10 + d) in decimal acc' s'
  end.

Lemma decimal_range s : forall acc v, is_u128 acc -> decimal acc s = Some v -> is_u128 v.
Proof.
  induction s as [|c s IH]; intros acc v Hacc; cbn; [by intros [= <-]|].
  destruct (digit c) as [d|]; [|done]. destruct (checked_u128 _) as [acc'|] eqn:E; [|done]. chk. subst acc'. by apply IH.
Qed.

#[local] Instance demo_api : CwApi.
Proof.
  refine {|
    addr_validate s := inl (mkAddr s);
    uint128_from_str s := if decide (s = "") then None else decimal 0 s;
    std_error_to_string _ := "std";
  |}.
  intros s v. case_decide; [done|]. by apply decimal_range.
Defined.

(** Running one message and keeping the storage. *)
Definition after (env : Env) (who : string) (msg : ExecuteMsg) (s : storage) : storage :=
  match execute env (mkMessageInfo (mkAddr who)) msg s with inl (_, s') => s' | inr _ => s end.

Definition accepts (env : Env) (who : string) (msg : ExecuteMsg) (s : storage) : option Response :=
  match execute env (mkMessageInfo (mkAddr who)) msg s with inl (r, _) => Some r | inr _ => None end.

Lemma accepts_run env who msg s r :
  accepts env who msg s = Some r ->
  execute env (mkMessageInfo (mkAddr who)) msg s = inl (r, after env who msg s).
Proof. unfold accepts, after. destruct (execute _ _ _ _) as [[r' s']|]; [by intros [= ->]|done]. Qed.

Lemma after_deployed env who msg s :
  deployed s -> is_Some (accepts env who msg s) -> deployed (after env who msg s).
Proof. intros Hs [r Hr]. eapply deployed_call; [exact Hs|]. by apply accepts_run. Qed.

Definition env_at (t : Z) : Env := mkEnv (t * 1000000000) t.

Definition s_new : storage :=
  match instantiate (env_at 1) (mkMessageInfo (mkAddr "owner")) (mkInstantiateMsg "owner") (store_empty (H := CwContract)) with
  | inl (_, s) => s | inr _ => store_empty (H := CwContract) end.

Definition s_lines : storage :=
  after (env_at 3) "owner" (CreateCreditLine "bob" "atom" "500" "usdc" "900")
    (after (env_at 2) "owner" (CreateCreditLine "alice" "atom" "100" "usdc" "1000") s_new).

Definition s_draws : storage :=
  after (env_at 5) "alice" (CreateDraw 0 "300" "usdc") (after (env_at 4) "alice" (CreateDraw 0 "600" "usdc") s_lines).

Definition s_tokens : storage :=
  after (env_at 6) "owner" (AddCollateralToken "osmo" 8000) s_draws.

Lemma s_new_deployed : deployed s_new.
Proof.
  apply (deployed_new (env_at 1) (mkMessageInfo (mkAddr "owner")) (mkInstantiateMsg "owner") (mkResponse [])).
  reflexivity.
Qed.

Ltac run_call := apply after_deployed; [|vm_compute; eauto].

Lemma s_draws_deployed : deployed s_draws.
Proof. unfold s_draws, s_lines. do 4 run_call. exact s_new_deployed. Qed.

Lemma s_tokens_deployed : deployed s_tokens.
Proof. unfold s_tokens. run_call. exact s_draws_deployed. Qed.

(** The line is full: a draw beyond the limit is refused, a memo by the borrower too. *)
Example over_limit : accepts (env_at 7) "alice" (CreateDraw 0 "101" "usdc") s_draws = None.
Proof. reflexivity. Qed.

Example borrower_memo : accepts (env_at 7) "alice" (AddAuditMemo 0 0 "note") s_draws = None.
Proof. reflexivity. Qed.

Example outstanding : outstanding_utilization s_draws 0 = inl 900.
Proof. reflexivity. Qed.

Example weighted : accepts (env_at 7) "owner" (DepositCollateral "alice" "osmo" "1000") s_tokens
  = Some (mkResponse [("action", "deposit_collateral"); ("borrower", "alice"); ("denom", "osmo"); ("amount", "1000")]).
Proof. vm_compute. reflexivity. Qed.

(** ** Findings on the scenario

    A draw can be repaid again and again; with a fee rate set - which the crate's
    [set_protocol_fee_bps] does, but no message reaches - each time is charged. *)
Definition s_fee : storage :=
  match set_protocol_fee_bps (mkAddr "owner") 100 s_draws with inl (_, s) => s | inr _ => s_draws end.

Lemma repaid_twice_charged_twice :
  let s1 := after (env_at 8) "alice" (RepayDraw 0 0) s_fee in
  let s2 := after (env_at 9) "alice" (RepayDraw 0 0) s1 in
  may_load (TREASURY_BALANCE "usdc") s1 = Some 6 /\ may_load (TREASURY_BALANCE "usdc") s2 = Some 12.
Proof. split; vm_compute; reflexivity. Qed.
