(* ===== verification/CwStateTests.v ===== *)
(** * The unit tests of the CosmWasm contract's stateful modules, executed on the model
    ([creditra-credit/src]: [collateral.rs], [fees.rs], [views.rs], [contract.rs])

    A test is a [W] computation run on an empty storage, as in [CwUnitTests], with the
    platform of [CwScenario] and the block of the library's [mock_env].  A test that
    does not hold of the code is kept, with what the code does instead. *)
From Stdlib Require Strings.String.
From S2P Require Import Prelude Soroban CwState CwRates CwOracles CwCollateral CwViews CwCredit CwScenario CwUnitTests.
#[local] Existing Instance demo_api.

#[export] Instance FeeSplitAmounts_eq_dec : EqDecision FeeSplitAmounts.
Proof. solve_decision. Defined.

#[export] Instance DrawAction_eq_dec : EqDecision DrawAction.
Proof. solve_decision. Defined.

#[export] Instance LateFeeConfig_eq_dec : EqDecision LateFeeConfig.
Proof. solve_decision. Defined.

(** [f(deps.as_ref(), ..)] for a function that only reads. *)
Definition peek {A} (f : storage -> A) : W A := read (fun s => inl (f s)).

(** [o.unwrap()] and [v[i]] *)
Definition unwrapped {A} (o : option A) : W A := lift (native o).

Definition index {A} (l : list A) (i : Z) : W A := unwrapped (l !! Z.to_nat i).

Fixpoint w_for {A} (l : list Z) (body : Z -> W A) : W unit :=
  match l with
  | [] => wret tt
  | i :: l' => body i ;; w_for l' body
  end.

(** The verdict on a test that does not pass. *)
Definition fails_by {A} (t : W A) (e : ContractError) : bool :=
  match t (store_empty (H := CwContract)) with inr (Err e') => bool_decide (e' = e) | _ => false end.

Definition aborts {A} (t : W A) : bool :=
  match t (store_empty (H := CwContract)) with inr Panics => true | _ => false end.

Definition mock_env : Env := mkEnv 1571797419879305533 12345.

Definition creator_addr : Addr := mkAddr "creator".

Definition borrower_addr : Addr := mkAddr "borrower".

(** ** [collateral.rs] *)
Module CollateralTests.
Definition alice_addr : Addr := mkAddr "alice".

Definition bob_addr : Addr := mkAddr "bob".

(** [format!("token{i:03}")] *)
Definition token_name (i : Z) : string :=
  "token" +:+ (if i <? 10 then "00" else if i <? 100 then "0" else "") +:+ to_string i.

Definition setup_allowlist (denoms : list string) : W unit := save COLLATERAL_TOKEN_ALLOWLIST denoms.

Definition setup_deposit (borrower : Addr) (denom : string) (amount : Z) : W unit :=
  setup_allowlist [denom] ;;
  deposit_collateral borrower denom amount ;;
  wret tt.

Definition returns_false_when_allowlist_is_empty : W unit :=
  let* x1 := peek (is_collateral_token_allowed "uusd") in
  w_assert (negb x1).

Definition returns_false_when_allowlist_is_absent : W unit :=
  let* x1 := peek (is_collateral_token_allowed "uusd") in
  w_assert (negb x1).

Definition returns_true_for_allowed_token : W unit :=
  setup_allowlist (["uusd"; "uatom"]) ;;
  let* x1 := peek (is_collateral_token_allowed "uusd") in
  w_assert x1 ;;
  let* x2 := peek (is_collateral_token_allowed "uatom") in
  w_assert x2.

Definition returns_false_for_unlisted_token : W unit :=
  setup_allowlist (["uusd"]) ;;
  let* x1 := peek (is_collateral_token_allowed "uatom") in
  w_assert (negb x1).

Definition case_sensitive_matching : W unit :=
  setup_allowlist (["uUSD"]) ;;
  let* x1 := peek (is_collateral_token_allowed "uUSD") in
  w_assert x1 ;;
  let* x2 := peek (is_collateral_token_allowed "uusd") in
  w_assert (negb x2).

Definition returns_default_when_not_configured : W unit :=
  let* x1 := peek (collateral_risk_weight_bps "uusd") in
  w_eq x1 DEFAULT_COLLATERAL_RISK_WEIGHT_BPS.

Definition returns_configured_value : W unit :=
  save (COLLATERAL_RISK_WEIGHTS "uatom") 7500 ;;
  let* x1 := peek (collateral_risk_weight_bps "uatom") in
  w_eq x1 7500 ;;
  let* x2 := peek (collateral_risk_weight_bps "uusd") in
  w_eq x2 DEFAULT_COLLATERAL_RISK_WEIGHT_BPS.

Definition rejects_zero_amount_deposit_collateral : W unit :=
  setup_allowlist (["uusd"]) ;;
  fails_with (deposit_collateral alice_addr "uusd" 0) InvalidAmount.

Definition rejects_unallowed_token : W unit :=
  fails_with (deposit_collateral alice_addr "uusd" 100) CollateralTokenNotAllowed.

Definition records_deposit : W unit :=
  setup_allowlist (["uusd"]) ;;
  deposit_collateral alice_addr "uusd" 1000 ;;
  let* x1 := get (COLLATERAL_BALANCES alice_addr "uusd") in
  let* balance := unwrapped x1 in
  w_eq balance 1000.

Definition accumulates_multiple_deposits : W unit :=
  setup_allowlist (["uusd"]) ;;
  deposit_collateral alice_addr "uusd" 500 ;;
  deposit_collateral alice_addr "uusd" 300 ;;
  let* x1 := get (COLLATERAL_BALANCES alice_addr "uusd") in
  let* balance := unwrapped x1 in
  w_eq balance 800.

Definition tracks_borrower_tokens : W unit :=
  setup_allowlist (["uusd"; "uatom"]) ;;
  deposit_collateral alice_addr "uusd" 500 ;;
  deposit_collateral alice_addr "uatom" 300 ;;
  let* x1 := get (BORROWER_COLLATERAL_TOKENS alice_addr) in
  let* tokens := unwrapped x1 in
  w_eq (Z.of_nat (length tokens)) 2 ;;
  w_assert (bool_decide ("uusd" ∈ tokens)) ;;
  w_assert (bool_decide ("uatom" ∈ tokens)).

Definition isolates_borrowers_deposit_collateral : W unit :=
  setup_allowlist (["uusd"]) ;;
  deposit_collateral alice_addr "uusd" 500 ;;
  let* x1 := get (COLLATERAL_BALANCES alice_addr "uusd") in
  let* alice_balance := unwrapped x1 in
  w_eq alice_balance 500 ;;
  let* bob_balance := get (COLLATERAL_BALANCES bob_addr "uusd") in
  w_assert (negb (bool_decide (is_Some bob_balance))).

Definition response_has_correct_attributes_deposit_collateral : W unit :=
  setup_allowlist (["uusd"]) ;;
  let* resp := deposit_collateral alice_addr "uusd" 100 in
  let attrs := attributes resp in
  let* x2 := index attrs 0 in
  w_eq (snd x2) "deposit_collateral" ;;
  let* x3 := index attrs 1 in
  w_eq (snd x3) "alice" ;;
  let* x4 := index attrs 2 in
  w_eq (snd x4) "uusd" ;;
  let* x5 := index attrs 3 in
  w_eq (snd x5) "100".

Definition does_not_duplicate_token_in_borrower_list : W unit :=
  setup_allowlist (["uusd"]) ;;
  deposit_collateral alice_addr "uusd" 100 ;;
  deposit_collateral alice_addr "uusd" 50 ;;
  let* x1 := get (BORROWER_COLLATERAL_TOKENS alice_addr) in
  let* tokens := unwrapped x1 in
  w_eq (Z.of_nat (length tokens)) 1.

Definition rejects_zero_amount_withdraw_collateral : W unit :=
  fails_with (withdraw_collateral alice_addr "uusd" 0) InvalidAmount.

Definition rejects_insufficient_balance : W unit :=
  fails_with (withdraw_collateral alice_addr "uusd" 100) InsufficientCollateralBalance.

Definition withdraws_partial_amount : W unit :=
  setup_deposit alice_addr "uusd" 1000 ;;
  withdraw_collateral alice_addr "uusd" 300 ;;
  let* x1 := get (COLLATERAL_BALANCES alice_addr "uusd") in
  let* balance := unwrapped x1 in
  w_eq balance 700.

Definition withdraws_full_amount_and_cleans_up : W unit :=
  setup_deposit alice_addr "uusd" 500 ;;
  withdraw_collateral alice_addr "uusd" 500 ;;
  let* balance := get (COLLATERAL_BALANCES alice_addr "uusd") in
  w_assert (negb (bool_decide (is_Some balance))) ;;
  let* x2 := get (BORROWER_COLLATERAL_TOKENS alice_addr) in
  let* tokens := unwrapped x2 in
  w_assert (negb (bool_decide ("uusd" ∈ tokens))).

Definition rejects_withdraw_exceeding_balance : W unit :=
  setup_deposit alice_addr "uusd" 100 ;;
  fails_with (withdraw_collateral alice_addr "uusd" 101) InsufficientCollateralBalance.

Definition response_has_correct_attributes_withdraw_collateral : W unit :=
  setup_deposit alice_addr "uusd" 500 ;;
  let* resp := withdraw_collateral alice_addr "uusd" 200 in
  let attrs := attributes resp in
  let* x2 := index attrs 0 in
  w_eq (snd x2) "withdraw_collateral" ;;
  let* x3 := index attrs 1 in
  w_eq (snd x3) "alice" ;;
  let* x4 := index attrs 2 in
  w_eq (snd x4) "uusd" ;;
  let* x5 := index attrs 3 in
  w_eq (snd x5) "200".

Definition preserves_other_tokens_when_one_is_depleted : W unit :=
  setup_allowlist (["uusd"; "uatom"]) ;;
  deposit_collateral alice_addr "uusd" 100 ;;
  deposit_collateral alice_addr "uatom" 200 ;;
  withdraw_collateral alice_addr "uusd" 100 ;;
  let* x1 := get (COLLATERAL_BALANCES alice_addr "uatom") in
  let* balance := unwrapped x1 in
  w_eq balance 200 ;;
  let* x3 := get (BORROWER_COLLATERAL_TOKENS alice_addr) in
  let* tokens := unwrapped x3 in
  w_assert (negb (bool_decide ("uusd" ∈ tokens))) ;;
  w_assert (bool_decide ("uatom" ∈ tokens)).

Definition returns_zero_for_missing_balance : W unit :=
  let* balance := peek (query_collateral_balance alice_addr "uusd") in
  w_eq balance 0.

Definition returns_stored_balance : W unit :=
  setup_deposit alice_addr "uusd" 750 ;;
  let* balance := peek (query_collateral_balance alice_addr "uusd") in
  w_eq balance 750.

Definition returns_zero_for_different_borrower : W unit :=
  setup_deposit alice_addr "uusd" 750 ;;
  let* balance := peek (query_collateral_balance bob_addr "uusd") in
  w_eq balance 0.

Definition returns_empty_for_borrower_with_no_deposits : W unit :=
  let* result := peek (query_borrower_collateral alice_addr) in
  w_assert (Z.of_nat (length result) =? 0).

Definition returns_all_tokens_sorted : W unit :=
  setup_allowlist (["uatom"; "uusd"; "uosmo"]) ;;
  deposit_collateral alice_addr "uosmo" 300 ;;
  deposit_collateral alice_addr "uusd" 500 ;;
  deposit_collateral alice_addr "uatom" 100 ;;
  let* result := peek (query_borrower_collateral alice_addr) in
  w_eq (Z.of_nat (length result)) 3 ;;
  let* x2 := index result 0 in
  w_eq (fst x2) "uatom" ;;
  let* x3 := index result 0 in
  w_eq (snd x3) 100 ;;
  let* x4 := index result 1 in
  w_eq (fst x4) "uosmo" ;;
  let* x5 := index result 1 in
  w_eq (snd x5) 300 ;;
  let* x6 := index result 2 in
  w_eq (fst x6) "uusd" ;;
  let* x7 := index result 2 in
  w_eq (snd x7) 500.

Definition isolates_borrowers_query_borrower_collateral : W unit :=
  setup_allowlist (["uusd"]) ;;
  deposit_collateral alice_addr "uusd" 500 ;;
  let* x1 := peek (query_borrower_collateral alice_addr) in
  w_eq (Z.of_nat (length x1)) 1 ;;
  let* x2 := peek (query_borrower_collateral bob_addr) in
  w_assert (Z.of_nat (length x2) =? 0).

Definition returns_zero_when_no_deposits : W unit :=
  let* total := read (weighted_collateral_total alice_addr) in
  w_eq total 0.

Definition returns_full_value_at_default_weight : W unit :=
  setup_allowlist (["uusd"]) ;;
  deposit_collateral alice_addr "uusd" 1000 ;;
  let* total := read (weighted_collateral_total alice_addr) in
  w_eq total 1000.

Definition applies_risk_weight_correctly : W unit :=
  setup_allowlist (["uatom"; "uusd"]) ;;
  save (COLLATERAL_RISK_WEIGHTS "uatom") 5000 ;;
  deposit_collateral alice_addr "uatom" 200 ;;
  deposit_collateral alice_addr "uusd" 100 ;;
  let* total := read (weighted_collateral_total alice_addr) in
  w_eq total 200.

Definition zero_weight_token_contributes_nothing : W unit :=
  setup_allowlist (["uatom"]) ;;
  save (COLLATERAL_RISK_WEIGHTS "uatom") 0 ;;
  deposit_collateral alice_addr "uatom" 500 ;;
  let* total := read (weighted_collateral_total alice_addr) in
  w_eq total 0.

Definition adds_token_to_allowlist : W unit :=
  add_collateral_token "uusd" 10000 ;;
  let* x1 := get COLLATERAL_TOKEN_ALLOWLIST in
  let* list_ := unwrapped x1 in
  w_assert (bool_decide ("uusd" ∈ list_)).

Definition rejects_duplicate_token : W unit :=
  add_collateral_token "uusd" 10000 ;;
  fails_with (add_collateral_token "uusd" 10000) AlreadySettled.

Definition rejects_risk_weight_over_max : W unit :=
  fails_with (add_collateral_token "uusd" 10001) InvalidAmount.

Definition stores_non_default_risk_weight : W unit :=
  add_collateral_token "uatom" 7500 ;;
  let* x1 := get (COLLATERAL_RISK_WEIGHTS "uatom") in
  let* weight := unwrapped x1 in
  w_eq weight 7500.

Definition does_not_store_default_risk_weight : W unit :=
  add_collateral_token "uusd" 10000 ;;
  let* weight := get (COLLATERAL_RISK_WEIGHTS "uusd") in
  w_assert (negb (bool_decide (is_Some weight))).

Definition response_has_correct_attributes_add_collateral_token : W unit :=
  let* resp := add_collateral_token "uusd" 7500 in
  let attrs := attributes resp in
  let* x2 := index attrs 0 in
  w_eq (snd x2) "add_collateral_token" ;;
  let* x3 := index attrs 1 in
  w_eq (snd x3) "uusd" ;;
  let* x4 := index attrs 2 in
  w_eq (snd x4) "7500".

Definition accepts_exactly_max_tokens : W unit :=
  w_for (seqZ 0 (MAX_COLLATERAL_TOKENS - 0)) (fun i => add_collateral_token (token_name i) 10000 ;;
    wret tt) ;;
  let* x1 := get COLLATERAL_TOKEN_ALLOWLIST in
  let* list_ := unwrapped x1 in
  w_eq (Z.of_nat (length list_)) MAX_COLLATERAL_TOKENS.

Definition rejects_new_token_when_allowlist_is_full : W unit :=
  w_for (seqZ 0 (MAX_COLLATERAL_TOKENS - 0)) (fun i => add_collateral_token (token_name i) 10000 ;;
    wret tt) ;;
  fails_with (add_collateral_token "overflow" 10000) TooManyCollateralTokens.

Definition duplicate_on_full_list_still_reports_duplicate : W unit :=
  w_for (seqZ 0 (MAX_COLLATERAL_TOKENS - 0)) (fun i => add_collateral_token (token_name i) 10000 ;;
    wret tt) ;;
  fails_with (add_collateral_token "token000" 10000) AlreadySettled.

Definition removing_token_frees_slot : W unit :=
  w_for (seqZ 0 (MAX_COLLATERAL_TOKENS - 0)) (fun i => add_collateral_token (token_name i) 10000 ;;
    wret tt) ;;
  remove_collateral_token "token000" ;;
  add_collateral_token "replacement" 10000 ;;
  let* x1 := get COLLATERAL_TOKEN_ALLOWLIST in
  let* list_ := unwrapped x1 in
  w_eq (Z.of_nat (length list_)) MAX_COLLATERAL_TOKENS ;;
  w_assert (bool_decide ("replacement" ∈ list_)) ;;
  w_assert (negb (bool_decide ("token000" ∈ list_))).

Definition removes_token_from_allowlist : W unit :=
  add_collateral_token "uusd" 10000 ;;
  remove_collateral_token "uusd" ;;
  let* x1 := get COLLATERAL_TOKEN_ALLOWLIST in
  let* list_ := unwrapped x1 in
  w_assert (negb (bool_decide ("uusd" ∈ list_))).

Definition removes_risk_weight : W unit :=
  add_collateral_token "uatom" 7500 ;;
  remove_collateral_token "uatom" ;;
  let* weight := get (COLLATERAL_RISK_WEIGHTS "uatom") in
  w_assert (negb (bool_decide (is_Some weight))).

Definition rejects_removing_unlisted_token : W unit :=
  fails_with (remove_collateral_token "uusd") CollateralTokenNotAllowed.

Definition response_has_correct_attributes_remove_collateral_token : W unit :=
  add_collateral_token "uusd" 10000 ;;
  let* resp := remove_collateral_token "uusd" in
  let attrs := attributes resp in
  let* x2 := index attrs 0 in
  w_eq (snd x2) "remove_collateral_token" ;;
  let* x3 := index attrs 1 in
  w_eq (snd x3) "uusd".

Definition updates_risk_weight : W unit :=
  add_collateral_token "uatom" 10000 ;;
  set_collateral_risk_weight "uatom" 5000 ;;
  let* x1 := get (COLLATERAL_RISK_WEIGHTS "uatom") in
  let* weight := unwrapped x1 in
  w_eq weight 5000.

Definition rejects_unlisted_token : W unit :=
  fails_with (set_collateral_risk_weight "uusd" 5000) CollateralTokenNotAllowed.

Definition rejects_weight_over_max : W unit :=
  add_collateral_token "uusd" 10000 ;;
  fails_with (set_collateral_risk_weight "uusd" 10001) InvalidAmount.

Definition response_has_correct_attributes_set_collateral_risk_weight : W unit :=
  add_collateral_token "uatom" 10000 ;;
  let* resp := set_collateral_risk_weight "uatom" 7500 in
  let attrs := attributes resp in
  let* x2 := index attrs 0 in
  w_eq (snd x2) "set_collateral_risk_weight" ;;
  let* x3 := index attrs 1 in
  w_eq (snd x3) "uatom" ;;
  let* x4 := index attrs 2 in
  w_eq (snd x4) "7500".

Definition returns_empty_when_not_configured : W unit :=
  let* list_ := peek (query_collateral_allowlist) in
  w_assert (Z.of_nat (length list_) =? 0).

Definition returns_allowed_denoms : W unit :=
  add_collateral_token "uusd" 10000 ;;
  add_collateral_token "uatom" 7500 ;;
  let* list_ := peek (query_collateral_allowlist) in
  w_eq (Z.of_nat (length list_)) 2 ;;
  w_assert (bool_decide ("uusd" ∈ list_)) ;;
  w_assert (bool_decide ("uatom" ∈ list_)).

Definition deposit_withdraw_multiple_tokens_flow : W unit :=
  setup_allowlist (["uusd"; "uatom"; "uosmo"]) ;;
  deposit_collateral alice_addr "uusd" 1000 ;;
  deposit_collateral alice_addr "uatom" 500 ;;
  let* x1 := peek (query_collateral_balance alice_addr "uusd") in
  w_eq x1 1000 ;;
  let* x2 := peek (query_collateral_balance alice_addr "uatom") in
  w_eq x2 500 ;;
  withdraw_collateral alice_addr "uusd" 600 ;;
  let* x3 := peek (query_collateral_balance alice_addr "uusd") in
  w_eq x3 400 ;;
  let* portfolio := peek (query_borrower_collateral alice_addr) in
  w_eq (Z.of_nat (length portfolio)) 2.

Definition allowlist_governs_what_can_be_deposited : W unit :=
  setup_allowlist (["uusd"]) ;;
  deposit_collateral alice_addr "uusd" 100 ;;
  fails_with (deposit_collateral bob_addr "uatom" 100) CollateralTokenNotAllowed.

Definition removing_token_prevents_new_deposits_but_preserves_existing : W unit :=
  setup_allowlist (["uusd"]) ;;
  deposit_collateral alice_addr "uusd" 500 ;;
  remove_collateral_token "uusd" ;;
  fails_with (deposit_collateral bob_addr "uusd" 100) CollateralTokenNotAllowed ;;
  let* x1 := peek (query_collateral_balance alice_addr "uusd") in
  w_eq x1 500.

Definition risk_weight_affects_weighted_total : W unit :=
  setup_allowlist (["uatom"]) ;;
  deposit_collateral alice_addr "uatom" 1000 ;;
  let* x1 := read (weighted_collateral_total alice_addr) in
  w_eq x1 1000 ;;
  set_collateral_risk_weight "uatom" 5000 ;;
  let* x2 := read (weighted_collateral_total alice_addr) in
  w_eq x2 500.

Definition multiple_borrowers_independent : W unit :=
  setup_allowlist (["uusd"]) ;;
  deposit_collateral alice_addr "uusd" 300 ;;
  deposit_collateral bob_addr "uusd" 700 ;;
  let* x1 := read (weighted_collateral_total alice_addr) in
  w_eq x1 300 ;;
  let* x2 := read (weighted_collateral_total bob_addr) in
  w_eq x2 700.

Lemma CollateralTests_pass :
  forallb succeeds [returns_false_when_allowlist_is_empty; returns_false_when_allowlist_is_absent;
     returns_true_for_allowed_token; returns_false_for_unlisted_token; case_sensitive_matching;
     returns_default_when_not_configured; returns_configured_value;
     rejects_zero_amount_deposit_collateral; rejects_unallowed_token; records_deposit;
     accumulates_multiple_deposits; tracks_borrower_tokens; isolates_borrowers_deposit_collateral;
     response_has_correct_attributes_deposit_collateral; does_not_duplicate_token_in_borrower_list;
     rejects_zero_amount_withdraw_collateral; rejects_insufficient_balance; withdraws_partial_amount;
     withdraws_full_amount_and_cleans_up; rejects_withdraw_exceeding_balance;
     response_has_correct_attributes_withdraw_collateral; preserves_other_tokens_when_one_is_depleted;
     returns_zero_for_missing_balance; returns_stored_balance; returns_zero_for_different_borrower;
     returns_empty_for_borrower_with_no_deposits; returns_all_tokens_sorted;
     isolates_borrowers_query_borrower_collateral; returns_zero_when_no_deposits;
     returns_full_value_at_default_weight; applies_risk_weight_correctly;
     zero_weight_token_contributes_nothing; adds_token_to_allowlist; rejects_duplicate_token;
     rejects_risk_weight_over_max; stores_non_default_risk_weight; does_not_store_default_risk_weight;
     response_has_correct_attributes_add_collateral_token; accepts_exactly_max_tokens;
     rejects_new_token_when_allowlist_is_full; duplicate_on_full_list_still_reports_duplicate;
     removing_token_frees_slot; removes_token_from_allowlist; removes_risk_weight;
     rejects_removing_unlisted_token; response_has_correct_attributes_remove_collateral_token;
     updates_risk_weight; rejects_unlisted_token; rejects_weight_over_max;
     response_has_correct_attributes_set_collateral_risk_weight; returns_empty_when_not_configured;
     returns_allowed_denoms; deposit_withdraw_multiple_tokens_flow;
     allowlist_governs_what_can_be_deposited;
     removing_token_prevents_new_deposits_but_preserves_existing; risk_weight_affects_weighted_total;
     multiple_borrowers_independent] = true.
Proof. vm_compute. reflexivity. Qed.
End CollateralTests.

(** ** [fees.rs] *)
Module FeeTests.
Definition split_all_to_treasury_when_share_is_max : W unit :=
  let* split := lift (split_protocol_fee 100 MAX_FEE_SHARE_BPS) in
  w_eq split (mkFeeSplitAmounts 100 0).

Definition split_all_to_bounty_when_share_is_zero : W unit :=
  let* split := lift (split_protocol_fee 100 0) in
  w_eq split (mkFeeSplitAmounts 0 100).

Definition split_even_ratio_allocates_half_each : W unit :=
  let* split := lift (split_protocol_fee 100 5000) in
  w_eq split (mkFeeSplitAmounts 50 50).

Definition split_remainder_goes_to_bounty_on_rounding : W unit :=
  let* split := lift (split_protocol_fee 10 3333) in
  w_eq (treasury_amount split) 3 ;;
  w_eq (bounty_amount split) 7 ;;
  let* x2 := lift (native (checked_u128 ((treasury_amount split) + (bounty_amount split)))) in
  w_eq x2 10.

Definition split_zero_fee_yields_zeroes : W unit :=
  let* split := lift (split_protocol_fee 0 7500) in
  w_eq split (mkFeeSplitAmounts 0 0).

Definition split_above_max_bps_returns_error : W unit :=
  fails_with (lift (split_protocol_fee 100 (MAX_FEE_SHARE_BPS + 1))) InvalidFeeShareBps.

Definition split_75_25_ratio : W unit :=
  let* split := lift (split_protocol_fee 1000 7500) in
  w_eq (treasury_amount split) 750 ;;
  w_eq (bounty_amount split) 250.

Definition split_1_bps : W unit :=
  let* split := lift (split_protocol_fee 10000 1) in
  w_eq (treasury_amount split) 1 ;;
  w_eq (bounty_amount split) 9999.

Definition split_large_fee_no_overflow : W unit :=
  let large := u128_max / 10001 in
  let* split := lift (split_protocol_fee large 5000) in
  let* x2 := lift (native (checked_u128 (large * 5000))) in
  w_eq (treasury_amount split) (x2 / 10000) ;;
  let* x3 := lift (native (checked_u128 ((treasury_amount split) + (bounty_amount split)))) in
  w_eq x3 large.

Definition default_share_when_nothing_set : W unit :=
  let* share := peek (get_treasury_fee_share_bps "ucredit") in
  w_eq share DEFAULT_TREASURY_FEE_SHARE_BPS.

Definition accrue_zero_fee_does_not_write : W unit :=
  let* split := accrue_protocol_fee "ucredit" 0 in
  w_eq (treasury_amount split) 0 ;;
  w_eq (bounty_amount split) 0.

Definition accrue_full_treasury_split : W unit :=
  let* split := accrue_protocol_fee "ucredit" 1000 in
  w_eq (treasury_amount split) 1000 ;;
  w_eq (bounty_amount split) 0 ;;
  let* x2 := get (TREASURY_BALANCE "ucredit") in
  let* treasury := unwrapped x2 in
  w_eq treasury 1000 ;;
  let* bounty := get (BOUNTY_BALANCE "ucredit") in
  w_assert (match bounty with None => true | Some v => v =? 0 end).

Definition withdraw_treasury_unauthorized : W unit :=
  let owner := mkAddr "owner" in
  let config := mkConfig owner in
  save CONFIG config ;;
  let addr := mkAddr "not_owner" in
  fails_with (withdraw_treasury addr "ucredit" 100) Unauthorized.

Definition withdraw_treasury_zero_amount : W unit :=
  let owner := mkAddr "owner" in
  let config := mkConfig owner in
  save CONFIG config ;;
  fails_with (withdraw_treasury owner "ucredit" 0) InvalidAmount.

Definition withdraw_treasury_insufficient_balance : W unit :=
  let owner := mkAddr "owner" in
  let config := mkConfig owner in
  save CONFIG config ;;
  save (TREASURY_BALANCE "ucredit") 50 ;;
  fails_with (withdraw_treasury owner "ucredit" 100) InsufficientTreasuryBalance.

Definition withdraw_treasury_success : W unit :=
  let owner := mkAddr "owner" in
  let config := mkConfig owner in
  save CONFIG config ;;
  save (TREASURY_BALANCE "ucredit") 200 ;;
  let* withdrawn := withdraw_treasury owner "ucredit" 150 in
  w_eq withdrawn 150 ;;
  let* x2 := get (TREASURY_BALANCE "ucredit") in
  let* balance := unwrapped x2 in
  w_eq balance 50.

Definition withdraw_bounty_unauthorized : W unit :=
  let owner := mkAddr "owner" in
  let config := mkConfig owner in
  save CONFIG config ;;
  let addr := mkAddr "not_owner" in
  fails_with (withdraw_bounty addr "ucredit" 100) Unauthorized.

Definition withdraw_bounty_zero_amount : W unit :=
  let owner := mkAddr "owner" in
  let config := mkConfig owner in
  save CONFIG config ;;
  fails_with (withdraw_bounty owner "ucredit" 0) InvalidAmount.

Definition withdraw_bounty_insufficient_balance : W unit :=
  let owner := mkAddr "owner" in
  let config := mkConfig owner in
  save CONFIG config ;;
  save (BOUNTY_BALANCE "ucredit") 50 ;;
  fails_with (withdraw_bounty owner "ucredit" 100) InsufficientBountyBalance.

Definition withdraw_bounty_success : W unit :=
  let owner := mkAddr "owner" in
  let config := mkConfig owner in
  save CONFIG config ;;
  save (BOUNTY_BALANCE "ucredit") 200 ;;
  let* withdrawn := withdraw_bounty owner "ucredit" 150 in
  w_eq withdrawn 150 ;;
  let* x2 := get (BOUNTY_BALANCE "ucredit") in
  let* balance := unwrapped x2 in
  w_eq balance 50.

Definition per_market_share_overrides_default : W unit :=
  save DEFAULT_FEE_SHARE_BPS 7000 ;;
  save (MARKET_FEE_SHARE_BPS "ustable") 3000 ;;
  let* default_share := peek (get_treasury_fee_share_bps "ucredit") in
  w_eq default_share 7000 ;;
  let* market_share := peek (get_treasury_fee_share_bps "ustable") in
  w_eq market_share 3000.

Definition accrue_with_per_market_share : W unit :=
  save (MARKET_FEE_SHARE_BPS "ustable") 5000 ;;
  let* split := accrue_protocol_fee "ustable" 200 in
  w_eq (treasury_amount split) 100 ;;
  w_eq (bounty_amount split) 100 ;;
  let* x2 := get (TREASURY_BALANCE "ustable") in
  let* treasury := unwrapped x2 in
  w_eq treasury 100 ;;
  let* x4 := get (BOUNTY_BALANCE "ustable") in
  let* bounty := unwrapped x4 in
  w_eq bounty 100.

Definition multiple_markets_are_isolated : W unit :=
  save (MARKET_FEE_SHARE_BPS "ustable") 3000 ;;
  accrue_protocol_fee "ucredit" 1000 ;;
  accrue_protocol_fee "ustable" 1000 ;;
  let* x1 := get (TREASURY_BALANCE "ucredit") in
  let* t_credit := unwrapped x1 in
  w_eq t_credit 1000 ;;
  let* x3 := get (TREASURY_BALANCE "ustable") in
  let* t_stable := unwrapped x3 in
  w_eq t_stable 300 ;;
  let* x5 := get (BOUNTY_BALANCE "ustable") in
  let* b_stable := unwrapped x5 in
  w_eq b_stable 700.

Definition withdraw_per_market_isolated : W unit :=
  let owner := mkAddr "owner" in
  let config := mkConfig owner in
  save CONFIG config ;;
  accrue_protocol_fee "ucredit" 500 ;;
  accrue_protocol_fee "ustable" 500 ;;
  withdraw_treasury owner "ucredit" 200 ;;
  let* x1 := get (TREASURY_BALANCE "ucredit") in
  let* t_credit := unwrapped x1 in
  w_eq t_credit 300 ;;
  let* x3 := get (TREASURY_BALANCE "ustable") in
  let* t_stable := unwrapped x3 in
  w_eq t_stable 500.

Definition accrue_accumulates_over_multiple_calls : W unit :=
  accrue_protocol_fee "ucredit" 100 ;;
  accrue_protocol_fee "ucredit" 200 ;;
  let* x1 := get (TREASURY_BALANCE "ucredit") in
  let* treasury := unwrapped x1 in
  w_eq treasury 300.

Lemma FeeTests_pass :
  forallb succeeds [split_all_to_treasury_when_share_is_max; split_all_to_bounty_when_share_is_zero;
     split_even_ratio_allocates_half_each; split_remainder_goes_to_bounty_on_rounding;
     split_zero_fee_yields_zeroes; split_above_max_bps_returns_error; split_75_25_ratio; split_1_bps;
     split_large_fee_no_overflow; default_share_when_nothing_set; accrue_zero_fee_does_not_write;
     accrue_full_treasury_split; withdraw_treasury_unauthorized; withdraw_treasury_zero_amount;
     withdraw_treasury_insufficient_balance; withdraw_treasury_success; withdraw_bounty_unauthorized;
     withdraw_bounty_zero_amount; withdraw_bounty_insufficient_balance; withdraw_bounty_success;
     per_market_share_overrides_default; accrue_with_per_market_share; multiple_markets_are_isolated;
     withdraw_per_market_isolated; accrue_accumulates_over_multiple_calls] = true.
Proof. vm_compute. reflexivity. Qed.
End FeeTests.

(** ** [views.rs] *)
Module ViewTests.
Definition setup_contract : W unit :=
  instantiate mock_env (mkMessageInfo creator_addr) (mkInstantiateMsg (addr_str creator_addr)) ;;
  wret tt.

Definition create_credit_line : W unit :=
  execute mock_env (mkMessageInfo creator_addr)
    (CreateCreditLine (addr_str borrower_addr) "ucollateral" "1000" "ucredit" "10000") ;;
  wret tt.

Definition create_draw (credit_line_id : Z) (amount : string) : W unit :=
  execute mock_env (mkMessageInfo borrower_addr) (CreateDraw credit_line_id amount "ucredit") ;;
  wret tt.

Definition repay_draw (credit_line_id draw_id : Z) : W unit :=
  execute mock_env (mkMessageInfo borrower_addr) (RepayDraw credit_line_id draw_id) ;;
  wret tt.

Definition add_audit_memo (credit_line_id draw_id : Z) (memo : string) : W unit :=
  execute mock_env (mkMessageInfo creator_addr) (AddAuditMemo credit_line_id draw_id memo) ;;
  wret tt.

Definition query_audit (credit_line_id : Z) (draw_id : option Z) : W (list DrawAuditTrailResponse) :=
  let* raw := read (fun s => query s (DrawAuditTrail credit_line_id draw_id None None)) in
  match raw with AuditTrailAnswer r => wret r | _ => lift (inr Panics) end.

Definition query_por (denom : option string) : W ProofOfReserveResponse :=
  let* raw := read (fun s => query s (ProofOfReserve denom)) in
  match raw with ReserveAnswer r => wret r | _ => lift (inr Panics) end.

Definition query_health (borrower : string) : W BorrowerHealthFactorResponse :=
  let* raw := read (fun s => query s (BorrowerHealthFactor borrower)) in
  match raw with HealthAnswer r => wret r | _ => lift (inr Panics) end.

(** [cl.active = false] *)
Definition deactivated (cl : CreditLine) : CreditLine :=
  mkCreditLine (cl_id cl) (borrower cl) (collateral_denom cl) (collateral_amount cl) (credit_denom cl)
    (credit_amount cl) false.

Definition returns_empty_for_credit_line_without_draws : W unit :=
  setup_contract ;;
  create_credit_line ;;
  let* resp := query_audit 0 None in
  w_assert (Z.of_nat (length resp) =? 0).

Definition returns_audit_trail_for_single_draw : W unit :=
  setup_contract ;;
  create_credit_line ;;
  create_draw 0 "100" ;;
  let* resp := query_audit 0 (Some 0) in
  w_eq (Z.of_nat (length resp)) 1 ;;
  let* x2 := index resp 0 in
  w_eq (at_draw_amount x2) "100" ;;
  let* x3 := index resp 0 in
  w_eq (at_draw_denom x3) "ucredit" ;;
  let* x4 := index resp 0 in
  w_assert (negb (at_repaid x4)) ;;
  let* x5 := index resp 0 in
  w_eq (at_draw_id x5) 0 ;;
  let* x6 := index resp 0 in
  w_eq (at_credit_line_id x6) 0.

Definition returns_all_draws_when_no_draw_id_specified : W unit :=
  setup_contract ;;
  create_credit_line ;;
  create_draw 0 "100" ;;
  create_draw 0 "200" ;;
  create_draw 0 "300" ;;
  let* resp := query_audit 0 None in
  w_eq (Z.of_nat (length resp)) 3 ;;
  let* x2 := index resp 0 in
  w_eq (at_draw_amount x2) "100" ;;
  let* x3 := index resp 1 in
  w_eq (at_draw_amount x3) "200" ;;
  let* x4 := index resp 2 in
  w_eq (at_draw_amount x4) "300".

Definition includes_repaid_status : W unit :=
  setup_contract ;;
  create_credit_line ;;
  create_draw 0 "100" ;;
  let* x1 := query_audit 0 (Some 0) in
  let* x2 := index x1 0 in
  w_assert (negb (at_repaid x2)) ;;
  repay_draw 0 0 ;;
  let* x3 := query_audit 0 (Some 0) in
  let* x4 := index x3 0 in
  w_assert (at_repaid x4).

Definition includes_audit_events : W unit :=
  setup_contract ;;
  create_credit_line ;;
  create_draw 0 "100" ;;
  add_audit_memo 0 0 "First note" ;;
  add_audit_memo 0 0 "Second note" ;;
  let* resp := query_audit 0 (Some 0) in
  let* x2 := index resp 0 in
  w_eq (Z.of_nat (length (at_events x2))) 3 ;;
  let* x3 := index resp 0 in
  let* x4 := index (at_events x3) 0 in
  w_eq (ev_action x4) DrawCreated ;;
  let* x5 := index resp 0 in
  let* x6 := index (at_events x5) 0 in
  w_eq (ev_seq x6) 0 ;;
  let* x7 := index resp 0 in
  let* x8 := index (at_events x7) 1 in
  w_eq (ev_action x8) MemoAdded ;;
  let* x9 := index resp 0 in
  let* x10 := index (at_events x9) 1 in
  w_eq (ev_memo x10) "First note" ;;
  let* x11 := index resp 0 in
  let* x12 := index (at_events x11) 1 in
  w_eq (ev_seq x12) 1 ;;
  let* x13 := index resp 0 in
  let* x14 := index (at_events x13) 2 in
  w_eq (ev_action x14) MemoAdded ;;
  let* x15 := index resp 0 in
  let* x16 := index (at_events x15) 2 in
  w_eq (ev_memo x16) "Second note" ;;
  let* x17 := index resp 0 in
  let* x18 := index (at_events x17) 2 in
  w_eq (ev_seq x18) 2.

Definition includes_repay_audit_event : W unit :=
  setup_contract ;;
  create_credit_line ;;
  create_draw 0 "100" ;;
  repay_draw 0 0 ;;
  let* resp := query_audit 0 (Some 0) in
  let* x2 := index resp 0 in
  w_eq (Z.of_nat (length (at_events x2))) 2 ;;
  let* x3 := index resp 0 in
  let* x4 := index (at_events x3) 0 in
  w_eq (ev_action x4) DrawCreated ;;
  let* x5 := index resp 0 in
  let* x6 := index (at_events x5) 1 in
  w_eq (ev_action x6) Repaid.

Definition errors_on_nonexistent_credit_line : W unit :=
  fails_with (read (fun s => query_draw_audit_trail s 999 None None None)) (CreditLineNotFound 999).

Definition errors_on_nonexistent_draw : W unit :=
  setup_contract ;;
  create_credit_line ;;
  fails_with (read (fun s => query_draw_audit_trail s 0 (Some 999) None None)) (DrawNotFound 999 0).

Definition draw_has_draw_created_audit_event : W unit :=
  setup_contract ;;
  create_credit_line ;;
  create_draw 0 "50" ;;
  let* resp := query_audit 0 (Some 0) in
  let* x2 := index resp 0 in
  w_eq (Z.of_nat (length (at_events x2))) 1 ;;
  let* x3 := index resp 0 in
  let* x4 := index (at_events x3) 0 in
  w_eq (ev_action x4) DrawCreated.

Definition multiple_credit_lines_isolated : W unit :=
  setup_contract ;;
  create_credit_line ;;
  create_credit_line ;;
  create_draw 0 "100" ;;
  create_draw 1 "200" ;;
  let* resp0 := query_audit 0 None in
  let* resp1 := query_audit 1 None in
  w_eq (Z.of_nat (length resp0)) 1 ;;
  w_eq (Z.of_nat (length resp1)) 1 ;;
  let* x3 := index resp0 0 in
  w_eq (at_draw_amount x3) "100" ;;
  let* x4 := index resp1 0 in
  w_eq (at_draw_amount x4) "200".

Definition audit_events_include_correct_by_address : W unit :=
  setup_contract ;;
  create_credit_line ;;
  create_draw 0 "100" ;;
  add_audit_memo 0 0 "Owner note" ;;
  let creator_str := addr_str creator_addr in
  let borrower_str := addr_str borrower_addr in
  let* resp := query_audit 0 (Some 0) in
  let* x2 := index resp 0 in
  let* x3 := index (at_events x2) 0 in
  w_eq (addr_str (ev_by x3)) borrower_str ;;
  let* x4 := index resp 0 in
  let* x5 := index (at_events x4) 1 in
  w_eq (addr_str (ev_by x5)) creator_str.

Definition returns_empty_reserves_when_no_credit_lines : W unit :=
  setup_contract ;;
  let* por := query_por None in
  w_eq (po_total_credit_lines por) 0 ;;
  w_eq (po_active_credit_lines por) 0 ;;
  w_eq (po_total_collateral por) 0 ;;
  w_eq (po_total_credit_limit por) 0 ;;
  w_eq (po_total_drawn por) 0 ;;
  w_eq (po_total_repaid por) 0 ;;
  w_eq (po_net_outstanding por) 0 ;;
  w_assert (Z.of_nat (length (po_reserves_by_denom por)) =? 0).

Definition returns_proof_of_reserve_for_single_credit_line_and_draws : W unit :=
  setup_contract ;;
  create_credit_line ;;
  create_draw 0 "200" ;;
  create_draw 0 "100" ;;
  repay_draw 0 1 ;;
  let* por := query_por None in
  w_eq (po_total_credit_lines por) 1 ;;
  w_eq (po_active_credit_lines por) 1 ;;
  w_eq (po_total_collateral por) 1000 ;;
  w_eq (po_total_credit_limit por) 10000 ;;
  w_eq (po_total_drawn por) 200 ;;
  w_eq (po_total_repaid por) 100 ;;
  w_eq (po_net_outstanding por) 200 ;;
  w_eq (Z.of_nat (length (po_reserves_by_denom por))) 2 ;;
  let* ucollateral_res := unwrapped (List.find (fun r => bool_decide (de_denom r = "ucollateral"))
    (po_reserves_by_denom por)) in
  w_eq (de_collateral_amount ucollateral_res) 1000 ;;
  let* ucredit_res := unwrapped (List.find (fun r => bool_decide (de_denom r = "ucredit"))
    (po_reserves_by_denom por)) in
  w_eq (de_credit_limit ucredit_res) 10000 ;;
  w_eq (de_drawn_amount ucredit_res) 200 ;;
  w_eq (de_repaid_amount ucredit_res) 100 ;;
  w_eq (de_net_outstanding ucredit_res) 200.

Definition filters_reserves_by_denom : W unit :=
  setup_contract ;;
  create_credit_line ;;
  create_draw 0 "150" ;;
  let* por_col := query_por (Some "ucollateral") in
  w_eq (Z.of_nat (length (po_reserves_by_denom por_col))) 1 ;;
  let* x2 := index (po_reserves_by_denom por_col) 0 in
  w_eq (de_denom x2) "ucollateral" ;;
  w_eq (po_total_collateral por_col) 1000 ;;
  let* por_cred := query_por (Some "ucredit") in
  w_eq (Z.of_nat (length (po_reserves_by_denom por_cred))) 1 ;;
  let* x4 := index (po_reserves_by_denom por_cred) 0 in
  w_eq (de_denom x4) "ucredit" ;;
  w_eq (po_total_credit_limit por_cred) 10000 ;;
  w_eq (po_total_drawn por_cred) 150.

Definition handles_inactive_credit_line : W unit :=
  setup_contract ;;
  create_credit_line ;;
  let* x1 := get (CREDIT_LINES 0) in
  let* cl := unwrapped x1 in
  let x3 := deactivated cl in
  save (CREDIT_LINES 0) x3 ;;
  let* por := query_por None in
  w_eq (po_total_credit_lines por) 1 ;;
  w_eq (po_active_credit_lines por) 0 ;;
  w_eq (po_total_collateral por) 0 ;;
  w_eq (po_total_credit_limit por) 0.

Definition returns_empty_for_borrower_without_credit_lines : W unit :=
  setup_contract ;;
  let borrower_str := addr_str borrower_addr in
  let* resp := query_health borrower_str in
  w_eq (bh_borrower resp) borrower_str ;;
  w_assert (Z.of_nat (length (bh_credit_lines resp)) =? 0).

Definition returns_u32_max_for_zero_utilization : W unit :=
  setup_contract ;;
  create_credit_line ;;
  let borrower_str := addr_str borrower_addr in
  let* resp := query_health borrower_str in
  w_eq (Z.of_nat (length (bh_credit_lines resp))) 1 ;;
  let* x2 := index (bh_credit_lines resp) 0 in
  w_eq (he_credit_line_id x2) 0 ;;
  let* x3 := index (bh_credit_lines resp) 0 in
  w_eq (he_utilized_amount x3) 0 ;;
  let* x4 := index (bh_credit_lines resp) 0 in
  w_eq (he_health_factor_bps x4) u32_max.

Definition computes_health_factor_correctly : W unit :=
  setup_contract ;;
  create_credit_line ;;
  create_draw 0 "100" ;;
  let borrower_str := addr_str borrower_addr in
  let* resp := query_health borrower_str in
  w_eq (Z.of_nat (length (bh_credit_lines resp))) 1 ;;
  let* x2 := index (bh_credit_lines resp) 0 in
  w_eq (he_utilized_amount x2) 100 ;;
  let* x3 := index (bh_credit_lines resp) 0 in
  w_eq (he_health_factor_bps x3) 100000.

Definition handles_multiple_draws_and_repayments : W unit :=
  setup_contract ;;
  create_credit_line ;;
  create_draw 0 "100" ;;
  create_draw 0 "200" ;;
  let borrower_str := addr_str borrower_addr in
  let* resp := query_health borrower_str in
  let* x2 := index (bh_credit_lines resp) 0 in
  w_eq (he_utilized_amount x2) 300 ;;
  let* x3 := index (bh_credit_lines resp) 0 in
  w_eq (he_health_factor_bps x3) 33333 ;;
  repay_draw 0 0 ;;
  let* resp2 := query_health borrower_str in
  let* x5 := index (bh_credit_lines resp2) 0 in
  w_eq (he_utilized_amount x5) 200 ;;
  let* x6 := index (bh_credit_lines resp2) 0 in
  w_eq (he_health_factor_bps x6) 50000.

Definition handles_multiple_credit_lines_for_same_borrower : W unit :=
  setup_contract ;;
  create_credit_line ;;
  create_credit_line ;;
  create_draw 0 "100" ;;
  create_draw 1 "250" ;;
  let borrower_str := addr_str borrower_addr in
  let* resp := query_health borrower_str in
  w_eq (Z.of_nat (length (bh_credit_lines resp))) 2 ;;
  let* x2 := index (bh_credit_lines resp) 0 in
  w_eq (he_credit_line_id x2) 0 ;;
  let* x3 := index (bh_credit_lines resp) 0 in
  w_eq (he_health_factor_bps x3) 100000 ;;
  let* x4 := index (bh_credit_lines resp) 1 in
  w_eq (he_credit_line_id x4) 1 ;;
  let* x5 := index (bh_credit_lines resp) 1 in
  w_eq (he_health_factor_bps x5) 40000.

Definition excludes_inactive_credit_lines : W unit :=
  setup_contract ;;
  create_credit_line ;;
  create_credit_line ;;
  create_draw 0 "100" ;;
  create_draw 1 "250" ;;
  let* x1 := get (CREDIT_LINES 1) in
  let* inactive := unwrapped x1 in
  let x3 := deactivated inactive in
  save (CREDIT_LINES 1) x3 ;;
  let borrower_str := addr_str borrower_addr in
  let* resp := query_health borrower_str in
  w_eq (Z.of_nat (length (bh_credit_lines resp))) 1 ;;
  let* x5 := index (bh_credit_lines resp) 0 in
  w_eq (he_credit_line_id x5) 0 ;;
  let* x6 := index (bh_credit_lines resp) 0 in
  w_eq (he_health_factor_bps x6) 100000.

Definition handles_zero_collateral_or_zero_credit_amount : W unit :=
  setup_contract ;;
  let env := mock_env in
  let creator_addr := creator_addr in
  let info := mkMessageInfo creator_addr in
  let msg := CreateCreditLine (addr_str borrower_addr) "ucollateral" "0" "ucredit" "500" in
  execute env info msg ;;
  let msg2 := CreateCreditLine (addr_str borrower_addr) "ucollateral" "1000" "ucredit" "0" in
  execute env info msg2 ;;
  create_draw 0 "100" ;;
  let borrower_str := addr_str borrower_addr in
  let* resp := query_health borrower_str in
  w_eq (Z.of_nat (length (bh_credit_lines resp))) 2 ;;
  let* x2 := index (bh_credit_lines resp) 0 in
  w_eq (he_credit_line_id x2) 0 ;;
  let* x3 := index (bh_credit_lines resp) 0 in
  w_eq (he_health_factor_bps x3) 0 ;;
  let* x4 := index (bh_credit_lines resp) 1 in
  w_eq (he_credit_line_id x4) 1 ;;
  let* x5 := index (bh_credit_lines resp) 1 in
  w_eq (he_health_factor_bps x5) u32_max ;;
  let drawer := borrower_addr in
  fails_with (execute_create_draw mock_env (mkMessageInfo drawer) 1 "10" "ucredit") OverLimit ;;
  let* resp2 := query_health borrower_str in
  let* x7 := index (bh_credit_lines resp2) 1 in
  w_eq (he_health_factor_bps x7) u32_max.

Lemma ViewTests_pass :
  forallb succeeds [returns_empty_for_credit_line_without_draws; returns_audit_trail_for_single_draw;
     returns_all_draws_when_no_draw_id_specified; includes_repaid_status; includes_audit_events;
     includes_repay_audit_event; errors_on_nonexistent_credit_line; errors_on_nonexistent_draw;
     draw_has_draw_created_audit_event; multiple_credit_lines_isolated;
     audit_events_include_correct_by_address; returns_empty_reserves_when_no_credit_lines;
     returns_proof_of_reserve_for_single_credit_line_and_draws; filters_reserves_by_denom;
     handles_inactive_credit_line; returns_empty_for_borrower_without_credit_lines;
     returns_u32_max_for_zero_utilization; computes_health_factor_correctly;
     handles_multiple_draws_and_repayments; handles_multiple_credit_lines_for_same_borrower;
     excludes_inactive_credit_lines; handles_zero_collateral_or_zero_credit_amount] = true.
Proof. vm_compute. reflexivity. Qed.
End ViewTests.

(** ** [contract.rs] *)
Module LateFeeConfigTests.
Definition non_admin_addr : Addr := mkAddr "non_admin".

Definition setup : W unit :=
  instantiate mock_env (mkMessageInfo creator_addr) (mkInstantiateMsg (addr_str creator_addr)) ;;
  wret tt.

Definition query_late_fee_config : W (option LateFeeConfig) :=
  let* raw := read (fun s => query s GetLateFeeConfig) in
  match raw with LateFeeAnswer r => wret r | _ => lift (inr Panics) end.

Definition set_late_fee_config_by (sender : Addr) (config : option LateFeeConfig) : W Response :=
  execute mock_env (mkMessageInfo sender) (SetLateFeeConfig config).

Definition admin_can_set_flat_config : W unit :=
  setup ;;
  let admin := creator_addr in
  let config := Flat 100 in
  set_late_fee_config_by admin (Some config) ;;
  let* stored := query_late_fee_config in
  w_eq stored (Some config).

Definition admin_can_set_apr_config : W unit :=
  setup ;;
  let admin := creator_addr in
  let config := AprBased 500 in
  set_late_fee_config_by admin (Some config) ;;
  let* stored := query_late_fee_config in
  w_eq stored (Some config).

Definition admin_can_clear_config : W unit :=
  setup ;;
  let admin := creator_addr in
  let config := Flat 50 in
  set_late_fee_config_by admin (Some config) ;;
  let* x1 := query_late_fee_config in
  w_assert (bool_decide (is_Some x1)) ;;
  set_late_fee_config_by admin None ;;
  let* x2 := query_late_fee_config in
  w_assert (negb (bool_decide (is_Some x2))).

Definition non_admin_cannot_set_config : W unit :=
  setup ;;
  let unauth := non_admin_addr in
  let config := Flat 100 in
  fails_with (set_late_fee_config_by unauth (Some config)) Unauthorized.

Definition zero_flat_amount_rejected : W unit :=
  setup ;;
  let admin := creator_addr in
  let config := Flat 0 in
  fails_with (set_late_fee_config_by admin (Some config)) InvalidAmount.

Definition apr_surcharge_exceeds_max_rejected : W unit :=
  setup ;;
  let admin := creator_addr in
  let config := AprBased 10001 in
  fails_with (set_late_fee_config_by admin (Some config)) RateTooHigh.

Definition max_apr_surcharge_accepted : W unit :=
  setup ;;
  let admin := creator_addr in
  let config := AprBased 10000 in
  set_late_fee_config_by admin (Some config) ;;
  let* stored := query_late_fee_config in
  w_eq stored (Some config).

Definition clearing_config_when_already_clear_is_noop : W unit :=
  setup ;;
  let admin := creator_addr in
  let* x1 := query_late_fee_config in
  w_assert (negb (bool_decide (is_Some x1))) ;;
  set_late_fee_config_by admin None ;;
  let* x2 := query_late_fee_config in
  w_assert (negb (bool_decide (is_Some x2))).

Definition set_response_has_correct_attributes : W unit :=
  setup ;;
  let admin := creator_addr in
  let config := Flat 200 in
  let* resp := set_late_fee_config_by admin (Some config) in
  let* x2 := index (attributes resp) 0 in
  w_eq (fst x2) "action" ;;
  let* x3 := index (attributes resp) 0 in
  w_eq (snd x3) "set_late_fee_config" ;;
  set_late_fee_config_by admin None ;;
  wret tt.

Definition query_default_is_none : W unit :=
  setup ;;
  let* x1 := query_late_fee_config in
  w_assert (negb (bool_decide (is_Some x1))).

Definition flat_config_survives_set_overwrite : W unit :=
  setup ;;
  let admin := creator_addr in
  let flat := Flat 100 in
  let apr := AprBased 200 in
  set_late_fee_config_by admin (Some flat) ;;
  set_late_fee_config_by admin (Some apr) ;;
  let* stored := query_late_fee_config in
  w_eq stored (Some apr).

Lemma LateFeeConfigTests_pass :
  forallb succeeds [admin_can_set_flat_config; admin_can_set_apr_config; admin_can_clear_config;
     non_admin_cannot_set_config; zero_flat_amount_rejected; apr_surcharge_exceeds_max_rejected;
     max_apr_surcharge_accepted; clearing_config_when_already_clear_is_noop;
     set_response_has_correct_attributes; query_default_is_none; flat_config_survives_set_overwrite] = true.
Proof. vm_compute. reflexivity. Qed.
End LateFeeConfigTests.
