(* ===== verification/CwTheorems.v ===== *)
(** * The CosmWasm credit contract: its properties

    What a deployment guarantees about its ledger, how a call may change it, and
    that debts can always be paid back. *)
From S2P Require Import Prelude Soroban CwState CwRates CwOracles CwCollateral CwViews CwCredit CwLedger CwScenario.

Section ledger_properties.
Context {api : CwApi}.

(** C35. In every storage a deployment reaches, lines, draws and audit entries are
    numbered without gaps and carry their own numbers, each draw belongs to its
    line's borrower, and the outstanding draws of a line, as the code sums them,
    are within its credit amount. *)
Theorem credit_ledger s :
  deployed s ->
  ledger s /\
  forall l cl, line s l = Some cl ->
    exists u, outstanding_utilization s l = inl u /\ u = total_owed s l /\ 0 <= u <= credit_amount cl.
Proof.
  intros Hd%deployed_ledger. split; [done|]. intros l cl Hcl. destruct Hd as [Hl Hdr Ha].
  destruct (line_data s Hl l cl Hcl) as (_ & _ & Hr). pose proof (within_limit s Hdr l cl Hcl).
  exists (total_owed s l). rewrite outstanding_total by done.
  rewrite (proj2 (Z.leb_le _ _)) by lia. split; [done|]. split; [done|]. split; [|done].
  apply sumZ_nonneg, Forall_fmap, Forall_forall. intros d _. by apply owed_nonneg.
Qed.

(** ** What one call may change *)
Record append_only (env : Env) (info : MessageInfo) (msg : ExecuteMsg) (s s' : storage) : Prop := {
  lines_kept l cl : line s l = Some cl -> line s' l = Some cl;
  draws_kept l d draw : draw_at s l d = Some draw ->
    draw_at s' l d = Some draw \/
    (draw_at s' l d = Some (mark_repaid draw) /\ msg = RepayDraw l d /\ sender info = drawn_by draw);
  entries_kept l d q e : audit_at s l d q = Some e -> audit_at s' l d q = Some e;
  entries_signed l d q e : audit_at s' l d q = Some e ->
    audit_at s l d q = Some e \/
    exists action memo, e = audit_entry env info l d q action memo /\
      (action = MemoAdded /\ may_load CONFIG s = Some (mkConfig (sender info)) \/
       (action = DrawCreated \/ action = Repaid) /\ exists cl, line s l = Some cl /\ sender info = borrower cl);
}.

Lemma append_only_agree env info msg s s' : agree ledger_key s s' -> append_only env info msg s s'.
Proof.
  intros Hag.
  assert (Hline : forall l, line s' l = line s l) by (intros; unfold line, may_load; by rewrite Hag by (left; exact I)).
  assert (Hd : forall l d, draw_at s' l d = draw_at s l d)
    by (intros; unfold draw_at, may_load; by rewrite Hag by (right; left; exact I)).
  assert (Ha : forall l d q, audit_at s' l d q = audit_at s l d q)
    by (intros; unfold audit_at, may_load; by rewrite Hag by (right; right; exact I)).
  split; intros *; rewrite ?Hline, ?Hd, ?Ha; auto.
Qed.

Lemma entry_put l d n e s l' d' q :
  audit_at (put_entry l d n e s) l' d' q = if decide (l' = l /\ d' = d /\ q = n) then Some e else audit_at s l' d' q.
Proof. unfold put_entry. rewrite <- audit_put. unfold audit_at. by cwput. Qed.

(** A new entry at the end of an existing or new trail. *)
Lemma append_only_entry env info msg l d action memo s s1 :
  (forall l cl, line s l = Some cl -> line s1 l = Some cl) ->
  (forall l' d' draw, draw_at s l' d' = Some draw ->
     draw_at s1 l' d' = Some draw \/
     (draw_at s1 l' d' = Some (mark_repaid draw) /\ msg = RepayDraw l' d' /\ sender info = drawn_by draw)) ->
  (forall l d q, audit_at s1 l d q = audit_at s l d q) -> audits_ok s ->
  (action = MemoAdded /\ may_load CONFIG s = Some (mkConfig (sender info)) \/
   (action = DrawCreated \/ action = Repaid) /\ exists cl, line s l = Some cl /\ sender info = borrower cl) ->
  append_only env info msg s
    (put_entry l d (audits_of s l d) (audit_entry env info l d (audits_of s l d) action memo) s1).
Proof.
  intros Hl Hd Ha Hok Hwho. split.
  - intros l' cl. unfold put_entry, line. cwput. apply Hl.
  - intros l' d' draw Hdr. unfold put_entry, draw_at. cwput. by apply Hd.
  - intros l' d' q e He. rewrite entry_put, Ha. case_decide as Hq; [|done]. destruct Hq as (-> & -> & ->).
    assert (is_Some (audit_at s l d (audits_of s l d))) as Hsome by eauto.
    apply (audits_numbered s Hok) in Hsome. lia.
  - intros l' d' q e. rewrite entry_put, Ha. case_decide as Hq; [|by left]. destruct Hq as (-> & -> & ->).
    intros [= <-]. right. by exists action, memo.
Qed.

Lemma memo_owner env info l d memo s r s' :
  execute_add_audit_memo env info l d memo s = inl (r, s') -> may_load CONFIG s = Some (mkConfig (sender info)).
Proof.
  unfold execute_add_audit_memo. intros (u & s1 & Ho & _)%wbind_inl.
  apply require_owner_inl in Ho as (_ & [o] & -> & Hs). cbn in Hs. by rewrite Hs.
Qed.

Lemma create_line_append env info b cd ca rd ra s r s' msg :
  ledger s -> execute_create_credit_line env info b cd ca rd ra s = inl (r, s') -> append_only env info msg s s'.
Proof.
  intros [Hl _ _] (n & who & c & a & Hn & _ & _ & ->)%create_line_inl.
  destruct (lines_numbered s Hl) as (n' & Hn' & _ & Hnum). assert (n' = n) as -> by congruence.
  assert (Hline : forall l, line (put (BORROWER_TO_ID who) n (put CREDIT_LINE_COUNT (n + 1)
     (put (CREDIT_LINES n) (mkCreditLine n who cd c rd a true) s))) l =
     if decide (l = n) then Some (mkCreditLine n who cd c rd a true) else line s l).
  { intros l. rewrite <- line_put. unfold line. by cwput. }
  split.
  - intros l cl Hcl. rewrite Hline. case_decide; [|done]. subst l.
    assert (is_Some (line s n)) as Hsome by eauto. apply Hnum in Hsome. lia.
  - intros l d draw Hd. left. rewrite <- Hd. unfold draw_at. by cwput.
  - intros l d q e He. rewrite <- He. unfold audit_at. by cwput.
  - intros l d q e He. left. rewrite <- He. unfold audit_at. by cwput.
Qed.

Lemma create_draw_append env info l amount denom s r s' msg :
  ledger s -> execute_create_draw env info l amount denom s = inl (r, s') -> append_only env info msg s s'.
Proof.
  intros [Hl Hd Ha] (cl & amt & u & Hcl & Hby & _ & _ & _ & _ & ->)%create_draw_inl.
  set (d := draws_of s l). set (dr := new_draw _ _ _ _ _ _).
  assert (Hfree : ~ is_Some (draw_at s l d)) by (rewrite (draws_numbered s Hd); unfold d; lia).
  assert (Hno : audits_of s l d = 0).
  { pose proof (audits_counted s Ha l d). pose proof (audited s Ha l d).
    destruct (decide (audits_of s l d = 0)); [done|]. exfalso. apply Hfree. apply H0. lia. }
  rewrite <- Hno at 1 2. apply append_only_entry.
  - intros l' cl'. unfold line. by cwput.
  - intros l' d' draw Hdr. left. transitivity (draw_at (put (DRAWS l d) dr s) l' d'); [unfold draw_at; by cwput|].
    rewrite draw_put. case_decide as Hq; [|done]. destruct Hq as [-> ->]. exfalso. apply Hfree. by exists draw.
  - intros l' d' q. unfold audit_at. by cwput.
  - done.
  - right. split; [by left|]. by exists cl.
Qed.

Lemma repay_append env info l d s r s' :
  ledger s -> execute_repay_draw env info l d s = inl (r, s') -> append_only env info (RepayDraw l d) s s'.
Proof.
  intros [Hl Hd Ha] (cl & draw & s1 & Hcl & Hby & Hdraw & Hag & ->)%repay_inl.
  assert (Hat : forall l d, draw_at s1 l d = draw_at s l d)
    by (intros; unfold draw_at, may_load; by rewrite Hag by (right; left; exact I)).
  apply append_only_entry.
  - intros l' cl' Hcl'. unfold line. cwput. rewrite <- Hcl'. unfold line, may_load.
    by rewrite Hag by (left; exact I).
  - intros l' d' dr Hdr. rewrite draw_put, Hat. case_decide as Hq; [|by left]. destruct Hq as [-> ->].
    right. assert (dr = draw) as -> by congruence. split; [done|]. split; [done|].
    destruct (draw_data s Hd _ _ _ Hdraw) as (_ & _ & _ & cl' & Hcl' & ->). congruence.
  - intros l' d' q. unfold audit_at. cwput. by rewrite Hag by (right; right; exact I).
  - done.
  - right. split; [by right|]. by exists cl.
Qed.

Lemma memo_append env info l d memo s r s' msg :
  ledger s -> execute_add_audit_memo env info l d memo s = inl (r, s') -> append_only env info msg s s'.
Proof.
  intros [Hl Hd Ha] Hr. pose proof (memo_owner _ _ _ _ _ _ _ _ Hr). apply memo_inl in Hr as [Hsome ->].
  apply append_only_entry; try done; [by intros; left|]. by left.
Qed.

(** C36. Along the history of a deployment nothing is rewritten: a call keeps every
    line and every audit entry, and every draw except that its borrower may mark
    it repaid; an audit entry it adds names the caller and the block, a memo
    comes from the owner, a draw or repayment from the line's borrower. *)
Theorem history_append_only env info msg s r s' :
  deployed s -> execute env info msg s = inl (r, s') -> append_only env info msg s s'.
Proof.
  intros Hs%deployed_ledger Hr. destruct (keeps_ledger msg) eqn:Hk.
  - apply append_only_agree. eapply (touches_agree ledger_key not_ledger);
      [by apply execute_keeps_ledger|exact ledger_key_not|exact Hr].
  - destruct msg; try discriminate Hk; cbn [execute] in Hr;
      eauto using create_line_append, create_draw_append, repay_append, memo_append.
Qed.
End ledger_properties.

(** ** Audit trails and repayment *)
Definition trail (s : storage) (l d : Z) : list DrawAuditEvent :=
  omap (fun q => into_event <$> audit_at s l d q) (range 0 (audits_of s l d)).

Lemma collect_omap {A} (f : Z -> R A) (g : Z -> option A) qs :
  (forall q, q ∈ qs -> exists a, g q = Some a /\ f q = inl a) -> collect qs f = inl (omap g qs).
Proof.
  intros Hq. unfold collect.
  enough (forall acc, rfold qs acc (fun acc i => let! a := f i in inl (acc ++ [a])) = inl (acc ++ omap g qs))
    as Hacc by apply Hacc.
  induction qs as [|q qs IH]; intros acc; cbn [rfold]; [by rewrite app_nil_r|].
  destruct (Hq q) as (a & Hg & ->); [by left|]. cbn [rbind]. rewrite IH by (intros; apply Hq; by right).
  cbn [omap list_omap]. rewrite Hg. by rewrite <- (assoc_L (++)).
Qed.

Lemma build_response_ok s l d draw :
  ledger s -> draw_at s l d = Some draw ->
  build_response s l d = inl (mkDrawAuditTrailResponse l d (to_string (dr_amount draw)) (dr_denom draw)
                                (drawn_at draw) (drawn_by draw) (repaid draw) (trail s l d)).
Proof.
  intros [_ _ Ha] Hd. unfold build_response, load. fold (draw_at s l d). rewrite Hd. cbn [ok_or rbind].
  fold (audits_of s l d). rewrite (collect_omap _ (fun q => into_event <$> audit_at s l d q)); [done|].
  intros q Hq%elem_of_range. apply (audits_numbered s Ha) in Hq as [e He]. exists (into_event e).
  fold (audit_at s l d q). by rewrite He.
Qed.

(** The trail after an appended entry. *)
Lemma trail_put_entry s l d e :
  audits_ok s -> trail (put_entry l d (audits_of s l d) e s) l d = trail s l d ++ [into_event e].
Proof.
  intros Ha. pose proof (audits_counted s Ha l d). unfold trail. unfold put_entry at 2.
  rewrite audits_of_put, decide_True by done. rewrite range_snoc, omap_app by done. f_equal.
  - apply list_omap_ext, Forall2_same_length_lookup_2; [done|]. intros i q q' Hq Hq'.
    assert (q' = q) as -> by congruence. apply list_elem_of_lookup_2, elem_of_range in Hq.
    by rewrite entry_put, decide_False by lia.
  - cbn. by rewrite entry_put, decide_True.
Qed.

(** No message writes the fee rate, so no fee is ever accrued. *)
Definition fee_free (s : storage) : Prop :=
  may_load PROTOCOL_FEE_BPS s = None /\
  forall denom, may_load (TREASURY_BALANCE denom) s = None /\ may_load (BOUNTY_BALANCE denom) s = None.

Definition fee_key (k : CwKey) : Prop :=
  match k with PROTOCOL_FEE_BPS | TREASURY_BALANCE _ | BOUNTY_BALANCE _ => True | _ => False end.

Definition not_fee (k : CwKey) : Prop :=
  match k with PROTOCOL_FEE_BPS | TREASURY_BALANCE _ | BOUNTY_BALANCE _ => False | _ => True end.

Lemma fee_free_agree s s' : agree fee_key s s' -> fee_free s -> fee_free s'.
Proof.
  intros Hag [H1 H2]. split; [unfold may_load; by rewrite Hag|].
  intros denom. unfold may_load. rewrite !Hag by done. apply H2.
Qed.

Section repayment.
Context {api : CwApi}.

Lemma fee_key_not k : fee_key k -> ~ not_fee k.
Proof. destruct k; cbn; tauto. Qed.

Lemma execute_keeps_fees env info msg :
  (forall l d, msg <> RepayDraw l d) -> touches not_fee (execute env info msg).
Proof.
  intros Hne. destruct msg; cbn [execute]; try (by edestruct Hne);
    unfold execute_create_credit_line, execute_create_draw, borrower_line, execute_add_audit_memo, append_audit_entry,
      execute_update_protocol_version, execute_set_oracle_quorum_config, execute_add_oracle,
      execute_remove_oracle, execute_report_value, execute_submit_oracle_prices, execute_set_late_fee_config,
      execute_deposit_collateral, execute_withdraw_collateral, execute_add_collateral_token,
      execute_remove_collateral_token, execute_set_collateral_risk_weight, set_protocol_version, add_oracle,
      remove_oracle, report_value, deposit_collateral, withdraw_collateral, add_collateral_token,
      remove_collateral_token, set_collateral_risk_weight, require_owner;
    touch.
Qed.

(** A repayment without a fee is the mark and the audit entry. *)
Lemma repay_eq env info l d s cl draw :
  line s l = Some cl -> sender info = borrower cl -> draw_at s l d = Some draw -> drawn_by draw = borrower cl ->
  may_load PROTOCOL_FEE_BPS s = None ->
  execute_repay_draw env info l d s =
  (append_audit_entry env info l d Repaid "" ;; wret (mkResponse (draw_response "repay_draw" l d)))
    (put (DRAWS l d) (mark_repaid draw) s).
Proof.
  intros Hcl Hby Hd Hdb Hfee. assert (sender info = drawn_by draw) as Hby' by congruence.
  unfold execute_repay_draw, borrower_line, wbind, get, lift, read.
  fold (line s l). rewrite Hcl. cbn [ok_or]. unfold fail_if. rewrite (bool_decide_true _ Hby). cbn [negb wret].
  fold (draw_at s l d). rewrite Hd. cbn [ok_or]. rewrite (bool_decide_true _ Hby'). cbn [negb].
  rewrite Hfee. reflexivity.
Qed.

Lemma append_run env info l d action memo s :
  0 <= audits_of s l d < u64_max ->
  append_audit_entry env info l d action memo s =
  inl (tt, put_entry l d (audits_of s l d) (audit_entry env info l d (audits_of s l d) action memo) s).
Proof.
  intros Hk. unfold append_audit_entry, wbind, get, save, lift, read. fold (audits_of s l d).
  by rewrite checked_in by lia.
Qed.

Lemma touches_append P env info l d action memo :
  P (DRAW_AUDIT_COUNT l d) -> (forall q, P (DRAW_AUDIT l d q)) -> touches P (append_audit_entry env info l d action memo).
Proof. intros H1 H2. unfold append_audit_entry. touch. Qed.

(** The pieces a repayment needs from the ledger. *)
Lemma draw_borrower s l d cl draw :
  ledger s -> line s l = Some cl -> draw_at s l d = Some draw -> drawn_by draw = borrower cl.
Proof.
  intros Hs Hcl Hd. destruct (draw_data s (ledger_draws s Hs) _ _ _ Hd) as (_ & _ & _ & cl' & Hcl' & ->). congruence.
Qed.

Lemma repay_fee_free env info l d s r s' :
  fee_free s -> ledger s -> execute_repay_draw env info l d s = inl (r, s') -> agree fee_key s s'.
Proof.
  intros [Hf _] Hs Hr. pose proof Hr as (cl & draw & s1 & Hcl & Hby & Hd & _ & _)%repay_inl.
  rewrite (repay_eq env info l d s cl draw) in Hr by eauto using draw_borrower.
  eapply agree_trans; [apply (agree_put _ (DRAWS l d)); cbn; tauto|].
  eapply (touches_agree fee_key not_fee); [|exact fee_key_not|exact Hr].
  apply touches_bind; [by apply touches_append|intros; apply touches_ret].
Qed.

Lemma deployed_fee_free s : deployed s -> fee_free s.
Proof.
  induction 1 as [env info msg r s Hi|env info msg s r s' Hs IH Hr].
  - apply instantiate_inl in Hi as (who & ->). split; [|intros; split]; by cwput.
  - eapply fee_free_agree; [|exact IH]. pose proof (deployed_ledger s Hs) as Hl.
    destruct msg; try (eapply (touches_agree fee_key not_fee); [|exact fee_key_not|exact Hr];
      apply execute_keeps_fees; intros; discriminate).
    eapply repay_fee_free; [exact IH|exact Hl|exact Hr].
Qed.

(** An audit entry changes nothing else. *)
Lemma line_put_entry l d n e s l' : line (put_entry l d n e s) l' = line s l'.
Proof. unfold put_entry, line. by cwput. Qed.

Lemma draw_put_entry l d n e s l' d' : draw_at (put_entry l d n e s) l' d' = draw_at s l' d'.
Proof. unfold put_entry, draw_at. by cwput. Qed.

Lemma total_owed_put_entry l d n e s l' : total_owed (put_entry l d n e s) l' = total_owed s l'.
Proof.
  unfold total_owed. replace (draws_of (put_entry l d n e s) l') with (draws_of s l')
    by (unfold put_entry, draws_of; by cwput).
  apply sum_ext. intros d' _. unfold owed. by rewrite draw_put_entry.
Qed.

(** Marking a draw leaves every trail. *)
Lemma marked_audits s l d draw :
  ledger s -> draw_at s l d = Some draw ->
  let s1 := put (DRAWS l d) (mark_repaid draw) s in
  (forall l' d', audits_of s1 l' d' = audits_of s l' d') /\ (forall l' d', trail s1 l' d' = trail s l' d') /\ audits_ok s1.
Proof.
  intros [_ Hdr Ha] Hd s1.
  assert (Hau : forall l' d', audits_of s1 l' d' = audits_of s l' d') by (intros; unfold s1, audits_of; by cwput).
  assert (Hat : forall l' d' q, audit_at s1 l' d' q = audit_at s l' d' q) by (intros; unfold s1, audit_at; by cwput).
  split; [done|]. split.
  - intros l' d'. unfold trail. rewrite Hau. apply list_omap_ext, Forall2_same_length_lookup_2; [done|].
    intros i q q' Hq Hq'. assert (q' = q) as -> by congruence. by rewrite Hat.
  - eapply audits_ok_ext; [|done..|exact Ha]. by destruct (draws_repaid s l d draw Hdr Hd) as (_ & Ht & _).
Qed.

(** C37. The borrower of a line can mark any of its draws repaid at any time: in
    every reachable storage the call succeeds (short of 2^64 audit entries), what
    is owed falls by exactly that draw, the audit trail - which the query answers
    completely - grows by one entry, and no protocol fee is charged. *)
Theorem repayment_succeeds env s l d cl draw :
  deployed s -> line s l = Some cl -> draw_at s l d = Some draw -> audits_of s l d < u64_max ->
  exists s' resp,
    execute env (mkMessageInfo (borrower cl)) (RepayDraw l d) s =
      inl (mkResponse (draw_response "repay_draw" l d), s') /\
    total_owed s' l = total_owed s l - owed s l d /\
    query_draw_audit_trail s' l (Some d) None None = inl [resp] /\ at_repaid resp = true /\
    at_events resp = trail s l d ++
      [into_event (audit_entry env (mkMessageInfo (borrower cl)) l d (audits_of s l d) Repaid "")] /\
    fee_free s'.
Proof.
  intros Hdep Hcl Hd Hk. pose proof (deployed_ledger s Hdep) as Hs. pose proof (deployed_fee_free s Hdep) as Hfee.
  destruct (marked_audits s l d draw Hs Hd) as (Hau & Htr & Hok).
  set (s1 := put (DRAWS l d) (mark_repaid draw) s) in *.
  pose proof (audits_counted s (ledger_audits s Hs) l d) as H0.
  set (e := audit_entry env (mkMessageInfo (borrower cl)) l d (audits_of s l d) Repaid "").
  set (s' := put_entry l d (audits_of s l d) e s1).
  assert (Hrun : execute env (mkMessageInfo (borrower cl)) (RepayDraw l d) s =
                 inl (mkResponse (draw_response "repay_draw" l d), s')).
  { cbn [execute]. rewrite (repay_eq env _ l d s cl draw); [|done..|by eapply draw_borrower|apply Hfee].
    fold s1. unfold wbind. rewrite append_run by (rewrite Hau; lia). by rewrite Hau. }
  assert (Hs' : ledger s') by (eapply execute_ledger; [exact Hs|exact Hrun]).
  assert (Hd' : draw_at s' l d = Some (mark_repaid draw)).
  { unfold s'. rewrite draw_put_entry. unfold s1. by rewrite draw_put, decide_True. }
  eexists s', _. split; [exact Hrun|]. split.
  { unfold s'. rewrite total_owed_put_entry.
    destruct (draws_repaid s l d draw (ledger_draws s Hs) Hd) as (_ & _ & Ht).
    unfold s1. rewrite Ht, decide_True by done. unfold owed. by rewrite Hd. }
  split.
  { unfold query_draw_audit_trail, ensure_draw_exists. fold (line s' l) (draw_at s' l d).
    unfold s' at 1. rewrite line_put_entry. replace (line s1 l) with (line s l) by (unfold s1, line; by cwput).
    rewrite Hcl, Hd'. cbn [ok_or rbind]. rewrite (build_response_ok s' l d _ Hs' Hd'). reflexivity. }
  split; [done|]. split.
  - cbn [at_events]. unfold s'. rewrite <- Hau at 1. by rewrite trail_put_entry, Htr.
  - eapply fee_free_agree; [|exact Hfee]. unfold s', s1, put_entry. agree_puts.
Qed.
End repayment.

(** ** Witnesses, on the scenario's deployment *)
#[local] Existing Instance demo_api.

(** C35. Alice owes 900 of her 1000. *)
Lemma credit_ledger_witness :
  exists u, outstanding_utilization s_draws 0 = inl u /\ u = total_owed s_draws 0 /\ 0 <= u <= 1000.
Proof.
  destruct (credit_ledger s_draws s_draws_deployed) as [_ H].
  apply (H 0 (mkCreditLine 0 (mkAddr "alice") "atom" 100 "usdc" 1000 true)). vm_compute. reflexivity.
Defined.

(** C36. Repaying the first draw keeps the second and both trails. *)
Lemma history_append_only_witness :
  append_only (env_at 8) (mkMessageInfo (mkAddr "alice")) (RepayDraw 0 0) s_draws
    (after (env_at 8) "alice" (RepayDraw 0 0) s_draws) /\
  draw_at (after (env_at 8) "alice" (RepayDraw 0 0) s_draws) 0 0 =
    Some (mkDraw 0 0 600 "usdc" 4000000000 (mkAddr "alice") true).
Proof.
  split; [|vm_compute; reflexivity].
  eapply (history_append_only (env_at 8) (mkMessageInfo (mkAddr "alice")) (RepayDraw 0 0) s_draws).
  - exact s_draws_deployed.
  - apply accepts_run. vm_compute. reflexivity.
Defined.

(** C37. Alice repays her second draw. *)
Lemma repayment_succeeds_witness :
  exists s' resp,
    execute (env_at 9) (mkMessageInfo (mkAddr "alice")) (RepayDraw 0 1) s_draws =
      inl (mkResponse (draw_response "repay_draw" 0 1), s') /\
    total_owed s' 0 = total_owed s_draws 0 - owed s_draws 0 1 /\
    query_draw_audit_trail s' 0 (Some 1) None None = inl [resp] /\ at_repaid resp = true /\
    at_events resp = trail s_draws 0 1 ++
      [into_event (audit_entry (env_at 9) (mkMessageInfo (mkAddr "alice")) 0 1 (audits_of s_draws 0 1) Repaid "")] /\
    fee_free s'.
Proof.
  apply (repayment_succeeds (env_at 9) s_draws 0 1 (mkCreditLine 0 (mkAddr "alice") "atom" 100 "usdc" 1000 true)
           (mkDraw 1 0 300 "usdc" 5000000000 (mkAddr "alice") false)).
  - exact s_draws_deployed.
  - vm_compute. reflexivity.
  - vm_compute. reflexivity.
  - vm_compute. reflexivity.
Defined.
