(* ===== verification/CwCollateralTheorems.v ===== *)
(** * The CosmWasm credit contract: collateral

    The token list of a borrower always names exactly the denominations with a
    positive balance; withdrawing what was deposited restores the storage. *)
From S2P Require Import Prelude Soroban CwState CwRates CwOracles CwCollateral CwViews CwCredit CwLedger CwScenario.

Definition tokens_of (s : storage) (b : Addr) : list string :=
  unwrap_or (may_load (BORROWER_COLLATERAL_TOKENS b) s) [].

Definition bal (s : storage) (b : Addr) (d : string) : option Z := may_load (COLLATERAL_BALANCES b d) s.

Record collateral_ok (s : storage) : Prop := {
  tokens_nodup b : NoDup (tokens_of s b);
  tokens_held b d : d ∈ tokens_of s b <-> is_Some (bal s b d);
  balance_positive b d v : bal s b d = Some v -> 0 < v <= u128_max;
}.

Definition collateral_key (k : CwKey) : Prop :=
  match k with BORROWER_COLLATERAL_TOKENS _ | COLLATERAL_BALANCES _ _ => True | _ => False end.

Definition not_collateral (k : CwKey) : Prop :=
  match k with BORROWER_COLLATERAL_TOKENS _ | COLLATERAL_BALANCES _ _ => False | _ => True end.

Lemma collateral_key_not k : collateral_key k -> ~ not_collateral k.
Proof. destruct k; cbn; tauto. Qed.

Lemma collateral_ok_reads s s' :
  (forall b, tokens_of s' b = tokens_of s b) -> (forall b d, bal s' b d = bal s b d) ->
  collateral_ok s -> collateral_ok s'.
Proof.
  intros Ht Hb [H1 H2 H3]. split.
  - intros b. rewrite Ht. apply H1.
  - intros b d. rewrite Ht, Hb. apply H2.
  - intros b d v. rewrite Hb. apply H3.
Qed.

Lemma collateral_ok_agree s s' : agree collateral_key s s' -> collateral_ok s -> collateral_ok s'.
Proof. intros Hag. apply collateral_ok_reads; intros; unfold tokens_of, bal, may_load; by rewrite Hag. Qed.

Lemma bal_put s b d v b' d' :
  bal (put (COLLATERAL_BALANCES b d) v s) b' d' = if decide (b' = b /\ d' = d) then Some v else bal s b' d'.
Proof.
  unfold bal. case_decide as Hd; [destruct Hd; subst; by cwput|]. unfold may_load.
  rewrite (store_put_ne (C := CwContract)); [done|]. intros [= ? ?]. by apply Hd.
Qed.

Lemma bal_remove s b d b' d' :
  bal (store_remove (H := CwContract) (COLLATERAL_BALANCES b d) s) b' d' =
  if decide (b' = b /\ d' = d) then None else bal s b' d'.
Proof.
  unfold bal. case_decide as Hd; [destruct Hd; subst; by cwput|]. unfold may_load.
  rewrite (store_remove_ne (C := CwContract)); [done|]. intros [= ? ?]. by apply Hd.
Qed.

Lemma tokens_put s b ts b' :
  tokens_of (put (BORROWER_COLLATERAL_TOKENS b) ts s) b' = if decide (b' = b) then ts else tokens_of s b'.
Proof. unfold tokens_of. case_decide; subst; by cwput. Qed.

(** ** The two operations *)
Definition held (s : storage) (b : Addr) (d : string) : Z := unwrap_or (bal s b d) 0.

Definition deposited (s : storage) (b : Addr) (d : string) (amount : Z) : storage :=
  let s1 := put (COLLATERAL_BALANCES b d) (held s b d + amount) s in
  if bool_decide (d ∈ tokens_of s b) then s1
  else put (BORROWER_COLLATERAL_TOKENS b) (tokens_of s b ++ [d]) s1.

Definition withdrawn (s : storage) (b : Addr) (d : string) (amount : Z) : storage :=
  if held s b d - amount =? 0 then
    put (BORROWER_COLLATERAL_TOKENS b) (filter (fun t => t <> d) (tokens_of s b))
      (store_remove (H := CwContract) (COLLATERAL_BALANCES b d) s)
  else put (COLLATERAL_BALANCES b d) (held s b d - amount) s.

Lemma deposit_inl b d amount s r s' :
  deposit_collateral b d amount s = inl (r, s') ->
  amount <> 0 /\ is_collateral_token_allowed d s = true /\ is_u128 (held s b d + amount) /\ s' = deposited s b d amount.
Proof.
  unfold deposit_collateral. intros Hr.
  apply wbind_inl in Hr as (u1 & s1 & [Hne ->]%fail_if_inl & Hr).
  apply wbind_inl in Hr as (ok & s1 & [[= <-] ->]%read_inl & Hr).
  apply wbind_inl in Hr as (u2 & s1 & [Hok ->]%fail_if_inl & Hr).
  apply wbind_inl in Hr as (o & s1 & [-> ->]%get_inl & Hr).
  apply wbind_inl in Hr as (v & s1 & Hv & Hr). apply lift_inl in Hv as [Hv%ok_or_inl ->].
  apply wbind_inl in Hr as (u3 & s1 & ->%save_inl & Hr).
  apply wbind_inl in Hr as (t & s1 & [-> ->]%get_inl & Hr).
  apply wbind_inl in Hr as (u4 & s1 & Ht & [_ ->]%wret_inl). chk. bsimp. subst.
  split; [done|]. split; [done|]. split; [done|].
  unfold deposited. fold (tokens_of (put (COLLATERAL_BALANCES b d) (unwrap_or (may_load (COLLATERAL_BALANCES b d) s) 0 + amount) s) b) in Ht.
  replace (tokens_of (put _ _ s) b) with (tokens_of s b) in Ht by (unfold tokens_of; by cwput).
  destruct (bool_decide _); [by apply wret_inl in Ht as [_ ->]|by apply save_inl in Ht].
Qed.

Lemma withdraw_inl b d amount s r s' :
  withdraw_collateral b d amount s = inl (r, s') ->
  amount <> 0 /\ amount <= held s b d /\ is_Some (bal s b d) /\ s' = withdrawn s b d amount.
Proof.
  unfold withdraw_collateral. intros Hr.
  apply wbind_inl in Hr as (u1 & s1 & [Hne ->]%fail_if_inl & Hr).
  apply wbind_inl in Hr as (o & s1 & [-> ->]%get_inl & Hr).
  apply wbind_inl in Hr as (v & s1 & Hv & Hr). apply lift_inl in Hv as [Hv%ok_or_inl ->].
  apply wbind_inl in Hr as (u2 & s1 & [Hle ->]%fail_if_inl & Hr).
  apply wbind_inl in Hr as (w & s1 & Hw & Hr). apply lift_inl in Hw as [Hw%ok_or_inl ->].
  apply wbind_inl in Hr as (u4 & s1 & Ht & [_ ->]%wret_inl). chk. bsimp. subst.
  unfold withdrawn, held. fold (bal s b d) in Hv. rewrite Hv. cbn [unwrap_or].
  split; [done|]. split; [done|]. split; [done|]. destruct (_ =? 0); [|by apply save_inl in Ht].
  apply wbind_inl in Ht as (u & s2 & ->%remove_inl & Ht).
  apply wbind_inl in Ht as (o & s2 & [-> ->]%get_inl & ->%save_inl).
  unfold tokens_of. by cwput.
Qed.

Lemma withdraw_run b d amount s :
  0 < amount <= held s b d -> is_Some (bal s b d) -> is_u128 (held s b d) ->
  withdraw_collateral b d amount s = inl (collateral_response "withdraw_collateral" b d amount, withdrawn s b d amount).
Proof.
  intros Ha [v Hv] Hu. unfold withdrawn, held in *. rewrite Hv in *. cbn [unwrap_or] in *.
  unfold bal in Hv. unfold withdraw_collateral, wbind, get, lift, read, fail_if.
  rewrite (proj2 (Z.eqb_neq amount 0)) by lia. cbn beta iota. rewrite Hv. cbn [ok_or].
  rewrite (proj2 (Z.ltb_ge v amount)) by lia. cbn beta iota. rewrite checked_in by lia. cbn [ok_or]. destruct (v - amount =? 0); [|done].
  unfold remove, get, save. unfold tokens_of. by cwput.
Qed.

(** ** The invariant *)
Lemma deposited_ok b d amount s :
  0 <= amount -> amount <> 0 -> is_u128 (held s b d + amount) -> collateral_ok s -> collateral_ok (deposited s b d amount).
Proof.
  intros H0 Hne Hu [Hnd Hheld Hpos].
  assert (Hb : forall b' d', bal (deposited s b d amount) b' d' =
                 if decide (b' = b /\ d' = d) then Some (held s b d + amount) else bal s b' d').
  { intros. rewrite <- bal_put. unfold deposited. case_bool_decide; [done|]. unfold bal. by cwput. }
  assert (Ht : forall b', tokens_of (deposited s b d amount) b' =
                 if decide (b' = b /\ d ∉ tokens_of s b) then tokens_of s b ++ [d] else tokens_of s b').
  { intros b'. unfold deposited. case_bool_decide as Hin.
    - rewrite decide_False by tauto. unfold tokens_of. by cwput.
    - rewrite tokens_put. destruct (decide (b' = b)) as [->|]; [by rewrite decide_True|].
      rewrite decide_False by tauto. unfold tokens_of. by cwput. }
  assert (0 <= held s b d).
  { unfold held. destruct (bal s b d) as [v|] eqn:E; [|done]. apply Hpos in E. cbn. lia. }
  split.
  - intros b'. rewrite Ht. destruct (decide (b' = b /\ d ∉ tokens_of s b)) as [[-> Hd]|]; [|apply Hnd]. apply NoDup_app.
    split; [apply Hnd|]. split; [|apply NoDup_singleton].
    intros x Hx Hx'%list_elem_of_singleton. subst x. by apply Hd.
  - intros b' d'. rewrite Ht, Hb. destruct (decide (b' = b /\ d' = d)) as [[-> ->]|Hne'].
    + split; [by eauto|intros _]. destruct (decide (b = b /\ d ∉ tokens_of s b)) as [_|Hd].
      * apply elem_of_app. right. by constructor.
      * destruct (decide (d ∈ tokens_of s b)); [done|]. by destruct Hd.
    + rewrite <- Hheld. destruct (decide (b' = b /\ d ∉ tokens_of s b)) as [[-> Hd]|]; [|done].
      rewrite elem_of_app, list_elem_of_singleton. split; [|by left]. intros [?| ->]; [done|]. by destruct Hne'.
  - intros b' d' v. rewrite Hb. destruct (decide (b' = b /\ d' = d)); [|by apply Hpos]. intros [= <-]. lia.
Qed.

Lemma withdrawn_ok b d amount s :
  0 < amount <= held s b d -> collateral_ok s -> collateral_ok (withdrawn s b d amount).
Proof.
  intros Ha [Hnd Hheld Hpos]. unfold withdrawn. destruct (held s b d - amount =? 0) eqn:E; bsimp.
  - set (s' := put _ _ _).
    assert (Hb : forall b' d', bal s' b' d' = if decide (b' = b /\ d' = d) then None else bal s b' d').
    { intros. rewrite <- bal_remove. unfold s', bal. by cwput. }
    assert (Ht : forall b', tokens_of s' b' = if decide (b' = b) then filter (fun t => t <> d) (tokens_of s b) else tokens_of s b').
    { intros. unfold s'. rewrite tokens_put. case_decide; [done|]. unfold tokens_of. by cwput. }
    split.
    + intros b'. rewrite Ht. case_decide; [by apply NoDup_filter|apply Hnd].
    + intros b' d'. rewrite Ht, Hb. destruct (decide (b' = b)) as [->|Hne].
      * rewrite list_elem_of_filter, Hheld. case_decide as Hd; [destruct Hd as [_ ->]; split; [tauto|by intros [? ?]]|].
        split; [tauto|]. intros ?. split; [|done]. intros ->. by apply Hd.
      * rewrite decide_False by tauto. apply Hheld.
    + intros b' d' v. rewrite Hb. case_decide; [done|apply Hpos].
  - assert (is_Some (bal s b d)) as [v Hv].
    { unfold held in Ha. destruct (bal s b d); [eauto|cbn in Ha; lia]. }
    assert (held s b d = v) as Hheldv by (unfold held; by rewrite Hv). pose proof (Hpos _ _ _ Hv).
    assert (Ht : forall b', tokens_of (put (COLLATERAL_BALANCES b d) (held s b d - amount) s) b' = tokens_of s b')
      by (intros; unfold tokens_of; by cwput).
    split.
    + intros b'. rewrite Ht. apply Hnd.
    + intros b' d'. rewrite Ht, bal_put, Hheld. case_decide as Hd; [|done]. destruct Hd as [-> ->].
      rewrite Hv. split; eauto.
    + intros b' d' w. rewrite bal_put. case_decide; [|apply Hpos]. intros [= <-]. lia.
Qed.

Section histories.
Context {api : CwApi}.

Lemma deposit_call env info b d amount s r s' :
  execute env info (DepositCollateral b d amount) s = inl (r, s') ->
  may_load CONFIG s = Some (mkConfig (sender info)) /\
  exists who a, addr_validate b = inl who /\ uint128_from_str amount = Some a /\ is_u128 a /\
    deposit_collateral who d a s = inl (r, s').
Proof.
  cbn [execute]. unfold execute_deposit_collateral. intros (u & s1 & Ho & Hr)%wbind_inl.
  apply require_owner_inl in Ho as (-> & [o] & Hc & Hs). cbn in Hs. rewrite Hs. split; [done|].
  apply wbind_inl in Hr as (who & s1 & Hw & Hr). apply lift_inl in Hw as [Hw%std_try_inl ->].
  apply wbind_inl in Hr as (a & s1 & Ha & Hr). apply lift_inl in Ha as [Ha ->]. exists who, a.
  split; [done|]. split; [by apply ok_or_inl in Ha|]. split; [by apply parse_inl in Ha|done].
Qed.

Lemma withdraw_call env info b d amount s :
  may_load CONFIG s = Some (mkConfig (sender info)) ->
  forall who a, addr_validate b = inl who -> uint128_from_str amount = Some a ->
  execute env info (WithdrawCollateral b d amount) s = withdraw_collateral who d a s.
Proof.
  intros Hc who a Hw Ha. cbn [execute]. unfold execute_withdraw_collateral, require_owner, wbind, read, lift, load, fail_if.
  rewrite Hc. cbn [ok_or owner]. rewrite bool_decide_true by done. cbn [negb].
  rewrite Hw. unfold std_try, parse_uint128. by rewrite Ha.
Qed.

Lemma withdraw_call_inl env info b d amount s r s' :
  execute env info (WithdrawCollateral b d amount) s = inl (r, s') ->
  exists who a, is_u128 a /\ withdraw_collateral who d a s = inl (r, s').
Proof.
  cbn [execute]. unfold execute_withdraw_collateral. intros (u & s1 & Ho & Hr)%wbind_inl.
  apply require_owner_inl in Ho as (-> & _).
  apply wbind_inl in Hr as (who & s1 & Hw & Hr). apply lift_inl in Hw as [_ ->].
  apply wbind_inl in Hr as (a & s1 & Ha & Hr). apply lift_inl in Ha as [Ha ->]. exists who, a.
  split; [by apply parse_inl in Ha|done].
Qed.

Definition keeps_collateral (msg : ExecuteMsg) : bool :=
  match msg with DepositCollateral _ _ _ | WithdrawCollateral _ _ _ => false | _ => true end.

Lemma execute_keeps_collateral env info msg :
  keeps_collateral msg = true ->
  touches not_collateral (execute env info msg).
Proof.
  intros Hm. destruct msg; try discriminate Hm; cbn [execute]; clear Hm;
    unfold execute_create_credit_line, execute_create_draw, borrower_line, execute_repay_draw, accrue_protocol_fee,
      execute_add_audit_memo, append_audit_entry,
      execute_update_protocol_version, execute_set_oracle_quorum_config, execute_add_oracle,
      execute_remove_oracle, execute_report_value, execute_submit_oracle_prices, execute_set_late_fee_config,
      execute_add_collateral_token, execute_remove_collateral_token, execute_set_collateral_risk_weight,
      set_protocol_version, add_oracle, remove_oracle, report_value, add_collateral_token,
      remove_collateral_token, set_collateral_risk_weight, require_owner;
    touch.
Qed.

Lemma deployed_collateral s : deployed s -> collateral_ok s.
Proof.
  induction 1 as [env info msg r s Hi|env info msg s r s' Hs IH Hr].
  - apply instantiate_inl in Hi as (who & ->).
    assert (Ht : forall b, tokens_of (put PROTOCOL_VERSION CURRENT_PROTOCOL_VERSION (put CREDIT_LINE_COUNT 0
                    (put CONFIG (mkConfig who) (store_empty (H := CwContract))))) b = [])
      by (intros; unfold tokens_of; by cwput).
    split.
    + intros b. rewrite Ht. constructor.
    + intros b d. rewrite Ht, elem_of_nil. unfold bal. cwput. split; [done|by intros [? ?]].
    + intros b d v. unfold bal. by cwput.
  - destruct (keeps_collateral msg) eqn:Hm.
    { eapply collateral_ok_agree; [|exact IH].
      eapply (touches_agree collateral_key not_collateral); [|exact collateral_key_not|exact Hr].
      by apply execute_keeps_collateral. }
    destruct msg; try discriminate Hm.
    + apply deposit_call in Hr as (_ & who & a & _ & _ & Hu & (Hne & _ & Hv & ->)%deposit_inl). apply deposited_ok; [lia|done..].
    + apply withdraw_call_inl in Hr as (who & a & Hu & (Hne & Hle & _ & ->)%withdraw_inl). apply withdrawn_ok; [lia|done].
Qed.

(** Undoing a deposit. *)
Lemma filter_without (d : string) (ts : list string) : d ∉ ts -> filter (fun t => t <> d) ts = ts.
Proof.
  induction ts as [|t ts IH]; intros Hd; [done|]. apply not_elem_of_cons in Hd as [Hne Hd].
  by rewrite filter_cons_True, IH.
Qed.

Lemma withdrawn_deposited s b d a :
  collateral_ok s -> 0 < a ->
  let s2 := withdrawn (deposited s b d a) b d a in
  held (deposited s b d a) b d = held s b d + a /\
  (forall b', tokens_of s2 b' = tokens_of s b') /\ (forall b' d', bal s2 b' d' = bal s b' d') /\
  (forall k, not_collateral k -> s2 k = s k).
Proof.
  intros Hok Ha. assert (Hh : held (deposited s b d a) b d = held s b d + a).
  { unfold held at 1, bal, deposited. case_bool_decide; by cwput. }
  split; [done|]. unfold withdrawn. rewrite Hh. replace (held s b d + a - a) with (held s b d) by lia.
  assert (Hin : d ∈ tokens_of s b <-> is_Some (bal s b d)) by apply (tokens_held s Hok).
  destruct (held s b d =? 0) eqn:E; bsimp.
  - assert (bal s b d = None) as Hnone.
    { destruct (bal s b d) as [v|] eqn:Ev; [|done]. pose proof (balance_positive s Hok _ _ _ Ev).
      unfold held in E. rewrite Ev in E. cbn in E. lia. }
    assert (d ∉ tokens_of s b) as Hni by (rewrite Hin, Hnone; by intros [? ?]).
    unfold deposited. rewrite bool_decide_false by done. split; [|split].
    + intros b'. rewrite tokens_put. case_decide; [subst|unfold tokens_of; by cwput].
      rewrite tokens_put, decide_True by done. rewrite filter_app, filter_without by done.
      rewrite filter_cons_False by tauto. rewrite filter_nil. apply app_nil_r.
    + intros b' d'. transitivity (bal (store_remove (H := CwContract) (COLLATERAL_BALANCES b d) s) b' d').
      * unfold bal, may_load. rewrite (store_put_ne (C := CwContract)) by discriminate.
        destruct (decide (b' = b /\ d' = d)) as [[-> ->]|Hne]; [by cwput|].
        assert (COLLATERAL_BALANCES b d <> COLLATERAL_BALANCES b' d') by (intros [= ? ?]; by apply Hne). by cwput.
      * rewrite bal_remove. case_decide as Hd; [by destruct Hd as [-> ->]|done].
    + intros k Hk. destruct k; try done; by cwput.
  - assert (exists v, bal s b d = Some v /\ held s b d = v) as (v & Hv & Hhv).
    { unfold held in *. destruct (bal s b d); [by eexists|done]. }
    unfold deposited. rewrite bool_decide_true by (apply Hin; eauto). split; [|split].
    + intros b'. unfold tokens_of. by cwput.
    + intros b' d'. rewrite !bal_put. case_decide as Hd; [destruct Hd as [-> ->]; by rewrite Hv, Hhv|done].
    + intros k Hk. destruct k; try done; by cwput.
Qed.

(** Reading collateral depends on tokens, balances and weights alone. *)
Lemma weighted_total_reads s s' who :
  (forall b, tokens_of s' b = tokens_of s b) -> (forall b d, bal s' b d = bal s b d) ->
  (forall d, s' (COLLATERAL_RISK_WEIGHTS d) = s (COLLATERAL_RISK_WEIGHTS d)) ->
  query_borrower_collateral who s' = query_borrower_collateral who s /\
  weighted_collateral_total who s' = weighted_collateral_total who s.
Proof.
  intros Ht Hb Hw.
  assert (Hq : query_borrower_collateral who s' = query_borrower_collateral who s).
  { unfold query_borrower_collateral. fold (tokens_of s' who) (tokens_of s who). rewrite Ht. do 2 f_equal.
    apply list_fmap_ext. intros i t _. unfold query_collateral_balance. fold (bal s' who t) (bal s who t). by rewrite Hb. }
  split; [done|]. unfold weighted_collateral_total. rewrite Hq. apply rfold_ext. intros acc p.
  unfold weighted_amount, collateral_risk_weight_bps, may_load. by rewrite Hw.
Qed.

(** C38. A deposit raises the borrower's balance by the amount, and withdrawing the
    same amount succeeds and undoes it: the stored balances, the stored token lists
    (a missing list counting as the empty one, which is what a first deposit and its
    withdrawal leave), the weighted totals and every other entry of the storage are
    those before the deposit. *)
Theorem collateral_roundtrip env env' info b d amount s r s1 :
  deployed s -> execute env info (DepositCollateral b d amount) s = inl (r, s1) ->
  exists who a r2 s2,
    addr_validate b = inl who /\ uint128_from_str amount = Some a /\
    query_collateral_balance who d s1 = query_collateral_balance who d s + a /\
    execute env' info (WithdrawCollateral b d amount) s1 = inl (r2, s2) /\
    (forall who' d', may_load (COLLATERAL_BALANCES who' d') s2 = may_load (COLLATERAL_BALANCES who' d') s) /\
    (forall who', unwrap_or (may_load (BORROWER_COLLATERAL_TOKENS who') s2) []
                  = unwrap_or (may_load (BORROWER_COLLATERAL_TOKENS who') s) []) /\
    (forall who', query_borrower_collateral who' s2 = query_borrower_collateral who' s /\
                  weighted_collateral_total who' s2 = weighted_collateral_total who' s) /\
    (forall k, not_collateral k -> s2 k = s k).
Proof.
  intros Hdep Hr. pose proof (deployed_collateral s Hdep) as Hok.
  apply deposit_call in Hr as (Hc & who & a & Hw & Hp & Hu & (Hne & Hal & Hv & ->)%deposit_inl).
  assert (Ha : 0 < a) by lia.
  destruct (withdrawn_deposited s who d a Hok Ha) as (Hh & Ht & Hb & Hk).
  pose proof (deposited_ok who d a s ltac:(lia) Hne Hv Hok) as Hok1.
  assert (Hsome : is_Some (bal (deposited s who d a) who d)).
  { unfold deposited, bal. case_bool_decide; cwput; eauto. }
  eexists who, a, _, _. split; [done|]. split; [done|]. split; [exact Hh|]. split.
  { rewrite (withdraw_call env' info b d amount) with (who := who) (a := a);
      [|unfold deposited; case_bool_decide; by cwput|done..].
    apply withdraw_run; [|done|lia]. destruct Hsome as [v Hbv]. rewrite Hh in *.
    assert (0 <= held s who d); [|lia]. unfold held. destruct (bal s who d) as [w|] eqn:E; [|done].
    apply (balance_positive s Hok) in E. cbn. lia. }
  split; [exact Hb|]. split; [exact Ht|]. split; [|done].
  - intros who'. apply weighted_total_reads; [done..|]. intros d'. by apply Hk.
Qed.
End histories.

(** ** Witness *)
#[local] Existing Instance demo_api.

(** C38. A thousand units in and out again; the token enters the list and leaves it. *)
Lemma collateral_roundtrip_witness :
  let s1 := after (env_at 7) "owner" (DepositCollateral "alice" "osmo" "1000") s_tokens in
  may_load (BORROWER_COLLATERAL_TOKENS (mkAddr "alice")) s_tokens = None /\
  may_load (BORROWER_COLLATERAL_TOKENS (mkAddr "alice")) s1 = Some ["osmo"%string] /\
  exists who a r2 s2, addr_validate "alice" = inl who /\ uint128_from_str "1000" = Some a /\
    query_collateral_balance who "osmo" s1 = query_collateral_balance who "osmo" s_tokens + a /\
    execute (env_at 8) (mkMessageInfo (mkAddr "owner")) (WithdrawCollateral "alice" "osmo" "1000") s1 = inl (r2, s2) /\
    (forall d', may_load (COLLATERAL_BALANCES who d') s2 = may_load (COLLATERAL_BALANCES who d') s_tokens) /\
    unwrap_or (may_load (BORROWER_COLLATERAL_TOKENS who) s2) []
      = unwrap_or (may_load (BORROWER_COLLATERAL_TOKENS who) s_tokens) [].
Proof.
  cbv zeta. do 2 (split; [vm_compute; reflexivity|]).
  destruct (collateral_roundtrip (env_at 7) (env_at 8) (mkMessageInfo (mkAddr "owner")) "alice" "osmo" "1000" s_tokens
              (collateral_response "deposit_collateral" (mkAddr "alice") "osmo" 1000)
              (after (env_at 7) "owner" (DepositCollateral "alice" "osmo" "1000") s_tokens) s_tokens_deployed)
    as (who & a & r2 & s2 & H1 & H2 & H3 & H4 & H5 & H6 & _).
  - apply accepts_run. vm_compute. reflexivity.
  - exists who, a, r2, s2. split; [exact H1|]. split; [exact H2|]. split; [exact H3|]. split; [exact H4|].
    split; [intros d'; apply H5|apply H6].
Defined.
