(* ===== verification/CwMirror.v ===== *)
(** * The CosmWasm routines that mirror the Soroban contract's

    Both runtimes resolve oracle quorums and prorate interest.  The quorums agree
    where the CosmWasm deviation does not wrap at 32 bits; the years differ. *)
From S2P Require Import Prelude Soroban CwState CwRates CwOracles.
From S2P Require MathUtils CreditTypes Oracles PriceTheorems.

(** ** Fixed-point arithmetic *)
Definition same_rounding (r : Rounding) : MathUtils.Rounding :=
  match r with Floor => MathUtils.Floor | Ceil => MathUtils.Ceil end.

Lemma mul_div_mirrors a n d r :
  0 <= d -> mul_div a n d r = MathUtils.mul_div a n d (same_rounding r).
Proof.
  intros Hd. unfold mul_div, MathUtils.mul_div, MathUtils.round_div.
  destruct (d =? 0) eqn:E; bsimp.
  - subst d. cbn. by destruct (checked_u128 (a * n)).
  - destruct (checked_u128 (a * n)) as [p|]; [|done]. destruct r; cbn [same_rounding]; [done|].
    by destruct (p mod d =? 0).
Qed.

(** Both prorations are the floor of the same product, over a year of 365 days
    here and of 365.25 days in the Soroban contract: this runtime charges at
    least as much, and strictly more on concrete inputs. *)
Lemma interest_not_less principal rate_bps elapsed i j :
  0 <= principal -> 0 <= rate_bps -> 0 <= elapsed ->
  accrued_interest principal rate_bps elapsed = inl i ->
  MathUtils.prorate_interest principal rate_bps elapsed MathUtils.Floor = Some j -> j <= i.
Proof.
  intros Hp Hr He. unfold accrued_interest, MathUtils.prorate_interest, MathUtils.checked_prorate_interest.
  destruct (_ || _); [by intros [= <-] [= <-]|].
  destruct (checked_u128 (principal * rate_bps)) as [v|] eqn:E; [|done]. chk. subst v.
  destruct (checked_u128 (principal * rate_bps * elapsed)) as [w|] eqn:E; [|done]. chk. subst w.
  cbn [ok_or rbind MathUtils.round_div]. intros [= <-] [= <-]. apply Z.div_le_compat_l; [lia|].
  split; vm_compute; [done|discriminate].
Qed.

Lemma interest_differs :
  accrued_interest 1000000 1000 31536000 = inl 100000 /\
  MathUtils.prorate_interest 1000000 1000 31536000 MathUtils.Floor = Some 99931.
Proof. split; vm_compute; reflexivity. Qed.

(** ** Quorum resolution *)
Definition soroban_config (cfg : OracleQuorumConfig) : CreditTypes.OracleQuorumConfig :=
  CreditTypes.mkQuorumConfig (min_quorum_k cfg) (max_deviation_bps cfg) (max_age_seconds cfg).

(** No deviation between two of the prices needs more than 32 bits. *)
Definition no_wrap (prices : list Z) : Prop :=
  forall lo hi, lo ∈ prices -> hi ∈ prices -> 0 < lo <= hi -> ((hi - lo) * 10000 + (lo - 1)) / lo <= u32_max.

Lemma same_sort l : selection_sort l = Oracles.selection_sort l.
Proof. reflexivity. Qed.

(** The deviation rounds up, so it is at least the Soroban contract's. *)
Lemma deviation_above hi lo :
  0 < lo <= hi -> hi <= i128_max -> ((hi - lo) * 10000 + (lo - 1)) / lo <= u32_max ->
  PriceTheorems.spread hi lo <= unwrap_or (compute_deviation_bps hi lo) u32_max.
Proof.
  intros Hlo Hhi Hw. rewrite PriceTheorems.spread_eq by lia. unfold compute_deviation_bps.
  rewrite (proj2 (Z.leb_gt lo 0)), Z.abs_eq, as_u128_id by lia.
  destruct (checked_u128 ((hi - lo) * 10000)) as [v|] eqn:E; [|cbn [unwrap_or]; destruct (_ <=? _); lia]. chk. subst v.
  rewrite (proj2 (Z.leb_le _ _)) by lia.
  destruct (checked_u128 _) as [v|] eqn:E; cbn [unwrap_or]; [|lia]. chk. subst v.
  rewrite Z.mod_small by (split; [apply Z.div_pos; lia|lia]).
  transitivity ((hi - lo) * 10000 / lo); [lia|]. apply Z.div_le_mono; lia.
Qed.

Lemma cw_window_scan_some l k dev starts p :
  window_scan l k dev starts = Some p ->
  exists i, i ∈ starts /\ unwrap_or (compute_deviation_bps (l !!! (i + k - 1)%nat) (l !!! i)) u32_max <= dev /\
    p = l !!! (i + (k - 1) / 2)%nat.
Proof.
  induction starts as [|i starts IH]; cbn; [done|]. intros Hr.
  destruct (_ <=? dev) eqn:E; bsimp.
  - injection Hr as <-. exists i. split; [by left|]. by split.
  - destruct (IH Hr) as (j & ? & ?). exists j. by split; [right|].
Qed.

Lemma resolve_inl prices cfg p :
  resolve_quorum_price prices cfg = inl p ->
  PriceTheorems.acceptable prices (soroban_config cfg) /\
  window_scan (selection_sort prices) (Z.to_nat (min_quorum_k cfg)) (max_deviation_bps cfg)
    (seq 0 (length prices - Z.to_nat (min_quorum_k cfg) + 1)) = Some p.
Proof.
  unfold resolve_quorum_price, PriceTheorems.acceptable. intros Hr.
  destruct (_ || _) eqn:E1 in Hr; [done|]. destruct (_ || _) eqn:E2 in Hr; [done|].
  destruct (existsb _ _) eqn:E3; [done|]. apply PriceTheorems.existsb_nonpositive in E3. apply ok_or_inl in Hr. bsimp.
  split; [|done]. change (CreditTypes.min_quorum_k (soroban_config cfg)) with (min_quorum_k cfg).
  change Oracles.MAX_ORACLE_FEEDS with MAX_ORACLE_FEEDS. split; [lia|]. by split.
Qed.

(** The window the scan stops at is a quorum in the Soroban contract's sense. *)
Lemma window_quorum prices cfg p :
  Forall (fun p => p <= i128_max) prices -> no_wrap prices -> resolve_quorum_price prices cfg = inl p ->
  exists ws lo hi, PriceTheorems.quorum prices (soroban_config cfg) ws lo hi /\
    ws !! ((Z.to_nat (min_quorum_k cfg) - 1) / 2)%nat = Some p.
Proof.
  intros Hmax Hw Hr. destruct (resolve_inl _ _ _ Hr) as [(Hk & _ & Hpos) E].
  change (CreditTypes.min_quorum_k (soroban_config cfg)) with (min_quorum_k cfg) in Hk.
  set (k := Z.to_nat (min_quorum_k cfg)) in *. set (l := selection_sort prices) in *.
  apply cw_window_scan_some in E as (i & Hi%elem_of_seq & Hs & ->).
  assert (Hperm : l ≡ₚ prices) by (unfold l; rewrite same_sort; apply PriceTheorems.selection_sort_perm).
  assert (Hsorted : StronglySorted Z.le l) by (unfold l; rewrite same_sort; apply PriceTheorems.selection_sort_sorted).
  pose proof (Permutation_length Hperm) as Hlen.
  destruct (PriceTheorems.take_window l k i) as (H0 & H1 & H2); [lia|lia|].
  assert (Hsub : take k (drop i l) `sublist_of` l) by (etrans; [apply sublist_take|apply sublist_drop]).
  exists (take k (drop i l)), (l !!! i), (l !!! (i + k - 1)%nat). split; [|done].
  assert (Hlo : l !! i = Some (l !!! i)) by (apply list_lookup_lookup_total_lt; lia).
  assert (Hhi : l !! (i + k - 1)%nat = Some (l !!! (i + k - 1)%nat)) by (apply list_lookup_lookup_total_lt; lia).
  pose proof (PriceTheorems.sorted_lookup_le l _ _ _ _ Hsorted Hlo Hhi ltac:(lia)) as Hle.
  apply list_elem_of_lookup_2 in Hlo, Hhi.
  apply (elem_of_Permutation_proper _ _ _ Hperm) in Hlo, Hhi.
  rewrite Forall_forall in Hmax, Hpos. pose proof (Hpos _ Hlo). pose proof (Hmax _ Hhi).
  split; [| |rewrite length_take, length_drop; cbn [soroban_config CreditTypes.min_quorum_k]; fold k; lia|done|exact H1|].
  - rewrite <- Hperm. by apply sublist_submseteq.
  - eapply PriceTheorems.sorted_sublist; [exact Hsorted|exact Hsub].
  - etrans; [apply deviation_above|exact Hs]; [lia|lia|]. apply Hw; [done|done|lia].
Qed.

Lemma wrapped_pair p :
  0 < p -> p * 268435457 * 10000 <= i128_max -> compute_deviation_bps (p * 268435457) p = Some 0.
Proof.
  intros Hp Hm. unfold compute_deviation_bps. rewrite (proj2 (Z.leb_gt p 0)), Z.abs_eq, as_u128_id by lia.
  replace (p * 268435457 - p) with (p * 268435456) by lia.
  rewrite checked_in by lia. rewrite checked_in by lia. f_equal.
  replace (p * 268435456 * 10000 + (p - 1)) with (2684354560000 * p + (p - 1)) by lia.
  rewrite Z.div_add_l by lia. rewrite (Z.div_small (p - 1)) by lia. reflexivity.
Qed.

(** C39. While no deviation needs more than 32 bits, a price this contract resolves is
    the lower median of [k] submitted prices that agree within the configured
    deviation, and the Soroban contract resolves a price from the same feeds and
    configuration.  Beyond 32 bits the deviation wraps: two feeds that differ by
    a factor of 2^28 + 1 pass for equal even at tolerance zero. *)
Theorem quorum_mirrors prices cfg p :
  Forall (fun p => p <= i128_max) prices ->
  (no_wrap prices -> resolve_quorum_price prices cfg = inl p ->
     (exists ws lo hi, PriceTheorems.quorum prices (soroban_config cfg) ws lo hi /\
        ws !! ((Z.to_nat (min_quorum_k cfg) - 1) / 2)%nat = Some p) /\
     exists p', Oracles.resolve_quorum_price prices (soroban_config cfg) = inl p') /\
  (0 < p -> p * 268435457 * 10000 <= i128_max ->
     forall max_age, resolve_quorum_price [p; p * 268435457] (mkOracleQuorumConfig 2 0 max_age) = inl p).
Proof.
  intros Hmax. split.
  - intros Hw Hr. pose proof (window_quorum prices cfg p Hmax Hw Hr) as Hq. split; [done|].
    destruct (resolve_inl _ _ _ Hr) as [HA _]. destruct Hq as (ws & lo & hi & Hq & _).
    rewrite PriceTheorems.resolve_acceptable by done.
    destruct (PriceTheorems.resolve_complete prices (soroban_config cfg) ws lo hi HA Hmax Hq) as [p' ->]. by exists p'.
  - intros Hp Hm max_age. unfold resolve_quorum_price. cbn [length existsb min_quorum_k max_deviation_bps].
    rewrite (proj2 (Z.leb_gt p 0)), (proj2 (Z.leb_gt (p * 268435457) 0)) by lia.
    assert (selection_sort [p; p * 268435457] = [p; p * 268435457]) as ->.
    { unfold selection_sort, selection_step. cbn. rewrite (proj2 (Z.ltb_ge (p * 268435457) p)) by lia. done. }
    change (ok_or (let dev := unwrap_or (compute_deviation_bps (p * 268435457) p) u32_max in
                   if dev <=? 0 then Some p else None) OracleQuorumNotMet = inl p).
    by rewrite wrapped_pair.
Qed.

(** C39. Three of four feeds agree, and a pair that wraps. *)
Lemma quorum_mirrors_witness :
  (exists p', Oracles.resolve_quorum_price [105; 300; 100; 101] (CreditTypes.mkQuorumConfig 3 1000 60) = inl p') /\
  resolve_quorum_price [7; 7 * 268435457] (mkOracleQuorumConfig 2 0 60) = inl 7.
Proof.
  split.
  - apply (quorum_mirrors [105; 300; 100; 101] (mkOracleQuorumConfig 3 1000 60) 101).
    + repeat constructor; vm_compute; discriminate.
    + intros lo hi Hlo Hhi Hle. rewrite !elem_of_cons, elem_of_nil in Hlo, Hhi.
      assert (100 <= lo <= 300 /\ 100 <= hi <= 300) as [H1 H2] by lia.
      apply Z.div_le_upper_bound; lia.
    + reflexivity.
  - apply (quorum_mirrors [7; 7 * 268435457] (mkOracleQuorumConfig 2 0 60) 7).
    + repeat constructor; vm_compute; discriminate.
    + reflexivity.
    + vm_compute. discriminate.
Defined.
